(* ===== verification/_CoqProject ===== *)
-Q . S2P
Prelude.v
GoStd.v
K8s.v
MergeByKey.v
Merge.v
MergeFacts.v
Scale.v
Json.v
Hashes.v
Base64.v
ScramCreds.v
Codec.v
ACTypes.v
ACBuilder.v
ACFacts.v
ACTheorems.v
ACUpgrade.v
Types.v
SpecEq.v
Memory.v
DeepCopy.v
DeepCopyFacts.v
Kube.v
KubeOps.v
KubeFacts.v
ACSecret.v
Scram.v
ScramFacts.v
Validation.v
Status.v
Watch.v
StateMachine.v
StateMachineFacts.v
Agent.v
Health.v
SpecJson.v
PodMods.v
StsMods.v
Readiness.v
Construct.v
ConstructFacts.v
Tls.v
TlsFacts.v
Reconciler.v
Frames.v
Safe.v
ReadinessFacts.v
VersionHook.v
PodRuns.v
ReconcilerFrames.v
TriggerFacts.v
Manager.v
TestManager.v
ConfigFacts.v
SafeFacts.v
SettleFacts.v
ReconcilerFacts.v
WatchFacts.v
DeployFacts.v
Loop.v
TotalFacts.v
UpgradeFacts.v
ScalingFacts.v
Runs.v
