(* ===== verification/Prelude.v ===== *)
(** * A model of the MongoDB Community Kubernetes operator

    The repository is a Kubernetes operator in Go.  Its manager process watches
    MongoDBCommunity resources and reconciles each of them: it validates the spec,
    generates credentials and TLS material, writes an automation config into a
    secret, and creates or updates the StatefulSet whose pods run mongod beside an agent
    that follows the automation config.  Two smaller programs run in the pods: a
    readiness probe, which tells the operator through an annotation which config the
    agent has reached, and a hook that restarts the pod when mongod is upgraded.

    ** How the code is modelled

    A Go function is a function of the same name.  A function that can fail or panic
    returns an [outcome]; one that talks to the API server, draws random bytes or
    reads the clock is a computation [IO W A] over a world [W] of which only
    interfaces are known (below, [IO] and its notation).  A struct is a record
    (updated with [<| |>]), a pointer that may be nil an [option], a Go map a
    [gmap], the order in which Go visits a map a parameter ([MapOrder] of GoStd.v),
    an [int] a [Z] that wraps where the code does arithmetic ([int64], [int32]).
    Index errors, nil dereferences and writes to nil maps are the outcome [Panic].
    Struct values are immutable here; where the code modifies a struct through a
    pointer the model is a function on the struct.  That is sound for a resource as
    long as the operator's copy shares nothing with the cache it came from: Memory.v and
    DeepCopy.v model the copies over a heap with aliasing, and DeepCopyFacts.v shows
    that they do not, the custom StatefulSet spec apart.

    ** Interfaces

    What is not in the repository is a class with laws.
    - [KubeClient] and [KubeLaws] (Kube.v): the controller-runtime client and what
      an API call may do; [KubeHealthy] for a server that is reachable,
      [StatusWritable] for one where the status can be written, [PatchOk] (Safe.v) for
      patches that answer, [SpecKept] (TriggerFacts.v) for calls that leave specs
      alone.  The in-memory client of pkg/kube/client/mocked_client.go is modelled,
      over values where the code keeps the pointers it is given, and shown to satisfy
      the laws; all runs of the development use it.
    - [Entropy] (ScramCreds.v), [Clock] and [Files] (Health.v), [Ticker] and
      [InCluster] (VersionHook.v), [PodPatch] (Readiness.v), [SaveLoader]
      (StateMachine.v), [HasWatcher] (Tls.v), with [WatcherGrows] (WatchFacts.v),
      [Runtime] (Manager.v): other parts of the world.
    - [ThirdPartyCopies] (DeepCopy.v) and its law [ThirdPartyDeep]: the copies made by
      Kubernetes packages.  The step relation of Loop.v: what the controller runtime
      documents about queueing, delivery of events and restarts.
    - [Configurable] (Scram.v) is the interface of that name in
      pkg/authentication/scram, through which the package sees the resource;
      [mdb_Configurable] is the resource's implementation.
    - [K8sApi] (K8s.v): API values the operator only copies.  [Semver], [Objx]
      (ACBuilder.v), [Mergo] (Reconciler.v), [Stringprep] (ScramCreds.v), [Cast]
      (Agent.v), [CastAny] (Readiness.v), [Quantities] (PodMods.v), [StsSpecJson]
      (SpecJson.v): third-party functions.  [Environ] (PodMods.v): the environment.

    ** The files

    - Prelude.v: records, outcomes, errors, the monad, machine integers.
      GoStd.v: strings, sorting, map iteration.  Json.v, Codec.v: encoding/json as
      text and as typed values, with the round trips.  Base64.v, Hashes.v: base64,
      MD5, SHA-1, SHA-256 and HMAC, executable.
    - K8s.v: the API objects.  MergeByKey.v, Merge.v, MergeFacts.v: pkg/util/merge.
      Scale.v: pkg/util/scale, pkg/util/functions, pkg/util/result.
    - ScramCreds.v: pkg/authentication/scramcredentials, pkg/util/generate.
      Scram.v, ScramFacts.v: pkg/authentication/scram.
    - ACTypes.v, ACBuilder.v, ACFacts.v, ACTheorems.v, ACUpgrade.v, ACSecret.v:
      pkg/automationconfig, pkg/util/versions.
    - Types.v: api/v1.  SpecEq.v: equality of specs.  SpecJson.v: the spec as the
      JSON that is saved.  Memory.v: variables, slices and maps in memory.  DeepCopy.v,
      DeepCopyFacts.v: the deep copies of api/v1.
      Validation.v: controllers/validation.  Status.v: controllers/mongodb_status_options.go,
      pkg/util/status.  Watch.v: controllers/watch, controllers/predicates.
    - Kube.v, KubeOps.v, KubeFacts.v: pkg/kube/client, secret, configmap, service,
      annotations and the operations of pkg/kube/statefulset.
    - PodMods.v, StsMods.v: the modifications of pods, containers and StatefulSets
      (pkg/kube/podtemplatespec, container, probes, lifecycle, pvc, statefulset,
      pkg/util/envvar).  Construct.v, ConstructFacts.v: controllers/construct.
    - Tls.v, TlsFacts.v: controllers/mongodb_tls.go, controllers/mongodb_users.go.
    - Reconciler.v: controllers/replica_set_controller.go.  Frames.v: a program logic
      of which objects a computation may write.  Safe.v: one of computations that do not
      panic.  ReconcilerFrames.v, ConfigFacts.v, ReconcilerFacts.v, DeployFacts.v,
      ScalingFacts.v: its theorems; SafeFacts.v, TotalFacts.v: it never panics and
      always ends; SettleFacts.v: the config across reconciliations; UpgradeFacts.v: new
      versions; WatchFacts.v, TriggerFacts.v: what triggers it.  Runs.v: runs of it.
    - Manager.v: cmd/manager, and the set-up of the controller.  Loop.v: the controller
      in its loop.  TestManager.v: the manager of the tests.
    - StateMachine.v, StateMachineFacts.v: pkg/util/state.
    - Agent.v: pkg/agent.  Health.v, Readiness.v, ReadinessFacts.v: pkg/readiness,
      cmd/readiness.  VersionHook.v: cmd/versionhook.  PodRuns.v: runs of both.

    ** What is shown

    - The reconciliation as a whole: a reconciliation that does not ask to come back
      has accomplished the spec in the cluster it leaves behind ([Reconcile_done]); no outcome touches another
      namespace ([Reconcile_isolation]); an invalid spec, or one that turns TLS off,
      has no effect but the status ([Reconcile_rejects_invalid_spec],
      [Reconcile_keeps_tls]).
    - It is total: for a supported resource no state of the cluster and no failing call
      makes it panic ([Reconcile_never_panics]), and it ends with its outcome in the
      status ([Reconcile_total]).
    - What triggers it: its own writes never do ([Reconcile_not_triggered]); later
      changes of the secrets it has read always do ([secret_changes_requeue]).
    - The loop: whatever happens in the cluster between reconciliations, and whenever
      the process restarts, a resource that no request waits for is up to date: a
      reconciliation of it in the history of the execution has accomplished its spec, and
      nothing it depends on has changed since ([no_work_is_lost]).
    - Deep copies: a copy has the content of the original, and neither sees later
      writes to the other's own variables ([DeepCopyObject_independent]), but they share
      the custom StatefulSet spec ([DeepCopy_shares_statefulset]).
    - Scaling: members come and go one at a time ([deployStatefulSet_spec]),
      up to the desired size over a run of reconciliations ([scaling_completes]); the
      config goes first when a member is removed (with TLS off) and last when one is
      added ([scale_down_config_first], [scale_up_sts_first]); with TLS on a StatefulSet
      that is there always goes first ([tls_sts_first]); progress is recorded
      ([finish_records_progress]).
    - Upgrades: unless a member is removed at the same time, the StatefulSet learns of a new
      version before the agents do ([upgrade_sts_first]); at the end it is back to
      rolling updates and the agents report the config of the new version
      ([upgrade_completes]).
    - The automation config: it describes the resource ([built_config_spec]), its
      version changes exactly when its content does ([Build_version],
      [Build_stable]), members, votes and the feature compatibility version
      ([Build_members], [Build_votes], [Build_upgrade_keeps_fcv]), what is
      stored is what is read ([EnsureSecret_spec], [ReadFromSecret_after_EnsureSecret]),
      and later reconciliations leave it as it is while the spec and the secrets it is
      made from stay the same ([config_settles]).  Whether the agents have reached it is read
      off the pods ([AllReachedGoalState_spec]).
    - Fixed points: building the StatefulSet, merging containers, enabling SCRAM and
      generating credentials again change nothing ([construction_idempotent],
      [Containers_idempotent], [Enable_stable], [ensureScramCredentials_stable]).
    - Credentials and TLS: those of RFC 5802 for the user's password
      ([ComputeScramSha256Creds_rfc5802], [ensureScramCredentials_sound]), the
      certificate the servers are pointed to ([tls_secret_matches_config]),
      validation of TLS and users, and the connection strings, which name the servers
      exactly under the default DNS name ([connection_strings_name_servers]).
    - The pods: the probe tells the operator the truth ([probe_informs_operator]),
      members waiting for each other are not locked up ([hasDeadlockedSteps_spec]),
      the hook ends, and deletes only its own pod for an upgrade
      ([waitForAgentHealthStatus_spec], [versionhook_spec]).
    - The rest: validation, the watcher, agent readiness, the saved spec, the exit
      status of the manager process ([main_status]), the state machine as an
      implementation of the transition system of its transitions
      ([Machine_Reconcile_refines]) that never gets lost and runs a chain of states to
      its end.

    A theorem of this list that has hypotheses has a witness, a lemma of its name with
    the suffix [_witness], which applies it to a concrete run.

    ** Recursion and fuel

    Loops over slices are structural.  The JSON decoder runs on fuel, the length of
    the text, and is shown to read back whatever is printed.  The hook's polling
    loop has fuel 62, one more than the 61 reads after which the code gives up;
    [waitForAgentHealthStatus_spec] shows that it is never used up.  The iterations
    of the password hash are the fixed numbers of the code.

    ** Not modelled

    Logging.  The controller runtime itself: the scheme and its registration, the
    manager, and the work queue, of which Loop.v states only what is documented.  In the
    loop reconciliations are steps that run one after the other; the runtime may run
    three, of different resources, at a time.  The encoding of Kubernetes types, to
    which the JSON methods of the StatefulSet spec wrapper delegate; methods of the
    in-memory client and of the manager of the tests that only return nil or call a
    Kubernetes package.
    The laws of the client are those of one that reads what was last written and whose
    failed calls changed nothing; the controller runtime may serve a read from a cache
    that lags behind.  [tlsConfigModification] skips a process without arguments, where
    the code would panic; [Build] makes none.  In Memory.v the custom StatefulSet spec is
    one location, which a copy shares as a whole; in Go the copy has a top-level struct
    of its own.  Bytes that are not UTF-8 go through JSON unchanged.
    JSON numbers with a fraction or an exponent do not occur in the documents the
    programs exchange and do not decode here; [SetWiredTigerCache], whose argument is a
    float, and types of the automation config that nothing reads are left out.
    Strings are byte strings; Unicode case folding is that of ASCII. *)
From stdpp Require Export gmap strings list sorting pretty.
From Stdlib Require Export ZArith Lia.
#[export] Set Default Goal Selector "!".

(** ** Record update

    [r <| f := v |>] is the Go assignment [r.f = v] on a struct held by value,
    [r <| f ::= g |>] replaces the field by [g] of its old content.  A record
    type becomes updatable by an [Eta] instance, which lists its fields. *)

Class Eta (R : Type) := eta : R → R.

Class Upd {R F : Type} (p : R → F) := upd : (F → F) → R → R.
Arguments upd {R F} p {_} _ _.

Ltac derive_upd :=
  lazymatch goal with
  | |- @Upd ?R ?F ?p =>
    exact (fun (g : F → F) (r : R) => ltac:(
      let body := eval hnf in (@eta R _ r) in
      let abs := eval pattern (p r) in body in
      lazymatch abs with
      | ?h _ => let t := eval cbv beta in (h (g (p r))) in exact t
      end))
  end.
#[global] Hint Extern 0 (Upd _) => derive_upd : typeclass_instances.

Declare Scope go_scope.
Delimit Scope go_scope with go.
Notation "r <| p := v |>" := (upd p (λ _, v) r)
  (at level 1, left associativity, p at level 9, v at level 200) : go_scope.
Notation "r <| p ::= f |>" := (upd p f r)
  (at level 1, left associativity, p at level 9, f at level 200) : go_scope.
Open Scope go_scope.

(** ** Outcomes of Go code

    A Go function with an error result returns normally, returns a non-nil
    error, or panics (index out of range, write to a nil map, nil dereference).
    Errors carry their text, because the operator copies error texts into the
    status of the resource; an error that comes from the API server also carries
    its reason, which [apiErrors.IsNotFound] and its siblings inspect.  Wrapping
    with [errors.Errorf("...%s", err)] keeps the text and drops the reason. *)

Inductive reason := ReasonNotFound | ReasonAlreadyExists | ReasonConflict | ReasonOther.

#[global] Instance reason_eq_dec : EqDecision reason.
Proof. solve_decision. Defined.

Inductive error :=
| StatusError (r : reason) (msg : string)
| TextError (msg : string).

#[global] Instance error_eq_dec : EqDecision error.
Proof. solve_decision. Defined.

(** [err.Error()]. *)
Definition err_text (e : error) : string :=
  match e with StatusError _ m => m | TextError m => m end.

Definition IsNotFound (e : error) : bool :=
  match e with StatusError ReasonNotFound _ => true | _ => false end.
Definition IsAlreadyExists (e : error) : bool :=
  match e with StatusError ReasonAlreadyExists _ => true | _ => false end.

Inductive outcome (A : Type) :=
| Ret (a : A)
| Err (e : error)
| Panic (site : string).
Arguments Ret {A} _.
Arguments Err {A} _.
Arguments Panic {A} _.

(** A computation over a mutable world: the state is kept on every outcome,
    since what was written before an error or a panic stays written. *)
Definition IO (W A : Type) : Type := W → outcome A * W.

Definition ret {W A} (a : A) : IO W A := λ w, (Ret a, w).
Definition bind {W A B} (m : IO W A) (f : A → IO W B) : IO W B := λ w,
  match m w with
  | (Ret a, w') => f a w'
  | (Err e, w') => (Err e, w')
  | (Panic s, w') => (Panic s, w')
  end.
Notation "x <- m ;; k" := (bind m (λ x, k))
  (at level 100, m at next level, right associativity) : go_scope.
Notation "m ;; k" := (bind m (λ _, k)) (at level 100, right associativity) : go_scope.

Definition throw {W A} (e : error) : IO W A := λ w, (Err e, w).
Definition panic {W A} (site : string) : IO W A := λ w, (Panic site, w).
Definition lift {W A} (o : outcome A) : IO W A := λ w, (o, w).
Definition get {W} : IO W W := λ w, (Ret w, w).
Definition gets {W A} (f : W → A) : IO W A := λ w, (Ret (f w), w).
Definition modify {W} (f : W → W) : IO W unit := λ w, (Ret tt, f w).

(** [x, err := m()]: the error becomes a value the caller inspects. *)
Definition attempt {W A} (m : IO W A) : IO W (A + error) := λ w,
  match m w with
  | (Ret a, w') => (Ret (inl a), w')
  | (Err e, w') => (Ret (inr e), w')
  | (Panic s, w') => (Panic s, w')
  end.

(** [if err != nil { return errors.Errorf(...) }]: the text is rewritten and the
    reason of the error is lost. *)
Definition wrap {W A} (f : string → string) (m : IO W A) : IO W A := λ w,
  match m w with
  | (Err e, w') => (Err (TextError (f (err_text e))), w')
  | r => r
  end.

(** The same for code that returns an error and touches no shared state. *)
Definition obind {A B} (m : outcome A) (f : A → outcome B) : outcome B :=
  match m with Ret a => f a | Err e => Err e | Panic s => Panic s end.
Notation "'let!' x := m 'in' k" := (obind m (λ x, k))
  (at level 10, x binder, m at level 100, k at level 200) : go_scope.
Notation "'let!' ' x := m 'in' k" := (obind m (λ y, match y with x => k end))
  (at level 10, x strict pattern, m at level 100, k at level 200) : go_scope.
Definition owrap {A} (f : string → string) (m : outcome A) : outcome A :=
  match m with Err e => Err (TextError (f (err_text e))) | r => r end.
(** [errors.Errorf(pre + "%s", err)], the common form of rewrapping. *)
Definition prefix_error (pre : string) (msg : string) : string := pre +:+ msg.

(** [for _, x := range l { ... }] with an early return on error. *)
Fixpoint for_each {W A} (f : A → IO W unit) (l : list A) : IO W unit :=
  match l with
  | [] => ret ()
  | x :: l' => f x ;; for_each f l'
  end.

Fixpoint map_each {W A B} (f : A → IO W B) (l : list A) : IO W (list B) :=
  match l with
  | [] => ret []
  | x :: l' => y <- f x ;; ys <- map_each f l' ;; ret (y :: ys)
  end.

Lemma bind_assoc {W A B C} (m : IO W A) (f : A → IO W B) (g : B → IO W C) w :
  bind (bind m f) g w = bind m (λ x, bind (f x) g) w.
Proof. unfold bind. by destruct (m w) as [[]]. Qed.

(** Running a bind whose first half is known; [run_step] does one such step. *)
Lemma bind_Ret {W A B} (m : IO W A) (f : A → IO W B) w a w' :
  m w = (Ret a, w') → bind m f w = f a w'.
Proof. unfold bind. by intros ->. Qed.
Lemma bind_Err {W A B} (m : IO W A) (f : A → IO W B) w e w' :
  m w = (Err e, w') → bind m f w = (Err e, w').
Proof. unfold bind. by intros ->. Qed.
Lemma bind_Panic {W A B} (m : IO W A) (f : A → IO W B) w s w' :
  m w = (Panic s, w') → bind m f w = (Panic s, w').
Proof. unfold bind. by intros ->. Qed.
Lemma bind_inv {W A B} (m : IO W A) (f : A → IO W B) w r w2 :
  bind m f w = (r, w2) →
  (∃ a w1, m w = (Ret a, w1) ∧ f a w1 = (r, w2))
  ∨ (∃ e, m w = (Err e, w2) ∧ r = Err e) ∨ (∃ s, m w = (Panic s, w2) ∧ r = Panic s).
Proof.
  unfold bind. destruct (m w) as [[a|e|s] w1]; intros; simplify_eq; eauto 7.
Qed.
Lemma bind_Ret_inv {W A B} (m : IO W A) (f : A → IO W B) w b w2 :
  bind m f w = (Ret b, w2) → ∃ a w1, m w = (Ret a, w1) ∧ f a w1 = (Ret b, w2).
Proof. intros [?|[(?&?&?)|(?&?&?)]]%bind_inv; naive_solver. Qed.

Lemma wrap_Ret {W A} (g : string → string) (m : IO W A) w a w' :
  m w = (Ret a, w') → wrap g m w = (Ret a, w').
Proof. unfold wrap. by intros ->. Qed.
Lemma wrap_Ret_inv {W A} (g : string → string) (m : IO W A) w a w' :
  wrap g m w = (Ret a, w') → m w = (Ret a, w').
Proof. unfold wrap. by destruct (m w) as [[]]. Qed.
Lemma attempt_Ret {W A} (m : IO W A) w a w' : m w = (Ret a, w') → attempt m w = (Ret (inl a), w').
Proof. unfold attempt. by intros ->. Qed.
Lemma attempt_Err {W A} (m : IO W A) w e w' : m w = (Err e, w') → attempt m w = (Ret (inr e), w').
Proof. unfold attempt. by intros ->. Qed.

Lemma attempt_out {W A} (m : IO W A) w r w' : attempt m w = (r, w') → ∃ o, m w = (o, w').
Proof. unfold attempt. destruct (m w) as [[]]; intros [= _ <-]; eauto. Qed.

(** One step of a run: the first half of the bind evaluates, or is an assumption. *)
Ltac run_step := first [erewrite bind_Ret by first [reflexivity | eassumption]
                       | erewrite bind_Err by first [reflexivity | eassumption]
                       | erewrite bind_Panic by first [reflexivity | eassumption]]; cbv beta.

(** ** Machine integers

    Go's [int] is 64 bits wide on the platforms the operator is built for. *)

Definition wrap_int (w : Z) (z : Z) : Z :=
  let m := (z mod 2 ^ w)%Z in if (m <? 2 ^ (w - 1))%Z then m else (m - 2 ^ w)%Z.
Definition int64 (z : Z) : Z := wrap_int 64 z.
Definition int32 (z : Z) : Z := wrap_int 32 z.
Definition in_int64 (z : Z) : Prop := (- 2 ^ 63 ≤ z < 2 ^ 63)%Z.
Definition in_int32 (z : Z) : Prop := (- 2 ^ 31 ≤ z < 2 ^ 31)%Z.

Lemma wrap_int_id w z : (0 < w)%Z → (- 2 ^ (w - 1) ≤ z < 2 ^ (w - 1))%Z → wrap_int w z = z.
Proof.
  intros Hw Hz. unfold wrap_int.
  assert (2 ^ w = 2 * 2 ^ (w - 1))%Z as H2.
  { rewrite <- Z.pow_succ_r by lia. f_equal. lia. }
  destruct (Z_lt_le_dec z 0).
  - replace (z mod 2 ^ w)%Z with (z + 2 ^ w)%Z.
    + destruct (Z.ltb_spec (z + 2 ^ w) (2 ^ (w - 1))); lia.
    + rewrite <- (Z.mod_small (z + 2 ^ w) (2 ^ w)) by lia.
      rewrite <- (Z_mod_plus_full z 1 (2 ^ w)). f_equal. lia.
  - rewrite Z.mod_small by lia. destruct (Z.ltb_spec z (2 ^ (w - 1))); lia.
Qed.

Lemma int64_id z : in_int64 z → int64 z = z.
Proof. intros H. apply wrap_int_id; [lia | exact H]. Qed.
Lemma int32_id z : in_int32 z → int32 z = z.
Proof. intros H. apply wrap_int_id; [lia | exact H]. Qed.

(** [make([]T, n)] and [for i := 0; i < n; i++]: [make] panics on a negative
    length, the counting loop runs zero times. *)
Definition indices (n : Z) : list Z := seqZ 0 n.

(** ** Automation

    [gostr] rewrites string concatenations to a normal form; [go] holds the
    equations and lemmas that close the common cases of the components. *)
Create Rewrite HintDb gostr.
Create HintDb go.
