(* ===== verification/GoStd.v ===== *)
(** * The parts of Go's standard library the operator uses

    Byte strings with the functions of package [strings], the stable sort of
    package [sort], and iteration over maps, whose order Go leaves unspecified
    (class [MapOrder]). *)
From S2P Require Import Prelude.

(** ** Package strings *)

Fixpoint HasPrefix (s pre : string) : bool :=
  match pre, s with
  | EmptyString, _ => true
  | String a pre', String b s' => bool_decide (a = b) && HasPrefix s' pre'
  | String _ _, EmptyString => false
  end.

(** [s] ends in [suf]: some tail of [s] is [suf]. *)
Fixpoint HasSuffix (s suf : string) : bool :=
  bool_decide (s = suf) ||
  match s with EmptyString => false | String _ s' => HasSuffix s' suf end.

Fixpoint Contains (s sub : string) : bool :=
  HasPrefix s sub || match s with EmptyString => false | String _ s' => Contains s' sub end.

(** [strings.TrimRight(s, c)] for a cutset of one character. *)
Fixpoint TrimRight (c : Ascii.ascii) (s : string) : string :=
  match s with
  | EmptyString => EmptyString
  | String a s' =>
      let r := TrimRight c s' in
      if bool_decide (a = c ∧ r = EmptyString) then EmptyString else String a r
  end.

Fixpoint Join (l : list string) (sep : string) : string :=
  match l with
  | [] => ""
  | [x] => x
  | x :: l' => x +:+ sep +:+ Join l' sep
  end.

Definition lower_ascii (a : Ascii.ascii) : Ascii.ascii :=
  let n := Ascii.nat_of_ascii a in
  if bool_decide (65 ≤ n ≤ 90) then Ascii.ascii_of_nat (n + 32) else a.

(** [strings.ToLower] on ASCII letters. *)
Fixpoint ToLower (s : string) : string :=
  match s with
  | EmptyString => EmptyString
  | String a s' => String (lower_ascii a) (ToLower s')
  end.

(** [strings.Replace(s, c, new, n)] for a pattern of one character; [n] is the
    number of replacements left, [None] for the [-1] that replaces all. *)
Fixpoint ReplaceChar (c : Ascii.ascii) (new : string) (n : option nat) (s : string) : string :=
  match s with
  | EmptyString => EmptyString
  | String a s' =>
      match n with
      | Some 0 => s
      | _ => if bool_decide (a = c)
             then new +:+ ReplaceChar c new (pred <$> n) s'
             else String a (ReplaceChar c new n s')
      end
  end.

(** [strings.Split(s, sep)] for a separator of one character. *)
Fixpoint SplitChar (c : Ascii.ascii) (s : string) : list string :=
  match s with
  | EmptyString => [EmptyString]
  | String a s' =>
      if bool_decide (a = c) then EmptyString :: SplitChar c s'
      else match SplitChar c s' with
           | [] => [String a EmptyString]
           | x :: l => String a x :: l
           end
  end.

Lemma string_app_cons a s t : String a s +:+ t = String a (s +:+ t).
Proof. done. Qed.

Lemma string_app_nil_l s : "" +:+ s = s.
Proof. done. Qed.

Lemma string_app_nil_r s : s +:+ "" = s.
Proof. induction s as [|a s IH]; [done|]. by rewrite string_app_cons, IH. Qed.

Lemma string_app_assoc s t u : (s +:+ t) +:+ u = s +:+ (t +:+ u).
Proof. induction s as [|a s IH]; [done|]. by rewrite !string_app_cons, IH. Qed.

#[export] Hint Rewrite string_app_cons string_app_nil_l string_app_nil_r string_app_assoc : gostr.

Lemma TrimRight_app_ne c s a t :
  a ≠ c → TrimRight c t = "" → TrimRight c (s +:+ String a t) = s +:+ String a "".
Proof.
  intros Ha Ht. induction s as [|b s IH].
  - rewrite !string_app_nil_l. simpl. rewrite Ht. rewrite bool_decide_false; [done | tauto].
  - rewrite !string_app_cons. simpl. rewrite IH. rewrite bool_decide_false; [done|].
    intros [_ H]. by destruct s.
Qed.

Lemma TrimRight_idemp c s : TrimRight c (TrimRight c s) = TrimRight c s.
Proof.
  induction s as [|a s IH]; [done|]. simpl.
  case_bool_decide as Hd; [done|]. simpl. rewrite IH.
  by rewrite bool_decide_false.
Qed.

(** ** The order of Go strings

    [<] on strings is the lexicographic order of their bytes. *)

Definition str_lt (s t : string) : bool := String.ltb s t.

Lemma ascii_compare_Lt_trans a b c :
  Ascii.compare a b = Lt → Ascii.compare b c = Lt → Ascii.compare a c = Lt.
Proof. unfold Ascii.compare. rewrite !N.compare_lt_iff. lia. Qed.

Lemma ascii_compare_refl a : Ascii.compare a a = Eq.
Proof. unfold Ascii.compare. apply N.compare_refl. Qed.

Lemma string_compare_cons a s b t :
  String.compare (String a s) (String b t) =
  match Ascii.compare a b with Eq => String.compare s t | c => c end.
Proof. done. Qed.

Lemma string_compare_trans s t u :
  String.compare s t = Lt → String.compare t u = Lt → String.compare s u = Lt.
Proof.
  revert t u. induction s as [|a s IH]; intros [|b t] [|c u]; try done.
  rewrite !string_compare_cons.
  destruct (Ascii.compare a b) eqn:E1, (Ascii.compare b c) eqn:E2; try done; intros H1 H2.
  - apply Ascii.compare_eq_iff in E1, E2. subst.
    rewrite ascii_compare_refl.
    eauto.
  - apply Ascii.compare_eq_iff in E1. subst. by rewrite E2.
  - apply Ascii.compare_eq_iff in E2. subst. by rewrite E1.
  - by rewrite (ascii_compare_Lt_trans _ _ _ E1 E2).
Qed.

Lemma str_lt_compare s t : str_lt s t = true ↔ String.compare s t = Lt.
Proof. unfold str_lt, String.ltb. destruct (String.compare s t); split; done. Qed.

Lemma str_lt_irrefl s : str_lt s s = false.
Proof.
  apply not_true_is_false. rewrite str_lt_compare.
  induction s as [|a s IH]; [done|]. by rewrite string_compare_cons, ascii_compare_refl.
Qed.

Lemma str_lt_trans s t u : str_lt s t = true → str_lt t u = true → str_lt s u = true.
Proof. rewrite !str_lt_compare. apply string_compare_trans. Qed.

Lemma str_lt_total s t : str_lt s t = true ∨ s = t ∨ str_lt t s = true.
Proof.
  rewrite !str_lt_compare. pose proof (String.compare_antisym s t) as H.
  destruct (String.compare s t) eqn:E; [|by left|].
  - right. left. by apply String.compare_eq_iff.
  - right. right. destruct (String.compare t s); done.
Qed.

Lemma str_lt_asym s t : str_lt s t = true → str_lt t s = false.
Proof.
  intros H. apply not_true_is_false. intros H'.
  pose proof (str_lt_trans _ _ _ H H') as Hc. by rewrite str_lt_irrefl in Hc.
Qed.

(** ** Package sort: [sort.SliceStable] *)

Section SliceStable.
Context {A : Type} (less : A → A → bool).

Fixpoint insert_stable (x : A) (l : list A) : list A :=
  match l with
  | [] => [x]
  | y :: l' => if less y x then y :: insert_stable x l' else x :: y :: l'
  end.

(** A stable sort keeps equal elements in their order, which makes its result
    a function of its input: insertion from the back computes it. *)
Definition SliceStable (l : list A) : list A := foldr insert_stable [] l.

Lemma insert_stable_perm x l : insert_stable x l ≡ₚ x :: l.
Proof.
  induction l as [|y l IH]; simpl; [done|].
  destruct (less y x); [rewrite IH; apply Permutation_swap | done].
Qed.

Lemma SliceStable_perm l : SliceStable l ≡ₚ l.
Proof. induction l as [|x l IH]; simpl; [done|]. by rewrite insert_stable_perm, IH. Qed.
End SliceStable.

(** Sorting by a string key, the only use the operator makes of [SliceStable]. *)
Section SortByKey.
Context {A : Type} (key : A → string).

Definition key_less (x y : A) : bool := str_lt (key x) (key y).
Definition sort_by (l : list A) : list A := SliceStable key_less l.

Definition key_le (x y : A) : Prop := key_less y x = false.

#[global] Instance key_le_trans : Transitive key_le.
Proof.
  intros x y z. unfold key_le, key_less. intros H1 H2.
  destruct (str_lt_total (key x) (key y)) as [H | [H | H]]; [| by rewrite H | congruence].
  destruct (str_lt_total (key y) (key z)) as [H' | [H' | H']]; [| by rewrite <- H' | congruence].
  apply str_lt_asym. by eapply str_lt_trans.
Qed.

Lemma key_le_antisym x y : key_le x y → key_le y x → key x = key y.
Proof.
  unfold key_le, key_less. intros H1 H2.
  destruct (str_lt_total (key x) (key y)) as [H | [H | H]]; congruence.
Qed.

Lemma insert_stable_HdRel x y l :
  HdRel key_le y l → key_le y x → HdRel key_le y (insert_stable key_less x l).
Proof. intros [] ?; simpl; [|case_match]; by constructor. Qed.

Lemma insert_stable_Sorted x l :
  Sorted key_le l → Sorted key_le (insert_stable key_less x l).
Proof.
  induction 1 as [|y l Hs IH Hd]; simpl; [by repeat constructor|].
  destruct (key_less y x) eqn:E.
  - constructor; [done|]. apply insert_stable_HdRel; [done|].
    unfold key_le, key_less in *. by apply str_lt_asym.
  - repeat constructor; done.
Qed.

Lemma sort_by_Sorted l : Sorted key_le (sort_by l).
Proof. induction l as [|x l IH]; simpl; [constructor|]. by apply insert_stable_Sorted. Qed.

Lemma sort_by_perm l : sort_by l ≡ₚ l.
Proof. apply SliceStable_perm. Qed.

(** With distinct keys the sorted list depends on the elements alone: this is
    what makes the operator's use of map iteration deterministic. *)
Lemma sort_by_unique l1 l2 : l1 ≡ₚ l2 → NoDup (key <$> l1) → sort_by l1 = sort_by l2.
Proof.
  intros Hp Hnd.
  apply (Sorted_unique_strong key_le); [| apply sort_by_Sorted .. |].
  - intros x y Hx Hy H1 H2.
    rewrite sort_by_perm in Hx. rewrite sort_by_perm, <- Hp in Hy.
    apply list_elem_of_lookup in Hx as [i Hi], Hy as [j Hj].
    pose proof (NoDup_lookup _ i j (key x) Hnd) as Hij.
    rewrite !list_lookup_fmap, Hi, Hj in Hij. simpl in Hij.
    rewrite (key_le_antisym x y H1 H2) in Hij.
    specialize (Hij eq_refl eq_refl). subst. congruence.
  - by rewrite !sort_by_perm.
Qed.
End SortByKey.

(** ** Iteration over maps

    [for k, v := range m] visits every entry once, in an order the language
    does not specify; a program may rely on nothing else. *)
Class MapOrder := {
  range : ∀ {V : Type}, gmap string V → list (string * V);
  range_perm : ∀ V (m : gmap string V), range m ≡ₚ map_to_list m;
}.

(** The order stdpp happens to enumerate a map in. *)
Program Definition canonical_order : MapOrder := {| range := λ V m, map_to_list m |}.
Next Obligation. done. Qed.
(** The opposite order, to exhibit two runs that differ. *)
Program Definition reversed_order : MapOrder := {| range := λ V m, reverse (map_to_list m) |}.
Next Obligation. intros. apply reverse_Permutation. Qed.

Section Range.
Context `{MapOrder}.

Lemma elem_of_range {V} (m : gmap string V) k v : (k, v) ∈ range m ↔ m !! k = Some v.
Proof. rewrite range_perm. apply elem_of_map_to_list. Qed.

Lemma NoDup_range_keys {V} (m : gmap string V) : NoDup (range m).*1.
Proof. rewrite range_perm. apply NoDup_fst_map_to_list. Qed.

(** Filling a map in any order of distinct keys: the entries of [m] win over
    those already there. *)
Lemma fill_lookup {V U} (g : string → V → U) (l : list (string * V)) (acc : gmap string U) k :
  NoDup l.*1 →
  foldl (λ acc '(k, v), <[k := g k v]> acc) acc l !! k =
  match (list_to_map l : gmap string V) !! k with Some v => Some (g k v) | None => acc !! k end.
Proof.
  revert acc. induction l as [|[k' v] l IH]; intros acc Hnd; simpl; [by rewrite lookup_empty|].
  apply NoDup_cons in Hnd as [Hni Hnd]. rewrite IH by done.
  destruct (decide (k' = k)) as [->|Hne].
  - rewrite not_elem_of_list_to_map_1 by done. by rewrite !lookup_insert_eq.
  - by rewrite !lookup_insert_ne by done.
Qed.

Lemma range_fill_lookup {V U} (g : string → V → U) (m : gmap string V) (acc : gmap string U) k :
  foldl (λ acc '(k, v), <[k := g k v]> acc) acc (range m) !! k =
  match m !! k with Some v => Some (g k v) | None => acc !! k end.
Proof.
  rewrite fill_lookup by apply NoDup_range_keys.
  by rewrite (list_to_map_proper _ _ (NoDup_range_keys m) (range_perm _ m)), list_to_map_to_list.
Qed.
End Range.
