(* ===== verification/K8s.v ===== *)
(** * The Kubernetes API objects the operator builds, merges and stores

    The API types come from k8s.io/api, which is not part of the repository.
    Each record holds the fields the operator reads or writes.  Values the
    operator only copies (an HTTP probe, SELinux options, a resource quantity,
    ...) are of an opaque type, a parameter of the development indexed by the Go
    name of the type ([K8sApi]).

    A pointer is an [option]; a map or a slice whose [nil] the code tells apart
    from an empty one is an [option] as well; other slices are lists. *)
From S2P Require Import Prelude.
Local Open Scope Z_scope.

Class K8sApi := opaque : string → Type.

Abbreviation GoMap V := (option (gmap string V)).
Abbreviation GoSlice A := (option (list A)).

(** Reading a nil map or ranging over a nil slice finds nothing. *)
Definition gm {V} (m : GoMap V) : gmap string V := default ∅ m.
Definition els {A} (s : GoSlice A) : list A := default [] s.

Record NamespacedName := MkNamespacedName { nn_Name : string; nn_Namespace : string }.
#[global] Instance NamespacedName_eq_dec : EqDecision NamespacedName.
Proof. solve_decision. Defined.
#[global] Instance NamespacedName_countable : Countable NamespacedName.
Proof.
  refine (inj_countable' (λ n, (nn_Name n, nn_Namespace n)) (λ p, MkNamespacedName p.1 p.2) _).
  by intros [].
Defined.

Record OwnerReference := MkOwnerReference {
  or_APIVersion : string; or_Kind : string; or_Name : string; or_UID : string;
}.

Record ObjectMeta := MkObjectMeta {
  om_Name : string;
  om_Namespace : string;
  om_Labels : GoMap string;
  om_Annotations : GoMap string;
  om_OwnerReferences : list OwnerReference;
  om_Generation : Z;
  om_UID : string;
}.
#[global] Instance eta_ObjectMeta : Eta ObjectMeta := λ r,
  MkObjectMeta (om_Name r) (om_Namespace r) (om_Labels r) (om_Annotations r)
    (om_OwnerReferences r) (om_Generation r) (om_UID r).
Definition emptyMeta : ObjectMeta := MkObjectMeta "" "" None None [] 0 "".

Section Types.
Context {api : K8sApi}.

Record ContainerPort := MkContainerPort {
  cp_Name : string; cp_HostPort : Z; cp_ContainerPort : Z; cp_Protocol : string; cp_HostIP : string;
}.

Record ObjectFieldSelector := MkObjectFieldSelector { ofs_APIVersion : string; ofs_FieldPath : string }.

Record EnvVarSource := MkEnvVarSource {
  evs_FieldRef : option ObjectFieldSelector;
  evs_ResourceFieldRef : option (opaque "corev1.ResourceFieldSelector");
  evs_ConfigMapKeyRef : option (opaque "corev1.ConfigMapKeySelector");
  evs_SecretKeyRef : option (opaque "corev1.SecretKeySelector");
}.

Record EnvVar := MkEnvVar { ev_Name : string; ev_Value : string; ev_ValueFrom : option EnvVarSource }.

Definition ResourceList : Type := gmap string (opaque "resource.Quantity").

Record ResourceRequirements := MkResourceRequirements {
  rr_Limits : option ResourceList; rr_Requests : option ResourceList;
}.

Record VolumeMount := MkVolumeMount {
  vm_Name : string; vm_ReadOnly : bool; vm_MountPath : string; vm_SubPath : string;
  vm_MountPropagation : option string; vm_SubPathExpr : string;
}.

Record VolumeDevice := MkVolumeDevice { vd_Name : string; vd_DevicePath : string }.

Record ExecAction := MkExecAction { ex_Command : list string }.

Record Handler := MkHandler {
  h_Exec : option ExecAction;
  h_HTTPGet : option (opaque "corev1.HTTPGetAction");
  h_TCPSocket : option (opaque "corev1.TCPSocketAction");
}.

Record Probe := MkProbe {
  p_Handler : Handler;
  p_InitialDelaySeconds : Z; p_TimeoutSeconds : Z; p_PeriodSeconds : Z;
  p_SuccessThreshold : Z; p_FailureThreshold : Z;
}.

Record Lifecycle := MkLifecycle { lc_PostStart : option Handler; lc_PreStop : option Handler }.

Record SecurityContext := MkSecurityContext {
  sc_Capabilities : option (opaque "corev1.Capabilities");
  sc_Privileged : option bool;
  sc_SELinuxOptions : option (opaque "corev1.SELinuxOptions");
  sc_WindowsOptions : option (opaque "corev1.WindowsSecurityContextOptions");
  sc_RunAsUser : option Z;
  sc_RunAsGroup : option Z;
  sc_RunAsNonRoot : option bool;
  sc_ReadOnlyRootFilesystem : option bool;
  sc_AllowPrivilegeEscalation : option bool;
  sc_ProcMount : option string;
  sc_SeccompProfile : option (opaque "corev1.SeccompProfile");
}.

Record Container := MkContainer {
  c_Name : string;
  c_Image : string;
  c_Command : list string;
  c_Args : list string;
  c_WorkingDir : string;
  c_Ports : list ContainerPort;
  c_EnvFrom : list (opaque "corev1.EnvFromSource");
  c_Env : list EnvVar;
  c_Resources : ResourceRequirements;
  c_VolumeMounts : list VolumeMount;
  c_VolumeDevices : list VolumeDevice;
  c_LivenessProbe : option Probe;
  c_ReadinessProbe : option Probe;
  c_StartupProbe : option Probe;
  c_Lifecycle : option Lifecycle;
  c_TerminationMessagePath : string;
  c_TerminationMessagePolicy : string;
  c_ImagePullPolicy : string;
  c_SecurityContext : option SecurityContext;
  c_Stdin : bool;
  c_StdinOnce : bool;
  c_TTY : bool;
}.

(** [corev1.EphemeralContainer] embeds [EphemeralContainerCommon], a copy of
    the fields of [corev1.Container]. *)
Record EphemeralContainer := MkEphemeralContainer {
  ec_Common : Container; ec_TargetContainerName : string;
}.

Record KeyToPath := MkKeyToPath { kp_Key : string; kp_Path : string; kp_Mode : option Z }.

Record EmptyDirVolumeSource := MkEmptyDirVolumeSource {
  ed_Medium : string; ed_SizeLimit : option (opaque "resource.Quantity");
}.
Record SecretVolumeSource := MkSecretVolumeSource {
  sv_SecretName : string; sv_Items : list KeyToPath; sv_DefaultMode : option Z; sv_Optional : option bool;
}.
Record ConfigMapVolumeSource := MkConfigMapVolumeSource {
  cv_Name : string; cv_Items : list KeyToPath; cv_DefaultMode : option Z; cv_Optional : option bool;
}.
(** [vs_Other] stands for the remaining members of the volume source union. *)
Record VolumeSource := MkVolumeSource {
  vs_EmptyDir : option EmptyDirVolumeSource;
  vs_Secret : option SecretVolumeSource;
  vs_ConfigMap : option ConfigMapVolumeSource;
  vs_Other : option (opaque "corev1.VolumeSource");
}.
Record Volume := MkVolume { v_Name : string; v_VolumeSource : VolumeSource }.

Record Toleration := MkToleration {
  tol_Key : string; tol_Operator : string; tol_Value : string; tol_Effect : string;
  tol_TolerationSeconds : option Z;
}.

Record LabelSelectorRequirement := MkLabelSelectorRequirement {
  lsr_Key : string; lsr_Operator : string; lsr_Values : GoSlice string;
}.
Record LabelSelector := MkLabelSelector {
  ls_MatchLabels : GoMap string; ls_MatchExpressions : list LabelSelectorRequirement;
}.

Record PodAffinityTerm := MkPodAffinityTerm {
  pat_LabelSelector : option LabelSelector;
  pat_Namespaces : list string;
  pat_TopologyKey : string;
}.
Record WeightedPodAffinityTerm := MkWeightedPodAffinityTerm {
  wpat_Weight : Z; wpat_PodAffinityTerm : PodAffinityTerm;
}.
Record PodAntiAffinity := MkPodAntiAffinity {
  paa_Required : list PodAffinityTerm;
  paa_Preferred : list WeightedPodAffinityTerm;
}.
Record Affinity := MkAffinity {
  aff_NodeAffinity : option (opaque "corev1.NodeAffinity");
  aff_PodAffinity : option (opaque "corev1.PodAffinity");
  aff_PodAntiAffinity : option PodAntiAffinity;
}.

Record HostAlias := MkHostAlias { ha_IP : string; ha_Hostnames : list string }.

Record PodDNSConfig := MkPodDNSConfig {
  dns_Nameservers : GoSlice string; dns_Searches : GoSlice string;
  dns_Options : GoSlice (opaque "corev1.PodDNSConfigOption");
}.

Record TopologySpreadConstraint := MkTopologySpreadConstraint {
  tsc_MaxSkew : Z; tsc_TopologyKey : string; tsc_WhenUnsatisfiable : string;
  tsc_LabelSelector : option LabelSelector;
}.

Record PodSecurityContext := MkPodSecurityContext {
  psc_FSGroup : option Z;
  psc_Other : option (opaque "corev1.PodSecurityContext");
}.

Record PodSpec := MkPodSpec {
  ps_Volumes : list Volume;
  ps_InitContainers : list Container;
  ps_Containers : list Container;
  ps_EphemeralContainers : GoSlice EphemeralContainer;
  ps_RestartPolicy : string;
  ps_TerminationGracePeriodSeconds : option Z;
  ps_ActiveDeadlineSeconds : option Z;
  ps_DNSPolicy : string;
  ps_NodeSelector : GoMap string;
  ps_ServiceAccountName : string;
  ps_DeprecatedServiceAccount : string;
  ps_AutomountServiceAccountToken : option bool;
  ps_NodeName : string;
  ps_HostNetwork : bool;
  ps_HostPID : bool;
  ps_HostIPC : bool;
  ps_ShareProcessNamespace : option bool;
  ps_SecurityContext : option PodSecurityContext;
  ps_ImagePullSecrets : GoSlice string;
  ps_Hostname : string;
  ps_Subdomain : string;
  ps_Affinity : option Affinity;
  ps_SchedulerName : string;
  ps_Tolerations : list Toleration;
  ps_HostAliases : list HostAlias;
  ps_PriorityClassName : string;
  ps_Priority : option Z;
  ps_DNSConfig : option PodDNSConfig;
  ps_ReadinessGates : GoSlice (opaque "corev1.PodReadinessGate");
  ps_RuntimeClassName : option string;
  ps_EnableServiceLinks : option bool;
  ps_PreemptionPolicy : option string;
  ps_Overhead : option ResourceList;
  ps_TopologySpreadConstraints : GoSlice TopologySpreadConstraint;
  ps_SetHostnameAsFQDN : option bool;
}.

Record PodTemplateSpec := MkPodTemplateSpec { pt_ObjectMeta : ObjectMeta; pt_Spec : PodSpec }.

Record PersistentVolumeClaimSpec := MkPersistentVolumeClaimSpec {
  pvcs_AccessModes : list string;
  pvcs_Selector : option LabelSelector;
  pvcs_Resources : ResourceRequirements;
  pvcs_VolumeName : string;
  pvcs_StorageClassName : option string;
  pvcs_VolumeMode : option string;
  pvcs_DataSource : option (opaque "corev1.TypedLocalObjectReference");
}.
Record PersistentVolumeClaim := MkPersistentVolumeClaim {
  pvc_ObjectMeta : ObjectMeta; pvc_Spec : PersistentVolumeClaimSpec;
}.

Record StatefulSetUpdateStrategy := MkStatefulSetUpdateStrategy {
  us_Type : string;
  us_RollingUpdate : option (opaque "appsv1.RollingUpdateStatefulSetStrategy");
}.

Record StatefulSetSpec := MkStatefulSetSpec {
  ss_Replicas : option Z;
  ss_Selector : option LabelSelector;
  ss_Template : PodTemplateSpec;
  ss_VolumeClaimTemplates : list PersistentVolumeClaim;
  ss_ServiceName : string;
  ss_PodManagementPolicy : string;
  ss_UpdateStrategy : StatefulSetUpdateStrategy;
  ss_RevisionHistoryLimit : option Z;
}.
Record StatefulSetStatus := MkStatefulSetStatus {
  sst_ObservedGeneration : Z; sst_ReadyReplicas : Z; sst_UpdatedReplicas : Z;
}.
Record StatefulSet := MkStatefulSet {
  sts_ObjectMeta : ObjectMeta; sts_Spec : StatefulSetSpec; sts_Status : StatefulSetStatus;
}.

(** Zero values of the Go structs. *)
Definition emptyResources : ResourceRequirements := MkResourceRequirements None None.
Definition emptyContainer : Container :=
  MkContainer "" "" [] [] "" [] [] [] emptyResources [] [] None None None None "" "" "" None
    false false false.
Definition emptyPodSpec : PodSpec :=
  MkPodSpec [] [] [] None "" None None "" None "" "" None "" false false false None None None
    "" "" None "" [] [] "" None None None None None None None None None.
Definition emptyPodTemplate : PodTemplateSpec := MkPodTemplateSpec emptyMeta emptyPodSpec.
Definition emptyPvc : PersistentVolumeClaim :=
  MkPersistentVolumeClaim emptyMeta
    (MkPersistentVolumeClaimSpec [] None emptyResources "" None None None).
Definition emptyStatefulSetSpec : StatefulSetSpec :=
  MkStatefulSetSpec None None emptyPodTemplate [] "" "" (MkStatefulSetUpdateStrategy "" None) None.
Definition emptyStatefulSet : StatefulSet :=
  MkStatefulSet emptyMeta emptyStatefulSetSpec (MkStatefulSetStatus 0 0 0).

#[global] Instance eta_Container : Eta Container := λ r,
  MkContainer (c_Name r) (c_Image r) (c_Command r) (c_Args r) (c_WorkingDir r) (c_Ports r)
    (c_EnvFrom r) (c_Env r) (c_Resources r) (c_VolumeMounts r) (c_VolumeDevices r)
    (c_LivenessProbe r) (c_ReadinessProbe r) (c_StartupProbe r) (c_Lifecycle r)
    (c_TerminationMessagePath r) (c_TerminationMessagePolicy r) (c_ImagePullPolicy r)
    (c_SecurityContext r) (c_Stdin r) (c_StdinOnce r) (c_TTY r).
#[global] Instance eta_Probe : Eta Probe := λ r,
  MkProbe (p_Handler r) (p_InitialDelaySeconds r) (p_TimeoutSeconds r) (p_PeriodSeconds r)
    (p_SuccessThreshold r) (p_FailureThreshold r).
#[global] Instance eta_Handler : Eta Handler := λ r,
  MkHandler (h_Exec r) (h_HTTPGet r) (h_TCPSocket r).
#[global] Instance eta_PodSpec : Eta PodSpec := λ r,
  MkPodSpec (ps_Volumes r) (ps_InitContainers r) (ps_Containers r) (ps_EphemeralContainers r)
    (ps_RestartPolicy r) (ps_TerminationGracePeriodSeconds r) (ps_ActiveDeadlineSeconds r)
    (ps_DNSPolicy r) (ps_NodeSelector r) (ps_ServiceAccountName r)
    (ps_DeprecatedServiceAccount r) (ps_AutomountServiceAccountToken r) (ps_NodeName r)
    (ps_HostNetwork r) (ps_HostPID r) (ps_HostIPC r) (ps_ShareProcessNamespace r)
    (ps_SecurityContext r) (ps_ImagePullSecrets r) (ps_Hostname r) (ps_Subdomain r)
    (ps_Affinity r) (ps_SchedulerName r) (ps_Tolerations r) (ps_HostAliases r)
    (ps_PriorityClassName r) (ps_Priority r) (ps_DNSConfig r) (ps_ReadinessGates r)
    (ps_RuntimeClassName r) (ps_EnableServiceLinks r) (ps_PreemptionPolicy r) (ps_Overhead r)
    (ps_TopologySpreadConstraints r) (ps_SetHostnameAsFQDN r).
#[global] Instance eta_PodTemplateSpec : Eta PodTemplateSpec := λ r,
  MkPodTemplateSpec (pt_ObjectMeta r) (pt_Spec r).
#[global] Instance eta_PersistentVolumeClaimSpec : Eta PersistentVolumeClaimSpec := λ r,
  MkPersistentVolumeClaimSpec (pvcs_AccessModes r) (pvcs_Selector r) (pvcs_Resources r)
    (pvcs_VolumeName r) (pvcs_StorageClassName r) (pvcs_VolumeMode r) (pvcs_DataSource r).
#[global] Instance eta_PersistentVolumeClaim : Eta PersistentVolumeClaim := λ r,
  MkPersistentVolumeClaim (pvc_ObjectMeta r) (pvc_Spec r).
#[global] Instance eta_ResourceRequirements : Eta ResourceRequirements := λ r,
  MkResourceRequirements (rr_Limits r) (rr_Requests r).
#[global] Instance eta_StatefulSetUpdateStrategy : Eta StatefulSetUpdateStrategy := λ r,
  MkStatefulSetUpdateStrategy (us_Type r) (us_RollingUpdate r).
#[global] Instance eta_StatefulSetSpec : Eta StatefulSetSpec := λ r,
  MkStatefulSetSpec (ss_Replicas r) (ss_Selector r) (ss_Template r) (ss_VolumeClaimTemplates r)
    (ss_ServiceName r) (ss_PodManagementPolicy r) (ss_UpdateStrategy r) (ss_RevisionHistoryLimit r).
#[global] Instance eta_StatefulSetStatus : Eta StatefulSetStatus := λ r,
  MkStatefulSetStatus (sst_ObservedGeneration r) (sst_ReadyReplicas r) (sst_UpdatedReplicas r).
#[global] Instance eta_StatefulSet : Eta StatefulSet := λ r,
  MkStatefulSet (sts_ObjectMeta r) (sts_Spec r) (sts_Status r).
#[global] Instance eta_VolumeMount : Eta VolumeMount := λ r,
  MkVolumeMount (vm_Name r) (vm_ReadOnly r) (vm_MountPath r) (vm_SubPath r)
    (vm_MountPropagation r) (vm_SubPathExpr r).
End Types.

(** ** Objects without opaque parts *)

(** Secret data are byte strings. *)
Record Secret := MkSecret { s_ObjectMeta : ObjectMeta; s_Data : GoMap string }.
#[global] Instance eta_Secret : Eta Secret := λ r, MkSecret (s_ObjectMeta r) (s_Data r).

Record ConfigMap := MkConfigMap { cm_ObjectMeta : ObjectMeta; cm_Data : GoMap string }.
#[global] Instance eta_ConfigMap : Eta ConfigMap := λ r, MkConfigMap (cm_ObjectMeta r) (cm_Data r).

Record ServicePort := MkServicePort { sp_Name : string; sp_Port : Z; sp_NodePort : Z }.
#[global] Instance eta_ServicePort : Eta ServicePort := λ r,
  MkServicePort (sp_Name r) (sp_Port r) (sp_NodePort r).

Record Service := MkService {
  svc_ObjectMeta : ObjectMeta;
  svc_PublishNotReadyAddresses : bool;
  svc_ExternalTrafficPolicy : string;
  svc_LoadBalancerIP : string;
  svc_Type : string;
  svc_ClusterIP : string;
  svc_Ports : list ServicePort;
  svc_Selector : GoMap string;
}.
#[global] Instance eta_Service : Eta Service := λ r,
  MkService (svc_ObjectMeta r) (svc_PublishNotReadyAddresses r) (svc_ExternalTrafficPolicy r)
    (svc_LoadBalancerIP r) (svc_Type r) (svc_ClusterIP r) (svc_Ports r) (svc_Selector r).

Record Pod := MkPod { pod_ObjectMeta : ObjectMeta }.

(** An interpretation of the opaque types, for concrete runs. *)
Definition string_api : K8sApi := λ _, string.
