(* ===== verification/MergeByKey.v ===== *)
(** * Merging two slices by a key

    Package pkg/util/merge repeats one algorithm for containers, environment
    variables, volume mounts, volume devices, ephemeral containers and volume
    claims: index both slices by a string key (the last element with a key
    wins), overlay the override map on the default map merging the elements
    with a common key, and list the merged map sorted by key.  This file states
    that algorithm once, over any iteration order of Go maps, with the facts
    its uses share. *)
From S2P Require Import Prelude GoStd.

Section Index.
Context {T : Type} (key : T → string).

(** [m := make(map[string]T); for _, v := range l { m[key(v)] = v }]. *)
Definition create_map (l : list T) : gmap string T := foldl (λ m v, <[key v := v]> m) ∅ l.

(** ** Indexing a slice *)

(** The element of [l] that an index by [key] holds under [k]. *)
Definition find_last (k : string) (l : list T) : option T := last (filter (λ x, key x = k) l).

Lemma create_map_lookup l k : create_map l !! k = find_last k l.
Proof.
  unfold create_map, find_last. induction l as [|x l IH] using rev_ind; [apply lookup_empty|].
  rewrite foldl_app, filter_app. simpl. rewrite lookup_insert.
  destruct (decide (key x = k)) as [Hk|Hk].
  - rewrite filter_cons_True, filter_nil by done. by rewrite last_snoc.
  - by rewrite filter_cons_False, filter_nil, app_nil_r by done.
Qed.

Lemma create_map_key l k x : create_map l !! k = Some x → key x = k ∧ x ∈ l.
Proof.
  rewrite create_map_lookup. unfold find_last. intros H.
  apply last_Some_elem_of, list_elem_of_filter in H. tauto.
Qed.

Lemma create_map_Some l k : is_Some (create_map l !! k) ↔ ∃ x, x ∈ l ∧ key x = k.
Proof.
  split.
  - intros [x [Hk Hx]%create_map_key]. eauto.
  - intros (x & Hx & Hk). rewrite create_map_lookup. unfold find_last.
    apply last_is_Some. intros Hn.
    assert (x ∈ filter (λ x, key x = k) l) as Hin by (by apply list_elem_of_filter).
    rewrite Hn in Hin. by apply elem_of_nil in Hin.
Qed.

Lemma create_map_NoDup l x : NoDup (key <$> l) → x ∈ l → create_map l !! key x = Some x.
Proof.
  intros Hnd Hx. destruct (proj2 (create_map_Some l (key x))) as [y Hy]; [eauto|].
  rewrite Hy. f_equal. apply create_map_key in Hy as [Hk Hin].
  apply list_elem_of_lookup in Hx as [i Hi], Hin as [j Hj].
  assert (i = j) as ->; [|congruence].
  eapply (NoDup_lookup _ i j (key x) Hnd); rewrite list_lookup_fmap, ?Hi, ?Hj; simpl; congruence.
Qed.

(** Two sorted lists with distinct keys and equal indexes are equal. *)
Lemma sorted_by_key_ext l1 l2 :
  Sorted (key_le key) l1 → Sorted (key_le key) l2 →
  NoDup (key <$> l1) → NoDup (key <$> l2) →
  (∀ k, create_map l1 !! k = create_map l2 !! k) → l1 = l2.
Proof.
  intros Hs1 Hs2 Hn1 Hn2 He.
  assert (∀ x, x ∈ l1 ↔ x ∈ l2) as Hin.
  { intros x. split; intros Hx.
    - apply create_map_NoDup in Hx; [|done]. rewrite He in Hx. by apply create_map_key in Hx as [_ ?].
    - apply create_map_NoDup in Hx; [|done]. rewrite <- He in Hx. by apply create_map_key in Hx as [_ ?]. }
  apply (Sorted_unique_strong (key_le key)); [|done..|].
  - intros x y Hx Hy H1 H2.
    apply Hin, create_map_NoDup in Hy; [|done]. apply create_map_NoDup in Hx; [|done].
    rewrite (key_le_antisym key x y H1 H2) in Hx. congruence.
  - apply NoDup_Permutation; [by eapply NoDup_fmap_1 .. | done].
Qed.

End Index.

Section MergeByKey.
Context {T : Type} (key : T → string) (merge1 : T → T → T).
Abbreviation create_map := (create_map key).

Definition merged_map `{MapOrder} (dflt over : list T) : gmap string T :=
  let originalMap := create_map dflt in
  let overrideMap := create_map over in
  let merged := foldl (λ m '(k, v), <[k := v]> m) ∅ (range originalMap) in
  foldl (λ m '(k, v),
    <[k := match originalMap !! k with Some orig => merge1 orig v | None => v end]> m)
    merged (range overrideMap).

Definition merge_by_key `{MapOrder} (dflt over : list T) : list T :=
  sort_by key (range (merged_map dflt over)).*2.

(** ** The merged map *)

(** The specification: what the merge holds under a key. *)
Definition merge_entry (d o : option T) : option T :=
  match d, o with
  | Some x, Some y => Some (merge1 x y)
  | Some x, None => Some x
  | None, _ => o
  end.

Section Ordered.
Context `{MapOrder}.

Lemma merged_map_lookup d o k :
  merged_map d o !! k = merge_entry (create_map d !! k) (create_map o !! k).
Proof.
  unfold merged_map.
  rewrite (range_fill_lookup
    (λ k v, match create_map d !! k with Some orig => merge1 orig v | None => v end)).
  rewrite (range_fill_lookup (λ _ v, v)), lookup_empty.
  unfold merge_entry. by destruct (create_map d !! k), (create_map o !! k).
Qed.
End Ordered.

(** The key of a merged element is the common key of its two parts. *)
Definition key_stable (d o : list T) : Prop :=
  ∀ k x y, create_map d !! k = Some x → create_map o !! k = Some y → key (merge1 x y) = k.

Lemma key_stable_always d o :
  (∀ x y, key x = key y → key (merge1 x y) = key x) → key_stable d o.
Proof.
  intros Hk k x y [Hx _]%create_map_key [Hy _]%create_map_key. rewrite Hk; congruence.
Qed.

Section Stable.
Context `{MapOrder} (d o : list T) (Hst : key_stable d o).

Lemma merged_map_key k v : merged_map d o !! k = Some v → key v = k.
Proof using Hst.
  rewrite merged_map_lookup. unfold merge_entry.
  destruct (create_map d !! k) as [x|] eqn:Ed, (create_map o !! k) as [y|] eqn:Eo;
    intros Hv; simplify_eq; [by eapply Hst | by eapply create_map_key ..].
Qed.

Lemma merged_keys : key <$> (range (merged_map d o)).*2 = (range (merged_map d o)).*1.
Proof using Hst.
  rewrite <- list_fmap_compose. apply list_fmap_ext. intros i [k v] Hi. simpl.
  apply merged_map_key. apply elem_of_range. by eapply list_elem_of_lookup_2.
Qed.

Lemma merged_values_NoDup : NoDup (key <$> (range (merged_map d o)).*2).
Proof using Hst. rewrite merged_keys. apply NoDup_range_keys. Qed.

Lemma elem_of_merge_by_key v :
  v ∈ merge_by_key d o ↔ merge_entry (create_map d !! key v) (create_map o !! key v) = Some v.
Proof using Hst.
  unfold merge_by_key. rewrite sort_by_perm, <- merged_map_lookup, list_elem_of_fmap. split.
  - intros ([k v'] & -> & Hin). apply elem_of_range in Hin. simpl.
    by rewrite (merged_map_key _ _ Hin).
  - intros Hv. exists (key v, v). split; [done|]. by apply elem_of_range.
Qed.

Lemma merge_by_key_keys_NoDup : NoDup (key <$> merge_by_key d o).
Proof using Hst. unfold merge_by_key. rewrite sort_by_perm. apply merged_values_NoDup. Qed.

Lemma merge_by_key_sorted : Sorted (key_le key) (merge_by_key d o).
Proof. apply sort_by_Sorted. Qed.

Lemma merge_by_key_map k :
  create_map (merge_by_key d o) !! k = merge_entry (create_map d !! k) (create_map o !! k).
Proof using Hst.
  destruct (merge_entry (create_map d !! k) (create_map o !! k)) as [v|] eqn:E.
  - assert (key v = k) as Hk by (apply merged_map_key; by rewrite merged_map_lookup).
    rewrite <- Hk. apply create_map_NoDup; [apply merge_by_key_keys_NoDup|].
    apply elem_of_merge_by_key. by rewrite Hk.
  - apply eq_None_not_Some. rewrite create_map_Some. intros (x & Hx & Hk).
    apply elem_of_merge_by_key in Hx. rewrite Hk in Hx. congruence.
Qed.
End Stable.

(** The merge does not depend on the iteration order of Go maps. *)
Lemma merge_by_key_order (r1 r2 : MapOrder) d o :
  key_stable d o → @merge_by_key r1 d o = @merge_by_key r2 d o.
Proof.
  intros Hst. unfold merge_by_key.
  assert (@merged_map r1 d o = @merged_map r2 d o) as E.
  { apply map_eq. intros k. by rewrite !merged_map_lookup. }
  apply sort_by_unique; [|by apply (@merged_values_NoDup r1)].
  apply Permutation_map. by rewrite (@range_perm r1), (@range_perm r2), E.
Qed.

(** Merging the same override again changes nothing, when merging it into a
    merged element, or into itself, changes nothing. *)
Lemma merge_by_key_idemp `{MapOrder} d o :
  key_stable d o →
  (∀ x y, x ∈ d → y ∈ o → key x = key y → merge1 (merge1 x y) y = merge1 x y) →
  (∀ y, y ∈ o → merge1 y y = y) →
  merge_by_key (merge_by_key d o) o = merge_by_key d o.
Proof.
  intros Hst Hidem Hself.
  assert (∀ k, merge_entry (create_map (merge_by_key d o) !! k) (create_map o !! k) =
               merge_entry (create_map d !! k) (create_map o !! k)) as Hent.
  { intros k. rewrite merge_by_key_map by done. unfold merge_entry.
    destruct (create_map d !! k) as [x|] eqn:Ed, (create_map o !! k) as [y|] eqn:Eo; try done;
      apply create_map_key in Eo as [? ?]; [apply create_map_key in Ed as [? ?]|];
      f_equal; [apply Hidem; congruence | by apply Hself]. }
  assert (key_stable (merge_by_key d o) o) as Hst'.
  { intros k x y Hx Hy. apply (merged_map_key d o Hst).
    by rewrite merged_map_lookup, <- Hent, Hx, Hy. }
  apply (sorted_by_key_ext key); try apply merge_by_key_sorted.
  - by apply merge_by_key_keys_NoDup.
  - by apply merge_by_key_keys_NoDup.
  - intros k. rewrite merge_by_key_map by done. rewrite Hent. by rewrite merge_by_key_map.
Qed.
End MergeByKey.
