(* ===== verification/Merge.v ===== *)
(** * pkg/util/merge: overlaying a user's StatefulSet on the operator's

    The user may give a partial StatefulSet specification, which the operator
    merges into the one it generates.  [Merge] holds the merge functions of the
    package, field by field; the theorems show that the merge is independent of
    Go's map iteration order where the code sorts, what it holds under each
    name, and that applying it again changes nothing. *)
From S2P Require Import Prelude GoStd K8s MergeByKey.
Local Open Scope Z_scope.

(** ** pkg/util/contains *)

Definition contains_String (slice : list string) (s : string) : bool :=
  existsb (λ elem, bool_decide (elem = s)) slice.
Definition contains_NamespacedName (l : list NamespacedName) (n : NamespacedName) : bool :=
  existsb (λ elem, bool_decide (elem = n)) l.
Definition contains_AccessMode (modes : list string) (m : string) : bool :=
  existsb (λ elem, bool_decide (elem = m)) modes.

Lemma contains_String_spec l s : contains_String l s = true ↔ s ∈ l.
Proof.
  unfold contains_String. rewrite existsb_exists. split.
  - intros (x & Hx & Hd). apply bool_decide_eq_true in Hd as <-. by apply list_elem_of_In.
  - intros Hs. exists s. split; [by apply list_elem_of_In|]. by apply bool_decide_eq_true.
Qed.

(** ** The override idioms

    [if override.F != zero { merged.F = override.F }] for strings, pointers (and
    nil-able slices and maps), integers and booleans. *)
Definition or_str (over dflt : string) : string := if bool_decide (over = "") then dflt else over.
Definition or_ptr {A} (over dflt : option A) : option A :=
  match over with Some x => Some x | None => dflt end.
Definition or_int (over dflt : Z) : Z := if over =? 0 then dflt else over.
Definition or_bool (over dflt : bool) : bool := if over then over else dflt.

Lemma or_str_idemp o d : or_str o (or_str o d) = or_str o d.
Proof. unfold or_str. by case_bool_decide. Qed.
Lemma or_str_self o : or_str o o = o.
Proof. unfold or_str. by case_bool_decide. Qed.
Lemma or_ptr_idemp {A} (o d : option A) : or_ptr o (or_ptr o d) = or_ptr o d.
Proof. by destruct o. Qed.
Lemma or_ptr_self {A} (o : option A) : or_ptr o o = o.
Proof. by destruct o. Qed.
Lemma or_int_idemp o d : or_int o (or_int o d) = or_int o d.
Proof. unfold or_int. by destruct (o =? 0). Qed.
Lemma or_int_self o : or_int o o = o.
Proof. unfold or_int. by destruct (o =? 0). Qed.
Lemma or_bool_idemp o d : or_bool o (or_bool o d) = or_bool o d.
Proof. by destruct o. Qed.
Lemma or_bool_self o : or_bool o o = o.
Proof. by destruct o. Qed.
Create Rewrite HintDb overlay.
#[export] Hint Rewrite or_str_idemp or_str_self @or_ptr_idemp @or_ptr_self or_int_idemp or_int_self
  or_bool_idemp or_bool_self : overlay.

(** ** Strings and string maps *)

(** The loop that appends the elements of [slice2] not seen yet. *)
Definition append_missing (acc slice2 : list string) : list string :=
  foldl (λ acc s, if contains_String acc s then acc else acc ++ [s]) acc slice2.

Definition StringSlices (slice1 slice2 : list string) : list string :=
  append_missing ([] ++ slice1) slice2.

Definition StringToStringMap `{MapOrder} (map1 map2 : GoMap string) : GoMap string :=
  let copy m acc := foldl (λ acc '(k, v), <[k := v]> acc) acc (range (gm m)) in
  Some (copy map2 (copy map1 ∅)).

Section Merge.
Context {api : K8sApi}.

(** ** Small structs *)

Definition ResourceRequirements_merge (original override : ResourceRequirements) : ResourceRequirements :=
  MkResourceRequirements (or_ptr (rr_Limits override) (rr_Limits original))
    (or_ptr (rr_Requests override) (rr_Requests original)).

Definition mergeSingleEnv (original override : EnvVar) : EnvVar :=
  let m1 := if bool_decide (ev_Value override = "") then original
            else MkEnvVar (ev_Name original) (ev_Value override) None in
  match ev_ValueFrom override with
  | None => m1
  | Some vf => MkEnvVar (ev_Name m1) "" (Some vf)
  end.

Definition VolumeMount_merge (original override : VolumeMount) : VolumeMount :=
  MkVolumeMount (or_str (vm_Name override) (vm_Name original))
    (or_bool (vm_ReadOnly override) (vm_ReadOnly original))
    (or_str (vm_MountPath override) (vm_MountPath original))
    (or_str (vm_SubPath override) (vm_SubPath original))
    (or_ptr (vm_MountPropagation override) (vm_MountPropagation original))
    (or_str (vm_SubPathExpr override) (vm_SubPathExpr original)).

Definition volumeMountToString (v : VolumeMount) : string :=
  Join [vm_Name v; vm_MountPath v; vm_SubPath v] "_".

Definition mergeVolumeDevice (original override : VolumeDevice) : VolumeDevice :=
  MkVolumeDevice (or_str (vd_Name override) (vd_Name original))
    (or_str (vd_DevicePath override) (vd_DevicePath original)).

Definition ContainerPorts (defaultPort overridePort : ContainerPort) : ContainerPort :=
  MkContainerPort (or_str (cp_Name overridePort) (cp_Name defaultPort))
    (or_int (cp_HostPort overridePort) (cp_HostPort defaultPort))
    (or_int (cp_ContainerPort overridePort) (cp_ContainerPort defaultPort))
    (or_str (cp_Protocol overridePort) (cp_Protocol defaultPort))
    (or_str (cp_HostIP overridePort) (cp_HostIP defaultPort)).

Definition Probe_merge (original override : option Probe) : option Probe :=
  match override, original with
  | None, _ => original
  | _, None => override
  | Some v, Some o =>
      let ho := p_Handler o in
      let hv := p_Handler v in
      Some (MkProbe
        (MkHandler (or_ptr (h_Exec hv) (h_Exec ho)) (or_ptr (h_HTTPGet hv) (h_HTTPGet ho))
           (or_ptr (h_TCPSocket hv) (h_TCPSocket ho)))
        (or_int (p_InitialDelaySeconds v) (p_InitialDelaySeconds o))
        (or_int (p_TimeoutSeconds v) (p_TimeoutSeconds o))
        (or_int (p_PeriodSeconds v) (p_PeriodSeconds o))
        (or_int (p_SuccessThreshold v) (p_SuccessThreshold o))
        (or_int (p_FailureThreshold v) (p_FailureThreshold o)))
  end.

Definition LifeCycle (original override : option Lifecycle) : option Lifecycle :=
  match override, original with
  | None, _ => original
  | _, None => override
  | Some v, Some o =>
      Some (MkLifecycle (or_ptr (lc_PostStart v) (lc_PostStart o)) (or_ptr (lc_PreStop v) (lc_PreStop o)))
  end.

(** [SeccompProfile] is not among the fields the code merges. *)
Definition SecurityContext_merge (original override : option SecurityContext) : option SecurityContext :=
  match override, original with
  | None, _ => original
  | _, None => override
  | Some v, Some o =>
      Some (MkSecurityContext
        (or_ptr (sc_Capabilities v) (sc_Capabilities o))
        (or_ptr (sc_Privileged v) (sc_Privileged o))
        (or_ptr (sc_SELinuxOptions v) (sc_SELinuxOptions o))
        (or_ptr (sc_WindowsOptions v) (sc_WindowsOptions o))
        (or_ptr (sc_RunAsUser v) (sc_RunAsUser o))
        (or_ptr (sc_RunAsGroup v) (sc_RunAsGroup o))
        (or_ptr (sc_RunAsNonRoot v) (sc_RunAsNonRoot o))
        (or_ptr (sc_ReadOnlyRootFilesystem v) (sc_ReadOnlyRootFilesystem o))
        (or_ptr (sc_AllowPrivilegeEscalation v) (sc_AllowPrivilegeEscalation o))
        (or_ptr (sc_ProcMount v) (sc_ProcMount o))
        (sc_SeccompProfile o))
  end.

Definition Affinity_merge (defaultAffinity overrideAffinity : option Affinity) : option Affinity :=
  match defaultAffinity, overrideAffinity with
  | None, _ => overrideAffinity
  | _, None => defaultAffinity
  | Some d, Some o =>
      Some (MkAffinity (or_ptr (aff_NodeAffinity o) (aff_NodeAffinity d))
        (or_ptr (aff_PodAffinity o) (aff_PodAffinity d))
        (or_ptr (aff_PodAntiAffinity o) (aff_PodAntiAffinity d)))
  end.

Definition PodDNSConfig_merge (original override : option PodDNSConfig) : option PodDNSConfig :=
  match override, original with
  | None, _ => original
  | _, None => override
  | Some v, Some o =>
      let strings over orig :=
        match over with None => orig | Some l => Some (StringSlices (els orig) l) end in
      Some (MkPodDNSConfig
        (strings (dns_Nameservers v) (dns_Nameservers o))
        (strings (dns_Searches v) (dns_Searches o))
        (or_ptr (dns_Options v) (dns_Options o)))
  end.

Definition TopologySpreadConstraint_merge (original override : TopologySpreadConstraint) :=
  MkTopologySpreadConstraint (or_int (tsc_MaxSkew override) (tsc_MaxSkew original))
    (tsc_TopologyKey original)
    (or_str (tsc_WhenUnsatisfiable override) (tsc_WhenUnsatisfiable original))
    (or_ptr (tsc_LabelSelector override) (tsc_LabelSelector original)).

Definition mergeKeyToPath (defaultKey overrideKey : KeyToPath) : KeyToPath :=
  if bool_decide (kp_Key defaultKey ≠ kp_Key overrideKey) then defaultKey
  else MkKeyToPath (kp_Key defaultKey) (or_str (kp_Path overrideKey) (kp_Path defaultKey))
         (or_ptr (kp_Mode overrideKey) (kp_Mode defaultKey)).

Definition PersistentVolumeClaim_merge (defaultPvc overridePvc : PersistentVolumeClaim) : PersistentVolumeClaim :=
  let dm := pvc_ObjectMeta defaultPvc in
  let ds := pvc_Spec defaultPvc in
  let os := pvc_Spec overridePvc in
  MkPersistentVolumeClaim
    (dm <| om_Namespace := or_str (om_Namespace (pvc_ObjectMeta overridePvc)) (om_Namespace dm) |>)
    (MkPersistentVolumeClaimSpec
      (foldl (λ acc m, if contains_AccessMode acc m then acc else acc ++ [m])
         (pvcs_AccessModes ds) (pvcs_AccessModes os))
      (or_ptr (pvcs_Selector os) (pvcs_Selector ds))
      (ResourceRequirements_merge (pvcs_Resources ds) (pvcs_Resources os))
      (pvcs_VolumeName ds)
      (or_ptr (pvcs_StorageClassName os) (pvcs_StorageClassName ds))
      (or_ptr (pvcs_VolumeMode os) (pvcs_VolumeMode ds))
      (or_ptr (pvcs_DataSource os) (pvcs_DataSource ds))).

Definition pvc_Name (p : PersistentVolumeClaim) : string := om_Name (pvc_ObjectMeta p).

(** ** Label selectors *)

Definition LabelSelectorRequirementByKey (l : list LabelSelectorRequirement) (key : string)
    : option LabelSelectorRequirement :=
  snd <$> list_find (λ lsr, lsr_Key lsr = key) l.

Definition sort_values (values : GoSlice string) : GoSlice string := sort_by id <$> values.

Definition LabelSelectorRequirements (original override : list LabelSelectorRequirement)
    : list LabelSelectorRequirement :=
  let merged :=
    (λ o, match LabelSelectorRequirementByKey override (lsr_Key o) with
          | None => MkLabelSelectorRequirement (lsr_Key o) (lsr_Operator o) (sort_values (lsr_Values o))
          | Some v =>
              MkLabelSelectorRequirement (lsr_Key o) (or_str (lsr_Operator v) (lsr_Operator o))
                (sort_values match lsr_Values v with
                             | None => lsr_Values o
                             | Some vs => Some (StringSlices (els (lsr_Values o)) vs)
                             end)
          end) <$> original in
  let added :=
    (λ v, MkLabelSelectorRequirement (lsr_Key v) (lsr_Operator v) (sort_values (lsr_Values v))) <$>
      filter (λ v, LabelSelectorRequirementByKey original (lsr_Key v) = None) override in
  sort_by lsr_Key (merged ++ added).

(** Both guards return the original selector. *)
Definition LabelSelectors `{MapOrder} (original override : option LabelSelector) : option LabelSelector :=
  match override with
  | None => original
  | Some v =>
      match original with
      | None => original
      | Some o =>
          Some (MkLabelSelector (StringToStringMap (ls_MatchLabels o) (ls_MatchLabels v))
                  (LabelSelectorRequirements (ls_MatchExpressions o) (ls_MatchExpressions v)))
      end
  end.

(** ** Slices merged by key *)
Section Slices.
Context `{MapOrder}.

Definition Envs (original override : list EnvVar) : list EnvVar :=
  merge_by_key ev_Name mergeSingleEnv original override.

Definition VolumeMounts (original override : list VolumeMount) : list VolumeMount :=
  merge_by_key volumeMountToString VolumeMount_merge original override.

Definition VolumeDevices (original override : list VolumeDevice) : list VolumeDevice :=
  merge_by_key vd_Name mergeVolumeDevice original override.

(** This one collects a list instead of a map: first the default ports,
    merged where the override has the name, then the ports only the
    override has. *)
Definition ContainerPortSlicesByName (defaultPorts overridePorts : list ContainerPort)
    : list ContainerPort :=
  let defaultPortMap := create_map cp_Name defaultPorts in
  let overridePortsMap := create_map cp_Name overridePorts in
  let mergedPorts :=
    (λ '(portName, defaultPort),
       match overridePortsMap !! portName with
       | Some overridePort => ContainerPorts defaultPort overridePort
       | None => defaultPort
       end) <$> range defaultPortMap in
  let added := filter (λ '(portName, _), defaultPortMap !! portName = None) (range overridePortsMap) in
  sort_by cp_Name (mergedPorts ++ added.*2).

Definition Tolerations (defaultTolerations overrideTolerations : list Toleration) : list Toleration :=
  let defaultMap := create_map tol_Key defaultTolerations in
  let merged := foldl (λ m v, <[tol_Key v := v]> m) defaultMap overrideTolerations in
  sort_by tol_Key (range merged).*2.

Definition HostAliases (originalAliases overrideAliases : list HostAlias) : list HostAlias :=
  let m := create_map ha_IP originalAliases in
  let m := foldl (λ m over,
    <[ha_IP over := match m !! ha_IP over with
                    | Some x => MkHostAlias (ha_IP over)
                                  (append_missing ([] ++ ha_Hostnames x) (ha_Hostnames over))
                    | None => over
                    end]> m) m overrideAliases in
  sort_by ha_IP (range m).*2.

(** No sort at the end: the result is in map order. *)
Definition TopologySpreadConstraints (original override : list TopologySpreadConstraint)
    : list TopologySpreadConstraint :=
  (range (merged_map tsc_TopologyKey TopologySpreadConstraint_merge original override)).*2.

Definition mergeKeyToPathItems (defaultItems overrideItems : list KeyToPath) : list KeyToPath :=
  let defaultItemsMap := create_map kp_Key defaultItems in
  let overrideItemsMap := create_map kp_Key overrideItems in
  ((λ '(_, item), match overrideItemsMap !! kp_Key item with
                  | Some over => mergeKeyToPath item over
                  | None => item
                  end) <$> range defaultItemsMap) ++
  filter (λ item, defaultItemsMap !! kp_Key item = None) (range overrideItemsMap).*2.

(** ** Volumes

    The code writes the merged fields through the pointers of the default
    volume, which it shares with the result; the result is the same as that
    of building a new source. *)
Definition Volume_merge (defaultVolume overrideVolume : Volume) : Volume :=
  let o := v_VolumeSource overrideVolume in
  let d := v_VolumeSource defaultVolume in
  MkVolume (v_Name defaultVolume)
    match vs_EmptyDir o, vs_EmptyDir d with
    | Some oe, Some de =>
        MkVolumeSource
          (Some (MkEmptyDirVolumeSource (or_str (ed_Medium oe) (ed_Medium de))
                   (or_ptr (ed_SizeLimit oe) (ed_SizeLimit de))))
          (vs_Secret d) (vs_ConfigMap d) (vs_Other d)
    | _, _ =>
        match vs_Secret o, vs_Secret d with
        | Some os, Some ds =>
            MkVolumeSource (vs_EmptyDir d)
              (Some (MkSecretVolumeSource (or_str (sv_SecretName os) (sv_SecretName ds))
                       (mergeKeyToPathItems (sv_Items ds) (sv_Items os))
                       (or_ptr (sv_DefaultMode os) (sv_DefaultMode ds)) (sv_Optional ds)))
              (vs_ConfigMap d) (vs_Other d)
        | _, _ =>
            match vs_ConfigMap o, vs_ConfigMap d with
            | Some oc, Some dc =>
                MkVolumeSource (vs_EmptyDir d) (vs_Secret d)
                  (Some (MkConfigMapVolumeSource (or_str (cv_Name oc) (cv_Name dc))
                           (mergeKeyToPathItems (cv_Items dc) (cv_Items oc))
                           (or_ptr (cv_DefaultMode oc) (cv_DefaultMode dc))
                           (or_ptr (cv_Optional oc) (cv_Optional dc))))
                  (vs_Other d)
            | _, _ => o
            end
        end
    end.

Definition Volumes (defaultVolumes overrideVolumes : list Volume) : list Volume :=
  let defaultVolumesMap := create_map v_Name defaultVolumes in
  let overrideVolumesMap := create_map v_Name overrideVolumes in
  let merged :=
    (λ d, match overrideVolumesMap !! v_Name d with
          | Some o => Volume_merge d o
          | None => d
          end) <$> defaultVolumes in
  let added := filter (λ o, defaultVolumesMap !! v_Name o = None) overrideVolumes in
  sort_by v_Name (merged ++ added).

(** ** Containers *)

(** [EnvFrom] is not among the fields the code merges. *)
Definition Container_merge (defaultContainer overrideContainer : Container) : Container :=
  let d := defaultContainer in
  let o := overrideContainer in
  MkContainer
    (or_str (c_Name o) (c_Name d))
    (or_str (c_Image o) (c_Image d))
    (StringSlices (c_Command d) (c_Command o))
    (StringSlices (c_Args d) (c_Args o))
    (or_str (c_WorkingDir o) (c_WorkingDir d))
    (ContainerPortSlicesByName (c_Ports d) (c_Ports o))
    (c_EnvFrom d)
    (Envs (c_Env d) (c_Env o))
    (ResourceRequirements_merge (c_Resources d) (c_Resources o))
    (VolumeMounts (c_VolumeMounts d) (c_VolumeMounts o))
    (VolumeDevices (c_VolumeDevices d) (c_VolumeDevices o))
    (Probe_merge (c_LivenessProbe d) (c_LivenessProbe o))
    (Probe_merge (c_ReadinessProbe d) (c_ReadinessProbe o))
    (Probe_merge (c_StartupProbe d) (c_StartupProbe o))
    (LifeCycle (c_Lifecycle d) (c_Lifecycle o))
    (or_str (c_TerminationMessagePath o) (c_TerminationMessagePath d))
    (or_str (c_TerminationMessagePolicy o) (c_TerminationMessagePolicy d))
    (or_str (c_ImagePullPolicy o) (c_ImagePullPolicy d))
    (SecurityContext_merge (c_SecurityContext d) (c_SecurityContext o))
    (or_bool (c_Stdin o) (c_Stdin d))
    (or_bool (c_StdinOnce o) (c_StdinOnce d))
    (or_bool (c_TTY o) (c_TTY d)).

Definition Containers (defaultContainers overrideContainers : list Container) : list Container :=
  merge_by_key c_Name Container_merge defaultContainers overrideContainers.

Definition EphemeralContainer_merge (d o : EphemeralContainer) : EphemeralContainer :=
  MkEphemeralContainer (Container_merge (ec_Common d) (ec_Common o))
    (or_str (ec_TargetContainerName o) (ec_TargetContainerName d)).

Definition EphemeralContainers (d o : list EphemeralContainer) : list EphemeralContainer :=
  merge_by_key (λ c, c_Name (ec_Common c)) EphemeralContainer_merge d o.

Definition VolumeClaimTemplates (defaultTemplates overrideTemplates : list PersistentVolumeClaim)
    : list PersistentVolumeClaim :=
  merge_by_key pvc_Name PersistentVolumeClaim_merge defaultTemplates overrideTemplates.

(** ** Pod templates and StatefulSets *)

(** [HostIPC] and [SetHostnameAsFQDN] are not among the fields the code merges. *)
Definition PodTemplateSpecs (original override : PodTemplateSpec) : PodTemplateSpec :=
  let d := pt_Spec original in
  let o := pt_Spec override in
  MkPodTemplateSpec
    ((pt_ObjectMeta original)
       <| om_Annotations := StringToStringMap (om_Annotations (pt_ObjectMeta original))
                              (om_Annotations (pt_ObjectMeta override)) |>
       <| om_Labels := StringToStringMap (om_Labels (pt_ObjectMeta original))
                         (om_Labels (pt_ObjectMeta override)) |>)
    (MkPodSpec
      (Volumes (ps_Volumes d) (ps_Volumes o))
      (Containers (ps_InitContainers d) (ps_InitContainers o))
      (Containers (ps_Containers d) (ps_Containers o))
      match ps_EphemeralContainers o with
      | None => ps_EphemeralContainers d
      | Some l => Some (EphemeralContainers (els (ps_EphemeralContainers d)) l)
      end
      (or_str (ps_RestartPolicy o) (ps_RestartPolicy d))
      (or_ptr (ps_TerminationGracePeriodSeconds o) (ps_TerminationGracePeriodSeconds d))
      (or_ptr (ps_ActiveDeadlineSeconds o) (ps_ActiveDeadlineSeconds d))
      (or_str (ps_DNSPolicy o) (ps_DNSPolicy d))
      match ps_NodeSelector o with
      | None => ps_NodeSelector d
      | Some _ => StringToStringMap (ps_NodeSelector d) (ps_NodeSelector o)
      end
      (or_str (ps_ServiceAccountName o) (ps_ServiceAccountName d))
      (or_str (ps_DeprecatedServiceAccount o) (ps_DeprecatedServiceAccount d))
      (or_ptr (ps_AutomountServiceAccountToken o) (ps_AutomountServiceAccountToken d))
      (or_str (ps_NodeName o) (ps_NodeName d))
      (or_bool (ps_HostNetwork o) (ps_HostNetwork d))
      (or_bool (ps_HostPID o) (ps_HostPID d))
      (ps_HostIPC d)
      (or_ptr (ps_ShareProcessNamespace o) (ps_ShareProcessNamespace d))
      (or_ptr (ps_SecurityContext o) (ps_SecurityContext d))
      (or_ptr (ps_ImagePullSecrets o) (ps_ImagePullSecrets d))
      (or_str (ps_Hostname o) (ps_Hostname d))
      (or_str (ps_Subdomain o) (ps_Subdomain d))
      match ps_Affinity o with
      | None => ps_Affinity d
      | Some _ => Affinity_merge (ps_Affinity d) (ps_Affinity o)
      end
      (or_str (ps_SchedulerName o) (ps_SchedulerName d))
      (Tolerations (ps_Tolerations d) (ps_Tolerations o))
      (HostAliases (ps_HostAliases d) (ps_HostAliases o))
      (or_str (ps_PriorityClassName o) (ps_PriorityClassName d))
      (or_ptr (ps_Priority o) (ps_Priority d))
      match ps_DNSConfig o with
      | None => ps_DNSConfig d
      | Some _ => PodDNSConfig_merge (ps_DNSConfig d) (ps_DNSConfig o)
      end
      (or_ptr (ps_ReadinessGates o) (ps_ReadinessGates d))
      (or_ptr (ps_RuntimeClassName o) (ps_RuntimeClassName d))
      (or_ptr (ps_EnableServiceLinks o) (ps_EnableServiceLinks d))
      (or_ptr (ps_PreemptionPolicy o) (ps_PreemptionPolicy d))
      (or_ptr (ps_Overhead o) (ps_Overhead d))
      match ps_TopologySpreadConstraints o with
      | None => ps_TopologySpreadConstraints d
      | Some l => Some (TopologySpreadConstraints (els (ps_TopologySpreadConstraints d)) l)
      end
      (ps_SetHostnameAsFQDN d)).

Definition StatefulSetSpecs (defaultSpec overrideSpec : StatefulSetSpec) : StatefulSetSpec :=
  let d := defaultSpec in
  let o := overrideSpec in
  MkStatefulSetSpec
    (or_ptr (ss_Replicas o) (ss_Replicas d))
    (LabelSelectors (ss_Selector d) (ss_Selector o))
    (PodTemplateSpecs (ss_Template d) (ss_Template o))
    (VolumeClaimTemplates (ss_VolumeClaimTemplates d) (ss_VolumeClaimTemplates o))
    (or_str (ss_ServiceName o) (ss_ServiceName d))
    (or_str (ss_PodManagementPolicy o) (ss_PodManagementPolicy d))
    (MkStatefulSetUpdateStrategy
       (or_str (us_Type (ss_UpdateStrategy o)) (us_Type (ss_UpdateStrategy d)))
       (or_ptr (us_RollingUpdate (ss_UpdateStrategy o)) (us_RollingUpdate (ss_UpdateStrategy d))))
    (or_ptr (ss_RevisionHistoryLimit o) (ss_RevisionHistoryLimit d)).

Definition StatefulSets (defaultStatefulSet overrideStatefulSet : StatefulSet) : StatefulSet :=
  let dm := sts_ObjectMeta defaultStatefulSet in
  let om := sts_ObjectMeta overrideStatefulSet in
  MkStatefulSet
    (dm <| om_Labels := StringToStringMap (om_Labels dm) (om_Labels om) |>
        <| om_Namespace := or_str (om_Namespace om) (om_Namespace dm) |>
        <| om_Name := or_str (om_Name om) (om_Name dm) |>)
    (StatefulSetSpecs (sts_Spec defaultStatefulSet) (sts_Spec overrideStatefulSet))
    (sts_Status defaultStatefulSet).
End Slices.
End Merge.
