(* ===== verification/MergeFacts.v ===== *)
(** * Facts about the merge of containers and StatefulSet specifications *)
From S2P Require Import Prelude GoStd K8s MergeByKey Merge.
Local Open Scope Z_scope.

(** ** Unions of string slices *)

Lemma append_missing_app acc l1 l2 :
  append_missing acc (l1 ++ l2) = append_missing (append_missing acc l1) l2.
Proof. apply foldl_app. Qed.

Lemma append_missing_cons acc s l :
  append_missing acc (s :: l) = append_missing (if contains_String acc s then acc else acc ++ [s]) l.
Proof. done. Qed.

Lemma append_missing_elem acc l s : s ∈ append_missing acc l ↔ s ∈ acc ∨ s ∈ l.
Proof.
  revert acc. induction l as [|x l IH]; intros acc; [set_solver|].
  rewrite append_missing_cons, IH. destruct (contains_String acc x) eqn:E; [|set_solver].
  apply contains_String_spec in E. set_solver.
Qed.

Lemma append_missing_prefix acc l : acc `prefix_of` append_missing acc l.
Proof.
  revert acc. induction l as [|x l IH]; intros acc; [done|]. rewrite append_missing_cons.
  destruct (contains_String acc x); [done|]. etrans; [|apply IH]. by apply prefix_app_r.
Qed.

Lemma append_missing_NoDup acc l : NoDup acc → NoDup (append_missing acc l).
Proof.
  revert acc. induction l as [|x l IH]; intros acc Hnd; [done|]. rewrite append_missing_cons.
  apply IH. destruct (contains_String acc x) eqn:E; [done|].
  apply NoDup_app. split_and!; [done| |by apply NoDup_singleton].
  intros y Hy ->%list_elem_of_singleton. apply contains_String_spec in Hy. congruence.
Qed.

Lemma append_missing_incl acc l : (∀ s, s ∈ l → s ∈ acc) → append_missing acc l = acc.
Proof.
  induction l as [|x l IH]; intros Hin; [done|]. rewrite append_missing_cons.
  replace (contains_String acc x) with true; [apply IH; set_solver|].
  symmetry. apply contains_String_spec. set_solver.
Qed.

Lemma StringSlices_idemp a b : StringSlices (StringSlices a b) b = StringSlices a b.
Proof. apply append_missing_incl. intros s Hs. apply append_missing_elem. by right. Qed.

Lemma StringSlices_self a : StringSlices a a = a.
Proof. by apply append_missing_incl. Qed.
#[export] Hint Rewrite StringSlices_idemp StringSlices_self : overlay.

Section Facts.
Context {api : K8sApi}.

(** ** Elements with optional parts *)

Lemma ResourceRequirements_idemp d o :
  ResourceRequirements_merge (ResourceRequirements_merge d o) o = ResourceRequirements_merge d o.
Proof. unfold ResourceRequirements_merge. simpl. by autorewrite with overlay. Qed.
Lemma ResourceRequirements_self o : ResourceRequirements_merge o o = o.
Proof. destruct o. unfold ResourceRequirements_merge. simpl. by autorewrite with overlay. Qed.

Lemma Probe_merge_idemp d o : Probe_merge (Probe_merge d o) o = Probe_merge d o.
Proof.
  destruct o as [[[] ]|], d as [[[] ]|]; simpl; autorewrite with overlay; done.
Qed.
Lemma Probe_merge_self o : Probe_merge o o = o.
Proof. destruct o as [[[] ]|]; simpl; autorewrite with overlay; done. Qed.

Lemma LifeCycle_idemp d o : LifeCycle (LifeCycle d o) o = LifeCycle d o.
Proof. destruct o as [[]|], d as [[]|]; simpl; autorewrite with overlay; done. Qed.
Lemma LifeCycle_self o : LifeCycle o o = o.
Proof. destruct o as [[]|]; simpl; autorewrite with overlay; done. Qed.

Lemma SecurityContext_merge_idemp d o :
  SecurityContext_merge (SecurityContext_merge d o) o = SecurityContext_merge d o.
Proof. destruct o as [[]|], d as [[]|]; simpl; autorewrite with overlay; done. Qed.

Lemma mergeSingleEnv_idemp d o : mergeSingleEnv (mergeSingleEnv d o) o = mergeSingleEnv d o.
Proof.
  destruct d, o as [on ov [vf|]]; unfold mergeSingleEnv; simpl; repeat case_bool_decide; done.
Qed.
Lemma mergeSingleEnv_name d o : ev_Name (mergeSingleEnv d o) = ev_Name d.
Proof. unfold mergeSingleEnv. by destruct (ev_ValueFrom o), (bool_decide (ev_Value o = "")). Qed.

Lemma VolumeMount_merge_idemp d o : VolumeMount_merge (VolumeMount_merge d o) o = VolumeMount_merge d o.
Proof. unfold VolumeMount_merge. simpl. by autorewrite with overlay. Qed.
Lemma VolumeMount_merge_self o : VolumeMount_merge o o = o.
Proof. destruct o. unfold VolumeMount_merge. simpl. by autorewrite with overlay. Qed.

Lemma mergeVolumeDevice_idemp d o : mergeVolumeDevice (mergeVolumeDevice d o) o = mergeVolumeDevice d o.
Proof. unfold mergeVolumeDevice. simpl. by autorewrite with overlay. Qed.
Lemma mergeVolumeDevice_self o : mergeVolumeDevice o o = o.
Proof. destruct o. unfold mergeVolumeDevice. simpl. by autorewrite with overlay. Qed.
Lemma mergeVolumeDevice_name d o : vd_Name d = vd_Name o → vd_Name (mergeVolumeDevice d o) = vd_Name d.
Proof. intros H. simpl. by rewrite H, or_str_self. Qed.

Lemma ContainerPorts_idemp d o : ContainerPorts (ContainerPorts d o) o = ContainerPorts d o.
Proof. unfold ContainerPorts. simpl. by autorewrite with overlay. Qed.
Lemma ContainerPorts_self o : ContainerPorts o o = o.
Proof. destruct o. unfold ContainerPorts. simpl. by autorewrite with overlay. Qed.
Lemma ContainerPorts_name d o : cp_Name d = cp_Name o → cp_Name (ContainerPorts d o) = cp_Name d.
Proof. intros H. simpl. by rewrite H, or_str_self. Qed.

(** Two mounts with the same joined key mount the same path of the same
    volume.  The separator may occur in a path, so this is an assumption. *)
Definition mounts_unambiguous (d o : list VolumeMount) : Prop :=
  ∀ x y, x ∈ d → y ∈ o → volumeMountToString x = volumeMountToString y →
    vm_Name x = vm_Name y ∧ vm_MountPath x = vm_MountPath y ∧ vm_SubPath x = vm_SubPath y.

Lemma VolumeMount_key_stable d o :
  mounts_unambiguous d o → key_stable volumeMountToString VolumeMount_merge d o.
Proof.
  intros Hu k x y [Hk Hx]%create_map_key [Hk' Hy]%create_map_key.
  destruct (Hu x y Hx Hy) as (H1 & H2 & H3); [congruence|]. rewrite <- Hk.
  unfold volumeMountToString, VolumeMount_merge. simpl. by rewrite H1, H2, H3, !or_str_self.
Qed.

Lemma Env_key_stable d o : key_stable ev_Name mergeSingleEnv d o.
Proof. apply key_stable_always. intros x y _. apply mergeSingleEnv_name. Qed.
Lemma VolumeDevice_key_stable d o : key_stable vd_Name mergeVolumeDevice d o.
Proof. apply key_stable_always, mergeVolumeDevice_name. Qed.
Lemma ContainerPort_key_stable d o : key_stable cp_Name ContainerPorts d o.
Proof. apply key_stable_always, ContainerPorts_name. Qed.

(** ** Ports: the list-based variant computes the same merge *)

Section Ordered.
Context `{MapOrder}.

Lemma ports_collected d o v :
  let dm := create_map cp_Name d in
  let om := create_map cp_Name o in
  v ∈ ((λ '(k, dp), match om !! k with Some op => ContainerPorts dp op | None => dp end) <$> range dm)
    ++ (filter (λ '(k, _), dm !! k = None) (range om)).*2 ↔
  merge_entry ContainerPorts (dm !! cp_Name v) (om !! cp_Name v) = Some v.
Proof.
  intros dm om. rewrite elem_of_app, !list_elem_of_fmap. unfold merge_entry. split.
  - intros [([k dp] & -> & Hin) | ([k op] & -> & Hin)].
    + apply elem_of_range in Hin. pose proof (create_map_key _ _ _ _ Hin) as [Hk _].
      destruct (om !! k) as [op|] eqn:Eo.
      * apply create_map_key in Eo as Ho. destruct Ho as [Hk' _].
        rewrite ContainerPorts_name by congruence. rewrite Hk, Hin, Eo. done.
      * rewrite Hk, Hin, Eo. done.
    + apply list_elem_of_filter in Hin as [Hn Hin]. apply elem_of_range in Hin. simpl.
      pose proof (create_map_key _ _ _ _ Hin) as [Hk _]. by rewrite Hk, Hn, Hin.
  - destruct (dm !! cp_Name v) as [dp|] eqn:Ed; intros Hv.
    + left. exists (cp_Name v, dp). split; [|by apply elem_of_range].
      destruct (om !! cp_Name v); congruence.
    + right. exists (cp_Name v, v). split; [done|].
      apply list_elem_of_filter. split; [done | by apply elem_of_range].
Qed.

Lemma ports_collected_NoDup d o :
  let dm := create_map cp_Name d in
  let om := create_map cp_Name o in
  NoDup (cp_Name <$>
    ((λ '(k, dp), match om !! k with Some op => ContainerPorts dp op | None => dp end) <$> range dm)
    ++ (filter (λ '(k, _), dm !! k = None) (range om)).*2).
Proof.
  intros dm om. rewrite fmap_app, <- !list_fmap_compose.
  rewrite (list_fmap_ext _ fst (range dm)), (list_fmap_ext _ fst (filter _ (range om))).
  - apply NoDup_app. split_and!; [apply NoDup_range_keys| |].
    + intros k ([? v] & -> & Hin)%list_elem_of_fmap ([? v'] & Heq & Hin')%list_elem_of_fmap.
      apply elem_of_range in Hin. apply list_elem_of_filter in Hin' as [Hn _].
      simpl in *. congruence.
    + eapply sublist_NoDup; [apply (NoDup_range_keys om)|].
      apply fmap_sublist, sublist_filter.
  - intros i [k v] Hi. apply list_elem_of_lookup_2, list_elem_of_filter in Hi as [_ Hi].
    by apply elem_of_range, create_map_key in Hi as [? _].
  - intros i [k v] Hi. apply list_elem_of_lookup_2, elem_of_range, create_map_key in Hi as [Hk _].
    simpl. destruct (om !! k) as [op|] eqn:Eo; [|done].
    apply create_map_key in Eo as [Hk' _]. simpl. rewrite Hk', <- Hk. by rewrite or_str_self.
Qed.
End Ordered.

(** The port merge, written over lists, is the same overlay as the others. *)
Lemma ContainerPortSlicesByName_merge `{MapOrder} d o :
  ContainerPortSlicesByName d o = merge_by_key cp_Name ContainerPorts d o.
Proof.
  apply sort_by_unique; [|apply ports_collected_NoDup].
  apply NoDup_Permutation.
  - eapply NoDup_fmap_1, ports_collected_NoDup.
  - eapply NoDup_fmap_1, merged_values_NoDup, ContainerPort_key_stable.
  - intros v. rewrite ports_collected, <- elem_of_merge_by_key by apply ContainerPort_key_stable.
    unfold merge_by_key. by rewrite sort_by_perm.
Qed.

(** ** Independence of the map iteration order *)

Lemma Container_merge_order (r1 r2 : MapOrder) d o :
  mounts_unambiguous (c_VolumeMounts d) (c_VolumeMounts o) →
  @Container_merge _ r1 d o = @Container_merge _ r2 d o.
Proof.
  intros Hu. unfold Container_merge, Envs, VolumeMounts, VolumeDevices.
  rewrite !ContainerPortSlicesByName_merge.
  f_equal; apply merge_by_key_order;
    auto using ContainerPort_key_stable, Env_key_stable, VolumeDevice_key_stable,
      VolumeMount_key_stable.
Qed.

Lemma Container_merge_name `{MapOrder} x y :
  c_Name x = c_Name y → c_Name (Container_merge x y) = c_Name x.
Proof. intros H1. simpl. by rewrite H1, or_str_self. Qed.

Lemma Container_key_stable `{MapOrder} d o : key_stable c_Name Container_merge d o.
Proof. apply key_stable_always, Container_merge_name. Qed.

(** A by-key merge whose element merge depends on the order, but not on the
    elements it is applied to, does not depend on the order. *)
Lemma merge_by_key_ext {T} (key : T → string) m1 m2 (r1 r2 : MapOrder) d o :
  key_stable key m1 d o →
  (∀ x y, x ∈ d → y ∈ o → key x = key y → m1 x y = m2 x y) →
  @merge_by_key _ key m1 r1 d o = @merge_by_key _ key m2 r2 d o.
Proof.
  intros Hst He. rewrite (merge_by_key_order key m1 r1 r2) by done.
  unfold merge_by_key. do 2 f_equal. f_equal. apply map_eq. intros k. rewrite !merged_map_lookup.
  unfold merge_entry.
  destruct (create_map key d !! k) eqn:E1, (create_map key o !! k) eqn:E2; try done.
  apply create_map_key in E1 as [? ?], E2 as [? ?]. f_equal. apply He; congruence.
Qed.

(** ** Merging twice *)

Lemma merge_self_normal {T} (key : T → string) m `{MapOrder} o :
  key_stable key m o o → merge_by_key key m o o = o → ∀ y, y ∈ o → m y y = y.
Proof.
  intros Hst Heq y Hy.
  assert (create_map key o !! key y = Some y) as Hc.
  { apply create_map_NoDup; [|done]. rewrite <- Heq. by apply merge_by_key_keys_NoDup. }
  rewrite <- Heq in Hy. apply elem_of_merge_by_key in Hy; [|done].
  rewrite Hc in Hy. simpl in Hy. congruence.
Qed.

(** An override that is already in the form the merge produces: merging it
    with itself changes nothing (its ports, variables and mounts are sorted
    and distinct, and no variable has both a value and a source). *)
Definition normal_container `{MapOrder} (y : Container) : Prop := Container_merge y y = y.

Lemma normal_container_parts `{MapOrder} y :
  normal_container y →
  ContainerPortSlicesByName (c_Ports y) (c_Ports y) = c_Ports y ∧
  Envs (c_Env y) (c_Env y) = c_Env y ∧ VolumeDevices (c_VolumeDevices y) (c_VolumeDevices y) = c_VolumeDevices y.
Proof.
  unfold normal_container. intros Hy. split_and!.
  - exact (f_equal c_Ports Hy).
  - exact (f_equal c_Env Hy).
  - exact (f_equal c_VolumeDevices Hy).
Qed.

Lemma Container_merge_idemp `{MapOrder} x y :
  mounts_unambiguous (c_VolumeMounts x) (c_VolumeMounts y) → normal_container y →
  Container_merge (Container_merge x y) y = Container_merge x y.
Proof.
  intros Hu (Hp & He & Hd)%normal_container_parts. unfold Container_merge at 1 3. simpl.
  autorewrite with overlay. f_equal;
    auto using ResourceRequirements_idemp, Probe_merge_idemp, LifeCycle_idemp,
      SecurityContext_merge_idemp.
  - rewrite !ContainerPortSlicesByName_merge in *.
    apply merge_by_key_idemp; auto using ContainerPort_key_stable, ContainerPorts_idemp, ContainerPorts_self.
  - apply merge_by_key_idemp; auto using Env_key_stable, mergeSingleEnv_idemp.
    apply (merge_self_normal ev_Name mergeSingleEnv); [apply Env_key_stable | exact He].
  - apply merge_by_key_idemp; auto using VolumeMount_key_stable, VolumeMount_merge_idemp, VolumeMount_merge_self.
  - apply merge_by_key_idemp;
      auto using VolumeDevice_key_stable, mergeVolumeDevice_idemp, mergeVolumeDevice_self.
Qed.

(** ** Properties *)

(** [C36] The merged containers do not depend on the iteration order of Go's
    maps: whatever order the runtime picks, the same user override of the same
    generated containers yields the same slice, provided mounts with the same
    joined key agree on volume, path and subpath. *)
Theorem Containers_order_independent (r1 r2 : MapOrder) d o :
  (∀ x y, x ∈ d → y ∈ o → mounts_unambiguous (c_VolumeMounts x) (c_VolumeMounts y)) →
  @Containers _ r1 d o = @Containers _ r2 d o.
Proof.
  intros Hu. apply merge_by_key_ext; [apply Container_key_stable|].
  intros x y Hx Hy _. by apply Container_merge_order, Hu.
Qed.

(** [C37] What the container merge holds: the result is sorted by name without
    duplicates, and under each name it has the last default container of that
    name, overlaid with the last override of that name where there is one, or
    the override alone where the operator has no such container. *)
Theorem Containers_spec `{MapOrder} d o :
  Sorted (key_le c_Name) (Containers d o) ∧ NoDup (c_Name <$> Containers d o) ∧
  ∀ n, find_last c_Name n (Containers d o) =
       merge_entry Container_merge (find_last c_Name n d) (find_last c_Name n o).
Proof.
  split_and!.
  - apply merge_by_key_sorted.
  - apply merge_by_key_keys_NoDup, Container_key_stable.
  - intros n. rewrite <- !create_map_lookup. apply merge_by_key_map, Container_key_stable.
Qed.

(** Reconciling an unchanged resource again does not change the
    containers: overlaying the same normalised override on the result of the
    overlay gives that result. *)
Theorem Containers_idempotent `{MapOrder} d o :
  (∀ x y, x ∈ d → y ∈ o → mounts_unambiguous (c_VolumeMounts x) (c_VolumeMounts y)) →
  (∀ y, y ∈ o → normal_container y) →
  Containers (Containers d o) o = Containers d o.
Proof.
  intros Hu Hn. apply merge_by_key_idemp; [apply Container_key_stable| |done].
  intros x y Hx Hy _. by apply Container_merge_idemp; auto.
Qed.
End Facts.

(** ** Witnesses and counterexamples *)

Section Concrete.
#[local] Existing Instance string_api.

Definition port (n : string) (p : Z) : ContainerPort := MkContainerPort n 0 p "TCP" "".
Definition named (n : string) (ps : list ContainerPort) : Container :=
  emptyContainer <| c_Name := n |> <| c_Ports := ps |>.
Definition mounted (n : string) (vms : list VolumeMount) : Container :=
  emptyContainer <| c_Name := n |> <| c_VolumeMounts := vms |>.
Definition mount (n p : string) : VolumeMount := MkVolumeMount n false p "" None "".

Definition sample_default : list Container :=
  [mounted "mongod" [mount "data" "/data"; mount "logs" "/logs"]; named "mongodb-agent" []].
Definition sample_override : list Container :=
  [mounted "mongod" [mount "data" "/data"; mount "extra" "/x"]; named "sidecar" [port "a" 1; port "b" 2]].

Lemma sample_unambiguous x y :
  x ∈ sample_default → y ∈ sample_override → mounts_unambiguous (c_VolumeMounts x) (c_VolumeMounts y).
Proof.
  unfold sample_default, sample_override. rewrite !elem_of_cons, !elem_of_nil.
  intros [->|[->|[]]] [->|[->|[]]] u v; simpl; rewrite ?elem_of_cons, ?elem_of_nil;
    intros Hu Hv; naive_solver.
Qed.

Lemma Containers_order_independent_witness :
  @Containers _ canonical_order sample_default sample_override =
  @Containers _ reversed_order sample_default sample_override.
Proof. apply Containers_order_independent. exact sample_unambiguous. Defined.

Lemma Containers_idempotent_witness :
  let Cs := @Containers _ canonical_order in
  Cs (Cs sample_default sample_override) sample_override = Cs sample_default sample_override ∧
  c_Name <$> Cs sample_default sample_override = ["mongod"; "mongodb-agent"; "sidecar"].
Proof.
  split; [|reflexivity]. apply Containers_idempotent; [exact sample_unambiguous|].
  intros y. unfold sample_override. rewrite !elem_of_cons, !elem_of_nil.
  intros [->|[->|[]]]; reflexivity.
Defined.

(** The spread constraints come out in map order: two runs on the same input
    can produce pod templates that differ. *)
Definition constraint (k : string) : TopologySpreadConstraint := MkTopologySpreadConstraint 1 k "" None.
Lemma TopologySpreadConstraints_order_dependent :
  @TopologySpreadConstraints canonical_order [constraint "zone"] [constraint "node"] ≠
  @TopologySpreadConstraints reversed_order [constraint "zone"] [constraint "node"].
Proof. vm_compute. discriminate. Qed.

(** A container only the user defines is copied on the first merge and sorted
    on the second: the merge is not idempotent on an unsorted override. *)
Lemma Containers_sidecar_not_idempotent :
  let Cs := @Containers _ canonical_order in
  let o := [named "sidecar" [port "web" 80; port "admin" 81]] in
  Cs (Cs [] o) o ≠ Cs [] o.
Proof. vm_compute. discriminate. Qed.

(** Ports are keyed by their optional name, so that only one of several
    unnamed ports survives a merge. *)
Lemma unnamed_ports_collapse :
  length (@ContainerPortSlicesByName canonical_order [port "" 80; port "" 443] []) = 1%nat.
Proof. reflexivity. Qed.

(** A selector given only by the user is dropped. *)
Lemma LabelSelectors_drops_override `{MapOrder} o : LabelSelectors None o = None.
Proof. by destruct o. Qed.

(** The user's [EnvFrom] entries for a container of the operator are dropped. *)
Lemma Container_merge_drops_EnvFrom `{MapOrder} d o : c_EnvFrom (Container_merge d o) = c_EnvFrom d.
Proof. done. Qed.
End Concrete.
