(* ===== verification/Scale.v ===== *)
(** * pkg/util/scale, pkg/util/functions and pkg/util/result

    How many members a replica set gets in one reconciliation (MongoDB allows a
    change of one voting member at a time), the sequencing of fallible steps,
    and the results a reconciliation hands to the controller runtime. *)
From S2P Require Import Prelude.
Local Open Scope Z_scope.

(** ** pkg/util/scale *)
Module Scale.

(** A value of the interface: its two methods, on an unchanging receiver. *)
Record ReplicaSetScaler := MkScaler { DesiredReplicas : Z; CurrentReplicas : Z }.

Definition IsScalingDown (s : ReplicaSetScaler) : bool := DesiredReplicas s <? CurrentReplicas s.

Definition IsScalingUp (s : ReplicaSetScaler) : bool :=
  (CurrentReplicas s <? DesiredReplicas s) && negb (CurrentReplicas s =? 0).

Definition ReplicasThisReconciliation (s : ReplicaSetScaler) : Z :=
  if (CurrentReplicas s =? 0) || (CurrentReplicas s =? DesiredReplicas s) then DesiredReplicas s
  else if IsScalingDown s then int64 (CurrentReplicas s - 1)
  else int64 (CurrentReplicas s + 1).

Definition IsStillScaling (s : ReplicaSetScaler) : bool :=
  negb (ReplicasThisReconciliation s =? DesiredReplicas s).

Fixpoint AnyAreStillScaling (scalers : list ReplicaSetScaler) : bool :=
  match scalers with
  | [] => false
  | s :: rest => if IsStillScaling s then true else AnyAreStillScaling rest
  end.

(** The replica counts of successive reconciliations towards [desired]. *)
Definition next (desired current : Z) : Z := ReplicasThisReconciliation (MkScaler desired current).

Lemma next_step d c :
  0 < c → in_int64 c → in_int64 d →
  next d c = if c =? d then d else if d <? c then c - 1 else c + 1.
Proof.
  intros Hc Hc64 Hd64. unfold next, ReplicasThisReconciliation, IsScalingDown. simpl.
  destruct (Z.eqb_spec c 0); [lia|]. simpl. destruct (Z.eqb_spec c d); [done|].
  unfold in_int64 in *. destruct (Z.ltb_spec d c); rewrite int64_id; unfold in_int64; lia.
Qed.

Lemma next_zero d : next d 0 = d.
Proof. done. Qed.

Lemma iter_next_closed d c n :
  0 < c → 0 ≤ d → in_int64 c → in_int64 d → Z.of_nat n ≤ Z.abs (d - c) →
  Nat.iter n (next d) c = if d <? c then c - Z.of_nat n else c + Z.of_nat n.
Proof.
  intros Hc Hd Hc64 Hd64. unfold in_int64 in *. induction n as [|n IH]; intros Hn.
  - simpl. destruct (d <? c); lia.
  - rewrite Nat.iter_succ, IH by lia. unfold in_int64.
    destruct (Z.ltb_spec d c); rewrite next_step by (unfold in_int64; lia).
    + destruct (Z.eqb_spec (c - Z.of_nat n) d); [lia|].
      destruct (Z.ltb_spec d (c - Z.of_nat n)); lia.
    + destruct (Z.eqb_spec (c + Z.of_nat n) d); [lia|].
      destruct (Z.ltb_spec d (c + Z.of_nat n)); lia.
Qed.

(** Scaling terminates at the desired size, one member at a time: from a
    running set of [c] members towards [d], the count after [n] reconciliations
    is exactly [n] members nearer to [d], it is [d] after [|d - c|] of them and
    stays there, and no count on the way overflows or leaves the interval
    between [c] and [d]. *)
Lemma scaling_converges d c :
  0 < c → 0 < d → in_int64 c → in_int64 d →
  (∀ n, Z.of_nat n ≤ Z.abs (d - c) → Z.abs (Nat.iter n (next d) c - d) = Z.abs (d - c) - Z.of_nat n) ∧
  (∀ n, Z.min c d ≤ Nat.iter n (next d) c ≤ Z.max c d) ∧
  (∀ n, Z.abs (d - c) ≤ Z.of_nat n → Nat.iter n (next d) c = d).
Proof.
  intros Hc Hd Hc64 Hd64.
  assert (∀ n, Z.abs (d - c) ≤ Z.of_nat n → Nat.iter n (next d) c = d) as Hend.
  { intros n Hn. replace n with ((n - Z.to_nat (Z.abs (d - c))) + Z.to_nat (Z.abs (d - c)))%nat by lia.
    rewrite Nat.iter_add, (iter_next_closed d c) by first [done | lia].
    replace (if d <? c then _ else _) with d by (destruct (Z.ltb_spec d c); lia).
    apply Nat.iter_invariant; [|done]. intros _ ->. rewrite next_step by done.
    by rewrite Z.eqb_refl. }
  split_and!; [| |exact Hend].
  - intros n Hn. rewrite iter_next_closed by first [done | lia]. destruct (Z.ltb_spec d c); lia.
  - intros n. destruct (Z.le_gt_cases (Z.abs (d - c)) (Z.of_nat n)) as [Hn|Hn].
    + rewrite Hend by done. lia.
    + rewrite iter_next_closed by first [done | lia]. destruct (Z.ltb_spec d c); lia.
Qed.

(** A replica set is reported as still scaling exactly when it is at
    least two members away from its desired size, and a new one (no current
    member) never is: it starts at its desired size. *)
Theorem still_scaling_iff d c :
  0 ≤ c → in_int64 c → in_int64 d →
  IsStillScaling (MkScaler d c) = true ↔ c ≠ 0 ∧ 2 ≤ Z.abs (d - c).
Proof.
  intros Hc Hc64 Hd64. unfold IsStillScaling. rewrite negb_true_iff, Z.eqb_neq.
  destruct (Z.eq_dec c 0) as [->|Hne].
  - change (ReplicasThisReconciliation _) with (next d 0). rewrite next_zero. simpl. lia.
  - change (ReplicasThisReconciliation _) with (next d c). rewrite next_step by first [done | lia]. simpl.
    destruct (Z.eqb_spec c d); [lia|]. destruct (Z.ltb_spec d c); lia.
Qed.

Lemma still_scaling_iff_witness : IsStillScaling (MkScaler 5 3) = true.
Proof. apply still_scaling_iff; unfold in_int64; lia. Defined.
End Scale.

(** ** pkg/util/result *)

(** [reconcile.Result] of the controller runtime; durations are nanoseconds. *)
Record Result := MkResult { Requeue : bool; RequeueAfter : Z }.
#[global] Instance Result_eq_dec : EqDecision Result.
Proof. solve_decision. Defined.

Module ResultPkg.
Definition Second : Z := 1000000000.

Definition retry (after : Z) (isComplete : bool) : Result * bool :=
  (MkResult true (int64 (Second * after)), isComplete).
Definition StateComplete : Result * bool := retry 0 true.
Definition RetryState (after : Z) : Result * bool := retry after false.
Definition FailedState : Result * bool := RetryState 1.

Definition OK : Result := MkResult false 0.
Definition Retry (after : Z) : Result := MkResult true (int64 (Second * after)).
Definition Failed : Result := Retry 0.
End ResultPkg.

(** ** pkg/util/functions *)
Module Functions.
Section RunSequentially.
Context {W : Type}.

Fixpoint runInOrder (funcs : list (IO W bool)) : IO W bool :=
  match funcs with
  | [] => ret true
  | fn :: rest => successful <- fn ;; if successful then runInOrder rest else ret false
  end.

(** [for i := len(funcs) - 1; i >= 0; i--]: [n] is [i + 1]. *)
Fixpoint runReversed_from (funcs : list (IO W bool)) (n : nat) : IO W bool :=
  match n with
  | O => ret true
  | S i =>
      match (funcs !! i : option (IO W bool)) with
      | None => panic "index out of range"
      | Some fn => successful <- fn ;; if successful then runReversed_from funcs i else ret false
      end
  end.
Definition runReversed (funcs : list (IO W bool)) : IO W bool :=
  runReversed_from funcs (length funcs).

Definition RunSequentially (runSequentially : bool) (funcs : list (IO W bool)) : IO W bool :=
  if runSequentially then runInOrder funcs else runReversed funcs.

Lemma runReversed_from_app funcs rest n w :
  (n ≤ length funcs)%nat → runReversed_from (funcs ++ rest) n w = runReversed_from funcs n w.
Proof.
  revert w. induction n as [|n IH]; intros w Hn; [done|]. simpl. rewrite lookup_app_l by lia.
  destruct (funcs !! n) as [fn|]; [|done]. unfold bind.
  destruct (fn w) as [[[]| |] w']; try done. apply IH. lia.
Qed.

(** Running in reverse is running the reversed list in order: the same
    calls are made, each on the world the previous one left, up to the first
    that fails, panics or is not successful; no index is out of range. *)
Theorem runReversed_spec (funcs : list (IO W bool)) (w : W) :
  runReversed funcs w = runInOrder (reverse funcs) w.
Proof.
  revert w. induction funcs as [|fn funcs IH] using rev_ind; intros w; [done|].
  unfold runReversed. rewrite length_app, Nat.add_comm, reverse_snoc. simpl.
  rewrite lookup_app_r, Nat.sub_diag by done. simpl. unfold bind.
  destruct (fn w) as [[[]| |] w']; try done.
  rewrite runReversed_from_app by done. apply IH.
Qed.
End RunSequentially.
End Functions.
