(* ===== verification/Json.v ===== *)
(** * encoding/json and strconv: JSON text

    The operator stores the automation config and the last applied spec as JSON
    text and decides whether anything changed by comparing encoded bytes.  This
    file models the text: the tree of a JSON value, Go's compact encoding of it
    (with the HTML-safe escapes of [json.Marshal]), a decoder, and the proof that
    decoding an encoded tree returns the tree, so that comparing encoded bytes
    compares trees.

    Numbers are integers: every number the operator itself writes is one.
    Strings are byte strings; bytes from 128 up (UTF-8 sequences) are copied, and
    the decoder accepts [\u] escapes of ASCII characters, the only ones the
    encoder produces. *)
From S2P Require Import Prelude GoStd.
Local Open Scope N_scope.

Definition chr (n : N) : Ascii.ascii := Ascii.ascii_of_N n.

(** ** Decimal numbers: [strconv.Itoa] and the digit loop of the parsers *)

Definition digit_value (a : Ascii.ascii) : option N :=
  let n := Ascii.N_of_ascii a in
  if (48 <=? n) && (n <=? 57) then Some (n - 48) else None.

Definition starts_with_digit (s : string) : bool :=
  match s with String a _ => bool_decide (is_Some (digit_value a)) | EmptyString => false end.

(** Reads digits as long as there are any. *)
Fixpoint read_digits (acc : N) (s : string) : N * string :=
  match s with
  | String a s' =>
      match digit_value a with
      | Some d => read_digits (acc * 10 + d) s'
      | None => (acc, s)
      end
  | EmptyString => (acc, s)
  end.

Lemma read_digits_stop acc s : starts_with_digit s = false → read_digits acc s = (acc, s).
Proof.
  destruct s as [|a s]; simpl; [done|]. rewrite bool_decide_eq_false, <- eq_None_not_Some.
  by intros ->.
Qed.

Lemma digit_value_char d : d < 10 → digit_value (pretty_N_char d) = Some d.
Proof.
  intros Hd. assert (d = 0 ∨ d = 1 ∨ d = 2 ∨ d = 3 ∨ d = 4 ∨ d = 5 ∨ d = 6 ∨ d = 7 ∨ d = 8 ∨ d = 9)
    as H by lia. naive_solver.
Qed.

Lemma read_pretty_go x s : read_digits 0 (pretty_N_go x s) = read_digits x s.
Proof.
  revert s. induction (N.lt_wf_0 x) as [x _ IH]. intros s.
  assert (x = 0 ∨ 0 < x) as [->|Hx] by lia; [by rewrite pretty_N_go_0|].
  rewrite pretty_N_go_step by done. rewrite IH by (apply N.div_lt; lia). simpl.
  rewrite digit_value_char by (apply N.mod_lt; lia). f_equal.
  rewrite (N.div_mod x 10) at 3 by lia. lia.
Qed.

Lemma pretty_go_app x s t : pretty_N_go x s +:+ t = pretty_N_go x (s +:+ t).
Proof.
  revert s. induction (N.lt_wf_0 x) as [x _ IH]. intros s.
  assert (x = 0 ∨ 0 < x) as [->|Hx] by lia; [by rewrite !pretty_N_go_0|].
  rewrite !(pretty_N_go_step x) by done. rewrite IH by (apply N.div_lt; lia). done.
Qed.

Lemma pretty_go_digit x s : 0 < x ∨ starts_with_digit s = true → starts_with_digit (pretty_N_go x s) = true.
Proof.
  revert s. induction (N.lt_wf_0 x) as [x _ IH]. intros s Hs.
  assert (x = 0 ∨ 0 < x) as [->|Hx] by lia; [rewrite pretty_N_go_0; destruct Hs; [lia|done]|].
  rewrite pretty_N_go_step by done. apply IH; [apply N.div_lt; lia|]. right. simpl.
  rewrite digit_value_char by (apply N.mod_lt; lia). done.
Qed.

Lemma pretty_N_digit (x : N) t : starts_with_digit (pretty x +:+ t) = true.
Proof.
  unfold pretty, pretty_N. case_decide; [done|]. rewrite pretty_go_app.
  apply pretty_go_digit. left. lia.
Qed.

Lemma read_pretty_N (x : N) t :
  starts_with_digit t = false → read_digits 0 (pretty x +:+ t) = (x, t).
Proof.
  intros Ht. unfold pretty, pretty_N. case_decide as Hx; [subst; simpl; by rewrite read_digits_stop|].
  rewrite pretty_go_app, read_pretty_go. by apply read_digits_stop.
Qed.

Local Open Scope Z_scope.

(** [strconv.Itoa] / the [%d] verb. *)
Definition Itoa (z : Z) : string := pretty z.

(** An optional sign and at least one digit. *)
Definition read_int (s : string) : option (Z * string) :=
  let '(neg, s1) := match s with
                    | String a s' => if bool_decide (a = chr 45) then (true, s') else (false, s)
                    | EmptyString => (false, s)
                    end in
  if starts_with_digit s1
  then let '(n, rest) := read_digits 0 s1 in Some ((if neg then - Z.of_N n else Z.of_N n), rest)
  else None.

(** [strconv.ParseInt(s, 10, 64)] on values in range. *)
Definition ParseInt (s : string) : option Z :=
  match read_int s with Some (z, EmptyString) => Some z | _ => None end.

Lemma read_int_N (x : N) t :
  starts_with_digit t = false → read_int (pretty x +:+ t) = Some (Z.of_N x, t).
Proof.
  intros Ht. pose proof (read_pretty_N x t Ht) as Hr. pose proof (pretty_N_digit x t) as Hd.
  unfold read_int. destruct (pretty x +:+ t) as [|a s]; [done|].
  destruct (bool_decide (a = chr 45)) eqn:Ha; [apply bool_decide_eq_true in Ha; by subst|].
  by rewrite Hd, Hr.
Qed.

Lemma read_int_pretty (z : Z) t :
  starts_with_digit t = false → read_int (pretty z +:+ t) = Some (z, t).
Proof.
  intros Ht. destruct z as [|p|p].
  - by apply (read_int_N 0).
  - by apply (read_int_N (N.pos p)).
  - change (pretty (Z.neg p) +:+ t) with (String (chr 45) (pretty (N.pos p) +:+ t)).
    unfold read_int. rewrite bool_decide_true by done.
    by rewrite pretty_N_digit, read_pretty_N.
Qed.

(** Formatting an integer and parsing it back returns it. *)
Lemma ParseInt_Itoa z : ParseInt (Itoa z) = Some z.
Proof.
  unfold ParseInt, Itoa. pose proof (read_int_pretty z "" eq_refl) as H.
  rewrite string_app_nil_r in H. by rewrite H.
Qed.

(** ** Trees *)

Inductive json :=
| JNull
| JBool (b : bool)
| JNum (z : Z)
| JStr (s : string)
| JArr (l : list json)
| JObj (l : list (string * json)).

Section json_ind.
Context (P : json → Prop).
Hypothesis (Hnull : P JNull) (Hbool : ∀ b, P (JBool b)) (Hnum : ∀ z, P (JNum z))
  (Hstr : ∀ s, P (JStr s)) (Harr : ∀ l, Forall P l → P (JArr l))
  (Hobj : ∀ l, Forall (λ kv, P kv.2) l → P (JObj l)).
Fixpoint json_nested_ind (j : json) : P j :=
  match j with
  | JNull => Hnull
  | JBool b => Hbool b
  | JNum z => Hnum z
  | JStr s => Hstr s
  | JArr l => Harr l ((fix go l : Forall P l :=
      match l with
      | [] => Forall_nil_2 _
      | x :: l' => Forall_cons_2 _ _ _ (json_nested_ind x) (go l')
      end) l)
  | JObj l => Hobj l ((fix go l : Forall (λ kv, P kv.2) l :=
      match l with
      | [] => Forall_nil_2 _
      | x :: l' => Forall_cons_2 _ _ _ (json_nested_ind x.2) (go l')
      end) l)
  end.
End json_ind.

(** ** Encoding: [json.Marshal] *)

Definition quote : Ascii.ascii := chr 34.
Definition backslash : Ascii.ascii := chr 92.

Definition hex_digit (n : N) : Ascii.ascii := if (n <? 10)%N then chr (48 + n) else chr (87 + n).

Definition escape_char (a : Ascii.ascii) : string :=
  let n := Ascii.N_of_ascii a in
  let esc c := String backslash (String c EmptyString) in
  if (n =? 34)%N then esc quote
  else if (n =? 92)%N then esc backslash
  else if (n =? 10)%N then esc (chr 110)
  else if (n =? 13)%N then esc (chr 114)
  else if (n =? 9)%N then esc (chr 116)
  else if (n <? 32)%N || (n =? 60)%N || (n =? 62)%N || (n =? 38)%N
  then String backslash ("u00" +:+ String (hex_digit (n / 16)) (String (hex_digit (n mod 16)) EmptyString))
  else String a EmptyString.

Fixpoint escape (s : string) : string :=
  match s with EmptyString => EmptyString | String a s' => escape_char a +:+ escape s' end.

Definition print_string (s : string) : string := String quote (escape s +:+ String quote EmptyString).

Fixpoint print_json (j : json) : string :=
  match j with
  | JNull => "null"
  | JBool b => if b then "true" else "false"
  | JNum z => Itoa z
  | JStr s => print_string s
  | JArr l => "[" +:+ Join (map print_json l) "," +:+ "]"
  | JObj l => "{" +:+ Join (map (λ kv, print_string kv.1 +:+ ":" +:+ print_json kv.2) l) "," +:+ "}"
  end.

(** ** Decoding: [json.Unmarshal] into a tree *)

Definition is_space (a : Ascii.ascii) : bool :=
  let n := Ascii.N_of_ascii a in (n =? 32)%N || (n =? 9)%N || (n =? 10)%N || (n =? 13)%N.

Fixpoint skip_spaces (s : string) : string :=
  match s with String a s' => if is_space a then skip_spaces s' else s | EmptyString => s end.

Definition hex_value (a : Ascii.ascii) : option N :=
  let n := Ascii.N_of_ascii a in
  if ((48 <=? n) && (n <=? 57))%N then Some (n - 48)%N
  else if ((97 <=? n) && (n <=? 102))%N then Some (n - 87)%N
  else if ((65 <=? n) && (n <=? 70))%N then Some (n - 55)%N
  else None.

(** The character a two-character escape stands for. *)
Definition unescape_simple (e : Ascii.ascii) : option Ascii.ascii :=
  let n := Ascii.N_of_ascii e in
  if (n =? 34)%N || (n =? 92)%N || (n =? 47)%N then Some e
  else if (n =? 98)%N then Some (chr 8)
  else if (n =? 102)%N then Some (chr 12)
  else if (n =? 110)%N then Some (chr 10)
  else if (n =? 114)%N then Some (chr 13)
  else if (n =? 116)%N then Some (chr 9)
  else None.

Definition unescape_hex (h1 h2 h3 h4 : Ascii.ascii) : option Ascii.ascii :=
  match hex_value h1, hex_value h2, hex_value h3, hex_value h4 with
  | Some 0%N, Some 0%N, Some h, Some l => if (h <? 8)%N then Some (chr (16 * h + l)) else None
  | _, _, _, _ => None
  end.

(** The rest of a string literal, after its opening quote. *)
Fixpoint read_string (s : string) : option (string * string) :=
  let cons a r := match r with Some (x, rest) => Some (String a x, rest) | None => None end in
  match s with
  | EmptyString => None
  | String a s' =>
      if bool_decide (a = quote) then Some (EmptyString, s')
      else if bool_decide (a = backslash) then
        match s' with
        | EmptyString => None
        | String e s2 =>
            if bool_decide (e = chr 117) then
              match s2 with
              | String h1 (String h2 (String h3 (String h4 s3))) =>
                  match unescape_hex h1 h2 h3 h4 with
                  | Some c => cons c (read_string s3)
                  | None => None
                  end
              | _ => None
              end
            else match unescape_simple e with Some c => cons c (read_string s2) | None => None end
        end
      else if (Ascii.N_of_ascii a <? 32)%N then None
      else cons a (read_string s')
  end.

Fixpoint drop_prefix (pre s : string) : option string :=
  match pre, s with
  | EmptyString, _ => Some s
  | String a pre', String b s' => if bool_decide (a = b) then drop_prefix pre' s' else None
  | String _ _, EmptyString => None
  end.

(** The decoder.  Each call of a value, of the elements of an array or of the
    members of an object takes one unit of fuel; a document of [n] bytes has at
    most [n] of them, which is the fuel [Unmarshal] starts with. *)
Fixpoint parse_value (fuel : nat) (s : string) {struct fuel} : option (json * string) :=
  match fuel with
  | O => None
  | S f =>
      let s := skip_spaces s in
      match s with
      | EmptyString => None
      | String a s' =>
          if bool_decide (a = quote) then
            match read_string s' with Some (x, r) => Some (JStr x, r) | None => None end
          else if bool_decide (a = chr 91) then
            match drop_prefix "]" (skip_spaces s') with
            | Some r => Some (JArr [], r)
            | None => match parse_elems f s' with Some (l, r) => Some (JArr l, r) | None => None end
            end
          else if bool_decide (a = chr 123) then
            match drop_prefix "}" (skip_spaces s') with
            | Some r => Some (JObj [], r)
            | None => match parse_members f s' with Some (l, r) => Some (JObj l, r) | None => None end
            end
          else
            match drop_prefix "null" s with
            | Some r => Some (JNull, r)
            | None =>
            match drop_prefix "true" s with
            | Some r => Some (JBool true, r)
            | None =>
            match drop_prefix "false" s with
            | Some r => Some (JBool false, r)
            | None => match read_int s with Some (z, r) => Some (JNum z, r) | None => None end
            end end end
      end
  end
with parse_elems (fuel : nat) (s : string) {struct fuel} : option (list json * string) :=
  match fuel with
  | O => None
  | S f =>
      match parse_value f s with
      | None => None
      | Some (v, r) =>
          match drop_prefix "]" (skip_spaces r) with
          | Some r' => Some ([v], r')
          | None =>
              match drop_prefix "," (skip_spaces r) with
              | Some r' => match parse_elems f r' with Some (l, r2) => Some (v :: l, r2) | None => None end
              | None => None
              end
          end
      end
  end
with parse_members (fuel : nat) (s : string) {struct fuel} : option (list (string * json) * string) :=
  match fuel with
  | O => None
  | S f =>
      match drop_prefix (String quote EmptyString) (skip_spaces s) with
      | None => None
      | Some s1 =>
          match read_string s1 with
          | None => None
          | Some (k, s2) =>
              match drop_prefix ":" (skip_spaces s2) with
              | None => None
              | Some s3 =>
                  match parse_value f s3 with
                  | None => None
                  | Some (v, r) =>
                      match drop_prefix "}" (skip_spaces r) with
                      | Some r' => Some ([(k, v)], r')
                      | None =>
                          match drop_prefix "," (skip_spaces r) with
                          | Some r' =>
                              match parse_members f r' with
                              | Some (l, r2) => Some ((k, v) :: l, r2)
                              | None => None
                              end
                          | None => None
                          end
                      end
                  end
              end
          end
      end
  end.

Definition parse_json (s : string) : option json :=
  match parse_value (String.length s) s with
  | Some (j, r) => if bool_decide (skip_spaces r = EmptyString) then Some j else None
  | None => None
  end.

(** ** Decoding inverts encoding *)

Lemma read_escape_char a t :
  read_string (escape_char a +:+ t) =
  match read_string t with Some (x, rest) => Some (String a x, rest) | None => None end.
Proof. destruct a as [[] [] [] [] [] [] [] []]; reflexivity. Qed.

Lemma read_print_string s t :
  read_string (escape s +:+ String quote t) = Some (s, t).
Proof.
  induction s as [|a s IH]; [done|]. cbn [escape]. rewrite string_app_assoc, read_escape_char.
  by rewrite IH.
Qed.

(** The number of nested calls the decoder makes on a tree. *)
Fixpoint needed (j : json) : nat :=
  match j with
  | JArr l => S (foldr (λ x n, S (needed x) + n) 0 l)
  | JObj l => S (foldr (λ kv n, S (needed kv.2) + n) 0 l)
  | _ => 1
  end%nat.

Lemma string_length_app s t : String.length (s +:+ t) = (String.length s + String.length t)%nat.
Proof. induction s as [|a s IH]; [done|]. rewrite string_app_cons. simpl. by rewrite IH. Qed.

Lemma Join_length {A} (f : A → string) (g : A → nat) (l : list A) :
  Forall (λ x, (g x ≤ String.length (f x))%nat) l →
  (foldr (λ x n, S (g x) + n) 0 l ≤ S (String.length (Join (map f l) ",")))%nat.
Proof.
  induction 1 as [|x l Hx Hl IH]; simpl; [lia|].
  destruct l as [|y l]; simpl in *; [lia|]. rewrite !string_length_app. simpl. lia.
Qed.

Lemma Itoa_pos z : (1 ≤ String.length (Itoa z))%nat.
Proof.
  pose proof (read_int_pretty z "" eq_refl) as H. rewrite string_app_nil_r in H.
  unfold Itoa. destruct (pretty z); [done | simpl; lia].
Qed.

Lemma needed_length j : (needed j ≤ String.length (print_json j))%nat.
Proof.
  induction j as [|[]|z|s|l IH|l IH] using json_nested_ind; try (simpl; lia).
  - apply Itoa_pos.
  - apply Join_length in IH. cbn [needed print_json]. rewrite !string_length_app. simpl in *. lia.
  - cbn [needed print_json]. rewrite !string_length_app.
    pose proof (Join_length (λ kv : string * json, print_string kv.1 +:+ ":" +:+ print_json kv.2)
      (λ kv, needed kv.2) l) as H.
    ospecialize (H _); [|simpl in *; lia].
    eapply Forall_impl; [exact IH|]. simpl. intros kv Hkv. rewrite !string_length_app. lia.
Qed.

Lemma print_starts j t :
  ∃ a s, print_json j +:+ t = String a s ∧ is_space a = false ∧ a ≠ chr 93 ∧ a ≠ chr 125.
Proof.
  destruct j as [|[]|z|s|l|l]; try (eexists _, _; by split_and!).
  simpl.
  assert (∃ a s, Itoa z +:+ t = String a s ∧ (a = chr 45 ∨ is_Some (digit_value a))) as (a & s & E & Ha).
  { assert (∀ x : N, ∃ a s, pretty x +:+ t = String a s ∧ is_Some (digit_value a)) as Hx.
    { intros x. pose proof (pretty_N_digit x t) as H. destruct (pretty x +:+ t) as [|a s]; [done|].
      simpl in H. apply bool_decide_eq_true in H. eauto. }
    unfold Itoa. destruct z as [|p|p].
    - destruct (Hx 0%N) as (a & s & ? & ?). eauto.
    - destruct (Hx (N.pos p)) as (a & s & ? & ?). eauto.
    - eexists _, _. split; [reflexivity | by left]. }
  exists a, s. rewrite E. split; [done|].
  destruct Ha as [->|Ha]; [done|].
  destruct a as [[] [] [] [] [] [] [] []]; cbv in Ha; by destruct Ha.
Qed.

Lemma parse_value_cons fuel a s :
  is_space a = false →
  parse_value (S fuel) (String a s) =
    if bool_decide (a = quote) then
      match read_string s with Some (x, r) => Some (JStr x, r) | None => None end
    else if bool_decide (a = chr 91) then
      match drop_prefix "]" (skip_spaces s) with
      | Some r => Some (JArr [], r)
      | None => match parse_elems fuel s with Some (l, r) => Some (JArr l, r) | None => None end
      end
    else if bool_decide (a = chr 123) then
      match drop_prefix "}" (skip_spaces s) with
      | Some r => Some (JObj [], r)
      | None => match parse_members fuel s with Some (l, r) => Some (JObj l, r) | None => None end
      end
    else
      match drop_prefix "null" (String a s) with
      | Some r => Some (JNull, r)
      | None =>
      match drop_prefix "true" (String a s) with
      | Some r => Some (JBool true, r)
      | None =>
      match drop_prefix "false" (String a s) with
      | Some r => Some (JBool false, r)
      | None => match read_int (String a s) with Some (z, r) => Some (JNum z, r) | None => None end
      end end end.
Proof. intros Ha. cbn [parse_value skip_spaces]. by rewrite Ha. Qed.

Lemma parse_value_int fuel z t :
  starts_with_digit t = false → parse_value (S fuel) (Itoa z +:+ t) = Some (JNum z, t).
Proof.
  intros Ht. pose proof (read_int_pretty z t Ht) as Hr. fold (Itoa z) in Hr.
  destruct (print_starts (JNum z) t) as (a & s & E & Ha & _). simpl in E. rewrite E in *.
  rewrite parse_value_cons by done. rewrite Hr. unfold read_int in Hr.
  destruct a as [[] [] [] [] [] [] [] []]; first [reflexivity | discriminate Hr].
Qed.

Lemma parse_value_str fuel s t :
  parse_value (S fuel) (print_string s +:+ t) = Some (JStr s, t).
Proof.
  unfold print_string. rewrite string_app_cons, string_app_assoc, parse_value_cons by done.
  rewrite bool_decide_true by done. change (String quote "" +:+ t) with (String quote t).
  by rewrite read_print_string.
Qed.

Lemma skip_spaces_print j t : skip_spaces (print_json j +:+ t) = print_json j +:+ t.
Proof.
  destruct (print_starts j t) as (a & s & E & Ha & _). rewrite E. simpl. by rewrite Ha.
Qed.

(** What the two list parsers share: the separators that may follow a value. *)
Definition ends_value (t : string) : Prop := starts_with_digit t = false.

Definition parses (j : json) : Prop :=
  ∀ fuel t, (needed j ≤ fuel)%nat → ends_value t → parse_value fuel (print_json j +:+ t) = Some (j, t).

(** The steps of the list parsers on what the encoder prints. *)
Lemma drop_separator (c : Ascii.ascii) t :
  is_space c = false → drop_prefix (String c "") (skip_spaces (String c "" +:+ t)) = Some t.
Proof. intros Hc. simpl. rewrite Hc. simpl. by rewrite bool_decide_true. Qed.

Lemma keep_separator (c d : Ascii.ascii) t :
  is_space c = false → d ≠ c → drop_prefix (String d "") (skip_spaces (String c "" +:+ t)) = None.
Proof. intros Hc Hd. simpl. rewrite Hc. simpl. by rewrite bool_decide_false. Qed.

Lemma drop_quote k t :
  drop_prefix (String quote EmptyString) (skip_spaces (print_string k +:+ t)) =
  Some (escape k +:+ String quote t).
Proof.
  unfold print_string. rewrite string_app_cons, string_app_assoc. by apply drop_separator.
Qed.

Lemma parse_elems_print x l fuel t :
  Forall parses (x :: l) → (foldr (λ x n, S (needed x) + n) 0 (x :: l) ≤ fuel)%nat →
  parse_elems fuel (Join (map print_json (x :: l)) "," +:+ "]" +:+ t) = Some (x :: l, t).
Proof.
  revert x fuel. induction l as [|y l IH]; intros x fuel HF Hf;
    (destruct fuel as [|fuel]; [simpl in Hf; lia|]); apply Forall_cons in HF as [Hx HF].
  - cbn [map Join parse_elems].
    by rewrite Hx, drop_separator by (done || (simpl in Hf; lia)).
  - change (Join _ _) with (print_json x +:+ "," +:+ Join (map print_json (y :: l)) ",").
    cbn [parse_elems]. rewrite !string_app_assoc.
    rewrite Hx, keep_separator, drop_separator by (done || (simpl in Hf; lia)).
    rewrite IH; [done..|]. simpl in *. lia.
Qed.

Lemma parse_members_print x l fuel t :
  Forall (λ kv, parses kv.2) (x :: l) →
  (foldr (λ kv n, S (needed kv.2) + n) 0 (x :: l) ≤ fuel)%nat →
  parse_members fuel
    (Join (map (λ kv, print_string kv.1 +:+ ":" +:+ print_json kv.2) (x :: l)) "," +:+ "}" +:+ t)
    = Some (x :: l, t).
Proof.
  set (f := λ kv : string * json, print_string kv.1 +:+ ":" +:+ print_json kv.2).
  revert x fuel. induction l as [|y l IH]; intros [k v] fuel HF Hf;
    (destruct fuel as [|fuel]; [simpl in Hf; lia|]); apply Forall_cons in HF as [Hx HF]; cbn [snd] in Hx.
  - change (Join _ _) with (print_string k +:+ ":" +:+ print_json v).
    cbn [parse_members]. rewrite !string_app_assoc.
    rewrite drop_quote, read_print_string, drop_separator by done.
    by rewrite Hx, drop_separator by (done || (simpl in Hf; lia)).
  - change (Join _ _) with ((print_string k +:+ ":" +:+ print_json v) +:+ "," +:+ Join (map f (y :: l)) ",").
    cbn [parse_members]. rewrite !string_app_assoc.
    rewrite drop_quote, read_print_string, drop_separator by done.
    rewrite Hx, keep_separator, drop_separator by (done || (simpl in Hf; lia)).
    rewrite IH; [done..|]. simpl in *. lia.
Qed.

Lemma parse_print_value j : parses j.
Proof.
  induction j as [|[]|z|s|l IH|l IH] using json_nested_ind; intros [|fuel] t Hf Ht;
    try (simpl in Hf; lia); try done.
  - by apply parse_value_int.
  - apply parse_value_str.
  - destruct l as [|x l]; [done|]. cbn [print_json]. rewrite !string_app_assoc.
    rewrite !string_app_cons, parse_value_cons by done. simpl (bool_decide _). cbn iota.
    destruct (print_starts x "") as (a & s & E & Ha & Hb & _). rewrite string_app_nil_r in E.
    assert (∃ s', Join (map print_json (x :: l)) "," = String a s') as [s' E'].
    { simpl. rewrite E. destruct l; simpl; eauto. }
    rewrite string_app_nil_l.
    pose proof (parse_elems_print x l fuel t IH) as HP. rewrite E' in *.
    rewrite !string_app_cons. simpl (skip_spaces _). rewrite Ha.
    simpl (drop_prefix _ _). rewrite bool_decide_false by done.
    rewrite !string_app_cons in HP. rewrite HP; [done|]. simpl in *. lia.
  - destruct l as [|x l]; [done|]. cbn [print_json]. rewrite !string_app_assoc.
    rewrite !string_app_cons, parse_value_cons by done. simpl (bool_decide _). cbn iota.
    rewrite string_app_nil_l.
    assert (∃ s', Join (map (λ kv, print_string kv.1 +:+ ":" +:+ print_json kv.2) (x :: l)) ","
      = String quote s') as [s' E'].
    { simpl. destruct l; unfold print_string; rewrite !string_app_cons; eauto. }
    pose proof (parse_members_print x l fuel t IH) as HP. rewrite E' in *.
    rewrite !string_app_cons. simpl (drop_prefix _ _). cbn iota.
    rewrite !string_app_cons in HP. rewrite HP; [done|]. simpl in *. lia.
Qed.

Lemma parse_print_json j : parse_json (print_json j) = Some j.
Proof.
  unfold parse_json. pose proof (parse_print_value j (String.length (print_json j)) "") as H.
  rewrite string_app_nil_r in H. rewrite H; [done | apply needed_length | done].
Qed.

#[global] Instance print_json_inj : Inj (=) (=) print_json.
Proof. intros j1 j2 E. apply (f_equal parse_json) in E. rewrite !parse_print_json in E. by injection E. Qed.
