(* ===== verification/Hashes.v ===== *)
(** * crypto/md5, crypto/sha1, crypto/sha256, crypto/hmac and encoding/hex

    The digests the SCRAM credentials are computed with, as functions on byte
    strings, each with the length of its result.  A [hash.Hash] constructor is a
    record of what the operator asks of it: its size, its block size and the
    digest of the bytes written to it. *)
From S2P Require Import Prelude GoStd.
Local Open Scope N_scope.

(** ** Bytes and 32-bit words *)

Definition byte_of (n : N) : Ascii.ascii := Ascii.ascii_of_N (n mod 256).
Definition bytes_of (s : string) : list N := map Ascii.N_of_ascii (String.list_ascii_of_string s).
Definition string_of (l : list N) : string := String.string_of_list_ascii (map byte_of l).

Definition w32 (n : N) : N := n mod 2 ^ 32.
Definition add32 (a b : N) : N := w32 (a + b).
Definition not32 (a : N) : N := N.lxor a (2 ^ 32 - 1).
Definition rotl (k a : N) : N := N.lor (w32 (N.shiftl a k)) (N.shiftr a (32 - k)).
Definition rotr (k a : N) : N := rotl (32 - k) a.

Definition word_be (n : N) : list N :=
  map (λ k, N.shiftr n k mod 256) [24; 16; 8; 0].
Definition word_le (n : N) : list N := reverse (word_be n).

(** Consecutive groups of [k] elements; the padded message is a multiple of it. *)
Fixpoint chunks (fuel k : nat) (l : list N) : list (list N) :=
  match fuel, l with
  | S f, _ :: _ => take k l :: chunks f k (drop k l)
  | _, _ => []
  end.

Definition of_be (l : list N) : N := foldl (λ acc b, acc * 256 + b) 0 l.
Definition of_le (l : list N) : N := of_be (reverse l).

(** The padding of all three digests: a one bit, zeroes, the length in bits. *)
Definition pad (len_bytes : N → list N) (msg : list N) : list N :=
  let n := N.of_nat (length msg) in
  let z := (119 - n mod 64) mod 64 in
  msg ++ 128 :: replicate (N.to_nat z) 0 ++ len_bytes (8 * n).

Definition len_be (n : N) : list N := word_be (n / 2 ^ 32) ++ word_be n.
Definition len_le (n : N) : list N := reverse (len_be n).

Definition blocks (l : list N) : list (list N) := chunks (S (length l / 64)) 64 l.
Definition words (conv : list N → N) (block : list N) : list N := map conv (chunks 16 4 block).

(** ** SHA-256 *)

Definition sha256_k : list N :=
  [1116352408; 1899447441; 3049323471; 3921009573; 961987163; 1508970993;
   2453635748; 2870763221; 3624381080; 310598401; 607225278; 1426881987;
   1925078388; 2162078206; 2614888103; 3248222580; 3835390401; 4022224774;
   264347078; 604807628; 770255983; 1249150122; 1555081692; 1996064986;
   2554220882; 2821834349; 2952996808; 3210313671; 3336571891; 3584528711;
   113926993; 338241895; 666307205; 773529912; 1294757372; 1396182291;
   1695183700; 1986661051; 2177026350; 2456956037; 2730485921; 2820302411;
   3259730800; 3345764771; 3516065817; 3600352804; 4094571909; 275423344;
   430227734; 506948616; 659060556; 883997877; 958139571; 1322822218;
   1537002063; 1747873779; 1955562222; 2024104815; 2227730452; 2361852424;
   2428436474; 2756734187; 3204031479; 3329325298].

Definition sha256_init : list N :=
  [1779033703; 3144134277; 1013904242; 2773480762; 1359893119; 2600822924;
   528734635; 1541459225].

(** The message schedule, kept as its last sixteen words, newest first. *)
Fixpoint sha256_schedule (n : nat) (w : list N) : list N :=
  match n with
  | O => []
  | S n' =>
      let w15 := nth 14 w 0 in
      let w2 := nth 1 w 0 in
      let s0 := N.lxor (N.lxor (rotr 7 w15) (rotr 18 w15)) (N.shiftr w15 3) in
      let s1 := N.lxor (N.lxor (rotr 17 w2) (rotr 19 w2)) (N.shiftr w2 10) in
      let new := add32 (add32 (nth 15 w 0) s0) (add32 (nth 6 w 0) s1) in
      new :: sha256_schedule n' (new :: take 15 w)
  end.

Definition sha256_round (st : list N) (kw : N * N) : list N :=
  match st with
  | [a; b; c; d; e; f; g; h] =>
      let s1 := N.lxor (N.lxor (rotr 6 e) (rotr 11 e)) (rotr 25 e) in
      let ch := N.lxor (N.land e f) (N.land (not32 e) g) in
      let t1 := add32 (add32 h s1) (add32 ch (add32 kw.1 kw.2)) in
      let s0 := N.lxor (N.lxor (rotr 2 a) (rotr 13 a)) (rotr 22 a) in
      let maj := N.lxor (N.lxor (N.land a b) (N.land a c)) (N.land b c) in
      [add32 t1 (add32 s0 maj); a; b; c; add32 d t1; e; f; g]
  | _ => st
  end.

Definition sha256_block (st : list N) (block : list N) : list N :=
  let w := words of_be block in
  let ws := w ++ sha256_schedule 48 (reverse w) in
  zip_with add32 st (foldl sha256_round st (zip sha256_k ws)).

(** [out k l]: the digest words as bytes, each of the first [k] words once. *)
Definition digest_bytes (k : nat) (conv : N → list N) (st : list N) : list N :=
  flat_map (λ i, conv (nth i st 0)) (seq 0 k).

Definition sha256_sum (s : string) : string :=
  string_of (digest_bytes 8 word_be (foldl sha256_block sha256_init (blocks (pad len_be (bytes_of s))))).

(** ** SHA-1 *)

Definition sha1_init : list N := [1732584193; 4023233417; 2562383102; 271733878; 3285377520].

Fixpoint sha1_schedule (n : nat) (w : list N) : list N :=
  match n with
  | O => []
  | S n' =>
      let new := rotl 1 (N.lxor (N.lxor (nth 2 w 0) (nth 7 w 0)) (N.lxor (nth 13 w 0) (nth 15 w 0))) in
      new :: sha1_schedule n' (new :: take 15 w)
  end.

Definition sha1_round (st : list N) (iw : nat * N) : list N :=
  match st with
  | [a; b; c; d; e] =>
      let '(f, k) :=
        if (iw.1 <? 20)%nat then (N.lxor (N.land b c) (N.land (not32 b) d), 1518500249)
        else if (iw.1 <? 40)%nat then (N.lxor b (N.lxor c d), 1859775393)
        else if (iw.1 <? 60)%nat
        then (N.lxor (N.lxor (N.land b c) (N.land b d)) (N.land c d), 2400959708)
        else (N.lxor b (N.lxor c d), 3395469782) in
      [add32 (add32 (rotl 5 a) f) (add32 e (add32 k iw.2)); a; rotl 30 b; c; d]
  | _ => st
  end.

Definition sha1_block (st : list N) (block : list N) : list N :=
  let w := words of_be block in
  let ws := w ++ sha1_schedule 64 (reverse w) in
  zip_with add32 st (foldl sha1_round st (zip (seq 0 80) ws)).

Definition sha1_sum (s : string) : string :=
  string_of (digest_bytes 5 word_be (foldl sha1_block sha1_init (blocks (pad len_be (bytes_of s))))).

(** ** MD5 *)

Definition md5_k : list N :=
  [3614090360; 3905402710; 606105819; 3250441966; 4118548399; 1200080426;
   2821735955; 4249261313; 1770035416; 2336552879; 4294925233; 2304563134;
   1804603682; 4254626195; 2792965006; 1236535329; 4129170786; 3225465664;
   643717713; 3921069994; 3593408605; 38016083; 3634488961; 3889429448;
   568446438; 3275163606; 4107603335; 1163531501; 2850285829; 4243563512;
   1735328473; 2368359562; 4294588738; 2272392833; 1839030562; 4259657740;
   2763975236; 1272893353; 4139469664; 3200236656; 681279174; 3936430074;
   3572445317; 76029189; 3654602809; 3873151461; 530742520; 3299628645;
   4096336452; 1126891415; 2878612391; 4237533241; 1700485571; 2399980690;
   4293915773; 2240044497; 1873313359; 4264355552; 2734768916; 1309151649;
   4149444226; 3174756917; 718787259; 3951481745].

Definition md5_shift : list N :=
  [7; 12; 17; 22; 7; 12; 17; 22; 7; 12; 17; 22; 7; 12; 17; 22;
   5; 9; 14; 20; 5; 9; 14; 20; 5; 9; 14; 20; 5; 9; 14; 20;
   4; 11; 16; 23; 4; 11; 16; 23; 4; 11; 16; 23; 4; 11; 16; 23;
   6; 10; 15; 21; 6; 10; 15; 21; 6; 10; 15; 21; 6; 10; 15; 21].

Definition md5_init : list N := [1732584193; 4023233417; 2562383102; 271733878].

Definition md5_round (m : list N) (st : list N) (x : nat * (N * N)) : list N :=
  let '(i, (k, s)) := x in
  match st with
  | [a; b; c; d] =>
      let '(f, g) :=
        if (i <? 16)%nat then (N.lor (N.land b c) (N.land (not32 b) d), i)
        else if (i <? 32)%nat then (N.lor (N.land d b) (N.land (not32 d) c), (5 * i + 1) mod 16)%nat
        else if (i <? 48)%nat then (N.lxor b (N.lxor c d), (3 * i + 5) mod 16)%nat
        else (N.lxor c (N.lor b (not32 d)), (7 * i) mod 16)%nat in
      let t := add32 (add32 a f) (add32 k (nth g m 0)) in
      [d; add32 b (rotl s t); b; c]
  | _ => st
  end.

Definition md5_block (st : list N) (block : list N) : list N :=
  zip_with add32 st
    (foldl (md5_round (words of_le block)) st (zip (seq 0 64) (zip md5_k md5_shift))).

Definition md5_sum (s : string) : string :=
  string_of (digest_bytes 4 word_le (foldl md5_block md5_init (blocks (pad len_le (bytes_of s))))).

(** ** encoding/hex *)

Definition hex_char (n : N) : Ascii.ascii := Ascii.ascii_of_N (if n <? 10 then 48 + n else 87 + n).
Definition hex_encode (s : string) : string :=
  String.string_of_list_ascii (flat_map (λ b, [hex_char (b / 16); hex_char (b mod 16)]) (bytes_of s)).

(** ** hash.Hash and crypto/hmac *)

Record Hash := MkHash { Size : nat; BlockSize : nat; Sum : string → string }.

Definition sha1_New : Hash := MkHash 20 64 sha1_sum.
Definition sha256_New : Hash := MkHash 32 64 sha256_sum.

Definition xor_pad (c : N) (key : list N) : string := string_of (map (N.lxor c) key).

(** [hmac.New(h, key)], the message written to it, [Sum(nil)]. *)
Definition hmac_Sum (h : Hash) (key msg : string) : string :=
  let key := if (BlockSize h <? String.length key)%nat then Sum h key else key in
  let k := bytes_of key ++ replicate (BlockSize h - String.length key) 0 in
  Sum h (xor_pad 92 k +:+ Sum h (xor_pad 54 k +:+ msg)).

(** A digest function that returns [Size] bytes. *)
Class HashOk (h : Hash) : Prop := Sum_length : ∀ s, String.length (Sum h s) = Size h.

Lemma string_of_length l : String.length (string_of l) = length l.
Proof. unfold string_of. induction l as [|x l IH]; [done|]. simpl. by rewrite IH. Qed.

Lemma digest_bytes_length k conv st :
  (∀ n, length (conv n) = 4%nat) → length (digest_bytes k conv st) = (4 * k)%nat.
Proof.
  intros Hc. unfold digest_bytes.
  enough (∀ i, length (flat_map (λ i, conv (nth i st 0)) (seq i k)) = (4 * k)%nat) as H by apply H.
  induction k as [|k IH]; intros i; [done|]. cbn [seq flat_map]. rewrite length_app, Hc, IH. lia.
Qed.

#[global] Instance sha1_ok : HashOk sha1_New.
Proof. intros s. cbn [Sum Size sha1_New]. unfold sha1_sum. by rewrite string_of_length, digest_bytes_length. Qed.
#[global] Instance sha256_ok : HashOk sha256_New.
Proof. intros s. cbn [Sum Size sha256_New]. unfold sha256_sum. by rewrite string_of_length, digest_bytes_length. Qed.

Lemma hmac_Sum_length `{HashOk h} key msg : String.length (hmac_Sum h key msg) = Size h.
Proof. apply Sum_length. Qed.

(** Test vectors of RFC 1321, FIPS 180 and RFC 2202. *)
Example md5_abc : hex_encode (md5_sum "abc") = "900150983cd24fb0d6963f7d28e17f72".
Proof. vm_compute. reflexivity. Qed.
Example sha1_abc : hex_encode (sha1_sum "abc") = "a9993e364706816aba3e25717850c26c9cd0d89d".
Proof. vm_compute. reflexivity. Qed.
Example sha256_abc :
  hex_encode (sha256_sum "abc") = "ba7816bf8f01cfea414140de5dae2223b00361a396177a9cb410ff61f20015ad".
Proof. vm_compute. reflexivity. Qed.
Example sha1_two_blocks :
  hex_encode (sha1_sum "abcdbcdecdefdefgefghfghighijhijkijkljklmklmnlmnomnopnopq")
  = "84983e441c3bd26ebaae4aa1f95129e5e54670f1".
Proof. vm_compute. reflexivity. Qed.
Example hmac_sha1_jefe :
  hex_encode (hmac_Sum sha1_New "Jefe" "what do ya want for nothing?")
  = "effcdf6ae5eb2fa2d27416d5f184df9c259a7c79".
Proof. vm_compute. reflexivity. Qed.
