(* ===== verification/Base64.v ===== *)
(** * encoding/base64

    The standard encoding with padding ([base64.StdEncoding]) and the alphabet of
    [base64.URLEncoding], on byte strings, and the proof that decoding inverts
    encoding. *)
From S2P Require Import Prelude GoStd.
Local Open Scope N_scope.

(** ** The alphabets *)

Definition b64_char (n : N) : Ascii.ascii :=
  Ascii.ascii_of_N
    (if n <? 26 then 65 + n
     else if n <? 52 then 71 + n
     else if n <? 62 then n - 4
     else if n =? 62 then 43 else 47).

Definition b64_value (a : Ascii.ascii) : option N :=
  let n := Ascii.N_of_ascii a in
  if (65 <=? n) && (n <=? 90) then Some (n - 65)
  else if (97 <=? n) && (n <=? 122) then Some (n - 71)
  else if (48 <=? n) && (n <=? 57) then Some (n + 4)
  else if n =? 43 then Some 62
  else if n =? 47 then Some 63
  else None.

(** The URL alphabet has [-] and [_] for [+] and [/]. *)
Definition b64url_char (n : N) : Ascii.ascii :=
  if n =? 62 then Ascii.ascii_of_N 45 else if n =? 63 then Ascii.ascii_of_N 95 else b64_char n.

Definition padding : Ascii.ascii := Ascii.ascii_of_N 61.

(** ** Encoding *)

Section Encode.
Context (char : N → Ascii.ascii).

Fixpoint EncodeToString (s : string) : string :=
  match s with
  | String a (String b (String c s')) =>
      let x := Ascii.N_of_ascii a in let y := Ascii.N_of_ascii b in let z := Ascii.N_of_ascii c in
      String (char (x / 4)) (String (char (x mod 4 * 16 + y / 16))
        (String (char (y mod 16 * 4 + z / 64)) (String (char (z mod 64)) (EncodeToString s'))))
  | String a (String b EmptyString) =>
      let x := Ascii.N_of_ascii a in let y := Ascii.N_of_ascii b in
      String (char (x / 4)) (String (char (x mod 4 * 16 + y / 16))
        (String (char (y mod 16 * 4)) (String padding EmptyString)))
  | String a EmptyString =>
      let x := Ascii.N_of_ascii a in
      String (char (x / 4)) (String (char (x mod 4 * 16)) (String padding (String padding EmptyString)))
  | EmptyString => EmptyString
  end.
End Encode.

Definition StdEncode (s : string) : string := EncodeToString b64_char s.
Definition URLEncode (s : string) : string := EncodeToString b64url_char s.

(** ** Decoding

    Line breaks are skipped, the text is read in groups of four characters, and
    padding is accepted in the last group only. *)

Definition is_newline (a : Ascii.ascii) : bool :=
  let n := Ascii.N_of_ascii a in (n =? 10) || (n =? 13).

Fixpoint strip_newlines (s : string) : string :=
  match s with
  | EmptyString => EmptyString
  | String a s' => if is_newline a then strip_newlines s' else String a (strip_newlines s')
  end.

Definition byte (n : N) : Ascii.ascii := Ascii.ascii_of_N (n mod 256).

Fixpoint decode_groups (s : string) : option string :=
  match s with
  | EmptyString => Some EmptyString
  | String a (String b (String c (String d s'))) =>
      match b64_value a, b64_value b with
      | Some w, Some x =>
          let first := byte (w * 4 + x / 16) in
          match b64_value c with
          | Some y =>
              let second := byte (x mod 16 * 16 + y / 4) in
              match b64_value d with
              | Some z =>
                  match decode_groups s' with
                  | Some r => Some (String first (String second (String (byte (y mod 4 * 64 + z)) r)))
                  | None => None
                  end
              | None =>
                  if bool_decide (d = padding ∧ s' = EmptyString)
                  then Some (String first (String second EmptyString)) else None
              end
          | None =>
              if bool_decide (c = padding ∧ d = padding ∧ s' = EmptyString)
              then Some (String first EmptyString) else None
          end
      | _, _ => None
      end
  | _ => None
  end.

(** [base64.StdEncoding.DecodeString]; [None] is a [CorruptInputError]. *)
Definition StdDecode (s : string) : option string := decode_groups (strip_newlines s).

(** ** Decoding inverts encoding *)

Lemma b64_value_char n : n < 64 → b64_value (b64_char n) = Some n.
Proof.
  intros Hn.
  assert (forallb (λ k, bool_decide (b64_value (b64_char k) = Some k))
            (map N.of_nat (seq 0 64)) = true) as H by (vm_compute; reflexivity).
  rewrite forallb_forall in H. specialize (H n). rewrite bool_decide_eq_true in H. apply H.
  apply in_map_iff. exists (N.to_nat n). rewrite in_seq. lia.
Qed.

Lemma b64_char_not_newline n : n < 64 → is_newline (b64_char n) = false.
Proof.
  intros Hn.
  assert (forallb (λ k, negb (is_newline (b64_char k))) (map N.of_nat (seq 0 64)) = true) as H
    by (vm_compute; reflexivity).
  rewrite forallb_forall in H. specialize (H n). rewrite negb_true_iff in H. apply H.
  apply in_map_iff. exists (N.to_nat n). rewrite in_seq. lia.
Qed.

Lemma ascii_bound a : Ascii.N_of_ascii a < 256.
Proof. apply Ascii.N_ascii_bounded. Qed.

Lemma byte_ascii a n : n = Ascii.N_of_ascii a → byte n = a.
Proof.
  intros ->. unfold byte. rewrite N.mod_small by apply ascii_bound. apply Ascii.ascii_N_embedding.
Qed.

Lemma string_ind3 (P : string → Prop) :
  P "" → (∀ a, P (String a "")) → (∀ a b, P (String a (String b ""))) →
  (∀ a b c s, P s → P (String a (String b (String c s)))) → ∀ s, P s.
Proof.
  intros H0 H1 H2 H3. fix IH 1. intros [|a [|b [|c s]]]; [apply H0 | apply H1 | apply H2 |].
  apply H3, IH.
Qed.

Ltac n_bounds :=
  repeat match goal with
  | a : Ascii.ascii |- _ =>
      lazymatch goal with
      | _ : Ascii.N_of_ascii a < 256 |- _ => fail
      | _ => pose proof (ascii_bound a)
      end
  end.
Ltac n_lia := n_bounds; zify; Z.to_euclidean_division_equations; lia.

Lemma decode_encode s : decode_groups (StdEncode s) = Some s.
Proof.
  unfold StdEncode. induction s as [|a|a b|a b c s IH] using string_ind3; [done| | |].
  - cbn [EncodeToString decode_groups]. rewrite !b64_value_char by n_lia. simpl.
    do 3 f_equal. apply byte_ascii. n_lia.
  - cbn [EncodeToString decode_groups]. rewrite !b64_value_char by n_lia. simpl.
    repeat f_equal; apply byte_ascii; n_lia.
  - cbn [EncodeToString decode_groups]. rewrite !b64_value_char by n_lia. rewrite IH.
    repeat f_equal; apply byte_ascii; n_lia.
Qed.

Lemma strip_encode s : strip_newlines (StdEncode s) = StdEncode s.
Proof.
  unfold StdEncode. induction s as [|a|a b|a b c s IH] using string_ind3; [done| | |];
    cbn [EncodeToString strip_newlines]; rewrite !b64_char_not_newline by n_lia; [done..|].
  by rewrite IH.
Qed.

(** Decoding an encoded byte string returns it. *)
Lemma StdDecode_StdEncode s : StdDecode (StdEncode s) = Some s.
Proof. unfold StdDecode. by rewrite strip_encode, decode_encode. Qed.

#[global] Instance StdEncode_inj : Inj (=) (=) StdEncode.
Proof.
  intros s t E. apply (f_equal StdDecode) in E. rewrite !StdDecode_StdEncode in E. by injection E.
Qed.

(** Encoding never shortens. *)
Lemma Encode_length char s : (String.length s ≤ String.length (EncodeToString char s))%nat.
Proof. induction s as [|a|a b|a b c s IH] using string_ind3; simpl in *; lia. Qed.
