(* ===== verification/ScramCreds.v ===== *)
(** * SCRAM credentials and random material

    Package pkg/authentication/scramcredentials: the salted password, the stored
    and the server key of RFC 5802, their base64 form; package
    pkg/util/generate: the random strings and salts they are computed from.

    [stringprep.SASLprep] is third-party code and a parameter; the entropy source
    is an operation of the world ([Entropy]). *)
From S2P Require Import Prelude GoStd Hashes Base64 Json.
Local Open Scope Z_scope.

(** [stringprep.SASLprep.Prepare], which rejects prohibited code points. *)
Class Stringprep := SASLprep : string → outcome string.

(** ** Package scramcredentials *)

Definition RFC5802MandatedSaltSize : Z := 4.
Definition clientKeyInput : string := "Client Key".
Definition serverKeyInput : string := "Server Key".
Definition DefaultScramSha1Iterations : Z := 10000.
Definition DefaultScramSha256Iterations : Z := 15000.

Record ScramCreds := MkScramCreds {
  sc_IterationCount : Z; sc_Salt : string; sc_ServerKey : string; sc_StoredKey : string;
}.
#[global] Instance ScramCreds_eq_dec : EqDecision ScramCreds.
Proof. solve_decision. Defined.

Definition md5Hex (s : string) : string := hex_encode (md5_sum s).

(** [result[i] ^= intermediateDigest[i]] for every [i] of the digest. *)
Fixpoint xor_bytes (result digest : string) : string :=
  match result, digest with
  | String a r, String b d =>
      String (Ascii.ascii_of_N (N.lxor (Ascii.N_of_ascii a) (Ascii.N_of_ascii b))) (xor_bytes r d)
  | _, _ => result
  end.

(** The loop of [hmacIteration], [n] rounds from a digest and a result. *)
Fixpoint hmacLoop (h : Hash) (input : string) (n : nat) (intermediateDigest result : string) : string :=
  match n with
  | O => result
  | S n' =>
      let digest := hmac_Sum h input intermediateDigest in
      hmacLoop h input n' digest (xor_bytes result digest)
  end.

Definition startSuffix : string :=
  string_of [0; 0; 0; 1]%N.

Definition hmacIteration (h : Hash) (input salt : string) (iterationCount : Z) : outcome string :=
  let hashSize := Z.of_nat (Size h) in
  if negb (Z.of_nat (String.length salt) =? hashSize - RFC5802MandatedSaltSize) then
    Err (TextError ("salt should have a size of " +:+ Itoa (hashSize - RFC5802MandatedSaltSize)
      +:+ " bytes, but instead has a size of " +:+ Itoa (Z.of_nat (String.length salt)) +:+ " bytes"))
  else
    let startKey := salt +:+ startSuffix in
    let intermediateDigest := hmac_Sum h input startKey in
    Ret (hmacLoop h input (Z.to_nat (iterationCount - 1)) intermediateDigest intermediateDigest).

Definition generateClientOrServerKey (h : Hash) (saltedPassword input : string) : string :=
  hmac_Sum h saltedPassword input.

Definition generateStoredKey (h : Hash) (clientKey : string) : string := Sum h clientKey.

Section Compute.
Context `{Stringprep}.

Definition generateSaltedPassword (h : Hash) (password salt : string) (iterationCount : Z)
    : outcome string :=
  let! preparedPassword := owrap (prefix_error "could not SASLprep password: ") (SASLprep password) in
  owrap (prefix_error "could not run hmacIteration: ") (hmacIteration h preparedPassword salt iterationCount).

(** Stored key, server key. *)
Definition generateSecrets (h : Hash) (password salt : string) (iterationCount : Z)
    : outcome (string * string) :=
  let! saltedPassword :=
    owrap (prefix_error "error generating salted password: ")
      (generateSaltedPassword h password salt iterationCount) in
  let clientKey := generateClientOrServerKey h saltedPassword clientKeyInput in
  let storedKey := generateStoredKey h clientKey in
  let serverKey := generateClientOrServerKey h saltedPassword serverKeyInput in
  Ret (storedKey, serverKey).

Definition generateB64EncodedSecrets (h : Hash) (password b64EncodedSalt : string) (iterationCount : Z)
    : outcome (string * string) :=
  match StdDecode b64EncodedSalt with
  (* the text of a CorruptInputError also has the offset of the bad byte *)
  | None => Err (TextError "error decoding salt: illegal base64 data")
  | Some salt =>
      let! '(unencodedStoredKey, unencodedServerKey) :=
        owrap (prefix_error "error generating secrets: ") (generateSecrets h password salt iterationCount) in
      Ret (StdEncode unencodedStoredKey, StdEncode unencodedServerKey)
  end.

Definition computeScramCredentials (h : Hash) (iterationCount : Z) (base64EncodedSalt password : string)
    : outcome ScramCreds :=
  let! '(storedKey, serverKey) :=
    owrap (prefix_error "error generating SCRAM-SHA keys: ")
      (generateB64EncodedSecrets h password base64EncodedSalt iterationCount) in
  Ret (MkScramCreds iterationCount base64EncodedSalt serverKey storedKey).

Definition ComputeScramSha256Creds (password salt : string) : outcome ScramCreds :=
  let base64EncodedSalt := StdEncode salt in
  computeScramCredentials sha256_New DefaultScramSha256Iterations base64EncodedSalt password.

Definition ComputeScramSha1Creds (username password salt : string) : outcome ScramCreds :=
  let base64EncodedSalt := StdEncode salt in
  let password := md5Hex (username +:+ ":mongo:" +:+ password) in
  computeScramCredentials sha1_New DefaultScramSha1Iterations base64EncodedSalt password.
End Compute.

(** ** The specification: RFC 5802, section 2.2 and 3

    [U 1 = HMAC(password, salt ++ INT(1))], [U (i+1) = HMAC(password, U i)],
    [Hi = U 1 xor ... xor U n]; [SaltedPassword = Hi(password, salt, n)],
    [StoredKey = H(HMAC(SaltedPassword, "Client Key"))],
    [ServerKey = HMAC(SaltedPassword, "Server Key")]. *)

Module RFC5802.
Fixpoint U (h : Hash) (pw salt : string) (i : nat) : string :=
  match i with
  | O => hmac_Sum h pw (salt +:+ startSuffix)
  | S i' => hmac_Sum h pw (U h pw salt i')
  end.

(** The xor of [U 0 .. U (n - 1)], counted from zero; at least one of them. *)
Fixpoint Hi (h : Hash) (pw salt : string) (n : nat) : string :=
  match n with
  | O => U h pw salt 0
  | S n' => xor_bytes (Hi h pw salt n') (U h pw salt n)
  end.

Definition StoredKey (h : Hash) (salted : string) : string := Sum h (hmac_Sum h salted "Client Key").
Definition ServerKey (h : Hash) (salted : string) : string := hmac_Sum h salted "Server Key".
End RFC5802.

Lemma hmacLoop_Hi h pw salt n k :
  hmacLoop h pw n (RFC5802.U h pw salt k) (RFC5802.Hi h pw salt k) = RFC5802.Hi h pw salt (k + n).
Proof.
  revert k. induction n as [|n IH]; intros k; [by rewrite Nat.add_0_r|].
  replace (k + S n)%nat with (S k + n)%nat by lia. rewrite <- IH. done.
Qed.

Lemma hmacIteration_ok h pw salt n :
  Z.of_nat (String.length salt) = Z.of_nat (Size h) - 4 →
  hmacIteration h pw salt n = Ret (RFC5802.Hi h pw salt (Z.to_nat (n - 1))).
Proof.
  intros Hs. unfold hmacIteration, RFC5802MandatedSaltSize. rewrite Hs, Z.eqb_refl. simpl negb. cbn iota.
  f_equal. apply (hmacLoop_Hi h pw salt _ 0).
Qed.

Lemma xor_bytes_length r d : String.length (xor_bytes r d) = String.length r.
Proof. revert d. induction r as [|a r IH]; intros [|b d]; simpl; [done..|]. by rewrite IH. Qed.

Lemma Hi_length `{HashOk h} pw salt n : String.length (RFC5802.Hi h pw salt n) = Size h.
Proof.
  induction n as [|n IH]; simpl; [apply hmac_Sum_length|]. by rewrite xor_bytes_length.
Qed.

Section ComputeFacts.
Context `{Stringprep}.

Lemma computeScramCredentials_eq h n salt password prepared :
  SASLprep password = Ret prepared →
  Z.of_nat (String.length salt) = Z.of_nat (Size h) - 4 →
  let salted := RFC5802.Hi h prepared salt (Z.to_nat (n - 1)) in
  computeScramCredentials h n (StdEncode salt) password =
  Ret (MkScramCreds n (StdEncode salt) (StdEncode (RFC5802.ServerKey h salted))
         (StdEncode (RFC5802.StoredKey h salted))).
Proof.
  intros Hp Hs salted.
  unfold computeScramCredentials, generateB64EncodedSecrets, generateSecrets, generateSaltedPassword.
  rewrite StdDecode_StdEncode, Hp. cbn [obind owrap]. rewrite hmacIteration_ok by done. done.
Qed.

Lemma computeScramCredentials_inv h n salt password creds :
  computeScramCredentials h n salt password = Ret creds →
  sc_IterationCount creds = n ∧ sc_Salt creds = salt.
Proof.
  unfold computeScramCredentials. destruct generateB64EncodedSecrets as [[]| |]; simpl; [|done..].
  by intros [= <-].
Qed.
End ComputeFacts.

(** [C28] The SCRAM-SHA-256 credentials of a password are those of RFC 5802: for a
    salt of the mandated 28 bytes and a password SASLprep accepts, the computation
    succeeds; the keys are the base64 forms of the stored and the server key of
    the prepared password under 15000 iterations of the salted-password function. *)
Theorem ComputeScramSha256Creds_rfc5802 `{Stringprep} (password salt prepared : string) :
  SASLprep password = Ret prepared →
  String.length salt = 28%nat →
  let salted := RFC5802.Hi sha256_New prepared salt (Z.to_nat 14999) in
  ComputeScramSha256Creds password salt =
  Ret (MkScramCreds 15000 (StdEncode salt) (StdEncode (RFC5802.ServerKey sha256_New salted))
         (StdEncode (RFC5802.StoredKey sha256_New salted))).
Proof.
  intros Hp Hs salted. unfold ComputeScramSha256Creds.
  rewrite (computeScramCredentials_eq _ _ _ _ prepared) by (done || (rewrite Hs; done)). done.
Qed.

Definition ascii_prep : Stringprep := λ s, Ret s.

Lemma ComputeScramSha256Creds_rfc5802_witness :
  ∃ creds, @ComputeScramSha256Creds ascii_prep "password" "0123456789012345678901234567" = Ret creds.
Proof.
  eexists. apply (@ComputeScramSha256Creds_rfc5802 ascii_prep "password" "0123456789012345678901234567" "password");
    reflexivity.
Defined.

(** ** Package generate *)

(** [crypto/rand.Read] of the given number of bytes. *)
Class Entropy (W : Type) := rand_Read : nat → IO W string.

Section Generate.
Context {W : Type} `{Entropy W}.

Definition generateRandomBytes (size : nat) : IO W string := rand_Read size.

(** [s[:n]], which panics when [s] is shorter. *)
Definition slice_to (n : nat) (s : string) : IO W string :=
  if (n <=? String.length s)%nat then ret (String.substring 0 n s)
  else panic "slice bounds out of range".

(** The bytes are encoded and sliced before the error is looked at: on an
    entropy error the slice is taken of the empty string. *)
Definition RandomFixedLengthStringOfSize (n : nat) : IO W string :=
  r <- attempt (generateRandomBytes n) ;;
  match r with
  | inl b => slice_to n (URLEncode b)
  | inr err => slice_to n (URLEncode "") ;; throw err
  end.

Definition generateRandomString (numBytes : nat) : IO W string :=
  b <- generateRandomBytes numBytes ;; ret (StdEncode b).

Definition KeyFileContents : IO W string := generateRandomString 500.

Definition is_letter (a : Ascii.ascii) : bool :=
  let n := Ascii.nat_of_ascii a in
  bool_decide (65 ≤ n ≤ 90)%nat || bool_decide (97 ≤ n ≤ 122)%nat.
Definition is_number (a : Ascii.ascii) : bool :=
  bool_decide (48 ≤ Ascii.nat_of_ascii a ≤ 57)%nat.

(** The loop over the runes; base64 text is ASCII. *)
Fixpoint dns_label (s : string) : string :=
  match s with
  | EmptyString => EmptyString
  | String a s' =>
      String (if is_letter a then lower_ascii a
              else if negb (is_number a) then Ascii.ascii_of_nat 48 else a) (dns_label s')
  end.

Definition RandomValidDNS1123Label (n : nat) : IO W string :=
  str <- RandomFixedLengthStringOfSize n ;; ret (dns_label str).

Definition salt (h : Hash) : IO W string :=
  let saltSize := (Size h - Z.to_nat RFC5802MandatedSaltSize)%nat in
  s <- RandomFixedLengthStringOfSize 20 ;;
  slice_to saltSize (sha256_sum s).

Definition Salts : IO W (string * string) :=
  sha1Salt <- salt sha1_New ;;
  sha256Salt <- salt sha256_New ;;
  ret (sha1Salt, sha256Salt).
End Generate.

(** An entropy source returns as many bytes as it is asked for, or an error. *)
Class EntropyOk (W : Type) `{Entropy W} : Prop := {
  rand_Read_no_panic : ∀ n w s, (rand_Read n w).1 ≠ Panic s;
  rand_Read_length : ∀ n w b w', rand_Read n w = (Ret b, w') → String.length b = n;
}.

Lemma substring_length n s : (n ≤ String.length s)%nat → String.length (String.substring 0 n s) = n.
Proof.
  revert n. induction s as [|a s IH]; intros [|n] Hn; simpl in *; try lia. rewrite IH; lia.
Qed.

Section GenerateFacts.
Context {W : Type} `{Entropy W}.

Lemma slice_to_length n s (w : W) r w' : slice_to n s w = (Ret r, w') → String.length r = n.
Proof.
  unfold slice_to. destruct (Nat.leb_spec n (String.length s)); [|done].
  intros [= <- <-]. by apply substring_length.
Qed.

Lemma RandomFixedLengthStringOfSize_length n w r w' :
  RandomFixedLengthStringOfSize n w = (Ret r, w') → String.length r = n.
Proof.
  unfold RandomFixedLengthStringOfSize, generateRandomBytes, bind, attempt.
  destruct (rand_Read n w) as [[b|e|s] w1] eqn:E; [| | done].
  - apply slice_to_length.
  - unfold slice_to. by destruct (n <=? _)%nat.
Qed.

Lemma salt_length h w r w' :
  salt h w = (Ret r, w') → String.length r = (Size h - 4)%nat.
Proof.
  unfold salt, bind. destruct (RandomFixedLengthStringOfSize 20 w) as [[] w1]; [|done..].
  apply slice_to_length.
Qed.

Lemma Salts_length w s1 s2 w' :
  Salts w = (Ret (s1, s2), w') → String.length s1 = 16%nat ∧ String.length s2 = 28%nat.
Proof.
  unfold Salts, bind.
  destruct (salt sha1_New w) as [[x| |] w1] eqn:E1; [|done..].
  destruct (salt sha256_New w1) as [[y| |] w2] eqn:E2; [|done..].
  intros [= <- <- <-]. apply salt_length in E1, E2. done.
Qed.
End GenerateFacts.

(** With a working entropy source the generators succeed. *)
Section GenerateTotal.
Context {W : Type} `{EntropyOk W}.
Hypothesis (Hrand : ∀ n w, ∃ b w', rand_Read n w = (Ret b, w')).

Lemma slice_to_ok n s (w : W) : (n ≤ String.length s)%nat → ∃ r, slice_to n s w = (Ret r, w).
Proof. intros Hn. unfold slice_to. destruct (Nat.leb_spec n (String.length s)); [eexists; done | lia]. Qed.

Lemma RandomFixedLengthStringOfSize_ok n w : ∃ r w', RandomFixedLengthStringOfSize n w = (Ret r, w').
Proof.
  destruct (Hrand n w) as (b & w1 & E).
  unfold RandomFixedLengthStringOfSize, generateRandomBytes, bind, attempt. rewrite E.
  destruct (slice_to_ok n (URLEncode b) w1) as [r Hr]; [|eauto].
  rewrite <- (rand_Read_length _ _ _ _ E) at 1. apply Encode_length.
Qed.

Lemma salt_ok h w : (Size h ≤ 36)%nat → ∃ r w', salt h w = (Ret r, w').
Proof.
  intros Hh. destruct (RandomFixedLengthStringOfSize_ok 20 w) as (s & w1 & E).
  unfold salt, bind. rewrite E.
  destruct (slice_to_ok (Size h - Z.to_nat RFC5802MandatedSaltSize) (sha256_sum s) w1) as [r Hr]; [|eauto].
  change (sha256_sum s) with (Sum sha256_New s). rewrite Sum_length.
  unfold RFC5802MandatedSaltSize. cbn [Size sha256_New]. lia.
Qed.

Lemma Salts_ok w : ∃ s1 s2 w', Salts w = (Ret (s1, s2), w').
Proof.
  destruct (salt_ok sha1_New w) as (s1 & w1 & E1); [cbn; lia|].
  destruct (salt_ok sha256_New w1) as (s2 & w2 & E2); [cbn; lia|].
  unfold Salts, bind. rewrite E1, E2. eexists _, _, _. reflexivity.
Qed.
End GenerateTotal.

(** With a working entropy source [Salts] always returns a pair of salts, and
    they have the sizes the two SCRAM mechanisms require: credentials computed
    from them exist for every password SASLprep accepts, so the salt size check
    of [hmacIteration] never fails on a generated salt. *)
Theorem generated_salts_are_accepted {W} `{EntropyOk W, Stringprep} w username password p1 p2 :
  (∀ n w, ∃ b w', rand_Read n w = (Ret b, w')) →
  SASLprep (md5Hex (username +:+ ":mongo:" +:+ password)) = Ret p1 →
  SASLprep password = Ret p2 →
  ∃ s1 s2 w', Salts w = (Ret (s1, s2), w')
    ∧ (∃ c, ComputeScramSha1Creds username password s1 = Ret c ∧ sc_Salt c = StdEncode s1)
    ∧ (∃ c, ComputeScramSha256Creds password s2 = Ret c ∧ sc_Salt c = StdEncode s2).
Proof.
  intros Hr HP1 HP2. destruct (Salts_ok Hr w) as (s1 & s2 & w' & HS).
  exists s1, s2, w'. split; [done|]. apply Salts_length in HS as [L1 L2]. split.
  - eexists. split; [apply (computeScramCredentials_eq _ _ _ _ p1); [done|]; by rewrite L1 | done].
  - eexists. split; [apply (computeScramCredentials_eq _ _ _ _ p2); [done|]; by rewrite L2 | done].
Qed.

(** An entropy source for concrete runs: the world is a seed. *)
Definition seed_entropy : Entropy nat :=
  λ n seed, (Ret (string_of (replicate n (N.of_nat seed))), S seed).
#[global] Instance seed_entropy_ok : @EntropyOk nat seed_entropy.
Proof.
  split; [done|]. intros n w b w' [= <- <-]. by rewrite string_of_length, length_replicate.
Qed.

Lemma generated_salts_are_accepted_witness :
  ∃ s1 s2 w', @Salts nat seed_entropy 7%nat = (Ret (s1, s2), w')
    ∧ (∃ c, @ComputeScramSha1Creds ascii_prep "user" "pw" s1 = Ret c ∧ sc_Salt c = StdEncode s1)
    ∧ (∃ c, @ComputeScramSha256Creds ascii_prep "pw" s2 = Ret c ∧ sc_Salt c = StdEncode s2).
Proof.
  apply (@generated_salts_are_accepted nat seed_entropy seed_entropy_ok ascii_prep
           7%nat "user" "pw" (md5Hex "user:mongo:pw") "pw"); [|reflexivity..].
  intros n w. eexists _, _. reflexivity.
Defined.

(** What an entropy error does to [RandomFixedLengthStringOfSize]: the empty
    encoding is sliced before the error is returned, and the slice panics. *)
Lemma RandomFixedLengthStringOfSize_error_panics {W} `{Entropy W} n w e w' :
  (0 < n)%nat → rand_Read n w = (Err e, w') →
  RandomFixedLengthStringOfSize n w = (Panic "slice bounds out of range", w').
Proof.
  intros Hn E. unfold RandomFixedLengthStringOfSize, generateRandomBytes, bind, attempt, slice_to.
  rewrite E. simpl. destruct (Nat.leb_spec n 0); [lia | done].
Qed.

(** Every character of a generated label is a lower-case letter or a digit. *)
Definition dns1123_char (a : Ascii.ascii) : bool :=
  is_number a || bool_decide (97 ≤ Ascii.nat_of_ascii a ≤ 122)%nat.

Lemma dns_label_ok s : Forall (λ a, dns1123_char a = true) (String.list_ascii_of_string (dns_label s)).
Proof.
  induction s as [|a s IH]; simpl; constructor; [|done].
  destruct a as [[] [] [] [] [] [] [] []]; reflexivity.
Qed.
