(* ===== verification/Codec.v ===== *)
(** * encoding/json: values of Go types

    [GoJson A] is what [json.Marshal] and [json.Unmarshal] do for a type: the
    tree a value is encoded as, the value a tree is decoded to ([None] is a
    decoding error), the zero value a missing or null member leaves behind, when
    [omitempty] leaves a member out, and the laws that make decoding the inverse
    of encoding.  Structs are encoded member by member in the order of their
    fields; when decoding, names of members are compared ignoring case, as
    [encoding/json] does, and unknown members are ignored. *)
From S2P Require Import Prelude GoStd K8s Json.
Local Open Scope Z_scope.
#[local] Unset Program Cases.

Class GoJson (A : Type) := {
  to_json : A → json;
  of_json : json → option A;
  zero : A;
  is_zero : A → bool;
  json_wf : A → bool;
  of_json_null : of_json JNull = Some zero;
  is_zero_ok : ∀ a, is_zero a = true → a = zero;
  of_to_json : ∀ a, json_wf a = true → of_json (to_json a) = Some a;
}.

(** Types no value of which is encoded as [null]: pointers to them can tell. *)
Class NonNull (A : Type) `{GoJson A} : Prop := to_json_nonnull : ∀ a : A, to_json a ≠ JNull.

(** ** Scalars *)

#[global] Program Instance GoJson_string : GoJson string := {|
  to_json := JStr;
  of_json j := match j with JStr s => Some s | JNull => Some "" | _ => None end;
  zero := "";
  is_zero s := bool_decide (s = "");
  json_wf _ := true;
|}.
Next Obligation. done. Qed.
Next Obligation. intros a H. by apply bool_decide_eq_true in H. Qed.
Next Obligation. done. Qed.
#[global] Instance NonNull_string : NonNull string.
Proof. done. Qed.

#[global] Program Instance GoJson_bool : GoJson bool := {|
  to_json := JBool;
  of_json j := match j with JBool b => Some b | JNull => Some false | _ => None end;
  zero := false;
  is_zero b := negb b;
  json_wf _ := true;
|}.
Next Obligation. done. Qed.
Next Obligation. by intros []. Qed.
Next Obligation. done. Qed.
#[global] Instance NonNull_bool : NonNull bool.
Proof. done. Qed.

Definition fits_int64 (z : Z) : bool := (- 2 ^ 63 <=? z) && (z <? 2 ^ 63).

(** Go's [int]: a number out of range does not decode. *)
#[global] Program Instance GoJson_int : GoJson Z := {|
  to_json := JNum;
  of_json j := match j with
               | JNum z => if fits_int64 z then Some z else None
               | JNull => Some 0
               | _ => None
               end;
  zero := 0;
  is_zero z := z =? 0;
  json_wf := fits_int64;
|}.
Next Obligation. done. Qed.
Next Obligation. intros a H. by apply Z.eqb_eq. Qed.
Next Obligation. intros a H. simpl. by rewrite H. Qed.
#[global] Instance NonNull_int : NonNull Z.
Proof. done. Qed.

(** ** Slices, pointers and maps *)

Section Containers.
Context {A : Type} `{GoJson A}.

Lemma mapM_of_to_json (l : list A) :
  forallb json_wf l = true → mapM of_json (map to_json l) = Some l.
Proof.
  induction l as [|a l IH]; [done|]. simpl. rewrite andb_true_iff. intros [Ha Hl].
  rewrite of_to_json by done. simpl. by rewrite IH.
Qed.

(** A slice whose [nil] the encoding does not show ([omitempty]). *)
#[global] Program Instance GoJson_list : GoJson (list A) := {|
  to_json l := JArr (map to_json l);
  of_json j := match j with JArr l => mapM of_json l | JNull => Some [] | _ => None end;
  zero := [];
  is_zero l := match l with [] => true | _ => false end;
  json_wf := forallb json_wf;
|}.
Next Obligation. done. Qed.
Next Obligation. by intros []. Qed.
Next Obligation. apply mapM_of_to_json. Qed.
#[global] Instance NonNull_list : NonNull (list A).
Proof. done. Qed.

(** A pointer, and a slice or map whose [nil] is encoded as [null]. *)
#[global] Program Instance GoJson_option {N : NonNull A} : GoJson (option A) := {|
  to_json o := match o with Some a => to_json a | None => JNull end;
  of_json j := match j with JNull => Some None | _ => Some <$> of_json j end;
  zero := None;
  is_zero o := match o with None => true | Some _ => false end;
  json_wf o := match o with Some a => json_wf a | None => true end;
|}.
Next Obligation. done. Qed.
Next Obligation. by intros N []. Qed.
Next Obligation.
  intros N [a|] Hwf; [|done]. pose proof (of_to_json a Hwf) as E. pose proof (to_json_nonnull a) as Hn.
  destruct (to_json a); try done; by rewrite E.
Qed.

(** A map is encoded with its keys sorted. *)
Definition json_of_map (m : gmap string A) : list (string * json) :=
  map (λ kv, (kv.1, to_json kv.2)) (sort_by fst (map_to_list m)).
Definition map_of_json (l : list (string * json)) : option (gmap string A) :=
  (λ l, foldl (λ m '(k, v), <[k := v]> m) ∅ l) <$>
    mapM (λ kv : string * json, (λ v, (kv.1, v)) <$> of_json kv.2) l.

Lemma mapM_members (l : list (string * A)) :
  forallb (λ kv, json_wf kv.2) l = true →
  mapM (λ kv : string * json, (λ v, (kv.1, v)) <$> of_json kv.2) (map (λ kv, (kv.1, to_json kv.2)) l) = Some l.
Proof.
  induction l as [|[k a] l IH]; [done|]. simpl. rewrite andb_true_iff. intros [Ha Hl].
  rewrite of_to_json by done. simpl. by rewrite IH.
Qed.

#[global] Program Instance GoJson_map : GoJson (gmap string A) := {|
  to_json m := JObj (json_of_map m);
  of_json j := match j with JObj l => map_of_json l | JNull => Some ∅ | _ => None end;
  zero := ∅;
  is_zero m := match map_to_list m with [] => true | _ => false end;
  json_wf m := forallb (λ kv, json_wf kv.2) (map_to_list m);
|}.
Next Obligation. done. Qed.
Next Obligation.
  intros m Hm. cbv beta in Hm. apply map_to_list_empty_iff. by destruct (map_to_list m).
Qed.
Next Obligation.
  intros m Hwf. cbv beta in Hwf |- *. unfold map_of_json, json_of_map.
  rewrite mapM_members.
  - simpl. f_equal. apply map_eq. intros k.
    pose proof (sort_by_perm fst (map_to_list m)) as HP.
    assert (NoDup (sort_by fst (map_to_list m)).*1) as Hnd.
    { rewrite HP. apply NoDup_fst_map_to_list. }
    rewrite (fill_lookup (λ _ v, v)) by done.
    rewrite (list_to_map_proper _ _ Hnd HP), list_to_map_to_list, lookup_empty.
    by destruct (m !! k).
  - rewrite forallb_forall in *. intros x Hx. apply Hwf.
    eapply Permutation_in; [apply sort_by_perm | done].
Qed.
#[global] Instance NonNull_map : NonNull (gmap string A).
Proof. done. Qed.
End Containers.

(** ** [interface{}]

    A decoded value of unknown type is its tree, with the members of every object
    in the order they are encoded in: sorted, the last one of equal names. *)

#[global] Instance json_eq_dec : EqDecision json.
Proof. intros a b. destruct (decide (print_json a = print_json b)) as [E|E]; [left|right].
  - by apply print_json_inj in E.
  - congruence.
Defined.

Fixpoint canonical (j : json) : json :=
  match j with
  | JArr l => JArr (map canonical l)
  | JObj l =>
      JObj (sort_by fst (map_to_list
        (foldl (λ m '(k, v), <[k := v]> m) (∅ : gmap string json) (map (λ kv, (kv.1, canonical kv.2)) l))))
  | _ => j
  end.

#[global] Program Instance GoJson_any : GoJson json := {|
  to_json j := j;
  of_json j := Some (canonical j);
  zero := JNull;
  is_zero j := match j with JNull => true | _ => false end;
  json_wf j := bool_decide (canonical j = j);
|}.
Next Obligation. done. Qed.
Next Obligation. by intros []. Qed.
Next Obligation. intros j H. cbv beta in *. apply bool_decide_eq_true in H. by rewrite H. Qed.

(** ** Structs *)

(** A member of a struct: its name and its encoding, [None] when it is left out. *)
Definition member {A} `{GoJson A} (k : string) (v : A) : string * option json := (k, Some (to_json v)).
Definition omitempty {A} `{GoJson A} (k : string) (v : A) : string * option json :=
  (k, if is_zero v then None else Some (to_json v)).

Fixpoint present (ms : list (string * option json)) : list (string * json) :=
  match ms with
  | [] => []
  | (k, Some j) :: ms' => (k, j) :: present ms'
  | (_, None) :: ms' => present ms'
  end.

Definition struct_json (ms : list (string * option json)) : json := JObj (present ms).

(** The member of the given name: the last one of that name, [null] if none. *)
Fixpoint get_field (l : list (string * json)) (k : string) : json :=
  match l with
  | [] => JNull
  | (k', v) :: l' =>
      match get_field l' k with
      | JNull => if bool_decide (ToLower k' = ToLower k) then v else JNull
      | j => j
      end
  end.

Definition dec_struct {A} (z : A) (f : (string → json) → option A) (j : json) : option A :=
  match j with
  | JNull => Some z
  | JObj l => f (get_field l)
  | _ => None
  end.

Fixpoint lookup_member (ms : list (string * option json)) (k : string) : option json :=
  match ms with
  | [] => None
  | (k', o) :: ms' => if bool_decide (ToLower k' = ToLower k) then o else lookup_member ms' k
  end.

Definition distinct_names (ms : list (string * option json)) : bool :=
  bool_decide (NoDup (map (λ m, ToLower m.1) ms)).

Lemma get_field_absent ms k :
  ToLower k ∉ map (λ m : string * option json, ToLower m.1) ms →
  get_field (present ms) k = JNull.
Proof.
  induction ms as [|[k' o] ms IH]; [done|]. simpl. rewrite not_elem_of_cons. intros [Hne Hni].
  destruct o as [j|]; simpl; [|by apply IH]. rewrite IH by done. by rewrite bool_decide_false.
Qed.

Lemma get_field_members ms k :
  distinct_names ms = true →
  get_field (present ms) k = default JNull (lookup_member ms k).
Proof.
  unfold distinct_names. rewrite bool_decide_eq_true.
  induction ms as [|[k' o] ms IH]; [done|]. simpl. intros [Hni Hnd]%NoDup_cons.
  specialize (IH Hnd).
  destruct (bool_decide (ToLower k' = ToLower k)) eqn:Hk.
  - apply bool_decide_eq_true in Hk. rewrite Hk in Hni.
    destruct o as [j|]; simpl; rewrite get_field_absent by done; [|done].
    by rewrite Hk, bool_decide_true.
  - destruct o as [j|]; simpl; [|done]. rewrite IH, Hk. by destruct (default _ _).
Qed.

Lemma dec_member {A} `{GoJson A} (v : A) :
  json_wf v = true → of_json (default JNull (Some (to_json v))) = Some v.
Proof. apply of_to_json. Qed.

Lemma dec_omitempty {A} `{GoJson A} (v : A) :
  json_wf v = true →
  of_json (default JNull (if is_zero v then None else Some (to_json v))) = Some v.
Proof.
  intros Hwf. destruct (is_zero v) eqn:E; [|by apply of_to_json].
  apply is_zero_ok in E as ->. apply of_json_null.
Qed.


(** Decoding one member of an encoded struct. *)
Lemma lookup_member_in ms k o :
  distinct_names ms = true → In (k, o) ms → lookup_member ms k = o.
Proof.
  unfold distinct_names. rewrite bool_decide_eq_true.
  induction ms as [|[k' o'] ms IH]; simpl; [done|]. intros [Hni Hnd]%NoDup_cons [[= -> ->]|Hin].
  - by rewrite bool_decide_true.
  - destruct (bool_decide (ToLower k' = ToLower k)) eqn:Hk; [|by apply IH].
    apply bool_decide_eq_true in Hk. destruct Hni. rewrite Hk.
    apply list_elem_of_In, in_map_iff. by exists (k, o).
Qed.

Lemma dec_member_in {A} `{GoJson A} ms k (v : A) :
  distinct_names ms = true → In (member k v) ms → json_wf v = true →
  of_json (get_field (present ms) k) = Some v.
Proof.
  intros Hd Hin Hwf. rewrite get_field_members, (lookup_member_in ms k _ Hd Hin) by done.
  by apply dec_member.
Qed.

Lemma dec_omitempty_in {A} `{GoJson A} ms k (v : A) :
  distinct_names ms = true → In (omitempty k v) ms → json_wf v = true →
  of_json (get_field (present ms) k) = Some v.
Proof.
  intros Hd Hin Hwf. rewrite get_field_members, (lookup_member_in ms k _ Hd Hin) by done.
  by apply dec_omitempty.
Qed.

Ltac find_member := solve [repeat (first [left; reflexivity | right])].

Ltac dec_field :=
  lazymatch goal with
  | |- mbind _ (of_json (get_field (present ?ms) ?k)) = _ =>
      first
        [ erewrite (dec_member_in ms k); [| reflexivity | find_member | first [assumption | reflexivity]]
        | erewrite (dec_omitempty_in ms k); [| reflexivity | find_member | first [assumption | reflexivity]] ];
      cbn [mbind option_bind]
  end.

(** The laws of a struct from those of its fields: [ms] is the list of members,
    [dec] decodes them by name. *)
Definition struct_GoJson {A} (ms : A → list (string * option json)) (z : A)
    (dec : (string → json) → option A) (wf : A → bool)
    (Hdec : ∀ a, wf a = true → dec (get_field (present (ms a))) = Some a) : GoJson A := {|
  to_json a := struct_json (ms a);
  of_json := dec_struct z dec;
  zero := z;
  is_zero _ := false;
  json_wf := wf;
  of_json_null := eq_refl;
  is_zero_ok a (H : false = true) := match Bool.diff_false_true H with end;
  of_to_json := Hdec;
|}.

Ltac struct_laws :=
  intros a; destruct a; intros Hwf; cbv beta iota in Hwf |- *;
  repeat match type of Hwf with andb _ _ = true => apply andb_true_iff in Hwf as [Hwf ?] end;
  repeat dec_field; reflexivity.
