(* ===== verification/ACTypes.v ===== *)
(** * The automation config

    The document the operator writes for the agents: the types of
    pkg/automationconfig/automation_config.go with their JSON form.  A slice
    encoded without [omitempty] is an [option], since its [nil] is encoded as
    [null]; a slice or map encoded with [omitempty] is a plain list or map. *)
From S2P Require Import Prelude GoStd K8s Json Codec ScramCreds.
Local Open Scope Z_scope.

Definition Mongod : string := "mongod".
Definition DefaultMongoDBDataDir : string := "/data".
Definition DefaultAgentLogPath : string := "/var/log/mongodb-mms-automation".
Definition maxVotingMembers : Z := 7.
Definition ClientCertificateModeOptional : string := "OPTIONAL".
Definition ClientCertificateModeRequired : string := "REQUIRED".
Definition TLSModeDisabled : string := "disabled".
Definition TLSModeAllowed : string := "allowTLS".
Definition TLSModePreferred : string := "preferTLS".
Definition TLSModeRequired : string := "requireTLS".
Definition ReplicaSetTopology : string := "ReplicaSet".

Record BackupVersion := MkBackupVersion { bv_BaseUrl : string }.
Record MonitoringVersion := MkMonitoringVersion {
  mv_Hostname : string; mv_Name : string; mv_BaseUrl : string; mv_AdditionalParams : gmap string string;
}.

(** [objx.Map]: the nested objects of [Args26] are kept as the trees they encode to. *)
Record Process := MkProcess {
  pr_Name : string;
  pr_HostName : string;
  pr_Args26 : GoMap json;
  pr_FeatureCompatibilityVersion : string;
  pr_ProcessType : string;
  pr_Version : string;
  pr_AuthSchemaVersion : Z;
}.
#[global] Instance eta_Process : Eta Process := λ r,
  MkProcess (pr_Name r) (pr_HostName r) (pr_Args26 r) (pr_FeatureCompatibilityVersion r)
    (pr_ProcessType r) (pr_Version r) (pr_AuthSchemaVersion r).

Record SystemLog := MkSystemLog { sl_Destination : string; sl_Path : string; sl_LogAppend : bool }.

Definition ReplicaSetHorizons : Type := gmap string string.

Record ReplicaSetMember := MkReplicaSetMember {
  m_Id : Z; m_Host : string; m_Priority : Z; m_ArbiterOnly : bool; m_Votes : Z; m_Horizons : ReplicaSetHorizons;
}.
Record ReplicaSet := MkReplicaSet {
  rs_Id : string; rs_Members : GoSlice ReplicaSetMember; rs_ProtocolVersion : string; rs_NumberArbiters : Z;
}.

Record Role := MkRole { r_Role : string; r_Database : string }.
Record MongoDBUser := MkMongoDBUser {
  u_Mechanisms : GoSlice string;
  u_Roles : GoSlice Role;
  u_Username : string;
  u_Database : string;
  u_AuthenticationRestrictions : GoSlice string;
  u_ScramSha256Creds : option ScramCreds;
  u_ScramSha1Creds : option ScramCreds;
}.
#[global] Instance eta_MongoDBUser : Eta MongoDBUser := λ r,
  MkMongoDBUser (u_Mechanisms r) (u_Roles r) (u_Username r) (u_Database r)
    (u_AuthenticationRestrictions r) (u_ScramSha256Creds r) (u_ScramSha1Creds r).

Record Auth := MkAuth {
  a_Users : list MongoDBUser;
  a_Disabled : bool;
  a_AuthoritativeSet : bool;
  a_AutoAuthMechanisms : list string;
  a_AutoAuthMechanism : string;
  a_DeploymentAuthMechanisms : list string;
  a_AutoUser : string;
  a_Key : string;
  a_KeyFile : string;
  a_KeyFileWindows : string;
  a_AutoPwd : string;
}.
#[global] Instance eta_Auth : Eta Auth := λ r,
  MkAuth (a_Users r) (a_Disabled r) (a_AuthoritativeSet r) (a_AutoAuthMechanisms r)
    (a_AutoAuthMechanism r) (a_DeploymentAuthMechanisms r) (a_AutoUser r) (a_Key r) (a_KeyFile r)
    (a_KeyFileWindows r) (a_AutoPwd r).
Definition emptyAuth : Auth := MkAuth [] false false [] "" [] "" "" "" "" "".

Record Resource := MkResource {
  res_DB : option string; res_Collection : option string; res_AnyResource : bool; res_Cluster : bool;
}.
Record Privilege := MkPrivilege { p_Resource : Resource; p_Actions : GoSlice string }.
Record AuthenticationRestriction := MkAuthenticationRestriction {
  ar_ClientSource : GoSlice string; ar_ServerAddress : GoSlice string;
}.
Record CustomRole := MkCustomRole {
  cr_Role : string; cr_DB : string; cr_Privileges : GoSlice Privilege; cr_Roles : GoSlice Role;
  cr_AuthenticationRestrictions : list AuthenticationRestriction;
}.

Record TLS := MkTLS { tls_CAFilePath : string; tls_ClientCertificateMode : string }.
Record Options := MkOptions { o_DownloadBase : string }.

Record BuildConfig := MkBuildConfig {
  bc_Platform : string; bc_Url : string; bc_GitVersion : string; bc_Architecture : string;
  bc_Flavor : string; bc_MinOsVersion : string; bc_MaxOsVersion : string; bc_Modules : GoSlice string;
}.
#[global] Instance eta_BuildConfig : Eta BuildConfig := λ r,
  MkBuildConfig (bc_Platform r) (bc_Url r) (bc_GitVersion r) (bc_Architecture r) (bc_Flavor r)
    (bc_MinOsVersion r) (bc_MaxOsVersion r) (bc_Modules r).
Record MongoDbVersionConfig := MkMongoDbVersionConfig { vc_Name : string; vc_Builds : GoSlice BuildConfig }.
#[global] Instance BuildConfig_eq_dec : EqDecision BuildConfig.
Proof. solve_decision. Defined.
#[global] Instance MongoDbVersionConfig_eq_dec : EqDecision MongoDbVersionConfig.
Proof. solve_decision. Defined.

Record AutomationConfig := MkAutomationConfig {
  ac_Version : Z;
  ac_Processes : GoSlice Process;
  ac_ReplicaSets : GoSlice ReplicaSet;
  ac_Auth : Auth;
  ac_TLSConfig : option TLS;
  ac_SSLConfig : option TLS;
  ac_Versions : GoSlice MongoDbVersionConfig;
  ac_BackupVersions : GoSlice BackupVersion;
  ac_MonitoringVersions : GoSlice MonitoringVersion;
  ac_Options : Options;
  ac_Roles : list CustomRole;
}.
#[global] Instance eta_AutomationConfig : Eta AutomationConfig := λ r,
  MkAutomationConfig (ac_Version r) (ac_Processes r) (ac_ReplicaSets r) (ac_Auth r) (ac_TLSConfig r)
    (ac_SSLConfig r) (ac_Versions r) (ac_BackupVersions r) (ac_MonitoringVersions r) (ac_Options r)
    (ac_Roles r).
Definition emptyAutomationConfig : AutomationConfig :=
  MkAutomationConfig 0 None None emptyAuth None None None None None (MkOptions "") [].

(** ** The JSON form of each type, from its field tags *)

#[global] Instance GoJson_BackupVersion : GoJson BackupVersion.
Proof.
  refine (struct_GoJson
    (λ r, [member "baseUrl" (bv_BaseUrl r)])
    (MkBackupVersion "")
    (λ get,
      x0 ← of_json (get "baseUrl");
      Some (MkBackupVersion x0))
    (λ r, json_wf (bv_BaseUrl r)) _).
  struct_laws.
Defined.
#[global] Instance NonNull_BackupVersion : NonNull BackupVersion.
Proof. done. Qed.

#[global] Instance GoJson_MonitoringVersion : GoJson MonitoringVersion.
Proof.
  refine (struct_GoJson
    (λ r, [member "hostname" (mv_Hostname r); member "name" (mv_Name r); member "baseUrl" (mv_BaseUrl r);
           omitempty "additionalParams" (mv_AdditionalParams r)])
    (MkMonitoringVersion "" "" "" ∅)
    (λ get,
      x0 ← of_json (get "hostname"); x1 ← of_json (get "name"); x2 ← of_json (get "baseUrl");
      x3 ← of_json (get "additionalParams");
      Some (MkMonitoringVersion x0 x1 x2 x3))
    (λ r, json_wf (mv_Hostname r) && json_wf (mv_Name r) && json_wf (mv_BaseUrl r) &&
          json_wf (mv_AdditionalParams r)) _).
  struct_laws.
Defined.
#[global] Instance NonNull_MonitoringVersion : NonNull MonitoringVersion.
Proof. done. Qed.

#[global] Instance GoJson_Process : GoJson Process.
Proof.
  refine (struct_GoJson
    (λ r, [member "name" (pr_Name r); member "hostname" (pr_HostName r); member "args2_6" (pr_Args26 r);
           member "featureCompatibilityVersion" (pr_FeatureCompatibilityVersion r);
           member "processType" (pr_ProcessType r); member "version" (pr_Version r);
           member "authSchemaVersion" (pr_AuthSchemaVersion r)])
    (MkProcess "" "" None "" "" "" 0)
    (λ get,
      x0 ← of_json (get "name"); x1 ← of_json (get "hostname"); x2 ← of_json (get "args2_6");
      x3 ← of_json (get "featureCompatibilityVersion"); x4 ← of_json (get "processType");
      x5 ← of_json (get "version"); x6 ← of_json (get "authSchemaVersion");
      Some (MkProcess x0 x1 x2 x3 x4 x5 x6))
    (λ r, json_wf (pr_Name r) && json_wf (pr_HostName r) && json_wf (pr_Args26 r) &&
          json_wf (pr_FeatureCompatibilityVersion r) && json_wf (pr_ProcessType r) &&
          json_wf (pr_Version r) && json_wf (pr_AuthSchemaVersion r)) _).
  struct_laws.
Defined.
#[global] Instance NonNull_Process : NonNull Process.
Proof. done. Qed.

#[global] Instance GoJson_ReplicaSetMember : GoJson ReplicaSetMember.
Proof.
  refine (struct_GoJson
    (λ r, [member "_id" (m_Id r); member "host" (m_Host r); member "priority" (m_Priority r);
           member "arbiterOnly" (m_ArbiterOnly r); member "votes" (m_Votes r);
           omitempty "horizons" (m_Horizons r)])
    (MkReplicaSetMember 0 "" 0 false 0 ∅)
    (λ get,
      x0 ← of_json (get "_id"); x1 ← of_json (get "host"); x2 ← of_json (get "priority");
      x3 ← of_json (get "arbiterOnly"); x4 ← of_json (get "votes"); x5 ← of_json (get "horizons");
      Some (MkReplicaSetMember x0 x1 x2 x3 x4 x5))
    (λ r, json_wf (m_Id r) && json_wf (m_Host r) && json_wf (m_Priority r) && json_wf (m_ArbiterOnly r) &&
          json_wf (m_Votes r) && json_wf (m_Horizons r)) _).
  struct_laws.
Defined.
#[global] Instance NonNull_ReplicaSetMember : NonNull ReplicaSetMember.
Proof. done. Qed.

#[global] Instance GoJson_ReplicaSet : GoJson ReplicaSet.
Proof.
  refine (struct_GoJson
    (λ r, [member "_id" (rs_Id r); member "members" (rs_Members r);
           member "protocolVersion" (rs_ProtocolVersion r); member "numberArbiters" (rs_NumberArbiters r)])
    (MkReplicaSet "" None "" 0)
    (λ get,
      x0 ← of_json (get "_id"); x1 ← of_json (get "members"); x2 ← of_json (get "protocolVersion");
      x3 ← of_json (get "numberArbiters");
      Some (MkReplicaSet x0 x1 x2 x3))
    (λ r, json_wf (rs_Id r) && json_wf (rs_Members r) && json_wf (rs_ProtocolVersion r) &&
          json_wf (rs_NumberArbiters r)) _).
  struct_laws.
Defined.
#[global] Instance NonNull_ReplicaSet : NonNull ReplicaSet.
Proof. done. Qed.

#[global] Instance GoJson_Role : GoJson Role.
Proof.
  refine (struct_GoJson
    (λ r, [member "role" (r_Role r); member "db" (r_Database r)])
    (MkRole "" "")
    (λ get,
      x0 ← of_json (get "role"); x1 ← of_json (get "db");
      Some (MkRole x0 x1))
    (λ r, json_wf (r_Role r) && json_wf (r_Database r)) _).
  struct_laws.
Defined.
#[global] Instance NonNull_Role : NonNull Role.
Proof. done. Qed.

#[global] Instance GoJson_ScramCreds : GoJson ScramCreds.
Proof.
  refine (struct_GoJson
    (λ r, [member "iterationCount" (sc_IterationCount r); member "salt" (sc_Salt r);
           member "serverKey" (sc_ServerKey r); member "storedKey" (sc_StoredKey r)])
    (MkScramCreds 0 "" "" "")
    (λ get,
      x0 ← of_json (get "iterationCount"); x1 ← of_json (get "salt"); x2 ← of_json (get "serverKey");
      x3 ← of_json (get "storedKey");
      Some (MkScramCreds x0 x1 x2 x3))
    (λ r, json_wf (sc_IterationCount r) && json_wf (sc_Salt r) && json_wf (sc_ServerKey r) &&
          json_wf (sc_StoredKey r)) _).
  struct_laws.
Defined.
#[global] Instance NonNull_ScramCreds : NonNull ScramCreds.
Proof. done. Qed.

#[global] Instance GoJson_MongoDBUser : GoJson MongoDBUser.
Proof.
  refine (struct_GoJson
    (λ r, [member "mechanisms" (u_Mechanisms r); member "roles" (u_Roles r); member "user" (u_Username r);
           member "db" (u_Database r);
           member "authenticationRestrictions" (u_AuthenticationRestrictions r);
           member "scramSha256Creds" (u_ScramSha256Creds r); member "scramSha1Creds" (u_ScramSha1Creds r)])
    (MkMongoDBUser None None "" "" None None None)
    (λ get,
      x0 ← of_json (get "mechanisms"); x1 ← of_json (get "roles"); x2 ← of_json (get "user");
      x3 ← of_json (get "db"); x4 ← of_json (get "authenticationRestrictions");
      x5 ← of_json (get "scramSha256Creds"); x6 ← of_json (get "scramSha1Creds");
      Some (MkMongoDBUser x0 x1 x2 x3 x4 x5 x6))
    (λ r, json_wf (u_Mechanisms r) && json_wf (u_Roles r) && json_wf (u_Username r) &&
          json_wf (u_Database r) && json_wf (u_AuthenticationRestrictions r) &&
          json_wf (u_ScramSha256Creds r) && json_wf (u_ScramSha1Creds r)) _).
  struct_laws.
Defined.
#[global] Instance NonNull_MongoDBUser : NonNull MongoDBUser.
Proof. done. Qed.

#[global] Instance GoJson_Auth : GoJson Auth.
Proof.
  refine (struct_GoJson
    (λ r, [omitempty "usersWanted" (a_Users r); member "disabled" (a_Disabled r);
           member "authoritativeSet" (a_AuthoritativeSet r);
           omitempty "autoAuthMechanisms" (a_AutoAuthMechanisms r);
           member "autoAuthMechanism" (a_AutoAuthMechanism r);
           omitempty "deploymentAuthMechanisms" (a_DeploymentAuthMechanisms r);
           omitempty "autoUser" (a_AutoUser r); omitempty "key" (a_Key r);
           omitempty "keyfile" (a_KeyFile r); omitempty "keyfileWindows" (a_KeyFileWindows r);
           omitempty "autoPwd" (a_AutoPwd r)])
    (emptyAuth)
    (λ get,
      x0 ← of_json (get "usersWanted"); x1 ← of_json (get "disabled");
      x2 ← of_json (get "authoritativeSet"); x3 ← of_json (get "autoAuthMechanisms");
      x4 ← of_json (get "autoAuthMechanism"); x5 ← of_json (get "deploymentAuthMechanisms");
      x6 ← of_json (get "autoUser"); x7 ← of_json (get "key"); x8 ← of_json (get "keyfile");
      x9 ← of_json (get "keyfileWindows"); x10 ← of_json (get "autoPwd");
      Some (MkAuth x0 x1 x2 x3 x4 x5 x6 x7 x8 x9 x10))
    (λ r, json_wf (a_Users r) && json_wf (a_Disabled r) && json_wf (a_AuthoritativeSet r) &&
          json_wf (a_AutoAuthMechanisms r) && json_wf (a_AutoAuthMechanism r) &&
          json_wf (a_DeploymentAuthMechanisms r) && json_wf (a_AutoUser r) && json_wf (a_Key r) &&
          json_wf (a_KeyFile r) && json_wf (a_KeyFileWindows r) && json_wf (a_AutoPwd r)) _).
  struct_laws.
Defined.
#[global] Instance NonNull_Auth : NonNull Auth.
Proof. done. Qed.

#[global] Instance GoJson_Resource : GoJson Resource.
Proof.
  refine (struct_GoJson
    (λ r, [omitempty "db" (res_DB r); omitempty "collection" (res_Collection r);
           omitempty "anyResource" (res_AnyResource r); omitempty "cluster" (res_Cluster r)])
    (MkResource None None false false)
    (λ get,
      x0 ← of_json (get "db"); x1 ← of_json (get "collection"); x2 ← of_json (get "anyResource");
      x3 ← of_json (get "cluster");
      Some (MkResource x0 x1 x2 x3))
    (λ r, json_wf (res_DB r) && json_wf (res_Collection r) && json_wf (res_AnyResource r) &&
          json_wf (res_Cluster r)) _).
  struct_laws.
Defined.
#[global] Instance NonNull_Resource : NonNull Resource.
Proof. done. Qed.

#[global] Instance GoJson_Privilege : GoJson Privilege.
Proof.
  refine (struct_GoJson
    (λ r, [member "resource" (p_Resource r); member "actions" (p_Actions r)])
    (MkPrivilege (MkResource None None false false) None)
    (λ get,
      x0 ← of_json (get "resource"); x1 ← of_json (get "actions");
      Some (MkPrivilege x0 x1))
    (λ r, json_wf (p_Resource r) && json_wf (p_Actions r)) _).
  struct_laws.
Defined.
#[global] Instance NonNull_Privilege : NonNull Privilege.
Proof. done. Qed.

#[global] Instance GoJson_AuthenticationRestriction : GoJson AuthenticationRestriction.
Proof.
  refine (struct_GoJson
    (λ r, [member "clientSource" (ar_ClientSource r); member "serverAddress" (ar_ServerAddress r)])
    (MkAuthenticationRestriction None None)
    (λ get,
      x0 ← of_json (get "clientSource"); x1 ← of_json (get "serverAddress");
      Some (MkAuthenticationRestriction x0 x1))
    (λ r, json_wf (ar_ClientSource r) && json_wf (ar_ServerAddress r)) _).
  struct_laws.
Defined.
#[global] Instance NonNull_AuthenticationRestriction : NonNull AuthenticationRestriction.
Proof. done. Qed.

#[global] Instance GoJson_CustomRole : GoJson CustomRole.
Proof.
  refine (struct_GoJson
    (λ r, [member "role" (cr_Role r); member "db" (cr_DB r); member "privileges" (cr_Privileges r);
           member "roles" (cr_Roles r);
           omitempty "authenticationRestrictions" (cr_AuthenticationRestrictions r)])
    (MkCustomRole "" "" None None [])
    (λ get,
      x0 ← of_json (get "role"); x1 ← of_json (get "db"); x2 ← of_json (get "privileges");
      x3 ← of_json (get "roles"); x4 ← of_json (get "authenticationRestrictions");
      Some (MkCustomRole x0 x1 x2 x3 x4))
    (λ r, json_wf (cr_Role r) && json_wf (cr_DB r) && json_wf (cr_Privileges r) && json_wf (cr_Roles r) &&
          json_wf (cr_AuthenticationRestrictions r)) _).
  struct_laws.
Defined.
#[global] Instance NonNull_CustomRole : NonNull CustomRole.
Proof. done. Qed.

#[global] Instance GoJson_TLS : GoJson TLS.
Proof.
  refine (struct_GoJson
    (λ r, [member "CAFilePath" (tls_CAFilePath r);
           member "clientCertificateMode" (tls_ClientCertificateMode r)])
    (MkTLS "" "")
    (λ get,
      x0 ← of_json (get "CAFilePath"); x1 ← of_json (get "clientCertificateMode");
      Some (MkTLS x0 x1))
    (λ r, json_wf (tls_CAFilePath r) && json_wf (tls_ClientCertificateMode r)) _).
  struct_laws.
Defined.
#[global] Instance NonNull_TLS : NonNull TLS.
Proof. done. Qed.

#[global] Instance GoJson_Options : GoJson Options.
Proof.
  refine (struct_GoJson
    (λ r, [member "downloadBase" (o_DownloadBase r)])
    (MkOptions "")
    (λ get,
      x0 ← of_json (get "downloadBase");
      Some (MkOptions x0))
    (λ r, json_wf (o_DownloadBase r)) _).
  struct_laws.
Defined.
#[global] Instance NonNull_Options : NonNull Options.
Proof. done. Qed.

#[global] Instance GoJson_BuildConfig : GoJson BuildConfig.
Proof.
  refine (struct_GoJson
    (λ r, [member "platform" (bc_Platform r); member "url" (bc_Url r);
           member "gitVersion" (bc_GitVersion r); member "architecture" (bc_Architecture r);
           member "flavor" (bc_Flavor r); member "minOsVersion" (bc_MinOsVersion r);
           member "maxOsVersion" (bc_MaxOsVersion r); member "modules" (bc_Modules r)])
    (MkBuildConfig "" "" "" "" "" "" "" None)
    (λ get,
      x0 ← of_json (get "platform"); x1 ← of_json (get "url"); x2 ← of_json (get "gitVersion");
      x3 ← of_json (get "architecture"); x4 ← of_json (get "flavor");
      x5 ← of_json (get "minOsVersion"); x6 ← of_json (get "maxOsVersion");
      x7 ← of_json (get "modules");
      Some (MkBuildConfig x0 x1 x2 x3 x4 x5 x6 x7))
    (λ r, json_wf (bc_Platform r) && json_wf (bc_Url r) && json_wf (bc_GitVersion r) &&
          json_wf (bc_Architecture r) && json_wf (bc_Flavor r) && json_wf (bc_MinOsVersion r) &&
          json_wf (bc_MaxOsVersion r) && json_wf (bc_Modules r)) _).
  struct_laws.
Defined.
#[global] Instance NonNull_BuildConfig : NonNull BuildConfig.
Proof. done. Qed.

#[global] Instance GoJson_MongoDbVersionConfig : GoJson MongoDbVersionConfig.
Proof.
  refine (struct_GoJson
    (λ r, [member "name" (vc_Name r); member "builds" (vc_Builds r)])
    (MkMongoDbVersionConfig "" None)
    (λ get,
      x0 ← of_json (get "name"); x1 ← of_json (get "builds");
      Some (MkMongoDbVersionConfig x0 x1))
    (λ r, json_wf (vc_Name r) && json_wf (vc_Builds r)) _).
  struct_laws.
Defined.
#[global] Instance NonNull_MongoDbVersionConfig : NonNull MongoDbVersionConfig.
Proof. done. Qed.

#[global] Instance GoJson_AutomationConfig : GoJson AutomationConfig.
Proof.
  refine (struct_GoJson
    (λ r, [member "version" (ac_Version r); member "processes" (ac_Processes r);
           member "replicaSets" (ac_ReplicaSets r); member "auth" (ac_Auth r);
           omitempty "tls" (ac_TLSConfig r); omitempty "ssl" (ac_SSLConfig r);
           member "mongoDbVersions" (ac_Versions r); member "backupVersions" (ac_BackupVersions r);
           member "monitoringVersions" (ac_MonitoringVersions r); member "options" (ac_Options r);
           omitempty "roles" (ac_Roles r)])
    (emptyAutomationConfig)
    (λ get,
      x0 ← of_json (get "version"); x1 ← of_json (get "processes"); x2 ← of_json (get "replicaSets");
      x3 ← of_json (get "auth"); x4 ← of_json (get "tls"); x5 ← of_json (get "ssl");
      x6 ← of_json (get "mongoDbVersions"); x7 ← of_json (get "backupVersions");
      x8 ← of_json (get "monitoringVersions"); x9 ← of_json (get "options");
      x10 ← of_json (get "roles");
      Some (MkAutomationConfig x0 x1 x2 x3 x4 x5 x6 x7 x8 x9 x10))
    (λ r, json_wf (ac_Version r) && json_wf (ac_Processes r) && json_wf (ac_ReplicaSets r) &&
          json_wf (ac_Auth r) && json_wf (ac_TLSConfig r) && json_wf (ac_SSLConfig r) &&
          json_wf (ac_Versions r) && json_wf (ac_BackupVersions r) && json_wf (ac_MonitoringVersions r) &&
          json_wf (ac_Options r) && json_wf (ac_Roles r)) _).
  struct_laws.
Defined.
#[global] Instance NonNull_AutomationConfig : NonNull AutomationConfig.
Proof. done. Qed.
