(* ===== verification/ACBuilder.v ===== *)
(** * Building the automation config

    pkg/automationconfig/automation_config.go (the setters of a process, a
    replica set member, [AreEqual], [FromBytes]) and automation_config_builder.go
    (the builder and [Build]); pkg/util/versions.

    [Build] is a method on a pointer and updates the builder it is called on, so
    it is a computation over a [Builder].  The semantic-version library and the
    [objx] map are third-party code and parameters. *)
From S2P Require Import Prelude GoStd K8s Json Codec ScramCreds ACTypes.
Local Open Scope Z_scope.

(** github.com/blang/semver: parsing, order, components of a version. *)
Class Semver := {
  version : Type;
  Make : string → option version;
  GT : version → version → bool;
  GTE : version → version → bool;
  Major : version → Z;
  Minor : version → Z;
}.

(** github.com/stretchr/objx: [m.Set(selector, value)] on a non-nil map. *)
Class Objx := objx_Set : gmap string json → string → json → gmap string json.

(** ** Package versions *)

Definition CalculateFeatureCompatibilityVersion `{Semver} (versionStr : string) : string :=
  match Make versionStr with
  | None => ""
  | Some v1 =>
      match Make "3.4.0" with
      | Some baseVersion =>
          if GTE v1 baseVersion then Itoa (Major v1) +:+ "." +:+ Itoa (Minor v1) else ""
      | None => ""
      end
  end.

(** ** Processes *)

Section Process.
Context `{Objx}.

Definition ensureArgs26 (p : Process) : Process :=
  match pr_Args26 p with None => p <| pr_Args26 := Some ∅ |> | Some _ => p end.

Definition SetArgs26Field (fieldName : string) (value : json) (p : Process) : Process :=
  let p := ensureArgs26 p in
  p <| pr_Args26 := Some (objx_Set (gm (pr_Args26 p)) fieldName value) |>.

Definition SetPort (port : Z) (p : Process) : Process := SetArgs26Field "net.port" (JNum port) p.
Definition SetStoragePath (storagePath : string) (p : Process) : Process :=
  SetArgs26Field "storage.dbPath" (JStr storagePath) p.
Definition SetReplicaSetName (replSetName : string) (p : Process) : Process :=
  SetArgs26Field "replication.replSetName" (JStr replSetName) p.
Definition SetSystemLog (systemLog : SystemLog) (p : Process) : Process :=
  SetArgs26Field "systemLog.logAppend" (JBool (sl_LogAppend systemLog))
    (SetArgs26Field "systemLog.destination" (JStr (sl_Destination systemLog))
      (SetArgs26Field "systemLog.path" (JStr (sl_Path systemLog)) p)).
End Process.

Definition newReplicaSetMember (p : Process) (id : Z) (horizons : ReplicaSetHorizons)
    (totalVotesSoFar numberArbiters : Z) : ReplicaSetMember :=
  let isArbiter := totalVotesSoFar <? numberArbiters in
  let '(votes, priority) := if totalVotesSoFar >? maxVotingMembers then (0, 0) else (1, 1) in
  MkReplicaSetMember id (pr_Name p) priority isArbiter votes horizons.

Definition disabledAuth : Auth :=
  emptyAuth <| a_AutoAuthMechanism := "MONGODB-CR" |> <| a_Disabled := true |>.

(** ** Comparing and decoding

    [json.Marshal] does not fail on these types. *)

Definition Marshal (ac : AutomationConfig) : string := print_json (to_json ac).

Definition AreEqual (ac0 ac1 : AutomationConfig) : bool :=
  let ac0 := ac0 <| ac_Version := ac_Version ac1 |> in
  bool_decide (Marshal ac0 = Marshal ac1).

Definition FromBytes (acBytes : string) : outcome AutomationConfig :=
  match parse_json acBytes with
  | None => Err (TextError "unexpected end of JSON input")
  | Some j =>
      match of_json j with
      | None => Err (TextError "json: cannot unmarshal into Go value")
      | Some ac => Ret ac
      end
  end.

(** ** The builder *)

Definition Modification : Type := AutomationConfig → AutomationConfig.

Record Builder := MkBuilder {
  b_replicaSetHorizons : GoSlice ReplicaSetHorizons;
  b_members : Z;
  b_arbiters : Z;
  b_domain : string;
  b_name : string;
  b_fcv : string;
  b_topology : string;
  b_mongodbVersion : string;
  b_previousAC : AutomationConfig;
  b_versions : list MongoDbVersionConfig;
  b_backupVersions : GoSlice BackupVersion;
  b_monitoringVersions : GoSlice MonitoringVersion;
  b_options : Options;
  b_processModifications : list (Z → Process → Process);
  b_modifications : list Modification;
  b_auth : option Auth;
  b_cafilePath : string;
  b_sslConfig : option TLS;
  b_tlsConfig : option TLS;
}.
#[global] Instance eta_Builder : Eta Builder := λ b,
  MkBuilder (b_replicaSetHorizons b) (b_members b) (b_arbiters b) (b_domain b) (b_name b) (b_fcv b)
    (b_topology b) (b_mongodbVersion b) (b_previousAC b) (b_versions b) (b_backupVersions b)
    (b_monitoringVersions b) (b_options b) (b_processModifications b) (b_modifications b) (b_auth b)
    (b_cafilePath b) (b_sslConfig b) (b_tlsConfig b).

Definition NewBuilder : Builder :=
  MkBuilder None 0 0 "" "" "" "" "" emptyAutomationConfig [] (Some []) (Some []) (MkOptions "") [] []
    None "" None None.

Definition SetOptions (x : Options) (b : Builder) : Builder := b <| b_options := x |>.
Definition SetTopology (x : string) (b : Builder) : Builder := b <| b_topology := x |>.
Definition SetReplicaSetHorizons (x : GoSlice ReplicaSetHorizons) (b : Builder) : Builder :=
  b <| b_replicaSetHorizons := x |>.
Definition SetTLSConfig (x : TLS) (b : Builder) : Builder := b <| b_tlsConfig := Some x |>.
Definition SetSSLConfig (x : TLS) (b : Builder) : Builder := b <| b_sslConfig := Some x |>.
Definition SetMembers (x : Z) (b : Builder) : Builder := b <| b_members := x |>.
Definition SetArbiters (x : Z) (b : Builder) : Builder := b <| b_arbiters := x |>.
Definition SetDomain (x : string) (b : Builder) : Builder := b <| b_domain := x |>.
Definition SetName (x : string) (b : Builder) : Builder := b <| b_name := x |>.
Definition SetFCV (x : string) (b : Builder) : Builder := b <| b_fcv := x |>.
Definition SetCAFilePath (x : string) (b : Builder) : Builder := b <| b_cafilePath := x |>.
Definition SetMongoDBVersion (x : string) (b : Builder) : Builder := b <| b_mongodbVersion := x |>.
Definition SetBackupVersions (x : list BackupVersion) (b : Builder) : Builder :=
  b <| b_backupVersions := Some x |>.
Definition SetMonitoringVersions (x : list MonitoringVersion) (b : Builder) : Builder :=
  b <| b_monitoringVersions := Some x |>.
Definition SetPreviousAutomationConfig (x : AutomationConfig) (b : Builder) : Builder :=
  b <| b_previousAC := x |>.
Definition SetAuth (x : Auth) (b : Builder) : Builder := b <| b_auth := Some x |>.
Definition AddProcessModification (f : Z → Process → Process) (b : Builder) : Builder :=
  b <| b_processModifications ::= λ l, l ++ [f] |>.
Definition AddModifications (mods : list Modification) (b : Builder) : Builder :=
  b <| b_modifications ::= λ l, l ++ mods |>.

Definition AddVersion (v : MongoDbVersionConfig) (b : Builder) : Builder :=
  let fix_build bc := match bc_Modules bc with None => bc <| bc_Modules := Some [] |> | Some _ => bc end in
  let v := MkMongoDbVersionConfig (vc_Name v) (map fix_build <$> vc_Builds v) in
  b <| b_versions ::= λ l, l ++ [v] |>.

Definition AddVersions (vs : list MongoDbVersionConfig) (b : Builder) : Builder :=
  foldl (λ b v, AddVersion v b) b vs.

Definition toProcessName (name : string) (index : Z) : string := name +:+ "-" +:+ Itoa index.

(** [reflect.DeepEqual] tells a nil slice from an empty one, like [=] here. *)
Definition versionsContain (versions : list MongoDbVersionConfig) (v : MongoDbVersionConfig) : bool :=
  existsb (λ x, bool_decide (x = v)) versions.

Definition buildDummyMongoDbVersionConfig (version : string) : MongoDbVersionConfig :=
  let modules := if HasSuffix version "-ent" then ["enterprise"] else [] in
  MkMongoDbVersionConfig version
    (Some [ MkBuildConfig "linux" "" "" "amd64" "rhel" "" "" (Some modules);
            MkBuildConfig "linux" "" "" "amd64" "ubuntu" "" "" (Some modules) ]).

Section Build.
Context `{Semver, Objx}.

Definition setFeatureCompatibilityVersionIfUpgradeIsHappening : IO Builder unit :=
  b <- get ;;
  match els (ac_Processes (b_previousAC b)) with
  | p0 :: _ =>
      if bool_decide (b_fcv b = "") then
        let previousFCV := pr_FeatureCompatibilityVersion p0 in
        match Make (previousFCV +:+ ".0") with
        | None =>
            throw (TextError ("can't compute semver version from previous FeatureCompatibilityVersion "
                              +:+ previousFCV))
        | Some previousFCVsemver =>
            match Make (b_mongodbVersion b) with
            | None =>
                throw (TextError ("current MongoDB version is not a valid semver version: "
                                  +:+ b_mongodbVersion b))
            | Some currentVersionSemver =>
                if GT currentVersionSemver previousFCVsemver
                then modify (λ b, b <| b_fcv := previousFCV |>)
                else ret ()
            end
        end
      else ret ()
  | [] => ret ()
  end.

(** The process of member [i], before it is placed in the replica set. *)
Definition buildProcess (b : Builder) (i : Z) (h : string) : Process :=
  let process :=
    MkProcess (toProcessName (b_name b) i) h None
      (CalculateFeatureCompatibilityVersion (b_mongodbVersion b)) Mongod (b_mongodbVersion b) 5 in
  let process :=
    if bool_decide (b_fcv b = "") then process
    else process <| pr_FeatureCompatibilityVersion := b_fcv b |> in
  let process := SetReplicaSetName (b_name b) (SetStoragePath DefaultMongoDBDataDir (SetPort 27017 process)) in
  foldl (λ p mod_, mod_ i p) process (b_processModifications b).

(** The loop over the host names: processes and members, in order. *)
Fixpoint buildMembers (b : Builder) (hostnames : list string) (i totalVotes : Z)
    : outcome (list Process * list ReplicaSetMember) :=
  match hostnames with
  | [] => Ret ([], [])
  | h :: hs =>
      let process := buildProcess b i h in
      let! horizons :=
        match b_replicaSetHorizons b with
        | Some l => match l !! Z.to_nat i with Some x => Ret x | None => Panic "index out of range" end
        | None => Ret ∅
        end in
      let member := newReplicaSetMember process i horizons totalVotes (b_arbiters b) in
      let! '(ps, ms) := buildMembers b hs (i + 1) (totalVotes + m_Votes member) in
      Ret (process :: ps, member :: ms)
  end.

(** The config before modifications; the version is the previous one. *)
Definition assemble (b : Builder) (auth : Auth) (processes : list Process) (members : list ReplicaSetMember)
    : AutomationConfig :=
  {| ac_Version := ac_Version (b_previousAC b);
     ac_Processes := Some processes;
     ac_ReplicaSets := Some [ MkReplicaSet (b_name b) (Some members) "1" 0 ];
     ac_Auth := auth;
     ac_TLSConfig :=
       match b_tlsConfig b with
       | Some t => Some t
       | None => Some (MkTLS (b_cafilePath b) ClientCertificateModeOptional)
       end;
     ac_SSLConfig := b_sslConfig b;
     ac_Versions := Some (b_versions b);
     ac_BackupVersions := b_backupVersions b;
     ac_MonitoringVersions := b_monitoringVersions b;
     ac_Options := b_options b;
     ac_Roles := [] |}.

Definition hostname (b : Builder) (i : Z) : string := b_name b +:+ "-" +:+ Itoa i +:+ "." +:+ b_domain b.

Definition Build : IO Builder AutomationConfig :=
  b <- get ;;
  if b_members b <? 0 then panic "makeslice: len out of range" else
  let hostnames := map (hostname b) (indices (b_members b)) in
  wrap (prefix_error "can't build the automation config: ")
    setFeatureCompatibilityVersionIfUpgradeIsHappening ;;
  b <- get ;;
  r <- lift (buildMembers b hostnames 0 0) ;;
  let '(processes, members) := r in
  modify (λ b, match b_auth b with None => b <| b_auth := Some disabledAuth |> | Some _ => b end) ;;
  (let dummyConfig := buildDummyMongoDbVersionConfig (b_mongodbVersion b) in
   modify (λ b, if versionsContain (b_versions b) dummyConfig then b
                else b <| b_versions ::= λ l, l ++ [dummyConfig] |>)) ;;
  b <- get ;;
  let currentAc := assemble b (default disabledAuth (b_auth b)) processes members in
  let currentAc := foldl (λ ac modification, modification ac) currentAc (b_modifications b) in
  ret (if AreEqual (b_previousAC b) currentAc then currentAc
       else currentAc <| ac_Version := int64 (ac_Version currentAc + 1) |>).
End Build.

#[global] Arguments AreEqual : simpl never.
#[global] Arguments Marshal : simpl never.
#[global] Arguments versionsContain : simpl never.
#[global] Arguments buildDummyMongoDbVersionConfig : simpl never.
#[global] Arguments assemble : simpl never.
#[global] Arguments setFeatureCompatibilityVersionIfUpgradeIsHappening : simpl never.
#[global] Arguments disabledAuth : simpl never.
