(* ===== verification/ACFacts.v ===== *)
(** * Properties of the automation config and its builder *)
From S2P Require Import Prelude GoStd K8s Json Codec ScramCreds ACTypes ACBuilder.
Local Open Scope Z_scope.

(** ** Comparing and decoding *)

Lemma Marshal_FromBytes ac : json_wf ac = true → FromBytes (Marshal ac) = Ret ac.
Proof. intros Hwf. unfold FromBytes, Marshal. by rewrite parse_print_json, of_to_json. Qed.

Lemma Marshal_inj ac0 ac1 :
  json_wf ac0 = true → json_wf ac1 = true → Marshal ac0 = Marshal ac1 → ac0 = ac1.
Proof.
  intros H0 H1 E. apply (f_equal FromBytes) in E.
  rewrite !Marshal_FromBytes in E by done. by injection E.
Qed.

(** Whether every number of a config fits does not depend on its version alone. *)
Lemma json_wf_set_version ac v :
  json_wf ac = true → fits_int64 v = true → json_wf (ac <| ac_Version := v |>) = true.
Proof.
  destruct ac. cbn -[fits_int64 json_wf]. unfold json_wf. cbn -[fits_int64]. intros H Hv.
  rewrite Hv. rewrite !andb_true_iff in *. naive_solver.
Qed.

Lemma json_wf_version ac : json_wf ac = true → fits_int64 (ac_Version ac) = true.
Proof. unfold json_wf. cbn -[fits_int64]. rewrite !andb_true_iff. naive_solver. Qed.

Lemma set_version_same ac : ac <| ac_Version := ac_Version ac |> = ac.
Proof. by destruct ac. Qed.

Lemma set_version_twice ac v w : ac <| ac_Version := v |> <| ac_Version := w |> = ac <| ac_Version := w |>.
Proof. by destruct ac. Qed.

(** On configs whose numbers fit, comparing encoded bytes is equality of the
    configs up to the version. *)
Lemma AreEqual_iff ac0 ac1 :
  json_wf ac0 = true → json_wf ac1 = true →
  AreEqual ac0 ac1 = true ↔ ac0 <| ac_Version := ac_Version ac1 |> = ac1.
Proof.
  intros H0 H1. unfold AreEqual. rewrite bool_decide_eq_true. split; [|by intros ->].
  apply Marshal_inj; [|done]. apply json_wf_set_version; [done | by apply json_wf_version].
Qed.

Lemma AreEqual_refl ac v : AreEqual (ac <| ac_Version := v |>) ac = true.
Proof.
  unfold AreEqual. rewrite bool_decide_eq_true, set_version_twice, set_version_same. done.
Qed.

(** ** The member loop in closed form *)

Section Members.
Context `{Semver, Objx}.
Implicit Types b : Builder.

Definition process_at b (i : Z) : Process := buildProcess b i (hostname b i).
Definition horizons_at b (i : Z) : ReplicaSetHorizons :=
  match b_replicaSetHorizons b with Some l => default ∅ (l !! Z.to_nat i) | None => ∅ end.
(** [totalVotes] when member [i] is built. *)
Definition votes_before (i : Z) : Z := Z.min i 8.
Definition member_at b (i : Z) : ReplicaSetMember :=
  newReplicaSetMember (process_at b i) i (horizons_at b i) (votes_before i) (b_arbiters b).

(** Enough horizons for the members, or none at all. *)
Definition horizons_ok b : Prop :=
  match b_replicaSetHorizons b with Some l => b_members b ≤ Z.of_nat (length l) | None => True end.

Lemma votes_step b i : 0 ≤ i → votes_before i + m_Votes (member_at b i) = votes_before (i + 1).
Proof.
  intros Hi. unfold member_at, newReplicaSetMember, votes_before, maxVotingMembers.
  destruct (Z.gtb_spec (Z.min i 8) 7); simpl; lia.
Qed.

Lemma buildMembers_eq b (n : nat) i :
  horizons_ok b → 0 ≤ i → i + Z.of_nat n ≤ b_members b →
  buildMembers b (map (hostname b) (seqZ i (Z.of_nat n))) i (votes_before i) =
  Ret (map (process_at b) (seqZ i (Z.of_nat n)), map (member_at b) (seqZ i (Z.of_nat n))).
Proof.
  intros Hh. revert i. induction n as [|n IH]; intros i Hi Hn; [done|].
  rewrite seqZ_cons by lia. replace (Z.pred (Z.of_nat (S n))) with (Z.of_nat n) by lia.
  rewrite <- Z.add_1_r. cbn [map buildMembers].
  assert (match b_replicaSetHorizons b with
          | Some l => match l !! Z.to_nat i with Some x => Ret x | None => Panic "index out of range" end
          | None => Ret ∅
          end = Ret (horizons_at b i)) as ->.
  { unfold horizons_ok in Hh. unfold horizons_at. destruct (b_replicaSetHorizons b) as [l|]; [|done].
    destruct (l !! Z.to_nat i) eqn:E; [done|]. apply lookup_ge_None in E. lia. }
  cbn [obind]. fold (process_at b i). fold (member_at b i). rewrite votes_step by lia.
  rewrite IH by lia. done.
Qed.

Lemma buildMembers_all b :
  horizons_ok b → 0 ≤ b_members b →
  buildMembers b (map (hostname b) (indices (b_members b))) 0 0 =
  Ret (map (process_at b) (indices (b_members b)), map (member_at b) (indices (b_members b))).
Proof.
  intros Hh Hn. pose proof (buildMembers_eq b (Z.to_nat (b_members b)) 0 Hh) as H1.
  rewrite Z2Nat.id in H1 by lia. apply H1; lia.
Qed.

(** [buildMembers] fails in one way only: there are fewer horizons than members. *)
Lemma buildMembers_short b hs i tv l :
  b_replicaSetHorizons b = Some l → 0 ≤ i → Z.of_nat (length l) < i + Z.of_nat (length hs) →
  Z.of_nat (length l) >= i →
  buildMembers b hs i tv = Panic "index out of range".
Proof.
  intros Hl. revert i tv. induction hs as [|h hs IH]; intros i tv Hi H1 H2; [simpl in *; lia|].
  cbn [buildMembers]. rewrite Hl. destruct (l !! Z.to_nat i) as [x|] eqn:E; [|done].
  cbn [obind]. rewrite IH; [done|lia| |].
  - simpl in H1. lia.
  - apply lookup_lt_Some in E. lia.
Qed.

(** ** [Build] in closed form *)

(** The state of the builder after the FCV step. *)
Definition after_fcv b : outcome unit * Builder := setFeatureCompatibilityVersionIfUpgradeIsHappening b.

Definition versions_of b : list MongoDbVersionConfig :=
  let dummy := buildDummyMongoDbVersionConfig (b_mongodbVersion b) in
  if versionsContain (b_versions b) dummy then b_versions b else b_versions b ++ [dummy].

Definition built_config b : AutomationConfig :=
  foldl (λ ac m, m ac)
    (assemble (b <| b_versions := versions_of b |>) (default disabledAuth (b_auth b))
      (map (process_at b) (indices (b_members b))) (map (member_at b) (indices (b_members b))))
    (b_modifications b).

Definition bump (previous current : AutomationConfig) : AutomationConfig :=
  if AreEqual previous current then current
  else current <| ac_Version := int64 (ac_Version current + 1) |>.

Lemma bump_version prev cur :
  ac_Version cur = ac_Version prev → json_wf prev = true → json_wf (bump prev cur) = true →
  bump prev cur = prev
  ∨ (ac_Version (bump prev cur) = int64 (ac_Version prev + 1)
     ∧ (bump prev cur) <| ac_Version := ac_Version prev |> ≠ prev).
Proof.
  intros HV Hp Hac.
  assert (json_wf cur = true) as Hcur.
  { unfold bump in Hac. destruct AreEqual; [done|].
    rewrite <- (set_version_same cur), <- (set_version_twice _ (int64 (ac_Version cur + 1))).
    apply json_wf_set_version; [done|]. rewrite HV. by apply json_wf_version. }
  unfold bump. destruct (AreEqual prev cur) eqn:Heq.
  - left. apply AreEqual_iff in Heq; [|done..]. by rewrite HV, set_version_same in Heq.
  - right. split; [by rewrite HV|]. rewrite set_version_twice. intros E.
    enough (AreEqual prev cur = true) by congruence. rewrite <- E. apply AreEqual_refl.
Qed.

(** A config is equal to itself whatever its version was before. *)
Lemma bump_again prev cur :
  bump (bump prev cur) (cur <| ac_Version := ac_Version (bump prev cur) |>) = bump prev cur.
Proof.
  unfold bump at 1. assert (∃ v, bump prev cur = cur <| ac_Version := v |>) as [v ->].
  { unfold bump. destruct (AreEqual prev cur); [exists (ac_Version cur); by rewrite set_version_same | eauto]. }
  change (ac_Version (cur <| ac_Version := v |>)) with v.
  replace (AreEqual _ _) with true; [done|]. symmetry.
  rewrite <- (set_version_same (cur <| ac_Version := v |>)) at 1. apply AreEqual_refl.
Qed.

(** The FCV step changes nothing but the FCV. *)
Lemma after_fcv_eq b u b1 :
  after_fcv b = (Ret u, b1) → ∃ fcv, b1 = b <| b_fcv := fcv |>.
Proof.
  unfold after_fcv, setFeatureCompatibilityVersionIfUpgradeIsHappening, bind, get, modify, ret, throw. simpl.
  intros E. repeat case_match; simplify_eq; first [by eexists | by exists (b_fcv b1); destruct b1].
Qed.

(** Everything after the FCV step, on the builder it leaves. *)
Lemma Build_unfold b :
  0 ≤ b_members b →
  Build b = match after_fcv b with
            | (Ret _, b1) =>
                match buildMembers b1 (map (hostname b) (indices (b_members b))) 0 0 with
                | Ret (ps, ms) =>
                    let b2 := b1 <| b_auth := Some (default disabledAuth (b_auth b1)) |>
                                 <| b_versions := versions_of b1 |> in
                    (Ret (bump (b_previousAC b2)
                      (foldl (λ ac m, m ac) (assemble b2 (default disabledAuth (b_auth b1)) ps ms)
                        (b_modifications b2))), b2)
                | Err e => (Err e, b1)
                | Panic s => (Panic s, b1)
                end
            | (Err e, b1) => (Err (TextError (prefix_error "can't build the automation config: " (err_text e))), b1)
            | (Panic s, b1) => (Panic s, b1)
            end.
Proof.
  intros Hn. unfold Build. run_step. destruct (Z.ltb_spec (b_members b) 0); [lia|].
  unfold after_fcv. destruct (setFeatureCompatibilityVersionIfUpgradeIsHappening b) as [[u|e|s] b1] eqn:E.
  - erewrite bind_Ret by (apply wrap_Ret; eassumption). run_step.
    destruct (buildMembers _ _ _ _) as [[ps ms]|e|s] eqn:EM.
    + run_step. cbv iota. run_step. run_step. run_step. unfold versions_of, bump.
      destruct b1 as [? ? ? ? ? ? ? ? ? vs ? ? ? ? ? [] ? ? ?]; cbn -[versionsContain AreEqual].
      all: destruct (versionsContain vs _); reflexivity.
    + by run_step.
    + by run_step.
  - by erewrite bind_Err by (unfold wrap; rewrite E; reflexivity).
  - by erewrite bind_Panic by (unfold wrap; rewrite E; reflexivity).
Qed.

Lemma Build_eq b b1 u :
  0 ≤ b_members b → horizons_ok b → after_fcv b = (Ret u, b1) →
  (Build b).1 = Ret (bump (b_previousAC b) (built_config b1)).
Proof.
  intros Hn Hh Hf. rewrite Build_unfold, Hf by done.
  destruct (after_fcv_eq _ _ _ Hf) as [fcv ->].
  change (map (hostname b) (indices (b_members b))) with
    (map (hostname (b <| b_fcv := fcv |>)) (indices (b_members (b <| b_fcv := fcv |>)))).
  by rewrite buildMembers_all.
Qed.

(** A config is built only with enough horizons for the members. *)
Lemma Build_inv b ac :
  (Build b).1 = Ret ac →
  0 ≤ b_members b ∧ horizons_ok b ∧
  ∃ u b1, after_fcv b = (Ret u, b1) ∧ ac = bump (b_previousAC b) (built_config b1).
Proof.
  intros E. destruct (Z_lt_le_dec (b_members b) 0) as [Hlt|Hn].
  { unfold Build in E. erewrite bind_Ret in E by reflexivity.
    by destruct (Z.ltb_spec (b_members b) 0); [|lia]. }
  destruct (after_fcv b) as [[u|e|s] b1] eqn:Hf;
    [|by rewrite Build_unfold, Hf in E..].
  assert (horizons_ok b) as Hh.
  { unfold horizons_ok. destruct (b_replicaSetHorizons b) as [l|] eqn:Hl; [|done].
    destruct (Z_le_gt_dec (b_members b) (Z.of_nat (length l))) as [|Hgt]; [done|].
    rewrite Build_unfold, Hf in E by done. destruct (after_fcv_eq _ _ _ Hf) as [fcv ->].
    rewrite (buildMembers_short _ _ 0 0 l) in E; [done|done|lia| |lia].
    unfold indices. rewrite length_map, length_seqZ. lia. }
  split_and!; [done..|]. exists u, b1. split; [done|].
  rewrite (Build_eq b b1 u) in E by done. injection E as E. symmetry. exact E.
Qed.
End Members.

(** ** What the builder promises *)

(** A modification that leaves a part [f] of the config alone. *)
Definition keeps {A} (f : AutomationConfig → A) (mods : list Modification) : Prop :=
  Forall (λ m : Modification, ∀ ac, f (m ac) = f ac) mods.
Definition process_keeps {A} (f : Process → A) (mods : list (Z → Process → Process)) : Prop :=
  Forall (λ m, ∀ i p, f (m i p) = f p) mods.

Lemma keeps_foldl {A} (f : AutomationConfig → A) mods ac :
  keeps f mods → f (foldl (λ ac m, m ac) ac mods) = f ac.
Proof.
  intros Hk. revert ac. induction Hk as [|m mods Hm _ IH]; intros ac; [done|]. simpl. by rewrite IH, Hm.
Qed.

Lemma process_keeps_foldl {A} (f : Process → A) mods i p :
  process_keeps f mods → f (foldl (λ p m, m i p) p mods) = f p.
Proof.
  intros Hk. revert p. induction Hk as [|m mods Hm _ IH]; intros p; [done|]. simpl. by rewrite IH, Hm.
Qed.

#[global] Instance Itoa_inj : Inj (=) (=) Itoa.
Proof. intros x y E. apply (f_equal ParseInt) in E. rewrite !ParseInt_Itoa in E. by injection E. Qed.

Lemma string_app_inj_l s t u : s +:+ t = s +:+ u → t = u.
Proof. induction s as [|a s IH]; [done|]. rewrite !string_app_cons. intros [= ?]. by apply IH. Qed.

Lemma string_app_inj_r s t u : t +:+ s = u +:+ s → t = u.
Proof.
  intros E. assert (String.length t = String.length u) as HL.
  { apply (f_equal String.length) in E. rewrite !string_length_app in E. lia. }
  revert u HL E. induction t as [|a t IH]; intros [|b u] HL E; simpl in *; try done.
  rewrite !string_app_cons in E. injection E as -> E. f_equal. apply IH; [lia | done].
Qed.

Lemma toProcessName_inj name i j : toProcessName name i = toProcessName name j → i = j.
Proof. unfold toProcessName. intros E%string_app_inj_l%string_app_inj_l. by apply Itoa_inj. Qed.

Lemma hostname_inj b i j : hostname b i = hostname b j → i = j.
Proof.
  unfold hostname. intros E%string_app_inj_l%string_app_inj_l%string_app_inj_r. by apply Itoa_inj.
Qed.

Section Identity.
Context `{Semver, Objx}.
Implicit Types b : Builder.

(** The parts of a process the argument setters never touch. *)
Lemma process_at_part {A} (f : Process → A) b i :
  (∀ p args, f (p <| pr_Args26 := args |>) = f p) →
  process_keeps f (b_processModifications b) →
  f (process_at b i) =
  f (MkProcess (toProcessName (b_name b) i) (hostname b i) None
       (if bool_decide (b_fcv b = "") then CalculateFeatureCompatibilityVersion (b_mongodbVersion b)
        else b_fcv b) Mongod (b_mongodbVersion b) 5).
Proof.
  intros Hf Hm. unfold process_at, buildProcess.
  rewrite (process_keeps_foldl f _ _ _ Hm).
  unfold SetReplicaSetName, SetStoragePath, SetPort, SetArgs26Field, ensureArgs26.
  destruct (bool_decide (b_fcv b = "")); simpl; rewrite !Hf; try done.
Qed.

Lemma built_config_part {A} (f : AutomationConfig → A) b :
  keeps f (b_modifications b) →
  f (built_config b) =
  f (assemble (b <| b_versions := versions_of b |>) (default disabledAuth (b_auth b))
       (map (process_at b) (indices (b_members b))) (map (member_at b) (indices (b_members b)))).
Proof. apply keeps_foldl. Qed.

Lemma bump_part {A} (f : AutomationConfig → A) prev cur :
  (∀ ac v, f (ac <| ac_Version := v |>) = f ac) → f (bump prev cur) = f cur.
Proof. intros Hf. unfold bump. destruct (AreEqual prev cur); [done | apply Hf]. Qed.
End Identity.
