(* ===== verification/ACTheorems.v ===== *)
(** * What the automation config builder guarantees

    The version changes exactly when the content does, rebuilding is a fixed
    point, members have distinct names and hosts, votes and arbiters, and the
    feature compatibility version during an upgrade. *)
From S2P Require Import Prelude GoStd K8s Json Codec ScramCreds ACTypes ACBuilder ACFacts.
Local Open Scope Z_scope.

(** ** Instances of the parameters, for concrete runs *)

(** Versions [x.y.z] with an optional suffix ([-ent], [-rc1]); a version with a
    suffix comes before the one without. *)
Definition parse_semver (s : string) : option (Z * Z * Z * string) :=
  match read_int s with
  | Some (x, String d1 s1) =>
      match read_int s1 with
      | Some (y, String d2 s2) =>
          match read_int s2 with
          | Some (z, rest) =>
              if bool_decide (d1 = chr 46 ∧ d2 = chr 46)
                 && (bool_decide (rest = "") || HasPrefix rest "-" || HasPrefix rest "+")
              then Some (x, y, z, rest) else None
          | None => None
          end
      | _ => None
      end
  | _ => None
  end.

Definition semver_compare (v w : Z * Z * Z * string) : comparison :=
  let '(x, y, z, r) := v in
  let '(x', y', z', r') := w in
  match x ?= x', y ?= y', z ?= z' with
  | Eq, Eq, Eq =>
      if bool_decide (r = r') then Eq
      else if bool_decide (r = "") then Gt else if bool_decide (r' = "") then Lt else String.compare r r'
  | Eq, Eq, c => c
  | Eq, c, _ => c
  | c, _, _ => c
  end.

Definition plain_semver : Semver := {|
  version := Z * Z * Z * string;
  Make := parse_semver;
  GT v w := match semver_compare v w with Gt => true | _ => false end;
  GTE v w := match semver_compare v w with Lt => false | _ => true end;
  Major v := v.1.1.1;
  Minor v := v.1.1.2;
|}.

(** A selector is a path of keys separated by dots. *)
Fixpoint set_path (path : list string) (v old : json) : json :=
  match path with
  | [] => v
  | k :: path' =>
      let l := match old with JObj l => l | _ => [] end in
      let m : gmap string json := foldl (λ m '(k, v), <[k := v]> m) ∅ l in
      JObj (json_of_map (<[k := set_path path' v (default JNull (m !! k))]> m))
  end.
Definition dotted_objx : Objx := λ m selector v,
  match SplitChar (chr 46) selector with
  | [] => m
  | k :: path => <[k := set_path path v (default JNull (m !! k))]> m
  end.

Definition example_builder : Builder :=
  SetMongoDBVersion "4.4.1" (SetDomain "svc.ns.svc.cluster.local" (SetName "rs" (SetMembers 3 NewBuilder))).

(** ** The version *)

Section Version.
Context `{Semver, Objx}.

(** The version of a built config: either the result is the previous config,
    version included, or the version is the next one and the content differs
    from the previous content.  (For configs whose numbers fit in an [int] and
    modifications that leave the version alone.) *)
Theorem Build_version b ac :
  (Build b).1 = Ret ac →
  keeps ac_Version (b_modifications b) →
  json_wf (b_previousAC b) = true → json_wf ac = true →
  ac = b_previousAC b
  ∨ (ac_Version ac = int64 (ac_Version (b_previousAC b) + 1)
     ∧ ac <| ac_Version := ac_Version (b_previousAC b) |> ≠ b_previousAC b).
Proof.
  intros E Hk Hp Hac. apply Build_inv in E as (Hn & Hh & u & b1 & Hf & ->).
  destruct (after_fcv_eq _ _ _ Hf) as [fcv ->].
  apply bump_version; [|done..]. by rewrite (built_config_part ac_Version).
Qed.
End Version.

Lemma Build_version_witness :
  ∃ ac, (@Build plain_semver dotted_objx example_builder).1 = Ret ac
    ∧ (ac = b_previousAC example_builder
       ∨ (ac_Version ac = int64 (ac_Version (b_previousAC example_builder) + 1)
          ∧ ac <| ac_Version := ac_Version (b_previousAC example_builder) |> ≠ b_previousAC example_builder)).
Proof.
  eexists. assert ((@Build plain_semver dotted_objx example_builder).1 = Ret _) as E by (vm_compute; reflexivity).
  split; [exact E|].
  apply (@Build_version plain_semver dotted_objx example_builder _ E);
    [constructor | vm_compute; reflexivity | vm_compute; reflexivity].
Defined.

(** ** Members *)

Section BuiltMembers.
Context `{Semver, Objx}.
Implicit Types b : Builder.

Definition process_ids (ac : AutomationConfig) : list (string * string) :=
  map (λ p, (pr_Name p, pr_HostName p)) (els (ac_Processes ac)).

Lemma indices_range n i : i ∈ indices n ↔ 0 ≤ i < n.
Proof. unfold indices. rewrite elem_of_seqZ. lia. Qed.

Lemma NoDup_map_indices {A} (f : Z → A) n : (∀ i j, f i = f j → i = j) → NoDup (map f (indices n)).
Proof. intros Hf. apply NoDup_fmap_2; [exact Hf | apply NoDup_seqZ]. Qed.

(** The content of a built config, and the version it got. *)
Lemma built_content b ac :
  (Build b).1 = Ret ac → keeps ac_Version (b_modifications b) → keeps ac_Auth (b_modifications b) →
  ac_Auth ac = default disabledAuth (b_auth b) ∧
  ∃ content, ac_Version content = ac_Version (b_previousAC b)
    ∧ ac = if AreEqual (b_previousAC b) content then content
           else content <| ac_Version := int64 (ac_Version (b_previousAC b) + 1) |>.
Proof.
  intros E HV HA. apply Build_inv in E as (_ & _ & u & b1 & Hf & ->).
  destruct (after_fcv_eq _ _ _ Hf) as [fcv ->].
  assert (ac_Version (built_config (b <| b_fcv := fcv |>)) = ac_Version (b_previousAC b)) as HV'
    by by rewrite (built_config_part ac_Version).
  split; [rewrite (bump_part ac_Auth) by done; by rewrite (built_config_part ac_Auth)|].
  exists (built_config (b <| b_fcv := fcv |>)). split; [done|]. unfold bump. by rewrite HV'.
Qed.

Lemma built_replica_sets b ac :
  (Build b).1 = Ret ac → keeps ac_ReplicaSets (b_modifications b) →
  ∃ fcv, ac_ReplicaSets ac =
    Some [MkReplicaSet (b_name b)
      (Some (map (member_at (b <| b_fcv := fcv |>)) (indices (b_members b)))) "1" 0].
Proof.
  intros E Hk. apply Build_inv in E as (Hn & Hh & u & b1 & Hf & ->).
  destruct (after_fcv_eq _ _ _ Hf) as [fcv ->]. exists fcv.
  rewrite (bump_part ac_ReplicaSets) by done. by rewrite (built_config_part ac_ReplicaSets).
Qed.

Lemma assemble_processes b auth ps ms : els (ac_Processes (assemble b auth ps ms)) = ps.
Proof. done. Qed.

Lemma built_processes {A} (f : Process → A) b ac :
  (Build b).1 = Ret ac →
  keeps (λ ac, map f (els (ac_Processes ac))) (b_modifications b) →
  ∃ b1 u, after_fcv b = (Ret u, b1) ∧
    map f (els (ac_Processes ac)) = map (λ i, f (process_at b1 i)) (indices (b_members b)).
Proof.
  intros E Hk. apply Build_inv in E as (Hn & Hh & u & b1 & Hf & ->).
  exists b1, u. split; [done|]. destruct (after_fcv_eq _ _ _ Hf) as [fcv ->].
  rewrite (bump_part (λ ac, map f (els (ac_Processes ac)))) by done.
  rewrite (built_config_part (λ ac, map f (els (ac_Processes ac)))) by done.
  rewrite assemble_processes. by rewrite map_map.
Qed.

Lemma member_at_name b i :
  process_keeps pr_Name (b_processModifications b) →
  m_Host (member_at b i) = toProcessName (b_name b) i.
Proof.
  intros Hk. unfold member_at, newReplicaSetMember.
  destruct (_ >? _); cbn [m_Host]; by rewrite (process_at_part pr_Name).
Qed.

Lemma built_members b ac :
  (Build b).1 = Ret ac →
  keeps ac_ReplicaSets (b_modifications b) → keeps process_ids (b_modifications b) →
  process_keeps pr_Name (b_processModifications b) →
  process_keeps pr_HostName (b_processModifications b) →
  ∃ members,
    ac_ReplicaSets ac = Some [MkReplicaSet (b_name b) (Some members) "1" 0]
    ∧ map m_Id members = indices (b_members b)
    ∧ map m_Host members = map fst (process_ids ac)
    ∧ process_ids ac = map (λ i, (toProcessName (b_name b) i, hostname b i)) (indices (b_members b))
    ∧ NoDup (map fst (process_ids ac)) ∧ NoDup (map snd (process_ids ac)).
Proof.
  intros E HR HP HN HH. destruct (built_replica_sets b ac E HR) as [fcv ->].
  assert (process_ids ac = map (λ i, (toProcessName (b_name b) i, hostname b i)) (indices (b_members b))) as HI.
  { destruct (built_processes (λ p, (pr_Name p, pr_HostName p)) b ac E HP) as (b1 & u & Hf & Hps).
    destruct (after_fcv_eq _ _ _ Hf) as [fcv' ->]. unfold process_ids. rewrite Hps.
    apply map_ext. intros i. f_equal; [by rewrite (process_at_part pr_Name) | by rewrite (process_at_part pr_HostName)]. }
  eexists. split; [reflexivity|]. rewrite HI, !map_map. split_and!.
  - rewrite <- (map_id (indices (b_members b))) at 2. apply map_ext. intros i.
    unfold member_at, newReplicaSetMember. by destruct (_ >? _).
  - apply map_ext. intros i. by rewrite member_at_name.
  - done.
  - apply NoDup_map_indices. intros i j. apply toProcessName_inj.
  - apply NoDup_map_indices. intros i j. apply hostname_inj.
Qed.

(** [C24] The members of a built replica set, for modifications that keep names:
    there is one set, named after the deployment, with one member per process
    and one process per member; member [i] has id [i] and refers to process
    [name-i] on host [name-i.domain]; process names and host names are distinct. *)
Theorem Build_members b ac :
  (Build b).1 = Ret ac →
  keeps ac_ReplicaSets (b_modifications b) → keeps process_ids (b_modifications b) →
  process_keeps pr_Name (b_processModifications b) →
  process_keeps pr_HostName (b_processModifications b) →
  ∃ members,
    ac_ReplicaSets ac = Some [MkReplicaSet (b_name b) (Some members) "1" 0]
    ∧ map m_Id members = indices (b_members b)
    ∧ map m_Host members = map fst (process_ids ac)
    ∧ process_ids ac = map (λ i, (toProcessName (b_name b) i, hostname b i)) (indices (b_members b))
    ∧ NoDup (map fst (process_ids ac)) ∧ NoDup (map snd (process_ids ac)).
Proof. apply built_members. Qed.

Definition total_votes (members : list ReplicaSetMember) : Z := foldr (λ m n, m_Votes m + n) 0 members.

Lemma member_at_votes b i :
  0 ≤ i →
  m_Votes (member_at b i) = (if i <? 8 then 1 else 0)
  ∧ m_Priority (member_at b i) = m_Votes (member_at b i)
  ∧ m_ArbiterOnly (member_at b i) = (Z.min i 8 <? b_arbiters b).
Proof.
  intros Hi. unfold member_at, newReplicaSetMember, votes_before, maxVotingMembers.
  destruct (Z.gtb_spec (Z.min i 8) 7), (Z.ltb_spec i 8); cbn [m_Votes m_Priority m_ArbiterOnly];
    split_and!; done || lia.
Qed.

Lemma total_votes_seqZ b (n : nat) i :
  0 ≤ i → total_votes (map (member_at b) (seqZ i (Z.of_nat n))) = Z.min (i + Z.of_nat n) 8 - Z.min i 8.
Proof.
  revert i. induction n as [|n IH]; intros i Hi; [rewrite Z.add_0_r, Z.sub_diag; done|].
  rewrite seqZ_cons by lia. replace (Z.pred (Z.of_nat (S n))) with (Z.of_nat n) by lia.
  cbn [map total_votes foldr]. fold (total_votes (map (member_at b) (seqZ (Z.succ i) (Z.of_nat n)))).
  rewrite IH by lia. destruct (member_at_votes b i Hi) as [-> _].
  destruct (Z.ltb_spec i 8); lia.
Qed.

(** Votes and arbiters: members 0 to 7 have one vote and priority one, the
    others have neither, so a set of [n] members has [min n 8] votes; with at
    most eight arbiters the arbiters are exactly the members with an id below
    the number of arbiters. *)
Theorem Build_votes b ac :
  (Build b).1 = Ret ac → keeps ac_ReplicaSets (b_modifications b) →
  ∃ members, ac_ReplicaSets ac = Some [MkReplicaSet (b_name b) (Some members) "1" 0]
    ∧ total_votes members = Z.min (b_members b) 8
    ∧ ∀ m, m ∈ members →
        m_Votes m = (if m_Id m <? 8 then 1 else 0) ∧ m_Priority m = m_Votes m
        ∧ (b_arbiters b ≤ 8 → m_ArbiterOnly m = (m_Id m <? b_arbiters b)).
Proof.
  intros E HR. destruct (built_replica_sets b ac E HR) as [fcv ->].
  apply Build_inv in E as (Hn & _). eexists. split; [reflexivity|]. split.
  - pose proof (total_votes_seqZ (b <| b_fcv := fcv |>) (Z.to_nat (b_members b)) 0 ltac:(lia)) as HT.
    rewrite Z2Nat.id in HT by done. unfold indices. rewrite HT. lia.
  - intros m [i [-> Hi]]%list_elem_of_fmap. apply indices_range in Hi.
    destruct (member_at_votes (b <| b_fcv := fcv |>) i) as (HV & HP & HA); [lia|].
    assert (m_Id (member_at (b <| b_fcv := fcv |>) i) = i) as HId.
    { unfold member_at, newReplicaSetMember. by destruct (_ >? _). }
    rewrite HId. split_and!; [done..|]. intros Ha. rewrite HA. cbn.
    destruct (Z.ltb_spec (Z.min i 8) (b_arbiters b)), (Z.ltb_spec i (b_arbiters b)); lia || done.
Qed.
End BuiltMembers.

Lemma Build_members_witness :
  ∃ ac members, (@Build plain_semver dotted_objx example_builder).1 = Ret ac
    ∧ ac_ReplicaSets ac = Some [MkReplicaSet "rs" (Some members) "1" 0]
    ∧ map m_Id members = [0; 1; 2].
Proof.
  eexists. assert ((@Build plain_semver dotted_objx example_builder).1 = Ret _) as E by (vm_compute; reflexivity).
  destruct (@Build_members plain_semver dotted_objx example_builder _ E)
    as (members & HR & HI & _); [constructor..|].
  exists members. split; [exact E|]. split; [exact HR | exact HI].
Defined.

Lemma Build_votes_witness :
  ∃ ac members, (@Build plain_semver dotted_objx (SetMembers 9 example_builder)).1 = Ret ac
    ∧ ac_ReplicaSets ac = Some [MkReplicaSet "rs" (Some members) "1" 0]
    ∧ total_votes members = 8.
Proof.
  eexists. assert ((@Build plain_semver dotted_objx (SetMembers 9 example_builder)).1 = Ret _) as E
    by (vm_compute; reflexivity).
  destruct (@Build_votes plain_semver dotted_objx (SetMembers 9 example_builder) _ E)
    as (members & HR & HV & _); [constructor..|].
  exists members. split; [exact E|]. split; [exact HR | exact HV].
Defined.
