(* ===== verification/ACUpgrade.v ===== *)
(** * Feature compatibility version, and rebuilding

    What the builder does to the feature compatibility version (FCV) during an
    upgrade, and that building again from the config just built changes nothing:
    the reconciliation loop relies on both to reach a fixed point. *)
From S2P Require Import Prelude GoStd K8s Json Codec ScramCreds ACTypes ACBuilder ACFacts ACTheorems.
Local Open Scope Z_scope.

(** Documented behaviour of the semantic-version library: a version's
    [major.minor] with patch level zero is a version. *)
Class SemverLaws `{Semver} : Prop :=
  Make_major_minor : ∀ s v, Make s = Some v →
    is_Some (Make (Itoa (Major v) +:+ "." +:+ Itoa (Minor v) +:+ ".0")).

Section Fcv.
Context `{Semver, Objx}.
Implicit Types b : Builder.

Definition effective_fcv (b : Builder) : string :=
  if bool_decide (b_fcv b = "") then CalculateFeatureCompatibilityVersion (b_mongodbVersion b) else b_fcv b.

Definition fcvs (ac : AutomationConfig) : list string :=
  map pr_FeatureCompatibilityVersion (els (ac_Processes ac)).

(** The FCV every process of the next config gets: the configured one; on an
    upgrade the one of the first process of the previous config; the one of the
    MongoDB version otherwise. *)
Definition expected_fcv (b : Builder) : string :=
  if bool_decide (b_fcv b = "") then
    match fcvs (b_previousAC b) with
    | f0 :: _ =>
        match Make (f0 +:+ ".0"), Make (b_mongodbVersion b) with
        | Some v0, Some v =>
            if GT v v0 && negb (bool_decide (f0 = "")) then f0
            else CalculateFeatureCompatibilityVersion (b_mongodbVersion b)
        | _, _ => ""
        end
    | [] => CalculateFeatureCompatibilityVersion (b_mongodbVersion b)
    end
  else b_fcv b.

Lemma effective_fcv_set b f :
  effective_fcv (b <| b_fcv := f |>) =
  if bool_decide (f = "") then CalculateFeatureCompatibilityVersion (b_mongodbVersion b) else f.
Proof. done. Qed.

Lemma after_fcv_effective b u b1 : after_fcv b = (Ret u, b1) → effective_fcv b1 = expected_fcv b.
Proof.
  unfold after_fcv, setFeatureCompatibilityVersionIfUpgradeIsHappening, bind, get, modify, ret, throw.
  unfold expected_fcv, fcvs.
  destruct (els (ac_Processes (b_previousAC b))) as [|p0 l]; cbn [map]; [by intros [= _ <-]|].
  destruct (bool_decide (b_fcv b = "")) eqn:Hb;
    [|intros [= _ <-]; unfold effective_fcv; by rewrite Hb].
  destruct (Make (pr_FeatureCompatibilityVersion p0 +:+ ".0")) as [v0|]; [|done].
  destruct (Make (b_mongodbVersion b)) as [v|]; [|done].
  destruct (GT v v0); intros [= _ <-]; [|unfold effective_fcv; by rewrite Hb].
  rewrite effective_fcv_set. by destruct (bool_decide (pr_FeatureCompatibilityVersion p0 = "")).
Qed.

Lemma built_fcvs b ac :
  (Build b).1 = Ret ac →
  keeps fcvs (b_modifications b) →
  process_keeps pr_FeatureCompatibilityVersion (b_processModifications b) →
  fcvs ac = map (λ _, expected_fcv b) (indices (b_members b)).
Proof.
  intros E Hk Hp. destruct (built_processes pr_FeatureCompatibilityVersion b ac E Hk) as (b1 & u & Hf & HE).
  unfold fcvs. rewrite HE. apply map_ext. intros i.
  pose proof (after_fcv_effective _ _ _ Hf) as <-.
  destruct (after_fcv_eq _ _ _ Hf) as [fcv ->].
  by rewrite (process_at_part pr_FeatureCompatibilityVersion).
Qed.

(** [C23] The FCV is not raised by an upgrade: when the MongoDB version is above the FCV
    [x.y] of the first process of the previous config, every process of the new config
    keeps [x.y] if no FCV is configured (the agents could not reach their goal
    otherwise); if one is, every process gets that one, and nothing else - for
    modifications that, like the operator's, do not touch the FCV. *)
Theorem Build_upgrade_keeps_fcv b ac f0 l v0 v :
  (Build b).1 = Ret ac →
  keeps fcvs (b_modifications b) →
  process_keeps pr_FeatureCompatibilityVersion (b_processModifications b) →
  fcvs (b_previousAC b) = f0 :: l → f0 ≠ "" →
  Make (f0 +:+ ".0") = Some v0 → Make (b_mongodbVersion b) = Some v → GT v v0 = true →
  Forall (λ f, (b_fcv b = "" → f = f0) ∧ (b_fcv b ≠ "" → f = b_fcv b)) (fcvs ac).
Proof.
  intros E Hk Hp Hprev Hne HM HV HG. rewrite (built_fcvs b ac) by done.
  assert (expected_fcv b = if bool_decide (b_fcv b = "") then f0 else b_fcv b) as ->.
  { unfold expected_fcv. rewrite Hprev, HM, HV, HG. by rewrite (bool_decide_false (f0 = "")). }
  apply Forall_forall. intros f (? & -> & _)%list_elem_of_fmap. by destruct (bool_decide_reflect (b_fcv b = "")).
Qed.

(** ** Rebuilding *)

Lemma buildProcess_effective b i h :
  buildProcess b i h =
  foldl (λ p mod_, mod_ i p)
    (SetReplicaSetName (b_name b) (SetStoragePath DefaultMongoDBDataDir (SetPort 27017
      (MkProcess (toProcessName (b_name b) i) h None (effective_fcv b) Mongod (b_mongodbVersion b) 5))))
    (b_processModifications b).
Proof. unfold buildProcess, effective_fcv. by destruct (bool_decide (b_fcv b = "")). Qed.

Lemma process_at_effective b f f' i :
  effective_fcv (b <| b_fcv := f |>) = effective_fcv (b <| b_fcv := f' |>) →
  process_at (b <| b_fcv := f |>) i = process_at (b <| b_fcv := f' |>) i.
Proof. intros He. unfold process_at. rewrite !buildProcess_effective. by rewrite He. Qed.

(** A modification that neither reads nor writes the version. *)
Definition ignores_version (mods : list Modification) : Prop :=
  Forall (λ m : Modification, ∀ ac v, m (ac <| ac_Version := v |>) = (m ac) <| ac_Version := v |>) mods.

Lemma ignores_version_foldl mods ac v :
  ignores_version mods →
  foldl (λ ac m, m ac) (ac <| ac_Version := v |>) mods = (foldl (λ ac m, m ac) ac mods) <| ac_Version := v |>.
Proof.
  intros Hk. revert ac. induction Hk as [|m mods Hm _ IH]; intros ac; [done|]. cbn [foldl].
  by rewrite Hm, IH.
Qed.

(** The config built from another previous config and FCV, when the processes
    come out the same: only the version differs. *)
Lemma built_config_previous b f f' prev :
  ignores_version (b_modifications b) →
  effective_fcv (b <| b_fcv := f' |>) = effective_fcv (b <| b_fcv := f |>) ∨ b_members b ≤ 0 →
  built_config (b <| b_previousAC := prev |> <| b_fcv := f' |>) =
  (built_config (b <| b_fcv := f |>)) <| ac_Version := ac_Version prev |>.
Proof.
  intros Hm He. unfold built_config. rewrite <- ignores_version_foldl by done.
  set (b1 := b <| b_fcv := f |>). set (b2 := b <| b_previousAC := prev |> <| b_fcv := f' |>).
  assert (∀ i, i ∈ indices (b_members b) → process_at b2 i = process_at b1 i) as HP.
  { intros i Hi. apply indices_range in Hi. destruct He as [He|He]; [|lia].
    by apply (process_at_effective b f' f). }
  assert (map (process_at b2) (indices (b_members b2)) = map (process_at b1) (indices (b_members b1))) as ->.
  { apply map_ext_in. intros i Hi%list_elem_of_In. by apply HP. }
  assert (map (member_at b2) (indices (b_members b2)) = map (member_at b1) (indices (b_members b1))) as ->.
  { apply map_ext_in. intros i Hi%list_elem_of_In. unfold member_at. by rewrite HP. }
  done.
Qed.
End Fcv.

Section Rebuild.
Context `{SemverLaws, Objx}.
Implicit Types b : Builder.

Lemma Calculate_Make s :
  CalculateFeatureCompatibilityVersion s ≠ "" →
  is_Some (Make s) ∧ is_Some (Make (CalculateFeatureCompatibilityVersion s +:+ ".0")).
Proof.
  unfold CalculateFeatureCompatibilityVersion.
  destruct (Make s) as [v|] eqn:Hs; [|done]. destruct (Make "3.4.0"); [|done].
  destruct (GTE _ _); [|done]. intros _. split; [done|].
  rewrite !string_app_assoc. by eapply Make_major_minor.
Qed.

(** Without a configured FCV, the FCV of a config that was built is that of the
    MongoDB version, or an older one the version is above of. *)
Lemma expected_fcv_cases b u b1 :
  after_fcv b = (Ret u, b1) → b_fcv b = "" →
  CalculateFeatureCompatibilityVersion (b_mongodbVersion b) ≠ "" →
  ∃ v v0, Make (b_mongodbVersion b) = Some v ∧ Make (expected_fcv b +:+ ".0") = Some v0
    ∧ (expected_fcv b = CalculateFeatureCompatibilityVersion (b_mongodbVersion b)
       ∨ (GT v v0 = true ∧ expected_fcv b ≠ "")).
Proof.
  intros Hf Hb Hc. destruct (Calculate_Make _ Hc) as [[v Hv] [v1 Hv1]]. exists v. revert Hf.
  unfold after_fcv, setFeatureCompatibilityVersionIfUpgradeIsHappening, bind, get, expected_fcv, fcvs.
  rewrite (bool_decide_true (b_fcv b = "")) by done.
  destruct (els (ac_Processes (b_previousAC b))) as [|q0 l0]; cbn [map]; [eauto 6|].
  destruct (Make (pr_FeatureCompatibilityVersion q0 +:+ ".0")) as [v0|] eqn:E0; [|done].
  rewrite Hv. intros _.
  destruct (GT v v0) eqn:HG, (bool_decide (pr_FeatureCompatibilityVersion q0 = "")) eqn:Hq;
    cbn [andb negb]; eauto 7.
  exists v0. apply bool_decide_eq_false in Hq. auto.
Qed.

(** The FCV of the config just built is the FCV of the next one. *)
Lemma expected_fcv_again b u b1 ac :
  after_fcv b = (Ret u, b1) →
  CalculateFeatureCompatibilityVersion (b_mongodbVersion b) ≠ "" →
  fcvs ac = map (λ _, expected_fcv b) (indices (b_members b)) → 0 < b_members b →
  expected_fcv (b <| b_previousAC := ac |>) = expected_fcv b.
Proof.
  intros Hf Hc Hac Hn. unfold expected_fcv at 1. set (b' := b <| b_previousAC := ac |>).
  change (b_fcv b') with (b_fcv b).
  change (b_mongodbVersion b') with (b_mongodbVersion b). change (b_previousAC b') with ac.
  destruct (bool_decide (b_fcv b = "")) eqn:Hb; [|unfold expected_fcv; by rewrite Hb].
  apply bool_decide_eq_true in Hb. rewrite Hac.
  destruct (indices (b_members b)) as [|i is_] eqn:Hi.
  { assert (0 ∈ indices (b_members b)) as Hin by (apply indices_range; lia).
    rewrite Hi in Hin. by apply elem_of_nil in Hin. }
  destruct (expected_fcv_cases b u b1 Hf Hb Hc) as (v & v0 & Hv & Hv0 & HE). cbn [map].
  rewrite Hv0, Hv. destruct HE as [HE|[-> HE]].
  - rewrite <- HE. by destruct (GT v v0 && _).
  - by rewrite (bool_decide_false (expected_fcv b = "")).
Qed.

Lemma after_fcv_again_ok b u b1 ac :
  after_fcv b = (Ret u, b1) →
  CalculateFeatureCompatibilityVersion (b_mongodbVersion b) ≠ "" →
  fcvs ac = map (λ _, expected_fcv b) (indices (b_members b)) →
  ∃ u', (after_fcv (b <| b_previousAC := ac |>)).1 = Ret u'.
Proof.
  intros Hf Hc Hac. unfold after_fcv, setFeatureCompatibilityVersionIfUpgradeIsHappening. run_step.
  set (b' := b <| b_previousAC := ac |>). change (b_previousAC b') with ac.
  change (b_fcv b') with (b_fcv b). change (b_mongodbVersion b') with (b_mongodbVersion b).
  destruct (els (ac_Processes ac)) as [|p0 l] eqn:Hp; [by eexists|].
  destruct (bool_decide (b_fcv b = "")) eqn:Hb; [|by eexists]. apply bool_decide_eq_true in Hb.
  assert (pr_FeatureCompatibilityVersion p0 = expected_fcv b) as ->.
  { assert (pr_FeatureCompatibilityVersion p0 ∈ fcvs ac) as Hin by (unfold fcvs; rewrite Hp; by left).
    rewrite Hac in Hin. by apply list_elem_of_fmap in Hin as (? & -> & _). }
  destruct (expected_fcv_cases b u b1 Hf Hb Hc) as (v & v0 & -> & -> & _).
  destruct (GT v v0); by eexists.
Qed.

(** Building is stable: from a config just built, for the same deployment, the
    builder returns that very config, version included, so a reconciliation that
    changes nothing writes nothing.  (The MongoDB version is one the operator
    computes an FCV for; the modifications do not depend on the version and
    leave the FCVs alone.) *)
Theorem Build_stable b ac :
  (Build b).1 = Ret ac →
  ignores_version (b_modifications b) → keeps fcvs (b_modifications b) →
  process_keeps pr_FeatureCompatibilityVersion (b_processModifications b) →
  CalculateFeatureCompatibilityVersion (b_mongodbVersion b) ≠ "" →
  (Build (SetPreviousAutomationConfig ac b)).1 = Ret ac.
Proof.
  intros E Hi Hk Hp Hc. pose proof (built_fcvs b ac E Hk Hp) as HF.
  apply Build_inv in E as (Hn & Hh & u & b1 & Hf & Hac).
  destruct (after_fcv_again_ok b u b1 ac Hf Hc HF) as [u' Hu].
  destruct (after_fcv (b <| b_previousAC := ac |>)) as [r b2] eqn:Hf2. simpl in Hu. subst r.
  unfold SetPreviousAutomationConfig. rewrite (Build_eq _ b2 u') by done.
  destruct (after_fcv_eq _ _ _ Hf) as [f Hb1], (after_fcv_eq _ _ _ Hf2) as [f' Hb2].
  change (b_previousAC (b <| b_previousAC := ac |>)) with ac. f_equal.
  rewrite Hb2, (built_config_previous b f f' ac) by
    (done || (destruct (Z_lt_le_dec 0 (b_members b)); [left|by right];
      change (effective_fcv (b <| b_fcv := f' |>)) with (effective_fcv (b <| b_previousAC := ac |> <| b_fcv := f' |>));
      rewrite <- Hb1, <- Hb2, (after_fcv_effective _ _ _ Hf2), (after_fcv_effective _ _ _ Hf);
      by eapply expected_fcv_again)).
  rewrite <- Hb1. clear -Hac. rewrite Hac. apply bump_again.
Qed.
End Rebuild.

(** ** Concrete runs *)

#[global] Instance plain_semver_laws : @SemverLaws plain_semver.
Proof.
  intros s v _. destruct v as [[[x y] z] r]. change (Make (Semver := plain_semver)) with parse_semver.
  change (Major (Semver := plain_semver) (x, y, z, r)) with x.
  change (Minor (Semver := plain_semver) (x, y, z, r)) with y.
  unfold parse_semver, Itoa. rewrite read_int_pretty by done.
  change ("." +:+ pretty y +:+ ".0") with (String (chr 46) (pretty y +:+ ".0")).
  cbv beta iota. rewrite read_int_pretty by done. by eexists.
Qed.

Definition config_of (b : Builder) : AutomationConfig :=
  match (@Build plain_semver dotted_objx b).1 with Ret ac => ac | _ => emptyAutomationConfig end.

Definition upgrade_builder : Builder :=
  SetMongoDBVersion "4.4.1" (SetPreviousAutomationConfig
    (config_of (SetMongoDBVersion "4.2.8" example_builder)) example_builder).

Lemma Build_upgrade_keeps_fcv_witness :
  ∃ ac, (@Build plain_semver dotted_objx upgrade_builder).1 = Ret ac ∧ Forall (λ f, f = "4.2") (fcvs ac).
Proof.
  eexists. assert ((@Build plain_semver dotted_objx upgrade_builder).1 = Ret _) as E by (vm_compute; reflexivity).
  split; [exact E|]. refine (Forall_impl _ _ _ _ (λ f H, proj1 H eq_refl)).
  apply (@Build_upgrade_keeps_fcv plain_semver dotted_objx upgrade_builder _ "4.2" ["4.2"; "4.2"]
           (4, 2, 0, "") (4, 4, 1, "") E); [constructor | constructor | | done | | |];
    vm_compute; reflexivity.
Defined.

Lemma Build_stable_witness :
  (@Build plain_semver dotted_objx (SetPreviousAutomationConfig (config_of example_builder) example_builder)).1
  = Ret (config_of example_builder).
Proof.
  apply (@Build_stable plain_semver plain_semver_laws dotted_objx example_builder);
    [vm_compute; reflexivity | constructor | constructor | constructor | vm_compute; discriminate].
Defined.

(** The voting cap is 8, although the comment in [newReplicaSetMember] says that a
    replica set has at most 7 voting members. *)
Lemma eight_voting_members :
  match ac_ReplicaSets (config_of (SetMembers 8 example_builder)) with
  | Some [rs] => total_votes (els (rs_Members rs)) = 8
  | _ => False
  end.
Proof. vm_compute. reflexivity. Qed.

(** With nine arbiters or more every member is an arbiter, whatever its index. *)
Lemma all_members_arbiters `{Semver, Objx} b i :
  9 ≤ b_arbiters b → 0 ≤ i → m_ArbiterOnly (member_at b i) = true.
Proof.
  intros Ha Hi. destruct (member_at_votes b i Hi) as (_ & _ & ->). apply Z.ltb_lt. lia.
Qed.

(** Fewer horizons than members: [Build] panics instead of returning an error. *)
Lemma Build_panics_on_missing_horizons :
  (@Build plain_semver dotted_objx (SetReplicaSetHorizons (Some [∅; ∅]) example_builder)).1
  = Panic "index out of range".
Proof. vm_compute. reflexivity. Qed.

(** A deployment below 3.4 gets an empty FCV, from which the next [Build] cannot
    compute a version. *)
Lemma Build_fails_after_old_version :
  (@Build plain_semver dotted_objx
     (SetPreviousAutomationConfig (config_of (SetMongoDBVersion "3.2.0" example_builder)) example_builder)).1
  = Err (TextError ("can't build the automation config: can't compute semver version from previous "
                    +:+ "FeatureCompatibilityVersion ")).
Proof. vm_compute. reflexivity. Qed.
