(* ===== verification/Types.v ===== *)
(** * The MongoDBCommunity resource

    api/v1/mongodbcommunity_types.go: the spec and status of the custom resource,
    the names, URIs and options derived from it, and the JSON form its spec is
    saved in.  [net/url.QueryEscape] is modelled here as well. *)
From S2P Require Import Prelude GoStd K8s Scale Json Codec ScramCreds ACTypes.
Local Open Scope Z_scope.

(** ** Package scram: the interface to a resource that configures SCRAM *)

Module scram.
Definition Sha256 : string := "SCRAM-SHA-256".
Definition Sha1 : string := "MONGODB-CR".
Definition AutomationAgentKeyFilePathInContainer : string :=
  "/var/lib/mongodb-mms-automation/authentication/keyfile".
Definition automationAgentWindowsKeyFilePath : string := "%SystemDrive%\MMSAutomation\versions\keyfile".
Definition AgentName : string := "mms-automation".
Definition AgentPasswordKey : string := "password".
Definition AgentKeyfileKey : string := "keyfile".

Record Role := MkRole { role_Name : string; role_Database : string }.
Record User := MkUser {
  Username : string;
  Database : string;
  Roles : list Role;
  PasswordSecretKey : string;
  PasswordSecretName : string;
  ScramCredentialsSecretName : string;
}.
Record Options := MkOptions {
  opt_AuthoritativeSet : bool;
  opt_KeyFile : string;
  opt_AutoAuthMechanisms : list string;
  opt_AgentName : string;
  opt_AutoAuthMechanism : string;
}.
End scram.

(** ** The resource *)

Module V1.
Record Role := MkRole { role_DB : string; role_Name : string }.
Record SecretKeyReference := MkSecretKeyReference { ref_Name : string; ref_Key : string }.
Record MongoDBUser := MkMongoDBUser {
  user_Name : string;
  user_DB : string;
  user_PasswordSecretRef : SecretKeyReference;
  user_Roles : GoSlice Role;
  user_ScramCredentialsSecretName : string;
}.
Record Resource := MkResource {
  res_DB : option string; res_Collection : option string; res_Cluster : bool; res_AnyResource : bool;
}.
Record Privilege := MkPrivilege { priv_Resource : Resource; priv_Actions : GoSlice string }.
Record AuthenticationRestriction := MkAuthenticationRestriction {
  restr_ClientSource : GoSlice string; restr_ServerAddress : GoSlice string;
}.
Record CustomRole := MkCustomRole {
  crole_Role : string;
  crole_DB : string;
  crole_Privileges : GoSlice Privilege;
  crole_Roles : GoSlice Role;
  crole_AuthenticationRestrictions : list AuthenticationRestriction;
}.
Record LocalObjectReference := MkLocalObjectReference { lref_Name : string }.
Record TLS := MkTLS {
  tls_Enabled : bool; tls_Optional : bool;
  tls_CertificateKeySecret : LocalObjectReference; tls_CaConfigMap : LocalObjectReference;
}.
Record Authentication := MkAuthentication {
  auth_Modes : GoSlice string; auth_IgnoreUnknownUsers : option bool;
}.
(** A nil list of roles and an empty one are configured the same way. *)
Record Security := MkSecurity {
  sec_Authentication : Authentication; sec_TLS : TLS; sec_Roles : list CustomRole;
}.

Inductive Phase := Running | Failed | Pending | NoPhase.
#[global] Instance Phase_eq_dec : EqDecision Phase.
Proof. solve_decision. Defined.

Record MongoDBCommunityStatus := MkStatus {
  st_MongoURI : string;
  st_Phase : Phase;
  st_CurrentStatefulSetReplicas : Z;
  st_CurrentMongoDBMembers : Z;
  st_Message : string;
}.
#[global] Instance eta_Status : Eta MongoDBCommunityStatus := λ r,
  MkStatus (st_MongoURI r) (st_Phase r) (st_CurrentStatefulSetReplicas r) (st_CurrentMongoDBMembers r)
    (st_Message r).
Definition emptyStatus : MongoDBCommunityStatus := MkStatus "" NoPhase 0 0 "".

Section Resource.
Context {api : K8sApi}.

Record MongoDBCommunitySpec := MkSpec {
  spec_Members : Z;
  spec_Type : string;
  spec_Version : string;
  spec_Arbiters : Z;
  spec_FeatureCompatibilityVersion : string;
  spec_ReplicaSetHorizons : GoSlice ReplicaSetHorizons;
  spec_Security : Security;
  spec_Users : GoSlice MongoDBUser;
  spec_StatefulSetConfiguration : StatefulSetSpec;
  spec_AdditionalMongodConfig : GoMap json;
}.
#[global] Instance eta_Spec : Eta MongoDBCommunitySpec := λ r,
  MkSpec (spec_Members r) (spec_Type r) (spec_Version r) (spec_Arbiters r)
    (spec_FeatureCompatibilityVersion r) (spec_ReplicaSetHorizons r) (spec_Security r) (spec_Users r)
    (spec_StatefulSetConfiguration r) (spec_AdditionalMongodConfig r).

Record MongoDBCommunity := MkMongoDBCommunity {
  mdb_Kind : string;
  mdb_ObjectMeta : ObjectMeta;
  mdb_Spec : MongoDBCommunitySpec;
  mdb_Status : MongoDBCommunityStatus;
}.
#[global] Instance eta_MongoDBCommunity : Eta MongoDBCommunity := λ r,
  MkMongoDBCommunity (mdb_Kind r) (mdb_ObjectMeta r) (mdb_Spec r) (mdb_Status r).
End Resource.

Definition defaultPasswordKey : string := "password".
Definition defaultMode : string := "SCRAM-SHA-256".

(** ** Conversions to the automation config *)

Definition ConvertToAutomationConfigCustomRole (c : CustomRole) : ACTypes.CustomRole :=
  let privileges := els (crole_Privileges c) in
  ACTypes.MkCustomRole (crole_Role c) (crole_DB c)
    (match privileges with
     | [] => None
     | _ => Some (map (λ p,
              let r := priv_Resource p in
              ACTypes.MkPrivilege
                (ACTypes.MkResource (res_DB r) (res_Collection r) (res_AnyResource r) (res_Cluster r))
                (priv_Actions p)) privileges)
     end)
    (Some (map (λ r, ACTypes.MkRole (role_Name r) (role_DB r)) (els (crole_Roles c))))
    (map (λ r, ACTypes.MkAuthenticationRestriction (restr_ClientSource r) (restr_ServerAddress r))
      (crole_AuthenticationRestrictions c)).

Definition ConvertCustomRolesToAutomationConfigCustomRole (roles : list CustomRole) : list ACTypes.CustomRole :=
  map ConvertToAutomationConfigCustomRole roles.

Definition GetPasswordSecretKey (m : MongoDBUser) : string :=
  if bool_decide (ref_Key (user_PasswordSecretRef m) = "") then defaultPasswordKey
  else ref_Key (user_PasswordSecretRef m).

Definition GetScramCredentialsSecretName (m : MongoDBUser) : string :=
  user_ScramCredentialsSecretName m +:+ "-" +:+ "scram-credentials".

Definition ConvertAuthModeToAuthMechanism (authModeLabel : string) : string :=
  if bool_decide (authModeLabel = "SCRAM" ∨ authModeLabel = "SCRAM-SHA-256") then scram.Sha256
  else if bool_decide (authModeLabel = "SCRAM-SHA-1") then scram.Sha1
  else "".

(** ** Methods of the resource *)

(** [net/url.QueryEscape]. *)
Definition query_unreserved (a : Ascii.ascii) : bool :=
  let n := Ascii.nat_of_ascii a in
  bool_decide (48 ≤ n ≤ 57)%nat || bool_decide (65 ≤ n ≤ 90)%nat || bool_decide (97 ≤ n ≤ 122)%nat
  || bool_decide (n ∈ [45; 46; 95; 126]%nat).
Definition upper_hex (n : nat) : Ascii.ascii :=
  Ascii.ascii_of_nat (if (n <? 10)%nat then 48 + n else 55 + n).
Fixpoint QueryEscape (s : string) : string :=
  match s with
  | EmptyString => EmptyString
  | String a s' =>
      let n := Ascii.nat_of_ascii a in
      if query_unreserved a then String a (QueryEscape s')
      else if (n =? 32)%nat then String (Ascii.ascii_of_nat 43) (QueryEscape s')
      else String (Ascii.ascii_of_nat 37)
             (String (upper_hex (n / 16)) (String (upper_hex (n mod 16)) (QueryEscape s')))
  end.

Definition bool_text (b : bool) : string := if b then "true" else "false".

Section Methods.
Context {api : K8sApi}.
Implicit Types m : MongoDBCommunity.

Definition Name m : string := om_Name (mdb_ObjectMeta m).
Definition Namespace m : string := om_Namespace (mdb_ObjectMeta m).
Definition NamespacedName_ m : NamespacedName := MkNamespacedName (Name m) (Namespace m).
Definition tls_enabled m : bool := tls_Enabled (sec_TLS (spec_Security (mdb_Spec m))).

Definition GetAgentPasswordSecretNamespacedName m : NamespacedName :=
  MkNamespacedName (Name m +:+ "-agent-password") (Namespace m).
Definition GetAgentKeyfileSecretNamespacedName m : NamespacedName :=
  MkNamespacedName (Name m +:+ "-keyfile") (Namespace m).

Definition GroupVersion : string := "mongodbcommunity.mongodb.com/v1".
Definition GetOwnerReferences m : list OwnerReference :=
  [MkOwnerReference GroupVersion (mdb_Kind m) (Name m) (om_UID (mdb_ObjectMeta m))].

(** [authModes[0]] panics when no authentication mode is given; the mechanism of
    the agents is the default one if it is among the modes, the first otherwise. *)
Definition GetScramOptions m : outcome scram.Options :=
  let ignoreUnknownUsers :=
    default true (auth_IgnoreUnknownUsers (sec_Authentication (spec_Security (mdb_Spec m)))) in
  let authModes := els (auth_Modes (sec_Authentication (spec_Security (mdb_Spec m)))) in
  let defaultAuthMechanism := ConvertAuthModeToAuthMechanism defaultMode in
  match authModes with
  | [] => Panic "index out of range"
  | mode0 :: _ =>
      let authMechanisms := map ConvertAuthModeToAuthMechanism authModes in
      let autoAuthMechanism :=
        foldl (λ acc authMech,
                 if bool_decide (authMech ≠ "" ∧ authMech = defaultAuthMechanism)
                 then defaultAuthMechanism else acc)
          (ConvertAuthModeToAuthMechanism mode0) authMechanisms in
      Ret (scram.MkOptions (negb ignoreUnknownUsers) scram.AutomationAgentKeyFilePathInContainer
             authMechanisms scram.AgentName autoAuthMechanism)
  end.

Definition GetScramUsers m : list scram.User :=
  map (λ u,
    scram.MkUser (user_Name u) (user_DB u)
      (map (λ r, scram.MkRole (role_Name r) (role_DB r)) (els (user_Roles u)))
      (GetPasswordSecretKey u) (ref_Name (user_PasswordSecretRef u)) (GetScramCredentialsSecretName u))
    (els (spec_Users (mdb_Spec m))).

(** [User.GetConnectionStringSecretName] of package scram. *)
Definition GetConnectionStringSecretName (u : scram.User) m : string :=
  Name m +:+ "-" +:+ scram.Database u +:+ "-" +:+ scram.Username u.

Definition automationConfigReplicasScaler m : Scale.ReplicaSetScaler :=
  Scale.MkScaler (spec_Members (mdb_Spec m)) (st_CurrentMongoDBMembers (mdb_Status m)).
Definition AutomationConfigMembersThisReconciliation m : Z :=
  Scale.ReplicasThisReconciliation (automationConfigReplicasScaler m).

Definition DesiredReplicas m : Z := spec_Members (mdb_Spec m).
Definition CurrentReplicas m : Z := st_CurrentStatefulSetReplicas (mdb_Status m).
Definition scaler m : Scale.ReplicaSetScaler :=
  Scale.MkScaler (DesiredReplicas m) (CurrentReplicas m).
Definition StatefulSetReplicasThisReconciliation m : Z := Scale.ReplicasThisReconciliation (scaler m).

Definition ServiceName m : string :=
  let serviceName := ss_ServiceName (spec_StatefulSetConfiguration (mdb_Spec m)) in
  if bool_decide (serviceName = "") then Name m +:+ "-svc" else serviceName.

Definition clusterDomain : string := "svc.cluster.local".

(** [make] panics on a negative number of members. *)
Definition Hosts m : outcome (list string) :=
  if spec_Members (mdb_Spec m) <? 0 then Panic "makeslice: len out of range"
  else Ret (map (λ i, Name m +:+ "-" +:+ Itoa i +:+ "." +:+ ServiceName m +:+ "." +:+ Namespace m
                      +:+ "." +:+ clusterDomain +:+ ":" +:+ Itoa 27017)
                (indices (spec_Members (mdb_Spec m)))).

Definition MongoURI m : outcome string :=
  let! hosts := Hosts m in Ret ("mongodb://" +:+ Join hosts ",").
Definition MongoSRVURI m : string :=
  "mongodb+srv://" +:+ ServiceName m +:+ "." +:+ Namespace m +:+ "." +:+ clusterDomain.
Definition MongoAuthUserURI m (user : scram.User) (password : string) : outcome string :=
  let! hosts := Hosts m in
  Ret ("mongodb://" +:+ QueryEscape (scram.Username user) +:+ ":" +:+ QueryEscape password +:+ "@"
       +:+ Join hosts "," +:+ "/" +:+ scram.Database user +:+ "?ssl=" +:+ bool_text (tls_enabled m)).
Definition MongoAuthUserSRVURI m (user : scram.User) (password : string) : string :=
  "mongodb+srv://" +:+ QueryEscape (scram.Username user) +:+ ":" +:+ QueryEscape password +:+ "@"
  +:+ ServiceName m +:+ "." +:+ Namespace m +:+ "." +:+ clusterDomain +:+ "/" +:+ scram.Database user
  +:+ "?ssl=" +:+ bool_text (tls_enabled m).

Definition AutomationConfigSecretName m : string := Name m +:+ "-config".
Definition TLSConfigMapNamespacedName m : NamespacedName :=
  MkNamespacedName (lref_Name (tls_CaConfigMap (sec_TLS (spec_Security (mdb_Spec m))))) (Namespace m).
Definition TLSSecretNamespacedName m : NamespacedName :=
  MkNamespacedName (lref_Name (tls_CertificateKeySecret (sec_TLS (spec_Security (mdb_Spec m))))) (Namespace m).
Definition TLSOperatorSecretNamespacedName m : NamespacedName :=
  MkNamespacedName (Name m +:+ "-server-certificate-key") (Namespace m).

Definition GetMongoDBVersion m : string := spec_Version (mdb_Spec m).
Definition GetMongoDBVersionForAnnotation m : string := GetMongoDBVersion m.
Definition GetAnnotations m : GoMap string := om_Annotations (mdb_ObjectMeta m).

Definition LastAppliedMongoDBVersion : string := "mongodb.com/v1.lastAppliedMongoDBVersion".
(** Package annotations: the value of an annotation, the empty string without it. *)
Definition GetAnnotation m (key : string) : string := default "" (gm (GetAnnotations m) !! key).

Definition getLastVersion m : string := GetAnnotation m LastAppliedMongoDBVersion.
Definition IsChangingVersion m : bool :=
  let lastVersion := getLastVersion m in
  negb (bool_decide (lastVersion = "")) && negb (bool_decide (lastVersion = spec_Version (mdb_Spec m))).

Definition RollingUpdateStatefulSetStrategyType : string := "RollingUpdate".
Definition OnDeleteStatefulSetStrategyType : string := "OnDelete".
Definition GetUpdateStrategyType m : string :=
  if negb (IsChangingVersion m) then RollingUpdateStatefulSetStrategyType else OnDeleteStatefulSetStrategyType.

Definition HasSeparateDataAndLogsVolumes m : bool := true.
Definition DataVolumeName m : string := "data-volume".
Definition LogsVolumeName m : string := "logs-volume".
End Methods.
End V1.
