(* ===== verification/SpecEq.v ===== *)
(** * Equality of specs

    [reflect.DeepEqual] on the types a spec is made of decides their equality, given
    that it does on the API types the model does not look into.  (The slices modelled
    as plain lists do not tell a nil slice from an empty one.) *)
From S2P Require Import Prelude GoStd K8s MergeByKey Merge Scale Json Codec ScramCreds ACTypes Types.

Fixpoint json_eqb (a b : json) {struct a} : bool :=
  match a, b with
  | JNull, JNull => true
  | JBool x, JBool y => bool_decide (x = y)
  | JNum x, JNum y => bool_decide (x = y)
  | JStr x, JStr y => bool_decide (x = y)
  | JArr l, JArr m =>
      (fix arr l m := match l, m with
       | [], [] => true
       | x :: l, y :: m => json_eqb x y && arr l m
       | _, _ => false
       end) l m
  | JObj l, JObj m =>
      (fix obj l m := match l, m with
       | [], [] => true
       | (k, x) :: l, (k', y) :: m => bool_decide (k = k') && json_eqb x y && obj l m
       | _, _ => false
       end) l m
  | _, _ => false
  end.

Lemma json_eqb_eq a : ∀ b, json_eqb a b = true ↔ a = b.
Proof.
  induction a as [| | | |l IH|l IH] using json_nested_ind; intros c;
    try (destruct c; cbn; rewrite ?bool_decide_eq_true; split; congruence).
  - destruct c as [| | | |m|]; try (cbn; split; congruence). revert m.
    induction IH as [|x l Hx _ IH]; intros [|y m]; cbn; try (split; congruence).
    specialize (IH m). cbn in IH. rewrite andb_true_iff, Hx, IH. split; [by intros [-> [= ->]]|].
    by intros [= -> ->].
  - destruct c as [| | | | |m]; try (cbn; split; congruence). revert m.
    induction IH as [|[k x] l Hx _ IH]; intros [|[k' y] m]; cbn; try (split; congruence).
    specialize (IH m). cbn in IH, Hx. rewrite !andb_true_iff, bool_decide_eq_true, Hx, IH. split.
    + by intros [[-> ->] [= ->]].
    + by intros [= -> -> ->].
Qed.
#[global] Instance json_eq_dec : EqDecision json.
Proof. intros a b. destruct (json_eqb a b) eqn:E; [left|right]; rewrite <- json_eqb_eq, E; done. Defined.

(** ** Records, field by field *)

#[global] Instance OwnerReference_eq_dec : EqDecision OwnerReference.
Proof. solve_decision. Defined.
#[global] Instance ObjectMeta_eq_dec : EqDecision ObjectMeta.
Proof. solve_decision. Defined.

(** The API types that are not modelled can be compared. *)
Class K8sApiEq (api : K8sApi) : Type := opaque_eq : ∀ s, EqDecision (@opaque api s).
#[global] Existing Instance opaque_eq.

Section Instances.
Context {api : K8sApi} `{!K8sApiEq api}.

#[global] Instance ContainerPort_eq_dec : EqDecision ContainerPort.
Proof. solve_decision. Defined.
#[global] Instance ObjectFieldSelector_eq_dec : EqDecision ObjectFieldSelector.
Proof. solve_decision. Defined.
#[global] Instance EnvVarSource_eq_dec : EqDecision EnvVarSource.
Proof. solve_decision. Defined.
#[global] Instance EnvVar_eq_dec : EqDecision EnvVar.
Proof. solve_decision. Defined.
#[global] Instance ResourceList_eq_dec : EqDecision ResourceList.
Proof. unfold ResourceList. apply _. Defined.
#[global] Instance ResourceRequirements_eq_dec : EqDecision ResourceRequirements.
Proof. solve_decision. Defined.
#[global] Instance VolumeMount_eq_dec : EqDecision VolumeMount.
Proof. solve_decision. Defined.
#[global] Instance VolumeDevice_eq_dec : EqDecision VolumeDevice.
Proof. solve_decision. Defined.
#[global] Instance ExecAction_eq_dec : EqDecision ExecAction.
Proof. solve_decision. Defined.
#[global] Instance Handler_eq_dec : EqDecision Handler.
Proof. solve_decision. Defined.
#[global] Instance Probe_eq_dec : EqDecision Probe.
Proof. solve_decision. Defined.
#[global] Instance Lifecycle_eq_dec : EqDecision Lifecycle.
Proof. solve_decision. Defined.
#[global] Instance SecurityContext_eq_dec : EqDecision SecurityContext.
Proof. solve_decision. Defined.
#[global] Instance Container_eq_dec : EqDecision Container.
Proof. solve_decision. Defined.
#[global] Instance EphemeralContainer_eq_dec : EqDecision EphemeralContainer.
Proof. solve_decision. Defined.
#[global] Instance KeyToPath_eq_dec : EqDecision KeyToPath.
Proof. solve_decision. Defined.
#[global] Instance EmptyDirVolumeSource_eq_dec : EqDecision EmptyDirVolumeSource.
Proof. solve_decision. Defined.
#[global] Instance SecretVolumeSource_eq_dec : EqDecision SecretVolumeSource.
Proof. solve_decision. Defined.
#[global] Instance ConfigMapVolumeSource_eq_dec : EqDecision ConfigMapVolumeSource.
Proof. solve_decision. Defined.
#[global] Instance VolumeSource_eq_dec : EqDecision VolumeSource.
Proof. solve_decision. Defined.
#[global] Instance Volume_eq_dec : EqDecision Volume.
Proof. solve_decision. Defined.
#[global] Instance Toleration_eq_dec : EqDecision Toleration.
Proof. solve_decision. Defined.
#[global] Instance LabelSelectorRequirement_eq_dec : EqDecision LabelSelectorRequirement.
Proof. solve_decision. Defined.
#[global] Instance LabelSelector_eq_dec : EqDecision LabelSelector.
Proof. solve_decision. Defined.
#[global] Instance PodAffinityTerm_eq_dec : EqDecision PodAffinityTerm.
Proof. solve_decision. Defined.
#[global] Instance WeightedPodAffinityTerm_eq_dec : EqDecision WeightedPodAffinityTerm.
Proof. solve_decision. Defined.
#[global] Instance PodAntiAffinity_eq_dec : EqDecision PodAntiAffinity.
Proof. solve_decision. Defined.
#[global] Instance Affinity_eq_dec : EqDecision Affinity.
Proof. solve_decision. Defined.
#[global] Instance HostAlias_eq_dec : EqDecision HostAlias.
Proof. solve_decision. Defined.
#[global] Instance PodDNSConfig_eq_dec : EqDecision PodDNSConfig.
Proof. solve_decision. Defined.
#[global] Instance TopologySpreadConstraint_eq_dec : EqDecision TopologySpreadConstraint.
Proof. solve_decision. Defined.
#[global] Instance PodSecurityContext_eq_dec : EqDecision PodSecurityContext.
Proof. solve_decision. Defined.
#[global] Instance PodSpec_eq_dec : EqDecision PodSpec.
Proof. solve_decision. Defined.
#[global] Instance PodTemplateSpec_eq_dec : EqDecision PodTemplateSpec.
Proof. solve_decision. Defined.
#[global] Instance PersistentVolumeClaimSpec_eq_dec : EqDecision PersistentVolumeClaimSpec.
Proof. solve_decision. Defined.
#[global] Instance PersistentVolumeClaim_eq_dec : EqDecision PersistentVolumeClaim.
Proof. solve_decision. Defined.
#[global] Instance StatefulSetUpdateStrategy_eq_dec : EqDecision StatefulSetUpdateStrategy.
Proof. solve_decision. Defined.
#[global] Instance StatefulSetSpec_eq_dec : EqDecision StatefulSetSpec.
Proof. solve_decision. Defined.
End Instances.

Module V1Eq.
#[global] Instance Role_eq_dec : EqDecision V1.Role.
Proof. solve_decision. Defined.
#[global] Instance SecretKeyReference_eq_dec : EqDecision V1.SecretKeyReference.
Proof. solve_decision. Defined.
#[global] Instance MongoDBUser_eq_dec : EqDecision V1.MongoDBUser.
Proof. solve_decision. Defined.
#[global] Instance Resource_eq_dec : EqDecision V1.Resource.
Proof. solve_decision. Defined.
#[global] Instance Privilege_eq_dec : EqDecision V1.Privilege.
Proof. solve_decision. Defined.
#[global] Instance AuthenticationRestriction_eq_dec : EqDecision V1.AuthenticationRestriction.
Proof. solve_decision. Defined.
#[global] Instance CustomRole_eq_dec : EqDecision V1.CustomRole.
Proof. solve_decision. Defined.
#[global] Instance LocalObjectReference_eq_dec : EqDecision V1.LocalObjectReference.
Proof. solve_decision. Defined.
#[global] Instance TLS_eq_dec : EqDecision V1.TLS.
Proof. solve_decision. Defined.
#[global] Instance Authentication_eq_dec : EqDecision V1.Authentication.
Proof. solve_decision. Defined.
#[global] Instance Security_eq_dec : EqDecision V1.Security.
Proof. solve_decision. Defined.
#[global] Instance Spec_eq_dec {api : K8sApi} `{!K8sApiEq api} : EqDecision V1.MongoDBCommunitySpec.
Proof. solve_decision. Defined.
End V1Eq.

#[global] Instance string_api_eq : K8sApiEq string_api.
Proof. intros s. unfold opaque, string_api. apply _. Defined.
