(* ===== verification/Memory.v ===== *)
(** * Memory

    Go variables that are reached through pointers, slices and maps: a heap of typed
    cells, what it means that a value in the heap represents a value of the model, and
    what it means that code makes a deep copy.  The operator is modelled with values
    that nothing else can change; this file says for data with references when that
    is right. *)
From S2P Require Import Prelude GoStd.

Definition loc : Type := positive.

(** The header of a slice: its array and its length. *)
Record slice := MkSlice { s_array : loc; s_len : nat }.

Section Heap.
Context {ty : Type} `{!EqDecision ty} (den : ty → Type).

(** A variable of a type, or an array of its elements. *)
Inductive cell :=
  | One (t : ty) (v : den t)
  | Many (t : ty) (l : list (den t)).
Abbreviation heap := (gmap loc cell).

Definition cast (F : ty → Type) {t} (t' : ty) (x : F t) : option (F t') :=
  match decide (t = t') with left e => Some (eq_rect t F x t' e) | right _ => None end.
Lemma cast_same F t (x : F t) : cast F t x = Some x.
Proof.
  unfold cast. destruct (decide (t = t)) as [e|]; [|done]. f_equal. symmetry. apply Eqdep_dec.eq_rect_eq_dec.
  intros x' y'. apply (decide (x' = y')).
Qed.

Definition as_one (t : ty) (c : cell) : option (den t) :=
  match c with One t' v => cast den t v | Many _ _ => None end.
Definition as_many (t : ty) (c : cell) : option (list (den t)) :=
  match c with One _ _ => None | Many t' l => cast (λ t, list (den t)) t l end.
Lemma as_one_One t v : as_one t (One t v) = Some v.
Proof. apply cast_same. Qed.
Lemma as_many_Many t l : as_many t (Many t l) = Some l.
Proof. apply (cast_same (λ t, list (den t))). Qed.

Definition one (h : heap) (t : ty) (l : loc) : option (den t) := h !! l ≫= as_one t.
Definition many (h : heap) (t : ty) (l : loc) : option (list (den t)) := h !! l ≫= as_many t.

Definition nil_dereference : string := "invalid memory address or nil pointer dereference".

(** [new], [make], reading and writing through a pointer, an element of a slice. *)
Definition alloc (c : cell) : IO heap loc := λ h, let l := fresh (dom h) in (Ret l, <[l := c]> h).
Definition load (t : ty) (l : loc) : IO heap (den t) := λ h,
  match one h t l with Some v => (Ret v, h) | None => (Panic nil_dereference, h) end.
Definition store (t : ty) (l : loc) (v : den t) : IO heap unit := λ h,
  match one h t l with Some _ => (Ret (), <[l := One t v]> h) | None => (Panic nil_dereference, h) end.
Definition make_slice (t : ty) (zero : den t) (n : nat) : IO heap slice :=
  l <- alloc (Many t (replicate n zero)) ;; ret (MkSlice l n).
Definition elements_of (t : ty) (s : slice) : IO heap (list (den t)) := λ h,
  match many h t (s_array s) with Some l => (Ret (take (s_len s) l), h) | None => (Panic nil_dereference, h) end.
Definition index (t : ty) (s : slice) (i : nat) : IO heap (den t) := λ h,
  match many h t (s_array s) ≫= (λ l, take (s_len s) l !! i) with
  | Some v => (Ret v, h)
  | None => (Panic "index out of range", h)
  end.
Definition set_index (t : ty) (s : slice) (i : nat) (v : den t) : IO heap unit := λ h,
  match many h t (s_array s) with
  | Some l => if bool_decide (i < s_len s)%nat then (Ret (), <[s_array s := Many t (<[i := v]> l)]> h)
              else (Panic "index out of range", h)
  | None => (Panic nil_dereference, h)
  end.
End Heap.
Abbreviation heap den := (gmap loc (cell den)).
Arguments One {ty den} _ _.
Arguments Many {ty den} _ _.

(** ** Representation

    [rep h F G v a]: the Go value [v] represents [a] of the model in the heap [h], and
    reaches only locations of [F], which are its own, and of [G], which it may share. *)

Section Rep.
Context {ty : Type} `{!EqDecision ty} {den : ty → Type}.
Abbreviation heap := (heap den).

Class Rep (V A : Type) := rep : heap → gset loc → gset loc → V → A → Prop.

(** What is represented does not depend on other locations. *)
Class RepMono (V A : Type) `{!Rep V A} : Prop :=
  rep_mono : ∀ h h' F F' G G' v a,
    rep h F G v a → F ⊆ F' → G ⊆ G' → (∀ l c, l ∈ F ∪ G → h !! l = Some c → h' !! l = Some c) →
    rep h' F' G' v a.

(** Values without references. *)
Definition flat {A} : Rep A A := λ _ _ _ v a, v = a.
Lemma flat_mono {A} : @RepMono A A flat.
Proof. by intros h h' F F' G G' v a E _ _ _. Qed.

(** A pointer to a variable, and a slice, of a type. *)
Definition ptr (t : ty) : Type := option loc.
Definition slice_of (t : ty) : Type := option slice.

Definition slice_rep `{!Rep (den t) A} (h : heap) (F G : gset loc) (s : slice) (l : list A) : Prop :=
  s_array s ∈ F ∧ ∃ arr, many den h t (s_array s) = Some arr ∧ (s_len s ≤ length arr)%nat
    ∧ Forall2 (rep h F G) (take (s_len s) arr) l.

#[export] Instance ptr_rep `{!Rep (den t) A} : Rep (ptr t) (option A) := λ h F G p a,
  match p, a with
  | None, None => True
  | Some l, Some a => l ∈ F ∧ ∃ v, one den h t l = Some v ∧ rep h F G v a
  | _, _ => False
  end.
#[export] Instance slice_of_rep `{!Rep (den t) A} : Rep (slice_of t) (option (list A)) := λ h F G s l,
  match s, l with
  | None, None => True
  | Some s, Some l => slice_rep h F G s l
  | _, _ => False
  end.
(** Where the model does not tell a nil slice from an empty one. *)
#[export] Instance slice_of_list_rep `{!Rep (den t) A} : Rep (slice_of t) (list A) := λ h F G s l,
  match s with None => l = [] | Some s => slice_rep h F G s l end.

Lemma one_mono (h h' : heap) t l v :
  (∀ c, h !! l = Some c → h' !! l = Some c) → one den h t l = Some v → one den h' t l = Some v.
Proof. unfold one. intros Hh. destruct (h !! l) as [c|]; [|done]. by rewrite (Hh c). Qed.
Lemma many_mono (h h' : heap) t l v :
  (∀ c, h !! l = Some c → h' !! l = Some c) → many den h t l = Some v → many den h' t l = Some v.
Proof. unfold many. intros Hh. destruct (h !! l) as [c|]; [|done]. by rewrite (Hh c). Qed.

#[export] Instance ptr_mono `{!Rep (den t) A, !RepMono (den t) A} : RepMono (ptr t) (option A).
Proof.
  intros h h' F F' G G' [l|] [a|] Hr HF HG Hh; try done. destruct Hr as (Hl & v & Hv & Ha).
  split; [by apply HF|]. exists v. split; [eapply one_mono; [|exact Hv]; set_solver | by eapply rep_mono].
Qed.
Lemma slice_rep_mono `{!Rep (den t) A, !RepMono (den t) A} h h' F F' G G' s (l : list A) :
  slice_rep h F G s l → F ⊆ F' → G ⊆ G' → (∀ x c, x ∈ F ∪ G → h !! x = Some c → h' !! x = Some c) →
  slice_rep h' F' G' s l.
Proof.
  intros (Hl & arr & Harr & Hn & Hall) HF HG Hh. split; [by apply HF|]. exists arr.
  split; [eapply many_mono; [|exact Harr]; set_solver|]. split; [done|].
  eapply Forall2_impl; [exact Hall|]. intros v a Hv. by eapply rep_mono.
Qed.
#[export] Instance slice_of_mono `{!Rep (den t) A, !RepMono (den t) A} : RepMono (slice_of t) (option (list A)).
Proof. intros h h' F F' G G' [s|] [l|] Hr HF HG Hh; try done. by eapply slice_rep_mono. Qed.
#[export] Instance slice_of_list_mono `{!Rep (den t) A, !RepMono (den t) A} : RepMono (slice_of t) (list A).
Proof. intros h h' F F' G G' [s|] l Hr HF HG Hh; [by eapply slice_rep_mono|done]. Qed.

(** In a heap that has only grown. *)
Lemma rep_grow `{!Rep V A, !RepMono V A} (h h' : heap) F F' G v a :
  rep h F G v a → F ⊆ F' → h ⊆ h' → rep h' F' G v a.
Proof. intros Hr HF Hh. eapply rep_mono; [exact Hr|done|done|]. intros l c _ Hl. by eapply lookup_weaken. Qed.

(** ** Deep copies

    Code makes a deep copy of a value when the result represents the same, what was
    there is untouched, and the locations of the result, shared ones apart, are new. *)
Definition copies `{!Rep V A} (into : V → IO heap V) : Prop :=
  ∀ h F G v (a : A), G ⊆ dom h → rep h F G v a →
    ∃ v' h', into v h = (Ret v', h') ∧ h ⊆ h' ∧ rep h' (dom h' ∖ dom h) G v' a.

(** [*out = new(T); ...; *out is assigned what [into] makes of *in]. *)
Definition deep_ptr (t : ty) (zero : den t) (into : den t → IO heap (den t)) (p : ptr t) : IO heap (ptr t) :=
  match p with
  | None => ret None
  | Some l =>
      out <- alloc den (One t zero) ;;
      v <- load den t l ;;
      v' <- into v ;;
      store den t out v' ;; ret (Some out)
  end.

(** [*out = make([]T, len(in)); for i := range in { ... }]. *)
Definition deep_slice (t : ty) (zero : den t) (into : den t → IO heap (den t)) (s : slice_of t) : IO heap (slice_of t) :=
  match s with
  | None => ret None
  | Some s =>
      out <- make_slice den t zero (s_len s) ;;
      for_each (λ i, v <- index den t s i ;; v' <- into v ;; set_index den t out i v') (seq 0 (s_len s)) ;;
      ret (Some out)
  end.

Lemma lookup_one_new (h : heap) l t v : one den (<[l := One t v]> h) t l = Some v.
Proof. unfold one. rewrite lookup_insert_eq. apply as_one_One. Qed.

Lemma insert_fresh_grows (h : heap) c : h ⊆ <[fresh (dom h) := c]> h.
Proof. apply insert_subseteq, not_elem_of_dom, is_fresh. Qed.

(** Writing to a location outside a heap leaves the heap as it is. *)
Lemma insert_outside (h h' : heap) l c : l ∉ dom h → h ⊆ h' → h ⊆ <[l := c]> h'.
Proof.
  intros Hl Hh. apply map_subseteq_spec. intros x c' Hx. rewrite lookup_insert_ne; [by eapply lookup_weaken|].
  intros <-. apply Hl. by eapply elem_of_dom_2.
Qed.

Lemma rep_insert `{!Rep V A, !RepMono V A} (h : heap) F G v a l c :
  rep h F G v a → l ∉ F → l ∉ G → rep (<[l := c]> h) F G v a.
Proof.
  intros Hr HF HG. eapply rep_mono; [exact Hr|done|done|]. intros x c' Hx Hc. rewrite lookup_insert_ne; [done|].
  intros <-. set_solver.
Qed.

Lemma copies_flat {A} : copies (Rep0 := flat (A := A)) ret.
Proof. intros h F G v a _ E. exists v, h. by split_and!. Qed.

Lemma copies_ptr t zero `{!Rep (den t) A, !RepMono (den t) A} into :
  copies into → copies (V := ptr t) (A := option A) (deep_ptr t zero into).
Proof.
  intros Hinto h F G [l|] [a|] HG Hr; [|done..|by exists None, h]. destruct Hr as (Hl & v & Hv & Ha).
  set (out := fresh (dom h)). set (h1 := <[out := One t zero]> h).
  assert (out ∉ dom h) as Hout by apply is_fresh. assert (h ⊆ h1) as H1 by apply insert_fresh_grows.
  assert (dom h ⊆ dom h1) as Hd1 by (by apply subseteq_dom).
  destruct (Hinto h1 F G v a) as (v' & h2 & E & H2 & Ha'); [set_solver|by eapply rep_grow|].
  assert (dom h1 ⊆ dom h2) as Hd2 by (by apply subseteq_dom). assert (out ∈ dom h1) as Hin by (apply elem_of_dom; eexists; apply lookup_insert_eq).
  assert (one den h2 t out = Some zero) as Hz.
  { eapply one_mono; [|apply lookup_one_new]. intros c Hc. by eapply lookup_weaken. }
  exists (Some out), (<[out := One t v']> h2). split_and!.
  - unfold deep_ptr. rewrite (bind_Ret (alloc den (One t zero)) _ h out h1 eq_refl).
    assert (load den t l h1 = (Ret v, h1)) as El.
    { unfold load. rewrite (one_mono h h1 t l v); [done| |done]. intros c Hc. by eapply lookup_weaken. }
    rewrite (bind_Ret _ _ _ _ _ El), (bind_Ret _ _ _ _ _ E). unfold store, bind, ret. by rewrite Hz.
  - apply insert_outside; [done|]. by trans h1.
  - split; [set_solver|]. exists v'. split; [apply lookup_one_new|].
    eapply (rep_mono (<[out := One t v']> h2)); [apply (rep_insert _ (dom h2 ∖ dom h1)); [exact Ha'|set_solver..]|set_solver|done|done].
Qed.

Lemma set_index_next t (h : heap) out k n zero vs v :
  h !! out = Some (Many t (vs ++ replicate (S n) zero)) → (length vs < k)%nat →
  set_index den t (MkSlice out k) (length vs) v h = (Ret (), <[out := Many t ((vs ++ [v]) ++ replicate n zero)]> h).
Proof.
  intros Hl Hk. unfold set_index, many. cbn [s_array s_len]. rewrite Hl. cbn [mbind option_bind].
  rewrite as_many_Many, bool_decide_true by done. by rewrite insert_app_r_alt, Nat.sub_diag, <- app_assoc.
Qed.

(** The loop over the elements: the copies made so far are in [out], the rest of it is
    still zero, and nothing of the copies is in [D], what was there before the loop. *)
Lemma deep_loop t zero `{!Rep (den t) A, !RepMono (den t) A} into (h0 : heap) F G s arr (l : list A) out D :
  copies into → G ⊆ dom h0 → many den h0 t (s_array s) = Some arr → (s_len s ≤ length arr)%nat →
  Forall2 (rep h0 F G) (take (s_len s) arr) l → out ∉ dom h0 → D = dom h0 ∪ {[out]} →
  ∀ n i vs hc, (i + n = s_len s)%nat → length vs = i → h0 ⊆ hc → hc !! out = Some (Many t (vs ++ replicate n zero)) →
    Forall2 (rep hc (dom hc ∖ D) G) vs (take i l) →
    ∃ h' vs', for_each (λ i, v <- index den t s i ;; v' <- into v ;; set_index den t (MkSlice out (s_len s)) i v')
                (seq i n) hc = (Ret (), h')
      ∧ h0 ⊆ h' ∧ h' !! out = Some (Many t vs') ∧ length vs' = s_len s ∧ Forall2 (rep h' (dom h' ∖ D) G) vs' l.
Proof.
  intros Hinto HG Harr Hlen Hall Hout HD. pose proof (Forall2_length _ _ _ Hall) as Hl. rewrite length_take_le in Hl by done.
  induction n as [|n IH]; intros i vs hc Hi Hvs Hh0 Hc Hdone.
  { exists hc, vs. rewrite app_nil_r in Hc. rewrite take_ge in Hdone by lia. split_and!; [done..|lia|done]. }
  destruct (lookup_lt_is_Some_2 l i) as [a Ha]; [lia|].
  destruct (Forall2_lookup_r _ _ _ _ _ Hall Ha) as (v & Hv & Hva).
  assert (many den hc t (s_array s) = Some arr) as Harrc.
  { eapply many_mono; [|exact Harr]. intros c Hx. by eapply lookup_weaken. }
  assert (dom h0 ⊆ dom hc) as Hd0 by (by apply subseteq_dom).
  destruct (Hinto hc F G v a) as (v' & h2 & E & H2 & Hva'); [set_solver|by eapply rep_grow|].
  assert (dom hc ⊆ dom h2) as Hd2 by (by apply subseteq_dom).
  assert (out ∈ dom hc) as Houtc by (by eapply elem_of_dom_2).
  set (vs2 := vs ++ [v']). set (h3 := <[out := Many t (vs2 ++ replicate n zero)]> h2).
  assert (dom h3 = dom h2) as Hd3 by (unfold h3; rewrite dom_insert_L; set_solver).
  destruct (IH (S i) vs2 h3) as (h' & vs' & Eloop & Hrest); [lia| | | | |].
  - unfold vs2. rewrite length_app. cbn. lia.
  - unfold h3. apply insert_outside; [done|]. by trans hc.
  - apply lookup_insert_eq.
  - unfold vs2. rewrite (take_S_r _ _ _ Ha). apply Forall2_app.
    + eapply Forall2_impl; [exact Hdone|]. intros v0 a0 Hr. rewrite Hd3. apply (rep_insert _ (dom h2 ∖ D)); [|set_solver..].
      eapply rep_grow; [exact Hr|set_solver|done].
    + constructor; [|constructor]. rewrite Hd3. apply (rep_insert _ (dom h2 ∖ D)); [|set_solver..].
      eapply rep_grow; [exact Hva'|set_solver|done].
  - exists h', vs'. split; [|done]. cbn [seq for_each].
    assert (index den t s i hc = (Ret v, hc)) as Ei by (unfold index; rewrite Harrc; cbn; by rewrite Hv).
    rewrite bind_assoc, (bind_Ret _ _ _ _ _ Ei), bind_assoc, (bind_Ret _ _ _ _ _ E).
    assert (set_index den t (MkSlice out (s_len s)) i v' h2 = (Ret (), h3)) as Es.
    { rewrite <- Hvs. apply (set_index_next _ _ _ _ n zero); [by eapply lookup_weaken|lia]. }
    by rewrite (bind_Ret _ _ _ _ _ Es).
Qed.

Lemma copies_slice_rep t zero `{!Rep (den t) A, !RepMono (den t) A} into h F G s (l : list A) :
  copies into → G ⊆ dom h → slice_rep h F G s l →
  ∃ s' h', deep_slice t zero into (Some s) h = (Ret (Some s'), h') ∧ h ⊆ h' ∧ slice_rep h' (dom h' ∖ dom h) G s' l.
Proof.
  intros Hinto HG (Hs & arr & Harr & Hlen & Hall). set (out := fresh (dom h)).
  set (h1 := <[out := Many t (replicate (s_len s) zero)]> h).
  assert (out ∉ dom h) as Hout by apply is_fresh.
  destruct (deep_loop t zero into h F G s arr l out (dom h ∪ {[out]}) Hinto HG Harr Hlen Hall Hout eq_refl
    (s_len s) 0 [] h1) as (h' & vs' & E & H' & Hvs & Hn & Hr).
  - done.
  - done.
  - apply insert_fresh_grows.
  - apply lookup_insert_eq.
  - constructor.
  - exists (MkSlice out (s_len s)), h'. split; [|split; [done|]].
    + unfold deep_slice, make_slice. rewrite bind_assoc. rewrite (bind_Ret (alloc den _) _ h out h1 eq_refl).
      unfold ret at 1. rewrite (bind_Ret (λ w, (Ret (MkSlice out (s_len s)), w)) _ h1 (MkSlice out (s_len s)) h1 eq_refl).
      by rewrite (bind_Ret _ _ _ _ _ E).
    + split; cbn.
      * assert (out ∈ dom h') by (by eapply elem_of_dom_2). set_solver.
      * exists vs'. unfold many. rewrite Hvs. cbn [mbind option_bind s_array s_len]. rewrite as_many_Many. split_and!; [done|lia|].
        rewrite <- Hn, firstn_all. eapply Forall2_impl; [exact Hr|]. intros v a Hva.
        eapply rep_grow; [exact Hva|set_solver|done].
Qed.

Lemma copies_slice t zero `{!Rep (den t) A, !RepMono (den t) A} into :
  copies into → copies (V := slice_of t) (A := option (list A)) (deep_slice t zero into).
Proof.
  intros Hinto h F G [s|] [l|] HG Hr; [|done..|by exists None, h].
  destruct (copies_slice_rep t zero into h F G s l Hinto HG Hr) as (s' & h' & E & Hh & Hs). by exists (Some s'), h'.
Qed.
Lemma copies_slice_list t zero `{!Rep (den t) A, !RepMono (den t) A} into :
  copies into → copies (V := slice_of t) (A := list A) (deep_slice t zero into).
Proof.
  intros Hinto h F G [s|] l HG Hr; [|by exists None, h].
  destruct (copies_slice_rep t zero into h F G s l Hinto HG Hr) as (s' & h' & E & Hh & Hs). by exists (Some s'), h'.
Qed.

(** ** Structs

    A struct is copied field by field: [copying h0 G m h a] says that [m], run in the
    heap [h] that [h0] has become, ends with a copy of [a] that is new since [h0]. *)
Definition copying `{!Rep V A} (h0 : heap) (G : gset loc) (m : IO heap V) (h : heap) (a : A) : Prop :=
  ∃ v' h', m h = (Ret v', h') ∧ h ⊆ h' ∧ rep h' (dom h' ∖ dom h0) G v' a.

Lemma copying_field {X B} `{!Rep X B, !RepMono X B} {into : X → IO heap X} (Hinto : copies into) :
  ∀ {V A} `{!Rep V A} (h0 h : heap) F G x (b : B) (k : X → IO heap V) (a : A),
  G ⊆ dom h0 → rep h0 F G x b → h0 ⊆ h →
  (∀ x' h', h ⊆ h' → h0 ⊆ h' → rep h' (dom h' ∖ dom h0) G x' b → copying h0 G (k x') h' a) →
  copying h0 G (bind (into x) k) h a.
Proof.
  intros V A HV h0 h F G x b k a HG Hx Hh Hk. assert (dom h0 ⊆ dom h) as Hd by (by apply subseteq_dom).
  destruct (Hinto h F G x b) as (x' & h1 & E & H1 & Hx'); [set_solver|by eapply rep_grow|].
  destruct (Hk x' h1) as (v' & h' & E' & H' & Hv); [done|by trans h| |].
  { eapply rep_grow; [exact Hx'|set_solver|done]. }
  exists v', h'. split; [by rewrite (bind_Ret _ _ _ _ _ E)|]. split; [by trans h1|done].
Qed.
Lemma copying_ret `{!Rep V A} (h0 h : heap) G v (a : A) :
  rep h (dom h ∖ dom h0) G v a → copying h0 G (ret v) h a.
Proof. intros Hv. by exists v, h. Qed.

Lemma copies_struct `{!Rep V A} (into : V → IO heap V) :
  (∀ h F G v (a : A), G ⊆ dom h → rep h F G v a → copying h G (into v) h a) → copies into.
Proof. intros Hc h F G v a HG Hv. by apply (Hc h F G v a). Qed.
End Rep.

(** One field after the other: [copy_field H lemma] copies the field [H] is about with
    the function [lemma] is about; [copied] ends with a field of a later heap. *)
Ltac grown :=
  lazymatch goal with
  | |- ?h ⊆ ?h => reflexivity
  | |- ?h ⊆ _ => first [assumption | etrans; [eassumption|]; grown]
  end.
Ltac copied :=
  eapply rep_grow; [eassumption | apply difference_mono_r, subseteq_dom; grown | grown].
Ltac copy_field H lem :=
  eapply (copying_field lem); [eassumption|exact H|first [reflexivity|assumption]|];
  let x := fresh "x" in let h := fresh "h" in intros x h ? ? ?.
