(* ===== verification/DeepCopy.v ===== *)
(** * Deep copies of the resource

    api/v1/zz_generated.deepcopy.go and the copies written by hand in
    api/v1/mongodbcommunity_types.go: the structs as they lie in memory, with the
    pointers, slices and maps they hold, and the functions that copy them.  The
    controller runtime hands the operator such copies of the objects in its cache. *)
From S2P Require Import Prelude GoStd K8s MergeByKey Merge Scale Json Codec ScramCreds ACTypes Types Memory.

(** ** The structs in memory *)

(** The types of variables that are pointed to. *)
Inductive ty :=
  | TBool | TString | TRole | TSecretKeyReference | TLocalObjectReference | TTLS | TStatus
  | TAuthentication | TAuthenticationRestriction | TResource | TPrivilege | TCustomRole | TSecurity | TMongoDBUser
  | THorizons | THorizonsMap | TJson | TMongodConfiguration | TStatefulSetSpec | TStatefulSetSpecWrapper
  | TStatefulSetConfiguration | TSpec | TObjectMeta | TMongoDBCommunity | TListMeta | TMongoDBCommunityList.
#[global] Instance ty_eq_dec : EqDecision ty.
Proof. solve_decision. Defined.

(** A struct of a Kubernetes package: the operator's types hold it by value, and what
    it refers to in turn is one location here. *)
Record third_party (t : ty) := ThirdParty { tp_loc : loc }.
Arguments ThirdParty {t} _.
Arguments tp_loc {t} _.

Module Mem.
Record Authentication := MkAuthentication { Modes : slice_of TString; IgnoreUnknownUsers : ptr TBool }.
Record AuthenticationRestriction := MkAuthenticationRestriction {
  ClientSource : slice_of TString; ServerAddress : slice_of TString;
}.
Record Resource := MkResource {
  DB : ptr TString; Collection : ptr TString; Cluster : bool; AnyResource : bool;
}.
Record Privilege := MkPrivilege { Privilege_Resource : Resource; Actions : slice_of TString }.
Record CustomRole := MkCustomRole {
  CustomRole_Role : string; CustomRole_DB : string; Privileges : slice_of TPrivilege; CustomRole_Roles : slice_of TRole;
  AuthenticationRestrictions : slice_of TAuthenticationRestriction;
}.
Record Security := MkSecurity {
  Security_Authentication : Authentication; Security_TLS : V1.TLS; Security_Roles : slice_of TCustomRole;
}.
Record MongoDBUser := MkMongoDBUser {
  User_Name : string; User_DB : string; PasswordSecretRef : V1.SecretKeyReference; User_Roles : slice_of TRole;
  ScramCredentialsSecretName : string;
}.
Record MongodConfiguration := MkMongodConfiguration { Object : ptr TJson }.
Record StatefulSetSpecWrapper := MkStatefulSetSpecWrapper { Wrapper_Spec : third_party TStatefulSetSpec }.
Record StatefulSetConfiguration := MkStatefulSetConfiguration { SpecWrapper : StatefulSetSpecWrapper }.
Record MongoDBCommunitySpec := MkSpec {
  Members : Z; Spec_Type : string; Version : string; Arbiters : Z; FeatureCompatibilityVersion : string;
  ReplicaSetHorizons : slice_of THorizonsMap;
  Spec_Security : Security;
  Users : slice_of TMongoDBUser;
  Spec_StatefulSetConfiguration : StatefulSetConfiguration;
  AdditionalMongodConfig : MongodConfiguration;
}.
Record MongoDBCommunity := MkMongoDBCommunity {
  Kind : string; Meta : third_party TObjectMeta; Spec : MongoDBCommunitySpec; Status : V1.MongoDBCommunityStatus;
}.
Record MongoDBCommunityList := MkMongoDBCommunityList {
  List_Kind : string; ListMeta : third_party TListMeta; Items : slice_of TMongoDBCommunity;
}.
End Mem.

Section Copies.
Context {api : K8sApi}.

(** The list type of api/v1, as a value. *)
Record MongoDBCommunityList := MkMongoDBCommunityList {
  list_Kind : string; list_ListMeta : opaque "metav1.ListMeta"; list_Items : GoSlice V1.MongoDBCommunity;
}.

(** What a variable of a type holds. *)
Definition den (t : ty) : Type :=
  match t with
  | TBool => bool | TString => string | TRole => V1.Role | TSecretKeyReference => V1.SecretKeyReference
  | TLocalObjectReference => V1.LocalObjectReference | TTLS => V1.TLS | TStatus => V1.MongoDBCommunityStatus
  | TAuthentication => Mem.Authentication | TAuthenticationRestriction => Mem.AuthenticationRestriction
  | TResource => Mem.Resource | TPrivilege => Mem.Privilege | TCustomRole => Mem.CustomRole
  | TSecurity => Mem.Security | TMongoDBUser => Mem.MongoDBUser
  | THorizons => gmap string string | THorizonsMap => ptr THorizons
  | TJson => gmap string json | TMongodConfiguration => Mem.MongodConfiguration
  | TStatefulSetSpec => StatefulSetSpec | TStatefulSetSpecWrapper => Mem.StatefulSetSpecWrapper
  | TStatefulSetConfiguration => Mem.StatefulSetConfiguration | TSpec => Mem.MongoDBCommunitySpec
  | TObjectMeta => ObjectMeta | TMongoDBCommunity => Mem.MongoDBCommunity
  | TListMeta => opaque "metav1.ListMeta" | TMongoDBCommunityList => Mem.MongoDBCommunityList
  end.

(** The zero values of [new] and [make].  (A struct of another package is overwritten
    before it is looked at.) *)
Definition zeroAuthentication : Mem.Authentication := Mem.MkAuthentication None None.
Definition zeroRestriction : Mem.AuthenticationRestriction := Mem.MkAuthenticationRestriction None None.
Definition zeroResource : Mem.Resource := Mem.MkResource None None false false.
Definition zeroPrivilege : Mem.Privilege := Mem.MkPrivilege zeroResource None.
Definition zeroCustomRole : Mem.CustomRole := Mem.MkCustomRole "" "" None None None.
Definition zeroRole : V1.Role := V1.MkRole "" "".
Definition zeroKeyReference : V1.SecretKeyReference := V1.MkSecretKeyReference "" "".
Definition zeroLocalReference : V1.LocalObjectReference := V1.MkLocalObjectReference "".
Definition zeroTLS : V1.TLS := V1.MkTLS false false zeroLocalReference zeroLocalReference.
Definition zeroSecurity : Mem.Security := Mem.MkSecurity zeroAuthentication zeroTLS None.
Definition zeroUser : Mem.MongoDBUser := Mem.MkMongoDBUser "" "" zeroKeyReference None "".
Definition zeroStsConfiguration : Mem.StatefulSetConfiguration :=
  Mem.MkStatefulSetConfiguration (Mem.MkStatefulSetSpecWrapper (ThirdParty 1%positive)).
Definition zeroSpec : Mem.MongoDBCommunitySpec :=
  Mem.MkSpec 0 "" "" 0 "" None zeroSecurity None zeroStsConfiguration (Mem.MkMongodConfiguration None).
Definition zeroMongoDBCommunity : Mem.MongoDBCommunity :=
  Mem.MkMongoDBCommunity "" (ThirdParty 1%positive) zeroSpec V1.emptyStatus.
Definition zeroList : Mem.MongoDBCommunityList := Mem.MkMongoDBCommunityList "" (ThirdParty 1%positive) None.

Abbreviation heap := (heap den).

(** The copies made by Kubernetes packages. *)
Class ThirdPartyCopies := {
  ObjectMeta_DeepCopyInto : third_party TObjectMeta → IO heap (third_party TObjectMeta);
  ListMeta_DeepCopyInto : third_party TListMeta → IO heap (third_party TListMeta);
  DeepCopyJSON : ptr TJson → IO heap (ptr TJson);
}.
Context `{!ThirdPartyCopies}.

(** ** The functions

    [in.DeepCopyInto(out)] is a function from the struct that [in] points to, to the
    one that is in [out] when it returns; it begins with [*out = *in]. *)

Definition Authentication_DeepCopyInto (v : Mem.Authentication) : IO heap Mem.Authentication :=
  modes <- deep_slice TString "" ret (Mem.Modes v) ;;
  ignore <- deep_ptr TBool false ret (Mem.IgnoreUnknownUsers v) ;;
  ret (Mem.MkAuthentication modes ignore).
Definition Authentication_DeepCopy : ptr TAuthentication → IO heap (ptr TAuthentication) :=
  deep_ptr TAuthentication zeroAuthentication Authentication_DeepCopyInto.

Definition AuthenticationRestriction_DeepCopyInto (v : Mem.AuthenticationRestriction) : IO heap Mem.AuthenticationRestriction :=
  source <- deep_slice TString "" ret (Mem.ClientSource v) ;;
  address <- deep_slice TString "" ret (Mem.ServerAddress v) ;;
  ret (Mem.MkAuthenticationRestriction source address).
Definition AuthenticationRestriction_DeepCopy : ptr TAuthenticationRestriction → IO heap (ptr TAuthenticationRestriction) :=
  deep_ptr TAuthenticationRestriction zeroRestriction AuthenticationRestriction_DeepCopyInto.

Definition Resource_DeepCopyInto (v : Mem.Resource) : IO heap Mem.Resource :=
  db <- deep_ptr TString "" ret (Mem.DB v) ;;
  collection <- deep_ptr TString "" ret (Mem.Collection v) ;;
  ret (Mem.MkResource db collection (Mem.Cluster v) (Mem.AnyResource v)).
Definition Resource_DeepCopy : ptr TResource → IO heap (ptr TResource) :=
  deep_ptr TResource zeroResource Resource_DeepCopyInto.

Definition Privilege_DeepCopyInto (v : Mem.Privilege) : IO heap Mem.Privilege :=
  resource <- Resource_DeepCopyInto (Mem.Privilege_Resource v) ;;
  actions <- deep_slice TString "" ret (Mem.Actions v) ;;
  ret (Mem.MkPrivilege resource actions).
Definition Privilege_DeepCopy : ptr TPrivilege → IO heap (ptr TPrivilege) :=
  deep_ptr TPrivilege zeroPrivilege Privilege_DeepCopyInto.

Definition Role_DeepCopyInto (v : V1.Role) : IO heap V1.Role := ret v.
Definition Role_DeepCopy : ptr TRole → IO heap (ptr TRole) := deep_ptr TRole zeroRole Role_DeepCopyInto.
Definition SecretKeyReference_DeepCopyInto (v : V1.SecretKeyReference) : IO heap V1.SecretKeyReference := ret v.
Definition SecretKeyReference_DeepCopy : ptr TSecretKeyReference → IO heap (ptr TSecretKeyReference) :=
  deep_ptr TSecretKeyReference zeroKeyReference SecretKeyReference_DeepCopyInto.
Definition LocalObjectReference_DeepCopyInto (v : V1.LocalObjectReference) : IO heap V1.LocalObjectReference := ret v.
Definition LocalObjectReference_DeepCopy : ptr TLocalObjectReference → IO heap (ptr TLocalObjectReference) :=
  deep_ptr TLocalObjectReference zeroLocalReference LocalObjectReference_DeepCopyInto.
Definition TLS_DeepCopyInto (v : V1.TLS) : IO heap V1.TLS := ret v.
Definition TLS_DeepCopy : ptr TTLS → IO heap (ptr TTLS) := deep_ptr TTLS zeroTLS TLS_DeepCopyInto.
Definition MongoDBCommunityStatus_DeepCopyInto (v : V1.MongoDBCommunityStatus) : IO heap V1.MongoDBCommunityStatus := ret v.
Definition MongoDBCommunityStatus_DeepCopy : ptr TStatus → IO heap (ptr TStatus) :=
  deep_ptr TStatus V1.emptyStatus MongoDBCommunityStatus_DeepCopyInto.

Definition CustomRole_DeepCopyInto (v : Mem.CustomRole) : IO heap Mem.CustomRole :=
  privileges <- deep_slice TPrivilege zeroPrivilege Privilege_DeepCopyInto (Mem.Privileges v) ;;
  roles <- deep_slice TRole zeroRole ret (Mem.CustomRole_Roles v) ;;
  restrictions <- deep_slice TAuthenticationRestriction zeroRestriction AuthenticationRestriction_DeepCopyInto
                    (Mem.AuthenticationRestrictions v) ;;
  ret (Mem.MkCustomRole (Mem.CustomRole_Role v) (Mem.CustomRole_DB v) privileges roles restrictions).
Definition CustomRole_DeepCopy : ptr TCustomRole → IO heap (ptr TCustomRole) :=
  deep_ptr TCustomRole zeroCustomRole CustomRole_DeepCopyInto.

Definition Security_DeepCopyInto (v : Mem.Security) : IO heap Mem.Security :=
  authentication <- Authentication_DeepCopyInto (Mem.Security_Authentication v) ;;
  roles <- deep_slice TCustomRole zeroCustomRole CustomRole_DeepCopyInto (Mem.Security_Roles v) ;;
  ret (Mem.MkSecurity authentication (Mem.Security_TLS v) roles).
Definition Security_DeepCopy : ptr TSecurity → IO heap (ptr TSecurity) :=
  deep_ptr TSecurity zeroSecurity Security_DeepCopyInto.

Definition MongoDBUser_DeepCopyInto (v : Mem.MongoDBUser) : IO heap Mem.MongoDBUser :=
  roles <- deep_slice TRole zeroRole ret (Mem.User_Roles v) ;;
  ret (Mem.MkMongoDBUser (Mem.User_Name v) (Mem.User_DB v) (Mem.PasswordSecretRef v) roles (Mem.ScramCredentialsSecretName v)).
Definition MongoDBUser_DeepCopy : ptr TMongoDBUser → IO heap (ptr TMongoDBUser) :=
  deep_ptr TMongoDBUser zeroUser MongoDBUser_DeepCopyInto.

(** One element of the horizons: a new map with every key and value, unless it is nil. *)
Definition copy_entries (m : gmap string string) : gmap string string :=
  foldr (λ kv, <[kv.1 := kv.2]>) ∅ (map_to_list m).
Definition horizons_copy (m : ptr THorizons) : IO heap (ptr THorizons) :=
  match m with
  | None => ret None
  | Some l =>
      v <- load den THorizons l ;;
      out <- alloc den (One THorizons (copy_entries v)) ;;
      ret (Some out)
  end.
(** The receiver is a slice; a nil one becomes an empty one. *)
Definition ReplicaSetHorizonConfiguration_DeepCopyInto (v : slice_of THorizonsMap) : IO heap (slice_of THorizonsMap) :=
  match v with
  | None => out <- make_slice den THorizonsMap None 0 ;; ret (Some out)
  | Some s => deep_slice THorizonsMap None horizons_copy (Some s)
  end.
Definition ReplicaSetHorizonConfiguration_DeepCopy (v : slice_of THorizonsMap) : IO heap (slice_of THorizonsMap) :=
  match v with None => ret None | Some s => ReplicaSetHorizonConfiguration_DeepCopyInto (Some s) end.

Definition MongodConfiguration_DeepCopy (m : Mem.MongodConfiguration) : IO heap loc :=
  object <- DeepCopyJSON (Mem.Object m) ;;
  alloc den (One TMongodConfiguration (Mem.MkMongodConfiguration object)).
Definition MongodConfiguration_DeepCopyInto (v : Mem.MongodConfiguration) : IO heap Mem.MongodConfiguration :=
  clone <- MongodConfiguration_DeepCopy v ;; load den TMongodConfiguration clone.

(** The struct is copied, not what it refers to. *)
Definition StatefulSetSpecWrapper_DeepCopy (m : Mem.StatefulSetSpecWrapper) : IO heap loc :=
  alloc den (One TStatefulSetSpecWrapper (Mem.MkStatefulSetSpecWrapper (Mem.Wrapper_Spec m))).
Definition StatefulSetSpecWrapper_DeepCopyInto (v : Mem.StatefulSetSpecWrapper) : IO heap Mem.StatefulSetSpecWrapper :=
  clone <- StatefulSetSpecWrapper_DeepCopy v ;; load den TStatefulSetSpecWrapper clone.

Definition StatefulSetConfiguration_DeepCopyInto (v : Mem.StatefulSetConfiguration) : IO heap Mem.StatefulSetConfiguration :=
  wrapper <- StatefulSetSpecWrapper_DeepCopyInto (Mem.SpecWrapper v) ;;
  ret (Mem.MkStatefulSetConfiguration wrapper).
Definition StatefulSetConfiguration_DeepCopy : ptr TStatefulSetConfiguration → IO heap (ptr TStatefulSetConfiguration) :=
  deep_ptr TStatefulSetConfiguration zeroStsConfiguration StatefulSetConfiguration_DeepCopyInto.

Definition MongoDBCommunitySpec_DeepCopyInto (v : Mem.MongoDBCommunitySpec) : IO heap Mem.MongoDBCommunitySpec :=
  horizons <- deep_slice THorizonsMap None horizons_copy (Mem.ReplicaSetHorizons v) ;;
  security <- Security_DeepCopyInto (Mem.Spec_Security v) ;;
  users <- deep_slice TMongoDBUser zeroUser MongoDBUser_DeepCopyInto (Mem.Users v) ;;
  sts <- StatefulSetConfiguration_DeepCopyInto (Mem.Spec_StatefulSetConfiguration v) ;;
  mongod <- MongodConfiguration_DeepCopyInto (Mem.AdditionalMongodConfig v) ;;
  ret (Mem.MkSpec (Mem.Members v) (Mem.Spec_Type v) (Mem.Version v) (Mem.Arbiters v) (Mem.FeatureCompatibilityVersion v)
         horizons security users sts mongod).
Definition MongoDBCommunitySpec_DeepCopy : ptr TSpec → IO heap (ptr TSpec) :=
  deep_ptr TSpec zeroSpec MongoDBCommunitySpec_DeepCopyInto.

Definition MongoDBCommunity_DeepCopyInto (v : Mem.MongoDBCommunity) : IO heap Mem.MongoDBCommunity :=
  meta <- ObjectMeta_DeepCopyInto (Mem.Meta v) ;;
  spec <- MongoDBCommunitySpec_DeepCopyInto (Mem.Spec v) ;;
  ret (Mem.MkMongoDBCommunity (Mem.Kind v) meta spec (Mem.Status v)).
Definition MongoDBCommunity_DeepCopy : ptr TMongoDBCommunity → IO heap (ptr TMongoDBCommunity) :=
  deep_ptr TMongoDBCommunity zeroMongoDBCommunity MongoDBCommunity_DeepCopyInto.
Definition MongoDBCommunity_DeepCopyObject (p : ptr TMongoDBCommunity) : IO heap (ptr TMongoDBCommunity) :=
  c <- MongoDBCommunity_DeepCopy p ;; ret (match c with Some l => Some l | None => None end).

Definition MongoDBCommunityList_DeepCopyInto (v : Mem.MongoDBCommunityList) : IO heap Mem.MongoDBCommunityList :=
  meta <- ListMeta_DeepCopyInto (Mem.ListMeta v) ;;
  items <- deep_slice TMongoDBCommunity zeroMongoDBCommunity MongoDBCommunity_DeepCopyInto (Mem.Items v) ;;
  ret (Mem.MkMongoDBCommunityList (Mem.List_Kind v) meta items).
Definition MongoDBCommunityList_DeepCopy : ptr TMongoDBCommunityList → IO heap (ptr TMongoDBCommunityList) :=
  deep_ptr TMongoDBCommunityList zeroList MongoDBCommunityList_DeepCopyInto.
Definition MongoDBCommunityList_DeepCopyObject (p : ptr TMongoDBCommunityList) : IO heap (ptr TMongoDBCommunityList) :=
  c <- MongoDBCommunityList_DeepCopy p ;; ret (match c with Some l => Some l | None => None end).
End Copies.
