(* ===== verification/DeepCopyFacts.v ===== *)
(** * Copies are independent

    A deep copy of a resource represents the same resource, and nothing that is done to
    the one can be seen in the other - except through the custom StatefulSet spec, which
    the copy shares with its original. *)
From S2P Require Import Prelude GoStd K8s MergeByKey Merge Scale Json Codec ScramCreds ACTypes Types Memory DeepCopy.

Section Facts.
Context {api : K8sApi}.
Abbreviation heap := (heap den).
Abbreviation Rep := (Rep (den := den)).
Abbreviation RepMono := (RepMono (den := den)).

(** ** What a struct in memory represents *)

#[export] Instance bool_rep : Rep (den TBool) bool := flat.
#[export] Instance string_rep : Rep (den TString) string := flat.
#[export] Instance Role_rep : Rep (den TRole) V1.Role := flat.
#[export] Instance SecretKeyReference_rep : Rep (den TSecretKeyReference) V1.SecretKeyReference := flat.
#[export] Instance LocalObjectReference_rep : Rep (den TLocalObjectReference) V1.LocalObjectReference := flat.
#[export] Instance TLS_rep : Rep (den TTLS) V1.TLS := flat.
#[export] Instance Status_rep : Rep (den TStatus) V1.MongoDBCommunityStatus := flat.
#[export] Instance json_rep : Rep (den TJson) (gmap string json) := flat.
#[export] Instance bool_mono : RepMono (den TBool) bool := flat_mono.
#[export] Instance string_mono : RepMono (den TString) string := flat_mono.
#[export] Instance Role_mono : RepMono (den TRole) V1.Role := flat_mono.
#[export] Instance json_mono : RepMono (den TJson) (gmap string json) := flat_mono.

#[export] Instance Authentication_rep : Rep (den TAuthentication) V1.Authentication := λ h F G v a,
  rep h F G (Mem.Modes v) (V1.auth_Modes a) ∧ rep h F G (Mem.IgnoreUnknownUsers v) (V1.auth_IgnoreUnknownUsers a).
#[export] Instance AuthenticationRestriction_rep : Rep (den TAuthenticationRestriction) V1.AuthenticationRestriction := λ h F G v a,
  rep h F G (Mem.ClientSource v) (V1.restr_ClientSource a) ∧ rep h F G (Mem.ServerAddress v) (V1.restr_ServerAddress a).
#[export] Instance Resource_rep : Rep (den TResource) V1.Resource := λ h F G v a,
  rep h F G (Mem.DB v) (V1.res_DB a) ∧ rep h F G (Mem.Collection v) (V1.res_Collection a)
  ∧ Mem.Cluster v = V1.res_Cluster a ∧ Mem.AnyResource v = V1.res_AnyResource a.
#[export] Instance Privilege_rep : Rep (den TPrivilege) V1.Privilege := λ h F G v a,
  rep (V := den TResource) h F G (Mem.Privilege_Resource v) (V1.priv_Resource a)
  ∧ rep h F G (Mem.Actions v) (V1.priv_Actions a).
#[export] Instance CustomRole_rep : Rep (den TCustomRole) V1.CustomRole := λ h F G v a,
  rep h F G (Mem.Privileges v) (V1.crole_Privileges a) ∧ rep h F G (Mem.CustomRole_Roles v) (V1.crole_Roles a)
  ∧ rep h F G (Mem.AuthenticationRestrictions v) (V1.crole_AuthenticationRestrictions a)
  ∧ Mem.CustomRole_Role v = V1.crole_Role a ∧ Mem.CustomRole_DB v = V1.crole_DB a.
#[export] Instance Security_rep : Rep (den TSecurity) V1.Security := λ h F G v a,
  rep (V := den TAuthentication) h F G (Mem.Security_Authentication v) (V1.sec_Authentication a)
  ∧ rep h F G (Mem.Security_Roles v) (V1.sec_Roles a) ∧ Mem.Security_TLS v = V1.sec_TLS a.
#[export] Instance MongoDBUser_rep : Rep (den TMongoDBUser) V1.MongoDBUser := λ h F G v a,
  rep h F G (Mem.User_Roles v) (V1.user_Roles a)
  ∧ a = V1.MkMongoDBUser (Mem.User_Name v) (Mem.User_DB v) (Mem.PasswordSecretRef v) (V1.user_Roles a)
          (Mem.ScramCredentialsSecretName v).
(** A nil map and an empty one name no horizon. *)
#[export] Instance Horizons_rep : Rep (den THorizonsMap) ReplicaSetHorizons := λ h F G p m,
  match p with None => m = ∅ | Some l => l ∈ F ∧ one den h THorizons l = Some m end.
#[export] Instance MongodConfiguration_rep : Rep (den TMongodConfiguration) (GoMap json) := λ h F G v a,
  rep h F G (Mem.Object v) a.

(** What a struct of another package refers to: its own, and for the StatefulSet spec
    that which may be shared. *)
#[export] Instance ObjectMeta_rep : Rep (third_party TObjectMeta) ObjectMeta := λ h F G v a,
  tp_loc v ∈ F ∧ one den h TObjectMeta (tp_loc v) = Some a.
#[export] Instance ListMeta_rep : Rep (third_party TListMeta) (opaque "metav1.ListMeta") := λ h F G v a,
  tp_loc v ∈ F ∧ one den h TListMeta (tp_loc v) = Some a.
#[export] Instance StatefulSetSpecWrapper_rep : Rep (den TStatefulSetSpecWrapper) StatefulSetSpec := λ h F G v a,
  tp_loc (Mem.Wrapper_Spec v) ∈ G ∧ one den h TStatefulSetSpec (tp_loc (Mem.Wrapper_Spec v)) = Some a.
#[export] Instance StatefulSetConfiguration_rep : Rep (den TStatefulSetConfiguration) StatefulSetSpec := λ h F G v a,
  rep (V := den TStatefulSetSpecWrapper) h F G (Mem.SpecWrapper v) a.

#[export] Instance Spec_rep : Rep (den TSpec) V1.MongoDBCommunitySpec := λ h F G v a,
  rep h F G (Mem.ReplicaSetHorizons v) (V1.spec_ReplicaSetHorizons a)
  ∧ rep (V := den TSecurity) h F G (Mem.Spec_Security v) (V1.spec_Security a)
  ∧ rep h F G (Mem.Users v) (V1.spec_Users a)
  ∧ rep (V := den TStatefulSetConfiguration) h F G (Mem.Spec_StatefulSetConfiguration v) (V1.spec_StatefulSetConfiguration a)
  ∧ rep (V := den TMongodConfiguration) h F G (Mem.AdditionalMongodConfig v) (V1.spec_AdditionalMongodConfig a)
  ∧ a = V1.MkSpec (Mem.Members v) (Mem.Spec_Type v) (Mem.Version v) (Mem.Arbiters v) (Mem.FeatureCompatibilityVersion v)
          (V1.spec_ReplicaSetHorizons a) (V1.spec_Security a) (V1.spec_Users a) (V1.spec_StatefulSetConfiguration a)
          (V1.spec_AdditionalMongodConfig a).
#[export] Instance MongoDBCommunity_rep : Rep (den TMongoDBCommunity) V1.MongoDBCommunity := λ h F G v a,
  rep h F G (Mem.Meta v) (V1.mdb_ObjectMeta a) ∧ rep (V := den TSpec) h F G (Mem.Spec v) (V1.mdb_Spec a)
  ∧ Mem.Kind v = V1.mdb_Kind a ∧ Mem.Status v = V1.mdb_Status a.
#[export] Instance MongoDBCommunityList_rep : Rep (den TMongoDBCommunityList) MongoDBCommunityList := λ h F G v a,
  rep h F G (Mem.ListMeta v) (list_ListMeta a) ∧ rep h F G (Mem.Items v) (list_Items a)
  ∧ Mem.List_Kind v = list_Kind a.

#[export] Instance Authentication_mono : RepMono (den TAuthentication) V1.Authentication.
Proof. intros h h' F F' G G' v a (?&?) HF HG Hh. split_and!; by eapply rep_mono. Qed.
#[export] Instance AuthenticationRestriction_mono : RepMono (den TAuthenticationRestriction) V1.AuthenticationRestriction.
Proof. intros h h' F F' G G' v a (?&?) HF HG Hh. split_and!; by eapply rep_mono. Qed.
#[export] Instance Resource_mono : RepMono (den TResource) V1.Resource.
Proof. intros h h' F F' G G' v a (?&?&?&?) HF HG Hh. split_and!; [by eapply rep_mono..|done|done]. Qed.
#[export] Instance Privilege_mono : RepMono (den TPrivilege) V1.Privilege.
Proof. intros h h' F F' G G' v a (?&?) HF HG Hh. split_and!; by eapply rep_mono. Qed.
#[export] Instance CustomRole_mono : RepMono (den TCustomRole) V1.CustomRole.
Proof. intros h h' F F' G G' v a (?&?&?&?&?) HF HG Hh. split_and!; [by eapply rep_mono..|done|done]. Qed.
#[export] Instance Security_mono : RepMono (den TSecurity) V1.Security.
Proof. intros h h' F F' G G' v a (?&?&?) HF HG Hh. split_and!; [by eapply rep_mono..|done]. Qed.
#[export] Instance MongoDBUser_mono : RepMono (den TMongoDBUser) V1.MongoDBUser.
Proof. intros h h' F F' G G' v a (?&?) HF HG Hh. split_and!; [by eapply rep_mono|done]. Qed.
#[export] Instance Horizons_mono : RepMono (den THorizonsMap) ReplicaSetHorizons.
Proof.
  intros h h' F F' G G' [l|] m Hr HF HG Hh; [|done]. destruct Hr as [Hl Hv]. split; [by apply HF|].
  refine (one_mono h h' _ _ _ _ Hv). intros c. apply Hh. set_solver.
Qed.
#[export] Instance MongodConfiguration_mono : RepMono (den TMongodConfiguration) (GoMap json).
Proof. intros h h' F F' G G' [o] a. exact (ptr_mono h h' F F' G G' o a). Qed.
#[export] Instance ObjectMeta_mono : RepMono (third_party TObjectMeta) ObjectMeta.
Proof.
  intros h h' F F' G G' v a [Hl Hv] HF HG Hh. split; [by apply HF|].
  refine (one_mono h h' _ _ _ _ Hv). intros c. apply Hh. set_solver.
Qed.
#[export] Instance ListMeta_mono : RepMono (third_party TListMeta) (opaque "metav1.ListMeta").
Proof.
  intros h h' F F' G G' v a [Hl Hv] HF HG Hh. split; [by apply HF|].
  refine (one_mono h h' _ _ _ _ Hv). intros c. apply Hh. set_solver.
Qed.
#[export] Instance StatefulSetSpecWrapper_mono : RepMono (den TStatefulSetSpecWrapper) StatefulSetSpec.
Proof.
  intros h h' F F' G G' v a [Hl Hv] HF HG Hh. split; [by apply HG|].
  refine (one_mono h h' _ _ _ _ Hv). intros c. apply Hh. set_solver.
Qed.
#[export] Instance StatefulSetConfiguration_mono : RepMono (den TStatefulSetConfiguration) StatefulSetSpec.
Proof. intros h h' F F' G G' [x] a. exact (StatefulSetSpecWrapper_mono h h' F F' G G' x a). Qed.
#[export] Instance Spec_mono : RepMono (den TSpec) V1.MongoDBCommunitySpec.
Proof. intros h h' F F' G G' v a (?&?&?&?&?&?) HF HG Hh. split_and!; [by eapply rep_mono..|done]. Qed.
#[export] Instance MongoDBCommunity_mono : RepMono (den TMongoDBCommunity) V1.MongoDBCommunity.
Proof. intros h h' F F' G G' v a (?&?&?&?) HF HG Hh. split_and!; [by eapply rep_mono..|done|done]. Qed.
#[export] Instance MongoDBCommunityList_mono : RepMono (den TMongoDBCommunityList) MongoDBCommunityList.
Proof. intros h h' F F' G G' v a (?&?&?) HF HG Hh. split_and!; [by eapply rep_mono..|done]. Qed.

(** ** The functions make deep copies *)

Lemma copies_strings : copies (V := slice_of TString) (A := option (list string)) (deep_slice TString "" ret).
Proof. exact (copies_slice TString "" ret copies_flat). Qed.
Lemma copies_string : copies (V := ptr TString) (A := option string) (deep_ptr TString "" ret).
Proof. exact (copies_ptr TString "" ret copies_flat). Qed.
Lemma copies_roles : copies (V := slice_of TRole) (A := option (list V1.Role)) (deep_slice TRole zeroRole ret).
Proof. exact (copies_slice TRole zeroRole ret copies_flat). Qed.

Lemma copies_bool : copies (V := ptr TBool) (A := option bool) (deep_ptr TBool false ret).
Proof. exact (copies_ptr TBool false ret copies_flat). Qed.

Lemma copies_Authentication : copies (V := den TAuthentication) Authentication_DeepCopyInto.
Proof.
  apply copies_struct. intros h F G v a HG [H1 H2]. unfold Authentication_DeepCopyInto.
  copy_field H1 copies_strings. copy_field H2 copies_bool. apply copying_ret. split; copied.
Qed.
Lemma copies_AuthenticationRestriction : copies (V := den TAuthenticationRestriction) AuthenticationRestriction_DeepCopyInto.
Proof.
  apply copies_struct. intros h F G v a HG [H1 H2]. unfold AuthenticationRestriction_DeepCopyInto.
  copy_field H1 copies_strings. copy_field H2 copies_strings. apply copying_ret. split; copied.
Qed.
Lemma copies_Resource : copies (V := den TResource) Resource_DeepCopyInto.
Proof.
  apply copies_struct. intros h F G v a HG (H1 & H2 & H3 & H4). unfold Resource_DeepCopyInto.
  copy_field H1 copies_string. copy_field H2 copies_string. apply copying_ret. split_and!; [copied..|done|done].
Qed.
Lemma copies_Privilege : copies (V := den TPrivilege) Privilege_DeepCopyInto.
Proof.
  apply copies_struct. intros h F G v a HG (H1 & H2). unfold Privilege_DeepCopyInto.
  copy_field H1 copies_Resource. copy_field H2 copies_strings. apply copying_ret. split; copied.
Qed.
Lemma copies_CustomRole : copies (V := den TCustomRole) CustomRole_DeepCopyInto.
Proof.
  apply copies_struct. intros h F G v a HG (H1 & H2 & H3 & H4 & H5). unfold CustomRole_DeepCopyInto.
  copy_field H1 (copies_slice TPrivilege zeroPrivilege _ copies_Privilege). copy_field H2 copies_roles.
  copy_field H3 (copies_slice_list TAuthenticationRestriction zeroRestriction _ copies_AuthenticationRestriction).
  apply copying_ret. split_and!; [copied..|done|done].
Qed.
Lemma copies_Security : copies (V := den TSecurity) Security_DeepCopyInto.
Proof.
  apply copies_struct. intros h F G v a HG (H1 & H2 & H3). unfold Security_DeepCopyInto.
  copy_field H1 copies_Authentication. copy_field H2 (copies_slice_list TCustomRole zeroCustomRole _ copies_CustomRole).
  apply copying_ret. split_and!; [copied..|done].
Qed.
Lemma copies_MongoDBUser : copies (V := den TMongoDBUser) MongoDBUser_DeepCopyInto.
Proof.
  apply copies_struct. intros h F G v a HG (H1 & H2). unfold MongoDBUser_DeepCopyInto.
  copy_field H1 copies_roles. apply copying_ret. split; [copied|done].
Qed.

Lemma copy_entries_same (m : gmap string string) : copy_entries m = m.
Proof. apply list_to_map_to_list. Qed.
Lemma copies_horizons : copies (V := den THorizonsMap) horizons_copy.
Proof.
  intros h F G [l|] m HG Hr; [|by exists None, h]. destruct Hr as [Hl Hm]. unfold horizons_copy.
  assert (load den THorizons l h = (Ret m, h)) as El by (unfold load; by rewrite Hm).
  rewrite (bind_Ret _ _ _ _ _ El).
  rewrite (copy_entries_same m).
  set (out := fresh (dom h)). exists (Some out), (<[out := One THorizons (m : den THorizons)]> h).
  split; [done|]. split; [apply insert_fresh_grows|]. split.
  - pose proof (is_fresh (dom h)). rewrite dom_insert_L. set_solver.
  - apply (lookup_one_new h out THorizons m).
Qed.

(** A struct that is put into a new variable and read back. *)
Lemma new_load t (v : den t) (h : heap) :
  ∃ l, bind (alloc den (One t v)) (load den t) h = (Ret v, <[l := One t v]> h) ∧ l ∉ dom h.
Proof.
  exists (fresh (dom h)). split; [|apply is_fresh]. unfold bind, alloc, load. by rewrite lookup_one_new.
Qed.

Lemma copies_StatefulSetSpecWrapper : copies (V := den TStatefulSetSpecWrapper) StatefulSetSpecWrapper_DeepCopyInto.
Proof.
  intros h F G [x] a HG [Hl Hv]. unfold StatefulSetSpecWrapper_DeepCopyInto, StatefulSetSpecWrapper_DeepCopy.
  destruct (new_load TStatefulSetSpecWrapper (Mem.MkStatefulSetSpecWrapper x) h) as (l & E & Hf).
  eexists _, _. split; [exact E|]. split; [by apply insert_outside|]. split; [done|].
  refine (one_mono h _ _ _ _ _ Hv). intros c Hc. rewrite lookup_insert_ne; [done|].
  intros ->. by apply not_elem_of_dom in Hf; rewrite Hf in Hc.
Qed.
Lemma copies_StatefulSetConfiguration : copies (V := den TStatefulSetConfiguration) StatefulSetConfiguration_DeepCopyInto.
Proof.
  apply copies_struct. intros h F G v a HG H1. unfold StatefulSetConfiguration_DeepCopyInto.
  change (rep (V := den TStatefulSetSpecWrapper) h F G (Mem.SpecWrapper v) a) in H1.
  copy_field H1 copies_StatefulSetSpecWrapper. apply copying_ret.
  by match goal with Hx : rep _ _ _ ?x _ |- rep _ _ _ (Mem.MkStatefulSetConfiguration ?x) _ => exact Hx end.
Qed.

(** The copies of Kubernetes packages are deep. *)
Context `{!ThirdPartyCopies}.
Class ThirdPartyDeep : Prop := {
  copies_ObjectMeta : copies (A := ObjectMeta) ObjectMeta_DeepCopyInto;
  copies_ListMeta : copies (A := opaque "metav1.ListMeta") ListMeta_DeepCopyInto;
  copies_JSON : copies (V := ptr TJson) (A := option (gmap string json)) DeepCopyJSON;
}.
Context `{!ThirdPartyDeep}.

Lemma copies_MongodConfiguration : copies (V := den TMongodConfiguration) MongodConfiguration_DeepCopyInto.
Proof.
  intros h F G [o] a HG Hr. unfold MongodConfiguration_DeepCopyInto, MongodConfiguration_DeepCopy.
  destruct (copies_JSON h F G o a HG Hr) as (o' & h1 & E & H1 & Ho). cbn [Mem.Object].
  rewrite bind_assoc, (bind_Ret _ _ _ _ _ E).
  destruct (new_load TMongodConfiguration (Mem.MkMongodConfiguration o') h1) as (l & E' & Hf).
  assert (dom h ⊆ dom h1) as Hd by (by apply subseteq_dom). assert (h1 ⊆ <[l := One TMongodConfiguration (Mem.MkMongodConfiguration o')]> h1) as H2
    by (by apply insert_outside).
  eexists _, _. split; [exact E'|]. split; [by trans h1|].
  refine (rep_grow (V := ptr TJson) h1 _ _ _ _ _ _ Ho _ H2). apply difference_mono_r. by apply subseteq_dom.
Qed.

Lemma copies_Spec : copies (V := den TSpec) MongoDBCommunitySpec_DeepCopyInto.
Proof.
  apply copies_struct. intros h F G v a HG (H1 & H2 & H3 & H4 & H5 & H6). unfold MongoDBCommunitySpec_DeepCopyInto.
  copy_field H1 (copies_slice THorizonsMap None _ copies_horizons). copy_field H2 copies_Security.
  copy_field H3 (copies_slice TMongoDBUser zeroUser _ copies_MongoDBUser). copy_field H4 copies_StatefulSetConfiguration.
  copy_field H5 copies_MongodConfiguration. apply copying_ret. split_and!; [copied..|done].
Qed.
Lemma copies_MongoDBCommunity : copies (V := den TMongoDBCommunity) MongoDBCommunity_DeepCopyInto.
Proof.
  apply copies_struct. intros h F G v a HG (H1 & H2 & H3 & H4). unfold MongoDBCommunity_DeepCopyInto.
  copy_field H1 copies_ObjectMeta. copy_field H2 copies_Spec. apply copying_ret. split_and!; [copied..|done|done].
Qed.
Lemma copies_MongoDBCommunityList : copies (V := den TMongoDBCommunityList) MongoDBCommunityList_DeepCopyInto.
Proof.
  apply copies_struct. intros h F G v a HG (H1 & H2 & H3). unfold MongoDBCommunityList_DeepCopyInto.
  copy_field H1 copies_ListMeta.
  copy_field H2 (copies_slice TMongoDBCommunity zeroMongoDBCommunity _ copies_MongoDBCommunity).
  apply copying_ret. split_and!; [copied..|done].
Qed.

(** [C35] A deep copy is another, independent copy: copying a resource that is not nil returns a
    pointer to a resource with the same content, leaves the original as it is, and all
    that the copy refers to is new, apart from what the custom StatefulSet spec refers
    to ([G]).  From then on, whatever happens to the copy is not seen in the original,
    and whatever happens elsewhere is not seen in the copy. *)
Theorem DeepCopyObject_independent (h : heap) F G (p : ptr TMongoDBCommunity) (mdb : V1.MongoDBCommunity) :
  G ⊆ dom h → rep h F G p (Some mdb) →
  ∃ q h', MongoDBCommunity_DeepCopyObject p h = (Ret q, h') ∧ h ⊆ h' ∧
    let new := dom h' ∖ dom h in
    rep h' new G q (Some mdb)
    ∧ (∀ h2 : heap, (∀ l, l ∉ new → h2 !! l = h' !! l) → rep h2 F G p (Some mdb))
    ∧ (∀ h2 : heap, (∀ l, l ∈ new ∪ G → h2 !! l = h' !! l) → rep h2 new G q (Some mdb)).
Proof.
  intros HG Hp.
  destruct (copies_ptr TMongoDBCommunity zeroMongoDBCommunity _ copies_MongoDBCommunity h F G p (Some mdb) HG Hp)
    as (q & h' & E & Hh & Hq).
  exists q, h'. split; [|split; [done|intros new; split_and!; [done| |]]].
  - unfold MongoDBCommunity_DeepCopyObject, MongoDBCommunity_DeepCopy. rewrite (bind_Ret _ _ _ _ _ E). by destruct q.
  - intros h2 H2. eapply (rep_mono (V := ptr TMongoDBCommunity)); [exact Hp|done|done|]. intros l c _ Hl.
    assert (l ∈ dom h) by (by eapply elem_of_dom_2). rewrite H2 by (subst new; set_solver). by eapply lookup_weaken.
  - intros h2 H2. eapply (rep_mono (V := ptr TMongoDBCommunity)); [exact Hq|done|done|]. intros l c Hl Hc. by rewrite H2.
Qed.

(** The items of a list are copied as well. *)
Theorem List_DeepCopy_copies : copies (V := ptr TMongoDBCommunityList) (A := option MongoDBCommunityList) MongoDBCommunityList_DeepCopyObject.
Proof.
  intros h F G p a HG Hp.
  destruct (copies_ptr TMongoDBCommunityList zeroList _ copies_MongoDBCommunityList h F G p a HG Hp) as (q & h' & E & Hh & Hq).
  exists q, h'. split; [|done]. unfold MongoDBCommunityList_DeepCopyObject, MongoDBCommunityList_DeepCopy.
  rewrite (bind_Ret _ _ _ _ _ E). by destruct q.
Qed.
End Facts.

(** ** A run *)

(** The copies of Kubernetes packages, on the content they refer to. *)
Section Example.
Context {api : K8sApi}.

Definition copy_content {t} (x : third_party t) : IO (heap den) (third_party t) :=
  v <- load den t (tp_loc x) ;; l <- alloc den (One t v) ;; ret (ThirdParty l).
#[export] Instance content_copies : ThirdPartyCopies := {|
  ObjectMeta_DeepCopyInto := copy_content;
  ListMeta_DeepCopyInto := copy_content;
  DeepCopyJSON := deep_ptr TJson ∅ ret;
|}.

Lemma copy_content_new {t} (x : third_party t) (h : heap den) v :
  one den h t (tp_loc x) = Some v →
  ∃ x' h', copy_content x h = (Ret x', h') ∧ h ⊆ h' ∧ tp_loc x' ∈ dom h' ∖ dom h ∧ one den h' t (tp_loc x') = Some v.
Proof.
  intros Hv. pose proof (is_fresh (dom h)) as Hf. set (l := fresh (dom h)) in *.
  exists (ThirdParty l), (<[l := One t v]> h). split_and!.
  - unfold copy_content, bind, load. by rewrite Hv.
  - apply insert_fresh_grows.
  - cbn. rewrite dom_insert_L. set_solver.
  - apply lookup_one_new.
Qed.
Lemma content_deep : ThirdPartyDeep.
Proof.
  split.
  - intros h F G x a HG [_ Hv]. destruct (copy_content_new x h a Hv) as (x' & h' & E & Hh & Hx & Hv').
    by exists x', h'.
  - intros h F G x a HG [_ Hv]. destruct (copy_content_new x h a Hv) as (x' & h' & E & Hh & Hx & Hv').
    by exists x', h'.
  - exact (copies_ptr TJson ∅ ret copies_flat).
Qed.
End Example.

(** A resource in memory: at 1 what its StatefulSet spec refers to, at 2 its metadata,
    at 3 the struct, at 4 the names of its authentication modes. *)
Definition stored_sts (name : string) : StatefulSetSpec (api := string_api) :=
  MkStatefulSetSpec None None emptyPodTemplate [] name "" (MkStatefulSetUpdateStrategy "" None) None.
Definition mem_mdb : Mem.MongoDBCommunity :=
  Mem.MkMongoDBCommunity "MongoDBCommunity" (ThirdParty 2%positive)
    (Mem.MkSpec 3 "ReplicaSet" "4.4.0" 0 "" None
       (Mem.MkSecurity (Mem.MkAuthentication (Some (MkSlice 4%positive 1)) None) zeroTLS None) None
       (Mem.MkStatefulSetConfiguration (Mem.MkStatefulSetSpecWrapper (ThirdParty 1%positive)))
       (Mem.MkMongodConfiguration None)) V1.emptyStatus.
Definition cached : heap (den (api := string_api)) :=
  <[3%positive := One TMongoDBCommunity (mem_mdb : den TMongoDBCommunity)]>
  (<[4%positive := Many TString (["SCRAM"; "spare"] : list (den TString))]>
  (<[2%positive := One TObjectMeta (emptyMeta : den TObjectMeta)]>
  {[1%positive := One TStatefulSetSpec (stored_sts "svc" : den TStatefulSetSpec)]})).
Definition cached_mdb : V1.MongoDBCommunity (api := string_api) :=
  V1.MkMongoDBCommunity "MongoDBCommunity" emptyMeta
    (V1.MkSpec 3 "ReplicaSet" "4.4.0" 0 "" None
       (V1.MkSecurity (V1.MkAuthentication (Some ["SCRAM"]) None) zeroTLS []) None (stored_sts "svc") None) V1.emptyStatus.

Lemma cached_rep : rep cached {[2%positive; 3%positive; 4%positive]} {[1%positive]} (Some 3%positive : ptr TMongoDBCommunity) (Some cached_mdb).
Proof.
  split; [set_solver|]. exists mem_mdb. split; [reflexivity|]. split_and!; [split; [set_solver|reflexivity]| |done|done].
  split_and!; [done| |done|split; [set_solver|reflexivity]|done|done].
  split_and!; [|done|done]. split; [|done]. split; [set_solver|].
  exists ["SCRAM"; "spare"]. split; [reflexivity|]. split; [cbn; lia|]. by constructor.
Qed.

Lemma DeepCopyObject_independent_witness :
  ∃ q h', MongoDBCommunity_DeepCopyObject (Some 3%positive) cached = (Ret q, h')
    ∧ q ≠ Some 3%positive
    ∧ rep (h' : heap den) (dom h' ∖ dom cached) {[1%positive]} (q : ptr TMongoDBCommunity) (Some cached_mdb).
Proof.
  pose proof (content_deep (api := string_api)) as Hdeep.
  destruct (@DeepCopyObject_independent string_api content_copies Hdeep cached {[2%positive; 3%positive; 4%positive]} {[1%positive]}
    (Some 3%positive) cached_mdb) as (q & h' & E & Hh & Hq & _).
  - apply singleton_subseteq_l, elem_of_dom. by eexists.
  - exact cached_rep.
  - exists q, h'. split; [exact E|]. split; [|exact Hq]. intros ->. destruct Hq as [Hl _].
    apply elem_of_difference in Hl as [_ Hl]. apply Hl, elem_of_dom. by eexists.
Defined.

(** Writing through the StatefulSet spec of a copy changes the original. *)
Definition write_through_copy {api : K8sApi} `{!ThirdPartyCopies} (p : ptr TMongoDBCommunity) (sts : StatefulSetSpec) : IO (heap den) (option StatefulSetSpec) :=
  let sts_of l := (v <- load den TMongoDBCommunity l ;;
                   ret (tp_loc (Mem.Wrapper_Spec (Mem.SpecWrapper (Mem.Spec_StatefulSetConfiguration (Mem.Spec v)))))) in
  q <- MongoDBCommunity_DeepCopyObject p ;;
  match p, q with
  | Some original, Some copy =>
      l <- sts_of copy ;; store den TStatefulSetSpec l sts ;;
      l <- sts_of original ;; v <- load den TStatefulSetSpec l ;; ret (Some v)
  | _, _ => ret None
  end.
Lemma DeepCopy_shares_statefulset :
  (write_through_copy (Some 3%positive) (stored_sts "other") cached).1 = Ret (Some (stored_sts "other")).
Proof. vm_compute. reflexivity. Qed.
