(* ===== verification/Kube.v ===== *)
(** * The Kubernetes client

    pkg/kube/client: the client the operator talks to the API server with.  The
    API server itself is not part of the repository: [KubeClient] is the interface
    of controller-runtime's client, over any world that has one, and [KubeLaws]
    the documented behaviour of the API server the operator relies on.  The
    in-memory client of mocked_client.go, which the repository's own tests run
    against, is modelled as an instance that satisfies the laws. *)
From S2P Require Import Prelude GoStd K8s Scale Json Codec ScramCreds ACTypes Types.
Local Open Scope Z_scope.

(** ** The stored objects *)

Section Objects.
Context {api : K8sApi}.

Inductive kind := KSecret | KConfigMap | KService | KStatefulSet | KPod | KMongoDB.
#[global] Instance kind_eq_dec : EqDecision kind.
Proof. solve_decision. Defined.

Definition obj (k : kind) : Type :=
  match k with
  | KSecret => Secret
  | KConfigMap => ConfigMap
  | KService => Service
  | KStatefulSet => StatefulSet
  | KPod => Pod
  | KMongoDB => V1.MongoDBCommunity
  end.

Definition meta (k : kind) : obj k → ObjectMeta :=
  match k return obj k → ObjectMeta with
  | KSecret => s_ObjectMeta
  | KConfigMap => cm_ObjectMeta
  | KService => svc_ObjectMeta
  | KStatefulSet => sts_ObjectMeta
  | KPod => pod_ObjectMeta
  | KMongoDB => V1.mdb_ObjectMeta
  end.

(** [client.ObjectKeyFromObject]. *)
Definition key_of (k : kind) (o : obj k) : NamespacedName :=
  MkNamespacedName (om_Name (meta k o)) (om_Namespace (meta k o)).

(** The objects of a cluster, by kind and key. *)
Definition cluster_state : Type := ∀ k : kind, gmap NamespacedName (obj k).

Definition stored (c : cluster_state) (k : kind) (n : NamespacedName) : option (obj k) := c k !! n.

Definition set_kind (c : cluster_state) (k : kind) (m : gmap NamespacedName (obj k)) : cluster_state :=
  λ k', match decide (k = k') with
        | left E => match E in _ = k2 return gmap NamespacedName (obj k2) with eq_refl => m end
        | right _ => c k'
        end.
Definition put (c : cluster_state) (k : kind) (o : obj k) : cluster_state :=
  set_kind c k (<[key_of k o := o]> (c k)).
Definition remove (c : cluster_state) (k : kind) (n : NamespacedName) : cluster_state :=
  set_kind c k (delete n (c k)).

Lemma set_kind_same c k m : set_kind c k m k = m.
Proof. unfold set_kind. destruct (decide (k = k)) as [E|]; [|done]. by rewrite (proof_irrel E eq_refl). Qed.

Lemma set_kind_other c k m k' : k ≠ k' → set_kind c k m k' = c k'.
Proof. intros H. unfold set_kind. by destruct (decide (k = k')). Qed.

Lemma stored_put c k o n :
  stored (put c k o) k n = if decide (key_of k o = n) then Some o else stored c k n.
Proof. unfold stored, put. rewrite set_kind_same. apply lookup_insert. Qed.

Lemma stored_put_key c k o : stored (put c k o) k (key_of k o) = Some o.
Proof. rewrite stored_put. by rewrite decide_True. Qed.

Lemma stored_put_other_key c k o n : key_of k o ≠ n → stored (put c k o) k n = stored c k n.
Proof. intros H. rewrite stored_put. by rewrite decide_False. Qed.

Lemma stored_put_other_kind c k o k' n : k ≠ k' → stored (put c k o) k' n = stored c k' n.
Proof. intros H. unfold stored, put. by rewrite set_kind_other. Qed.

(** ** The client interface

    [Update] returns the object as the server stored it; [UpdateStatus] is the
    client's status writer; [Patch] applies a JSON patch given as bytes. *)
Class KubeClient (W : Type) := {
  cluster : W → cluster_state;
  Get : ∀ k, NamespacedName → IO W (obj k);
  Create : ∀ k, obj k → IO W unit;
  Update : ∀ k, obj k → IO W (obj k);
  UpdateStatus : V1.MongoDBCommunity → IO W unit;
  Delete : kind → NamespacedName → IO W unit;
  Patch : ∀ k, obj k → string → IO W unit;
}.

(** A StatefulSet the operator stores has a number of replicas. *)
Definition storable (k : kind) : obj k → Prop :=
  match k return obj k → Prop with
  | KStatefulSet => λ o, is_Some (ss_Replicas (sts_Spec o))
  | _ => λ _, True
  end.

Definition init_container_names (o : StatefulSet) : list string :=
  map c_Name (ps_InitContainers (pt_Spec (ss_Template (sts_Spec o)))).

(** What the server stores for an object it was given.  It fills in the status and
    the defaults of a StatefulSet, but keeps the number of replicas and the update
    strategy it was asked for, and removes none of its containers; the other kinds
    are stored as given. *)
Definition accepted (k : kind) : obj k → obj k → Prop :=
  match k return obj k → obj k → Prop with
  | KStatefulSet => λ o o',
      ss_Replicas (sts_Spec o') = ss_Replicas (sts_Spec o)
      ∧ (us_Type (ss_UpdateStrategy (sts_Spec o)) ≠ "" →
         us_Type (ss_UpdateStrategy (sts_Spec o')) = us_Type (ss_UpdateStrategy (sts_Spec o)))
      ∧ init_container_names o ⊆ init_container_names o'
  | _ => λ o o', o' = o
  end.

Lemma accepted_other k o o' : k ≠ KStatefulSet → accepted k o o' → o' = o.
Proof. by destruct k. Qed.
Lemma accepted_refl k o : accepted k o o.
Proof. by destruct k. Qed.

(** The status of a MongoDBCommunity is a subresource with an endpoint of its own. *)
Definition same_status (k : kind) : obj k → obj k → Prop :=
  match k return obj k → obj k → Prop with
  | KMongoDB => λ o o', V1.mdb_Status o' = V1.mdb_Status o
  | _ => λ _ _, True
  end.

(** What an API call may do.  A read changes nothing and reports what is stored;
    a write stores its object under the object's key and nothing else; a call
    that returns an error has changed nothing. *)
Class KubeLaws (W : Type) `{KubeClient W} : Prop := {
  Get_law : ∀ k n w r w', Get k n w = (r, w') →
    cluster w' = cluster w ∧
    match r with
    | Ret o => stored (cluster w) k n = Some o
    | Err e => IsNotFound e = true → stored (cluster w) k n = None
    | Panic _ => False
    end;
  Create_law : ∀ k o w r w', storable k o → Create k o w = (r, w') →
    match r with
    | Ret _ => stored (cluster w) k (key_of k o) = None ∧
               ∃ o', key_of k o' = key_of k o ∧ accepted k o o' ∧ cluster w' = put (cluster w) k o'
    | Err e => cluster w' = cluster w ∧ (IsAlreadyExists e = true → is_Some (stored (cluster w) k (key_of k o)))
    | Panic _ => False
    end;
  Update_law : ∀ k o w r w', Update k o w = (r, w') →
    match r with
    | Ret o' => key_of k o' = key_of k o ∧ accepted k o o' ∧ cluster w' = put (cluster w) k o'
    | Err _ => cluster w' = cluster w
    | Panic _ => False
    end;
  UpdateStatus_law : ∀ m w r w', UpdateStatus m w = (r, w') →
    match r with
    | Ret _ => ∃ m', cluster w' = put (cluster w) KMongoDB m' ∧ key_of KMongoDB m' = key_of KMongoDB m
                 ∧ V1.mdb_Status m' = V1.mdb_Status m
    | Err _ => cluster w' = cluster w
    | Panic _ => False
    end;
  Delete_law : ∀ k n w r w', Delete k n w = (r, w') →
    match r with
    | Ret _ => cluster w' = remove (cluster w) k n
    | Err _ => cluster w' = cluster w
    | Panic _ => False
    end;
  (** A patch changes the object it is applied to; the status is not part of it. *)
  Patch_law : ∀ k o data w r w', Patch k o data w = (r, w') →
    match r with
    | Ret _ => ∃ o', key_of k o' = key_of k o ∧ cluster w' = put (cluster w) k o'
                 ∧ (stored (cluster w) k (key_of k o) = Some o → same_status k o o')
    | _ => cluster w' = cluster w
    end;
}.

(** The status of the resource can be written. *)
Class StatusWritable (W : Type) `{KubeClient W} : Prop :=
  UpdateStatus_any : ∀ m w, ∃ w', UpdateStatus m w = (Ret (), w').

(** An API server that is reachable: reads find what is stored, and a write the
    server has no reason to reject succeeds. *)
Class KubeHealthy (W : Type) `{KubeClient W} : Prop := {
  Get_stored : ∀ k n w o, stored (cluster w) k n = Some o → ∃ w', Get k n w = (Ret o, w');
  Get_missing : ∀ k n w, stored (cluster w) k n = None → ∃ e w', Get k n w = (Err e, w') ∧ IsNotFound e = true;
  Create_missing : ∀ k o w, storable k o → stored (cluster w) k (key_of k o) = None →
    ∃ w', Create k o w = (Ret (), w');
  Update_any : ∀ k o w, ∃ o' w', Update k o w = (Ret o', w');
  healthy_status :: StatusWritable W;
}.

(** Drawing random bytes does not touch the cluster. *)
Class EntropyFrame (W : Type) `{KubeClient W, Entropy W} : Prop :=
  rand_Read_cluster : ∀ n w r w', rand_Read n w = (r, w') → cluster w' = cluster w.

(** A call that is read only. *)
Definition pure_read {W A} `{KubeClient W} (m : IO W A) : Prop :=
  ∀ w r w', m w = (r, w') → cluster w' = cluster w.
End Objects.

(** ** The methods of the operator's client *)

Section Client.
Context {api : K8sApi} {W : Type} `{!KubeClient W}.

Definition GetConfigMap (n : NamespacedName) : IO W ConfigMap := Get KConfigMap n.
Definition UpdateConfigMap (cm : ConfigMap) : IO W unit := Update KConfigMap cm ;; ret ().
Definition CreateConfigMap (cm : ConfigMap) : IO W unit := Create KConfigMap cm.
Definition DeleteConfigMap (n : NamespacedName) : IO W unit := Delete KConfigMap n.
Definition GetPod (n : NamespacedName) : IO W Pod := Get KPod n.
Definition GetSecret (n : NamespacedName) : IO W Secret := Get KSecret n.
Definition UpdateSecret (s : Secret) : IO W unit := Update KSecret s ;; ret ().
Definition CreateSecret (s : Secret) : IO W unit := Create KSecret s.
Definition DeleteSecret (n : NamespacedName) : IO W unit := Delete KSecret n.
Definition GetService (n : NamespacedName) : IO W Service := Get KService n.
Definition UpdateService (s : Service) : IO W unit := Update KService s ;; ret ().
Definition CreateService (s : Service) : IO W unit := Create KService s.
Definition DeleteService (n : NamespacedName) : IO W unit := Delete KService n.
Definition GetStatefulSet (n : NamespacedName) : IO W StatefulSet := Get KStatefulSet n.
Definition UpdateStatefulSet (s : StatefulSet) : IO W StatefulSet := Update KStatefulSet s.
Definition CreateStatefulSet (s : StatefulSet) : IO W unit := Create KStatefulSet s.
Definition DeleteStatefulSet (n : NamespacedName) : IO W unit := Delete KStatefulSet n.

(** [GetAndUpdate]: the update function runs on the version just read. *)
Definition GetAndUpdate (k : kind) (n : NamespacedName) (updateFunc : obj k → obj k) : IO W unit :=
  o <- Get k n ;; Update k (updateFunc o) ;; ret ().
End Client.

(** ** mocked_client.go *)

Section Mock.
Context {api : K8sApi}.

Definition notFoundError : error := StatusError ReasonNotFound "".
Definition alreadyExistsError : error := StatusError ReasonAlreadyExists "".

(** [makeStatefulSetReady] dereferences the replicas. *)
Definition makeStatefulSetReady (s : StatefulSet) : outcome StatefulSet :=
  match ss_Replicas (sts_Spec s) with
  | Some n => Ret (s <| sts_Status ::= λ st, st <| sst_UpdatedReplicas := n |> <| sst_ReadyReplicas := n |> |>)
  | None => Panic "nil pointer dereference"
  end.

Definition mock_Get (k : kind) (n : NamespacedName) : IO cluster_state (obj k) := λ w,
  match stored w k n with Some o => (Ret o, w) | None => (Err notFoundError, w) end.

Definition mock_prepare (k : kind) : obj k → outcome (obj k) :=
  match k return obj k → outcome (obj k) with
  | KStatefulSet => makeStatefulSetReady
  | _ => λ o, Ret o
  end.

Definition mock_Create (k : kind) (o : obj k) : IO cluster_state unit := λ w,
  match stored w k (key_of k o) with
  | Some _ => (Err alreadyExistsError, w)
  | None =>
      match mock_prepare k o with
      | Ret o' => (Ret (), put w k o')
      | Err e => (Err e, w)
      | Panic s => (Panic s, w)
      end
  end.

Definition mock_Delete (k : kind) (n : NamespacedName) : IO cluster_state unit := λ w,
  (Ret (), remove w k n).

Definition mock_Update (k : kind) (o : obj k) : IO cluster_state (obj k) := λ w, (Ret o, put w k o).

Record patchValue := MkPatchValue { pv_Op : string; pv_Path : string; pv_Value : json }.
#[global] Instance GoJson_patchValue : GoJson patchValue.
Proof.
  refine (struct_GoJson
    (λ r, [member "op" (pv_Op r); member "path" (pv_Path r); member "value" (pv_Value r)])
    (MkPatchValue "" "" JNull)
    (λ get_, x0 ← of_json (get_ "op"); x1 ← of_json (get_ "path"); x2 ← of_json (get_ "value");
      Some (MkPatchValue x0 x1 x2))
    (λ r, json_wf (pv_Op r) && json_wf (pv_Path r) && json_wf (pv_Value r)) _).
  struct_laws.
Defined.

Definition annotations_path : string := "/metadata/annotations".

(** The first ["~1"] of a path element stands for a slash. *)
Fixpoint unescape_slash (s : string) : string :=
  match s with
  | String a s1 =>
      match s1 with
      | String b s2 =>
          if bool_decide (a = chr 126 ∧ b = chr 49) then String (chr 47) s2 else String a (unescape_slash s1)
      | EmptyString => s
      end
  | EmptyString => s
  end.

(** One replace operation on the annotations of an object. *)
Definition apply_patch (annotations : GoMap string) (p : patchValue) : outcome (GoMap string) :=
  if negb (bool_decide (pv_Op p = "replace")) then
    Err (TextError "patch operations different from replace are not yet implemented")
  else if negb (HasPrefix (pv_Path p) annotations_path) then
    Err (TextError "patch that modify something different from annotations are not yet implemented")
  else if bool_decide (pv_Path p = annotations_path) then Ret (Some ∅)
  else
    match drop_prefix (annotations_path +:+ "/") (pv_Path p) with
    | None => Panic "index out of range"
    | Some key =>
        match pv_Value p with
        | JStr val =>
            match annotations with
            | Some m => Ret (Some (<[unescape_slash key := val]> m))
            | None => Panic "assignment to entry in nil map"
            end
        | _ => Err (TextError "patch operations with values that are not strings are not implemented yet")
        end
    end.

Fixpoint apply_patches (annotations : GoMap string) (ps : list patchValue) : outcome (GoMap string) :=
  match ps with
  | [] => Ret annotations
  | p :: ps' => let! a := apply_patch annotations p in apply_patches a ps'
  end.

Definition set_annotations (k : kind) : obj k → GoMap string → obj k :=
  match k return obj k → GoMap string → obj k with
  | KSecret => λ o a, o <| s_ObjectMeta ::= λ m, m <| om_Annotations := a |> |>
  | KConfigMap => λ o a, o <| cm_ObjectMeta ::= λ m, m <| om_Annotations := a |> |>
  | KService => λ o a, o <| svc_ObjectMeta ::= λ m, m <| om_Annotations := a |> |>
  | KStatefulSet => λ o a, o <| sts_ObjectMeta ::= λ m, m <| om_Annotations := a |> |>
  | KPod => λ o a, MkPod ((pod_ObjectMeta o) <| om_Annotations := a |>)
  | KMongoDB => λ o a, o <| V1.mdb_ObjectMeta ::= λ m, m <| om_Annotations := a |> |>
  end.

Definition mock_Patch (k : kind) (o : obj k) (data : string) : IO cluster_state unit := λ w,
  match parse_json data ≫= of_json (A := list patchValue) with
  | None => (Err (TextError "json: cannot unmarshal patch"), w)
  | Some patches =>
      match apply_patches (om_Annotations (meta k o)) patches with
      | Ret a => (Ret (), put w k (set_annotations k o a))
      | Err e => (Err e, w)
      | Panic s => (Panic s, w)
      end
  end.

#[global] Instance mock_client : KubeClient cluster_state := {|
  cluster w := w;
  Get := mock_Get;
  Create := mock_Create;
  Update := mock_Update;
  UpdateStatus m := mock_Update KMongoDB m ;; ret ();
  Delete := mock_Delete;
  Patch := mock_Patch;
|}.

(** The in-memory client satisfies the laws of the interface. *)
#[global] Instance mock_laws : KubeLaws cluster_state.
Proof.
  split.
  - intros k n w r w'. simpl. unfold mock_Get. destruct (stored w k n) eqn:E; intros [= <- <-]; auto.
  - intros k o w r w' Hs. simpl. unfold mock_Create. destruct (stored w k (key_of k o)) eqn:E.
    + intros [= <- <-]. split; [done|]. intros _. simpl. rewrite ?E. by eexists.
    + destruct (decide (k = KStatefulSet)) as [->|Hk].
      * unfold mock_prepare, makeStatefulSetReady. destruct Hs as [n Hn]. rewrite Hn.
        intros [= <- <-]. split; [done|]. eexists. split; [|split; [|reflexivity]]; done.
      * replace (mock_prepare k o) with (Ret o) by (by destruct k). intros [= <- <-].
        split; [done|]. exists o. split; [done|]. split; [apply accepted_refl | done].
  - intros k o w r w'. simpl. unfold mock_Update. intros [= <- <-]. split; [done|]. split; [apply accepted_refl | done].
  - intros m w r w'. simpl. unfold bind, mock_Update, ret. intros [= <- <-]. eauto.
  - intros k n w r w'. simpl. unfold mock_Delete. intros [= <- <-]. done.
  - intros k o data w r w'. simpl. unfold mock_Patch.
    destruct (parse_json data ≫= of_json) as [ps|]; [|by intros [= <- <-]].
    destruct (apply_patches _ ps) as [a| |]; intros [= <- <-]; [|done..].
    exists (set_annotations k o a). by destruct k.
Qed.

#[global] Instance mock_healthy : KubeHealthy cluster_state.
Proof.
  split.
  - intros k n w o E. simpl in *. unfold mock_Get. rewrite E. eauto.
  - intros k n w E. simpl in *. unfold mock_Get. rewrite E. eauto.
  - intros k o w Hs E. simpl in *. unfold mock_Create. rewrite E.
    destruct k; cbn; eauto. unfold makeStatefulSetReady. destruct Hs as [n ->]. eauto.
  - intros k o w. cbn. unfold mock_Update. eauto.
  - intros m w. cbn. unfold bind, mock_Update, ret. eauto.
Qed.

(** ** The in-memory client beside another part of the world

    The client acts on the first half; the second half is the state of whatever
    else a run needs, such as the seed of an entropy source. *)

Definition on_fst {X Y A} (m : IO X A) : IO (X * Y) A := λ w,
  let '(r, x) := m w.1 in (r, (x, w.2)).
Definition on_snd {X Y A} (m : IO Y A) : IO (X * Y) A := λ w,
  let '(r, y) := m w.2 in (r, (w.1, y)).

Lemma on_fst_inv {X Y A} (m : IO X A) (w : X * Y) r w' :
  on_fst m w = (r, w') → m w.1 = (r, w'.1) ∧ w'.2 = w.2.
Proof. unfold on_fst. destruct (m w.1). by intros [= <- <-]. Qed.
Lemma on_fst_run {X Y A} (m : IO X A) (w : X * Y) r x :
  m w.1 = (r, x) → on_fst m w = (r, (x, w.2)).
Proof. unfold on_fst. by intros ->. Qed.

#[global] Instance beside_client {Y} : KubeClient (cluster_state * Y) := {|
  cluster w := w.1;
  Get k n := on_fst (mock_Get k n);
  Create k o := on_fst (mock_Create k o);
  Update k o := on_fst (mock_Update k o);
  UpdateStatus m := on_fst (mock_Update KMongoDB m ;; ret ());
  Delete k n := on_fst (mock_Delete k n);
  Patch k o d := on_fst (mock_Patch k o d);
|}.

#[global] Instance beside_laws {Y} : KubeLaws (cluster_state * Y).
Proof.
  split.
  - intros k n w r w' [E _]%on_fst_inv. exact (Get_law (W := cluster_state) k n _ _ _ E).
  - intros k o w r w' Hs [E _]%on_fst_inv. exact (Create_law (W := cluster_state) k o _ _ _ Hs E).
  - intros k o w r w' [E _]%on_fst_inv. exact (Update_law (W := cluster_state) k o _ _ _ E).
  - intros m w r w' [E _]%on_fst_inv. exact (UpdateStatus_law (W := cluster_state) m _ _ _ E).
  - intros k n w r w' [E _]%on_fst_inv. exact (Delete_law (W := cluster_state) k n _ _ _ E).
  - intros k o d w r w' [E _]%on_fst_inv. exact (Patch_law (W := cluster_state) k o d _ _ _ E).
Qed.

#[global] Instance beside_healthy {Y} : KubeHealthy (cluster_state * Y).
Proof.
  split.
  - intros k n w o E. simpl in E. destruct (@Get_stored _ _ mock_client mock_healthy k n w.1 o E) as [c Hc].
    eexists. by apply on_fst_run.
  - intros k n w E. simpl in E. destruct (@Get_missing _ _ mock_client mock_healthy k n w.1 E) as (e & c & Hc & He).
    eexists _, _. split; [by apply on_fst_run | done].
  - intros k o w Hs E. simpl in E. destruct (@Create_missing _ _ mock_client mock_healthy k o w.1 Hs E) as [c Hc].
    eexists. by apply on_fst_run.
  - intros k o w. eexists _, _. by apply on_fst_run.
  - intros m w. eexists. by apply on_fst_run.
Qed.

#[global] Instance beside_entropy {Y} `{Entropy Y} : Entropy (cluster_state * Y) := λ n, on_snd (rand_Read n).
#[global] Instance beside_entropy_ok {Y} `{EntropyOk Y} : EntropyOk (cluster_state * Y).
Proof.
  split.
  - intros n w s. unfold rand_Read, beside_entropy, on_snd.
    destruct (rand_Read n w.2) as [r y] eqn:E. pose proof (rand_Read_no_panic n w.2 s) as Hs. by rewrite E in Hs.
  - intros n w b w'. unfold rand_Read at 1, beside_entropy, on_snd.
    destruct (rand_Read n w.2) as [r y] eqn:E. intros [= -> <-]. by eapply rand_Read_length.
Qed.
#[global] Instance beside_frame {Y} `{Entropy Y} : EntropyFrame (cluster_state * Y).
Proof.
  intros n w r w'. unfold rand_Read, beside_entropy, on_snd. destruct (rand_Read n w.2).
  by intros [= <- <-].
Qed.
End Mock.
