(* ===== verification/KubeOps.v ===== *)
(** * Helpers over the Kubernetes client

    pkg/kube/secret, pkg/kube/configmap, pkg/kube/service, the operations of
    pkg/kube/statefulset that talk to the client, and pkg/kube/annotations. *)
From S2P Require Import Prelude GoStd K8s Scale Json Codec ScramCreds ACTypes Types Kube.
Local Open Scope Z_scope.

Definition nsname_text (n : NamespacedName) : string := nn_Namespace n +:+ "/" +:+ nn_Name n.
Definition dq : string := String (chr 34) "".

(** ** Package secret *)

Module secret.
Record builder := MkBuilder {
  sb_data : gmap string string;
  sb_labels : gmap string string;
  sb_name : string;
  sb_namespace : string;
  sb_ownerReferences : list OwnerReference;
}.
#[global] Instance eta_builder : Eta builder := λ b,
  MkBuilder (sb_data b) (sb_labels b) (sb_name b) (sb_namespace b) (sb_ownerReferences b).

Definition Builder : builder := MkBuilder ∅ ∅ "" "" [].
Definition SetName (name : string) (b : builder) : builder := b <| sb_name := name |>.
Definition SetNamespace (namespace : string) (b : builder) : builder := b <| sb_namespace := namespace |>.
Definition SetField (key value : string) (b : builder) : builder := b <| sb_data ::= insert key value |>.
Definition SetOwnerReferences (refs : list OwnerReference) (b : builder) : builder :=
  b <| sb_ownerReferences := refs |>.
Definition SetLabels (labels : GoMap string) (b : builder) : builder := b <| sb_labels := gm labels |>.
Definition SetByteData (data : GoMap string) (b : builder) : builder := b <| sb_data := gm data |>.
Definition SetStringData (data : GoMap string) (b : builder) : builder := b <| sb_data := gm data |>.
Definition Build (b : builder) : Secret :=
  MkSecret (emptyMeta <| om_Name := sb_name b |> <| om_Namespace := sb_namespace b |>
              <| om_OwnerReferences := sb_ownerReferences b |> <| om_Labels := Some (sb_labels b) |>)
           (Some (sb_data b)).

Section Ops.
Context {api : K8sApi} {W : Type} `{!KubeClient W}.

Definition ReadByteData (objectKey : NamespacedName) : IO W (GoMap string) :=
  s <- GetSecret objectKey ;; ret (s_Data s).

Definition ReadStringData (key : NamespacedName) : IO W (gmap string string) :=
  s <- GetSecret key ;; ret (gm (s_Data s)).

Definition missing_key_text (key : string) (objectKey : NamespacedName) : string :=
  "key " +:+ dq +:+ key +:+ dq +:+ " not present in the Secret " +:+ nsname_text objectKey.

Definition ReadKey (key : string) (objectKey : NamespacedName) : IO W string :=
  data <- ReadStringData objectKey ;;
  match data !! key with
  | Some val => ret val
  | None => throw (TextError (missing_key_text key objectKey))
  end.

(** [secret.Data[key] = value] panics when the secret has no data. *)
Definition UpdateField (objectKey : NamespacedName) (key value : string) : IO W unit :=
  s <- GetSecret objectKey ;;
  match s_Data s with
  | None => panic "assignment to entry in nil map"
  | Some d => UpdateSecret (s <| s_Data := Some (<[key := value]> d) |>)
  end.

Definition CreateOrUpdate (s : Secret) : IO W unit :=
  r <- attempt (GetSecret (MkNamespacedName (om_Name (s_ObjectMeta s)) (om_Namespace (s_ObjectMeta s)))) ;;
  match r with
  | inr err => if IsNotFound err then CreateSecret s else throw err
  | inl _ => UpdateSecret s
  end.

Definition HasAllKeys (s : Secret) (keys : list string) : bool :=
  forallb (λ key, bool_decide (is_Some (gm (s_Data s) !! key))) keys.

Definition EnsureSecretWithKey (nsName : NamespacedName) (ownerReferences : list OwnerReference)
    (key value : string) : IO W string :=
  r <- attempt (GetSecret nsName) ;;
  match r with
  | inr err0 =>
      if IsNotFound err0 then
        let s := Build (SetOwnerReferences ownerReferences (SetField key value
                   (SetName (nn_Name nsName) (SetNamespace (nn_Namespace nsName) Builder)))) in
        CreateSecret s ;; ret value
      else throw err0
  | inl existingSecret => ret (default "" (gm (s_Data existingSecret) !! key))
  end.
End Ops.
End secret.

(** ** Package configmap *)

Module configmap.
Record builder := MkBuilder {
  cb_data : gmap string string; cb_name : string; cb_namespace : string; cb_ownerReferences : list OwnerReference;
}.
#[global] Instance eta_builder : Eta builder := λ b,
  MkBuilder (cb_data b) (cb_name b) (cb_namespace b) (cb_ownerReferences b).
Definition Builder : builder := MkBuilder ∅ "" "" [].
Definition SetName (name : string) (b : builder) : builder := b <| cb_name := name |>.
Definition SetNamespace (namespace : string) (b : builder) : builder := b <| cb_namespace := namespace |>.
Definition SetField (key value : string) (b : builder) : builder := b <| cb_data ::= insert key value |>.
Definition SetOwnerReferences (refs : list OwnerReference) (b : builder) : builder :=
  b <| cb_ownerReferences := refs |>.
Definition Build (b : builder) : ConfigMap :=
  MkConfigMap (emptyMeta <| om_Name := cb_name b |> <| om_Namespace := cb_namespace b |>
                 <| om_OwnerReferences := cb_ownerReferences b |>) (Some (cb_data b)).

Definition lineSeparator : Ascii.ascii := chr 10.
Definition keyValueSeparator : Ascii.ascii := chr 61.

Fixpoint properties_of (lines : list string) (acc : gmap string string) : outcome (gmap string string) :=
  match lines with
  | [] => Ret acc
  | l :: lines' =>
      match SplitChar keyValueSeparator l with
      | [k; v] => properties_of lines' (<[k := v]> acc)
      | _ => Err (TextError (l +:+ " is not a valid key-value pair"))
      end
  end.

Definition filelikePropertiesToMap (s : string) : outcome (gmap string string) :=
  properties_of (SplitChar lineSeparator (TrimRight lineSeparator s)) ∅.

Section Ops.
Context {api : K8sApi} {W : Type} `{!KubeClient W}.

Definition ReadData (key : NamespacedName) : IO W (GoMap string) :=
  cm <- GetConfigMap key ;; ret (cm_Data cm).

Definition ReadKey (key : string) (objectKey : NamespacedName) : IO W string :=
  data <- ReadData objectKey ;;
  match gm data !! key with
  | Some val => ret val
  | None => throw (TextError ("key " +:+ dq +:+ key +:+ dq +:+ " not present in ConfigMap " +:+ nsname_text objectKey))
  end.

Definition UpdateField (objectKey : NamespacedName) (key value : string) : IO W unit :=
  cm <- GetConfigMap objectKey ;;
  match cm_Data cm with
  | None => panic "assignment to entry in nil map"
  | Some d => UpdateConfigMap (cm <| cm_Data := Some (<[key := value]> d) |>)
  end.

Definition CreateOrUpdate (cm : ConfigMap) : IO W unit :=
  r <- attempt (GetConfigMap (MkNamespacedName (om_Name (cm_ObjectMeta cm)) (om_Namespace (cm_ObjectMeta cm)))) ;;
  match r with
  | inr err => if IsNotFound err then CreateConfigMap cm else throw err
  | inl _ => UpdateConfigMap cm
  end.

Definition ReadFileLikeField (objectKey : NamespacedName) (externalKey internalKey : string) : IO W string :=
  cmData <- ReadData objectKey ;;
  match gm cmData !! externalKey with
  | None => throw (TextError ("key " +:+ externalKey +:+ " is not present in ConfigMap " +:+ nsname_text objectKey))
  | Some mappingString =>
      mapping <- lift (filelikePropertiesToMap mappingString) ;;
      match mapping !! internalKey with
      | None => throw (TextError ("key " +:+ internalKey +:+ " is not present in the " +:+ externalKey
                                  +:+ " field of ConfigMap " +:+ nsname_text objectKey))
      | Some value => ret value
      end
  end.
End Ops.
End configmap.

(** ** Package service *)

Module service.
Record builder := MkBuilder {
  vb_name : string;
  vb_namespace : string;
  vb_clusterIp : string;
  vb_serviceType : string;
  vb_servicePort : ServicePort;
  vb_labels : GoMap string;
  vb_loadBalancerIP : string;
  vb_publishNotReady : bool;
  vb_ownerReferences : list OwnerReference;
  vb_selector : GoMap string;
  vb_annotations : GoMap string;
  vb_externalTrafficPolicy : string;
}.
#[global] Instance eta_builder : Eta builder := λ b,
  MkBuilder (vb_name b) (vb_namespace b) (vb_clusterIp b) (vb_serviceType b) (vb_servicePort b) (vb_labels b)
    (vb_loadBalancerIP b) (vb_publishNotReady b) (vb_ownerReferences b) (vb_selector b) (vb_annotations b)
    (vb_externalTrafficPolicy b).
Definition Builder : builder :=
  MkBuilder "" "" "" "" (MkServicePort "" 0 0) (Some ∅) "" false [] (Some ∅) (Some ∅) "".
Definition SetExternalTrafficPolicy (x : string) (b : builder) : builder := b <| vb_externalTrafficPolicy := x |>.
Definition SetLabels (x : GoMap string) (b : builder) : builder := b <| vb_labels := x |>.
Definition SetAnnotations (x : GoMap string) (b : builder) : builder := b <| vb_annotations := x |>.
Definition SetSelector (x : GoMap string) (b : builder) : builder := b <| vb_selector := x |>.
Definition SetName (x : string) (b : builder) : builder := b <| vb_name := x |>.
Definition SetNamespace (x : string) (b : builder) : builder := b <| vb_namespace := x |>.
Definition SetClusterIP (x : string) (b : builder) : builder := b <| vb_clusterIp := x |>.
Definition SetPort (x : Z) (b : builder) : builder := b <| vb_servicePort ::= λ p, p <| sp_Port := x |> |>.
Definition SetPortName (x : string) (b : builder) : builder := b <| vb_servicePort ::= λ p, p <| sp_Name := x |> |>.
Definition SetNodePort (x : Z) (b : builder) : builder := b <| vb_servicePort ::= λ p, p <| sp_NodePort := x |> |>.
Definition SetServiceType (x : string) (b : builder) : builder := b <| vb_serviceType := x |>.
Definition SetLoadBalancerIP (x : string) (b : builder) : builder := b <| vb_loadBalancerIP := x |>.
Definition SetPublishNotReadyAddresses (x : bool) (b : builder) : builder := b <| vb_publishNotReady := x |>.
Definition SetOwnerReferences (x : list OwnerReference) (b : builder) : builder := b <| vb_ownerReferences := x |>.
Definition Build (b : builder) : Service :=
  MkService (emptyMeta <| om_Name := vb_name b |> <| om_Namespace := vb_namespace b |>
               <| om_Labels := vb_labels b |> <| om_OwnerReferences := vb_ownerReferences b |>
               <| om_Annotations := vb_annotations b |>)
    (vb_publishNotReady b) (vb_externalTrafficPolicy b) (vb_loadBalancerIP b) (vb_serviceType b)
    (vb_clusterIp b) [vb_servicePort b] (vb_selector b).

(** Copying entries into a map; a write to a nil map panics, copying nothing does not. *)
Definition copy_into (dest source : GoMap string) : outcome (GoMap string) :=
  match dest with
  | Some d => Ret (Some (gm source ∪ d))
  | None => if bool_decide (gm source = ∅) then Ret None else Panic "assignment to entry in nil map"
  end.

Definition Merge (dest source : Service) : outcome Service :=
  let! annotations := copy_into (om_Annotations (svc_ObjectMeta dest)) (om_Annotations (svc_ObjectMeta source)) in
  let! labels := copy_into (om_Labels (svc_ObjectMeta dest)) (om_Labels (svc_ObjectMeta source)) in
  let nodePort := match svc_Ports dest with p :: _ => sp_NodePort p | [] => 0 end in
  let ports :=
    match svc_Ports source with
    | p0 :: ps =>
        if (nodePort >? 0) && (sp_NodePort p0 =? 0) then p0 <| sp_NodePort := nodePort |> :: ps else p0 :: ps
    | [] => svc_Ports dest
    end in
  Ret (dest <| svc_ObjectMeta ::= λ m, m <| om_Annotations := annotations |> <| om_Labels := labels |> |>
            <| svc_Ports := ports |> <| svc_Type := svc_Type source |>
            <| svc_LoadBalancerIP := svc_LoadBalancerIP source |>
            <| svc_ExternalTrafficPolicy := svc_ExternalTrafficPolicy source |>).

Section Ops.
Context {api : K8sApi} {W : Type} `{!KubeClient W}.

Definition DeleteServiceIfItExists (serviceName : NamespacedName) : IO W unit :=
  r <- attempt (GetService serviceName) ;;
  match r with
  | inr err =>
      if IsNotFound err then ret ()
      else throw (TextError ("can't get service " +:+ nsname_text serviceName +:+ ": " +:+ err_text err))
  | inl _ => DeleteService serviceName
  end.

Definition CreateOrUpdateService (desiredService : Service) : IO W unit :=
  let m := svc_ObjectMeta desiredService in
  r <- attempt (GetService (MkNamespacedName (om_Name m) (om_Namespace m))) ;;
  match r with
  | inr err => if IsNotFound err then CreateService desiredService else throw err
  | inl existingService =>
      mergedService <- lift (Merge existingService desiredService) ;;
      UpdateService mergedService
  end.
End Ops.
End service.

(** ** Package statefulset: talking to the client *)

Module statefulset.
Section Ops.
Context {api : K8sApi} {W : Type} `{!KubeClient W}.

Definition CreateOrUpdate (sts : StatefulSet) : IO W StatefulSet :=
  let m := sts_ObjectMeta sts in
  r <- attempt (GetStatefulSet (MkNamespacedName (om_Name m) (om_Namespace m))) ;;
  match r with
  | inr err => if IsNotFound err then CreateStatefulSet sts ;; ret emptyStatefulSet else throw err
  | inl _ => UpdateStatefulSet sts
  end.

Definition GetAndUpdate (nsName : NamespacedName) (updateFunc : StatefulSet → StatefulSet) : IO W StatefulSet :=
  sts <- GetStatefulSet nsName ;; UpdateStatefulSet (updateFunc sts).

Definition IsReady (sts : StatefulSet) (expectedReplicas : Z) : bool :=
  let allUpdated := int32 expectedReplicas =? sst_UpdatedReplicas (sts_Status sts) in
  let allReady := int32 expectedReplicas =? sst_ReadyReplicas (sts_Status sts) in
  let atExpectedGeneration := om_Generation (sts_ObjectMeta sts) =? sst_ObservedGeneration (sts_Status sts) in
  allUpdated && allReady && atExpectedGeneration.

Definition ResetUpdateStrategy (mdb : V1.MongoDBCommunity) : IO W unit :=
  if negb (V1.IsChangingVersion mdb) then ret ()
  else
    GetAndUpdate (V1.NamespacedName_ mdb) (λ sts,
      sts <| sts_Spec ::= λ sp, sp <| ss_UpdateStrategy ::= λ u, u <| us_Type := V1.RollingUpdateStatefulSetStrategyType |> |> |>) ;;
    ret ().
End Ops.
End statefulset.

(** ** Package annotations *)

Module annotations.
Section Ops.
Context {api : K8sApi} {W : Type} `{!KubeClient W, MapOrder}.

Definition annotation_patch (kv : string * string) : patchValue :=
  MkPatchValue "replace" (annotations_path +:+ "/" +:+ ReplaceChar (chr 47) "~1" (Some 1%nat) kv.1) (JStr kv.2).

Definition payload (current : GoMap string) (annotations : gmap string string) : list patchValue :=
  (if bool_decide (gm current = ∅) then [MkPatchValue "replace" annotations_path (JObj [])] else [])
  ++ map annotation_patch (range annotations).

(** The object is read into the caller's variable before it is patched. *)
Definition SetAnnotations (nsName : NamespacedName) (annotations : gmap string string) : IO W unit :=
  currentObject <- Get KMongoDB nsName ;;
  let data := print_json (to_json (payload (V1.GetAnnotations currentObject) annotations)) in
  Patch KMongoDB currentObject data.

Definition UpdateLastAppliedMongoDBVersion (mdb : V1.MongoDBCommunity) : IO W unit :=
  SetAnnotations (V1.NamespacedName_ mdb)
    {[ V1.LastAppliedMongoDBVersion := V1.GetMongoDBVersionForAnnotation mdb ]}.
End Ops.
End annotations.
