(* ===== verification/KubeFacts.v ===== *)
(** * What the client helpers guarantee

    Proved against the interface of the client ([KubeLaws]), for every API server
    that satisfies it; the patch of annotations, whose format the interface leaves
    open, against the in-memory client. *)
From S2P Require Import Prelude GoStd K8s Scale Json Codec ScramCreds ACTypes Types Kube KubeOps.
Local Open Scope Z_scope.

Section Laws.
Context {api : K8sApi} {W : Type} `{!KubeClient W, !KubeLaws W}.
Implicit Types w : W.

(** ** One call *)

(** A read under [attempt]: the object or the error, and the cluster as before. *)
Lemma attempt_Get_inv k n w r w' :
  attempt (Get k n) w = (r, w') →
  cluster w' = cluster w ∧
  ((∃ o, r = Ret (inl o) ∧ stored (cluster w) k n = Some o)
   ∨ (∃ e, r = Ret (inr e) ∧ (IsNotFound e = true → stored (cluster w) k n = None))).
Proof.
  unfold attempt. destruct (Get k n w) as [[o|e|s] w1] eqn:E; intros [= <- <-];
    destruct (Get_law k n w _ _ E) as [HC HR]; [| |done]; split; eauto.
Qed.

Lemma Get_Ret k n w o w' : Get k n w = (Ret o, w') → cluster w' = cluster w ∧ stored (cluster w) k n = Some o.
Proof. intros E. exact (Get_law k n w _ _ E). Qed.

Lemma Update_Ret k o w o' w' :
  k ≠ KStatefulSet → Update k o w = (Ret o', w') → cluster w' = put (cluster w) k o.
Proof. intros Hk E. destruct (Update_law k o w _ _ E) as (_ & Ho & ->). by rewrite (accepted_other _ _ _ Hk Ho). Qed.

Lemma Create_Ret k o w u w' :
  k ≠ KStatefulSet → Create k o w = (Ret u, w') →
  stored (cluster w) k (key_of k o) = None ∧ cluster w' = put (cluster w) k o.
Proof.
  intros Hk E. assert (storable k o) as Hs by (by destruct k).
  destruct (Create_law k o w _ _ Hs E) as (Hn & o' & _ & Ho & ->). by rewrite (accepted_other _ _ _ Hk Ho).
Qed.

(** ** Package secret *)

Lemma secret_CreateOrUpdate_Ret s w u w' :
  secret.CreateOrUpdate s w = (Ret u, w') → cluster w' = put (cluster w) KSecret s.
Proof.
  unfold secret.CreateOrUpdate. intros E. apply bind_Ret_inv in E as (r & w1 & E1 & E2).
  apply (attempt_Get_inv KSecret) in E1 as [HC [(o & [= ->] & Ho)|(e & [= ->] & He)]]; rewrite <- HC.
  - apply bind_Ret_inv in E2 as (o' & w2 & E2 & [= _ <-]). by apply (Update_Ret KSecret) in E2.
  - destruct (IsNotFound e); [|done]. by apply (Create_Ret KSecret) in E2 as [_ ?].
Qed.

Lemma secret_CreateOrUpdate_Err s w e w' :
  secret.CreateOrUpdate s w = (Err e, w') → cluster w' = cluster w.
Proof.
  unfold secret.CreateOrUpdate. intros E.
  apply bind_inv in E as [(r & w1 & E1 & E2)|[(e' & E1 & _)|(?&?&?)]]; [| |done].
  - apply (attempt_Get_inv KSecret) in E1 as [HC [(o & [= ->] & Ho)|(e0 & [= ->] & He)]]; rewrite <- HC.
    + apply bind_inv in E2 as [(?&?&?&?)|[(?&E2&_)|(?&?&?)]]; [done| |done].
      exact (Update_law KSecret _ _ _ _ E2).
    + destruct (IsNotFound e0); [|by injection E2 as _ <-].
      exact (proj1 (Create_law KSecret _ _ _ _ I E2)).
  - by apply (attempt_Get_inv KSecret) in E1 as [HC _].
Qed.

Definition secret_value (c : cluster_state) (n : NamespacedName) (key : string) : option string :=
  match stored c KSecret n with Some s => Some (default "" (gm (s_Data s) !! key)) | None => None end.

Lemma EnsureSecretWithKey_Ret n refs key value w v w' :
  secret.EnsureSecretWithKey n refs key value w = (Ret v, w') →
  secret_value (cluster w') n key = Some v ∧
  match stored (cluster w) KSecret n with
  | Some s => v = default "" (gm (s_Data s) !! key) ∧ cluster w' = cluster w
  | None => v = value ∧ ∃ s, cluster w' = put (cluster w) KSecret s ∧ key_of KSecret s = n
              ∧ s_Data s = Some {[ key := value ]} ∧ om_OwnerReferences (s_ObjectMeta s) = refs
  end.
Proof.
  unfold secret.EnsureSecretWithKey. intros E. apply bind_Ret_inv in E as (r & w1 & E1 & E2).
  apply (attempt_Get_inv KSecret) in E1 as [HC [(s & [= ->] & Hs)|(e & [= ->] & He)]].
  - injection E2 as <- <-. rewrite Hs. unfold secret_value. by rewrite HC, Hs.
  - destruct (IsNotFound e); [|done]. rewrite He by done.
    apply bind_Ret_inv in E2 as (u & w2 & E2 & [= <- <-]).
    apply (Create_Ret KSecret) in E2 as [_ E2]; [|done]. rewrite HC in E2.
    unfold secret_value. rewrite E2.
    match goal with |- context [put _ KSecret ?x] => set (s := x) in * end.
    assert (key_of KSecret s = n) as Hk by (by destruct n).
    split; [rewrite <- Hk, stored_put_key; cbn; by rewrite lookup_insert_eq|].
    split; [done|]. exists s. by rewrite Hk.
Qed.

(** Generated secrets are generated once: after [EnsureSecretWithKey] returned a
    value, calling it again with any other candidate value returns the same value
    and changes nothing.  The agents' password and key file are kept this way. *)
Theorem EnsureSecretWithKey_stable n refs key value value' refs' w v w1 v' w2 :
  secret.EnsureSecretWithKey n refs key value w = (Ret v, w1) →
  secret.EnsureSecretWithKey n refs' key value' w1 = (Ret v', w2) →
  v' = v ∧ cluster w2 = cluster w1.
Proof.
  intros H1 H2. apply EnsureSecretWithKey_Ret in H1 as [H1 _], H2 as [_ H2].
  unfold secret_value in H1. destruct (stored (cluster w1) KSecret n); [|done]. by injection H1 as <-.
Qed.

(** ** Package service *)

(** A node port that was allocated is kept when the new service asks for none;
    the cluster IP and the selector of the existing service are kept as well. *)
Lemma Merge_keeps_node_port dest source s p ps q qs :
  service.Merge dest source = Ret s → svc_Ports dest = p :: ps → svc_Ports source = q :: qs →
  0 < sp_NodePort p → sp_NodePort q = 0 →
  (∃ r rs, svc_Ports s = r :: rs ∧ sp_NodePort r = sp_NodePort p ∧ sp_Port r = sp_Port q)
  ∧ svc_ClusterIP s = svc_ClusterIP dest ∧ svc_Selector s = svc_Selector dest.
Proof.
  unfold service.Merge. intros E Hd Hs Hp Hq.
  destruct (service.copy_into (om_Annotations (svc_ObjectMeta dest)) _) as [a| |]; [|done..].
  destruct (service.copy_into (om_Labels (svc_ObjectMeta dest)) _) as [l| |]; [|done..].
  cbn [obind] in E. rewrite Hd, Hs, Hq in E.
  destruct (Z.gtb_spec (sp_NodePort p) 0); [|lia]. injection E as <-. cbn. split; [|done].
  eexists _, _. by split_and!.
Qed.

Lemma IsReady_iff sts n :
  in_int32 n →
  statefulset.IsReady sts n = true ↔
  sst_UpdatedReplicas (sts_Status sts) = n ∧ sst_ReadyReplicas (sts_Status sts) = n
  ∧ sst_ObservedGeneration (sts_Status sts) = om_Generation (sts_ObjectMeta sts).
Proof.
  intros Hn. unfold statefulset.IsReady. rewrite int32_id by done.
  rewrite !andb_true_iff, !Z.eqb_eq. naive_solver.
Qed.
End Laws.

(** A service created without annotations, merged with a service that has some. *)
Lemma Merge_panics_on_nil_annotations :
  let dest := MkService emptyMeta false "" "" "" "" [] None in
  let source := MkService (emptyMeta <| om_Annotations := Some {[ "a" := "b" ]} |>) false "" "" "" "" [] None in
  service.Merge dest source = Panic "assignment to entry in nil map".
Proof. vm_compute. reflexivity. Qed.

(** ** Package annotations, against the in-memory client *)

Section Annotations.
Context {api : K8sApi} `{MapOrder}.

(** A key whose first slash is its only special character survives the escaping. *)
Definition patchable (key : string) : Prop :=
  unescape_slash (ReplaceChar (chr 47) "~1" (Some 1%nat) key) = key.

Lemma drop_prefix_app p s : drop_prefix p (p +:+ s) = Some s.
Proof.
  induction p as [|a p IH]; [by destruct s|]. rewrite string_app_cons. simpl. by rewrite bool_decide_true.
Qed.

Lemma HasPrefix_app p s : HasPrefix (p +:+ s) p = true.
Proof.
  induction p as [|a p IH]; [by destruct s|]. rewrite string_app_cons. simpl.
  by rewrite bool_decide_true, IH.
Qed.

Lemma string_app_nonempty p s : s ≠ "" → p +:+ s ≠ p.
Proof.
  intros Hs E. apply (f_equal String.length) in E. rewrite string_length_app in E.
  destruct s; [done|]. simpl in E. lia.
Qed.

Lemma apply_annotation_patch m k v :
  patchable k → apply_patch (Some m) (annotations.annotation_patch (k, v)) = Ret (Some (<[k := v]> m)).
Proof.
  intros Hk. unfold apply_patch, annotations.annotation_patch. cbn [pv_Op pv_Path pv_Value fst snd].
  rewrite (bool_decide_true ("replace" = "replace")) by done. cbn [negb].
  rewrite HasPrefix_app. cbn [negb].
  rewrite bool_decide_false by (by apply string_app_nonempty).
  rewrite <- string_app_assoc, drop_prefix_app. by rewrite Hk.
Qed.

Lemma apply_annotation_patches m l :
  Forall (λ kv, patchable kv.1) l →
  apply_patches (Some m) (map annotations.annotation_patch l) =
  Ret (Some (foldl (λ acc '(k, v), <[k := v]> acc) m l)).
Proof.
  intros HF. revert m. induction HF as [|[k v] l Hk _ IH]; intros m; [done|].
  cbn [map apply_patches]. rewrite apply_annotation_patch by done. cbn [obind]. by rewrite IH.
Qed.

Lemma apply_payload current anns :
  map_Forall (λ k _, patchable k) anns →
  apply_patches current (annotations.payload current anns) = Ret (Some (anns ∪ gm current)).
Proof.
  intros HF. unfold annotations.payload.
  assert (Forall (λ kv : string * string, patchable kv.1) (range anns)) as Hl.
  { apply Forall_forall. intros [k v] Hkv%elem_of_range. by apply (HF k v). }
  assert (∀ m, foldl (λ acc '(k, v), <[k := v]> acc) m (range anns) = anns ∪ m) as Hfold.
  { intros m. apply map_eq. intros k. rewrite (range_fill_lookup (λ _ v, v)), lookup_union.
    destruct (anns !! k), (m !! k); done. }
  destruct (bool_decide (gm current = ∅)) eqn:Hc.
  - apply bool_decide_eq_true in Hc. cbn [app apply_patches]. rewrite Hc.
    change (apply_patch current _) with (Ret (Some (∅ : gmap string string))).
    cbn [obind]. by rewrite apply_annotation_patches, Hfold.
  - apply bool_decide_eq_false in Hc. destruct current as [m|]; [|done]. cbn [app gm].
    by rewrite apply_annotation_patches, Hfold.
Qed.

Lemma payload_wf current anns : json_wf (annotations.payload current anns) = true.
Proof.
  unfold json_wf. cbn [GoJson_list]. apply forallb_forall. intros p Hp.
  unfold annotations.payload in Hp. apply in_app_iff in Hp as [Hp|Hp].
  - destruct (bool_decide _); [|done]. destruct Hp as [<-|[]]. vm_compute. reflexivity.
  - apply in_map_iff in Hp as [[k v] [<- _]]. cbn. by rewrite bool_decide_true.
Qed.

(** Annotating the resource through the in-memory client: for keys that survive
    the escaping of slashes, the stored resource afterwards has the new annotations
    over the old ones, and is otherwise the stored resource; the patch that was
    sent is parsed back without loss. *)
Theorem SetAnnotations_roundtrip (c : cluster_state) n m anns :
  stored c KMongoDB n = Some m → key_of KMongoDB m = n →
  map_Forall (λ k _, patchable k) anns →
  annotations.SetAnnotations n anns c =
  (Ret (), put c KMongoDB (m <| V1.mdb_ObjectMeta ::= λ om,
             om <| om_Annotations := Some (anns ∪ gm (V1.GetAnnotations m)) |> |>)).
Proof.
  intros Hm Hn HF. unfold annotations.SetAnnotations.
  erewrite bind_Ret by (cbn [Get mock_client]; unfold mock_Get; rewrite Hm; reflexivity).
  cbn [Patch mock_client]. unfold mock_Patch. rewrite parse_print_json. cbn [mbind option_bind].
  rewrite of_to_json by apply payload_wf.
  change (om_Annotations (meta KMongoDB m)) with (V1.GetAnnotations m).
  by rewrite apply_payload.
Qed.
End Annotations.

(** ** Concrete runs *)

Definition empty_cluster {api : K8sApi} : cluster_state := λ _, ∅.
Definition name_ (n : string) : NamespacedName := MkNamespacedName n "ns".

Lemma run_pair {W A} (m : IO W A) w a : (m w).1 = Ret a → m w = (Ret a, (m w).2).
Proof. intros <-. apply surjective_pairing. Qed.

Lemma EnsureSecretWithKey_stable_witness :
  let run := λ v, @secret.EnsureSecretWithKey string_api cluster_state mock_client (name_ "pw") [] "password" v in
  let c := (run "first" empty_cluster).2 in
  (run "second" c).1 = Ret "first" ∧ (run "second" c).2 = c.
Proof.
  intros run c. assert ((run "second" c).1 = Ret "first") as E by (vm_compute; reflexivity).
  split; [exact E|].
  apply (@EnsureSecretWithKey_stable string_api cluster_state mock_client mock_laws
      (name_ "pw") [] "password" "first" "second" [] empty_cluster "first" c "first" (run "second" c).2);
    apply run_pair; [vm_compute; reflexivity | exact E].
Defined.

Definition sample_spec {api : K8sApi} : V1.MongoDBCommunitySpec :=
  V1.MkSpec 3 "ReplicaSet" "4.4.1" 0 "" None
    (V1.MkSecurity (V1.MkAuthentication (Some ["SCRAM"]) None)
       (V1.MkTLS false false (V1.MkLocalObjectReference "") (V1.MkLocalObjectReference "")) [])
    (Some [V1.MkMongoDBUser "user" "admin" (V1.MkSecretKeyReference "user-password" "") (Some []) "user-scram"])
    emptyStatefulSetSpec None.
Definition sample_mdb {api : K8sApi} : V1.MongoDBCommunity :=
  V1.MkMongoDBCommunity "MongoDBCommunity"
    (emptyMeta <| om_Name := "mdb" |> <| om_Namespace := "ns" |>) sample_spec V1.emptyStatus.

Lemma SetAnnotations_roundtrip_witness :
  @annotations.SetAnnotations string_api cluster_state mock_client canonical_order (name_ "mdb")
    {[ V1.LastAppliedMongoDBVersion := "4.4.1" ]} (put empty_cluster KMongoDB sample_mdb)
  = (Ret (), put (put empty_cluster KMongoDB sample_mdb) KMongoDB
       (sample_mdb <| V1.mdb_ObjectMeta ::= λ om,
          om <| om_Annotations := Some ({[ V1.LastAppliedMongoDBVersion := "4.4.1" ]} ∪ ∅) |> |>)).
Proof.
  apply (@SetAnnotations_roundtrip string_api canonical_order (put empty_cluster KMongoDB sample_mdb)
           (name_ "mdb") sample_mdb {[ V1.LastAppliedMongoDBVersion := "4.4.1" ]}); [reflexivity..|].
  apply map_Forall_singleton. vm_compute. reflexivity.
Defined.
