(* ===== verification/ACSecret.v ===== *)
(** * The automation config secret

    pkg/automationconfig/automation_config_secret.go: the config is stored as JSON
    in a secret the agents read. *)
From S2P Require Import Prelude GoStd K8s Scale Json Codec ScramCreds ACTypes ACBuilder ACFacts Types Kube KubeOps KubeFacts.
Local Open Scope Z_scope.

Definition ConfigKey : string := "cluster-config.json".

Section Ops.
Context {api : K8sApi} {W : Type} `{!KubeClient W}.

Definition ReadFromSecret (secretNsName : NamespacedName) : IO W AutomationConfig :=
  r <- attempt (GetSecret secretNsName) ;;
  match r with
  | inr err => if IsNotFound err then ret emptyAutomationConfig else throw err
  | inl acSecret => lift (FromBytes (default "" (gm (s_Data acSecret) !! ConfigKey)))
  end.

Definition createNewAutomationConfigSecret (secretNsName : NamespacedName) (owner : list OwnerReference)
    (desiredAutomation : AutomationConfig) : IO W AutomationConfig :=
  let acBytes := Marshal desiredAutomation in
  let newSecret := secret.Build (secret.SetOwnerReferences owner (secret.SetField ConfigKey acBytes
    (secret.SetNamespace (nn_Namespace secretNsName) (secret.SetName (nn_Name secretNsName) secret.Builder)))) in
  CreateSecret newSecret ;; ret desiredAutomation.

Definition EnsureSecret (secretNsName : NamespacedName) (owner : list OwnerReference)
    (desiredAutomationConfig : AutomationConfig) : IO W AutomationConfig :=
  r <- attempt (GetSecret secretNsName) ;;
  match r with
  | inr err =>
      if IsNotFound err then createNewAutomationConfigSecret secretNsName owner desiredAutomationConfig
      else throw err
  | inl existingSecret =>
      let acBytes := Marshal desiredAutomationConfig in
      match gm (s_Data existingSecret) !! ConfigKey with
      | None =>
          match s_Data existingSecret with
          | None => panic "assignment to entry in nil map"
          | Some d =>
              UpdateSecret (existingSecret <| s_Data := Some (<[ConfigKey := acBytes]> d) |>) ;;
              ret desiredAutomationConfig
          end
      | Some existingAcBytes =>
          existingAutomationConfig <- lift (FromBytes existingAcBytes) ;;
          if AreEqual desiredAutomationConfig existingAutomationConfig then ret existingAutomationConfig
          else
            UpdateSecret (existingSecret <| s_Data ::= λ d, Some (<[ConfigKey := acBytes]> (gm d)) |>) ;;
            ret desiredAutomationConfig
      end
  end.
End Ops.

(** ** What is stored *)

Section Facts.
Context {api : K8sApi} {W : Type} `{!KubeClient W, !KubeLaws W}.

(** The config in the secret of the given name. *)
Definition stored_config (c : cluster_state) (n : NamespacedName) : option AutomationConfig :=
  match stored c KSecret n with
  | Some s => match gm (s_Data s) !! ConfigKey with
              | Some bytes => match FromBytes bytes with Ret ac => Some ac | _ => None end
              | None => None
              end
  | None => None
  end.

Lemma stored_config_put c s ac :
  gm (s_Data s) !! ConfigKey = Some (Marshal ac) → json_wf ac = true →
  stored_config (put c KSecret s) (key_of KSecret s) = Some ac.
Proof.
  intros Hd Hwf. unfold stored_config. rewrite stored_put_key. rewrite Hd. by rewrite Marshal_FromBytes.
Qed.

(** The outcome of [EnsureSecret] on a stored config that equals the desired one,
    and on anything else. *)
Definition ensured (n : NamespacedName) (desired : AutomationConfig) (c : cluster_state)
    (ac : AutomationConfig) (c' : cluster_state) : Prop :=
  stored_config c' n = Some ac ∧
  ((stored_config c n = Some ac ∧ AreEqual desired ac = true ∧ c' = c)
   ∨ (ac = desired ∧ ∃ s, c' = put c KSecret s ∧ key_of KSecret s = n
        ∧ ∀ old, stored_config c n = Some old → AreEqual desired old = false)).

(** The same with the bytes in the secret, for configs that need not survive
    encoding. *)
Definition holds_config (c : cluster_state) (n : NamespacedName) (ac : AutomationConfig) : Prop :=
  ∃ s bytes, stored c KSecret n = Some s ∧ gm (s_Data s) !! ConfigKey = Some bytes
    ∧ (bytes = Marshal ac ∨ FromBytes bytes = Ret ac).
Definition kept (n : NamespacedName) (desired : AutomationConfig) (c : cluster_state) (ac : AutomationConfig) : Prop :=
  stored_config c n = Some ac ∧ AreEqual desired ac = true.
Definition replaced (n : NamespacedName) (desired : AutomationConfig) (c c' : cluster_state) : Prop :=
  ∃ s, c' = put c KSecret s ∧ key_of KSecret s = n ∧ gm (s_Data s) !! ConfigKey = Some (Marshal desired)
    ∧ ∀ old, stored_config c n = Some old → AreEqual desired old = false.

Lemma EnsureSecret_cases (n : NamespacedName) owner desired (w : W) ac w' :
  (∀ s, stored (cluster w) KSecret n = Some s → key_of KSecret s = n) →
  EnsureSecret n owner desired w = (Ret ac, w') →
  (kept n desired (cluster w) ac ∧ cluster w' = cluster w)
  ∨ (ac = desired ∧ replaced n desired (cluster w) (cluster w')).
Proof.
  intros Hkey E. unfold EnsureSecret in E. apply bind_Ret_inv in E as (r & w1 & E1 & E2).
  apply (attempt_Get_inv KSecret) in E1 as [HC [(s & [= ->] & Hs)|(e & [= ->] & He)]].
  - specialize (Hkey s Hs). rewrite <- HC in *.
    destruct (gm (s_Data s) !! ConfigKey) as [bytes|] eqn:Hb.
    + apply bind_Ret_inv in E2 as (old & w2 & E2 & E3). unfold lift in E2. injection E2 as Hold <-.
      assert (stored_config (cluster w1) n = Some old) as Hst.
      { unfold stored_config. by rewrite Hs, Hb, Hold. }
      destruct (AreEqual desired old) eqn:Heq; [injection E3 as <- <-; by left|].
      apply bind_Ret_inv in E3 as (u & w3 & E3 & [= <- <-]). apply bind_Ret_inv in E3 as (o & w4 & E3 & [= _ <-]).
      apply (Update_Ret KSecret) in E3; [|done]. right. split; [done|].
      eexists. split_and!; [exact E3|done|apply lookup_insert_eq|]. intros ? ?. by simplify_eq.
    + destruct (s_Data s) as [d|] eqn:Hd; [|done].
      apply bind_Ret_inv in E2 as (u & w3 & E3 & [= <- <-]). apply bind_Ret_inv in E3 as (o & w4 & E3 & [= _ <-]).
      apply (Update_Ret KSecret) in E3; [|done]. right. split; [done|].
      eexists. split_and!; [exact E3|done|apply lookup_insert_eq|]. unfold stored_config. by rewrite Hs, Hd, Hb.
  - destruct (IsNotFound e); [|done]. rewrite <- HC in *.
    unfold createNewAutomationConfigSecret in E2. apply bind_Ret_inv in E2 as (u & w3 & E3 & [= <- <-]).
    apply (Create_Ret KSecret) in E3 as [_ E3]; [|done]. right. split; [done|].
    eexists. split_and!; [exact E3|by destruct n|apply lookup_insert_eq|]. unfold stored_config. by rewrite He.
Qed.

Lemma EnsureSecret_holds (n : NamespacedName) owner desired (w : W) ac w' :
  (∀ s, stored (cluster w) KSecret n = Some s → key_of KSecret s = n) →
  EnsureSecret n owner desired w = (Ret ac, w') →
  holds_config (cluster w') n ac ∧ (ac = desired ∨ AreEqual desired ac = true).
Proof.
  intros Hkey [[[Hs Ha] ->]|[-> (s & -> & <- & Hd & _)]]%EnsureSecret_cases; [| |done].
  - split; [|by right]. unfold stored_config in Hs. destruct (stored _ _ _) as [s|] eqn:Es; [|done].
    destruct (gm _ !! _) as [bytes|] eqn:Eb; [|done]. exists s, bytes. split_and!; [done..|right].
    destruct (FromBytes bytes); by simplify_eq.
  - split; [|by left]. exists s, (Marshal desired). split_and!; [apply (stored_put_key _ KSecret)|done|by left].
Qed.

Lemma EnsureSecret_ensured (n : NamespacedName) owner desired (w : W) ac w' :
  (∀ s, stored (cluster w) KSecret n = Some s → key_of KSecret s = n) →
  json_wf desired = true →
  EnsureSecret n owner desired w = (Ret ac, w') →
  ensured n desired (cluster w) ac (cluster w').
Proof.
  intros Hkey Hwf [[[Hs Ha] ->]|[-> (s & -> & <- & Hd & Hold)]]%EnsureSecret_cases; [| |done].
  - split; [done|]. by left.
  - split; [by apply stored_config_put|]. right. eauto.
Qed.

Lemma EnsureSecret_stored (n : NamespacedName) owner desired (w : W) ac w' :
  (∀ s, stored (cluster w) KSecret n = Some s → key_of KSecret s = n) →
  json_wf desired = true →
  EnsureSecret n owner desired w = (Ret ac, w') → stored_config (cluster w') n = Some ac.
Proof. intros Hk Hwf E. apply (EnsureSecret_ensured n owner desired w ac w' Hk Hwf E). Qed.

(** After [EnsureSecret] succeeds, the secret holds exactly the config it
    returned.  That config is the one already stored, and nothing was written, when
    its content equals the desired one; otherwise it is the desired config and the
    only write is to that secret. *)
Theorem EnsureSecret_spec (n : NamespacedName) owner desired (w : W) ac w' :
  (∀ s, stored (cluster w) KSecret n = Some s → key_of KSecret s = n) →
  json_wf desired = true →
  EnsureSecret n owner desired w = (Ret ac, w') →
  ensured n desired (cluster w) ac (cluster w').
Proof. apply EnsureSecret_ensured. Qed.

(** [C26] A config that was ensured is the config the next reconciliation reads back. *)
Theorem ReadFromSecret_after_EnsureSecret (n : NamespacedName) owner desired (w : W) ac w1 r w2 :
  (∀ s, stored (cluster w) KSecret n = Some s → key_of KSecret s = n) →
  json_wf desired = true →
  EnsureSecret n owner desired w = (Ret ac, w1) →
  ReadFromSecret n w1 = (Ret r, w2) → r = ac.
Proof.
  intros Hkey Hwf E1 E2. assert (stored_config (cluster w1) n = Some ac) as Hst.
  { by apply (EnsureSecret_stored n owner desired w ac w1). }
  unfold ReadFromSecret in E2. apply bind_Ret_inv in E2 as (x & w3 & E2 & E3).
  apply (attempt_Get_inv KSecret) in E2 as [HC [(s & [= ->] & Hs)|(e & [= ->] & He)]].
  - unfold stored_config in Hst. rewrite Hs in Hst. unfold lift in E3.
    destruct (gm (s_Data s) !! ConfigKey) as [bytes|]; [|done]. cbn [default] in E3.
    injection E3 as E3 _. rewrite E3 in Hst. by injection Hst.
  - destruct (IsNotFound e); [|done]. unfold stored_config in Hst. by rewrite He in Hst.
Qed.
End Facts.

(** ** Concrete runs *)

Definition config_v1 : AutomationConfig := emptyAutomationConfig <| ac_Version := 1 |>.
Definition ensure_run (ac : AutomationConfig) (c : @cluster_state string_api)
    : outcome AutomationConfig * @cluster_state string_api :=
  @EnsureSecret string_api cluster_state mock_client (name_ "mdb-config") [] ac c.

(** The second config has the content of the first: the stored one is returned. *)
Lemma EnsureSecret_spec_witness :
  let c := (ensure_run config_v1 empty_cluster).2 in
  (ensure_run (config_v1 <| ac_Version := 7 |>) c).1 = Ret config_v1
  ∧ ensured (name_ "mdb-config") (config_v1 <| ac_Version := 7 |>) c config_v1
      (ensure_run (config_v1 <| ac_Version := 7 |>) c).2.
Proof.
  intros c. assert ((ensure_run (config_v1 <| ac_Version := 7 |>) c).1 = Ret config_v1) as E
    by (vm_compute; reflexivity).
  split; [exact E|].
  apply (@EnsureSecret_spec string_api cluster_state mock_client mock_laws (name_ "mdb-config") []
           (config_v1 <| ac_Version := 7 |>) c config_v1); [|vm_compute; reflexivity | by apply run_pair].
  intros s Hs. vm_compute in Hs. injection Hs as <-. reflexivity.
Defined.

Lemma ReadFromSecret_after_EnsureSecret_witness :
  let c := (ensure_run config_v1 empty_cluster).2 in
  ∃ r, (@ReadFromSecret string_api cluster_state mock_client (name_ "mdb-config") c).1 = Ret r ∧ r = config_v1.
Proof.
  intros c. eexists.
  assert ((@ReadFromSecret string_api cluster_state mock_client (name_ "mdb-config") c).1 = Ret _) as E
    by (vm_compute; reflexivity).
  split; [exact E|].
  apply (@ReadFromSecret_after_EnsureSecret string_api cluster_state mock_client mock_laws (name_ "mdb-config") []
           config_v1 empty_cluster config_v1 c _
           (@ReadFromSecret string_api cluster_state mock_client (name_ "mdb-config") c).2);
    [done | vm_compute; reflexivity | apply run_pair; vm_compute; reflexivity | by apply run_pair].
Defined.
