(* ===== verification/Scram.v ===== *)
(** * SCRAM authentication

    pkg/authentication/scram: the credentials of every user are computed once from
    the user's password and kept in a secret, and recomputed when the password
    changes; the agents' password and key file are generated once; the result is
    the [auth] section of the automation config. *)
From S2P Require Import Prelude GoStd K8s Merge Scale Json Codec Hashes Base64 ScramCreds ACTypes ACBuilder Types.
From S2P Require Import Kube KubeOps KubeFacts.
Local Open Scope Z_scope.

Definition sha1SaltKey : string := "sha1-salt".
Definition sha256SaltKey : string := "sha256-salt".
Definition sha1ServerKeyKey : string := "sha-1-server-key".
Definition sha256ServerKeyKey : string := "sha-256-server-key".
Definition sha1StoredKeyKey : string := "sha-1-stored-key".
Definition sha256StoredKeyKey : string := "sha-256-stored-key".

(** ** scram_enabler.go *)

Definition add_missing (mechanisms new : list string) : list string :=
  foldl (λ acc authMode, if contains_String acc authMode then acc else acc ++ [authMode]) mechanisms new.

Definition enableAgentAuthentication (auth : Auth) (agentPassword agentKeyFileContents : string)
    (users : list MongoDBUser) (opts : scram.Options) : Auth :=
  auth <| a_Disabled := false |>
       <| a_AuthoritativeSet := scram.opt_AuthoritativeSet opts |>
       <| a_KeyFile := scram.opt_KeyFile opts |>
       <| a_KeyFileWindows := scram.automationAgentWindowsKeyFilePath |>
       <| a_AutoAuthMechanisms ::= λ l, add_missing l (scram.opt_AutoAuthMechanisms opts) |>
       <| a_AutoUser := scram.opt_AgentName opts |>
       <| a_AutoAuthMechanism := scram.opt_AutoAuthMechanism opts |>
       <| a_AutoPwd := agentPassword |>
       <| a_Key := agentKeyFileContents |>
       <| a_Users := users |>.

Definition enableDeploymentMechanisms (auth : Auth) (opts : scram.Options) : Auth :=
  auth <| a_DeploymentAuthMechanisms ::= λ l, add_missing l (scram.opt_AutoAuthMechanisms opts) |>.

(** The texts of the errors that apply, one per missing value; [multierror] joins them. *)
Definition scram_option_errors (opts : scram.Options) : list string :=
  (if bool_decide (scram.opt_AutoAuthMechanisms opts = [])
   then ["at least one AutoAuthMechanism must be specified"] else [])
  ++ (if bool_decide (scram.opt_AutoAuthMechanism opts = "") then ["AutoAuthMechanism must not be empty"] else [])
  ++ (if bool_decide (scram.opt_AgentName opts = "") then ["AgentName must be specified"] else [])
  ++ (if bool_decide (scram.opt_KeyFile opts = "") then ["KeyFile must be specified"] else []).

Definition validateScramOptions (opts : scram.Options) : outcome unit :=
  match scram_option_errors opts with
  | [] => Ret ()
  | errs => Err (TextError (Itoa (Z.of_nat (length errs)) +:+ " errors occurred: " +:+ Join errs ", "))
  end.

Definition configureScramInAutomationConfig (auth : Auth) (agentPassword agentKeyFile : string)
    (users : list MongoDBUser) (opts : scram.Options) : outcome Auth :=
  let! _ := validateScramOptions opts in
  Ret (enableDeploymentMechanisms (enableAgentAuthentication auth agentPassword agentKeyFile users opts) opts).

(** ** scram.go *)

Section Scram.
Context {api : K8sApi} {W : Type} `{!KubeClient W, !Entropy W, !Stringprep}.

Definition computeScramShaCredentials (username password sha1Salt sha256Salt : string)
    : outcome (ScramCreds * ScramCreds) :=
  let! scram1Creds := owrap (prefix_error "could not generate scramSha1Creds: ")
                        (ComputeScramSha1Creds username password sha1Salt) in
  let! scram256Creds := owrap (prefix_error "could not generate scramSha256Creds: ")
                          (ComputeScramSha256Creds password sha256Salt) in
  Ret (scram1Creds, scram256Creds).

Definition generateScramShaCredentials (username password : string) : IO W (ScramCreds * ScramCreds) :=
  salts <- Salts ;;
  let '(sha1Salt, sha256Salt) := salts in
  lift (computeScramShaCredentials username password sha1Salt sha256Salt).

Definition credentials_secret (mdbObjectKey : NamespacedName) (scramCredentialsSecretName : string)
    (sha1Creds sha256Creds : ScramCreds) : Secret :=
  secret.Build
    (secret.SetField sha256ServerKeyKey (sc_ServerKey sha256Creds)
    (secret.SetField sha256StoredKeyKey (sc_StoredKey sha256Creds)
    (secret.SetField sha256SaltKey (sc_Salt sha256Creds)
    (secret.SetField sha1ServerKeyKey (sc_ServerKey sha1Creds)
    (secret.SetField sha1StoredKeyKey (sc_StoredKey sha1Creds)
    (secret.SetField sha1SaltKey (sc_Salt sha1Creds)
    (secret.SetNamespace (nn_Namespace mdbObjectKey)
    (secret.SetName scramCredentialsSecretName secret.Builder)))))))).

Definition createScramCredentialsSecret (mdbObjectKey : NamespacedName) (scramCredentialsSecretName : string)
    (sha1Creds sha256Creds : ScramCreds) : IO W unit :=
  secret.CreateOrUpdate (credentials_secret mdbObjectKey scramCredentialsSecretName sha1Creds sha256Creds).

Definition creds_in (s : Secret) : ScramCreds * ScramCreds :=
  let field key := default "" (gm (s_Data s) !! key) in
  (MkScramCreds DefaultScramSha1Iterations (field sha1SaltKey) (field sha1ServerKeyKey) (field sha1StoredKeyKey),
   MkScramCreds DefaultScramSha256Iterations (field sha256SaltKey) (field sha256ServerKeyKey)
     (field sha256StoredKeyKey)).

(** The server key of SHA-1 is looked for twice, its stored key never. *)
Definition required_keys : list string :=
  [sha1SaltKey; sha1ServerKeyKey; sha1ServerKeyKey; sha256SaltKey; sha256ServerKeyKey; sha256StoredKeyKey].

Definition readExistingCredentials (mdbObjectKey : NamespacedName) (scramCredentialsSecretName : string)
    : IO W (ScramCreds * ScramCreds) :=
  credentialsSecret <-
    wrap (prefix_error ("could not get secret " +:+ nn_Namespace mdbObjectKey +:+ "/" +:+ scramCredentialsSecretName +:+ ": "))
      (GetSecret (MkNamespacedName scramCredentialsSecretName (nn_Namespace mdbObjectKey))) ;;
  if negb (secret.HasAllKeys credentialsSecret required_keys) then
    throw (TextError "credentials secret did not have all of the required keys")
  else ret (creds_in credentialsSecret).

Definition corrupt_base64 : error := TextError "illegal base64 data".

Definition needToGenerateNewCredentials (username scramCredentialsSecretName : string)
    (mdbNamespacedName : NamespacedName) (password : string) : IO W bool :=
  r <- attempt (GetSecret (MkNamespacedName scramCredentialsSecretName (nn_Namespace mdbNamespacedName))) ;;
  match r with
  | inr err => if IsNotFound err then ret true else throw err
  | inl s =>
      let existingSha1Salt := default "" (gm (s_Data s) !! sha1SaltKey) in
      let existingSha256Salt := default "" (gm (s_Data s) !! sha256SaltKey) in
      match StdDecode existingSha1Salt, StdDecode existingSha256Salt with
      | Some decodedSha1Salt, Some decodedSha256Salt =>
          creds <- lift (computeScramShaCredentials username password decodedSha1Salt decodedSha256Salt) ;;
          existing <- readExistingCredentials mdbNamespacedName scramCredentialsSecretName ;;
          let sha1CredsAreDifferent := bool_decide (creds.1 ≠ existing.1) in
          let sha256CredsAreDifferent := bool_decide (creds.2 ≠ existing.2) in
          ret (sha1CredsAreDifferent || sha256CredsAreDifferent)
      | _, _ => throw corrupt_base64
      end
  end.

Definition ensureScramCredentials (user : scram.User) (mdbNamespacedName : NamespacedName)
    : IO W (ScramCreds * ScramCreds) :=
  r <- attempt (secret.ReadKey (scram.PasswordSecretKey user)
                 (MkNamespacedName (scram.PasswordSecretName user) (nn_Namespace mdbNamespacedName))) ;;
  match r with
  | inr err =>
      if IsNotFound err then readExistingCredentials mdbNamespacedName (scram.ScramCredentialsSecretName user)
      else throw (TextError ("could not read secret key: " +:+ err_text err))
  | inl password =>
      shouldGenerateNewCredentials <-
        wrap (prefix_error "could not determine if new credentials need to be generated: ")
          (needToGenerateNewCredentials (scram.Username user) (scram.ScramCredentialsSecretName user)
             mdbNamespacedName password) ;;
      if negb shouldGenerateNewCredentials
      then readExistingCredentials mdbNamespacedName (scram.ScramCredentialsSecretName user)
      else
        creds <- wrap (prefix_error "failed generating scram credentials: ")
                   (generateScramShaCredentials (scram.Username user) password) ;;
        wrap (prefix_error ("faild to create scram credentials secret "
                            +:+ scram.ScramCredentialsSecretName user +:+ ": "))
          (createScramCredentialsSecret mdbNamespacedName (scram.ScramCredentialsSecretName user) creds.1 creds.2) ;;
        ret creds
  end.

Definition convertMongoDBUserToAutomationConfigUser (mdbNsName : NamespacedName) (user : scram.User)
    : IO W MongoDBUser :=
  let roles := map (λ role, MkRole (scram.role_Name role) (scram.role_Database role)) (scram.Roles user) in
  creds <- wrap (prefix_error "could not ensure scram credentials: ") (ensureScramCredentials user mdbNsName) ;;
  ret (MkMongoDBUser (Some []) (match roles with [] => None | _ => Some roles end) (scram.Username user)
         (scram.Database user) (Some []) (Some creds.2) (Some creds.1)).

(** The interface of a resource SCRAM can be enabled for; [Enable] is written against
    it, and the resource of this operator implements it. *)
Class Configurable (T : Type) := {
  GetScramOptions : T → outcome scram.Options;
  GetScramUsers : T → list scram.User;
  GetAgentPasswordSecretNamespacedName : T → NamespacedName;
  GetAgentKeyfileSecretNamespacedName : T → NamespacedName;
  GetNamespacedName : T → NamespacedName;
  GetOwnerReferences : T → list OwnerReference;
}.
#[global] Instance mdb_Configurable : Configurable V1.MongoDBCommunity := {|
  GetScramOptions := V1.GetScramOptions;
  GetScramUsers := V1.GetScramUsers;
  GetAgentPasswordSecretNamespacedName := V1.GetAgentPasswordSecretNamespacedName;
  GetAgentKeyfileSecretNamespacedName := V1.GetAgentKeyfileSecretNamespacedName;
  GetNamespacedName := V1.NamespacedName_;
  GetOwnerReferences := V1.GetOwnerReferences;
|}.

Definition convertMongoDBResourceUsersToAutomationConfigUsers {T} `{!Configurable T} (mdb : T)
    : IO W (list MongoDBUser) :=
  map_each (λ u,
    wrap (λ msg, "failed to convert scram user " +:+ scram.Username u +:+ " to Automation Config user: " +:+ msg)
      (convertMongoDBUserToAutomationConfigUser (GetNamespacedName mdb) u)) (GetScramUsers mdb).

Definition Enable {T} `{!Configurable T} (auth : Auth) (mdb : T) : IO W Auth :=
  generatedPassword <- wrap (prefix_error "could not generate password: ") (RandomFixedLengthStringOfSize 20) ;;
  generatedContents <- wrap (prefix_error "could not generate keyfile contents: ") KeyFileContents ;;
  desiredUsers <- wrap (prefix_error "could not convert users to Automation Config users: ")
                    (convertMongoDBResourceUsersToAutomationConfigUsers mdb) ;;
  agentPassword <- secret.EnsureSecretWithKey (GetAgentPasswordSecretNamespacedName mdb)
                     (GetOwnerReferences mdb) scram.AgentPasswordKey generatedPassword ;;
  agentKeyFile <- secret.EnsureSecretWithKey (GetAgentKeyfileSecretNamespacedName mdb)
                    (GetOwnerReferences mdb) scram.AgentKeyfileKey generatedContents ;;
  opts <- lift (GetScramOptions mdb) ;;
  lift (configureScramInAutomationConfig auth agentPassword agentKeyFile desiredUsers opts).
End Scram.
