(* ===== verification/ScramFacts.v ===== *)
(** * What SCRAM configuration guarantees *)
From S2P Require Import Prelude GoStd K8s Merge Scale Json Codec Hashes Base64 ScramCreds ACTypes ACBuilder Types.
From S2P Require Import Kube KubeOps KubeFacts Scram.
Local Open Scope Z_scope.

Section Facts.
Context {api : K8sApi} {W : Type} `{!KubeClient W, !KubeLaws W, !Entropy W, !EntropyFrame W, !Stringprep}.

(** ** Reading *)

Definition secret_field (c : cluster_state) (n : NamespacedName) (key : string) : option string :=
  match stored c KSecret n with Some s => gm (s_Data s) !! key | None => None end.

Lemma ReadKey_inv key n (w : W) r w' :
  attempt (secret.ReadKey key n) w = (r, w') →
  cluster w' = cluster w ∧
  ((∃ p, r = Ret (inl p) ∧ secret_field (cluster w) n key = Some p)
   ∨ (∃ e, r = Ret (inr e) ∧ (IsNotFound e = true → stored (cluster w) KSecret n = None))).
Proof.
  unfold attempt, secret.ReadKey, secret.ReadStringData, GetSecret, bind, secret_field.
  destruct (Get KSecret n w) as [[s|e|x] w1] eqn:E; destruct (Get_law KSecret n w _ _ E) as [HC HR].
  - unfold ret. rewrite HR. destruct (gm (s_Data s) !! key) as [p|] eqn:Hp.
    + intros [= <- <-]. split; [done|]. left. by exists p.
    + intros [= <- <-]. split; [done|]. right. eexists. split; [reflexivity|]. done.
  - intros [= <- <-]. split; [done|]. right. eauto.
  - done.
Qed.

Definition creds_key (name : string) (n : NamespacedName) : NamespacedName :=
  MkNamespacedName name (nn_Namespace n).

Lemma readExistingCredentials_Ret n name (w : W) creds w' :
  readExistingCredentials n name w = (Ret creds, w') →
  cluster w' = cluster w ∧ ∃ s, stored (cluster w) KSecret (creds_key name n) = Some s ∧ creds = creds_in s.
Proof.
  unfold readExistingCredentials. intros E. apply bind_Ret_inv in E as (s & w1 & E1 & E2).
  apply wrap_Ret_inv in E1. apply (Get_Ret KSecret) in E1 as [HC Hs].
  destruct (negb _); [done|]. injection E2 as <- <-. eauto.
Qed.

(** ** Storing *)

Lemma computeScramShaCredentials_inv username password s1 s2 creds :
  computeScramShaCredentials username password s1 s2 = Ret creds →
  creds = (MkScramCreds 10000 (StdEncode s1) (sc_ServerKey creds.1) (sc_StoredKey creds.1),
           MkScramCreds 15000 (StdEncode s2) (sc_ServerKey creds.2) (sc_StoredKey creds.2)).
Proof.
  unfold computeScramShaCredentials.
  destruct (ComputeScramSha1Creds username password s1) as [c1| |] eqn:E1; [|done..].
  destruct (ComputeScramSha256Creds password s2) as [c2| |] eqn:E2; [|done..].
  intros [= <-]. apply computeScramCredentials_inv in E1 as [H1 H2], E2 as [H3 H4].
  destruct c1, c2. by simplify_eq/=.
Qed.

(** Credentials written to the secret are read back unchanged. *)
Lemma creds_in_secret username password s1 s2 creds n name :
  computeScramShaCredentials username password s1 s2 = Ret creds →
  creds_in (credentials_secret n name creds.1 creds.2) = creds
  ∧ gm (s_Data (credentials_secret n name creds.1 creds.2)) !! sha1SaltKey = Some (StdEncode s1)
  ∧ gm (s_Data (credentials_secret n name creds.1 creds.2)) !! sha256SaltKey = Some (StdEncode s2).
Proof.
  intros ->%computeScramShaCredentials_inv. destruct creds as [c1 c2].
  by split_and!.
Qed.

(** The stored credentials of a user are those of the password. *)
Definition consistent (c : cluster_state) (username name : string) (n : NamespacedName) (password : string)
    (creds : ScramCreds * ScramCreds) : Prop :=
  ∃ s d1 d2, stored c KSecret (creds_key name n) = Some s ∧ creds_in s = creds
    ∧ StdDecode (default "" (gm (s_Data s) !! sha1SaltKey)) = Some d1
    ∧ StdDecode (default "" (gm (s_Data s) !! sha256SaltKey)) = Some d2
    ∧ computeScramShaCredentials username password d1 d2 = Ret creds.

Lemma needToGenerate_Ret username name n password (w : W) b w' :
  needToGenerateNewCredentials username name n password w = (Ret b, w') →
  cluster w' = cluster w
  ∧ (b = false → ∃ creds, consistent (cluster w) username name n password creds)
  ∧ (b = true → ∀ creds, ¬ consistent (cluster w) username name n password creds).
Proof.
  unfold needToGenerateNewCredentials. intros E. apply bind_Ret_inv in E as (r & w1 & E1 & E2).
  apply (attempt_Get_inv KSecret) in E1 as [HC [(s & [= ->] & Hs)|(e & [= ->] & He)]].
  - destruct (StdDecode _) as [d1|] eqn:H1 in E2; [|done].
    destruct (StdDecode _) as [d2|] eqn:H2 in E2; [|done].
    apply bind_Ret_inv in E2 as (creds & w2 & E2 & E3). unfold lift in E2. injection E2 as E2 <-.
    apply bind_Ret_inv in E3 as (existing & w3 & E3 & E4).
    apply readExistingCredentials_Ret in E3 as (HC' & s' & Hs' & ->).
    rewrite HC in HC', Hs'. unfold creds_key in Hs'. rewrite Hs in Hs'. injection Hs' as <-.
    injection E4 as <- <-. split; [done|]. split.
    + rewrite orb_false_iff, !bool_decide_eq_false. intros [Hd1%dec_stable Hd2%dec_stable].
      assert (creds = creds_in s) as -> by (apply injective_projections; done).
      exists (creds_in s), s, d1, d2. by split_and!.
    + intros Hd creds' (s'' & d1' & d2' & Hs'' & Hc' & H1' & H2' & Hcomp).
      unfold creds_key in Hs''. rewrite Hs in Hs''. injection Hs'' as <-.
      rewrite H1 in H1'. rewrite H2 in H2'. simplify_eq. rewrite E2 in Hcomp. injection Hcomp as Hcomp.
      rewrite Hcomp in Hd.
      rewrite orb_true_iff, !bool_decide_eq_true in Hd. by destruct Hd.
  - destruct (IsNotFound e) eqn:Hn; [|done]. injection E2 as <- <-. split; [done|]. split; [done|].
    intros _ creds (s & d1 & d2 & Hs & _). unfold creds_key in Hs. by rewrite He in Hs.
Qed.

Lemma rand_cluster n (w : W) r w' : RandomFixedLengthStringOfSize n w = (r, w') → cluster w' = cluster w.
Proof.
  unfold RandomFixedLengthStringOfSize, generateRandomBytes, bind, attempt, slice_to, ret, panic, throw.
  destruct (rand_Read n w) as [[b|e|s] w1] eqn:E; apply rand_Read_cluster in E.
  - destruct (n <=? _)%nat; by intros [= _ <-].
  - destruct (n <=? _)%nat; by intros [= _ <-].
  - by intros [= _ <-].
Qed.

Lemma salt_cluster h (w : W) x w' : salt h w = (Ret x, w') → cluster w' = cluster w.
Proof.
  unfold salt. intros E. apply bind_Ret_inv in E as (s & w1 & E1 & E2). apply rand_cluster in E1.
  unfold slice_to in E2. destruct (_ <=? _)%nat; [|done]. by injection E2 as _ <-.
Qed.

Lemma generate_Ret username password (w : W) creds w' :
  generateScramShaCredentials username password w = (Ret creds, w') →
  cluster w' = cluster w ∧ ∃ s1 s2, computeScramShaCredentials username password s1 s2 = Ret creds.
Proof.
  unfold generateScramShaCredentials. intros E. apply bind_Ret_inv in E as ([s1 s2] & w1 & E1 & E2).
  unfold lift in E2. injection E2 as E2 <-.
  unfold Salts in E1. apply bind_Ret_inv in E1 as (x & w2 & E1 & E3).
  apply bind_Ret_inv in E3 as (y & w3 & E3 & [= <- <- <-]).
  apply salt_cluster in E1, E3. split; [congruence|eauto].
Qed.

(** ** The credentials of a user *)

Definition password_key (user : scram.User) (n : NamespacedName) : NamespacedName :=
  MkNamespacedName (scram.PasswordSecretName user) (nn_Namespace n).

Definition user_consistent (c : cluster_state) (user : scram.User) (n : NamespacedName) (password : string)
    (creds : ScramCreds * ScramCreds) : Prop :=
  consistent c (scram.Username user) (scram.ScramCredentialsSecretName user) n password creds.

Lemma consistent_unique c username name n password creds creds' s :
  consistent c username name n password creds →
  stored c KSecret (creds_key name n) = Some s → creds' = creds_in s → creds' = creds.
Proof. intros (s' & d1 & d2 & Hs' & <- & _) Hs ->. rewrite Hs in Hs'. by injection Hs' as <-. Qed.

Lemma consistent_written c username password s1 s2 creds n name :
  computeScramShaCredentials username password s1 s2 = Ret creds →
  consistent (put c KSecret (credentials_secret n name creds.1 creds.2)) username name n password creds.
Proof.
  intros Hc. destruct (creds_in_secret _ _ _ _ _ n name Hc) as (H1 & H2 & H3).
  exists (credentials_secret n name creds.1 creds.2), s1, s2.
  split; [apply (stored_put_key c KSecret)|]. split; [done|]. rewrite H2, H3. cbn [from_option].
  unfold id. by rewrite !StdDecode_StdEncode.
Qed.

(** With the password present: the credentials returned are stored, belong to the
    password, and the password secret is not touched. *)
Lemma ensure_with_password user n (w : W) creds w' password :
  secret_field (cluster w) (password_key user n) (scram.PasswordSecretKey user) = Some password →
  ensureScramCredentials user n w = (Ret creds, w') →
  user_consistent (cluster w') user n password creds
  ∧ ((cluster w' = cluster w ∧ user_consistent (cluster w) user n password creds)
     ∨ (cluster w' = put (cluster w) KSecret
          (credentials_secret n (scram.ScramCredentialsSecretName user) creds.1 creds.2)
        ∧ ∀ creds', ¬ user_consistent (cluster w) user n password creds')).
Proof.
  intros Hp E. unfold ensureScramCredentials in E. apply bind_Ret_inv in E as (r & w1 & E1 & E2).
  apply ReadKey_inv in E1 as [HC [(p & [= ->] & Hp')|(e & [= ->] & He)]]; cycle 1.
  { destruct (IsNotFound e) eqn:Hn; [|done]. unfold secret_field, password_key in Hp. by rewrite He in Hp. }
  unfold password_key in Hp. rewrite Hp in Hp'. injection Hp' as <-.
  apply bind_Ret_inv in E2 as (b & w2 & E2 & E3). apply wrap_Ret_inv in E2.
  apply needToGenerate_Ret in E2 as (HC2 & Hf & Ht). rewrite HC in HC2, Hf, Ht. unfold user_consistent.
  destruct b; cbn [negb] in E3.
  - apply bind_Ret_inv in E3 as (cs & w3 & E3 & E4). apply wrap_Ret_inv in E3.
    apply generate_Ret in E3 as (HC3 & s1 & s2 & Hcomp).
    apply bind_Ret_inv in E4 as (u & w4 & E4 & [= <- <-]). apply wrap_Ret_inv in E4.
    apply secret_CreateOrUpdate_Ret in E4. rewrite E4, HC3, HC2.
    split; [by eapply consistent_written | right; auto].
  - destruct (Hf eq_refl) as [cs Hcs]. apply readExistingCredentials_Ret in E3 as (HC3 & s & Hs & Hcr).
    rewrite HC2 in HC3, Hs. rewrite HC3. rewrite <- (consistent_unique _ _ _ _ _ _ _ _ Hcs Hs Hcr) in Hcs. auto.
Qed.

(** Without it, the stored credentials are returned. *)
Lemma ensure_without_password user n (w : W) creds w' :
  secret_field (cluster w) (password_key user n) (scram.PasswordSecretKey user) = None →
  ensureScramCredentials user n w = (Ret creds, w') →
  cluster w' = cluster w
  ∧ ∃ s, stored (cluster w) KSecret (creds_key (scram.ScramCredentialsSecretName user) n) = Some s ∧ creds = creds_in s.
Proof.
  intros Hp E. unfold ensureScramCredentials in E. apply bind_Ret_inv in E as (r & w1 & E1 & E2).
  apply ReadKey_inv in E1 as [HC [(p & [= ->] & Hp')|(e & [= ->] & He)]].
  { unfold password_key in Hp. by rewrite Hp in Hp'. }
  destruct (IsNotFound e); [|done]. rewrite <- HC. by apply readExistingCredentials_Ret.
Qed.

(** ** The credentials over several runs *)

Definition user_creds_key (user : scram.User) (n : NamespacedName) : NamespacedName :=
  creds_key (scram.ScramCredentialsSecretName user) n.

(** Only the secrets of the given keys may differ. *)
Definition agree_off (ks : list NamespacedName) (c c' : cluster_state) : Prop :=
  ∀ k n, k ≠ KSecret ∨ n ∉ ks → stored c' k n = stored c k n.

Lemma agree_off_refl ks c : agree_off ks c c.
Proof. done. Qed.
Lemma agree_off_trans ks1 ks2 c1 c2 c3 :
  agree_off ks1 c1 c2 → agree_off ks2 c2 c3 → agree_off (ks1 ++ ks2) c1 c3.
Proof. intros H1 H2 k n Hn. rewrite H2, H1; [done|..]; rewrite elem_of_app in Hn; tauto. Qed.
Lemma agree_off_put c s n : key_of KSecret s = n → agree_off [n] c (put c KSecret s).
Proof.
  intros Hs k n' Hn. destruct (decide (k = KSecret)) as [->|Hk].
  - apply stored_put_other_key. rewrite Hs. set_solver.
  - by apply stored_put_other_kind.
Qed.

(** The credentials a run over this cluster would return. *)
Definition user_settled (c : cluster_state) (n : NamespacedName) (user : scram.User)
    (creds : ScramCreds * ScramCreds) : Prop :=
  match secret_field c (password_key user n) (scram.PasswordSecretKey user) with
  | Some password => user_consistent c user n password creds
  | None => ∃ s, stored c KSecret (user_creds_key user n) = Some s ∧ creds = creds_in s
  end.

Lemma secret_field_agree ks c c' n key :
  agree_off ks c c' → n ∉ ks → secret_field c' n key = secret_field c n key.
Proof. intros HA Hn. unfold secret_field. rewrite (HA KSecret n); auto. Qed.

Lemma user_settled_agree ks c c' n user creds :
  agree_off ks c c' → password_key user n ∉ ks → user_creds_key user n ∉ ks →
  user_settled c n user creds → user_settled c' n user creds.
Proof.
  intros HA Hp Hc. unfold user_settled. rewrite (secret_field_agree ks c c') by done.
  assert (stored c' KSecret (user_creds_key user n) = stored c KSecret (user_creds_key user n)) as E by (apply HA; auto).
  destruct (secret_field _ _ _); [|by rewrite E].
  intros (x & d1 & d2 & Hs & Hrest). exists x, d1, d2. split; [|done]. exact (eq_trans E Hs).
Qed.

(** A run leaves the user settled. *)
Lemma ensure_settles user n (w : W) creds w' :
  password_key user n ≠ user_creds_key user n →
  ensureScramCredentials user n w = (Ret creds, w') →
  user_settled (cluster w') n user creds ∧ agree_off [user_creds_key user n] (cluster w) (cluster w').
Proof.
  intros Hne E.
  destruct (secret_field (cluster w) (password_key user n) (scram.PasswordSecretKey user)) as [p|] eqn:Hp.
  - destruct (ensure_with_password _ _ _ _ _ _ Hp E) as [Hc Hd].
    assert (agree_off [user_creds_key user n] (cluster w) (cluster w')) as HA.
    { destruct Hd as [[-> _]|[-> _]]; [apply agree_off_refl | by apply agree_off_put]. }
    split; [|done]. unfold user_settled. rewrite (secret_field_agree _ _ _ _ _ HA), Hp by set_solver. done.
  - destruct (ensure_without_password _ _ _ _ _ Hp E) as [HC Hs]. rewrite HC.
    split; [|apply agree_off_refl]. unfold user_settled. by rewrite Hp.
Qed.

(** A run over a settled user changes nothing and returns the same credentials. *)
Lemma ensure_settled user n (w : W) creds creds' w' :
  user_settled (cluster w) n user creds →
  ensureScramCredentials user n w = (Ret creds', w') → creds' = creds ∧ cluster w' = cluster w.
Proof.
  unfold user_settled. intros Hset E.
  destruct (secret_field (cluster w) (password_key user n) (scram.PasswordSecretKey user)) as [p|] eqn:Hp.
  - destruct (ensure_with_password _ _ _ _ _ _ Hp E) as [_ [[HC Hc]|[_ Hn]]]; [|by destruct (Hn creds)].
    split; [|done]. destruct Hc as (s & d1 & d2 & Hs & <- & _). by eapply consistent_unique.
  - destruct (ensure_without_password _ _ _ _ _ Hp E) as [HC (s & Hs & ->)]. split; [|done].
    destruct Hset as (s' & Hs' & ->). unfold user_creds_key in Hs'. rewrite Hs in Hs'. by injection Hs' as ->.
Qed.

(** [C27] The credentials a user gets are those of the user's password: after
    [ensureScramCredentials] the credentials it returned are the ones in the
    user's credentials secret, recomputing them from the current password and the
    stored salts gives them back, and no other object of the cluster was changed. *)
Theorem ensureScramCredentials_sound user n (w : W) creds w' password :
  secret_field (cluster w) (password_key user n) (scram.PasswordSecretKey user) = Some password →
  password_key user n ≠ user_creds_key user n →
  ensureScramCredentials user n w = (Ret creds, w') →
  user_consistent (cluster w') user n password creds
  ∧ agree_off [user_creds_key user n] (cluster w) (cluster w').
Proof.
  intros Hp Hne E. split; [by destruct (ensure_with_password _ _ _ _ _ _ Hp E) | by apply ensure_settles in E as [_ E]].
Qed.

(** Credentials are generated once: a second run, with whatever randomness,
    returns the credentials of the first and writes nothing. *)
Theorem ensureScramCredentials_stable user n (w : W) creds w1 creds' w2 :
  password_key user n ≠ user_creds_key user n →
  ensureScramCredentials user n w = (Ret creds, w1) →
  ensureScramCredentials user n w1 = (Ret creds', w2) →
  creds' = creds ∧ cluster w2 = cluster w1.
Proof. intros Hne [E1 _]%ensure_settles E2; [|done]. by eapply ensure_settled. Qed.

(** ** All the users *)

Definition automation_user (user : scram.User) (creds : ScramCreds * ScramCreds) : MongoDBUser :=
  let roles := map (λ role, MkRole (scram.role_Name role) (scram.role_Database role)) (scram.Roles user) in
  MkMongoDBUser (Some []) (match roles with [] => None | _ => Some roles end)
    (scram.Username user) (scram.Database user) (Some []) (Some creds.2) (Some creds.1).

Definition convert_user (n : NamespacedName) (u : scram.User) : IO W MongoDBUser :=
  wrap (λ msg, "failed to convert scram user " +:+ scram.Username u +:+ " to Automation Config user: " +:+ msg)
    (convertMongoDBUserToAutomationConfigUser n u).

Lemma convert_user_Ret n u (w : W) y w' :
  convert_user n u w = (Ret y, w') →
  ∃ creds, y = automation_user u creds ∧ ensureScramCredentials u n w = (Ret creds, w').
Proof.
  unfold convert_user, convertMongoDBUserToAutomationConfigUser. intros E%wrap_Ret_inv.
  apply bind_Ret_inv in E as (creds & w1 & E1 & [= <- <-]). apply wrap_Ret_inv in E1.
  exists creds. split; [reflexivity | exact E1].
Qed.

(** The secrets of the users do not get in each other's way. *)
Definition users_apart (n : NamespacedName) (users : list scram.User) : Prop :=
  NoDup (map (λ u, user_creds_key u n) users)
  ∧ ∀ u u', u ∈ users → u' ∈ users → password_key u n ≠ user_creds_key u' n.

Lemma users_settle n users : ∀ (w : W) ys w',
  users_apart n users → map_each (convert_user n) users w = (Ret ys, w') →
  Forall2 (λ u y, ∃ creds, y = automation_user u creds ∧ user_settled (cluster w') n u creds) users ys
  ∧ agree_off (map (λ u, user_creds_key u n) users) (cluster w) (cluster w').
Proof.
  induction users as [|u users IH]; intros w ys w' [Hnd Hpw] E; cbn [map_each] in E.
  { injection E as <- <-. split; [constructor | apply agree_off_refl]. }
  apply bind_Ret_inv in E as (y & w1 & E1 & E2). apply bind_Ret_inv in E2 as (ys' & w2 & E2 & [= <- <-]).
  apply convert_user_Ret in E1 as (creds & -> & E1).
  apply ensure_settles in E1 as [Hset HA]; [|apply Hpw; constructor].
  cbn in Hnd. apply NoDup_cons in Hnd as [Hu Hnd].
  apply IH in E2 as [HF HA2]; [|split; [done|]; intros; apply Hpw; by constructor].
  split; [|exact (agree_off_trans [_] _ _ _ _ HA HA2)]. constructor; [|done].
  exists creds. split; [done|]. eapply user_settled_agree; [done| |done|done].
  intros (u' & Hu' & Hin)%list_elem_of_fmap. eapply Hpw, Hu'; by constructor.
Qed.

Lemma users_settled n users : ∀ (w : W) ys ys' w',
  Forall2 (λ u y, ∃ creds, y = automation_user u creds ∧ user_settled (cluster w) n u creds) users ys →
  map_each (convert_user n) users w = (Ret ys', w') → ys' = ys ∧ cluster w' = cluster w.
Proof.
  induction users as [|u users IH]; intros w ys ys' w' HF E; cbn [map_each] in E.
  { injection E as <- <-. by inversion HF. }
  inversion HF as [|? y ? ys0 (creds & -> & Hset) HF']; subst; clear HF.
  apply bind_Ret_inv in E as (y & w1 & E1 & E2). apply bind_Ret_inv in E2 as (ys1 & w2 & E2 & [= <- <-]).
  apply convert_user_Ret in E1 as (creds' & -> & E1).
  destruct (ensure_settled _ _ _ _ _ _ Hset E1) as [-> HC]. rewrite <- HC in HF'.
  destruct (IH _ _ _ _ HF' E2) as [-> HC2]. by rewrite HC2.
Qed.

(** ** The whole authentication section *)

Definition agent_keys (mdb : V1.MongoDBCommunity) : list NamespacedName :=
  [V1.GetAgentPasswordSecretNamespacedName mdb; V1.GetAgentKeyfileSecretNamespacedName mdb].

(** The users' secrets and the agents' secrets are different objects. *)
Definition secrets_apart (mdb : V1.MongoDBCommunity) : Prop :=
  let n := V1.NamespacedName_ mdb in
  users_apart n (V1.GetScramUsers mdb)
  ∧ ∀ u, u ∈ V1.GetScramUsers mdb → (password_key u n ∉ agent_keys mdb) ∧ user_creds_key u n ∉ agent_keys mdb.

(** What [Enable] has established when it returns. *)
Definition enabled (c : cluster_state) (mdb : V1.MongoDBCommunity) (auth auth' : Auth) : Prop :=
  ∃ opts users pw key,
    V1.GetScramOptions mdb = Ret opts
    ∧ Forall2 (λ u y, ∃ creds, y = automation_user u creds ∧ user_settled c (V1.NamespacedName_ mdb) u creds)
        (V1.GetScramUsers mdb) users
    ∧ secret_value c (V1.GetAgentPasswordSecretNamespacedName mdb) scram.AgentPasswordKey = Some pw
    ∧ secret_value c (V1.GetAgentKeyfileSecretNamespacedName mdb) scram.AgentKeyfileKey = Some key
    ∧ configureScramInAutomationConfig auth pw key users opts = Ret auth'.

Lemma EnsureSecretWithKey_agree n refs key value (w : W) v w' :
  secret.EnsureSecretWithKey n refs key value w = (Ret v, w') →
  secret_value (cluster w') n key = Some v ∧ agree_off [n] (cluster w) (cluster w').
Proof.
  intros [Hv Hs]%EnsureSecretWithKey_Ret. split; [done|].
  destruct (stored (cluster w) KSecret n); [destruct Hs as [_ ->]; apply agree_off_refl|].
  destruct Hs as (_ & sec & -> & Hk & _). by apply agree_off_put.
Qed.

Lemma secret_value_agree ks c c' n key :
  agree_off ks c c' → n ∉ ks → secret_value c' n key = secret_value c n key.
Proof. intros HA Hn. unfold secret_value. rewrite (HA KSecret n); auto. Qed.

Lemma EnsureSecretWithKey_settled n refs key value (w : W) v v' w' :
  secret_value (cluster w) n key = Some v →
  secret.EnsureSecretWithKey n refs key value w = (Ret v', w') → v' = v ∧ cluster w' = cluster w.
Proof.
  intros Hv [_ Hs]%EnsureSecretWithKey_Ret. unfold secret_value in Hv.
  destruct (stored (cluster w) KSecret n); [|done]. by injection Hv as <-.
Qed.

(** The run in four parts: generation, users, the two agent secrets, the section. *)
Lemma Enable_Ret auth mdb (w : W) auth' w' :
  Enable auth mdb w = (Ret auth', w') →
  ∃ w0 users w1 gpw pw w2 gkey key opts,
    cluster w0 = cluster w
    ∧ map_each (convert_user (V1.NamespacedName_ mdb)) (V1.GetScramUsers mdb) w0 = (Ret users, w1)
    ∧ secret.EnsureSecretWithKey (V1.GetAgentPasswordSecretNamespacedName mdb) (V1.GetOwnerReferences mdb)
        scram.AgentPasswordKey gpw w1 = (Ret pw, w2)
    ∧ secret.EnsureSecretWithKey (V1.GetAgentKeyfileSecretNamespacedName mdb) (V1.GetOwnerReferences mdb)
        scram.AgentKeyfileKey gkey w2 = (Ret key, w')
    ∧ V1.GetScramOptions mdb = Ret opts
    ∧ configureScramInAutomationConfig auth pw key users opts = Ret auth'.
Proof.
  unfold Enable. intros E.
  apply bind_Ret_inv in E as (gpw & w1 & E1%wrap_Ret_inv%rand_cluster & E).
  apply bind_Ret_inv in E as (gkey & w2 & E2%wrap_Ret_inv & E).
  apply bind_Ret_inv in E2 as (b & w3 & E2%rand_Read_cluster & [= _ <-]).
  apply bind_Ret_inv in E as (users & w4 & E3%wrap_Ret_inv & E).
  apply bind_Ret_inv in E as (pw & w5 & E4 & E). apply bind_Ret_inv in E as (key & w6 & E5 & E).
  apply bind_Ret_inv in E as (opts & w7 & [= E6 <-] & [= E7 <-]).
  exists w3, users, w4, gpw, pw, w5, gkey, key, opts. split; [congruence | by split_and!].
Qed.

Lemma agent_keys_differ mdb :
  V1.GetAgentPasswordSecretNamespacedName mdb ≠ V1.GetAgentKeyfileSecretNamespacedName mdb.
Proof. intros [= E]. by apply (inj (String.append _)) in E. Qed.

Lemma Enable_enabled auth mdb (w : W) auth' w' :
  secrets_apart mdb → Enable auth mdb w = (Ret auth', w') →
  enabled (cluster w') mdb auth auth'
  ∧ agree_off (map (λ u, user_creds_key u (V1.NamespacedName_ mdb)) (V1.GetScramUsers mdb) ++ agent_keys mdb)
      (cluster w) (cluster w').
Proof.
  intros [Hap Hag] (w0 & users & w1 & gpw & pw & w2 & gkey & key & opts & HC & E1 & E2 & E3 & E4 & E5)%Enable_Ret.
  apply users_settle in E1 as [HF HA1]; [|done]. rewrite HC in HA1.
  apply EnsureSecretWithKey_agree in E2 as [Hpw HA2], E3 as [Hkey HA3].
  pose proof (agree_off_trans _ _ _ _ _ HA2 HA3) as HA23.
  split; [|exact (agree_off_trans _ _ _ _ _ HA1 HA23)].
  exists opts, users, pw, key. split; [done|]. split_and!; [|by rewrite (secret_value_agree _ _ _ _ _ HA3)
    by (rewrite list_elem_of_singleton; apply agent_keys_differ)|done|done].
  apply Forall2_same_length_lookup_2; [by eapply Forall2_length|].
  intros i u y Hu Hy. destruct (Forall2_lookup_lr _ _ _ _ _ _ HF Hu Hy) as (creds & -> & Hset).
  destruct (Hag u) as [H1 H2]; [by eapply list_elem_of_lookup_2|].
  exists creds. split; [done|]. by eapply user_settled_agree.
Qed.

(** What [Enable] established is what it returns from then on. *)
Lemma Enable_settled auth mdb (w : W) auth1 auth2 w2 :
  enabled (cluster w) mdb auth auth1 → Enable auth mdb w = (Ret auth2, w2) →
  auth2 = auth1 ∧ cluster w2 = cluster w.
Proof.
  intros (opts & users & pw & key & Ho & HF & Hpw & Hkey & Hc) E2.
  apply Enable_Ret in E2 as (w0 & users' & w3 & gpw & pw' & w4 & gkey & key' & opts' & HC & E1 & E2 & E3 & E4 & E5).
  rewrite <- HC in HF, Hpw, Hkey. destruct (users_settled _ _ _ _ _ _ HF E1) as [-> HC1].
  rewrite <- HC1 in Hpw, Hkey. destruct (EnsureSecretWithKey_settled _ _ _ _ _ _ _ _ Hpw E2) as [-> HC2].
  rewrite <- HC2 in Hkey. destruct (EnsureSecretWithKey_settled _ _ _ _ _ _ _ _ Hkey E3) as [-> HC3].
  rewrite Ho in E4. injection E4 as <-. rewrite Hc in E5. injection E5 as <-. split; congruence.
Qed.

(** Once SCRAM is enabled it stays as it is: running [Enable] again on the same
    resource, with fresh randomness, returns the same [auth] section - the same
    credentials for every user, the same agent password and key file - and writes
    nothing to the cluster, provided the secrets of the users and of the agents
    are different objects. *)
Theorem Enable_stable auth mdb (w : W) auth1 w1 auth2 w2 :
  secrets_apart mdb →
  Enable auth mdb w = (Ret auth1, w1) → Enable auth mdb w1 = (Ret auth2, w2) →
  auth2 = auth1 ∧ cluster w2 = cluster w1.
Proof. intros Hap [He _]%Enable_enabled E2; [|done]. by eapply Enable_settled. Qed.
End Facts.

(** ** First runs succeed *)

Section Total.
Context {api : K8sApi} {W : Type} `{!KubeClient W, !KubeLaws W, !KubeHealthy W, !Entropy W, !EntropyOk W,
  !EntropyFrame W, !Stringprep}.
Hypothesis rand_total : ∀ n (w : W), ∃ b w', rand_Read n w = (Ret b, w').

Lemma generateScramShaCredentials_ok username password p1 p2 (w : W) :
  SASLprep (md5Hex (username +:+ ":mongo:" +:+ password)) = Ret p1 → SASLprep password = Ret p2 →
  ∃ creds w', generateScramShaCredentials username password w = (Ret creds, w').
Proof.
  intros H1 H2. destruct (Salts_ok rand_total w) as (s1 & s2 & w1 & ES).
  unfold generateScramShaCredentials. rewrite (bind_Ret _ _ _ _ _ ES).
  apply Salts_length in ES as [L1 L2]. unfold lift, computeScramShaCredentials, ComputeScramSha1Creds, ComputeScramSha256Creds.
  rewrite (computeScramCredentials_eq sha1_New DefaultScramSha1Iterations s1 _ p1 H1) by (by rewrite L1).
  rewrite (computeScramCredentials_eq sha256_New DefaultScramSha256Iterations s2 _ p2 H2) by (by rewrite L2).
  eexists _, _. reflexivity.
Qed.

Lemma CreateOrUpdate_ok sec (w : W) : ∃ w', secret.CreateOrUpdate sec w = (Ret (), w').
Proof.
  unfold secret.CreateOrUpdate.
  destruct (stored (cluster w) KSecret (key_of KSecret sec)) as [o|] eqn:Ho.
  - destruct (Get_stored KSecret _ w _ Ho) as [w1 E1]. apply attempt_Ret in E1.
    rewrite (bind_Ret _ _ _ _ _ E1). destruct (Update_any KSecret sec w1) as (o' & w2 & E2).
    unfold UpdateSecret. rewrite (bind_Ret _ _ _ _ _ E2). by eexists.
  - destruct (Get_missing KSecret _ w Ho) as (e & w1 & E1 & He). destruct (Get_law _ _ _ _ _ E1) as [HC _].
    apply attempt_Err in E1. rewrite (bind_Ret _ _ _ _ _ E1), He. rewrite <- HC in Ho.
    exact (Create_missing KSecret sec w1 I Ho).
Qed.

Lemma ensure_first_run user n (w : W) password p1 p2 :
  secret_field (cluster w) (password_key user n) (scram.PasswordSecretKey user) = Some password →
  stored (cluster w) KSecret (user_creds_key user n) = None →
  SASLprep (md5Hex (scram.Username user +:+ ":mongo:" +:+ password)) = Ret p1 → SASLprep password = Ret p2 →
  ∃ creds w', ensureScramCredentials user n w = (Ret creds, w')
    ∧ user_consistent (cluster w') user n password creds.
Proof.
  intros Hp Hn H1 H2.
  assert (∃ creds w', ensureScramCredentials user n w = (Ret creds, w')) as (creds & w' & E).
  { unfold secret_field in Hp. destruct (stored (cluster w) KSecret (password_key user n)) as [sec|] eqn:Hs; [|done].
    destruct (Get_stored KSecret _ w _ Hs) as [w1 E1]. destruct (Get_law _ _ _ _ _ E1) as [HC1 _].
    assert (secret.ReadKey (scram.PasswordSecretKey user) (password_key user n) w = (Ret password, w1)) as ER.
    { unfold secret.ReadKey, secret.ReadStringData, GetSecret. unfold bind. rewrite E1. simpl. by rewrite Hp. }
    unfold ensureScramCredentials. rewrite (bind_Ret _ _ _ _ _ (attempt_Ret _ _ _ _ ER)).
    rewrite <- HC1 in Hn. destruct (Get_missing KSecret _ w1 Hn) as (e & w2 & E2 & He).
    assert (needToGenerateNewCredentials (scram.Username user) (scram.ScramCredentialsSecretName user) n password w1
            = (Ret true, w2)) as EN.
    { unfold needToGenerateNewCredentials, GetSecret. rewrite (bind_Ret _ _ _ _ _ (attempt_Err _ _ _ _ E2)), He. done. }
    rewrite (bind_Ret _ _ _ _ _ (wrap_Ret _ _ _ _ _ EN)).
    destruct (generateScramShaCredentials_ok _ _ _ _ w2 H1 H2) as (creds & w3 & EG). cbn [negb].
    rewrite (bind_Ret _ _ _ _ _ (wrap_Ret _ _ _ _ _ EG)).
    destruct (CreateOrUpdate_ok (credentials_secret n (scram.ScramCredentialsSecretName user) creds.1 creds.2) w3) as [w4 EC].
    unfold createScramCredentialsSecret. rewrite (bind_Ret _ _ _ _ _ (wrap_Ret _ _ _ _ _ EC)). by eexists _, _. }
  exists creds, w'. split; [done|]. by destruct (ensure_with_password _ _ _ _ _ _ Hp E).
Qed.
(** The first run for a user succeeds: with a reachable API server and a working
    entropy source, a user whose password is stored and whose password SASLprep
    accepts gets credentials, whatever is in the cluster otherwise. *)
Theorem ensureScramCredentials_first_run user n (w : W) password p1 p2 :
  secret_field (cluster w) (password_key user n) (scram.PasswordSecretKey user) = Some password →
  stored (cluster w) KSecret (user_creds_key user n) = None →
  SASLprep (md5Hex (scram.Username user +:+ ":mongo:" +:+ password)) = Ret p1 → SASLprep password = Ret p2 →
  ∃ creds w', ensureScramCredentials user n w = (Ret creds, w')
    ∧ user_consistent (cluster w') user n password creds.
Proof. apply ensure_first_run. Qed.
End Total.

(** ** Concrete runs

    The in-memory client beside a seeded entropy source. *)

#[global] Existing Instance seed_entropy.
Definition sample_user : scram.User := scram.MkUser "user" "admin" [] "password" "user-password" "user-scram-credentials".
Definition password_secret : Secret :=
  secret.Build (secret.SetField "password" "pw" (secret.SetNamespace "ns" (secret.SetName "user-password" secret.Builder))).
Definition scram_world : @cluster_state string_api * nat := (put empty_cluster KSecret password_secret, 7%nat).


Lemma rand_seeded n (w : @cluster_state string_api * nat) : ∃ b w', rand_Read n w = (Ret b, w').
Proof. eexists _, _. reflexivity. Qed.

Definition run_ensure (w : @cluster_state string_api * nat) :=
  @ensureScramCredentials string_api _ _ _ ascii_prep sample_user (name_ "mdb") w.

Lemma ensureScramCredentials_first_run_witness :
  ∃ creds w', run_ensure scram_world = (Ret creds, w')
    ∧ @user_consistent string_api ascii_prep (@cluster string_api _ _ w') sample_user (name_ "mdb") "pw" creds.
Proof.
  apply (@ensureScramCredentials_first_run string_api _ _ _ _ _ _ _ ascii_prep rand_seeded sample_user (name_ "mdb")
           scram_world "pw" (md5Hex "user:mongo:pw") "pw"); vm_compute; reflexivity.
Defined.

Lemma ensureScramCredentials_sound_witness :
  ∃ creds w', run_ensure scram_world = (Ret creds, w')
    ∧ @user_consistent string_api ascii_prep (@cluster string_api _ _ w') sample_user (name_ "mdb") "pw" creds
    ∧ @agree_off string_api [user_creds_key sample_user (name_ "mdb")] (@cluster string_api _ _ scram_world) (@cluster string_api _ _ w').
Proof.
  destruct (@ensure_first_run string_api _ _ _ _ _ _ _ ascii_prep rand_seeded sample_user (name_ "mdb")
           scram_world "pw" (md5Hex "user:mongo:pw") "pw") as (creds & w' & E & _); [vm_compute; reflexivity..|].
  exists creds, w'. split; [exact E|].
  apply (@ensureScramCredentials_sound string_api _ _ _ _ _ ascii_prep sample_user (name_ "mdb") scram_world creds w' "pw");
    [vm_compute; reflexivity | done | exact E].
Defined.

(** A cluster that kept the credentials after the password was deleted. *)
Definition stored_creds : ScramCreds * ScramCreds :=
  (MkScramCreds 10000 "c2FsdDE=" "server1" "stored1", MkScramCreds 15000 "c2FsdDI=" "server2" "stored2").
Definition creds_world : @cluster_state string_api * nat :=
  (put empty_cluster KSecret (credentials_secret (name_ "mdb") "user-scram-credentials" stored_creds.1 stored_creds.2), 7%nat).

Lemma ensureScramCredentials_stable_witness :
  (run_ensure creds_world).1 = Ret stored_creds
  ∧ stored_creds = stored_creds
  ∧ @cluster string_api _ _ (run_ensure (run_ensure creds_world).2).2
    = @cluster string_api _ _ (run_ensure creds_world).2.
Proof.
  assert ((run_ensure creds_world).1 = Ret stored_creds) as E1 by (vm_compute; reflexivity).
  split; [exact E1|].
  apply (@ensureScramCredentials_stable string_api _ _ _ _ _ ascii_prep sample_user (name_ "mdb")
           creds_world stored_creds (run_ensure creds_world).2 stored_creds (run_ensure (run_ensure creds_world).2).2); [done|apply run_pair..].
  - exact E1.
  - vm_compute. reflexivity.
Defined.

Definition scram_mdb : @V1.MongoDBCommunity string_api :=
  sample_mdb <| V1.mdb_Spec ::= λ sp, sp <| V1.spec_Users :=
    Some [V1.MkMongoDBUser "user" "admin" (V1.MkSecretKeyReference "user-password" "") None "user"] |> |>.
Definition run_Enable (w : @cluster_state string_api * nat) :=
  @Enable string_api _ _ _ ascii_prep _ _ (zero (A := Auth)) scram_mdb w.

Lemma Enable_stable_witness :
  ∃ auth1 auth2, (run_Enable creds_world).1 = Ret auth1 ∧ (run_Enable (run_Enable creds_world).2).1 = Ret auth2
    ∧ auth2 = auth1
    ∧ @cluster string_api _ _ (run_Enable (run_Enable creds_world).2).2
      = @cluster string_api _ _ (run_Enable creds_world).2.
Proof.
  assert (∃ a, (run_Enable creds_world).1 = Ret a) as [auth1 E1] by (eexists; vm_compute; reflexivity).
  assert (∃ a, (run_Enable (run_Enable creds_world).2).1 = Ret a) as [auth2 E2] by (eexists; vm_compute; reflexivity).
  exists auth1, auth2. split; [exact E1|]. split; [exact E2|].
  apply (@Enable_stable string_api _ _ _ _ _ ascii_prep (zero (A := Auth)) scram_mdb creds_world auth1
           (run_Enable creds_world).2); [|by apply run_pair..].
  split; [split|].
  - cbn. apply NoDup_singleton.
  - cbn. intros u u' ->%list_elem_of_singleton ->%list_elem_of_singleton. done.
  - cbn. intros u ->%list_elem_of_singleton. split; by apply (bool_decide_unpack _).
Defined.
