(* ===== verification/Validation.v ===== *)
(** * Validation of the spec

    controllers/validation/validation.go: what a spec must satisfy before the
    operator acts on it, and what may not change between two specs. *)
From S2P Require Import Prelude GoStd K8s Scale Json Codec ScramCreds ACTypes Types Kube KubeOps KubeFacts.
Local Open Scope Z_scope.

Section Validation.
Context {api : K8sApi}.
Implicit Types mdb : V1.MongoDBCommunity.

(** ** validateUsers *)

Definition collision_text (secretName : string) (previousUser user : scram.User) : string :=
  "[secret name: " +:+ dq +:+ secretName +:+ dq +:+ " for user: " +:+ dq +:+ scram.Username previousUser +:+ dq
  +:+ ", db: " +:+ dq +:+ scram.Database previousUser +:+ dq +:+ " and user: " +:+ dq +:+ scram.Username user +:+ dq
  +:+ ", db: " +:+ dq +:+ scram.Database user +:+ dq +:+ "]".

(** The loop: the first user of each secret name, and the collisions found. *)
Definition collect_names (mdb : V1.MongoDBCommunity) (users : list scram.User)
    : gmap string scram.User * list string :=
  foldl (λ '(connectionStringSecretNameMap, nameCollisions) user,
           let secretName := V1.GetConnectionStringSecretName user mdb in
           match connectionStringSecretNameMap !! secretName with
           | Some previousUser =>
               (connectionStringSecretNameMap, nameCollisions ++ [collision_text secretName previousUser user])
           | None => (<[secretName := user]> connectionStringSecretNameMap, nameCollisions)
           end) (∅, []) users.

Definition validateUsers mdb : outcome unit :=
  match (collect_names mdb (V1.GetScramUsers mdb)).2 with
  | [] => Ret ()
  | nameCollisions =>
      Err (TextError ("connection string secret names collision, update at least one of the users so that the resulted secret names (<resource name>-<user>-<db>) are unique: "
        +:+ Join nameCollisions ", "))
  end.

(** ** validateArbiterSpec *)

Definition validateArbiterSpec mdb : outcome unit :=
  let arbiters := V1.spec_Arbiters (V1.mdb_Spec mdb) in
  let members := V1.spec_Members (V1.mdb_Spec mdb) in
  if arbiters <? 0 then Err (TextError "number of arbiters must be greater or equal than 0")
  else if members <=? arbiters then
    Err (TextError ("number of arbiters specified (" +:+ Itoa arbiters
      +:+ ") is greater or equal than the number of members in the replicaset (" +:+ Itoa members
      +:+ "). At least one member must not be an arbiter"))
  else Ret ().

(** ** validateAuthModeSpec

    The message quotes the mechanism, which is empty, instead of the mode. *)

Fixpoint collect_modes (modes : list string) (mapModes : gset string) : outcome (gset string) :=
  match modes with
  | [] => Ret mapModes
  | mode :: rest =>
      let value := V1.ConvertAuthModeToAuthMechanism mode in
      if bool_decide (value = "") then
        Err (TextError ("unexpected value (" +:+ dq +:+ value +:+ dq +:+ ") defined for supported authentication modes"))
      else collect_modes rest ({[ mode ]} ∪ mapModes)
  end.

Definition validateAuthModeSpec mdb : outcome unit :=
  let allModes := els (V1.auth_Modes (V1.sec_Authentication (V1.spec_Security (V1.mdb_Spec mdb)))) in
  let! mapModes := collect_modes allModes ∅ in
  if negb (bool_decide (size mapModes = length allModes))
  then Err (TextError "some authentication modes are declared twice or more")
  else Ret ().

(** ** The entry points *)

Definition validateSpec mdb : outcome unit :=
  let! _ := validateUsers mdb in
  let! _ := validateArbiterSpec mdb in
  let! _ := validateAuthModeSpec mdb in
  Ret ().

Definition ValidateInitalSpec mdb : outcome unit := validateSpec mdb.

Definition ValidateUpdate mdb (oldSpec : V1.MongoDBCommunitySpec) : outcome unit :=
  if V1.tls_Enabled (V1.sec_TLS (V1.spec_Security oldSpec)) && negb (V1.tls_enabled mdb)
  then Err (TextError "TLS can't be set to disabled after it has been enabled")
  else validateSpec mdb.

(** ** What a valid spec is *)

Definition connection_names mdb : list string :=
  map (λ u, V1.GetConnectionStringSecretName u mdb) (V1.GetScramUsers mdb).
Definition auth_modes mdb : list string :=
  els (V1.auth_Modes (V1.sec_Authentication (V1.spec_Security (V1.mdb_Spec mdb)))).
Definition known_modes : list string := ["SCRAM"; "SCRAM-SHA-256"; "SCRAM-SHA-1"].

Definition valid_spec mdb : Prop :=
  NoDup (connection_names mdb)
  ∧ 0 ≤ V1.spec_Arbiters (V1.mdb_Spec mdb) < V1.spec_Members (V1.mdb_Spec mdb)
  ∧ Forall (λ m, m ∈ known_modes) (auth_modes mdb)
  ∧ NoDup (auth_modes mdb).

Lemma collect_names_spec mdb users :
  let r := collect_names mdb users in
  (∀ n, is_Some (r.1 !! n) ↔ n ∈ map (λ u, V1.GetConnectionStringSecretName u mdb) users)
  ∧ (r.2 = [] ↔ NoDup (map (λ u, V1.GetConnectionStringSecretName u mdb) users)).
Proof.
  induction users as [|u users IH] using rev_ind; cbn zeta.
  { split; [intros n; cbn; rewrite lookup_empty; split; [by intros []|set_solver] | split; [constructor|done]]. }
  unfold collect_names. rewrite foldl_snoc. fold (collect_names mdb users).
  destruct (collect_names mdb users) as [m cs]; cbn zeta in IH; cbn in IH. destruct IH as [IH1 IH2].
  set (name := V1.GetConnectionStringSecretName u mdb). rewrite map_app. cbn [map].
  destruct (m !! name) as [p|] eqn:Hm; cbn [fst snd].
  - assert (name ∈ map (λ u, V1.GetConnectionStringSecretName u mdb) users) as Hin by (apply IH1; eauto).
    split; [intros n; rewrite IH1; set_solver|]. split; [by destruct cs|].
    intros (_ & Hd & _)%NoDup_app. destruct (Hd name Hin). fold name. set_solver.
  - assert (name ∉ map (λ u, V1.GetConnectionStringSecretName u mdb) users) as Hin.
    { rewrite <- IH1, Hm. by intros []. }
    split.
    + intros n. rewrite lookup_insert_is_Some, IH1. fold name. set_solver.
    + rewrite IH2, NoDup_app. fold name. split; [|tauto]. intros Hnd. split_and!; [done|set_solver|apply NoDup_singleton].
Qed.

Lemma validateUsers_iff mdb : validateUsers mdb = Ret () ↔ NoDup (connection_names mdb).
Proof.
  destruct (collect_names_spec mdb (V1.GetScramUsers mdb)) as [_ Hc]. unfold validateUsers, connection_names.
  rewrite <- Hc. by destruct ((collect_names mdb (V1.GetScramUsers mdb)).2).
Qed.

Lemma known_mode_iff m : V1.ConvertAuthModeToAuthMechanism m ≠ "" ↔ m ∈ known_modes.
Proof.
  unfold V1.ConvertAuthModeToAuthMechanism, known_modes.
  case_bool_decide; [set_solver|]. case_bool_decide; [set_solver|]. set_solver.
Qed.

Lemma collect_modes_spec modes : ∀ acc,
  match collect_modes modes acc with
  | Ret r => Forall (λ m, m ∈ known_modes) modes ∧ r = list_to_set modes ∪ acc
  | Err _ => ¬ Forall (λ m, m ∈ known_modes) modes
  | Panic _ => False
  end.
Proof.
  induction modes as [|m modes IH]; intros acc; cbn [collect_modes].
  { split; [constructor | set_solver]. }
  case_bool_decide as Hm.
  - rewrite Forall_cons, <- known_mode_iff. tauto.
  - apply known_mode_iff in Hm. specialize (IH ({[ m ]} ∪ acc)).
    destruct (collect_modes modes _); [|rewrite Forall_cons; tauto|done].
    destruct IH as [IH ->]. split; [by constructor | set_solver].
Qed.

Lemma size_list_to_set_NoDup (l : list string) : size (list_to_set l : gset string) = length l ↔ NoDup l.
Proof.
  split; [|apply size_list_to_set]. induction l as [|x l IH]; [constructor|]. cbn [list_to_set length].
  intros Hs. assert (size (list_to_set l : gset string) ≤ length l)%nat as Hle.
  { clear. induction l as [|x l IH]; [done|]. cbn [list_to_set length].
    rewrite size_union_alt, size_singleton. pose proof (subseteq_size (list_to_set l ∖ {[x]}) (list_to_set l : gset string)).
    assert (size (list_to_set l ∖ {[x]} : gset string) ≤ size (list_to_set l : gset string))%nat by (apply subseteq_size; set_solver).
    lia. }
  destruct (decide (x ∈ l)) as [Hx|Hx].
  - replace ({[x]} ∪ list_to_set l : gset string) with (list_to_set l : gset string) in Hs by set_solver. lia.
  - rewrite size_union, size_singleton in Hs by set_solver. constructor; [done|]. apply IH. lia.
Qed.

Lemma validateAuthModeSpec_iff mdb :
  validateAuthModeSpec mdb = Ret () ↔ Forall (λ m, m ∈ known_modes) (auth_modes mdb) ∧ NoDup (auth_modes mdb).
Proof.
  unfold validateAuthModeSpec. fold (auth_modes mdb). pose proof (collect_modes_spec (auth_modes mdb) ∅) as Hc.
  destruct (collect_modes (auth_modes mdb) ∅) as [r|e|s]; cbn [obind]; [|naive_solver|done].
  destruct Hc as [Hf ->]. rewrite union_empty_r_L.
  case_bool_decide as Hs; rewrite size_list_to_set_NoDup in Hs; cbn; naive_solver.
Qed.

Lemma validateSpec_iff mdb : validateSpec mdb = Ret () ↔ valid_spec mdb.
Proof.
  unfold validateSpec, valid_spec. rewrite <- validateUsers_iff, <- validateAuthModeSpec_iff.
  destruct (validateUsers mdb) as [[]| |]; cbn [obind]; [|naive_solver..].
  unfold validateArbiterSpec. destruct (Z.ltb_spec (V1.spec_Arbiters (V1.mdb_Spec mdb)) 0); cbn [obind]; [naive_solver lia|].
  destruct (Z.leb_spec (V1.spec_Members (V1.mdb_Spec mdb)) (V1.spec_Arbiters (V1.mdb_Spec mdb))); cbn [obind]; [naive_solver lia|].
  destruct (validateAuthModeSpec mdb) as [[]| |]; cbn [obind]; naive_solver lia.
Qed.

(** Validation never panics. *)
Lemma validateSpec_no_panic mdb site : validateSpec mdb ≠ Panic site.
Proof.
  unfold validateSpec, validateUsers. destruct ((collect_names mdb _).2); cbn [obind]; [|done].
  unfold validateArbiterSpec. destruct (_ <? 0); [done|]. destruct (_ <=? _); [done|]. cbn [obind].
  unfold validateAuthModeSpec. pose proof (collect_modes_spec (auth_modes mdb) ∅) as Hc. unfold auth_modes in Hc.
  destruct (collect_modes _ ∅); cbn [obind]; [|done..]. by destruct (negb _).
Qed.

(** [C29] Validation accepts exactly the valid specs: the connection string secrets
    of the users have distinct names, there are fewer arbiters than members and
    not a negative number of them, and the authentication modes are known and
    listed once.  An update is accepted exactly if it is valid and does not turn
    TLS off after the last successful configuration had it on.  Every other spec
    is an error and never a panic. *)
Theorem validation_spec mdb (old : V1.MongoDBCommunitySpec) :
  (ValidateInitalSpec mdb = Ret () ↔ valid_spec mdb)
  ∧ (ValidateUpdate mdb old = Ret () ↔
     valid_spec mdb ∧ (V1.tls_Enabled (V1.sec_TLS (V1.spec_Security old)) = true → V1.tls_enabled mdb = true))
  ∧ (∀ site, ValidateInitalSpec mdb ≠ Panic site ∧ ValidateUpdate mdb old ≠ Panic site).
Proof.
  split; [apply validateSpec_iff|]. unfold ValidateUpdate, ValidateInitalSpec.
  split; [|intros site; split; [apply validateSpec_no_panic|destruct (_ && _); [done|apply validateSpec_no_panic]]].
  rewrite <- validateSpec_iff. destruct (V1.tls_Enabled _), (V1.tls_enabled mdb); cbn; naive_solver.
Qed.
End Validation.

(** A spec without any authentication mode is accepted; deriving the SCRAM options
    from it indexes the empty list. *)
Lemma empty_modes_accepted :
  let mdb := (sample_mdb (api := string_api)) <| V1.mdb_Spec ::= λ sp, sp <| V1.spec_Security :=
    V1.MkSecurity (V1.MkAuthentication None None)
      (V1.MkTLS false false (V1.MkLocalObjectReference "") (V1.MkLocalObjectReference "")) [] |> |> in
  ValidateInitalSpec mdb = Ret () ∧ V1.GetScramOptions mdb = Panic "index out of range".
Proof. split; vm_compute; reflexivity. Qed.

(** Two names of the same mechanism are accepted. *)
Lemma same_mechanism_twice :
  let mdb := (sample_mdb (api := string_api)) <| V1.mdb_Spec ::= λ sp, sp <| V1.spec_Security :=
    V1.MkSecurity (V1.MkAuthentication (Some ["SCRAM"; "SCRAM-SHA-256"]) None)
      (V1.MkTLS false false (V1.MkLocalObjectReference "") (V1.MkLocalObjectReference "")) [] |> |> in
  ValidateInitalSpec mdb = Ret () ∧ map V1.ConvertAuthModeToAuthMechanism (auth_modes mdb) = [scram.Sha256; scram.Sha256].
Proof. split; vm_compute; reflexivity. Qed.
