(* ===== verification/Status.v ===== *)
(** * The status of the resource

    controllers/mongodb_status_options.go, pkg/util/status and pkg/util/apierrors:
    a reconciliation ends by applying a list of options to the status, writing it,
    and deriving from the same options what the controller runtime does next. *)
From S2P Require Import Prelude GoStd K8s Scale Json Codec ScramCreds ACTypes Types Kube.
Local Open Scope Z_scope.

(** ** Package apierrors *)

Definition objectModifiedText : string :=
  "the object has been modified; please apply your changes to the latest version and try again".
Definition IsTransientMessage (msg : string) : bool := Contains (ToLower msg) objectModifiedText.
Definition IsTransientError (err : error) : bool := IsTransientMessage (err_text err).

Section Status.
Context {api : K8sApi}.

(** ** Package status *)

(** The interface [Option]: what it does to the resource and what it asks for. *)
Record Option := MkOption {
  ApplyOption : V1.MongoDBCommunity → V1.MongoDBCommunity;
  GetResult : Result * option error;
}.

Definition first_error (options : list Option) : option (Result * error) :=
  foldr (λ opt rest, match GetResult opt with (res, Some err) => Some (res, err) | (_, None) => rest end) None options.
Definition first_requeue (options : list Option) : option Result :=
  foldr (λ opt rest, let '(res, _) := GetResult opt in
           if Requeue res || (RequeueAfter res >? 0) then Some res else rest) None options.

Definition determineReconciliationResult (options : list Option) : Result * option error :=
  match first_error options with
  | Some (res, err) => (res, Some err)
  | None => (default (MkResult false 0) (first_requeue options), None)
  end.

Definition apply_options (options : list Option) (mdb : V1.MongoDBCommunity) : V1.MongoDBCommunity :=
  foldl (λ m opt, ApplyOption opt m) mdb options.

(** The caller's resource is changed in place, so it is returned as well. *)
Definition status_Update {W} `{!KubeClient W} (mdb : V1.MongoDBCommunity) (options : list Option)
    : IO W (V1.MongoDBCommunity * Result) :=
  let mdb := apply_options options mdb in
  UpdateStatus mdb ;;
  match determineReconciliationResult options with
  | (res, None) => ret (mdb, res)
  | (_, Some err) => throw err
  end.

(** ** The options of the controller *)

Inductive severity := Info | Debug | Warn | Error | None_.
#[global] Instance severity_eq_dec : EqDecision severity.
Proof. solve_decision. Defined.

Definition set_status (f : V1.MongoDBCommunityStatus → V1.MongoDBCommunityStatus) (mdb : V1.MongoDBCommunity)
    : V1.MongoDBCommunity := mdb <| V1.mdb_Status ::= f |>.

Definition mongoUriOption (uri : string) : Option :=
  MkOption (set_status (λ st, st <| V1.st_MongoURI := uri |>)) (ResultPkg.OK, None).
(** The severity only says where the message is logged. *)
Definition messageOption (severityLevel : severity) (msg : string) : Option :=
  MkOption (set_status (λ st, st <| V1.st_Message := msg |>)) (ResultPkg.OK, None).
Definition mongoDBReplicasOption (members : Z) : Option :=
  MkOption (set_status (λ st, st <| V1.st_CurrentMongoDBMembers := members |>)) (ResultPkg.OK, None).
Definition statefulSetReplicasOption (replicas : Z) : Option :=
  MkOption (set_status (λ st, st <| V1.st_CurrentStatefulSetReplicas := replicas |>)) (ResultPkg.OK, None).
Definition phaseResult (phase : V1.Phase) (retryAfter : Z) : Result :=
  match phase with
  | V1.Running => ResultPkg.OK
  | V1.Pending => ResultPkg.Retry retryAfter
  | V1.Failed => ResultPkg.Failed
  | V1.NoPhase => ResultPkg.OK
  end.
Definition phaseOption (phase : V1.Phase) (retryAfter : Z) : Option :=
  MkOption (set_status (λ st, st <| V1.st_Phase := phase |>)) (phaseResult phase retryAfter, None).

(** [optionBuilder]: every method appends one option. *)
Definition statusOptions : list Option := [].
Definition withMongoURI (uri : string) (o : list Option) : list Option := o ++ [mongoUriOption uri].
Definition withPhase (phase : V1.Phase) (retryAfter : Z) (o : list Option) : list Option :=
  o ++ [phaseOption phase retryAfter].
Definition withMongoDBMembers (members : Z) (o : list Option) : list Option := o ++ [mongoDBReplicasOption members].
Definition withStatefulSetReplicas (members : Z) (o : list Option) : list Option :=
  o ++ [statefulSetReplicasOption members].
Definition withMessage (severityLevel : severity) (msg : string) (o : list Option) : list Option :=
  let '(severityLevel, msg) := if IsTransientMessage msg then (Debug, "") else (severityLevel, msg) in
  o ++ [messageOption severityLevel msg].
Definition withFailedPhase (o : list Option) : list Option := withPhase V1.Failed 0 o.
Definition withPendingPhase (retryAfter : Z) (o : list Option) : list Option := withPhase V1.Pending retryAfter o.
Definition withRunningPhase (o : list Option) : list Option := withPhase V1.Running (-1) o.

(** ** What the options add up to *)

Lemma first_error_None options :
  first_error options = None ↔ Forall (λ o, (GetResult o).2 = None) options.
Proof.
  induction options as [|o options IH]; cbn; [by split|]. rewrite Forall_cons.
  destruct (GetResult o) as [res [e|]]; cbn; [naive_solver | by rewrite IH; naive_solver].
Qed.

(** What a list of options asks for: the first error if any option reports
    one, otherwise the first result that asks for the request to come back, and
    success only if no option asks for anything.  The order of the options never
    hides an error behind a requeue. *)
Theorem determineReconciliationResult_spec options :
  match determineReconciliationResult options with
  | (res, Some err) =>
      ∃ before o after, options = before ++ o :: after ∧ GetResult o = (res, Some err)
        ∧ Forall (λ o, (GetResult o).2 = None) before
  | (res, None) =>
      Forall (λ o, (GetResult o).2 = None) options ∧
      ((∃ before o after, options = before ++ o :: after ∧ (GetResult o).1 = res
          ∧ (Requeue res = true ∨ 0 < RequeueAfter res)
          ∧ Forall (λ o, Requeue (GetResult o).1 = false ∧ RequeueAfter (GetResult o).1 ≤ 0) before)
       ∨ (res = MkResult false 0
          ∧ Forall (λ o, Requeue (GetResult o).1 = false ∧ RequeueAfter (GetResult o).1 ≤ 0) options))
  end.
Proof.
  unfold determineReconciliationResult. destruct (first_error options) as [[res err]|] eqn:E.
  - induction options as [|o options IH]; [done|]. cbn in E. destruct (GetResult o) as [res' [e|]] eqn:Ho.
    + injection E as -> ->. exists [], o, options. by split_and!.
    + destruct (IH E) as (before & o' & after & -> & Ho' & Hb). exists (o :: before), o', after.
      split_and!; [done..|]. constructor; [by rewrite Ho | done].
  - apply first_error_None in E. split; [done|]. clear E.
    induction options as [|o options IH]; cbn; [right; by split|].
    destruct (GetResult o) as [res' e] eqn:Ho.
    destruct (Requeue res' || (RequeueAfter res' >? 0)) eqn:Hr; cbn.
    + left. exists [], o, options. rewrite Ho. split_and!; [done..| |constructor].
      apply orb_true_iff in Hr as [|Hr]; [by left|]. right. unfold id. destruct (Z.gtb_spec (RequeueAfter res') 0); [lia | done].
    + apply orb_false_iff in Hr as [Hr1 Hr2].
      assert (Requeue (GetResult o).1 = false ∧ RequeueAfter (GetResult o).1 ≤ 0) as Hno.
      { rewrite Ho. split; [done|]. cbn [fst]. destruct (Z.gtb_spec (RequeueAfter res') 0); [done | lia]. }
      destruct IH as [(before & o' & after & -> & Hres & Hrq & Hb)|[Hres Hall]].
      * left. exists (o :: before), o', after. split_and!; auto.
      * right. split; [exact Hres | by constructor].
Qed.

Lemma determine_failed sev msg :
  determineReconciliationResult (withFailedPhase (withMessage sev msg statusOptions)) = (MkResult true 0, None).
Proof. unfold withMessage. by destruct (IsTransientMessage msg). Qed.
Lemma determine_pending sev msg :
  determineReconciliationResult (withPendingPhase 10 (withMessage sev msg statusOptions))
  = (MkResult true 10000000000, None).
Proof. unfold withMessage. by destruct (IsTransientMessage msg). Qed.
Lemma apply_phase phase sev msg retry mdb :
  apply_options (withPhase phase retry (withMessage sev msg statusOptions)) mdb
  = mdb <| V1.mdb_Status ::= λ st, st <| V1.st_Phase := phase |>
             <| V1.st_Message := if IsTransientMessage msg then "" else msg |> |>.
Proof. unfold withMessage. by destruct (IsTransientMessage msg), mdb as [? ? ? []]. Qed.
End Status.
