(* ===== verification/Watch.v ===== *)
(** * Watching secrets

    controllers/watch/watch.go and controllers/predicates/predicates.go: which resources are reconciled
    when a secret or the resource itself changes. *)
From S2P Require Import Prelude GoStd K8s MergeByKey Merge Scale Json Codec ScramCreds ACTypes Types Kube.

(** The dependents of every watched object. *)
Record ResourceWatcher := MkResourceWatcher { watched_objects : gmap NamespacedName (list NamespacedName) }.
Definition watch_New : ResourceWatcher := MkResourceWatcher ∅.

Definition Watch (watchedName dependentName : NamespacedName) (watched : ResourceWatcher) : ResourceWatcher :=
  let existing := default [] (watched_objects watched !! watchedName) in
  if contains_NamespacedName existing dependentName then watched
  else MkResourceWatcher (<[watchedName := existing ++ [dependentName]]> (watched_objects watched)).

(** The requests added to the queue, in order; all four event handlers do this
    with the object of the event (the old one for an update). *)
Definition handleEvent (w : ResourceWatcher) (m : ObjectMeta) : list NamespacedName :=
  default [] (watched_objects w !! MkNamespacedName (om_Name m) (om_Namespace m)).

Inductive Event :=
| CreateEvent (o : ObjectMeta)
| UpdateEvent (objectOld objectNew : ObjectMeta)
| DeleteEvent (o : ObjectMeta)
| GenericEvent (o : ObjectMeta).

Definition on_event (w : ResourceWatcher) (e : Event) : list NamespacedName :=
  match e with
  | CreateEvent o => handleEvent w o
  | UpdateEvent old _ => handleEvent w old
  | DeleteEvent o => handleEvent w o
  | GenericEvent o => handleEvent w o
  end.

(** [reflect.DeepEqual] on two specs. *)
Definition OnlyOnSpecChange {api : K8sApi} `{!EqDecision (@V1.MongoDBCommunitySpec api)}
    (oldResource newResource : V1.MongoDBCommunity) : bool :=
  negb (bool_decide (V1.mdb_Spec oldResource = V1.mdb_Spec newResource)).

(** ** What is watched after any number of reconciliations *)

Lemma contains_NamespacedName_iff l n : contains_NamespacedName l n = true ↔ n ∈ l.
Proof.
  unfold contains_NamespacedName. rewrite existsb_exists. setoid_rewrite bool_decide_eq_true.
  rewrite list_elem_of_In. naive_solver.
Qed.

Definition dependents (w : ResourceWatcher) (n : NamespacedName) : list NamespacedName :=
  default [] (watched_objects w !! n).

Lemma dependents_Watch n d w n' :
  dependents (Watch n d w) n' =
  if bool_decide (n = n' ∧ d ∉ dependents w n) then dependents w n ++ [d] else dependents w n'.
Proof.
  unfold Watch. fold (dependents w n). destruct (contains_NamespacedName (dependents w n) d) eqn:Hc.
  - apply contains_NamespacedName_iff in Hc. by rewrite bool_decide_false by tauto.
  - apply not_true_iff_false in Hc. rewrite contains_NamespacedName_iff in Hc.
    transitivity (default [] (<[n := dependents w n ++ [d]]> (watched_objects w) !! n')); [done|].
    rewrite lookup_insert. destruct (decide (n = n')) as [->|Hn].
    + by rewrite bool_decide_true.
    + by rewrite bool_decide_false by tauto.
Qed.

Lemma watch_run_snoc calls n d w :
  foldl (λ w '(n, d), Watch n d w) w (calls ++ [(n, d)]) = Watch n d (foldl (λ w '(n, d), Watch n d w) w calls).
Proof. by rewrite foldl_snoc. Qed.

Lemma dependents_run calls n :
  let w := foldl (λ w '(n, d), Watch n d w) watch_New calls in
  NoDup (dependents w n) ∧ ∀ d, d ∈ dependents w n ↔ (n, d) ∈ calls.
Proof.
  induction calls as [|[n' d'] calls IH] using rev_ind; cbn zeta.
  { split; [constructor|]. intros d. cbn. set_solver. }
  rewrite watch_run_snoc. set (w := foldl _ _ _) in *. cbn zeta in IH. destruct IH as [Hnd Hin].
  rewrite dependents_Watch. case_bool_decide as Hd.
  - destruct Hd as [-> Hd]. split.
    + apply NoDup_app. split_and!; [done|set_solver|apply NoDup_singleton].
    + intros d. rewrite elem_of_app, Hin. set_solver.
  - split; [done|]. intros d. rewrite Hin, elem_of_app, list_elem_of_singleton. split; [tauto|].
    intros [?|[= -> ->]]; [done|]. apply Hin. destruct (decide (d' ∈ dependents w n')); tauto.
Qed.

(** After any sequence of [Watch] calls, a change of an object enqueues exactly
    the resources that were registered for it, each of them once, whatever the
    kind of the event; calls for other objects make no difference. *)
Theorem watched_dependents (calls : list (NamespacedName * NamespacedName)) (e : Event) (m : ObjectMeta) :
  (e = CreateEvent m ∨ (∃ new, e = UpdateEvent m new) ∨ e = DeleteEvent m ∨ e = GenericEvent m) →
  let w := foldl (λ w '(n, d), Watch n d w) watch_New calls in
  NoDup (on_event w e)
  ∧ ∀ d, d ∈ on_event w e ↔ (MkNamespacedName (om_Name m) (om_Namespace m), d) ∈ calls.
Proof.
  intros He w. replace (on_event w e) with (dependents w (MkNamespacedName (om_Name m) (om_Namespace m)))
    by (by destruct He as [->|[[? ->]|[->| ->]]]).
  apply dependents_run.
Qed.

Lemma watched_dependents_witness :
  let n := λ x, MkNamespacedName x "ns" in
  let w := foldl (λ w '(n, d), Watch n d w) watch_New [(n "pw", n "a"); (n "pw", n "b"); (n "pw", n "a")] in
  NoDup (on_event w (DeleteEvent (emptyMeta <| om_Name := "pw" |> <| om_Namespace := "ns" |>)))
  ∧ on_event w (DeleteEvent (emptyMeta <| om_Name := "pw" |> <| om_Namespace := "ns" |>)) = [n "a"; n "b"].
Proof.
  intros n w. split; [|vm_compute; reflexivity].
  apply (watched_dependents [(n "pw", n "a"); (n "pw", n "b"); (n "pw", n "a")] _
           (emptyMeta <| om_Name := "pw" |> <| om_Namespace := "ns" |>)). auto.
Defined.
