(* ===== verification/StateMachineFacts.v ===== *)
(** * What the state machine does

    The machine against the transition system its transitions describe, the
    invariant that it never names a state it does not know, and the run of a chain
    of states. *)
From S2P Require Import Prelude GoStd K8s Scale StateMachine.
Local Open Scope Z_scope.

(** What a save-loader is relied on for: a loaded name is the saved one; a saved
    name is kept, except that the empty name, which a finished machine saves, may
    be ignored; nothing else changes what is saved. *)
Class SaveLoaderLaws (W : Type) `{!SaveLoader W} := {
  saved : W → NamespacedName → string;
  Load_law : ∀ n w r w', LoadNextState n w = (r, w') → saved w' = saved w ∧ ∀ s, r = Ret s → s = saved w n;
  Save_law : ∀ n s w r w', SaveNextState n s w = (r, w') →
    match r with
    | Ret _ => saved w' n = s ∨ (s = "" ∧ saved w' n = saved w n)
    | _ => saved w' n = saved w n
    end;
}.

Section Facts.
Context {W : Type} `{!SaveLoader W, !SaveLoaderLaws W}.
Implicit Types m : Machine W.

(** Code of the states and predicates leaves the saved names alone. *)
Definition keeps_saved {A} (f : IO W A) : Prop := ∀ w r w', f w = (r, w') → saved w' = saved w.

Lemma wrap_saved {A} g (f : IO W A) (w : W) r w' : keeps_saved f → wrap g f w = (r, w') → saved w' = saved w.
Proof. intros Hf. unfold wrap. destruct (f w) as [[a|e|x] w1] eqn:E; intros [= _ <-]; by apply Hf in E. Qed.
Lemma attempt_saved {A} (f : IO W A) (w : W) r w' : keeps_saved f → attempt f w = (r, w') → saved w' = saved w.
Proof. intros Hf. unfold attempt. destruct (f w) as [[a|e|x] w1] eqn:E; intros [= _ <-]; by apply Hf in E. Qed.

Record well_formed m : Prop := {
  wf_states : ∀ name s, states m !! name = Some s →
    st_Name s = name ∧ keeps_saved (st_Reconcile s) ∧ ∀ f, st_OnEnter s = Some f → keeps_saved f;
  wf_transitions : ∀ name ts t, allTransitions m !! name = Some ts → t ∈ ts →
    keeps_saved (t_predicate t) ∧ st_Name (t_from t) = name ∧ is_Some (states m !! name)
    ∧ is_Some (states m !! st_Name (t_to t));
}.

Definition state_ok (s : State W) : Prop :=
  keeps_saved (st_Reconcile s) ∧ ∀ f, st_OnEnter s = Some f → keeps_saved f.

Lemma well_formed_new n : well_formed (NewStateMachine n).
Proof. split; cbn; intros *; rewrite lookup_empty; done. Qed.

Lemma known_after_insert (ss : gmap string (State W)) from to name :
  is_Some (ss !! name) → is_Some (<[st_Name to := to]> (<[st_Name from := from]> ss) !! name).
Proof. intros H. rewrite !lookup_insert_is_Some. destruct (decide (st_Name to = name)), (decide (st_Name from = name)); naive_solver. Qed.

Lemma well_formed_add from to p m :
  state_ok from → state_ok to → keeps_saved p → well_formed m → well_formed (AddTransition from to p m).
Proof.
  intros Hfrom Hto Hp [Hs Ht]. split; cbn.
  - intros name s Hl. apply lookup_insert_Some in Hl as [[<- <-]|[_ Hl]]; [done|].
    apply lookup_insert_Some in Hl as [[<- <-]|[_ Hl]]; [done|]. by apply Hs.
  - intros name ts t Hl Hin. apply lookup_insert_Some in Hl as [[<- <-]|[_ Hl]].
    + apply elem_of_app in Hin as [Hin|Hin%list_elem_of_singleton].
      * destruct (allTransitions m !! st_Name from) as [ts|] eqn:E; [|by apply elem_of_nil in Hin].
        destruct (Ht _ _ _ E Hin) as (? & ? & ? & ?). split_and!; [done..| |]; by apply known_after_insert.
      * subst t. cbn. split_and!; [done..| |].
        -- rewrite !lookup_insert_is_Some. destruct (decide (st_Name to = st_Name from)); auto.
        -- apply lookup_insert_is_Some. by left.
    + destruct (Ht _ _ _ Hl Hin) as (? & ? & ? & ?). split_and!; [done..| |]; by apply known_after_insert.
Qed.

(** ** One reconciliation *)

(** The transition system: from a known state the machine repeats it, moves along a
    transition, or is finished. *)
Inductive machine_step m : string → string → Prop :=
| step_repeat name : machine_step m name name
| step_move name ts t : allTransitions m !! name = Some ts → t ∈ ts → machine_step m name (st_Name (t_to t))
| step_finish name : is_Some (states m !! name) → machine_step m name "".

Lemma first_enabled_in ts (w : W) r w' :
  (∀ t, t ∈ ts → keeps_saved (t_predicate t)) → first_enabled ts w = (r, w') →
  saved w' = saved w ∧ ∀ t, r = Ret (Some t) → t ∈ ts.
Proof.
  revert w. induction ts as [|t ts IH]; intros w Hp E; cbn [first_enabled] in E; [by injection E as <- <-|].
  apply bind_inv in E as [(b & w1 & E1 & E2)|[(e & E1 & ->)|(s & E1 & ->)]];
    apply (Hp t) in E1; try (by constructor); [|by rewrite E1..].
  destruct b; [injection E2 as <- <-; rewrite E1; split; [done|intros ? [= <-]; constructor]|].
  apply IH in E2 as [HS Hin]; [|intros ? ?; apply Hp; by constructor]. rewrite HS, E1. split; [done|].
  intros t' Ht. constructor. by apply Hin.
Qed.

Lemma complete_step m s res (w : W) r w' :
  well_formed m → states m !! st_Name s = Some s → complete m s res w = (r, w') →
  machine_step m (st_Name s) (saved w' (nsName m)) ∨ saved w' (nsName m) = saved w (nsName m).
Proof.
  intros [Hs Ht] Hk E. unfold complete, getTransitionForState in E.
  assert (∀ t, t ∈ default [] (allTransitions m !! st_Name s) →
    ∃ ts, allTransitions m !! st_Name s = Some ts ∧ t ∈ ts) as Hin.
  { intros t H. destruct (allTransitions m !! st_Name s) as [ts|]; [by eauto|by apply elem_of_nil in H]. }
  apply bind_inv in E as [(t & w1 & E1 & E2)|[(e & E1 & ->)|(x & E1 & ->)]];
    (apply first_enabled_in in E1 as [HS Hf]; [|intros t' (ts & Hts & Hin')%Hin; by apply (Ht _ _ _ Hts Hin')]);
    [|by rewrite HS; right..].
  set (next := match t with Some t => st_Name (t_to t) | None => "" end) in E2.
  assert (machine_step m (st_Name s) next) as Hnext.
  { destruct t as [t|]; cbn; [|apply step_finish; eauto].
    destruct (Hin t (Hf t eq_refl)) as (ts & Hts & Hin'). by eapply step_move. }
  assert (∃ o, SaveNextState (nsName m) next w1 = (o, w')) as [o E3].
  { apply bind_inv in E2 as [(x & w2 & E2 & E3)|[(e & E2 & _)|(x & E2 & _)]]; apply attempt_out in E2; [|done..].
    destruct x; by injection E3 as _ <-. }
  rewrite <- HS. apply Save_law in E3. destruct o; [destruct E3 as [->|[_ ->]]; auto | by right..].
Qed.

Lemma determine_inv m (w : W) r w' :
  determineState m w = (r, w') → saved w' = saved w ∧
  ∀ m', r = Ret m' → ∃ s, m' = m <| currentState := Some s |> ∧ states m !! saved w (nsName m) = Some s.
Proof.
  unfold determineState. intros E. apply bind_inv in E as [(name & w1 & E1%wrap_Ret_inv & E2)|[(e & E1 & ->)|(x & E1 & ->)]].
  - apply Load_law in E1 as [HS Hn]. specialize (Hn _ eq_refl) as ->.
    destruct (states m !! saved w (nsName m)) as [s|] eqn:Hs; injection E2 as <- <-; (split; [done|]); [|done].
    intros m' [= <-]. by exists s.
  - split; [|done]. apply wrap_saved in E1; [done|]. intros ? ? ? EL. by apply Load_law in EL as [HS _].
  - split; [|done]. apply wrap_saved in E1; [done|]. intros ? ? ? EL. by apply Load_law in EL as [HS _].
Qed.

Lemma enter_keeps m name s (w : W) r w' :
  well_formed m → states m !! name = Some s → enter s w = (r, w') → saved w' = saved w.
Proof.
  intros [Hs _] Hl. destruct (Hs _ _ Hl) as (_ & _ & Hf). unfold enter.
  destruct (st_OnEnter s) as [f|]; [by apply Hf|]. by intros [= _ <-].
Qed.

Lemma with_current_well_formed m s : well_formed m → well_formed (m <| currentState := s |>).
Proof. by intros [Hs Ht]. Qed.

Lemma Reconcile_steps m (w : W) r w' :
  well_formed m → Machine_Reconcile m w = (r, w') →
  machine_step m (saved w (nsName m)) (saved w' (nsName m)).
Proof.
  intros Hwf E. unfold Machine_Reconcile in E.
  apply bind_inv in E as [(x & w1 & E1 & E)|[(e & E1 & _)|(y & E1 & _)]];
    destruct (attempt_out _ _ _ _ E1) as [o Eo]; destruct (determine_inv _ _ _ _ Eo) as [HS1 Hm];
    [|rewrite HS1; constructor..].
  destruct x as [m'|e]; [|injection E as _ <-; rewrite HS1; constructor].
  unfold attempt in E1. rewrite Eo in E1. destruct o as [m0|e0|s0]; [injection E1 as ->|done|done].
  destruct (Hm _ eq_refl) as (s & -> & Hs). cbn in E. rewrite <- HS1 in *.
  destruct (wf_states _ Hwf _ _ Hs) as (Hname & Hrec & _).
  apply bind_inv in E as [(x & w2 & E2 & E)|[(e & E2 & _)|(y & E2 & _)]];
    destruct (attempt_out _ _ _ _ E2) as [o2 Eo2]; apply (enter_keeps m _ s _ _ _ Hwf Hs) in Eo2;
    [|rewrite Eo2; constructor..].
  destruct x as [[]|e]; [|injection E as _ <-; rewrite Eo2; constructor].
  rewrite <- Eo2 in *. apply bind_inv in E as [([[res err] c] & w3 & E3 & E)|[(e & E3 & _)|(y & E3 & _)]];
    apply Hrec in E3; [|rewrite E3; constructor..]. rewrite <- E3 in *.
  destruct err as [err|]; [injection E as _ <-; constructor|]. destruct c; [|injection E as _ <-; constructor].
  pose proof Hs as Hs'. rewrite <- Hname in Hs'. rewrite <- Hname.
  destruct (complete_step (m <| currentState := Some s |>) s res w3 r w') as [H|H];
    [by apply with_current_well_formed | exact Hs' | exact E | | ].
  - inversion H; subst; [constructor | by eapply step_move | by apply step_finish].
  - cbn in H. rewrite H, Hname. constructor.
Qed.

(** ** Machines as they are built *)

(** The calls of [AddTransition], in order. *)
Definition call : Type := State W * State W * TransitionPredicate (W := W).
Definition build (n : NamespacedName) (calls : list call) : Machine W :=
  foldl (λ m '(from, to, p), AddTransition from to p m) (NewStateMachine n) calls.
Definition call_ok (c : call) : Prop := state_ok c.1.1 ∧ state_ok c.1.2 ∧ keeps_saved c.2.

Lemma build_snoc n calls from to p : build n (calls ++ [(from, to, p)]) = AddTransition from to p (build n calls).
Proof. unfold build. by rewrite foldl_snoc. Qed.
Lemma nsName_build n calls : nsName (build n calls) = n.
Proof. induction calls as [|[[f t] p] calls IH] using rev_ind; [done|]. by rewrite build_snoc. Qed.

Lemma build_current n calls : (build n calls) <| currentState := None |> = build n calls.
Proof. induction calls as [|[[f t] p] calls IH] using rev_ind; [done|]. rewrite build_snoc. by rewrite <- IH at 2. Qed.

Definition transition_of (c : call) : transition W := MkTransition c.1.1 c.1.2 c.2.
Lemma build_transitions n calls name :
  default [] (allTransitions (build n calls) !! name)
  = map transition_of (filter (λ c : call, st_Name c.1.1 = name) calls).
Proof.
  induction calls as [|[[f t] p] calls IH] using rev_ind; [by cbn; rewrite lookup_empty|].
  rewrite build_snoc, filter_app, map_app, filter_cons, filter_nil, <- IH. cbn [AddTransition allTransitions fst snd].
  destruct (decide (st_Name f = name)) as [<-|Hne].
  - by rewrite lookup_insert_eq.
  - by rewrite lookup_insert_ne, app_nil_r.
Qed.

Definition mentioned (calls : list call) : list (State W) := flat_map (λ c, [c.1.1; c.1.2]) calls.
Lemma build_states n calls name s :
  states (build n calls) !! name = Some s → s ∈ mentioned calls ∧ st_Name s = name.
Proof.
  induction calls as [|[[f t] p] calls IH] using rev_ind; [cbn; by rewrite lookup_empty|].
  rewrite build_snoc. unfold mentioned. rewrite flat_map_app, elem_of_app. cbn.
  intros [[<- <-]|[_ [[<- <-]|[_ H]]%lookup_insert_Some]]%lookup_insert_Some; [set_solver..|].
  apply IH in H as [? ?]. auto.
Qed.
Lemma build_knows n calls s : s ∈ mentioned calls → is_Some (states (build n calls) !! st_Name s).
Proof.
  induction calls as [|[[f t] p] calls IH] using rev_ind; [by intros ?%elem_of_nil|].
  rewrite build_snoc. unfold mentioned. rewrite flat_map_app, elem_of_app. cbn.
  rewrite !lookup_insert_is_Some, !elem_of_cons, elem_of_nil. intros H.
  destruct (decide (st_Name t = st_Name s)) as [|Ht]; [by left|]. right. split; [done|].
  destruct (decide (st_Name f = st_Name s)) as [|Hf]; [by left|]. right. split; [done|].
  apply IH. destruct H as [|[->|[->|[]]]]; done.
Qed.

Lemma build_well_formed n calls : Forall call_ok calls → well_formed (build n calls).
Proof.
  induction calls as [|[[f t] p] calls IH] using rev_ind; intros HF; [apply well_formed_new|].
  rewrite build_snoc. apply Forall_app in HF as [HF [(Hf & Ht & Hp) _]%Forall_cons].
  apply well_formed_add; [exact Hf|exact Ht|exact Hp|by apply IH].
Qed.

(** A name the machine can go on from, or the mark that it is finished. *)
Definition known_or_done m (name : string) : Prop := is_Some (states m !! name) ∨ name = "".

Lemma known_step m a b : well_formed m → known_or_done m a → machine_step m a b → known_or_done m b.
Proof.
  intros Hwf Ha Hs. destruct Hs as [name|name ts t Hts Ht|name _]; [done| |by right].
  left. by destruct (wf_transitions _ Hwf _ _ _ Hts Ht) as (_ & _ & _ & ?).
Qed.

(** Any number of reconciliations, by one process or by several: what a process
    remembers as its current state makes no difference. *)
Inductive reconciled m : W → W → Prop :=
| reconciled_refl w : reconciled m w w
| reconciled_step w c r w1 w2 :
    Machine_Reconcile (m <| currentState := c |>) w = (r, w1) → reconciled m w1 w2 → reconciled m w w2.

(** [C39] The machine never gets lost: whatever transitions are added, in whatever
    order, whatever the states and predicates answer and whichever calls fail, the
    saved name is always that of a state the machine knows, or empty once a state
    without an enabled transition has completed. *)
Theorem machine_never_lost n calls (w w' : W) :
  Forall call_ok calls → known_or_done (build n calls) (saved w n) →
  reconciled (build n calls) w w' → known_or_done (build n calls) (saved w' n).
Proof.
  intros HF Hk Hr. assert (well_formed (build n calls)) as Hwf by by apply build_well_formed.
  pose proof (nsName_build n calls) as Hn. set (m := build n calls) in *. clearbody m. subst n.
  induction Hr as [w|w c r w1 w2 E _ IH]; [done|]. apply IH. eapply known_step; [done|exact Hk|].
  apply Reconcile_steps in E; [|by apply with_current_well_formed].
  cbn in E. inversion E; subst; [constructor | by eapply step_move | by apply step_finish].
Qed.

(** ** The specification of one reconciliation

    It is stated over the calls of [AddTransition] and the answers of the outside world:
    the store, the states' own code and the predicates. *)

(** The state a name stands for is the last one that was added with it. *)
Definition known_as (calls : list call) (name : string) (s : State W) : Prop :=
  last (filter (λ s, st_Name s = name) (mentioned calls)) = Some s.
(** [OnEnter] is optional. *)
Definition entered (s : State W) (o : outcome unit) (w w' : W) : Prop :=
  match st_OnEnter s with None => o = Ret () ∧ w' = w | Some f => f w = (o, w') end.

(** The predicates of the transitions from [name] are asked in the order in which these
    were added, up to the first that holds; its target is next, or no state is. *)
Inductive chosen (name : string) : list call → W → string → W → Prop :=
| chosen_none w : chosen name [] w "" w
| chosen_other from to p rest w next w' :
    st_Name from ≠ name → chosen name rest w next w' → chosen name ((from, to, p) :: rest) w next w'
| chosen_first from to p rest w w' :
    st_Name from = name → p w = (Ret true, w') → chosen name ((from, to, p) :: rest) w (st_Name to) w'
| chosen_later from to p rest w w1 next w' :
    st_Name from = name → p w = (Ret false, w1) → chosen name rest w1 next w' →
    chosen name ((from, to, p) :: rest) w next w'.

Definition no_result : Result := MkResult false 0.

(** A reconciliation that returns a result and an error. *)
Inductive machine_run (n : NamespacedName) (calls : list call) (w : W) : Result → option error → W → Prop :=
| load_failed e w' :
    LoadNextState n w = (Err e, w') →
    machine_run n calls w no_result (Some (TextError ("could not load starting state: " +:+ err_text e))) w'
| state_unknown name w' :
    LoadNextState n w = (Ret name, w') → (∀ s, ¬ known_as calls name s) →
    machine_run n calls w no_result (Some (TextError ("could not determine state " +:+ name
                                  +:+ " as it was not added to the State Machine"))) w'
| enter_failed name s e w1 w' :
    LoadNextState n w = (Ret name, w1) → known_as calls name s → entered s (Err e) w1 w' →
    machine_run n calls w no_result (Some e) w'
| state_repeats name s res err done w1 w2 w' :
    LoadNextState n w = (Ret name, w1) → known_as calls name s → entered s (Ret ()) w1 w2 →
    st_Reconcile s w2 = (Ret (res, err, done), w') → err ≠ None ∨ done = false →
    machine_run n calls w res err w'
| state_done name s res next o w1 w2 w3 w4 w' :
    LoadNextState n w = (Ret name, w1) → known_as calls name s → entered s (Ret ()) w1 w2 →
    st_Reconcile s w2 = (Ret (res, None, true), w3) → chosen name calls w3 next w4 →
    SaveNextState n next w4 = (o, w') → (∀ x, o ≠ Panic x) →
    machine_run n calls w (match o with Ret _ => res | _ => no_result end)
      (match o with Err e => Some e | _ => None end) w'.

Lemma build_lookup n calls name s : states (build n calls) !! name = Some s ↔ known_as calls name s.
Proof.
  unfold known_as. induction calls as [|[[f t] p] calls IH] using rev_ind; [cbn; by rewrite lookup_empty|].
  rewrite build_snoc. unfold mentioned in *. rewrite flat_map_app, filter_app. cbn [flat_map app AddTransition states fst snd].
  rewrite !filter_cons, filter_nil.
  destruct (decide (st_Name t = name)) as [<-|Ht].
  { rewrite lookup_insert_eq. by destruct (decide _); rewrite ?(last_snoc_2), ?last_app. }
  rewrite lookup_insert_ne by done. destruct (decide (st_Name f = name)) as [<-|Hf].
  - rewrite lookup_insert_eq. by rewrite last_snoc.
  - by rewrite lookup_insert_ne, app_nil_r.
Qed.

Lemma known_name calls name s : known_as calls name s → st_Name s = name.
Proof. intros H%last_Some_elem_of. by apply list_elem_of_filter in H as [? _]. Qed.

Definition target (t : option (transition W)) : string := match t with Some t => st_Name (t_to t) | None => "" end.
Lemma chosen_iff name calls (w : W) next w' :
  (∃ t, first_enabled (map transition_of (filter (λ c : call, st_Name c.1.1 = name) calls)) w = (Ret t, w') ∧ next = target t)
  ↔ chosen name calls w next w'.
Proof.
  split.
  - intros (t & E & ->). revert w E. induction calls as [|[[f to] p] calls IH]; intros w E; [by injection E as <- <-; constructor|].
    rewrite filter_cons in E. destruct (decide _) as [Hf|Hf]; cbn in Hf; [|by apply chosen_other; auto].
    cbn [map first_enabled] in E. apply bind_Ret_inv in E as ([] & w1 & E1 & E).
    + injection E as <- <-. by apply chosen_first.
    + eapply chosen_later; eauto.
  - induction 1 as [w|f to p rest w next w' Hf _ (t & E & ->)|f to p rest w w' Hf E|f to p rest w w1 next w' Hf E1 _ (t & E & ->)].
    + by exists None.
    + exists t. by rewrite filter_cons, decide_False.
    + eexists. rewrite filter_cons, decide_True by done. cbn [map first_enabled]. by erewrite bind_Ret by exact E.
    + exists t. rewrite filter_cons, decide_True by done. cbn [map first_enabled]. by erewrite bind_Ret by exact E1.
Qed.
Lemma attempt_inv {A} (f : IO W A) (w : W) x w' :
  attempt f w = (Ret x, w') → match x with inl a => f w = (Ret a, w') | inr e => f w = (Err e, w') end.
Proof. unfold attempt. by destruct (f w) as [[]]; intros [= <- <-]. Qed.
Lemma enter_entered s o (w w' : W) : enter s w = (o, w') ↔ entered s o w w'.
Proof. unfold enter, entered. destruct (st_OnEnter s); [done|]. split; [by intros [= <- <-]|by intros [-> ->]]. Qed.

(** What [determineState] comes to. *)
Lemma determine_cases n calls c (w : W) x w' :
  attempt (determineState ((build n calls) <| currentState := c |>)) w = (Ret x, w') →
  match x with
  | inl m => ∃ name s, LoadNextState n w = (Ret name, w') ∧ known_as calls name s
      ∧ m = (build n calls) <| currentState := Some s |>
  | inr err => machine_run n calls w no_result (Some err) w'
  end.
Proof.
  intros E%attempt_inv. assert (nsName ((build n calls) <| currentState := c |>) = n) as Hn by exact (nsName_build n calls).
  assert (states ((build n calls) <| currentState := c |>) = states (build n calls)) as Hss by done.
  unfold determineState in E. rewrite Hn, Hss in E. destruct x as [m|err].
  - apply bind_Ret_inv in E as (name & w1 & E1%wrap_Ret_inv & E).
    destruct (states (build n calls) !! name) as [s|] eqn:Hs; [|done]. injection E as <- <-.
    exists name, s. split_and!; [done|by eapply build_lookup|done].
  - apply bind_inv in E as [(name & w1 & E1%wrap_Ret_inv & E)|[(e & E1 & [= ->])|(y & _ & [=])]].
    + destruct (states (build n calls) !! name) as [s|] eqn:Hs; [done|]. injection E as <- <-.
      eapply state_unknown; [done|]. intros s Hk. by rewrite (proj2 (build_lookup n calls name s) Hk) in Hs.
    + unfold wrap in E1. destruct (LoadNextState n w) as [[a|e'|y] w1] eqn:EL; [done| |done].
      injection E1 as <- <-. by apply load_failed.
Qed.
Lemma determine_known n calls c name s (w w' : W) :
  LoadNextState n w = (Ret name, w') → known_as calls name s →
  attempt (determineState ((build n calls) <| currentState := c |>)) w
  = (Ret (inl ((build n calls) <| currentState := Some s |>)), w').
Proof.
  intros E Hs%(build_lookup n). apply attempt_Ret. unfold determineState. cbn. rewrite nsName_build.
  erewrite bind_Ret by (apply wrap_Ret; exact E). by rewrite Hs.
Qed.

Lemma Reconcile_run n calls c (w : W) m' res err w' :
  Machine_Reconcile ((build n calls) <| currentState := c |>) w = (Ret (m', (res, err)), w') →
  machine_run n calls w res err w'.
Proof.
  unfold Machine_Reconcile. intros E.
  apply bind_Ret_inv in E as (x & w1 & Hx%determine_cases & E). destruct x as [m|e]; [|by injection E as _ <- <- <-].
  destruct Hx as (name & s & EL & Hs & ->). cbn [currentState] in E.
  apply bind_Ret_inv in E as (x & w2 & Hx%attempt_inv & E). destruct x as [[]|e];
    apply enter_entered in Hx; [|injection E as _ <- <- <-; by eapply enter_failed].
  apply bind_Ret_inv in E as ([[res' err'] d] & w3 & E3 & E).
  destruct err' as [e|]; [injection E as _ <- <- <-; eapply state_repeats; eauto|].
  destruct d; [|injection E as _ <- <- <-; eapply state_repeats; eauto].
  unfold complete, getTransitionForState in E. apply bind_Ret_inv in E as (t & w4 & E4 & E).
  apply bind_Ret_inv in E as (x & w5 & Hx'%attempt_inv & E).
  pose proof (known_name _ _ _ Hs) as Hname. cbn in E4, Hx'. rewrite build_transitions, Hname in E4. rewrite nsName_build in Hx'.
  assert (chosen name calls w3 (target t) w4) as Hch by (apply chosen_iff; eauto).
  destruct x as [[]|e]; injection E as _ <- <- <-.
  - by eapply (state_done n calls w name s res' (target t) (Ret ())).
  - by eapply (state_done n calls w name s res' (target t) (Err e)).
Qed.

Lemma run_Reconcile n calls c (w : W) res err w' :
  machine_run n calls w res err w' →
  ∃ m', Machine_Reconcile ((build n calls) <| currentState := c |>) w = (Ret (m', (res, err)), w').
Proof.
  set (m := (build n calls) <| currentState := c |>).
  assert (nsName m = n) as Hn by exact (nsName_build n calls).
  unfold Machine_Reconcile.
  destruct 1 as [e w' EL|name w' EL Hun|name s e w1 w' EL Hs He|name s res err d w1 w2 w' EL Hs He Er Hrep
    |name s res next o w1 w2 w3 w4 w' EL Hs He Er Hch ES Ho].
  - erewrite bind_Ret by (apply attempt_Err; unfold determineState; apply bind_Err; unfold wrap;
      rewrite Hn, EL; reflexivity). by eexists.
  - assert (states m !! name = None) as Hs.
    { destruct (states m !! name) as [s|] eqn:Hs; [|done]. destruct (Hun s). by apply (build_lookup n). }
    erewrite bind_Ret by (apply attempt_Err; unfold determineState; rewrite Hn;
      erewrite bind_Ret by (apply wrap_Ret; exact EL); rewrite Hs; reflexivity). by eexists.
  - erewrite bind_Ret by (by apply (determine_known n calls c name s)). cbn.
    erewrite bind_Ret by (by apply attempt_Err, enter_entered). by eexists.
  - erewrite bind_Ret by (by apply (determine_known n calls c name s)). cbn.
    erewrite bind_Ret by (by apply attempt_Ret, enter_entered). cbn. erewrite bind_Ret by exact Er.
    destruct err as [e|]; [by eexists|]. destruct Hrep as [|Hd]; [done|]. subst d. by eexists.
  - erewrite bind_Ret by (by apply (determine_known n calls c name s)). cbn.
    erewrite bind_Ret by (by apply attempt_Ret, enter_entered). cbn. erewrite bind_Ret by exact Er.
    apply chosen_iff in Hch as (t & E4 & ->). unfold complete, getTransitionForState. cbn.
    rewrite build_transitions, (known_name _ _ _ Hs). erewrite bind_Ret by exact E4. rewrite nsName_build.
    unfold target in ES. destruct o as [[]|e|x]; [erewrite bind_Ret by (by apply attempt_Ret)
      |erewrite bind_Ret by (by apply attempt_Err)|by destruct (Ho x)]; by eexists.
Qed.

(** The saved name changes only when the state it stands for is done, to the target that
    was chosen. *)
Lemma machine_run_saved n calls (w : W) res err w' :
  Forall call_ok calls → machine_run n calls w res err w' → saved w' n ≠ saved w n →
  err = None ∧ ∃ s w2 w3 w4, known_as calls (saved w n) s ∧ st_Reconcile s w2 = (Ret (res, None, true), w3)
    ∧ chosen (saved w n) calls w3 (saved w' n) w4.
Proof.
  intros HF Hrun Hne. pose proof (build_well_formed n calls HF) as Hwf.
  assert (∀ o (u u' : W), LoadNextState n u = (o, u') → saved u' = saved u) as HL by (by intros o u u' [? _]%Load_law).
  assert (∀ name s o (u u' : W), known_as calls name s → entered s o u u' → saved u' = saved u) as HE.
  { intros name s o u u' Hs%(build_lookup n) He%enter_entered. by eapply enter_keeps. }
  assert (∀ name s o (u u' : W), known_as calls name s → st_Reconcile s u = (o, u') → saved u' = saved u) as HR.
  { intros name s o u u' Hs%(build_lookup n) He.
    destruct (wf_states _ Hwf _ _ Hs) as (_ & Hr & _). by apply Hr in He. }
  destruct Hrun as [e w' EL|name w' EL Hun|name s e w1 w' EL Hs He|name s res err d w1 w2 w' EL Hs He Er Hrep
    |name s res next o w1 w2 w3 w4 w' EL Hs He Er Hch ES Ho].
  - destruct Hne. by rewrite (HL _ _ _ EL).
  - destruct Hne. by rewrite (HL _ _ _ EL).
  - destruct Hne. by rewrite (HE _ _ _ _ _ Hs He), (HL _ _ _ EL).
  - destruct Hne. by rewrite (HR _ _ _ _ _ Hs Er), (HE _ _ _ _ _ Hs He), (HL _ _ _ EL).
  - assert (saved w4 = saved w) as HS.
    { pose proof Hch as (t & E4 & _)%chosen_iff.
      rewrite <- (HL _ _ _ EL), <- (HE _ _ _ _ _ Hs He), <- (HR _ _ _ _ _ Hs Er).
      apply first_enabled_in in E4 as [? _]; [done|]. intros t' Ht'. rewrite <- build_transitions with (n := n) in Ht'.
      destruct (allTransitions (build n calls) !! name) as [ts|] eqn:Hts; [|by apply elem_of_nil in Ht'].
      by destruct (wf_transitions _ Hwf _ _ _ Hts Ht') as [? _]. }
    apply Load_law in EL as [_ Hn]. specialize (Hn _ eq_refl) as ->.
    apply Save_law in ES. rewrite HS in ES. destruct o as [u|e|x]; [|by destruct Hne|by destruct (Ho x)].
    split; [done|]. destruct ES as [Hnext|[_ Hsame]]; [|by destruct Hne]. exists s, w2, w3, w4. by rewrite Hnext.
Qed.

(** [C40] The machine implements the transition system of its transitions: a call of
    [Reconcile] returns a result and an error just when the specification [machine_run]
    does - the name is loaded, its state entered and reconciled, and if that is done
    without an error, the predicates of the transitions from it are asked in the order
    in which these were added, and the target of the first that holds is saved, or the
    empty name; whatever fails ends the call with its error.  And what is saved changes
    only when the state it names is done, and then to that target, as long as the code
    of states and predicates does not write it ([call_ok]). *)
Theorem Machine_Reconcile_refines n calls c (w : W) res err w' :
  Forall call_ok calls →
  ((∃ m', Machine_Reconcile ((build n calls) <| currentState := c |>) w = (Ret (m', (res, err)), w'))
    ↔ machine_run n calls w res err w')
  ∧ (machine_run n calls w res err w' → saved w' n ≠ saved w n →
      err = None ∧ ∃ s w2 w3 w4, known_as calls (saved w n) s ∧ st_Reconcile s w2 = (Ret (res, None, true), w3)
        ∧ chosen (saved w n) calls w3 (saved w' n) w4).
Proof.
  intros HF. split; [split|by apply machine_run_saved].
  - intros [m' E]. by eapply Reconcile_run.
  - apply run_Reconcile.
Qed.

(** ** A chain of states *)

Definition chain (ss : list (State W)) : list call := map (λ '(a, b), (a, b, directTransition)) (zip ss (tail ss)).

(** A state that is entered and completes, without an error. *)
Definition completes (s : State W) : Prop :=
  state_ok s ∧ (∀ w, ∃ w', enter s w = (Ret (), w')) ∧ ∀ w, ∃ res w', st_Reconcile s w = (Ret (res, None, true), w').

Context (Load_ok : ∀ n (w : W), ∃ w', LoadNextState n w = (Ret (saved w n), w')).
Context (Save_ok : ∀ n s (w : W), ∃ w', SaveNextState n s w = (Ret (), w')).

Lemma filter_none {A} (P : A → Prop) `{∀ x, Decision (P x)} (l : list A) : (∀ x, x ∈ l → ¬ P x) → filter P l = [].
Proof.
  induction l as [|x l IH]; intros HP; [done|]. rewrite filter_cons, decide_False by (apply HP; constructor).
  apply IH. intros y Hy. apply HP. by constructor.
Qed.
Lemma filter_unique {A} (key : A → string) (l : list A) x :
  NoDup (map key l) → x ∈ l → filter (λ y, key y = key x) l = [x].
Proof.
  induction l as [|y l IH]; intros Hnd Hx; [by apply elem_of_nil in Hx|].
  cbn in Hnd. apply NoDup_cons in Hnd as [Hy Hnd]. rewrite filter_cons. apply elem_of_cons in Hx as [->|Hx].
  - rewrite decide_True by done. f_equal. apply filter_none. intros z Hz Hk. apply Hy. rewrite <- Hk.
    by apply list_elem_of_fmap_2.
  - rewrite decide_False; [by apply IH|]. intros Hk. apply Hy. rewrite Hk. by apply list_elem_of_fmap_2.
Qed.

Lemma chain_from_names ss : map (λ c : call, st_Name c.1.1) (chain ss) `sublist_of` map st_Name ss.
Proof.
  unfold chain. destruct ss as [|s ss]; [constructor|]. cbn [tail]. revert s.
  induction ss as [|s' ss IH]; intros s; cbn; [apply sublist_nil_l|]. constructor. apply IH.
Qed.
Lemma chain_mentions ss s : s ∈ mentioned (chain ss) → s ∈ ss.
Proof.
  unfold chain. destruct ss as [|s0 ss]; [done|]. cbn [tail]. revert s0.
  induction ss as [|s' ss IH]; intros s0; cbn; [by intros ?%elem_of_nil|].
  rewrite !elem_of_cons. intros [->|[->|H]]; [by left|by right; left|]. right. apply (IH s') in H. set_solver.
Qed.
Lemma chain_pair ss i a b : ss !! i = Some a → ss !! S i = Some b → (a, b, directTransition) ∈ chain ss.
Proof.
  intros Ha Hb. unfold chain. apply list_elem_of_fmap. exists (a, b). split; [done|].
  apply list_elem_of_lookup. exists i. apply lookup_zip_with_Some. exists a, b.
  split_and!; [done..|]. by destruct ss.
Qed.

Section Chain.
Context (n : NamespacedName) (ss : list (State W)) (calls : list call).
Context (Hnames : NoDup (map st_Name ss)) (Hempty : "" ∉ map st_Name ss) (Hcomplete : Forall completes ss).
Context (Hcalls : calls ≡ₚ chain ss).

Lemma chain_calls_ok : Forall call_ok calls.
Proof.
  rewrite Hcalls. apply Forall_forall. intros [[a b] p] Hin. pose proof Hin as Hin'.
  apply list_elem_of_fmap in Hin as ([a' b'] & [= -> -> ->] & _). rewrite Forall_forall in Hcomplete.
  assert (∀ s, s ∈ [a'; b'] → state_ok s) as Hok.
  { intros s Hs. apply Hcomplete, chain_mentions. unfold mentioned. apply list_elem_of_In, in_flat_map.
    exists (a', b', directTransition). split; by apply list_elem_of_In. }
  split_and!; [apply Hok; set_solver..|]. intros w r w' [= _ <-]. done.
Qed.

Lemma chain_state s : s ∈ mentioned calls → states (build n calls) !! st_Name s = Some s.
Proof.
  intros Hs. destruct (build_knows n calls s Hs) as [s' Hs']. rewrite Hs'. f_equal.
  destruct (build_states _ _ _ _ Hs') as [Hin Hname].
  assert (∀ x, x ∈ mentioned calls → x ∈ ss) as Hss.
  { intros x Hx. apply chain_mentions. unfold mentioned in *. by rewrite <- Hcalls. }
  pose proof (Hss _ Hs) as H1. pose proof (Hss _ Hin) as H2.
  apply list_elem_of_lookup in H1 as [i Hi], H2 as [j Hj].
  assert (i = j) as ->; [|congruence]. apply (NoDup_lookup _ i j (st_Name s) Hnames);
    rewrite list_lookup_fmap; [by rewrite Hi | rewrite Hj; cbn; by rewrite Hname].
Qed.

Lemma chain_next a b i : ss !! i = Some a → ss !! S i = Some b →
  default [] (allTransitions (build n calls) !! st_Name a) = [MkTransition a b directTransition].
Proof.
  intros Ha Hb. rewrite build_transitions. pose proof (chain_pair ss i a b Ha Hb) as Hp.
  assert (filter (λ c : call, st_Name c.1.1 = st_Name a) calls ≡ₚ [(a, b, directTransition)]) as HP.
  { rewrite Hcalls. apply reflexive_eq.
    apply (filter_unique (λ c : call, st_Name c.1.1) (chain ss) (a, b, directTransition)); [|done].
    eapply sublist_NoDup; [done | apply chain_from_names]. }
  symmetry in HP. apply Permutation_length_1_inv in HP. by rewrite HP.
Qed.

Lemma chain_member i s : ss !! i = Some s → (2 ≤ length ss)%nat → s ∈ mentioned calls.
Proof.
  intros Hs Hlen. unfold mentioned. rewrite Hcalls. apply list_elem_of_In, in_flat_map. destruct i as [|i].
  - destruct ss as [|a [|b ?]]; cbn in *; [lia..|]. injection Hs as ->. eexists; split; [by left|by left].
  - destruct (lookup_lt_is_Some_2 ss i) as [a Ha]; [apply lookup_lt_Some in Hs; lia|].
    exists (a, s, directTransition). split; [by apply list_elem_of_In, (chain_pair ss i)|by right; left].
Qed.

Lemma chain_step c i a b (w : W) :
  ss !! i = Some a → ss !! S i = Some b → saved w n = st_Name a →
  ∃ res w', Machine_Reconcile ((build n calls) <| currentState := c |>) w
            = (Ret ((build n calls) <| currentState := Some a |>, (res, None)), w')
    ∧ saved w' n = st_Name b.
Proof.
  intros Ha Hb Hsaved. assert (2 ≤ length ss)%nat as Hlen by (apply lookup_lt_Some in Hb; lia).
  assert (completes a) as ((Hkeep & _) & Henter & Hrec)
    by (rewrite Forall_forall in Hcomplete; by apply Hcomplete, list_elem_of_lookup_2 with i).
  pose proof (chain_state a (chain_member i a Ha Hlen)) as Hstate.
  assert (well_formed (build n calls)) as Hwf by by apply build_well_formed, chain_calls_ok.
  destruct (Load_ok n w) as [w1 E1], (Henter w1) as [w2 E2], (Hrec w2) as (res & w3 & E3),
    (Save_ok n (st_Name b) w3) as [w4 E4].
  exists res, w4. split.
  - unfold Machine_Reconcile. erewrite bind_Ret; [|apply attempt_Ret; unfold determineState;
      erewrite bind_Ret; [|apply wrap_Ret; cbn; rewrite nsName_build; exact E1]; cbn; by rewrite Hsaved, Hstate].
    cbn. erewrite bind_Ret; [|by apply attempt_Ret]. cbn. erewrite bind_Ret; [|exact E3]. cbn.
    unfold complete, getTransitionForState. cbn. rewrite (chain_next a b i Ha Hb).
    erewrite bind_Ret by done. cbn. rewrite nsName_build. by erewrite bind_Ret; [|by apply attempt_Ret].
  - apply Save_law in E4 as [->|[Hnil _]]; [done|]. exfalso. apply Hempty. rewrite <- Hnil.
    apply list_elem_of_fmap_2. by apply list_elem_of_lookup_2 with (S i).
Qed.

Fixpoint reconcile_times (k : nat) (m : Machine W) : IO W (Machine W) :=
  match k with
  | O => ret m
  | S k => r <- Machine_Reconcile m ;; reconcile_times k r.1
  end.

Lemma chain_run k : ∀ i c a b (w : W),
  ss !! i = Some a → ss !! (i + k)%nat = Some b → saved w n = st_Name a →
  ∃ m w', reconcile_times k ((build n calls) <| currentState := c |>) w = (Ret m, w') ∧ saved w' n = st_Name b.
Proof.
  induction k as [|k IH]; intros i c a b w Ha Hb Hsaved.
  - rewrite Nat.add_0_r in Hb. simplify_eq. by eexists _, w.
  - destruct (lookup_lt_is_Some_2 ss (S i)) as [a' Ha']; [apply lookup_lt_Some in Hb; lia|].
    destruct (chain_step c i a a' w Ha Ha' Hsaved) as (res & w1 & E & Hs).
    destruct (IH (S i) (Some a) a' b w1 Ha') as (m & w2 & E2 & H2); [by rewrite Nat.add_succ_comm|done|].
    exists m, w2. split; [|done]. cbn. by erewrite bind_Ret by exact E.
Qed.
End Chain.

(** [C38] A chain of states runs to its end: with distinct non-empty names, states that
    complete and a store that answers, the transitions may be added in any order, and
    from the first state [k] reconciliations reach the [k]-th, for every state of the chain. *)
Theorem chain_completes n ss calls first last k (w : W) :
  NoDup (map st_Name ss) → "" ∉ map st_Name ss → Forall completes ss → calls ≡ₚ chain ss →
  ss !! 0%nat = Some first → ss !! k = Some last → saved w n = st_Name first →
  ∃ m w', reconcile_times k (build n calls) w = (Ret m, w') ∧ saved w' n = st_Name last.
Proof.
  intros Hn He Hc Hp Hf Hl Hs. rewrite <- (build_current n calls).
  by apply (chain_run n ss calls Hn He Hc Hp k 0 None first last w).
Qed.
End Facts.

(** ** A concrete store and machine *)

Module Demo.
Definition store := gmap NamespacedName string.

#[global] Instance store_loader : SaveLoader store := {
  SaveNextState n s := λ w, (Ret (), <[n := s]> w);
  LoadNextState n := λ w, (Ret (default "" (w !! n)), w);
}.
#[global, program] Instance store_laws : SaveLoaderLaws store := { saved w n := default "" (w !! n) }.
Next Obligation. intros ? ? ? ? [= <- <-]. split; [done|]. by intros ? [= <-]. Qed.
Next Obligation. intros n s w r w' [= <- <-]. left. unfold store in *. cbn. by rewrite lookup_insert_eq. Qed.

Definition step (name : string) : State store := MkState name (ret (MkResult false 0, None, true)) None.
Definition resource : NamespacedName := MkNamespacedName "mongodb" "example".
Definition states : list (State store) := [step "Start"; step "Deploy"; step "Done"].
(** The transitions added last first. *)
Definition calls : list (call (W := store)) := rev (chain states).
Definition begin : store := {[ resource := "Start" ]}.

Lemma step_completes name : completes (step name).
Proof.
  split_and!; [split; [|done]; by intros ? ? ? [= _ <-]|intros w; by exists w|intros w; by eexists _, w].
Qed.
Lemma states_complete : Forall completes states.
Proof. repeat (constructor; [apply step_completes|]). constructor. Qed.
Lemma calls_ok : Forall call_ok calls.
Proof.
  repeat (constructor; [split_and!; [apply step_completes..|]; by intros ? ? ? [= _ <-]|]). constructor.
Qed.
End Demo.

Lemma chain_completes_witness :
  ∃ m w', reconcile_times 2 (build Demo.resource Demo.calls) Demo.begin = (Ret m, w')
    ∧ saved w' Demo.resource = "Done".
Proof.
  refine (chain_completes _ _ Demo.resource Demo.states Demo.calls (Demo.step "Start") (Demo.step "Done") 2 Demo.begin
    _ _ Demo.states_complete _ eq_refl eq_refl eq_refl).
  - intros n w. by exists w.
  - intros n s w. by eexists.
  - apply (bool_decide_unpack _). by vm_compute.
  - apply (bool_decide_unpack _). by vm_compute.
  - symmetry. apply Permutation_rev.
Defined.

(** The first predicate says no, the second is asked and its target saved. *)
Lemma Machine_Reconcile_refines_witness :
  let w' : Demo.store := {[ Demo.resource := "Done" ]} in
  let calls := [(Demo.step "Start", Demo.step "Deploy", FromBool false); (Demo.step "Start", Demo.step "Done", directTransition)] in
  machine_run Demo.resource calls Demo.begin no_result None w'
  ∧ ∃ s w2 w3 w4, known_as calls "Start" s ∧ st_Reconcile s w2 = (Ret (no_result, None, true), w3)
      ∧ chosen "Start" calls w3 "Done" w4.
Proof.
  intros w' calls. assert (Forall call_ok calls) as Hok.
  { repeat (constructor; [split_and!; [apply Demo.step_completes..|]; by intros ? ? ? [= _ <-]|]). constructor. }
  destruct (Machine_Reconcile_refines Demo.resource calls None Demo.begin no_result None w' Hok) as [[Hrun _] Hsaved].
  assert (machine_run Demo.resource calls Demo.begin no_result None w') as H.
  { apply Hrun. eexists. vm_compute. reflexivity. }
  split; [exact H|]. apply (Hsaved H). vm_compute. discriminate.
Defined.

Lemma machine_never_lost_witness :
  let m := build Demo.resource Demo.calls in
  let w1 := (Machine_Reconcile m Demo.begin).2 in
  known_or_done m (saved w1 Demo.resource) ∧ saved w1 Demo.resource = "Deploy".
Proof.
  intros m w1. split; [|by vm_compute].
  apply (machine_never_lost Demo.resource Demo.calls Demo.begin w1 Demo.calls_ok).
  - left. by eexists.
  - eapply (reconciled_step _ _ None); [apply surjective_pairing|]. constructor.
Defined.
