(* ===== verification/Agent.v ===== *)
(** * The agents

    pkg/agent/agent_readiness.go and agentflags.go: whether the agents of all pods
    run the automation config of a given version. *)
From S2P Require Import Prelude GoStd K8s Scale Json Codec ScramCreds ACTypes Types Kube KubeOps KubeFacts.
Local Open Scope Z_scope.

(** [cast.ToInt] of github.com/spf13/cast on a string, and what it is relied on
    for: the decimal text of an integer is read back. *)
Class Cast := ToInt : string → Z.
Class CastOk `{Cast} : Prop := ToInt_Itoa : ∀ z, in_int64 z → ToInt (Itoa z) = z.

Record StartupParameter := MkStartupParameter { param_Key : string; param_Value : string }.

Definition StartupParametersToAgentFlag {api : K8sApi} (parameters : list StartupParameter) : EnvVar :=
  let agentParams :=
    foldl (λ acc param, acc +:+ " -" +:+ param_Key param +:+ " " +:+ param_Value param) "" parameters in
  MkEnvVar "AGENT_FLAGS" agentParams None.

Definition podAnnotationAgentVersion : string := "agent.mongodb.com/version".

Section Agent.
Context {api : K8sApi} `{Cast}.

Definition ReachedGoalState (pod : Pod) (targetConfigVersion : Z) : bool :=
  match gm (om_Annotations (pod_ObjectMeta pod)) !! podAnnotationAgentVersion with
  | None => false
  | Some currentAgentVersion => ToInt currentAgentVersion =? targetConfigVersion
  end.

(** [make] panics on a negative count. *)
Definition statefulSetPodNames (sts : StatefulSet) (currentMembersCount : Z) : outcome (list string) :=
  if currentMembersCount <? 0 then Panic "makeslice: len out of range"
  else Ret (map (λ i, om_Name (sts_ObjectMeta sts) +:+ "-" +:+ Itoa i) (indices currentMembersCount)).

Section Ops.
Context {W : Type} `{!KubeClient W}.

(** The loop: [None] is the early return of false, [Some] the pods not found. *)
Fixpoint check_pods (ns : string) (targetConfigVersion : Z) (names podsNotFound : list string)
    : IO W (option (list string)) :=
  match names with
  | [] => ret (Some podsNotFound)
  | podName :: rest =>
      r <- attempt (GetPod (MkNamespacedName podName ns)) ;;
      match r with
      | inr err =>
          if IsNotFound err then check_pods ns targetConfigVersion rest (podsNotFound ++ [podName])
          else throw err
      | inl p =>
          if negb (ReachedGoalState p targetConfigVersion) then ret None
          else check_pods ns targetConfigVersion rest podsNotFound
      end
  end.

Definition AllReachedGoalState (sts : StatefulSet) (desiredMemberCount targetConfigVersion : Z) : IO W bool :=
  names <- lift (statefulSetPodNames sts desiredMemberCount) ;;
  r <- check_pods (om_Namespace (sts_ObjectMeta sts)) targetConfigVersion names [] ;;
  match r with
  | None => ret false
  | Some podsNotFound =>
      if Z.of_nat (length podsNotFound) =? desiredMemberCount then ret true
      else if (0 <? length podsNotFound)%nat then ret false
      else ret true
  end.
End Ops.

(** ** What readiness of the agents means *)

Definition pod_of (c : cluster_state) (sts : StatefulSet) (i : Z) : option Pod :=
  stored c KPod (MkNamespacedName (om_Name (sts_ObjectMeta sts) +:+ "-" +:+ Itoa i)
                   (om_Namespace (sts_ObjectMeta sts))).

Section Facts.
Context {W : Type} `{!KubeClient W, !KubeLaws W}.

Lemma check_pods_Ret ns target names : ∀ missing (w : W) r w',
  check_pods ns target names missing w = (Ret r, w') →
  cluster w' = cluster w ∧
  let pod name := stored (cluster w) KPod (MkNamespacedName name ns) in
  match r with
  | Some nf =>
      Forall (λ name, match pod name with Some p => ReachedGoalState p target = true | None => True end) names
      ∧ nf = missing ++ filter (λ name, pod name = None) names
  | None => ∃ name p, name ∈ names ∧ pod name = Some p ∧ ReachedGoalState p target = false
  end.
Proof.
  induction names as [|name names IH]; intros missing w r w' E; cbn [check_pods] in E.
  { injection E as <- <-. split; [done|]. split; [constructor|]. by rewrite app_nil_r. }
  apply bind_Ret_inv in E as (x & w1 & E1 & E2).
  apply (attempt_Get_inv KPod) in E1 as [HC [(p & [= ->] & Hp)|(e & [= ->] & He)]].
  - destruct (ReachedGoalState p target) eqn:Hg; cbn [negb] in E2.
    + apply IH in E2 as [HC2 HR]. rewrite HC in HC2, HR. split; [done|]. destruct r as [nf|]; cbn zeta in *.
      * destruct HR as [HF ->]. split; [constructor; [by rewrite Hp | done]|].
        rewrite filter_cons_False by congruence. done.
      * destruct HR as (n' & p' & Hin & ?). exists n', p'. split; [by constructor | done].
    + injection E2 as <- <-. split; [done|]. exists name, p. split; [constructor | done].
  - destruct (IsNotFound e); [|done]. apply IH in E2 as [HC2 HR]. rewrite HC in HC2, HR. split; [done|].
    specialize (He eq_refl). destruct r as [nf|]; cbn zeta in *.
    + destruct HR as [HF ->]. split; [constructor; [by rewrite He | done]|].
      rewrite filter_cons_True by done. by rewrite <- app_assoc.
    + destruct HR as (n' & p' & Hin & ?). exists n', p'. split; [by constructor | done].
Qed.

Lemma missing_counts (pod : string → option Pod) names :
  (length (filter (λ name, pod name = None) names) = length names ↔ Forall (λ name, pod name = None) names)
  ∧ (length (filter (λ name, pod name = None) names) = 0%nat ↔ Forall (λ name, is_Some (pod name)) names).
Proof.
  induction names as [|x l [IH1 IH2]]; [by split|]. rewrite !Forall_cons, filter_cons.
  pose proof (length_filter (λ name, pod name = None) l). rewrite <- IH1, <- IH2.
  destruct (decide (pod x = None)) as [Hx|Hx]; cbn [length].
  - rewrite Hx. split; [split; [intros; split; [done|lia] | lia]|]. split; [lia | by intros [[] _]].
  - apply not_eq_None_Some in Hx as [p Hx]. rewrite Hx. split; [|naive_solver]. split; [lia | by intros [[=] _]].
Qed.

Definition goal_reached (c : cluster_state) (sts : StatefulSet) (n target : Z) : Prop :=
  (∀ i, 0 ≤ i < n → ∃ p, pod_of c sts i = Some p ∧ ReachedGoalState p target = true)
  ∨ (∀ i, 0 ≤ i < n → pod_of c sts i = None).

Lemma in_pod_names sts n name :
  name ∈ map (λ i, om_Name (sts_ObjectMeta sts) +:+ "-" +:+ Itoa i) (indices n)
  ↔ ∃ i, 0 ≤ i < n ∧ name = om_Name (sts_ObjectMeta sts) +:+ "-" +:+ Itoa i.
Proof.
  unfold indices. rewrite list_elem_of_fmap. split.
  - intros (i & -> & Hi%elem_of_seqZ). exists i. split; [lia | done].
  - intros (i & Hi & ->). exists i. split; [done|]. apply elem_of_seqZ. lia.
Qed.

Lemma goal_reached_names c sts n target :
  let pod name := stored c KPod (MkNamespacedName name (om_Namespace (sts_ObjectMeta sts))) in
  let names := map (λ i, om_Name (sts_ObjectMeta sts) +:+ "-" +:+ Itoa i) (indices n) in
  goal_reached c sts n target ↔
  Forall (λ name, ∃ p, pod name = Some p ∧ ReachedGoalState p target = true) names
  ∨ Forall (λ name, pod name = None) names.
Proof.
  intros pod names. unfold goal_reached, pod_of, names. rewrite !Forall_forall.
  setoid_rewrite in_pod_names. naive_solver.
Qed.

Lemma check_pods_goal sts n target names (w : W) r w' :
  names = map (λ i, om_Name (sts_ObjectMeta sts) +:+ "-" +:+ Itoa i) (indices n) →
  check_pods (om_Namespace (sts_ObjectMeta sts)) target names [] w = (Ret r, w') →
  goal_reached (cluster w) sts n target ↔
  ∃ nf, r = Some nf ∧ (length nf = length names ∨ length nf = 0%nat).
Proof.
  intros Hnames E. apply check_pods_Ret in E as [_ HR]. rewrite goal_reached_names, <- Hnames. cbn zeta in *.
  destruct r as [nf|].
  - destruct HR as [HF ->]. rewrite app_nil_l.
    set (pod := λ name, stored (cluster w) KPod (MkNamespacedName name (om_Namespace (sts_ObjectMeta sts)))) in *.
    destruct (missing_counts pod names) as [H1 H2]. split.
    + intros [Hg|Hg]; eexists; (split; [reflexivity|]); [right; apply H2 | left; by apply H1].
      eapply Forall_impl; [exact Hg|]. intros x (p & Hp & _). by exists p.
    + intros (nf & [= <-] & [Hl|Hl]); [right; by apply H1 | left; apply H2 in Hl].
      rewrite Forall_forall in *. intros x Hx. destruct (Hl x Hx) as [p Hp]. exists p. split; [done|].
      specialize (HF x Hx). unfold pod in *. by rewrite Hp in HF.
  - destruct HR as (name & p & Hin & Hp & Hg0). split; [|naive_solver]. rewrite !Forall_forall. intros [Hg|Hg].
    + destruct (Hg name Hin) as (p' & Hp' & ?). congruence.
    + specialize (Hg name Hin). congruence.
Qed.

Lemma AllReachedGoalState_inv sts n target (w : W) b w' :
  AllReachedGoalState sts n target w = (Ret b, w') →
  cluster w' = cluster w ∧ (b = true ↔ goal_reached (cluster w) sts n target).
Proof.
  unfold AllReachedGoalState, statefulSetPodNames. intros E.
  apply bind_Ret_inv in E as (names & w1 & E1 & E2). destruct (Z.ltb_spec n 0) as [|Hn]; [done|].
  injection E1 as Hnames <-. symmetry in Hnames. apply bind_Ret_inv in E2 as (r & w2 & E2 & E3).
  rewrite (check_pods_goal _ _ _ _ _ _ _ Hnames E2). apply check_pods_Ret in E2 as [HC _].
  assert (length names = Z.to_nat n) as Hlen by (rewrite Hnames; unfold indices; rewrite length_map; apply length_seqZ).
  destruct r as [nf|]; [|injection E3 as <- <-; naive_solver].
  destruct (Z.eqb_spec (Z.of_nat (length nf)) n); [|destruct (Nat.ltb_spec 0 (length nf))];
    injection E3 as <- <-; (split; [done|]); split; try done.
  - intros _. exists nf. split; [done | left; lia].
  - intros (nf' & [= <-] & ?). lia.
  - intros _. exists nf. split; [done | right; lia].
Qed.

(** [C25] The agents have reached the goal state exactly when every one of the first
    [n] pods exists and its agent reports the version of the config, or when none
    of these pods exists yet; looking changes nothing. *)
Theorem AllReachedGoalState_spec sts n target (w : W) b w' :
  AllReachedGoalState sts n target w = (Ret b, w') →
  cluster w' = cluster w ∧ (b = true ↔ goal_reached (cluster w) sts n target).
Proof. apply AllReachedGoalState_inv. Qed.
End Facts.
End Agent.

(** A reader of decimal versions, for concrete runs. *)
Definition decimal_cast : Cast := λ s, default 0 (ParseInt s).
#[global] Instance decimal_cast_ok : @CastOk decimal_cast.
Proof. intros z _. unfold ToInt, decimal_cast. by rewrite ParseInt_Itoa. Qed.

Definition agent_pod (i : Z) (version : string) : Pod :=
  MkPod (emptyMeta <| om_Name := "mdb-" +:+ Itoa i |> <| om_Namespace := "ns" |>
          <| om_Annotations := Some {[ podAnnotationAgentVersion := version ]} |>).

Lemma AllReachedGoalState_spec_witness :
  let c := put (put (put (empty_cluster (api := string_api)) KPod (agent_pod 0 "5")) KPod (agent_pod 1 "5"))
             KPod (agent_pod 2 "4") in
  let sts := emptyStatefulSet <| sts_ObjectMeta := emptyMeta <| om_Name := "mdb" |> <| om_Namespace := "ns" |> |> in
  let run n := @AllReachedGoalState string_api decimal_cast cluster_state mock_client sts n 5 c in
  (run 2).1 = Ret true ∧ (run 3).1 = Ret false
  ∧ ((run 2).2 = c ∧ (true = true ↔ @goal_reached string_api decimal_cast c sts 2 5)).
Proof.
  intros c sts run. assert ((run 2).1 = Ret true) as E by (vm_compute; reflexivity).
  split; [exact E|]. split; [vm_compute; reflexivity|].
  apply (@AllReachedGoalState_spec string_api decimal_cast cluster_state mock_client mock_laws sts 2 5 c true).
  by apply run_pair.
Defined.
