(* ===== verification/Health.v ===== *)
(** * The agent's health file

    The MongoDB agent writes its state to a JSON file, which the readiness probe and the
    version upgrade hook read: package time as far as it is needed to read it, and the
    types of pkg/readiness/health/health.go and pkg/agent/agenthealth.go.  Values of
    these types are only ever decoded. *)
From S2P Require Import Prelude GoStd K8s Json Codec.
Local Open Scope Z_scope.

(** ** Package time

    An instant is the number of nanoseconds since the beginning of year 1, UTC. *)
Module time.
Definition Time : Type := Z.
Definition Second : Z := 10 ^ 9.
Definition Minute : Z := 60 * Second.
Definition Before (t u : Time) : bool := t <? u.
Definition After (t u : Time) : bool := u <? t.
Definition Add (t : Time) (d : Z) : Time := t + d.
Definition unixToInternal : Z := 62135596800.
(** [time.Unix(sec, 0)]: the seconds since year 1 are an [int64]. *)
Definition Unix (sec : Z) : Time := int64 (sec + unixToInternal) * Second.

(** Days since 1970-01-01 of a date of the proleptic Gregorian calendar; years are
    counted from March, so that a leap day is the last of its year. *)
Definition days_from_civil (year month day : Z) : Z :=
  let y := if month <=? 2 then year - 1 else year in
  let era := y / 400 in
  let yoe := y mod 400 in
  let doy := (153 * (if 2 <? month then month - 3 else month + 9) + 2) / 5 + day - 1 in
  era * 146097 + (yoe * 365 + yoe / 4 - yoe / 100 + doy) - 719468.
Definition is_leap (year : Z) : bool :=
  (year mod 4 =? 0) && (negb (year mod 100 =? 0) || (year mod 400 =? 0)).
Definition daysIn (month year : Z) : Z :=
  if month =? 2 then (if is_leap year then 29 else 28)
  else if bool_decide (month ∈ [4; 6; 9; 11]) then 30 else 31.

(** [getnum(s, fixed)]: a number of two digits, or of one if it is not fixed. *)
Definition digit (s : string) : option (Z * string) :=
  match s with
  | String a s' => (λ d, (Z.of_N d, s')) <$> digit_value a
  | EmptyString => None
  end.
Definition getnum (fixed : bool) (s : string) : option (Z * string) :=
  '(a, s1) ← digit s;
  match digit s1 with
  | Some (b, s2) => Some (10 * a + b, s2)
  | None => if fixed then None else Some (a, s1)
  end.
Definition year4 (s : string) : option (Z * string) :=
  '(a, s1) ← digit s; '(b, s2) ← digit s1; '(c, s3) ← digit s2; '(d, s4) ← digit s3;
  Some (1000 * a + 100 * b + 10 * c + d, s4).
Definition skip (c : string) (s : string) : option string := drop_prefix c s.
Definition in_range (lo hi z : Z) : option unit := if (lo <=? z) && (z <=? hi) then Some () else None.

(** A fraction of the second: a dot and at least one digit; more than nine digits
    are accepted only after leading zeros. *)
Definition fraction (s : string) : option (Z * string) :=
  match s with
  | String c s' =>
      if bool_decide (c = chr 46) && starts_with_digit s' then
        let '(ns, rest) := read_digits 0 s' in
        let n := Z.of_nat (String.length s' - String.length rest) in
        if Z.of_N ns <? 10 ^ 9 then Some (Z.of_N ns * 10 ^ Z.max 0 (9 - n), rest) else None
      else Some (0, s)
  | EmptyString => Some (0, s)
  end.

(** [Z], or an offset [+hh:mm]. *)
Definition zone (s : string) : option (Z * string) :=
  match s with
  | String c s' =>
      if bool_decide (c = chr 90) then Some (0, s')
      else
        sign ← (if bool_decide (c = chr 43) then Some 1 else if bool_decide (c = chr 45) then Some (-1) else None);
        '(h, s1) ← getnum true s'; s2 ← skip ":" s1; '(m, s3) ← getnum true s2;
        Some (sign * ((h * 60 + m) * 60), s3)
  | EmptyString => None
  end.

(** [time.Parse(time.RFC3339, s)]. *)
Definition ParseRFC3339 (s : string) : option Time :=
  '(year, s) ← year4 s; s ← skip "-" s;
  '(month, s) ← getnum true s; _ ← in_range 1 12 month; s ← skip "-" s;
  '(day, s) ← getnum true s; s ← skip "T" s;
  '(hour, s) ← getnum false s; _ ← in_range 0 23 hour; s ← skip ":" s;
  '(min, s) ← getnum true s; _ ← in_range 0 59 min; s ← skip ":" s;
  '(sec, s) ← getnum true s; _ ← in_range 0 59 sec;
  '(nsec, s) ← fraction s;
  '(offset, s) ← zone s;
  _ ← in_range 1 (daysIn month year) day;
  match s with
  | EmptyString =>
      Some ((days_from_civil year month day * 86400 + hour * 3600 + min * 60 + sec - offset + unixToInternal) * Second + nsec)
  | _ => None
  end.

Example parse_epoch : ParseRFC3339 "1970-01-01T00:00:00Z" = Some (Unix 0).
Proof. vm_compute. reflexivity. Qed.
Example parse_sample : ParseRFC3339 "2019-09-11T09:58:43.834514922+02:00" = Some (Unix 1568188723 + 834514922).
Proof. vm_compute. reflexivity. Qed.
Example parse_no_date : ParseRFC3339 "2019-02-29T00:00:00Z" = None.
Proof. vm_compute. reflexivity. Qed.
End time.

(** The current time, read from the world. *)
Class Clock (W : Type) := Now : IO W time.Time.

(** ** Decoding *)

(** [json.Unmarshal] into a slice, a pointer and a map, from that of the element. *)
Definition dec_slice {A} (dec : json → option A) (j : json) : option (list A) :=
  match j with JArr l => mapM dec l | JNull => Some [] | _ => None end.
Definition dec_ptr {A} (dec : json → option A) (j : json) : option (option A) :=
  match j with JNull => Some None | _ => Some <$> dec j end.
Definition dec_map {A} (dec : json → option A) (j : json) : option (gmap string A) :=
  match j with
  | JObj l => (λ l, foldl (λ m '(k, v), <[k := v]> m) ∅ l) <$> mapM (λ kv : string * json, (λ v, (kv.1, v)) <$> dec kv.2) l
  | JNull => Some ∅
  | _ => None
  end.
Definition dec_time (j : json) : option time.Time := match j with JStr s => time.ParseRFC3339 s | _ => None end.

(** ** pkg/readiness/health *)

Module health.
Definition replicationStatus : Type := Z.
Definition replicationStatusStartup : replicationStatus := 0.
Definition replicationStatusPrimary : replicationStatus := 1.
Definition replicationStatusSecondary : replicationStatus := 2.
Definition replicationStatusRecovering : replicationStatus := 3.
Definition replicationStatusStartup2 : replicationStatus := 5.
Definition replicationStatusUnknown : replicationStatus := 6.
Definition replicationStatusArbiter : replicationStatus := 7.
Definition replicationStatusDown : replicationStatus := 8.
Definition replicationStatusRollback : replicationStatus := 9.
Definition replicationStatusRemoved : replicationStatus := 10.
Definition replicationStatusUndefined : replicationStatus := -1.

Record StepStatus := MkStepStatus {
  ss_Step : string; ss_Started : option time.Time; ss_Completed : option time.Time; ss_Result : string }.
(** Slices of pointers: an element [null] is the nil pointer. *)
Record MoveStatus := MkMoveStatus { ms_Steps : list (option StepStatus) }.
Record PlanStatus := MkPlanStatus {
  ps_Moves : list (option MoveStatus); ps_Started : option time.Time; ps_Completed : option time.Time }.
Record MmsDirectorStatus := MkMmsDirectorStatus {
  ds_Name : string; ds_LastGoalStateClusterConfigVersion : Z; ds_Plans : list (option PlanStatus) }.
Record processHealth := MkProcessHealth {
  ph_IsInGoalState : bool; ph_LastMongoUpTime : Z; ph_ExpectedToBeUp : bool; ph_ReplicaStatus : option replicationStatus }.
Record Status := MkStatus { Healthiness : gmap string processHealth; ProcessPlans : gmap string MmsDirectorStatus }.

Definition dec_StepStatus : json → option StepStatus :=
  dec_struct (MkStepStatus "" None None "") (λ get_,
    x0 ← of_json (get_ "step"); x1 ← dec_ptr dec_time (get_ "started"); x2 ← dec_ptr dec_time (get_ "completed");
    x3 ← of_json (get_ "result"); Some (MkStepStatus x0 x1 x2 x3)).
Definition dec_MoveStatus : json → option MoveStatus :=
  dec_struct (MkMoveStatus []) (λ get_, x0 ← dec_slice (dec_ptr dec_StepStatus) (get_ "steps"); Some (MkMoveStatus x0)).
Definition dec_PlanStatus : json → option PlanStatus :=
  dec_struct (MkPlanStatus [] None None) (λ get_,
    x0 ← dec_slice (dec_ptr dec_MoveStatus) (get_ "moves"); x1 ← dec_ptr dec_time (get_ "started");
    x2 ← dec_ptr dec_time (get_ "completed"); Some (MkPlanStatus x0 x1 x2)).
Definition dec_MmsDirectorStatus : json → option MmsDirectorStatus :=
  dec_struct (MkMmsDirectorStatus "" 0 []) (λ get_,
    x0 ← of_json (get_ "name"); x1 ← of_json (get_ "lastGoalVersionAchieved");
    x2 ← dec_slice (dec_ptr dec_PlanStatus) (get_ "plans"); Some (MkMmsDirectorStatus x0 x1 x2)).
Definition dec_processHealth : json → option processHealth :=
  dec_struct (MkProcessHealth false 0 false None) (λ get_,
    x0 ← of_json (get_ "IsInGoalState"); x1 ← of_json (get_ "LastMongoUpTime"); x2 ← of_json (get_ "ExpectedToBeUp");
    x3 ← of_json (get_ "ReplicationStatus"); Some (MkProcessHealth x0 x1 x2 x3)).
Definition dec_Status : json → option Status :=
  dec_struct (MkStatus ∅ ∅) (λ get_,
    x0 ← dec_map dec_processHealth (get_ "statuses"); x1 ← dec_map dec_MmsDirectorStatus (get_ "mmsStatus");
    Some (MkStatus x0 x1)).

(** Ready to be read from: primary or secondary, no member of a replica set, or not
    reported by an older agent. *)
Definition IsReadyState (h : processHealth) : bool :=
  match ph_ReplicaStatus h with
  | None => true
  | Some status =>
      if status =? replicationStatusUndefined then true
      else (status =? replicationStatusPrimary) || (status =? replicationStatusSecondary)
  end.
End health.

(** ** pkg/agent/agenthealth.go *)

Module agent.
Record StepStatus := MkStepStatus {
  ss_Step : string; ss_Started : option time.Time; ss_Completed : option time.Time; ss_Result : string }.
Record MoveStatus := MkMoveStatus { ms_Move : string; ms_Steps : list (option StepStatus) }.
Record PlanStatus := MkPlanStatus {
  ps_Moves : list (option MoveStatus); ps_Started : option time.Time; ps_Completed : option time.Time }.
Record MmsDirectorStatus := MkMmsDirectorStatus {
  ds_Name : string; ds_LastGoalStateClusterConfigVersion : Z; ds_Plans : list (option PlanStatus) }.
Record ProcessHealth := MkProcessHealth {
  ph_IsInGoalState : bool; ph_ExpectedToBeUp : bool; ph_LastMongoUpTime : Z }.
Record Health := MkHealth { Healthiness : gmap string ProcessHealth; ProcessPlans : gmap string MmsDirectorStatus }.
Definition emptyHealth : Health := MkHealth ∅ ∅.

Definition dec_StepStatus : json → option StepStatus :=
  dec_struct (MkStepStatus "" None None "") (λ get_,
    x0 ← of_json (get_ "step"); x1 ← dec_ptr dec_time (get_ "started"); x2 ← dec_ptr dec_time (get_ "completed");
    x3 ← of_json (get_ "result"); Some (MkStepStatus x0 x1 x2 x3)).
Definition dec_MoveStatus : json → option MoveStatus :=
  dec_struct (MkMoveStatus "" []) (λ get_,
    x0 ← of_json (get_ "move"); x1 ← dec_slice (dec_ptr dec_StepStatus) (get_ "steps"); Some (MkMoveStatus x0 x1)).
Definition dec_PlanStatus : json → option PlanStatus :=
  dec_struct (MkPlanStatus [] None None) (λ get_,
    x0 ← dec_slice (dec_ptr dec_MoveStatus) (get_ "moves"); x1 ← dec_ptr dec_time (get_ "started");
    x2 ← dec_ptr dec_time (get_ "completed"); Some (MkPlanStatus x0 x1 x2)).
Definition dec_MmsDirectorStatus : json → option MmsDirectorStatus :=
  dec_struct (MkMmsDirectorStatus "" 0 []) (λ get_,
    x0 ← of_json (get_ "name"); x1 ← of_json (get_ "lastGoalVersionAchieved");
    x2 ← dec_slice (dec_ptr dec_PlanStatus) (get_ "plans"); Some (MkMmsDirectorStatus x0 x1 x2)).
Definition dec_ProcessHealth : json → option ProcessHealth :=
  dec_struct (MkProcessHealth false false 0) (λ get_,
    x0 ← of_json (get_ "IsInGoalState"); x1 ← of_json (get_ "ExpectedToBeUp"); x2 ← of_json (get_ "LastMongoUpTime");
    Some (MkProcessHealth x0 x1 x2)).
Definition dec_Health : json → option Health :=
  dec_struct emptyHealth (λ get_,
    x0 ← dec_map dec_ProcessHealth (get_ "statuses"); x1 ← dec_map dec_MmsDirectorStatus (get_ "mmsStatus");
    Some (MkHealth x0 x1)).
End agent.

(** ** Files

    What [ioutil.ReadAll] makes of an open file: its bytes, or an error. *)
Definition Reader : Type := outcome string.
Class Files (W : Type) := os_Open : string → IO W Reader.
