(* ===== verification/SpecJson.v ===== *)
(** * The saved configuration

    The JSON form of [MongoDBCommunitySpec], which the operator keeps in an
    annotation after every successful reconciliation and compares the next spec
    with.  [json.Marshal] is given the spec by value, so the [MarshalJSON] methods
    of [StatefulSetSpecWrapper] and [MongodConfiguration], which have pointer
    receivers, do not run: both fields are saved as empty objects. *)
From S2P Require Import Prelude GoStd K8s Scale Json Codec ScramCreds ACTypes Types.
Local Open Scope Z_scope.

(** ** The types the spec is made of *)

#[global] Instance GoJson_Role : GoJson V1.Role.
Proof.
  refine (struct_GoJson (λ r, [member "db" (V1.role_DB r); member "name" (V1.role_Name r)])
    (V1.MkRole "" "")
    (λ f, x0 ← of_json (f "db"); x1 ← of_json (f "name"); Some (V1.MkRole x0 x1))
    (λ r, json_wf (V1.role_DB r) && json_wf (V1.role_Name r)) _).
  struct_laws.
Defined.
#[global] Instance NonNull_Role : NonNull V1.Role.
Proof. done. Qed.

#[global] Instance GoJson_SecretKeyReference : GoJson V1.SecretKeyReference.
Proof.
  refine (struct_GoJson (λ r, [member "name" (V1.ref_Name r); member "key" (V1.ref_Key r)])
    (V1.MkSecretKeyReference "" "")
    (λ f, x0 ← of_json (f "name"); x1 ← of_json (f "key"); Some (V1.MkSecretKeyReference x0 x1))
    (λ r, json_wf (V1.ref_Name r) && json_wf (V1.ref_Key r)) _).
  struct_laws.
Defined.

#[global] Instance GoJson_User : GoJson V1.MongoDBUser.
Proof.
  refine (struct_GoJson
    (λ r, [member "name" (V1.user_Name r); member "db" (V1.user_DB r);
           member "passwordSecretRef" (V1.user_PasswordSecretRef r); member "roles" (V1.user_Roles r);
           member "scramCredentialsSecretName" (V1.user_ScramCredentialsSecretName r)])
    (V1.MkMongoDBUser "" "" zero None "")
    (λ f, x0 ← of_json (f "name"); x1 ← of_json (f "db"); x2 ← of_json (f "passwordSecretRef");
      x3 ← of_json (f "roles"); x4 ← of_json (f "scramCredentialsSecretName");
      Some (V1.MkMongoDBUser x0 x1 x2 x3 x4))
    (λ r, json_wf (V1.user_Name r) && json_wf (V1.user_DB r) && json_wf (V1.user_PasswordSecretRef r)
       && json_wf (V1.user_Roles r) && json_wf (V1.user_ScramCredentialsSecretName r)) _).
  struct_laws.
Defined.

#[global] Instance GoJson_Resource : GoJson V1.Resource.
Proof.
  refine (struct_GoJson
    (λ r, [omitempty "db" (V1.res_DB r); omitempty "collection" (V1.res_Collection r);
           omitempty "cluster" (V1.res_Cluster r); omitempty "anyResource" (V1.res_AnyResource r)])
    (V1.MkResource None None false false)
    (λ f, x0 ← of_json (f "db"); x1 ← of_json (f "collection"); x2 ← of_json (f "cluster");
      x3 ← of_json (f "anyResource"); Some (V1.MkResource x0 x1 x2 x3))
    (λ r, json_wf (V1.res_DB r) && json_wf (V1.res_Collection r) && json_wf (V1.res_Cluster r)
       && json_wf (V1.res_AnyResource r)) _).
  struct_laws.
Defined.

#[global] Instance GoJson_Privilege : GoJson V1.Privilege.
Proof.
  refine (struct_GoJson (λ r, [member "resource" (V1.priv_Resource r); member "actions" (V1.priv_Actions r)])
    (V1.MkPrivilege zero None)
    (λ f, x0 ← of_json (f "resource"); x1 ← of_json (f "actions"); Some (V1.MkPrivilege x0 x1))
    (λ r, json_wf (V1.priv_Resource r) && json_wf (V1.priv_Actions r)) _).
  struct_laws.
Defined.
#[global] Instance NonNull_Privilege : NonNull V1.Privilege.
Proof. done. Qed.

#[global] Instance GoJson_AuthenticationRestriction : GoJson V1.AuthenticationRestriction.
Proof.
  refine (struct_GoJson
    (λ r, [member "clientSource" (V1.restr_ClientSource r); member "serverAddress" (V1.restr_ServerAddress r)])
    (V1.MkAuthenticationRestriction None None)
    (λ f, x0 ← of_json (f "clientSource"); x1 ← of_json (f "serverAddress");
      Some (V1.MkAuthenticationRestriction x0 x1))
    (λ r, json_wf (V1.restr_ClientSource r) && json_wf (V1.restr_ServerAddress r)) _).
  struct_laws.
Defined.

#[global] Instance GoJson_CustomRole : GoJson V1.CustomRole.
Proof.
  refine (struct_GoJson
    (λ r, [member "role" (V1.crole_Role r); member "db" (V1.crole_DB r);
           member "privileges" (V1.crole_Privileges r); member "roles" (V1.crole_Roles r);
           omitempty "authenticationRestrictions" (V1.crole_AuthenticationRestrictions r)])
    (V1.MkCustomRole "" "" None None [])
    (λ f, x0 ← of_json (f "role"); x1 ← of_json (f "db"); x2 ← of_json (f "privileges");
      x3 ← of_json (f "roles"); x4 ← of_json (f "authenticationRestrictions");
      Some (V1.MkCustomRole x0 x1 x2 x3 x4))
    (λ r, json_wf (V1.crole_Role r) && json_wf (V1.crole_DB r) && json_wf (V1.crole_Privileges r)
       && json_wf (V1.crole_Roles r) && json_wf (V1.crole_AuthenticationRestrictions r)) _).
  struct_laws.
Defined.

#[global] Instance GoJson_LocalObjectReference : GoJson V1.LocalObjectReference.
Proof.
  refine (struct_GoJson (λ r, [member "name" (V1.lref_Name r)]) (V1.MkLocalObjectReference "")
    (λ f, x0 ← of_json (f "name"); Some (V1.MkLocalObjectReference x0)) (λ r, json_wf (V1.lref_Name r)) _).
  struct_laws.
Defined.

#[global] Instance GoJson_TLS : GoJson V1.TLS.
Proof.
  refine (struct_GoJson
    (λ r, [member "enabled" (V1.tls_Enabled r); member "optional" (V1.tls_Optional r);
           member "certificateKeySecretRef" (V1.tls_CertificateKeySecret r);
           member "caConfigMapRef" (V1.tls_CaConfigMap r)])
    (V1.MkTLS false false zero zero)
    (λ f, x0 ← of_json (f "enabled"); x1 ← of_json (f "optional"); x2 ← of_json (f "certificateKeySecretRef");
      x3 ← of_json (f "caConfigMapRef"); Some (V1.MkTLS x0 x1 x2 x3))
    (λ r, json_wf (V1.tls_Enabled r) && json_wf (V1.tls_Optional r) && json_wf (V1.tls_CertificateKeySecret r)
       && json_wf (V1.tls_CaConfigMap r)) _).
  struct_laws.
Defined.

#[global] Instance GoJson_Authentication : GoJson V1.Authentication.
Proof.
  refine (struct_GoJson
    (λ r, [member "modes" (V1.auth_Modes r); omitempty "ignoreUnknownUsers" (V1.auth_IgnoreUnknownUsers r)])
    (V1.MkAuthentication None None)
    (λ f, x0 ← of_json (f "modes"); x1 ← of_json (f "ignoreUnknownUsers"); Some (V1.MkAuthentication x0 x1))
    (λ r, json_wf (V1.auth_Modes r) && json_wf (V1.auth_IgnoreUnknownUsers r)) _).
  struct_laws.
Defined.

#[global] Instance GoJson_Security : GoJson V1.Security.
Proof.
  refine (struct_GoJson
    (λ r, [member "authentication" (V1.sec_Authentication r); member "tls" (V1.sec_TLS r);
           omitempty "roles" (V1.sec_Roles r)])
    (V1.MkSecurity zero zero [])
    (λ f, x0 ← of_json (f "authentication"); x1 ← of_json (f "tls"); x2 ← of_json (f "roles");
      Some (V1.MkSecurity x0 x1 x2))
    (λ r, json_wf (V1.sec_Authentication r) && json_wf (V1.sec_TLS r) && json_wf (V1.sec_Roles r)) _).
  struct_laws.
Defined.

(** ** The JSON of the additional mongod configuration

    The methods of [MongodConfiguration], over its map.  The Kubernetes client calls
    them, on the resources it reads and writes; a decoded object is added to what the
    map held before, and [null] leaves it nil. *)
Definition MongodConfiguration_MarshalJSON (m : GoMap json) : string := print_json (to_json m).
Definition MongodConfiguration_UnmarshalJSON (m : GoMap json) (data : string) : option (GoMap json) :=
  let object := default ∅ m in
  j ← parse_json data;
  decoded ← of_json (A := option (gmap string json)) j;
  Some (option_map (λ d : gmap string json, d ∪ object) decoded).

(** On the member of a spec that is decoded into a new struct, this is what
    [unmarshal_spec] below does. *)
Lemma MongodConfiguration_UnmarshalJSON_new j :
  MongodConfiguration_UnmarshalJSON None (print_json j) = of_json (A := GoMap json) j.
Proof.
  unfold MongodConfiguration_UnmarshalJSON. rewrite parse_print_json. cbn [mbind option_bind default from_option].
  destruct (of_json j) as [[d|]|]; cbn; [|done..]. by rewrite (right_id_L ∅ (∪)).
Qed.

Lemma MongodConfiguration_json_roundtrip m :
  json_wf m = true → MongodConfiguration_UnmarshalJSON None (MongodConfiguration_MarshalJSON m) = Some m.
Proof. intros Hwf. unfold MongodConfiguration_MarshalJSON. by rewrite MongodConfiguration_UnmarshalJSON_new, of_to_json. Qed.

(** What the map held before stays, unless the new object overwrites it. *)
Lemma MongodConfiguration_UnmarshalJSON_into m d k :
  json_wf (Some d : GoMap json) = true →
  ∃ r, MongodConfiguration_UnmarshalJSON m (MongodConfiguration_MarshalJSON (Some d)) = Some (Some r)
    ∧ r !! k = match d !! k with Some v => Some v | None => default ∅ m !! k end.
Proof.
  intros Hwf. unfold MongodConfiguration_UnmarshalJSON, MongodConfiguration_MarshalJSON.
  rewrite parse_print_json. cbn [mbind option_bind]. rewrite of_to_json by done. cbn. eexists. split; [done|].
  rewrite lookup_union. destruct (d !! k), (default ∅ m !! k); done.
Qed.

(** ** The spec *)

(** [json.Unmarshal] into the Kubernetes type [StatefulSetSpec]: an empty object
    leaves the zero value. *)
Class StsSpecJson {api : K8sApi} := sts_spec_of_json : json → option StatefulSetSpec.
Class StsSpecJsonOk {api : K8sApi} {S : StsSpecJson} : Prop :=
  sts_spec_of_empty : sts_spec_of_json (JObj []) = Some emptyStatefulSetSpec.

Section Spec.
Context {api : K8sApi}.

(** A slice with [omitempty] is left out when it is empty, nil or not. *)
Definition omit_empty_slice {A} `{GoJson A} (k : string) (v : GoSlice A) : string * option json :=
  (k, match v with None | Some [] => None | Some l => Some (to_json l) end).

Definition spec_members (sp : V1.MongoDBCommunitySpec) : list (string * option json) :=
  [member "members" (V1.spec_Members sp); member "type" (V1.spec_Type sp); member "version" (V1.spec_Version sp);
   member "arbiters" (V1.spec_Arbiters sp);
   omitempty "featureCompatibilityVersion" (V1.spec_FeatureCompatibilityVersion sp);
   omit_empty_slice "replicaSetHorizons" (V1.spec_ReplicaSetHorizons sp);
   member "security" (V1.spec_Security sp); member "users" (V1.spec_Users sp);
   ("statefulSet", Some (JObj [("spec", JObj [])]));
   ("additionalMongodConfig", Some (JObj []))].

(** [json.Marshal(mdb.Spec)]. *)
Definition marshal_spec (sp : V1.MongoDBCommunitySpec) : string := print_json (struct_json (spec_members sp)).

Definition sts_of_json `{!StsSpecJson} (j : json) : option StatefulSetSpec :=
  dec_struct emptyStatefulSetSpec
    (λ f, match f "spec" with JNull => Some emptyStatefulSetSpec | j => sts_spec_of_json j end) j.

Definition zero_spec : V1.MongoDBCommunitySpec :=
  V1.MkSpec 0 "" "" 0 "" None zero None emptyStatefulSetSpec None.

(** [json.Unmarshal] into a spec. *)
Definition unmarshal_spec `{!StsSpecJson} (data : string) : option V1.MongoDBCommunitySpec :=
  j ← parse_json data;
  dec_struct zero_spec (λ f,
    x0 ← of_json (A := Z) (f "members"); x1 ← of_json (A := string) (f "type");
    x2 ← of_json (A := string) (f "version"); x3 ← of_json (A := Z) (f "arbiters");
    x4 ← of_json (A := string) (f "featureCompatibilityVersion");
    x5 ← of_json (A := option (list (gmap string string))) (f "replicaSetHorizons");
    x6 ← of_json (A := V1.Security) (f "security"); x7 ← of_json (A := option (list V1.MongoDBUser)) (f "users");
    x8 ← sts_of_json (f "statefulSet"); x9 ← of_json (A := option (gmap string json)) (f "additionalMongodConfig");
    Some (V1.MkSpec x0 x1 x2 x3 x4 x5 x6 x7 x8 x9)) j.

(** The values JSON can carry: the numbers fit Go's [int]. *)
Definition spec_wf (sp : V1.MongoDBCommunitySpec) : bool :=
  json_wf (V1.spec_Members sp) && json_wf (V1.spec_Arbiters sp) && json_wf (V1.spec_ReplicaSetHorizons sp)
  && json_wf (V1.spec_Security sp) && json_wf (V1.spec_Users sp).

Lemma dec_omit_empty_slice {A} `{GoJson A} ms k (v : GoSlice A) :
  distinct_names ms = true → In (omit_empty_slice k v) ms → json_wf v = true →
  of_json (get_field (present ms) k) = Some (match v with Some [] => None | _ => v end).
Proof.
  intros Hd Hin Hwf. rewrite get_field_members, (lookup_member_in ms k _ Hd Hin) by done.
  destruct v as [[|x l]|]; [done| |done]. apply (of_to_json (Some (x :: l)) Hwf).
Qed.

Lemma dec_raw ms k j : distinct_names ms = true → In (k, Some j) ms → get_field (present ms) k = j.
Proof. intros Hd Hin. by rewrite get_field_members, (lookup_member_in ms k _ Hd Hin). Qed.

(** What is saved of a spec. *)
Definition saved (sp : V1.MongoDBCommunitySpec) : V1.MongoDBCommunitySpec :=
  sp <| V1.spec_ReplicaSetHorizons ::= λ h, match h with Some [] => None | _ => h end |>
     <| V1.spec_StatefulSetConfiguration := emptyStatefulSetSpec |> <| V1.spec_AdditionalMongodConfig := Some ∅ |>.

Lemma unmarshal_marshal_spec `{!StsSpecJson, !StsSpecJsonOk} sp :
  spec_wf sp = true → unmarshal_spec (marshal_spec sp) = Some (saved sp).
Proof.
  intros Hwf. unfold unmarshal_spec, marshal_spec. rewrite parse_print_json.
  cbn [mbind option_bind]. unfold struct_json. unfold dec_struct at 1.
  unfold spec_wf in Hwf. rewrite !andb_true_iff in Hwf. destruct Hwf as [[[[H1 H2] H3] H4] H5].
  destruct sp as [x0 x1 x2 x3 x4 x5 x6 x7 x8 x9]. cbn in H1, H2, H3, H4, H5. unfold spec_members.
  cbn [V1.spec_Members V1.spec_Type V1.spec_Version V1.spec_Arbiters V1.spec_FeatureCompatibilityVersion
       V1.spec_ReplicaSetHorizons V1.spec_Security V1.spec_Users].
  do 5 dec_field.
  rewrite (dec_omit_empty_slice _ "replicaSetHorizons" x5); [|reflexivity|find_member|done]. cbn [mbind option_bind].
  do 2 dec_field.
  rewrite (dec_raw _ "statefulSet" (JObj [("spec", JObj [])])); [|reflexivity|find_member].
  rewrite (dec_raw _ "additionalMongodConfig" (JObj [])); [|reflexivity|find_member].
  assert (sts_of_json (JObj [("spec", JObj [])]) = Some emptyStatefulSetSpec) as Es by exact sts_spec_of_empty.
  rewrite Es. reflexivity.
Qed.

(** [C34] What survives in the saved configuration: reading the annotation back gives
    the spec that was saved, with the custom StatefulSet spec and the additional
    mongod configuration emptied (and an empty list of horizons as none); in
    particular the TLS settings later updates are validated against are kept. *)
Theorem saved_spec_roundtrip `{!StsSpecJson, !StsSpecJsonOk} sp :
  spec_wf sp = true →
  unmarshal_spec (marshal_spec sp) = Some (saved sp)
  ∧ V1.spec_Security (saved sp) = V1.spec_Security sp
  ∧ V1.spec_Users (saved sp) = V1.spec_Users sp
  ∧ V1.spec_StatefulSetConfiguration (saved sp) = emptyStatefulSetSpec
  ∧ V1.spec_AdditionalMongodConfig (saved sp) = Some ∅.
Proof. intros Hwf. by rewrite unmarshal_marshal_spec. Qed.
End Spec.

(** A decoder of StatefulSet specs that knows the empty one. *)
Definition no_sts_json : @StsSpecJson string_api := λ j,
  match j with JObj [] => Some emptyStatefulSetSpec | _ => None end.
#[global] Instance no_sts_json_ok : @StsSpecJsonOk string_api no_sts_json.
Proof. done. Qed.

Definition tls_spec : @V1.MongoDBCommunitySpec string_api :=
  V1.MkSpec 3 "ReplicaSet" "4.4.1" 0 "" None
    (V1.MkSecurity (V1.MkAuthentication (Some ["SCRAM"]) None)
       (V1.MkTLS true false (V1.MkLocalObjectReference "tls") (V1.MkLocalObjectReference "ca")) [])
    (Some []) (emptyStatefulSetSpec <| ss_ServiceName := "custom" |>) (Some {[ "net" := JStr "x" ]}).

Lemma saved_spec_roundtrip_witness :
  @unmarshal_spec string_api no_sts_json (marshal_spec tls_spec) = Some (saved tls_spec)
  ∧ V1.spec_Security (saved tls_spec) = V1.spec_Security tls_spec
  ∧ V1.spec_Users (saved tls_spec) = V1.spec_Users tls_spec
  ∧ V1.spec_StatefulSetConfiguration (saved tls_spec) = emptyStatefulSetSpec
  ∧ V1.spec_AdditionalMongodConfig (saved tls_spec) = Some ∅.
Proof. apply (@saved_spec_roundtrip string_api no_sts_json no_sts_json_ok tls_spec). vm_compute. reflexivity. Defined.
