(* ===== verification/PodMods.v ===== *)
(** * Modifications of pods

    The functional options the operator assembles its StatefulSet from:
    pkg/util/envvar, pkg/kube/resourcerequirements, pkg/kube/probes,
    pkg/kube/lifecycle, pkg/kube/persistentvolumeclaim, pkg/kube/container and
    pkg/kube/podtemplatespec.  A modification of a struct through a pointer is a
    function on the struct; one that can dereference nil or index out of range
    returns an [outcome]. *)
From S2P Require Import Prelude GoStd K8s MergeByKey Merge Json.
Local Open Scope Z_scope.

(** [os.LookupEnv]: the environment of the process does not change. *)
Class Environ := LookupEnv : string → option string.
Definition Getenv `{Environ} (name : string) : string := default "" (LookupEnv name).

(** [resource.ParseQuantity] of apimachinery; an error leaves the zero quantity. *)
Class Quantities {api : K8sApi} := {
  ParseQuantity : string → option (opaque "resource.Quantity");
  zeroQuantity : opaque "resource.Quantity";
}.

(** [Apply] of every package: the modifications run one after the other. *)
Definition apply_all {A} (mods : list (A → A)) (x : A) : A := foldl (λ acc f, f acc) x mods.
Lemma apply_all_cons {A} (f : A → A) mods x : apply_all (f :: mods) x = apply_all mods (f x).
Proof. done. Qed.

(** ** Package envvar *)

Definition is_space (a : Ascii.ascii) : bool :=
  let n := Ascii.nat_of_ascii a in bool_decide (n ∈ [9; 10; 11; 12; 13; 32]%nat).
Fixpoint trim_left (s : string) : string :=
  match s with String a s' => if is_space a then trim_left s' else s | EmptyString => s end.
Fixpoint trim_right (s : string) : string :=
  match s with
  | EmptyString => EmptyString
  | String a s' =>
      match trim_right s' with
      | EmptyString => if is_space a then EmptyString else String a EmptyString
      | t => String a t
      end
  end.
(** [strings.TrimSpace] on ASCII text. *)
Definition TrimSpace (s : string) : string := trim_right (trim_left s).

Module envvar.
Section Env.
Context {api : K8sApi}.

Definition MergeWithOverride `{MapOrder} (existing desired : list EnvVar) : list EnvVar :=
  let envMap := create_map ev_Name (existing ++ desired) in
  sort_by ev_Name (range envMap).*2.

Definition GetEnvOrDefault `{Environ} (envVar defaultValue : string) : string :=
  match LookupEnv envVar with Some val => val | None => defaultValue end.

Definition ReadBool `{Environ} (envVarName : string) : bool :=
  let envVar := GetEnvOrDefault envVarName "false" in
  bool_decide (TrimSpace (ToLower envVar) = "true").
End Env.
End envvar.

(** ** Package resourcerequirements *)

Module resourcerequirements.
Section Resources.
Context {api : K8sApi} `{!Quantities}.

Definition buildResourceList (cpu memory : string) : option ResourceList :=
  cpuQuantity ← ParseQuantity cpu;
  memoryQuantity ← ParseQuantity memory;
  Some (<["cpu" := cpuQuantity]> {[ "memory" := memoryQuantity ]}).

Definition newRequirements (limitsCpu limitsMemory requestsCpu requestsMemory : string)
    : option ResourceRequirements :=
  limits ← buildResourceList limitsCpu limitsMemory;
  requests ← buildResourceList requestsCpu requestsMemory;
  Some (MkResourceRequirements (Some limits) (Some requests)).

Definition newDefaultRequirements : option ResourceRequirements := newRequirements "1.0" "500M" "0.5" "400M".
(** The error is ignored. *)
Definition Defaults : ResourceRequirements := default emptyResources newDefaultRequirements.

Definition BuildStorageRequirements (amount : string) : ResourceList :=
  {[ "storage" := default zeroQuantity (ParseQuantity amount) ]}.
Definition BuildDefaultStorageRequirements : ResourceList := BuildStorageRequirements "10G".
End Resources.
End resourcerequirements.

(** ** Packages probes and lifecycle *)

Module probes.
Section Probes.
Context {api : K8sApi}.
Definition emptyProbe : Probe := MkProbe (MkHandler None None None) 0 0 0 0 0.
Definition Apply (funcs : list (Probe → Probe)) : Probe → Probe := apply_all funcs.
Definition New (funcs : list (Probe → Probe)) : Probe := apply_all funcs emptyProbe.
Definition WithExecCommand (cmd : list string) (probe : Probe) : Probe :=
  probe <| p_Handler ::= λ h, h <| h_Exec := Some (MkExecAction cmd) |> |>.
Definition WithFailureThreshold (n : Z) (probe : Probe) : Probe := probe <| p_FailureThreshold := int32 n |>.
Definition WithInitialDelaySeconds (n : Z) (probe : Probe) : Probe := probe <| p_InitialDelaySeconds := int32 n |>.
Definition WithSuccessThreshold (n : Z) (probe : Probe) : Probe := probe <| p_SuccessThreshold := int32 n |>.
Definition WithPeriodSeconds (n : Z) (probe : Probe) : Probe := probe <| p_PeriodSeconds := int32 n |>.
Definition WithTimeoutSeconds (n : Z) (probe : Probe) : Probe := probe <| p_TimeoutSeconds := int32 n |>.
Definition WithHandler (handler : Handler) (probe : Probe) : Probe := probe <| p_Handler := handler |>.
End Probes.
End probes.

Module lifecycle.
Section Lifecycle.
Context {api : K8sApi}.
Definition Apply (modifications : list (Lifecycle → Lifecycle)) : Lifecycle → Lifecycle := apply_all modifications.
Definition WithPrestopCommand (preStopCmd : list string) (lc : Lifecycle) : Lifecycle :=
  let h := default (MkHandler None None None) (lc_PreStop lc) in
  MkLifecycle (lc_PostStart lc) (Some (h <| h_Exec := Some (MkExecAction preStopCmd) |>)).
End Lifecycle.
End lifecycle.

(** ** Package persistentvolumeclaim *)

Module persistentvolumeclaim.
Section Claims.
Context {api : K8sApi}.
Definition Apply (funcs : list (PersistentVolumeClaim → PersistentVolumeClaim))
    : PersistentVolumeClaim → PersistentVolumeClaim := apply_all funcs.
Definition NOOP (claim : PersistentVolumeClaim) : PersistentVolumeClaim := claim.
Definition WithName (name : string) (claim : PersistentVolumeClaim) : PersistentVolumeClaim :=
  claim <| pvc_ObjectMeta ::= λ m, m <| om_Name := name |> |>.
Definition WithAccessModes (accessMode : string) (claim : PersistentVolumeClaim) : PersistentVolumeClaim :=
  claim <| pvc_Spec ::= λ s, s <| pvcs_AccessModes := [accessMode] |> |>.
Definition WithResourceRequests (requests : ResourceList) (claim : PersistentVolumeClaim) : PersistentVolumeClaim :=
  claim <| pvc_Spec ::= λ s, s <| pvcs_Resources ::= λ r, r <| rr_Requests := Some requests |> |> |>.
Definition WithLabelSelector (selector : option LabelSelector) (claim : PersistentVolumeClaim)
    : PersistentVolumeClaim := claim <| pvc_Spec ::= λ s, s <| pvcs_Selector := selector |> |>.
Definition WithStorageClassName (name : string) (claim : PersistentVolumeClaim) : PersistentVolumeClaim :=
  claim <| pvc_Spec ::= λ s, s <| pvcs_StorageClassName := Some name |> |>.
End Claims.
End persistentvolumeclaim.

(** ** Package container *)

Module container.
Section Containers.
Context {api : K8sApi}.
Definition Modification : Type := Container → Container.
Definition Apply (modifications : list Modification) : Modification := apply_all modifications.
Definition New (mods : list Modification) : Container := apply_all mods emptyContainer.
Definition NOOP : Modification := λ c, c.
Definition WithName (name : string) : Modification := λ c, c <| c_Name := name |>.
Definition WithImage (image : string) : Modification := λ c, c <| c_Image := image |>.
Definition WithImagePullPolicy (pullPolicy : string) : Modification := λ c, c <| c_ImagePullPolicy := pullPolicy |>.
Definition WithWorkDir (workDir : string) : Modification := λ c, c <| c_WorkingDir := workDir |>.
Definition modify_probe (f : Probe → Probe) (p : option Probe) : option Probe :=
  Some (f (default probes.emptyProbe p)).
Definition WithReadinessProbe (f : Probe → Probe) : Modification := λ c, c <| c_ReadinessProbe ::= modify_probe f |>.
Definition WithLivenessProbe (f : Probe → Probe) : Modification := λ c, c <| c_LivenessProbe ::= modify_probe f |>.
Definition WithStartupProbe (f : Probe → Probe) : Modification := λ c, c <| c_StartupProbe ::= modify_probe f |>.
Definition WithResourceRequirements (resources : ResourceRequirements) : Modification :=
  λ c, c <| c_Resources := resources |>.
Definition WithCommand (cmd : list string) : Modification := λ c, c <| c_Command := cmd |>.
Definition WithArgs (args : list string) : Modification := λ c, c <| c_Args := args |>.
Definition WithLifecycle (f : Lifecycle → Lifecycle) : Modification :=
  λ c, c <| c_Lifecycle ::= λ l, Some (f (default (MkLifecycle None None) l)) |>.
Definition WithEnvs `{MapOrder} (envs : list EnvVar) : Modification :=
  λ c, c <| c_Env ::= λ existing, envvar.MergeWithOverride existing envs |>.
Definition volumeMountToString (v : VolumeMount) : string :=
  Join [vm_Name v; vm_MountPath v; vm_SubPath v] "-".
Definition WithVolumeMounts `{MapOrder} (volumeMounts : list VolumeMount) : Modification := λ c,
  let merged := create_map volumeMountToString (c_VolumeMounts c ++ volumeMounts) in
  c <| c_VolumeMounts := sort_by volumeMountToString (range merged).*2 |>.
Definition WithVolumeDevices (devices : list VolumeDevice) : Modification := λ c, c <| c_VolumeDevices := devices |>.
Definition WithPorts (ports : list ContainerPort) : Modification := λ c, c <| c_Ports := ports |>.
Definition WithSecurityContext (context : SecurityContext) : Modification :=
  λ c, c <| c_SecurityContext := Some context |>.
Definition DefaultSecurityContext : SecurityContext :=
  MkSecurityContext None None None None (Some 2000) None (Some true) None None None None.
Definition GetByName (name : string) (containers : list Container) : option Container :=
  List.find (λ c, bool_decide (c_Name c = name)) containers.
End Containers.
End container.

(** ** Package podtemplatespec *)

Module podtemplatespec.
Section Templates.
Context {api : K8sApi}.
Definition Modification : Type := PodTemplateSpec → PodTemplateSpec.
Definition New (mods : list Modification) : PodTemplateSpec := apply_all mods emptyPodTemplate.
Definition Apply (mods : list Modification) : Modification := apply_all mods.
Definition NOOP : Modification := λ t, t.

(** The index of the first container of a name; [None] is [notFound]. *)
Definition findIndexByName (name : string) (containers : list Container) : option nat :=
  fst <$> list_find (λ c, c_Name c = name) containers.

(** The container of the name, appended when there is none, is modified in place. *)
Definition modify_named (name : string) (f : Container → Container) (containers : list Container) : list Container :=
  match findIndexByName name containers with
  | Some idx => alter f idx containers
  | None => containers ++ [f (emptyContainer <| c_Name := name |>)]
  end.

Definition on_containers (f : list Container → list Container) : Modification :=
  λ t, t <| pt_Spec ::= λ s, s <| ps_Containers ::= f |> |>.
Definition on_init_containers (f : list Container → list Container) : Modification :=
  λ t, t <| pt_Spec ::= λ s, s <| ps_InitContainers ::= f |> |>.

Definition WithContainer (name : string) (f : Container → Container) : Modification :=
  on_containers (modify_named name f).
Definition WithInitContainer (name : string) (f : Container → Container) : Modification :=
  on_init_containers (modify_named name f).

(** A container is appended if the index is past the end; the index can still be
    out of range afterwards, and a negative one always is. *)
Definition modify_at (index : Z) (funcs : list (Container → Container)) (containers : list Container)
    : outcome (list Container) :=
  let containers := if index >=? Z.of_nat (length containers) then containers ++ [emptyContainer] else containers in
  if (index <? 0) || (index >=? Z.of_nat (length containers)) then Panic "index out of range"
  else Ret (alter (apply_all funcs) (Z.to_nat index) containers).
Definition WithContainerByIndex (index : Z) (funcs : list (Container → Container)) (t : PodTemplateSpec)
    : outcome PodTemplateSpec :=
  let! cs := modify_at index funcs (ps_Containers (pt_Spec t)) in Ret (on_containers (λ _, cs) t).
Definition WithInitContainerByIndex (index : Z) (funcs : list (Container → Container)) (t : PodTemplateSpec)
    : outcome PodTemplateSpec :=
  let! cs := modify_at index funcs (ps_InitContainers (pt_Spec t)) in Ret (on_init_containers (λ _, cs) t).

Definition WithPodLabels (labels : GoMap string) : Modification :=
  λ t, t <| pt_ObjectMeta ::= λ m, m <| om_Labels := Some (gm labels) |> |>.
Definition WithServiceAccount (name : string) : Modification :=
  λ t, t <| pt_Spec ::= λ s, s <| ps_ServiceAccountName := name |> |>.

Definition add_volume (volume : Volume) (volumes : list Volume) : list Volume :=
  if existsb (λ v, bool_decide (v_Name v = v_Name volume)) volumes then volumes else volumes ++ [volume].
Definition WithVolume (volume : Volume) : Modification :=
  λ t, t <| pt_Spec ::= λ s, s <| ps_Volumes ::= add_volume volume |> |>.

Definition WithTerminationGracePeriodSeconds (seconds : Z) : Modification :=
  λ t, t <| pt_Spec ::= λ s, s <| ps_TerminationGracePeriodSeconds := Some (int64 seconds) |> |>.
Definition WithSecurityContext (securityContext : PodSecurityContext) : Modification :=
  λ t, t <| pt_Spec ::= λ s, s <| ps_SecurityContext := Some securityContext |> |>.
Definition DefaultPodSecurityContext : PodSecurityContext := MkPodSecurityContext (Some 2000) None.

Definition WithImagePullSecrets (name : string) : Modification := λ t,
  t <| pt_Spec ::= λ s, s <| ps_ImagePullSecrets ::= λ l,
    if existsb (λ v, bool_decide (v = name)) (els l) then l else Some (els l ++ [name]) |> |>.

(** The affinity, the anti-affinity or the index may be missing. *)
Definition WithTopologyKey (topologyKey : string) (idx : Z) (t : PodTemplateSpec) : outcome PodTemplateSpec :=
  match ps_Affinity (pt_Spec t) ≫= aff_PodAntiAffinity with
  | None => Panic "nil pointer dereference"
  | Some paa =>
      match ps_Affinity (pt_Spec t), paa_Preferred paa !! Z.to_nat idx with
      | Some aff, Some w =>
          if idx <? 0 then Panic "index out of range"
          else
            let term := wpat_PodAffinityTerm w in
            let w' := MkWeightedPodAffinityTerm (wpat_Weight w)
                        (MkPodAffinityTerm (pat_LabelSelector term) (pat_Namespaces term) topologyKey) in
            let paa' := MkPodAntiAffinity (paa_Required paa) (<[Z.to_nat idx := w']> (paa_Preferred paa)) in
            Ret (t <| pt_Spec ::= λ s, s <| ps_Affinity :=
                   Some (MkAffinity (aff_NodeAffinity aff) (aff_PodAffinity aff) (Some paa')) |> |>)
      | _, _ => Panic "index out of range"
      end
  end.

Definition WithAffinity (stsName antiAffinityLabelKey : string) (weight : Z) : Modification :=
  λ t, t <| pt_Spec ::= λ s, s <| ps_Affinity := Some (MkAffinity None None (Some (MkPodAntiAffinity []
    [MkWeightedPodAffinityTerm (int32 weight)
       (MkPodAffinityTerm (Some (MkLabelSelector (Some {[ antiAffinityLabelKey := stsName ]}) [])) [] "")]))) |> |>.

Definition on_affinity (f : Affinity → Affinity) (t : PodTemplateSpec) : outcome PodTemplateSpec :=
  match ps_Affinity (pt_Spec t) with
  | None => Panic "nil pointer dereference"
  | Some aff => Ret (t <| pt_Spec ::= λ s, s <| ps_Affinity := Some (f aff) |> |>)
  end.
Definition WithNodeAffinity (nodeAffinity : option (opaque "corev1.NodeAffinity")) :=
  on_affinity (λ a, MkAffinity nodeAffinity (aff_PodAffinity a) (aff_PodAntiAffinity a)).
Definition WithPodAffinity (podAffinity : option (opaque "corev1.PodAffinity")) :=
  on_affinity (λ a, MkAffinity (aff_NodeAffinity a) podAffinity (aff_PodAntiAffinity a)).

Definition WithTolerations (tolerations : list Toleration) : Modification :=
  λ t, t <| pt_Spec ::= λ s, s <| ps_Tolerations := tolerations |> |>.
Definition WithAnnotations (annotations : GoMap string) : Modification :=
  λ t, t <| pt_ObjectMeta ::= λ m, m <| om_Annotations := Some (gm annotations) |> |>.

(** [FindContainerByName] returns a pointer; [modify_found] is what its caller
    does through it: a container first, an init container otherwise. *)
Definition FindContainerByName (name : string) (t : PodTemplateSpec) : option Container :=
  match findIndexByName name (ps_Containers (pt_Spec t)) with
  | Some idx => ps_Containers (pt_Spec t) !! idx
  | None =>
      match findIndexByName name (ps_InitContainers (pt_Spec t)) with
      | Some idx => ps_InitContainers (pt_Spec t) !! idx
      | None => None
      end
  end.
Definition modify_found (name : string) (f : Container → Container) : Modification := λ t,
  match findIndexByName name (ps_Containers (pt_Spec t)) with
  | Some idx => on_containers (alter f idx) t
  | None =>
      match findIndexByName name (ps_InitContainers (pt_Spec t)) with
      | Some idx => on_init_containers (alter f idx) t
      | None => t
      end
  end.
Definition WithVolumeMounts `{MapOrder} (containerName : string) (volumeMounts : list VolumeMount) : Modification :=
  modify_found containerName (container.WithVolumeMounts volumeMounts).
End Templates.
End podtemplatespec.

(** ** What the modifications guarantee *)

Section Facts.
Context {api : K8sApi}.

(** Indexing by a key and listing the index sorted: the last of each key. *)
Lemma sorted_index_spec `{MapOrder} {A} (key : A → string) (l : list A) :
  let r := sort_by key (range (create_map key l)).*2 in
  Sorted (key_le key) r ∧ NoDup (key <$> r) ∧ ∀ k, find_last key k r = find_last key k l.
Proof.
  assert (key <$> (range (create_map key l)).*2 = (range (create_map key l)).*1) as Hk.
  { rewrite <- list_fmap_compose. apply list_fmap_ext. intros i [k v] Hi.
    apply list_elem_of_lookup_2, elem_of_range, create_map_key in Hi as [? _]. done. }
  intros r. assert (r ≡ₚ (range (create_map key l)).*2) as HP by apply sort_by_perm.
  assert (NoDup (key <$> r)) as Hnd by (rewrite HP, Hk; apply NoDup_range_keys).
  split_and!; [apply sort_by_Sorted | done |]. intros k. rewrite <- !create_map_lookup.
  apply option_eq. intros x. split.
  - intros [Hkx Hx]%create_map_key. rewrite HP in Hx.
    apply list_elem_of_fmap in Hx as ([k' x'] & -> & Hx%elem_of_range).
    pose proof (create_map_key key l k' x' Hx) as [Hk' _]. cbn in *. congruence.
  - intros Hx. pose proof (create_map_key key l k x Hx) as [Hkx _]. rewrite <- Hkx. apply create_map_NoDup; [done|].
    rewrite HP. apply list_elem_of_fmap. exists (k, x). split; [done|]. by apply elem_of_range.
Qed.

Lemma findIndexByName_Some name cs i :
  podtemplatespec.findIndexByName name cs = Some i →
  ∃ c, cs !! i = Some c ∧ c_Name c = name.
Proof.
  unfold podtemplatespec.findIndexByName. destruct (list_find _ cs) as [[j c]|] eqn:E; [|done].
  intros [= <-]. apply list_find_Some in E as (? & ? & _). eauto.
Qed.
Lemma findIndexByName_None name cs :
  podtemplatespec.findIndexByName name cs = None → name ∉ c_Name <$> cs.
Proof.
  unfold podtemplatespec.findIndexByName. destruct (list_find _ cs) eqn:E; [done|]. intros _.
  apply list_find_None in E. intros (c & -> & Hc)%list_elem_of_fmap.
  rewrite Forall_forall in E. by apply (E c Hc).
Qed.

(** The names of the containers after a named modification: the same, with the
    name appended if it was missing. *)
Lemma modify_named_names name f cs :
  (∀ c, c_Name c = name → c_Name (f c) = name) →
  c_Name <$> podtemplatespec.modify_named name f cs =
  if bool_decide (name ∈ c_Name <$> cs) then c_Name <$> cs else (c_Name <$> cs) ++ [name].
Proof.
  intros Hf. unfold podtemplatespec.modify_named.
  destruct (podtemplatespec.findIndexByName name cs) as [i|] eqn:E.
  - apply findIndexByName_Some in E as (c & Hc & Hn).
    rewrite bool_decide_true by (apply list_elem_of_fmap; exists c; split; [done|by eapply list_elem_of_lookup_2]).
    apply list_eq. intros j. rewrite !list_lookup_fmap. destruct (decide (i = j)) as [<-|Hij].
    + rewrite list_lookup_alter_eq, Hc. cbn. rewrite Hf, Hn by done. done.
    + by rewrite list_lookup_alter_ne by done.
  - apply findIndexByName_None in E. rewrite bool_decide_false by done. rewrite fmap_app. cbn. by rewrite Hf.
Qed.
End Facts.
