(* ===== verification/StsMods.v ===== *)
(** * Modifications and the builder of StatefulSets

    pkg/kube/statefulset: the functional options of statefulset.go and the builder
    of statefulset_builder.go (the operations that talk to the client are in
    KubeOps). *)
From S2P Require Import Prelude GoStd K8s MergeByKey Merge Json PodMods.
Local Open Scope Z_scope.

Definition copyMap `{MapOrder} (originalMap : GoMap string) : GoMap string :=
  Some (foldl (λ newMap '(k, v), <[k := v]> newMap) ∅ (range (gm originalMap))).

Lemma copyMap_spec `{MapOrder} m : copyMap m = Some (gm m).
Proof.
  unfold copyMap. f_equal. apply map_eq. intros k.
  rewrite (range_fill_lookup (λ _ v, v)), lookup_empty. by destruct (gm m !! k).
Qed.

(** ** statefulset.go *)

Module stsmods.
Section Mods.
Context {api : K8sApi}.
Definition Modification : Type := StatefulSet → StatefulSet.

Definition CreateVolumeFromConfigMap (name sourceName : string) : Volume :=
  MkVolume name (MkVolumeSource None None (Some (MkConfigMapVolumeSource sourceName [] None None)) None).
Definition CreateVolumeFromSecret (name sourceName : string) (options : list (Volume → Volume)) : Volume :=
  apply_all options
    (MkVolume name (MkVolumeSource None (Some (MkSecretVolumeSource sourceName [] (Some 416) None)) None None)).
Definition CreateVolumeFromEmptyDir (name : string) : Volume :=
  MkVolume name (MkVolumeSource (Some (MkEmptyDirVolumeSource "" None)) None None None).
Definition CreateVolumeMount (name path : string) (options : list (VolumeMount → VolumeMount)) : VolumeMount :=
  apply_all options (MkVolumeMount name false path "" None "").

Definition NOOP : Modification := λ sts, sts.
Definition WithSecretDefaultMode (mode : option Z) (v : Volume) : Volume :=
  let vs := v_VolumeSource v in
  let secret := default (MkSecretVolumeSource "" [] None None) (vs_Secret vs) in
  MkVolume (v_Name v) (MkVolumeSource (vs_EmptyDir vs)
    (Some (MkSecretVolumeSource (sv_SecretName secret) (sv_Items secret) mode (sv_Optional secret)))
    (vs_ConfigMap vs) (vs_Other vs)).
Definition WithSubPath (subPath : string) (v : VolumeMount) : VolumeMount := v <| vm_SubPath := subPath |>.
Definition WithReadOnly (readonly : bool) (v : VolumeMount) : VolumeMount := v <| vm_ReadOnly := readonly |>.

Definition New (mods : list Modification) : StatefulSet := apply_all mods emptyStatefulSet.
Definition Apply (funcs : list Modification) : Modification := apply_all funcs.
Definition on_meta (f : ObjectMeta → ObjectMeta) : Modification := λ sts, sts <| sts_ObjectMeta ::= f |>.
Definition on_spec (f : StatefulSetSpec → StatefulSetSpec) : Modification := λ sts, sts <| sts_Spec ::= f |>.

Definition WithName (name : string) : Modification := on_meta (λ m, m <| om_Name := name |>).
Definition WithNamespace (namespace : string) : Modification := on_meta (λ m, m <| om_Namespace := namespace |>).
Definition WithServiceName (svcName : string) : Modification := on_spec (λ s, s <| ss_ServiceName := svcName |>).
Definition WithLabels `{MapOrder} (labels : GoMap string) : Modification :=
  on_meta (λ m, m <| om_Labels := copyMap labels |>).
Definition WithMatchLabels `{MapOrder} (matchLabels : GoMap string) : Modification :=
  on_spec (λ s, s <| ss_Selector ::= λ sel,
    let sel := default (MkLabelSelector None []) sel in
    Some (MkLabelSelector (copyMap matchLabels) (ls_MatchExpressions sel)) |>).
Definition WithOwnerReference (ownerRefs : list OwnerReference) : Modification :=
  on_meta (λ m, m <| om_OwnerReferences := ownerRefs |>).
Definition WithReplicas (replicas : Z) : Modification := on_spec (λ s, s <| ss_Replicas := Some (int32 replicas) |>).
Definition WithRevisionHistoryLimit (limit : Z) : Modification :=
  on_spec (λ s, s <| ss_RevisionHistoryLimit := Some (int32 limit) |>).
Definition WithPodManagementPolicyType (policyType : string) : Modification :=
  on_spec (λ s, s <| ss_PodManagementPolicy := policyType |>).
Definition WithSelector (selector : option LabelSelector) : Modification :=
  on_spec (λ s, s <| ss_Selector := selector |>).
Definition WithUpdateStrategyType (strategyType : string) : Modification :=
  on_spec (λ s, s <| ss_UpdateStrategy := MkStatefulSetUpdateStrategy strategyType None |>).
Definition WithPodSpecTemplate (templateFunc : PodTemplateSpec → PodTemplateSpec) : Modification :=
  on_spec (λ s, s <| ss_Template ::= templateFunc |>).

Definition findVolumeClaimIndexByName (name : string) (pvcs : list PersistentVolumeClaim) : option nat :=
  fst <$> list_find (λ pvc, pvc_Name pvc = name) pvcs.
(** A claim that is appended starts without a name. *)
Definition modify_claim (name : string) (f : PersistentVolumeClaim → PersistentVolumeClaim)
    (claims : list PersistentVolumeClaim) : list PersistentVolumeClaim :=
  match findVolumeClaimIndexByName name claims with
  | Some idx => alter f idx claims
  | None => claims ++ [f emptyPvc]
  end.
Definition WithVolumeClaim (name : string) (f : PersistentVolumeClaim → PersistentVolumeClaim) : Modification :=
  on_spec (λ s, s <| ss_VolumeClaimTemplates ::= modify_claim name f |>).

Definition WithCustomSpecs `{MapOrder} (spec : StatefulSetSpec) : Modification :=
  on_spec (λ s, StatefulSetSpecs s spec).
Definition VolumeMountWithNameExists (mounts : list VolumeMount) (volumeName : string) : bool :=
  existsb (λ mount, bool_decide (vm_Name mount = volumeName)) mounts.
End Mods.
End stsmods.

(** ** statefulset_builder.go *)

Module stsbuilder.
Section Builder.
Context {api : K8sApi}.

Record VolumeMountData := MkVolumeMountData {
  vmd_Name : string; vmd_MountPath : string; vmd_Volume : Volume; vmd_ReadOnly : bool;
}.

Record Builder := MkBuilder {
  b_name : string;
  b_namespace : string;
  b_replicas : Z;
  b_serviceName : string;
  b_labels : GoMap string;
  b_matchLabels : GoMap string;
  b_ownerReference : list OwnerReference;
  b_podTemplateSpec : PodTemplateSpec;
  b_readinessProbePerContainer : gmap string (option Probe);
  b_volumeClaimsTemplates : list PersistentVolumeClaim;
  b_volumeMountsPerContainer : gmap string (list VolumeMount);
  b_updateStrategyType : string;
}.
#[global] Instance eta_Builder : Eta Builder := λ b,
  MkBuilder (b_name b) (b_namespace b) (b_replicas b) (b_serviceName b) (b_labels b) (b_matchLabels b)
    (b_ownerReference b) (b_podTemplateSpec b) (b_readinessProbePerContainer b) (b_volumeClaimsTemplates b)
    (b_volumeMountsPerContainer b) (b_updateStrategyType b).

Definition NewBuilder : Builder :=
  MkBuilder "" "" 1 "" (Some ∅) (Some ∅) [] emptyPodTemplate ∅ [] ∅ "".
Definition SetLabels (x : GoMap string) (b : Builder) : Builder := b <| b_labels := x |>.
Definition SetName (x : string) (b : Builder) : Builder := b <| b_name := x |>.
Definition SetNamespace (x : string) (b : Builder) : Builder := b <| b_namespace := x |>.
Definition SetOwnerReference (x : list OwnerReference) (b : Builder) : Builder := b <| b_ownerReference := x |>.
Definition SetServiceName (x : string) (b : Builder) : Builder := b <| b_serviceName := x |>.
Definition SetReplicas (x : Z) (b : Builder) : Builder := b <| b_replicas := x |>.
Definition SetMatchLabels (x : GoMap string) (b : Builder) : Builder := b <| b_matchLabels := x |>.
Definition SetReadinessProbe (probe : option Probe) (containerName : string) (b : Builder) : Builder :=
  b <| b_readinessProbePerContainer ::= insert containerName probe |>.
Definition SetPodTemplateSpec (x : PodTemplateSpec) (b : Builder) : Builder := b <| b_podTemplateSpec := x |>.
Definition SetUpdateStrategy (x : string) (b : Builder) : Builder := b <| b_updateStrategyType := x |>.
Definition AddVolumeClaimTemplates (claims : list PersistentVolumeClaim) (b : Builder) : Builder :=
  b <| b_volumeClaimsTemplates ::= λ l, l ++ claims |>.
Definition AddVolumeMount (containerName : string) (mount : VolumeMount) (b : Builder) : Builder :=
  b <| b_volumeMountsPerContainer ::= λ m, <[containerName := default [] (m !! containerName) ++ [mount]]> m |>.
Definition AddVolumeMounts (containerName : string) (mounts : list VolumeMount) (b : Builder) : Builder :=
  foldl (λ b m, AddVolumeMount containerName m b) b mounts.
Definition AddVolume (volume : Volume) (b : Builder) : Builder :=
  b <| b_podTemplateSpec ::= λ t, t <| pt_Spec ::= λ s, s <| ps_Volumes ::= λ l, l ++ [volume] |> |> |>.
Definition AddVolumes (volumes : list Volume) (b : Builder) : Builder := foldl (λ b v, AddVolume v b) b volumes.
Definition GetContainerIndexByName (containerName : string) (b : Builder) : option nat :=
  podtemplatespec.findIndexByName containerName (ps_Containers (pt_Spec (b_podTemplateSpec b))).
Definition AddVolumeAndMount (d : VolumeMountData) (containerNames : list string) (b : Builder) : Builder :=
  foldl (λ b containerName,
           AddVolumeMount containerName (MkVolumeMount (vmd_Name d) (vmd_ReadOnly d) (vmd_MountPath d) "" None "") b)
    (AddVolume (vmd_Volume d) b) containerNames.

(** The errors collected so far are counted; [multierror] joins their texts. *)
Definition no_container (containerName : string) : string :=
  "no container with name [" +:+ containerName +:+ "] found".

(** The mounts of one container: the second mount of a path is an error. *)
Definition mount_all (mounts : list VolumeMount) : list VolumeMount * list string :=
  let '(kept, _, errs) :=
    foldl (λ '(kept, seen, errs) m,
             if bool_decide (vm_MountPath m ∈ (seen : list string))
             then (kept, seen, errs ++ ["Volume already mounted: " +:+ vm_MountPath m])
             else (kept ++ [m], seen ++ [vm_MountPath m], errs))
      (([] : list VolumeMount), ([] : list string), ([] : list string)) mounts in
  (kept, errs).

Section Build.
Context `{MapOrder}.

Definition add_mounts (b : Builder) : list Container * list string → string * list VolumeMount
    → list Container * list string := λ '(cs, errs) '(containerName, mounts),
  match GetContainerIndexByName containerName b with
  | None => (cs, errs ++ [no_container containerName])
  | Some idx =>
      let '(kept, errs') := mount_all mounts in
      (alter (λ c, c <| c_VolumeMounts ::= λ l, l ++ kept |>) idx cs, errs ++ errs')
  end.
Definition set_probes (b : Builder) : list Container * list string → string * option Probe
    → list Container * list string := λ '(cs, errs) '(containerName, probe),
  match GetContainerIndexByName containerName b with
  | None => (cs, errs ++ [no_container containerName])
  | Some idx => (alter (λ c, c <| c_ReadinessProbe := probe |>) idx cs, errs)
  end.

Definition buildPodTemplateSpec (b : Builder) : PodTemplateSpec * list string :=
  let t := b_podTemplateSpec b in
  let st := foldl (add_mounts b) (ps_Containers (pt_Spec t), []) (range (b_volumeMountsPerContainer b)) in
  let '(cs, errs) := foldl (set_probes b) st (range (b_readinessProbePerContainer b)) in
  let cs := map (λ c, c <| c_Env ::= sort_by ev_Name |>) cs in
  (t <| pt_Spec ::= λ s, s <| ps_Containers := cs |> |>, errs).

Definition Build (b : Builder) : outcome StatefulSet :=
  match buildPodTemplateSpec b with
  | (t, []) =>
      Ret (MkStatefulSet
        (emptyMeta <| om_Name := b_name b |> <| om_Namespace := b_namespace b |>
           <| om_Labels := copyMap (b_labels b) |> <| om_OwnerReferences := b_ownerReference b |>)
        (emptyStatefulSetSpec <| ss_UpdateStrategy := MkStatefulSetUpdateStrategy (b_updateStrategyType b) None |>
           <| ss_ServiceName := b_serviceName b |> <| ss_Replicas := Some (int32 (b_replicas b)) |>
           <| ss_Selector := Some (MkLabelSelector (copyMap (b_matchLabels b)) []) |>
           <| ss_Template := t |> <| ss_VolumeClaimTemplates := b_volumeClaimsTemplates b |>)
        (MkStatefulSetStatus 0 0 0))
  | (_, errs) => Err (TextError (Itoa (Z.of_nat (length errs)) +:+ " errors occurred: " +:+ Join errs ", "))
  end.
End Build.
End Builder.
End stsbuilder.
