(* ===== verification/Readiness.v ===== *)
(** * The readiness probe

    cmd/readiness/main.go and pkg/readiness: the probe Kubernetes runs in every database
    pod.  It reads the agent's health file, compares the agent's config version with that of
    the automation config, and reports the version in the annotation of the pod
    the operator waits for. *)
From S2P Require Import Prelude GoStd K8s MergeByKey Merge Scale Json Codec ScramCreds ACTypes Types Kube KubeOps.
From S2P Require Import PodMods Health.
Local Open Scope Z_scope.

(** [cast.ToInt64] of github.com/spf13/cast on a decoded JSON value.  Decoding into
    an interface makes every number a [float64], so that an integer is exact up to
    2^53. *)
Class CastAny := ToInt64 : json → Z.
Class CastAnyOk `{CastAny} : Prop := ToInt64_JNum : ∀ z, 0 ≤ z ≤ 2 ^ 53 → ToInt64 (JNum z) = z.

(** The clientset's JSON patch of a pod, and what the API server does with one that
    adds annotations (RFC 6902): with an object it replaces all of them, with a string
    it sets one of those that are there. *)
Class PodPatch {api : K8sApi} (W : Type) := patch_pod : NamespacedName → string → IO W Pod.

Definition add_annotation (anns : option (gmap string string)) (p : patchValue) : option (option (gmap string string)) :=
  if negb (bool_decide (pv_Op p = "add")) then None
  else if bool_decide (pv_Path p = annotations_path) then
    match pv_Value p with JObj [] => Some (Some ∅) | _ => None end
  else
    key ← drop_prefix (annotations_path +:+ "/") (pv_Path p);
    match anns, pv_Value p with
    | Some m, JStr v => Some (Some (<[unescape_slash key := v]> m))
    | _, _ => None
    end.
Definition add_annotations (anns : option (gmap string string)) (ps : list patchValue)
    : option (option (gmap string string)) :=
  foldl (λ acc p, a ← acc; add_annotation a p) (Some anns) ps.

Class PodPatchLaws {api : K8sApi} (W : Type) `{!KubeClient W, !PodPatch W} : Prop :=
  patch_pod_law : ∀ n (ps : list patchValue) w r w',
    json_wf ps = true → patch_pod n (print_json (to_json ps)) w = (r, w') →
    match r with
    | Ret _ => ∃ p, stored (cluster w) KPod n = Some p
        ∧ ∀ anns, add_annotations (om_Annotations (pod_ObjectMeta p)) ps = Some anns →
          cluster w' = put (cluster w) KPod (set_annotations KPod p anns)
    | _ => cluster w' = cluster w
    end.

(** What else the probe asks of libraries: the in-cluster configuration, a clientset for
    it, and a logger that writes to a file. *)
Class ProbeLibraries (W : Type) := {
  InClusterConfig : IO W unit;
  NewForConfig : IO W unit;
  zap_Build : string → IO W unit;
}.

(** ** pkg/readiness/config *)

Module config.
Definition defaultAgentHealthStatusFilePath : string := "/var/log/mongodb-mms-automation/agent-health-status.json".
Definition defaultLogPath : string := "/var/log/mongodb-mms-automation/readiness.log".
Definition podNamespaceEnv : string := "POD_NAMESPACE".
Definition automationConfigSecretEnv : string := "AUTOMATION_CONFIG_MAP".
Definition agentHealthStatusFilePathEnv : string := "AGENT_STATUS_FILEPATH".
Definition logPathEnv : string := "LOG_FILE_PATH".
Definition hostNameEnv : string := "HOSTNAME".

(** The clientset is the world. *)
Record Config := MkConfig {
  Namespace : string;
  Hostname : string;
  AutomationConfigSecretName : string;
  HealthStatusReader : Reader;
  LogFilePath : string;
}.

Section Config.
Context `{!Environ}.
Definition getEnvOrDefault (envVar defaultValue : string) : string :=
  let value := TrimSpace (Getenv envVar) in
  if bool_decide (value = "") then defaultValue else value.

Definition required (name : string) : outcome string :=
  match LookupEnv name with
  | Some v => Ret v
  | None => Err (TextError ("the '" +:+ name +:+ "' environment variable must be set"))
  end.

Definition BuildFromEnvVariables {W} `{!Files W} (isHeadless : bool) : IO W Config :=
  let healthStatusFilePath := getEnvOrDefault agentHealthStatusFilePathEnv defaultAgentHealthStatusFilePath in
  let logFilePath := getEnvOrDefault logPathEnv defaultLogPath in
  names <- (if isHeadless then
              namespace <- lift (required podNamespaceEnv) ;;
              automationConfigName <- lift (required automationConfigSecretEnv) ;;
              hostname <- lift (required hostNameEnv) ;;
              ret (namespace, automationConfigName, hostname)
            else ret ("", "", "")) ;;
  let '(namespace, automationConfigName, hostname) := names in
  file <- os_Open healthStatusFilePath ;;
  ret (MkConfig namespace hostname automationConfigName file logFilePath).
End Config.
End config.

(** ** pkg/readiness/secret *)

Section Probe.
Context {api : K8sApi} `{!Environ, !CastAny, !MapOrder}.
Context {W : Type} `{!KubeClient W, !PodPatch W, !Clock W}.

Definition automationConfigKey : string := "cluster-config.json".
Definition ReadSecret (namespace secretName : string) : IO W Secret := Get KSecret (MkNamespacedName secretName namespace).

(** Without a version the error that is returned is the nil one of the read. *)
Definition ReadAutomationConfigVersionFromSecret (namespace automationConfigMap : string) : IO W Z :=
  theSecret <- ReadSecret namespace automationConfigMap ;;
  match parse_json (default "" (gm (s_Data theSecret) !! automationConfigKey))
        ≫= of_json (A := gmap string json) with
  | None => throw (TextError "json: cannot unmarshal the automation config")
  | Some existingDeployment =>
      match existingDeployment !! "version" with
      | None => ret (-1)
      | Some version => ret (ToInt64 version)
      end
  end.

(** ** pkg/readiness/pod *)

Definition mongodbAgentVersionAnnotation : string := "agent.mongodb.com/version".
Definition patchPod (podNamespace podName : string) (payload : list patchValue) : IO W Pod :=
  patch_pod (MkNamespacedName podName podNamespace) (print_json (to_json payload)).

Definition version_payload (pod : Pod) (lastVersionAchieved : Z) : list patchValue :=
  (if bool_decide (gm (om_Annotations (pod_ObjectMeta pod)) = ∅)
   then [MkPatchValue "add" "/metadata/annotations" (to_json (∅ : gmap string string))] else []) ++
  [MkPatchValue "add" ("/metadata/annotations/" +:+ ReplaceChar (chr 47) "~1" None mongodbAgentVersionAnnotation)
     (to_json (Itoa lastVersionAchieved))].

Definition PatchPodAnnotation (podNamespace : string) (lastVersionAchieved : Z) (memberName : string) : IO W unit :=
  pod <- Get KPod (MkNamespacedName memberName podNamespace) ;;
  patchPod podNamespace memberName (version_payload pod lastVersionAchieved) ;; ret ().

(** ** pkg/readiness/headless *)

(** The first process, and the first health, in the order the map is visited. *)
Definition readCurrentAgentInfo (h : health.Status) (targetVersion : Z) : Z :=
  match range (health.ProcessPlans h) with
  | (_, v) :: _ => health.ds_LastGoalStateClusterConfigVersion v
  | [] =>
      match range (health.Healthiness h) with
      | (_, v) :: _ => if health.ph_IsInGoalState v then targetVersion else -1
      | [] => targetVersion
      end
  end.

Definition PerformCheckHeadlessMode (h : health.Status) (conf : config.Config) : IO W bool :=
  targetVersion <- ReadAutomationConfigVersionFromSecret (config.Namespace conf) (config.AutomationConfigSecretName conf) ;;
  let currentAgentVersion := readCurrentAgentInfo h targetVersion in
  PatchPodAnnotation (config.Namespace conf) currentAgentVersion (config.Hostname conf) ;;
  ret (targetVersion =? currentAgentVersion).

(** ** cmd/readiness/main.go *)

Definition headlessAgent : string := "HEADLESS_AGENT".
Definition mongodNotReadyIntervalMinutes : Z := time.Minute * 1.
Definition riskySteps : list string := ["WaitAllRsMembersUp"; "WaitRsInit"].

Definition isHeadlessMode : bool := bool_decide (Getenv headlessAgent = "true").

Definition parseHealthStatus (reader : Reader) : outcome health.Status :=
  let! data := reader in
  match parse_json data ≫= health.dec_Status with
  | Some h => Ret h
  | None => Err (TextError "json: cannot unmarshal the health status")
  end.

Definition nil_deref {A} : outcome A := Panic "nil pointer dereference".

(** The loop over the steps of a plan: the last one that was started. *)
Fixpoint last_started (steps : list (option health.StepStatus)) (acc : option health.StepStatus)
    : outcome (option health.StepStatus) :=
  match steps with
  | [] => Ret acc
  | None :: _ => nil_deref
  | Some s :: rest => last_started rest (match health.ss_Started s with Some _ => Some s | None => acc end)
  end.
Fixpoint last_started_of_moves (moves : list (option health.MoveStatus)) (acc : option health.StepStatus)
    : outcome (option health.StepStatus) :=
  match moves with
  | [] => Ret acc
  | None :: _ => nil_deref
  | Some m :: rest => let! acc := last_started (health.ms_Steps m) acc in last_started_of_moves rest acc
  end.

Definition findCurrentStep (processStatuses : gmap string health.MmsDirectorStatus) : outcome (option health.StepStatus) :=
  if bool_decide (processStatuses = ∅) then Ret None
  else if (1 <? Z.of_nat (size processStatuses)) then Ret None
  else
    match range processStatuses with
    | (_, v) :: _ =>
        match last (health.ds_Plans v) with
        | None => Ret None
        | Some None => nil_deref
        | Some (Some currentPlan) =>
            match health.ps_Completed currentPlan with
            | Some _ => Ret None
            | None => last_started_of_moves (health.ps_Moves currentPlan) None
            end
        end
    | [] => nil_deref
    end.

Definition isDeadlocked (status : health.StepStatus) : IO W bool :=
  now <- Now ;;
  let fifteenSecondsAgo := time.Add now (-15 * time.Second) in
  if contains_String riskySteps (health.ss_Step status) && bool_decide (health.ss_Completed status = None) then
    match health.ss_Started status with
    | None => lift nil_deref
    | Some started => ret (time.Before started fifteenSecondsAgo)
    end
  else ret false.

Definition hasDeadlockedSteps (h : health.Status) : IO W bool :=
  currentStep <- lift (findCurrentStep (health.ProcessPlans h)) ;;
  match currentStep with
  | Some s => isDeadlocked s
  | None => ret false
  end.

Definition performCheckOMMode (h : health.Status) : bool :=
  existsb (λ kv, health.ph_IsInGoalState kv.2) (range (health.Healthiness h)).

Definition isInGoalState (h : health.Status) (conf : config.Config) : IO W bool :=
  if isHeadlessMode then PerformCheckHeadlessMode h conf else ret (performCheckOMMode h).

(** The loop returns for the first process. *)
Definition isInReadyState (h : health.Status) : IO W bool :=
  if bool_decide (health.Healthiness h = ∅) then ret true
  else
    match range (health.Healthiness h) with
    | (_, processHealth) :: _ =>
        if negb (health.ph_ExpectedToBeUp processHealth) then ret true
        else
          let timeMongoUp := time.Unix (health.ph_LastMongoUpTime processHealth) in
          now <- Now ;;
          let mongoUpThreshold := time.Add now (- mongodNotReadyIntervalMinutes) in
          let mongoIsHealthy := time.After timeMongoUp mongoUpThreshold in
          ret (mongoIsHealthy && health.IsReadyState processHealth)
    | [] => ret false
    end.

Definition isPodReady (conf : config.Config) : IO W bool :=
  healthStatus <- lift (parseHealthStatus (config.HealthStatusReader conf)) ;;
  if bool_decide (health.Healthiness healthStatus = ∅) && negb isHeadlessMode then ret true
  else
    inGoalState <- isInGoalState healthStatus conf ;;
    inReadyState <- isInReadyState healthStatus ;;
    if inGoalState && inReadyState then ret true
    else if negb inGoalState then hasDeadlockedSteps healthStatus
    else ret false.

Definition kubernetesClientset `{!ProbeLibraries W} : IO W unit :=
  wrap (prefix_error "failed to get in cluster config: ") InClusterConfig ;;
  wrap (prefix_error "failed to build config: ") NewForConfig.

(** [main]: the exit code; every error is a panic. *)
Definition must {A} (m : IO W A) : IO W A :=
  r <- attempt m ;; match r with inl a => ret a | inr e => panic (err_text e) end.
Definition readiness_main `{!Files W, !ProbeLibraries W} : IO W Z :=
  must kubernetesClientset ;;
  conf <- must (config.BuildFromEnvVariables isHeadlessMode) ;;
  must (zap_Build (config.LogFilePath conf)) ;;
  ready <- must (isPodReady conf) ;;
  ret (if ready then 0 else 1).
End Probe.
