(* ===== verification/Construct.v ===== *)
(** * The StatefulSet of a replica set

    controllers/construct/mongodbstatefulset.go: the StatefulSet every resource
    that runs MongoDB gets, as a modification of the existing one. *)
From S2P Require Import Prelude GoStd K8s MergeByKey Merge Scale Json Codec ScramCreds ACTypes Types Kube KubeOps.
From S2P Require Import PodMods StsMods.
Local Open Scope Z_scope.

Module construct.
Definition AgentName : string := "mongodb-agent".
Definition MongodbName : string := "mongod".
Definition versionUpgradeHookName : string := "mongod-posthook".
Definition ReadinessProbeContainerName : string := "mongodb-agent-readinessprobe".
Definition readinessProbePath : string := "/opt/scripts/readinessprobe".
Definition agentHealthStatusFilePathEnv : string := "AGENT_STATUS_FILEPATH".
Definition clusterFilePath : string := "/var/lib/automation/config/cluster-config.json".
Definition mongodbDatabaseServiceAccountName : string := "mongodb-database".
Definition agentHealthStatusFilePathValue : string :=
  "/var/log/mongodb-mms-automation/healthstatus/agent-health-status.json".
Definition MongodbRepoUrl : string := "MONGODB_REPO_URL".
Definition headlessAgentEnv : string := "HEADLESS_AGENT".
Definition podNamespaceEnv : string := "POD_NAMESPACE".
Definition automationConfigEnv : string := "AUTOMATION_CONFIG_MAP".
Definition AgentImageEnv : string := "AGENT_IMAGE".
Definition MongodbImageEnv : string := "MONGODB_IMAGE".
Definition VersionUpgradeHookImageEnv : string := "VERSION_UPGRADE_HOOK_IMAGE".
Definition ReadinessProbeImageEnv : string := "READINESS_PROBE_IMAGE".
Definition ManagedSecurityContextEnv : string := "MANAGED_SECURITY_CONTEXT".
Definition automationconfFilePath : string := "/data/automation-mongod.conf".
Definition keyfileFilePath : string := "/var/lib/mongodb-mms-automation/authentication/keyfile".
Definition automationAgentOptions : string := " -skipMongoStart -noDaemonize -useLocalMongoDbTools".
Definition PullAlways : string := "Always".
Definition ReadWriteOnce : string := "ReadWriteOnce".

Definition nl : string := String (chr 10) "".
Definition MongodbUserCommand : string :=
  "current_uid=$(id -u)" +:+ nl +:+
  "declare -r current_uid" +:+ nl +:+
  "if ! grep -q " +:+ dq +:+ "${current_uid}" +:+ dq +:+ " /etc/passwd ; then" +:+ nl +:+
  "sed -e " +:+ dq +:+ "s/^mongodb:/builder:/" +:+ dq +:+ " /etc/passwd > /tmp/passwd" +:+ nl +:+
  "echo " +:+ dq +:+ "mongodb:x:$(id -u):$(id -g):,,,:/:/bin/bash" +:+ dq +:+ " >> /tmp/passwd" +:+ nl +:+
  "export NSS_WRAPPER_PASSWD=/tmp/passwd" +:+ nl +:+
  "export LD_PRELOAD=libnss_wrapper.so" +:+ nl +:+
  "export NSS_WRAPPER_GROUP=/etc/group" +:+ nl +:+
  "fi" +:+ nl.

(** The interface of a resource that runs MongoDB. *)
Record MongoDBStatefulSetOwner := MkOwner {
  ow_ServiceName : string;
  ow_Name : string;
  ow_Namespace : string;
  ow_MongoDBVersion : string;
  ow_AutomationConfigSecretName : string;
  ow_UpdateStrategyType : string;
  ow_HasSeparateDataAndLogsVolumes : bool;
  ow_AgentKeyfileSecretNamespacedName : NamespacedName;
  ow_DataVolumeName : string;
  ow_LogsVolumeName : string;
}.

Section Construct.
Context {api : K8sApi} `{!Environ, !Quantities, !MapOrder}.

Definition BaseAgentCommand : string :=
  "agent/mongodb-agent -cluster=" +:+ clusterFilePath +:+ " -healthCheckFilePath=" +:+ agentHealthStatusFilePathValue
  +:+ " -serveStatusPort=5000".
Definition AutomationAgentCommand : list string :=
  ["/bin/bash"; "-c"; MongodbUserCommand +:+ BaseAgentCommand +:+ automationAgentOptions].

Definition DefaultReadiness : Probe → Probe :=
  probes.Apply [probes.WithExecCommand [readinessProbePath]; probes.WithFailureThreshold 40;
                probes.WithInitialDelaySeconds 5].

Definition container_security_context : container.Modification :=
  if envvar.ReadBool ManagedSecurityContextEnv then container.NOOP
  else container.WithSecurityContext container.DefaultSecurityContext.

Definition agent_envs (automationConfigSecretName : string) : list EnvVar :=
  [MkEnvVar headlessAgentEnv "true" None;
   MkEnvVar podNamespaceEnv ""
     (Some (MkEnvVarSource (Some (MkObjectFieldSelector "v1" "metadata.namespace")) None None None));
   MkEnvVar automationConfigEnv automationConfigSecretName None;
   MkEnvVar agentHealthStatusFilePathEnv agentHealthStatusFilePathValue None].
Definition mongodbAgentContainer (automationConfigSecretName : string) (volumeMounts : list VolumeMount)
    : container.Modification :=
  container.Apply
    [container.WithName AgentName;
     container.WithImage (Getenv AgentImageEnv);
     container.WithImagePullPolicy PullAlways;
     container.WithReadinessProbe DefaultReadiness;
     container.WithResourceRequirements resourcerequirements.Defaults;
     container.WithVolumeMounts volumeMounts;
     container_security_context;
     container.WithCommand AutomationAgentCommand;
     container.WithEnvs (agent_envs automationConfigSecretName)].

Definition versionUpgradeHookInit (volumeMount : list VolumeMount) : container.Modification :=
  container.Apply
    [container.WithName versionUpgradeHookName;
     container.WithCommand ["cp"; "version-upgrade-hook"; "/hooks/version-upgrade"];
     container.WithImage (Getenv VersionUpgradeHookImageEnv);
     container.WithImagePullPolicy PullAlways;
     container.WithVolumeMounts volumeMount].

Definition readinessProbeInit (volumeMount : list VolumeMount) : container.Modification :=
  container.Apply
    [container.WithName ReadinessProbeContainerName;
     container.WithCommand ["cp"; "/probes/readinessprobe"; "/opt/scripts/readinessprobe"];
     container.WithImage (Getenv ReadinessProbeImageEnv);
     container.WithImagePullPolicy PullAlways;
     container.WithVolumeMounts volumeMount].

Definition dataPvc (dataVolumeName : string) : PersistentVolumeClaim → PersistentVolumeClaim :=
  persistentvolumeclaim.Apply
    [persistentvolumeclaim.WithName dataVolumeName; persistentvolumeclaim.WithAccessModes ReadWriteOnce;
     persistentvolumeclaim.WithResourceRequests resourcerequirements.BuildDefaultStorageRequirements].
Definition logsPvc (logsVolumeName : string) : PersistentVolumeClaim → PersistentVolumeClaim :=
  persistentvolumeclaim.Apply
    [persistentvolumeclaim.WithName logsVolumeName; persistentvolumeclaim.WithAccessModes ReadWriteOnce;
     persistentvolumeclaim.WithResourceRequests (resourcerequirements.BuildStorageRequirements "2G")].

Definition getMongoDBImage (version : string) : string :=
  let repoUrl := Getenv MongodbRepoUrl in
  let repoUrl := if HasSuffix repoUrl "/" then TrimRight (chr 47) repoUrl else repoUrl in
  repoUrl +:+ "/" +:+ Getenv MongodbImageEnv +:+ ":" +:+ version.

Definition mongoDbCommand : string :=
  nl +:+ "#run post-start hook to handle version changes" +:+ nl +:+
  "/hooks/version-upgrade" +:+ nl +:+ nl +:+
  "# wait for config and keyfile to be created by the agent" +:+ nl +:+
  " while ! [ -f " +:+ automationconfFilePath +:+ " -a -f " +:+ keyfileFilePath
  +:+ " ]; do sleep 3 ; done ; sleep 2 ;" +:+ nl +:+ nl +:+
  "# with mongod configured to append logs, we need to provide them to stdout as" +:+ nl +:+
  "# mongod does not write to stdout and a log file" +:+ nl +:+
  "tail -F /var/log/mongodb-mms-automation/mongodb.log > /dev/stdout &" +:+ nl +:+ nl +:+
  "# start mongod with this configuration" +:+ nl +:+
  "exec mongod -f " +:+ automationconfFilePath +:+ ";" +:+ nl +:+ nl.

Definition mongod_envs : list EnvVar :=
  [MkEnvVar agentHealthStatusFilePathEnv "/healthstatus/agent-health-status.json" None].
Definition mongodbContainer (version : string) (volumeMounts : list VolumeMount) : container.Modification :=
  container.Apply
    [container.WithName MongodbName;
     container.WithImage (getMongoDBImage version);
     container.WithResourceRequirements resourcerequirements.Defaults;
     container.WithCommand ["/bin/sh"; "-c"; mongoDbCommand];
     container.WithEnvs mongod_envs;
     container.WithVolumeMounts volumeMounts;
     container_security_context].

(** The volumes of the pod and the mounts of its containers. *)
Definition healthStatusVolume : Volume := stsmods.CreateVolumeFromEmptyDir "healthstatus".
Definition hooksVolume : Volume := stsmods.CreateVolumeFromEmptyDir "hooks".
Definition scriptsVolume : Volume := stsmods.CreateVolumeFromEmptyDir "agent-scripts".
Definition automationConfigVolume (mdb : MongoDBStatefulSetOwner) : Volume :=
  stsmods.CreateVolumeFromSecret "automation-config" (ow_AutomationConfigSecretName mdb) [].
Definition keyFileVolume (mdb : MongoDBStatefulSetOwner) : Volume :=
  stsmods.CreateVolumeFromEmptyDir (nn_Name (ow_AgentKeyfileSecretNamespacedName mdb)).
Definition hooksVolumeMount : VolumeMount :=
  stsmods.CreateVolumeMount (v_Name hooksVolume) "/hooks" [stsmods.WithReadOnly false].
Definition scriptsVolumeMount : VolumeMount :=
  stsmods.CreateVolumeMount (v_Name scriptsVolume) "/opt/scripts" [stsmods.WithReadOnly false].
Definition keyFileVolumeMount (mdb : MongoDBStatefulSetOwner) : VolumeMount :=
  stsmods.CreateVolumeMount (v_Name (keyFileVolume mdb)) "/var/lib/mongodb-mms-automation/authentication"
    [stsmods.WithReadOnly false].

(** Data and logs on two claims, or on two paths of one. *)
Definition data_mounts (mdb : MongoDBStatefulSetOwner) : list VolumeMount :=
  if ow_HasSeparateDataAndLogsVolumes mdb then
    [stsmods.CreateVolumeMount (ow_DataVolumeName mdb) "/data" [];
     stsmods.CreateVolumeMount (ow_LogsVolumeName mdb) DefaultAgentLogPath []]
  else
    [stsmods.CreateVolumeMount (ow_DataVolumeName mdb) "/data" [stsmods.WithSubPath "data"];
     stsmods.CreateVolumeMount (ow_DataVolumeName mdb) DefaultAgentLogPath [stsmods.WithSubPath "logs"]].
Definition volume_claims (mdb : MongoDBStatefulSetOwner) : list stsmods.Modification :=
  if ow_HasSeparateDataAndLogsVolumes mdb then
    [stsmods.WithVolumeClaim (ow_DataVolumeName mdb) (dataPvc (ow_DataVolumeName mdb));
     stsmods.WithVolumeClaim (ow_LogsVolumeName mdb) (logsPvc (ow_LogsVolumeName mdb)); stsmods.NOOP]
  else
    [stsmods.NOOP; stsmods.NOOP;
     stsmods.WithVolumeClaim (ow_DataVolumeName mdb) (dataPvc (ow_DataVolumeName mdb))].

Definition mongodbAgentVolumeMounts (mdb : MongoDBStatefulSetOwner) : list VolumeMount :=
  [stsmods.CreateVolumeMount (v_Name healthStatusVolume) "/var/log/mongodb-mms-automation/healthstatus" [];
   stsmods.CreateVolumeMount (v_Name (automationConfigVolume mdb)) "/var/lib/automation/config"
     [stsmods.WithReadOnly true];
   scriptsVolumeMount; keyFileVolumeMount mdb] ++ data_mounts mdb.
Definition mongodVolumeMounts (mdb : MongoDBStatefulSetOwner) : list VolumeMount :=
  [stsmods.CreateVolumeMount (v_Name healthStatusVolume) "/healthstatus" []; hooksVolumeMount; keyFileVolumeMount mdb]
  ++ data_mounts mdb.

Definition pod_template (mdb : MongoDBStatefulSetOwner) : podtemplatespec.Modification :=
  podtemplatespec.Apply
    [if envvar.ReadBool ManagedSecurityContextEnv then podtemplatespec.NOOP
     else podtemplatespec.WithSecurityContext podtemplatespec.DefaultPodSecurityContext;
     podtemplatespec.WithPodLabels (Some {[ "app" := ow_ServiceName mdb ]});
     podtemplatespec.WithVolume healthStatusVolume;
     podtemplatespec.WithVolume hooksVolume;
     podtemplatespec.WithVolume (automationConfigVolume mdb);
     podtemplatespec.WithVolume scriptsVolume;
     podtemplatespec.WithVolume (keyFileVolume mdb);
     podtemplatespec.WithServiceAccount mongodbDatabaseServiceAccountName;
     podtemplatespec.WithContainer AgentName
       (mongodbAgentContainer (ow_AutomationConfigSecretName mdb) (mongodbAgentVolumeMounts mdb));
     podtemplatespec.WithContainer MongodbName (mongodbContainer (ow_MongoDBVersion mdb) (mongodVolumeMounts mdb));
     podtemplatespec.WithInitContainer versionUpgradeHookName (versionUpgradeHookInit [hooksVolumeMount]);
     podtemplatespec.WithInitContainer ReadinessProbeContainerName (readinessProbeInit [scriptsVolumeMount])].

Definition BuildMongoDBReplicaSetStatefulSetModificationFunction (mdb : MongoDBStatefulSetOwner)
    (scaler : Scale.ReplicaSetScaler) : stsmods.Modification :=
  let labels := Some {[ "app" := ow_ServiceName mdb ]} in
  stsmods.Apply
    ([stsmods.WithName (ow_Name mdb);
      stsmods.WithNamespace (ow_Namespace mdb);
      stsmods.WithServiceName (ow_ServiceName mdb);
      stsmods.WithLabels labels;
      stsmods.WithMatchLabels labels;
      stsmods.WithReplicas (Scale.ReplicasThisReconciliation scaler);
      stsmods.WithUpdateStrategyType (ow_UpdateStrategyType mdb)]
     ++ volume_claims mdb
     ++ [stsmods.WithPodSpecTemplate (pod_template mdb)]).

(** The methods of a MongoDBCommunity resource behind the interface. *)
Definition owner (m : V1.MongoDBCommunity) : MongoDBStatefulSetOwner :=
  MkOwner (V1.ServiceName m) (V1.Name m) (V1.Namespace m) (V1.GetMongoDBVersion m) (V1.AutomationConfigSecretName m)
    (V1.GetUpdateStrategyType m) (V1.HasSeparateDataAndLogsVolumes m) (V1.GetAgentKeyfileSecretNamespacedName m)
    (V1.DataVolumeName m) (V1.LogsVolumeName m).
End Construct.
End construct.
