(* ===== verification/ConstructFacts.v ===== *)
(** * What the constructed StatefulSet guarantees

    Applying the construction again to its own result changes nothing, so that a
    reconciliation of an unchanged resource does not touch the pods. *)
From S2P Require Import Prelude GoStd K8s MergeByKey Merge Scale Json Codec ScramCreds ACTypes Types Kube KubeOps.
From S2P Require Import KubeFacts PodMods StsMods Construct.
Local Open Scope Z_scope.

(** ** Lists modified by name

    Containers and volume claims are both looked up by name, modified in place,
    and appended when they are missing. *)
Section ByName.
Context {A : Type} (name_of : A → string).

Fixpoint upsert (n : string) (blank : A) (f : A → A) (l : list A) : list A :=
  match l with
  | [] => [f blank]
  | x :: l' => if decide (name_of x = n) then f x :: l' else x :: upsert n blank f l'
  end.

Lemma upsert_find n blank f l :
  match fst <$> list_find (λ x, name_of x = n) l with
  | Some i => alter f i l
  | None => l ++ [f blank]
  end = upsert n blank f l.
Proof.
  induction l as [|x l IH]; [done|]. cbn [list_find upsert]. destruct (decide (name_of x = n)); [done|].
  destruct (list_find (λ x, name_of x = n) l) as [[i y]|]; cbn in *; by rewrite IH.
Qed.

(** [f] keeps the name and does nothing the second time. *)
Definition settles (n : string) (blank : A) (f : A → A) : Prop :=
  name_of (f blank) = n ∧ (∀ x, name_of x = n → name_of (f x) = n) ∧ ∀ x, f (f x) = f x.

Lemma upsert_idemp n blank f l : settles n blank f → upsert n blank f (upsert n blank f l) = upsert n blank f l.
Proof.
  intros (Hb & Hn & Hf). induction l as [|x l IH]; cbn.
  - rewrite decide_True by done. by rewrite Hf.
  - destruct (decide (name_of x = n)) as [E|E]; cbn.
    + rewrite decide_True by auto. by rewrite Hf.
    + rewrite decide_False by done. by rewrite IH.
Qed.

Lemma upsert_commute a b ba bb f g l :
  a ≠ b → settles a ba f → settles b bb g → a ∈ name_of <$> l →
  upsert a ba f (upsert b bb g l) = upsert b bb g (upsert a ba f l).
Proof.
  intros Hab (Hfb & Hfn & _) (Hgb & Hgn & _). induction l as [|x l IH]; cbn; [set_solver|]. intros Hin.
  destruct (decide (name_of x = b)) as [Eb|Eb]; destruct (decide (name_of x = a)) as [Ea|Ea]; cbn.
  - congruence.
  - rewrite !decide_False by (rewrite ?Hgn; congruence). by rewrite decide_True.
  - rewrite decide_True by done. rewrite decide_False by (rewrite Hfn; congruence). done.
  - rewrite !decide_False by done. rewrite IH; [done|]. set_solver.
Qed.

Lemma upsert_present n blank f l : settles n blank f → n ∈ name_of <$> upsert n blank f l.
Proof.
  intros (Hb & Hn & _). induction l as [|x l IH]; cbn; [set_solver|].
  destruct (decide (name_of x = n)); cbn; [rewrite Hn by done|]; set_solver.
Qed.

Lemma upsert_keeps n blank f m l : m ∈ name_of <$> l → settles n blank f → m ∈ name_of <$> upsert n blank f l.
Proof.
  intros Hin (Hb & Hn & _). induction l as [|x l IH]; cbn in *; [set_solver|].
  destruct (decide (name_of x = n)) as [E|]; cbn; [rewrite (Hn x) by done|]; set_solver.
Qed.

Lemma upsert2_idemp a b ba bb f g l :
  a ≠ b → settles a ba f → settles b bb g →
  let h l := upsert b bb g (upsert a ba f l) in h (h l) = h l.
Proof.
  intros Hab Hf Hg h. unfold h. rewrite (upsert_commute a b) by (try done; by apply upsert_present).
  by rewrite (upsert_idemp a), (upsert_idemp b).
Qed.
End ByName.

Section Facts.
Context {api : K8sApi} `{!Environ, !Quantities, !MapOrder}.

Lemma modify_named_upsert n f cs :
  podtemplatespec.modify_named n f cs = upsert c_Name n (emptyContainer <| c_Name := n |>) f cs.
Proof. apply (upsert_find c_Name). Qed.
Lemma modify_claim_upsert n f cs : stsmods.modify_claim n f cs = upsert pvc_Name n emptyPvc f cs.
Proof. apply (upsert_find pvc_Name). Qed.

(** ** Slices merged by key *)

Lemma sorted_index_idemp {A} (key : A → string) (l1 l2 : list A) :
  let g l := sort_by key (range (create_map key (l ++ l2))).*2 in g (g l1) = g l1.
Proof.
  intros g. destruct (sorted_index_spec key (l1 ++ l2)) as (S1 & N1 & F1).
  destruct (sorted_index_spec key (g l1 ++ l2)) as (S2 & N2 & F2).
  apply (sorted_by_key_ext key); [done..|]. intros k. rewrite !create_map_lookup. unfold g at 1.
  rewrite F2. unfold g in *. rewrite F1. unfold find_last in *. rewrite !filter_app.
  specialize (F1 k). rewrite !filter_app in F1.
  destruct (filter (λ x, key x = k) l2) as [|x l] eqn:E using rev_ind; [by rewrite !app_nil_r in *|].
  clear IHl. by rewrite !app_assoc, !last_snoc.
Qed.

Definition merge_mounts (existing mounts : list VolumeMount) : list VolumeMount :=
  sort_by container.volumeMountToString (range (create_map container.volumeMountToString (existing ++ mounts))).*2.

Lemma envs_settle (F : Container → Container) envs :
  (∀ c, c_Env (F c) = envvar.MergeWithOverride (c_Env c) envs) → ∀ c, c_Env (F (F c)) = c_Env (F c).
Proof. intros HF c. rewrite !HF. apply (sorted_index_idemp ev_Name). Qed.
Lemma mounts_settle (F : Container → Container) mounts :
  (∀ c, c_VolumeMounts (F c) = merge_mounts (c_VolumeMounts c) mounts) →
  ∀ c, c_VolumeMounts (F (F c)) = c_VolumeMounts (F c).
Proof. intros HF c. rewrite !HF. apply (sorted_index_idemp container.volumeMountToString). Qed.

(** ** The containers *)

(** Field by field: only the variables and the mounts depend on the container
    they are applied to. *)
Lemma Container_ext (c c' : Container) :
  c_Name c = c_Name c' → c_Image c = c_Image c' → c_Command c = c_Command c' → c_Args c = c_Args c' →
  c_WorkingDir c = c_WorkingDir c' → c_Ports c = c_Ports c' → c_EnvFrom c = c_EnvFrom c' → c_Env c = c_Env c' →
  c_Resources c = c_Resources c' → c_VolumeMounts c = c_VolumeMounts c' → c_VolumeDevices c = c_VolumeDevices c' →
  c_LivenessProbe c = c_LivenessProbe c' → c_ReadinessProbe c = c_ReadinessProbe c' →
  c_StartupProbe c = c_StartupProbe c' → c_Lifecycle c = c_Lifecycle c' →
  c_TerminationMessagePath c = c_TerminationMessagePath c' →
  c_TerminationMessagePolicy c = c_TerminationMessagePolicy c' → c_ImagePullPolicy c = c_ImagePullPolicy c' →
  c_SecurityContext c = c_SecurityContext c' → c_Stdin c = c_Stdin c' → c_StdinOnce c = c_StdinOnce c' →
  c_TTY c = c_TTY c' → c = c'.
Proof. destruct c, c'; cbn; intros; by subst. Qed.

#[local] Opaque envvar.MergeWithOverride sort_by create_map.
Ltac env_field envs :=
  lazymatch goal with
  | |- c_Env (?F (?F _)) = _ =>
      let HF := fresh in
      assert (∀ c, c_Env (F c) = envvar.MergeWithOverride (c_Env c) envs) as HF by reflexivity;
      exact (envs_settle F envs HF _)
  end.
Ltac mount_field mounts :=
  lazymatch goal with
  | |- c_VolumeMounts (?F (?F _)) = _ =>
      let HF := fresh in
      assert (∀ c, c_VolumeMounts (F c) = merge_mounts (c_VolumeMounts c) mounts) as HF by reflexivity;
      exact (mounts_settle F mounts HF _)
  end.
(** A field that is assigned or left alone: both sides have the same head. *)
Ltac plain_field :=
  lazymatch goal with
  | |- ?l = ?r =>
      let v := eval hnf in l in
      transitivity v; [reflexivity | symmetry; reflexivity]
  end.
Ltac container_fields envs mounts :=
  apply Container_ext; [plain_field..|env_field envs|plain_field|mount_field mounts
  |plain_field|plain_field|plain_field|plain_field|plain_field|plain_field|plain_field|plain_field|plain_field
  |plain_field|plain_field|plain_field].

Lemma agent_settles secretName mounts :
  settles c_Name construct.AgentName (emptyContainer <| c_Name := construct.AgentName |>)
    (construct.mongodbAgentContainer secretName mounts).
Proof.
  unfold settles, construct.mongodbAgentContainer, construct.container_security_context.
  destruct (envvar.ReadBool _); (split; [reflexivity|split; [reflexivity|]]); intros c; destruct c;
    container_fields (construct.agent_envs secretName) mounts.
Qed.

Lemma mongod_settles version mounts :
  settles c_Name construct.MongodbName (emptyContainer <| c_Name := construct.MongodbName |>)
    (construct.mongodbContainer version mounts).
Proof.
  unfold settles, construct.mongodbContainer, construct.container_security_context.
  destruct (envvar.ReadBool _); (split; [reflexivity|split; [reflexivity|]]); intros c; destruct c;
    container_fields construct.mongod_envs mounts.
Qed.

Lemma init_settles n command image mounts :
  settles c_Name n (emptyContainer <| c_Name := n |>)
    (container.Apply [container.WithName n; container.WithCommand command; container.WithImage image;
       container.WithImagePullPolicy construct.PullAlways; container.WithVolumeMounts mounts]).
Proof.
  split; [reflexivity|split; [reflexivity|]]. intros c.
  apply Container_ext; [plain_field..|mount_field mounts|plain_field|plain_field|plain_field|plain_field|plain_field
  |plain_field|plain_field|plain_field|plain_field|plain_field|plain_field|plain_field].
Qed.

Lemma pvc_settles n requests :
  settles pvc_Name n emptyPvc
    (persistentvolumeclaim.Apply
      [persistentvolumeclaim.WithName n; persistentvolumeclaim.WithAccessModes construct.ReadWriteOnce;
       persistentvolumeclaim.WithResourceRequests requests]).
Proof. split; [done|split; [done|]]. by intros [[] []]. Qed.

(** ** The volumes *)

Definition has_volume (n : string) (l : list Volume) : bool := existsb (λ v, bool_decide (v_Name v = n)) l.

Lemma has_volume_iff n l : has_volume n l = true ↔ n ∈ v_Name <$> l.
Proof.
  unfold has_volume. rewrite existsb_exists, list_elem_of_fmap. setoid_rewrite bool_decide_eq_true.
  setoid_rewrite <- list_elem_of_In. naive_solver.
Qed.

Lemma add_volume_names v l :
  v_Name v ∈ v_Name <$> podtemplatespec.add_volume v l
  ∧ ∀ n, n ∈ v_Name <$> l → n ∈ v_Name <$> podtemplatespec.add_volume v l.
Proof.
  unfold podtemplatespec.add_volume. fold (has_volume (v_Name v) l). destruct (has_volume (v_Name v) l) eqn:E.
  - apply has_volume_iff in E. auto.
  - rewrite fmap_app. set_solver.
Qed.

Lemma add_volume_present v l : v_Name v ∈ v_Name <$> l → podtemplatespec.add_volume v l = l.
Proof.
  intros Hv%has_volume_iff. unfold podtemplatespec.add_volume. fold (has_volume (v_Name v) l). by rewrite Hv.
Qed.

Lemma add_volumes_names vs : ∀ l,
  (∀ v, v ∈ vs → v_Name v ∈ v_Name <$> foldl (flip podtemplatespec.add_volume) l vs)
  ∧ ∀ n, n ∈ v_Name <$> l → n ∈ v_Name <$> foldl (flip podtemplatespec.add_volume) l vs.
Proof.
  induction vs as [|v vs IH]; intros l; cbn [foldl flip]; [split; [set_solver|done]|].
  destruct (IH (podtemplatespec.add_volume v l)) as [Hv Hn]. destruct (add_volume_names v l) as [Hv' Hn'].
  split; [|auto]. intros v' [->|Hin]%elem_of_cons; auto.
Qed.

Lemma add_volumes_present vs : ∀ l,
  (∀ v, v ∈ vs → v_Name v ∈ v_Name <$> l) → foldl (flip podtemplatespec.add_volume) l vs = l.
Proof.
  induction vs as [|v vs IH]; intros l Hl; [done|]. cbn [foldl]. unfold flip at 2.
  rewrite add_volume_present by (apply Hl; constructor). apply IH. intros v' Hv'. apply Hl. by constructor.
Qed.

Lemma add_volumes_idemp vs l :
  let g l := foldl (flip podtemplatespec.add_volume) l vs in g (g l) = g l.
Proof. apply add_volumes_present, add_volumes_names. Qed.

(** ** The whole StatefulSet *)

Lemma containers_idemp secretName version m1 m2 l :
  let h l := podtemplatespec.modify_named construct.MongodbName (construct.mongodbContainer version m2)
               (podtemplatespec.modify_named construct.AgentName (construct.mongodbAgentContainer secretName m1) l) in
  h (h l) = h l.
Proof.
  intros h. unfold h. rewrite !modify_named_upsert. apply (upsert2_idemp c_Name); [done|apply agent_settles|apply mongod_settles].
Qed.

Lemma init_containers_idemp l :
  let h l := podtemplatespec.modify_named construct.ReadinessProbeContainerName
               (construct.readinessProbeInit [construct.scriptsVolumeMount])
               (podtemplatespec.modify_named construct.versionUpgradeHookName
                  (construct.versionUpgradeHookInit [construct.hooksVolumeMount]) l) in
  h (h l) = h l.
Proof.
  intros h. unfold h. rewrite !modify_named_upsert. apply (upsert2_idemp c_Name); [done|apply init_settles..].
Qed.

Lemma claim_idemp n l :
  let h l := stsmods.modify_claim n (construct.dataPvc n) l in h (h l) = h l.
Proof. intros h. unfold h. rewrite !modify_claim_upsert. apply upsert_idemp, pvc_settles. Qed.

Lemma claims_idemp data logs l :
  data ≠ logs →
  let h l := stsmods.modify_claim logs (construct.logsPvc logs)
               (stsmods.modify_claim data (construct.dataPvc data) l) in
  h (h l) = h l.
Proof.
  intros Hne h. unfold h. rewrite !modify_claim_upsert. apply (upsert2_idemp pvc_Name); [done|apply pvc_settles..].
Qed.

Lemma pod_template_idemp mdb t :
  construct.pod_template mdb (construct.pod_template mdb t) = construct.pod_template mdb t.
Proof.
  pose proof (containers_idemp (construct.ow_AutomationConfigSecretName mdb) (construct.ow_MongoDBVersion mdb)
    (construct.mongodbAgentVolumeMounts mdb) (construct.mongodVolumeMounts mdb) (ps_Containers (pt_Spec t))) as Hc.
  pose proof (init_containers_idemp (ps_InitContainers (pt_Spec t))) as Hi.
  pose proof (add_volumes_idemp [construct.healthStatusVolume; construct.hooksVolume;
    construct.automationConfigVolume mdb; construct.scriptsVolume; construct.keyFileVolume mdb]
    (ps_Volumes (pt_Spec t))) as Hv.
  unfold construct.pod_template, podtemplatespec.Apply.
  set (f1 := construct.mongodbAgentContainer _ _) in *. set (f2 := construct.mongodbContainer _ _) in *.
  set (g1 := construct.versionUpgradeHookInit _) in *. set (g2 := construct.readinessProbeInit _) in *.
  set (v1 := construct.healthStatusVolume) in *. set (v2 := construct.hooksVolume) in *.
  set (v3 := construct.automationConfigVolume mdb) in *. set (v4 := construct.scriptsVolume) in *.
  set (v5 := construct.keyFileVolume mdb) in *. clearbody f1 f2 g1 g2 v1 v2 v3 v4 v5.
  destruct t as [[] []]. destruct (envvar.ReadBool _);
    lazy -[podtemplatespec.add_volume podtemplatespec.modify_named singletonM] in *; rewrite Hc, Hi, Hv; reflexivity.
Qed.

(** [C18] Building the StatefulSet is idempotent: applying the construction to the
    StatefulSet it produced - containers, init containers, volumes and volume
    claims found by name, variables and mounts merged by key - gives that
    StatefulSet back, from whatever StatefulSet the first application started. *)
Theorem construction_idempotent (mdb : construct.MongoDBStatefulSetOwner) (scaler : Scale.ReplicaSetScaler) sts :
  construct.ow_DataVolumeName mdb ≠ construct.ow_LogsVolumeName mdb →
  let build := construct.BuildMongoDBReplicaSetStatefulSetModificationFunction mdb scaler in
  build (build sts) = build sts.
Proof.
  intros Hne build. subst build. unfold construct.BuildMongoDBReplicaSetStatefulSetModificationFunction, stsmods.Apply.
  unfold construct.volume_claims.
  pose proof (claims_idemp _ _ (ss_VolumeClaimTemplates (sts_Spec sts)) Hne) as Hc.
  pose proof (claim_idemp (construct.ow_DataVolumeName mdb) (ss_VolumeClaimTemplates (sts_Spec sts))) as Hc1.
  pose proof (pod_template_idemp mdb (ss_Template (sts_Spec sts))) as Hp.
  set (p := construct.pod_template mdb) in *. set (f := construct.dataPvc _) in *.
  set (g := construct.logsPvc _) in *. set (r := Scale.ReplicasThisReconciliation scaler) in *. clearbody p f g r.
  destruct sts as [[] [] []]. destruct (construct.ow_HasSeparateDataAndLogsVolumes mdb);
    lazy -[stsmods.modify_claim copyMap int32 singletonM] in *; [rewrite Hp, Hc | rewrite Hp, Hc1]; reflexivity.
Qed.
End Facts.
