(* ===== verification/Tls.v ===== *)
(** * TLS and users

    controllers/mongodb_tls.go and controllers/mongodb_users.go: the certificate the
    servers use, combined from the user's secret, the settings that refer to it, and
    the secrets of the users. *)
From S2P Require Import Prelude GoStd K8s MergeByKey Merge Scale Json Codec Hashes Base64 ScramCreds ACTypes.
From S2P Require Import ACBuilder Types Kube KubeOps KubeFacts Watch PodMods StsMods Construct.
Local Open Scope Z_scope.

Definition tlsCAMountPath : string := "/var/lib/tls/ca/".
Definition tlsCACertName : string := "ca.crt".
Definition tlsOperatorSecretMountPath : string := "/var/lib/tls/server/".
Definition tlsSecretCertName : string := "tls.crt".
Definition tlsSecretKeyName : string := "tls.key".

(** The watcher the reconciler holds a pointer to, as part of the world; changing
    it does not change the cluster. *)
Class HasWatcher (W : Type) := { watched : W → ResourceWatcher; set_watched : ResourceWatcher → W → W }.
Class WatcherFrame {api : K8sApi} (W : Type) `{!KubeClient W, !HasWatcher W} : Prop := {
  cluster_set_watched : ∀ r w, cluster (set_watched r w) = cluster w;
  watched_set_watched : ∀ r w, watched (set_watched r w) = r;
}.
Definition secretWatcher_Watch {W} `{HasWatcher W} (watchedName dependentName : NamespacedName) : IO W unit :=
  modify (λ w, set_watched (Watch watchedName dependentName (watched w)) w).

Definition combineCertificateAndKey (cert key : string) : string :=
  let trimmedCert := TrimRight (chr 10) cert in
  let trimmedKey := TrimRight (chr 10) key in
  trimmedCert +:+ String (chr 10) "" +:+ trimmedKey.

Definition tlsOperatorSecretFileName (certKey : string) : string :=
  hex_encode (sha256_sum certKey) +:+ ".pem".

Section Tls.
Context {api : K8sApi} `{!Objx, !MapOrder}.
Implicit Types mdb : V1.MongoDBCommunity.

(** ** The automation config *)

Definition tls_optional mdb : bool := V1.tls_Optional (V1.sec_TLS (V1.spec_Security (V1.mdb_Spec mdb))).

(** [Args26] is not nil and [TLSConfig] is set in every config [Build] assembles. *)
Definition tlsConfigModification mdb (certKey : string) : Modification :=
  let caCertificatePath := tlsCAMountPath +:+ tlsCACertName in
  let certificateKeyPath := tlsOperatorSecretMountPath +:+ tlsOperatorSecretFileName certKey in
  let mode := if tls_optional mdb then TLSModePreferred else TLSModeRequired in
  λ config,
    config <| ac_TLSConfig ::= option_map (λ t, MkTLS caCertificatePath (tls_ClientCertificateMode t)) |>
           <| ac_Processes ::= option_map (map (λ p, p <| pr_Args26 ::= option_map (λ args,
                let args := objx_Set args "net.tls.mode" (JStr mode) in
                let args := objx_Set args "net.tls.CAFile" (JStr caCertificatePath) in
                let args := objx_Set args "net.tls.certificateKeyFile" (JStr certificateKeyPath) in
                objx_Set args "net.tls.allowConnectionsWithoutCertificates" (JBool true)) |>)) |>.

(** ** The pods *)

Definition buildTLSPodSpecModification mdb : podtemplatespec.Modification :=
  if negb (V1.tls_enabled mdb) then podtemplatespec.NOOP
  else
    let caVolume := stsmods.CreateVolumeFromConfigMap "tls-ca" (nn_Name (V1.TLSConfigMapNamespacedName mdb)) in
    let caVolumeMount := stsmods.CreateVolumeMount (v_Name caVolume) tlsCAMountPath [stsmods.WithReadOnly true] in
    let tlsSecretVolume :=
      stsmods.CreateVolumeFromSecret "tls-secret" (nn_Name (V1.TLSOperatorSecretNamespacedName mdb)) [] in
    let tlsSecretVolumeMount :=
      stsmods.CreateVolumeMount (v_Name tlsSecretVolume) tlsOperatorSecretMountPath [stsmods.WithReadOnly true] in
    podtemplatespec.Apply
      [podtemplatespec.WithVolume caVolume;
       podtemplatespec.WithVolume tlsSecretVolume;
       podtemplatespec.WithVolumeMounts construct.AgentName [tlsSecretVolumeMount; caVolumeMount];
       podtemplatespec.WithVolumeMounts construct.MongodbName [tlsSecretVolumeMount; caVolumeMount]].

(** ** The cluster *)

Section Ops.
Context {W : Type} `{!KubeClient W, !HasWatcher W}.

Definition present_field (data : gmap string string) (key : string) : bool :=
  match data !! key with Some v => negb (bool_decide (v = "")) | None => false end.

Definition validateTLSConfig mdb : IO W bool :=
  if negb (V1.tls_enabled mdb) then ret true
  else
    r <- attempt (configmap.ReadData (V1.TLSConfigMapNamespacedName mdb)) ;;
    match r with
    | inr err => if IsNotFound err then ret false else throw err
    | inl caData =>
        if negb (present_field (gm caData) tlsCACertName) then ret false
        else
          r <- attempt (secret.ReadStringData (V1.TLSSecretNamespacedName mdb)) ;;
          match r with
          | inr err => if IsNotFound err then ret false else throw err
          | inl secretData =>
              if negb (present_field secretData tlsSecretKeyName) then ret false
              else if negb (present_field secretData tlsSecretCertName) then ret false
              else
                secretWatcher_Watch (V1.TLSSecretNamespacedName mdb) (V1.NamespacedName_ mdb) ;;
                ret true
          end
    end.

Definition getCertAndKey mdb : IO W string :=
  cert <- secret.ReadKey tlsSecretCertName (V1.TLSSecretNamespacedName mdb) ;;
  key <- secret.ReadKey tlsSecretKeyName (V1.TLSSecretNamespacedName mdb) ;;
  ret (combineCertificateAndKey cert key).

Definition getTLSConfigModification mdb : IO W Modification :=
  if negb (V1.tls_enabled mdb) then ret (λ ac, ac)
  else certKey <- getCertAndKey mdb ;; ret (tlsConfigModification mdb certKey).

Definition tls_operator_secret mdb (certKey : string) : Secret :=
  let n := V1.TLSOperatorSecretNamespacedName mdb in
  secret.Build
    (secret.SetOwnerReferences (V1.GetOwnerReferences mdb)
    (secret.SetField (tlsOperatorSecretFileName certKey) certKey
    (secret.SetNamespace (nn_Namespace n) (secret.SetName (nn_Name n) secret.Builder)))).

Definition ensureTLSSecret mdb : IO W unit :=
  certKey <- wrap (prefix_error "could not get cert and key: ") (getCertAndKey mdb) ;;
  secret.CreateOrUpdate (tls_operator_secret mdb certKey).

(** ** mongodb_users.go *)

Definition ensure_user_resource mdb (user : scram.User) : IO W unit :=
  let secretNamespacedName := MkNamespacedName (scram.PasswordSecretName user) (V1.Namespace mdb) in
  r <- attempt (secret.ReadKey (scram.PasswordSecretKey user) secretNamespacedName) ;;
  match r with
  | inr err =>
      if IsNotFound err then
        let scramSecretName := MkNamespacedName (scram.ScramCredentialsSecretName user) (V1.Namespace mdb) in
        r <- attempt (GetSecret scramSecretName) ;;
        match r with
        | inr err => if IsNotFound err then
            throw (TextError ("user password secret: " +:+ nsname_text secretNamespacedName +:+ " and scram secret: "
                              +:+ nsname_text scramSecretName +:+ " not found"))
            else ret ()
        | inl _ => ret ()
        end
      else throw err
  | inl _ => secretWatcher_Watch secretNamespacedName (V1.NamespacedName_ mdb)
  end.
Definition ensureUserResources mdb : IO W unit := for_each (ensure_user_resource mdb) (V1.GetScramUsers mdb).

Definition connection_string_secret mdb (user : scram.User) (pwd standard : string) : Secret :=
  secret.Build
    (secret.SetOwnerReferences (V1.GetOwnerReferences mdb)
    (secret.SetField "password" pwd
    (secret.SetField "username" (scram.Username user)
    (secret.SetField "connectionString.standardSrv" (V1.MongoAuthUserSRVURI mdb user pwd)
    (secret.SetField "connectionString.standard" standard
    (secret.SetNamespace (V1.Namespace mdb)
    (secret.SetName (V1.GetConnectionStringSecretName user mdb) secret.Builder))))))).

Definition update_connection_string mdb (user : scram.User) : IO W unit :=
  let secretNamespacedName := MkNamespacedName (scram.PasswordSecretName user) (V1.Namespace mdb) in
  pwd <- secret.ReadKey (scram.PasswordSecretKey user) secretNamespacedName ;;
  standard <- lift (V1.MongoAuthUserURI mdb user pwd) ;;
  secret.CreateOrUpdate (connection_string_secret mdb user pwd standard).
Definition updateConnectionStringSecrets mdb : IO W unit :=
  for_each (update_connection_string mdb) (V1.GetScramUsers mdb).
End Ops.
End Tls.
