(* ===== verification/TlsFacts.v ===== *)
(** * What the TLS and user resources guarantee *)
From S2P Require Import Prelude GoStd K8s MergeByKey Merge Scale Json Codec Hashes Base64 ScramCreds ACTypes.
From S2P Require Import ACBuilder Types Kube KubeOps KubeFacts Scram ScramFacts Validation Watch PodMods StsMods.
From S2P Require Import Construct Tls.
Local Open Scope Z_scope.

Lemma combine_trailing_newlines cert key :
  combineCertificateAndKey (TrimRight (chr 10) cert) (TrimRight (chr 10) key) = combineCertificateAndKey cert key.
Proof. unfold combineCertificateAndKey. by rewrite !TrimRight_idemp. Qed.

Section Facts.
Context {api : K8sApi} {W : Type} `{!KubeClient W, !KubeLaws W, !HasWatcher W, !WatcherFrame W, !Objx, !MapOrder}.
Implicit Types mdb : V1.MongoDBCommunity.

Lemma ReadKey_Ret key n (w : W) v w' :
  secret.ReadKey key n w = (Ret v, w') → cluster w' = cluster w ∧ secret_field (cluster w) n key = Some v.
Proof.
  intros E. apply attempt_Ret in E. apply ReadKey_inv in E as [HC [(p & [= <-] & Hp)|(e & [=] & _)]]. auto.
Qed.

Lemma getCertAndKey_Ret mdb (w : W) certKey w' :
  getCertAndKey mdb w = (Ret certKey, w') →
  cluster w' = cluster w ∧ ∃ cert key,
    secret_field (cluster w) (V1.TLSSecretNamespacedName mdb) tlsSecretCertName = Some cert
    ∧ secret_field (cluster w) (V1.TLSSecretNamespacedName mdb) tlsSecretKeyName = Some key
    ∧ certKey = combineCertificateAndKey cert key.
Proof.
  unfold getCertAndKey. intros E. apply bind_Ret_inv in E as (cert & w1 & [HC1 H1]%ReadKey_Ret & E).
  apply bind_Ret_inv in E as (key & w2 & [HC2 H2]%ReadKey_Ret & [= <- <-]). rewrite HC1 in HC2, H2. eauto 10.
Qed.

(** [C19] The servers find their certificate: when the operator's TLS secret has been
    ensured and the automation config is then built, the secret holds exactly one
    file, with the certificate and key of the user's secret, and the file's name is
    the one the configured certificate path ends in, under the directory the pods
    mount the secret at. *)
Theorem tls_secret_matches_config mdb (w : W) u w1 w2 m w3 :
  V1.tls_enabled mdb = true →
  V1.TLSSecretNamespacedName mdb ≠ V1.TLSOperatorSecretNamespacedName mdb →
  ensureTLSSecret mdb w = (Ret u, w1) →
  cluster w2 = cluster w1 → getTLSConfigModification mdb w2 = (Ret m, w3) →
  ∃ cert key s,
    secret_field (cluster w) (V1.TLSSecretNamespacedName mdb) tlsSecretCertName = Some cert
    ∧ secret_field (cluster w) (V1.TLSSecretNamespacedName mdb) tlsSecretKeyName = Some key
    ∧ stored (cluster w3) KSecret (V1.TLSOperatorSecretNamespacedName mdb) = Some s
    ∧ let certKey := combineCertificateAndKey cert key in
      let file := tlsOperatorSecretFileName certKey in
      s_Data s = Some {[ file := certKey ]}
      ∧ m = tlsConfigModification mdb certKey
      ∧ ∀ ac i p args, els (ac_Processes ac) !! i = Some p → pr_Args26 p = Some args →
          ∃ p', els (ac_Processes (m ac)) !! i = Some p'
            ∧ pr_Args26 p' = Some (objx_Set (objx_Set (objx_Set (objx_Set args
                "net.tls.mode" (JStr (if tls_optional mdb then TLSModePreferred else TLSModeRequired)))
                "net.tls.CAFile" (JStr (tlsCAMountPath +:+ tlsCACertName)))
                "net.tls.certificateKeyFile" (JStr (tlsOperatorSecretMountPath +:+ file)))
                "net.tls.allowConnectionsWithoutCertificates" (JBool true)).
Proof.
  intros Htls Hne E1 HC2 E2. unfold ensureTLSSecret in E1. apply bind_Ret_inv in E1 as (ck & w0 & E0%wrap_Ret_inv & E1).
  apply getCertAndKey_Ret in E0 as (HC0 & cert & key & Hcert & Hkey & ->).
  apply secret_CreateOrUpdate_Ret in E1. rewrite HC0 in E1.
  unfold getTLSConfigModification in E2. rewrite Htls in E2. cbn [negb] in E2.
  apply bind_Ret_inv in E2 as (ck & w4 & E2 & [= <- <-]).
  apply getCertAndKey_Ret in E2 as (HC4 & cert' & key' & Hcert' & Hkey' & ->).
  set (s := tls_operator_secret mdb (combineCertificateAndKey cert key)) in *.
  assert (agree_off [V1.TLSOperatorSecretNamespacedName mdb] (cluster w) (cluster w2)) as HA.
  { rewrite HC2, E1. by apply agree_off_put. }
  rewrite (secret_field_agree _ _ _ _ _ HA) in Hcert' by (by rewrite list_elem_of_singleton).
  rewrite (secret_field_agree _ _ _ _ _ HA) in Hkey' by (by rewrite list_elem_of_singleton).
  simplify_eq. exists cert, key, s. do 2 (split; [done|]).
  split; [rewrite HC4, HC2, E1; apply (stored_put_key _ KSecret s)|]. split_and!; [done|done|].
  intros ac i p args Hp Ha. unfold tlsConfigModification. destruct ac as [? [ps|]]; [|done]. cbn in *.
  rewrite list_lookup_fmap, Hp. eexists. split; [reflexivity|]. destruct p. cbn in *. by rewrite Ha.
Qed.

(** ** Validation of the TLS configuration *)

Definition tls_configured (c : cluster_state) mdb : Prop :=
  ∃ cm s, stored c KConfigMap (V1.TLSConfigMapNamespacedName mdb) = Some cm
    ∧ present_field (gm (cm_Data cm)) tlsCACertName = true
    ∧ stored c KSecret (V1.TLSSecretNamespacedName mdb) = Some s
    ∧ present_field (gm (s_Data s)) tlsSecretKeyName = true ∧ present_field (gm (s_Data s)) tlsSecretCertName = true.

Lemma attempt_ReadStringData_inv n (w : W) r w' :
  attempt (secret.ReadStringData n) w = (r, w') →
  cluster w' = cluster w ∧
  ((∃ s, r = Ret (inl (gm (s_Data s))) ∧ stored (cluster w) KSecret n = Some s)
   ∨ (∃ e, r = Ret (inr e) ∧ (IsNotFound e = true → stored (cluster w) KSecret n = None))).
Proof.
  unfold attempt, secret.ReadStringData, GetSecret, bind. destruct (Get KSecret n w) as [[s|e|x] w1] eqn:E;
    destruct (Get_law KSecret n w _ _ E) as [HC HR]; [| |done]; intros [= <- <-]; (split; [done|]); [left | right]; eauto.
Qed.

Lemma attempt_ReadData_inv n (w : W) r w' :
  attempt (configmap.ReadData n) w = (r, w') →
  cluster w' = cluster w ∧
  ((∃ cm, r = Ret (inl (cm_Data cm)) ∧ stored (cluster w) KConfigMap n = Some cm)
   ∨ (∃ e, r = Ret (inr e) ∧ (IsNotFound e = true → stored (cluster w) KConfigMap n = None))).
Proof.
  unfold attempt, configmap.ReadData, GetConfigMap, bind. destruct (Get KConfigMap n w) as [[s|e|x] w1] eqn:E;
    destruct (Get_law KConfigMap n w _ _ E) as [HC HR]; [| |done]; intros [= <- <-]; (split; [done|]); [left | right]; eauto.
Qed.

Lemma validateTLSConfig_Ret mdb (w : W) b w' :
  validateTLSConfig mdb w = (Ret b, w') →
  cluster w' = cluster w
  ∧ (b = true ↔ V1.tls_enabled mdb = false ∨ tls_configured (cluster w) mdb)
  ∧ (b = true → V1.tls_enabled mdb = true →
     V1.NamespacedName_ mdb ∈ dependents (watched w') (V1.TLSSecretNamespacedName mdb)).
Proof.
  unfold validateTLSConfig. destruct (V1.tls_enabled mdb) eqn:Ht; cbn [negb]; [|intros [= <- <-]; naive_solver].
  intros E. apply bind_Ret_inv in E as (r & w1 & E1 & E).
  apply attempt_ReadData_inv in E1 as [HC1 [(cm & [= ->] & Hcm)|(e & [= ->] & He)]]; cycle 1.
  { destruct (IsNotFound e); [|done]. injection E as <- <-. specialize (He eq_refl).
    split_and!; [done| |done]. split; [done|]. intros [?|(cm & s & ? & _)]; congruence. }
  destruct (present_field (gm (cm_Data cm)) tlsCACertName) eqn:Hca; cbn [negb] in E; cycle 1.
  { injection E as <- <-. split_and!; [done| |done]. split; [done|]. intros [?|(cm' & s & ? & ? & _)]; congruence. }
  apply bind_Ret_inv in E as (r & w2 & E2 & E).
  apply attempt_ReadStringData_inv in E2 as [HC2 [(s & [= ->] & Hs)|(e & [= ->] & He)]]; rewrite HC1 in HC2; cycle 1.
  { destruct (IsNotFound e); [|done]. injection E as <- <-. rewrite HC1 in He. specialize (He eq_refl).
    split_and!; [done| |done]. split; [done|]. intros [?|(cm' & s & ? & ? & ? & _)]; congruence. }
  rewrite HC1 in Hs.
  destruct (present_field (gm (s_Data s)) tlsSecretKeyName) eqn:Hk; cbn [negb] in E; cycle 1.
  { injection E as <- <-. split_and!; [done| |done]. split; [done|].
    intros [?|(cm' & s' & ? & ? & ? & ? & _)]; congruence. }
  destruct (present_field (gm (s_Data s)) tlsSecretCertName) eqn:Hc; cbn [negb] in E; cycle 1.
  { injection E as <- <-. split_and!; [done| |done]. split; [done|].
    intros [?|(cm' & s' & ? & ? & ? & ? & ?)]; congruence. }
  injection E as <- <-. rewrite cluster_set_watched, watched_set_watched. split_and!; [done| |].
  - split; [|done]. intros _. right. exists cm, s. auto.
  - intros _ _. rewrite dependents_Watch. case_bool_decide as Hd; [set_solver|].
    destruct (decide (V1.NamespacedName_ mdb ∈ dependents (watched w2) (V1.TLSSecretNamespacedName mdb))); tauto.
Qed.

(** TLS is reported valid exactly when it is off, or when the CA certificate,
    the certificate and the key are all there and not empty; in the latter case
    the certificate's secret is watched from then on, so that a rotation is
    reconciled.  Nothing is written to the cluster. *)
Theorem validateTLSConfig_spec mdb (w : W) b w' :
  validateTLSConfig mdb w = (Ret b, w') →
  cluster w' = cluster w
  ∧ (b = true ↔ V1.tls_enabled mdb = false ∨ tls_configured (cluster w) mdb)
  ∧ (b = true → V1.tls_enabled mdb = true →
     V1.NamespacedName_ mdb ∈ dependents (watched w') (V1.TLSSecretNamespacedName mdb)).
Proof. apply validateTLSConfig_Ret. Qed.

(** ** The users' secrets *)

Definition password_present (c : cluster_state) mdb (u : scram.User) : Prop :=
  is_Some (secret_field c (password_key u (V1.NamespacedName_ mdb)) (scram.PasswordSecretKey u)).
Definition user_provided (c : cluster_state) mdb (u : scram.User) : Prop :=
  password_present c mdb u
  ∨ (stored c KSecret (password_key u (V1.NamespacedName_ mdb)) = None
     ∧ is_Some (stored c KSecret (user_creds_key u (V1.NamespacedName_ mdb)))).

Section Healthy.
Context `{!KubeHealthy W}.

Lemma attempt_ReadKey_healthy key n (w : W) :
  ∃ r w', attempt (secret.ReadKey key n) w = (Ret r, w') ∧ cluster w' = cluster w ∧
    match r with
    | inl p => secret_field (cluster w) n key = Some p
    | inr e => if IsNotFound e then stored (cluster w) KSecret n = None
               else is_Some (stored (cluster w) KSecret n) ∧ secret_field (cluster w) n key = None
    end.
Proof.
  unfold attempt, secret.ReadKey, secret.ReadStringData, GetSecret, bind, secret_field.
  destruct (stored (cluster w) KSecret n) as [s|] eqn:Hs.
  - destruct (Get_stored KSecret n w s Hs) as [w1 E]. destruct (Get_law _ _ _ _ _ E) as [HC _]. rewrite E. unfold ret.
    destruct (gm (s_Data s) !! key) as [p|] eqn:Hp; eexists _, _; (split; [reflexivity|]); (split; [done|]); [done|].
    cbn. by eauto.
  - destruct (Get_missing KSecret n w Hs) as (e & w1 & E & He). destruct (Get_law _ _ _ _ _ E) as [HC _]. rewrite E.
    eexists _, _. split; [reflexivity|]. split; [done|]. by rewrite He.
Qed.

Lemma ensure_user_resource_iff mdb u (w : W) :
  ∃ r w', ensure_user_resource mdb u w = (r, w') ∧ cluster w' = cluster w
    ∧ (r = Ret () ↔ user_provided (cluster w) mdb u) ∧ (∀ site, r ≠ Panic site).
Proof.
  unfold ensure_user_resource, user_provided, password_present.
  destruct (attempt_ReadKey_healthy (scram.PasswordSecretKey u) (password_key u (V1.NamespacedName_ mdb)) w)
    as (r & w1 & E & HC & Hr).
  rewrite (bind_Ret _ _ _ _ _ E). destruct r as [p|e].
  - eexists _, _. split; [reflexivity|]. rewrite cluster_set_watched, Hr. split_and!; [done| |done]. split; eauto.
  - destruct (IsNotFound e); cycle 1.
    { destruct Hr as [[s Hs] Hp]. eexists _, _. split; [reflexivity|]. split_and!; [done| |done].
      rewrite Hp, Hs. split; [done|]. intros [[? ?]|[? _]]; done. }
    unfold secret_field. rewrite Hr. rewrite <- HC.
    destruct (stored (cluster w1) KSecret (user_creds_key u (V1.NamespacedName_ mdb))) as [s|] eqn:Hs.
    + destruct (Get_stored KSecret _ w1 s Hs) as [w2 E2]. destruct (Get_law _ _ _ _ _ E2) as [HC2 _].
      unfold GetSecret. rewrite (bind_Ret _ _ _ _ _ (attempt_Ret _ _ _ _ E2)).
      eexists _, _. split; [reflexivity|]. split_and!; [done| |done]. split; eauto.
    + destruct (Get_missing KSecret _ w1 Hs) as (e2 & w2 & E2 & He2). destruct (Get_law _ _ _ _ _ E2) as [HC2 _].
      unfold GetSecret. rewrite (bind_Ret _ _ _ _ _ (attempt_Err _ _ _ _ E2)), He2.
      eexists _, _. split; [reflexivity|]. split_and!; [done| |done]. split; [done|].
      intros [[? [=]]|[_ [? [=]]]].
Qed.

Lemma for_each_users mdb users : ∀ w : W,
  ∃ r w', for_each (ensure_user_resource mdb) users w = (r, w') ∧ cluster w' = cluster w
    ∧ (r = Ret () ↔ Forall (user_provided (cluster w) mdb) users) ∧ (∀ site, r ≠ Panic site).
Proof.
  induction users as [|u users IH]; intros w; cbn [for_each].
  { eexists _, _. split; [reflexivity|]. split_and!; [done| |done]. split; [constructor | done]. }
  destruct (ensure_user_resource_iff mdb u w) as (r & w1 & E & HC & Hr & Hp). destruct r as [[]|e|site].
  - rewrite (bind_Ret _ _ _ _ _ E). destruct (IH w1) as (r2 & w2 & E2 & HC2 & Hr2 & Hp2).
    exists r2, w2. rewrite HC in HC2, Hr2. split_and!; [done|done| |done]. rewrite Hr2, Forall_cons. tauto.
  - rewrite (bind_Err _ _ _ _ _ E). eexists _, _. split; [reflexivity|]. split_and!; [done| |done].
    rewrite Forall_cons, <- Hr. naive_solver.
  - by destruct (Hp site).
Qed.

(** [C20] The users' resources are accepted exactly when every user has a password
    under the configured key, or has no password secret any more but the
    credentials that were derived from it; looking writes nothing and always
    returns, whatever the cluster holds. *)
Theorem ensureUserResources_spec mdb (w : W) :
  ∃ r w', ensureUserResources mdb w = (r, w') ∧ cluster w' = cluster w
    ∧ (r = Ret () ↔ Forall (user_provided (cluster w) mdb) (V1.GetScramUsers mdb)) ∧ (∀ site, r ≠ Panic site).
Proof. apply for_each_users. Qed.
End Healthy.

(** ** The connection strings *)

Definition connection_key mdb (u : scram.User) : NamespacedName :=
  MkNamespacedName (V1.GetConnectionStringSecretName u mdb) (V1.Namespace mdb).

Definition connection_stored (c c' : cluster_state) mdb (u : scram.User) : Prop :=
  ∃ pwd standard s,
    secret_field c (password_key u (V1.NamespacedName_ mdb)) (scram.PasswordSecretKey u) = Some pwd
    ∧ V1.MongoAuthUserURI mdb u pwd = Ret standard
    ∧ stored c' KSecret (connection_key mdb u) = Some s
    ∧ s_Data s = Some {[ "username" := scram.Username u; "password" := pwd;
                         "connectionString.standard" := standard;
                         "connectionString.standardSrv" := V1.MongoAuthUserSRVURI mdb u pwd ]}
    ∧ om_OwnerReferences (s_ObjectMeta s) = V1.GetOwnerReferences mdb.

Lemma update_connection_string_Ret mdb u (w : W) x w' :
  update_connection_string mdb u w = (Ret x, w') →
  connection_stored (cluster w) (cluster w') mdb u ∧ agree_off [connection_key mdb u] (cluster w) (cluster w').
Proof.
  unfold update_connection_string. intros E. apply bind_Ret_inv in E as (pwd & w1 & [HC Hp]%ReadKey_Ret & E).
  apply bind_Ret_inv in E as (standard & w2 & [= HU <-] & E). apply secret_CreateOrUpdate_Ret in E. rewrite HC in E.
  rewrite E. split; [|by apply agree_off_put]. exists pwd, standard, (connection_string_secret mdb u pwd standard).
  split_and!; [done..| | |done]; [apply (stored_put_key _ KSecret (connection_string_secret mdb u pwd standard))|done].
Qed.

Lemma connections_stored mdb users : ∀ (w : W) x w',
  NoDup (map (connection_key mdb) users) →
  (∀ u u', u ∈ users → u' ∈ users → password_key u (V1.NamespacedName_ mdb) ≠ connection_key mdb u') →
  for_each (update_connection_string mdb) users w = (Ret x, w') →
  Forall (connection_stored (cluster w) (cluster w') mdb) users
  ∧ agree_off (map (connection_key mdb) users) (cluster w) (cluster w').
Proof.
  induction users as [|u users IH]; intros w x w' Hnd Hpw E; cbn [for_each] in E.
  { injection E as <- <-. split; [constructor | apply agree_off_refl]. }
  apply bind_Ret_inv in E as (y & w1 & [(pwd & standard & s & H1 & H2 & H3 & H4) HA1]%update_connection_string_Ret & E2).
  cbn in Hnd. apply NoDup_cons in Hnd as [Hu Hnd].
  apply IH in E2 as [HF HA2]; [|done|intros; apply Hpw; by constructor].
  split; [|exact (agree_off_trans [_] _ _ _ _ HA1 HA2)]. constructor.
  - exists pwd, standard, s. split_and!; [done..| |apply H4|apply H4]. rewrite HA2; [done|]. by right.
  - rewrite Forall_forall in *. intros u' Hu'. destruct (HF u' Hu') as (pwd' & std' & s' & K1 & K2 & K3).
    exists pwd', std', s'. split; [|by split]. rewrite <- K1. symmetry. eapply secret_field_agree; [exact HA1|].
    rewrite list_elem_of_singleton. apply Hpw; [by constructor | constructor].
Qed.

Lemma connection_key_inj_names mdb users :
  NoDup (map (λ u, V1.GetConnectionStringSecretName u mdb) users) → NoDup (map (connection_key mdb) users).
Proof.
  intros Hnd. apply (NoDup_fmap_1 nn_Name). rewrite <- list_fmap_compose. exact Hnd.
Qed.

(** [C22] Every user of a valid spec gets a connection string secret of its own:
    after the secrets are updated, the one named after a user holds that user's
    name, the password read from the user's password secret, and the two
    connection strings with that password; no other object is changed. *)
Theorem updateConnectionStringSecrets_spec mdb (w : W) x w' :
  valid_spec mdb →
  (∀ u u', u ∈ V1.GetScramUsers mdb → u' ∈ V1.GetScramUsers mdb →
     password_key u (V1.NamespacedName_ mdb) ≠ connection_key mdb u') →
  updateConnectionStringSecrets mdb w = (Ret x, w') →
  Forall (connection_stored (cluster w) (cluster w') mdb) (V1.GetScramUsers mdb)
  ∧ agree_off (map (connection_key mdb) (V1.GetScramUsers mdb)) (cluster w) (cluster w').
Proof. intros (Hnd & _) Hpw. apply connections_stored; [|done]. by apply connection_key_inj_names. Qed.
End Facts.
