(* ===== verification/Reconciler.v ===== *)
(** * The reconciler

    controllers/replica_set_controller.go: one reconciliation of a MongoDBCommunity
    resource, from reading the resource to writing its status, over the whole
    world: the cluster behind the client, the entropy source and the watcher. *)
From S2P Require Import Prelude GoStd K8s MergeByKey Merge Scale Json Codec Hashes Base64 ScramCreds ACTypes.
From S2P Require Import ACBuilder Types Kube KubeOps ACSecret Scram Validation Status Watch Agent SpecJson PodMods.
From S2P Require Import StsMods Construct Tls.
Local Open Scope Z_scope.

(** github.com/imdario/mergo: [mergo.Merge(&dst, src, WithOverride)] on the arguments
    of a process; its error is ignored, so what it leaves in [dst] is the result. *)
Class Mergo := mergo_Merge : GoMap json → GoMap json → GoMap json.

Definition clusterDNSName : string := "CLUSTER_DNS_NAME".
Definition lastSuccessfulConfiguration : string := "mongodb.com/v1.lastSuccessfulConfiguration".
Definition lastAppliedMongoDBVersion : string := "mongodb.com/v1.lastAppliedMongoDBVersion".

Section Reconciler.
Context {api : K8sApi} `{!Semver, !Objx, !Mergo, !Cast, !Stringprep, !Environ, !Quantities, !MapOrder, !StsSpecJson}.
Implicit Types mdb : V1.MongoDBCommunity.

(** ** Pure parts *)

Definition getDomain (service namespace clusterName : string) : string :=
  let clusterName := if bool_decide (clusterName = "") then "cluster.local" else clusterName in
  service +:+ "." +:+ namespace +:+ ".svc." +:+ clusterName.

Definition isPreReadinessInitContainerStatefulSet (sts : StatefulSet) : bool :=
  match container.GetByName construct.ReadinessProbeContainerName (ps_InitContainers (pt_Spec (ss_Template (sts_Spec sts)))) with
  | None => true
  | Some _ => false
  end.

Definition buildService mdb : Service :=
  service.Build
    (service.SetOwnerReferences (V1.GetOwnerReferences mdb)
    (service.SetPublishNotReadyAddresses true
    (service.SetPortName "mongodb"
    (service.SetPort 27017
    (service.SetClusterIP "None"
    (service.SetServiceType "ClusterIP"
    (service.SetSelector (Some {[ "app" := V1.ServiceName mdb ]})
    (service.SetNamespace (V1.Namespace mdb)
    (service.SetName (V1.ServiceName mdb) service.Builder))))))))).

Definition buildStatefulSetModificationFunction mdb : stsmods.Modification :=
  let commonModification :=
    construct.BuildMongoDBReplicaSetStatefulSetModificationFunction (construct.owner mdb) (V1.scaler mdb) in
  stsmods.Apply
    [commonModification;
     stsmods.WithOwnerReference (V1.GetOwnerReferences mdb);
     stsmods.WithPodSpecTemplate (podtemplatespec.Apply [buildTLSPodSpecModification mdb]);
     stsmods.WithCustomSpecs (V1.spec_StatefulSetConfiguration (V1.mdb_Spec mdb))].

Definition buildStatefulSet mdb : StatefulSet := buildStatefulSetModificationFunction mdb emptyStatefulSet.

Definition getMongodConfigModification mdb : Modification := λ ac,
  ac <| ac_Processes ::= option_map (map (λ p,
          p <| pr_Args26 ::= λ args, mergo_Merge args (V1.spec_AdditionalMongodConfig (V1.mdb_Spec mdb)) |>)) |>.

(** Without custom roles the config is left alone; it has no roles then. *)
Definition getCustomRolesModification mdb : Modification :=
  match V1.sec_Roles (V1.spec_Security (V1.mdb_Spec mdb)) with
  | [] => λ ac, ac
  | roles => λ ac, ac <| ac_Roles := V1.ConvertCustomRolesToAutomationConfigCustomRole roles |>
  end.

(** The builder of the config, ready for [Build]. *)
Definition config_builder mdb (auth : Auth) (currentAc : AutomationConfig) (modifications : list Modification) : Builder :=
  let domain := getDomain (V1.ServiceName mdb) (V1.Namespace mdb) (Getenv clusterDNSName) in
  AddModifications modifications
  (AddModifications [getMongodConfigModification mdb]
  (SetAuth auth
  (SetOptions (MkOptions "/var/lib/mongodb-mms-automation")
  (SetFCV (V1.spec_FeatureCompatibilityVersion (V1.mdb_Spec mdb))
  (SetMongoDBVersion (V1.spec_Version (V1.mdb_Spec mdb))
  (SetPreviousAutomationConfig currentAc
  (SetReplicaSetHorizons (V1.spec_ReplicaSetHorizons (V1.mdb_Spec mdb))
  (SetArbiters (V1.spec_Arbiters (V1.mdb_Spec mdb))
  (SetMembers (V1.AutomationConfigMembersThisReconciliation mdb)
  (SetDomain domain (SetName (V1.Name mdb) (SetTopology ReplicaSetTopology NewBuilder)))))))))))).

Definition buildAutomationConfig mdb (auth : Auth) (currentAc : AutomationConfig) (modifications : list Modification)
    : outcome AutomationConfig :=
  (ACBuilder.Build (config_builder mdb auth currentAc modifications)).1.

(** [validateSpec]: against the last successful configuration, if there is one. *)
Definition reconciler_validateSpec mdb : outcome unit :=
  match gm (V1.GetAnnotations mdb) !! lastSuccessfulConfiguration with
  | None => ValidateInitalSpec mdb
  | Some lastSuccessfulConfigurationSaved =>
      match unmarshal_spec lastSuccessfulConfigurationSaved with
      | None => Err (TextError "json: cannot unmarshal the last successful configuration")
      | Some lastSpec => ValidateUpdate mdb lastSpec
      end
  end.

Section Ops.
Context {W : Type} `{!KubeClient W, !Entropy W, !HasWatcher W}.

(** ** The steps *)

Definition ensureService mdb : IO W unit :=
  r <- attempt (CreateService (buildService mdb)) ;;
  match r with
  | inr err => if IsAlreadyExists err then ret () else throw err
  | inl _ => ret ()
  end.

Definition ensureTLSResources mdb : IO W unit :=
  if negb (V1.tls_enabled mdb) then ret ()
  else wrap (prefix_error "could not ensure TLS secret: ") (ensureTLSSecret mdb).

Definition reconciler_buildAutomationConfig mdb : IO W AutomationConfig :=
  tlsModification <- wrap (prefix_error "could not configure TLS modification: ") (getTLSConfigModification mdb) ;;
  let customRolesModification := getCustomRolesModification mdb in
  currentAC <- wrap (prefix_error "could not read existing automation config: ")
                 (ReadFromSecret (MkNamespacedName (V1.AutomationConfigSecretName mdb) (V1.Namespace mdb))) ;;
  auth <- wrap (prefix_error "could not configure scram authentication: ") (Enable emptyAuth mdb) ;;
  lift (buildAutomationConfig mdb auth currentAC [tlsModification; customRolesModification]).

Definition ensureAutomationConfig mdb : IO W AutomationConfig :=
  ac <- wrap (prefix_error "could not build automation config: ") (reconciler_buildAutomationConfig mdb) ;;
  EnsureSecret (MkNamespacedName (V1.AutomationConfigSecretName mdb) (V1.Namespace mdb)) (V1.GetOwnerReferences mdb) ac.

(** The error of the first read is overwritten by the second call before it is
    tested again, so the test never holds; a StatefulSet that was not found is
    the zero value, which has no init container. *)
Definition deployAutomationConfig mdb : IO W bool :=
  r <- attempt (GetStatefulSet (V1.NamespacedName_ mdb)) ;;
  match r with
  | inr err =>
      if IsNotFound err then
        wrap (prefix_error "failed to ensure AutomationConfig: ") (ensureAutomationConfig mdb) ;;
        ret (isPreReadinessInitContainerStatefulSet emptyStatefulSet)
      else throw (TextError ("failed to get StatefulSet: " +:+ err_text err))
  | inl sts =>
      ac <- wrap (prefix_error "failed to ensure AutomationConfig: ") (ensureAutomationConfig mdb) ;;
      if isPreReadinessInitContainerStatefulSet sts then ret true
      else wrap (prefix_error "failed to ensure agents have reached goal state: ")
             (AllReachedGoalState sts (V1.StatefulSetReplicasThisReconciliation mdb) (ac_Version ac))
  end.

Definition createOrUpdateStatefulSet mdb : IO W unit :=
  r <- attempt (GetStatefulSet (V1.NamespacedName_ mdb)) ;;
  match r with
  | inr err =>
      if IsNotFound err then
        wrap (prefix_error "error creating/updating StatefulSet: ")
          (statefulset.CreateOrUpdate (buildStatefulSetModificationFunction mdb emptyStatefulSet)) ;; ret ()
      else throw (TextError ("error getting StatefulSet: " +:+ err_text err))
  | inl set_ =>
      wrap (prefix_error "error creating/updating StatefulSet: ")
        (statefulset.CreateOrUpdate (buildStatefulSetModificationFunction mdb set_)) ;; ret ()
  end.

Definition deployStatefulSet mdb : IO W bool :=
  wrap (prefix_error "error creating/updating StatefulSet: ") (createOrUpdateStatefulSet mdb) ;;
  currentSts <- wrap (prefix_error "error getting StatefulSet: ") (GetStatefulSet (V1.NamespacedName_ mdb)) ;;
  let isReady := statefulset.IsReady currentSts (V1.StatefulSetReplicasThisReconciliation mdb) in
  ret (isReady || bool_decide (us_Type (ss_UpdateStrategy (sts_Spec currentSts)) = V1.OnDeleteStatefulSetStrategyType)).

Definition shouldRunInOrder mdb : IO W bool :=
  r <- attempt (GetStatefulSet (V1.NamespacedName_ mdb)) ;;
  if match r with inl _ => V1.tls_enabled mdb | inr _ => false end then ret false
  else if Scale.IsScalingUp (V1.scaler mdb) then ret false
  else if Scale.IsScalingDown (V1.scaler mdb) then ret true
  else if V1.IsChangingVersion mdb then ret false
  else ret true.

Definition deployMongoDBReplicaSet mdb : IO W bool :=
  inOrder <- shouldRunInOrder mdb ;;
  Functions.RunSequentially inOrder [deployAutomationConfig mdb; deployStatefulSet mdb].

Definition updateLastSuccessfulConfiguration mdb : IO W unit :=
  let specAnnotations : gmap string string :=
    <[lastSuccessfulConfiguration := marshal_spec (V1.mdb_Spec mdb)]>
      {[ lastAppliedMongoDBVersion := V1.spec_Version (V1.mdb_Spec mdb) ]} in
  annotations.SetAnnotations (V1.NamespacedName_ mdb) specAnnotations.

(** ** Reconcile *)

(** Ending a reconciliation with a message and a phase. *)
Definition fail_with mdb (msg : string) : IO W Result :=
  r <- status_Update mdb (withFailedPhase (withMessage Error msg statusOptions)) ;; ret r.2.
Definition pending_with mdb (msg : string) : IO W Result :=
  r <- status_Update mdb (withPendingPhase 10 (withMessage Info msg statusOptions)) ;; ret r.2.

(** [if err := step(); err != nil { return status.Update(... failed ...) }]. *)
Definition or_fail {A} mdb (text : string) (step : IO W A) (continue : A → IO W Result) : IO W Result :=
  r <- attempt step ;;
  match r with
  | inr err => fail_with mdb (text +:+ err_text err)
  | inl a => continue a
  end.

(** The last part: the replica set is deployed and ready. *)
Definition finish mdb : IO W Result :=
  if Scale.IsStillScaling (V1.scaler mdb) then
    r <- status_Update mdb
           (withPendingPhase 10
           (withStatefulSetReplicas (V1.StatefulSetReplicasThisReconciliation mdb)
           (withMessage Info ("Performing scaling operation, currentMembers=" +:+ Itoa (V1.CurrentReplicas mdb)
                              +:+ ", desiredMembers=" +:+ Itoa (V1.DesiredReplicas mdb))
           (withMongoDBMembers (V1.AutomationConfigMembersThisReconciliation mdb) statusOptions)))) ;;
    ret r.2
  else
    uri <- lift (V1.MongoURI mdb) ;;
    r <- status_Update mdb
           (withRunningPhase
           (withMessage None_ ""
           (withStatefulSetReplicas (V1.StatefulSetReplicasThisReconciliation mdb)
           (withMongoDBMembers (V1.AutomationConfigMembersThisReconciliation mdb)
           (withMongoURI uri statusOptions))))) ;;
    let '(mdb, res) := r in
    attempt (updateConnectionStringSecrets mdb) ;;
    attempt (updateLastSuccessfulConfiguration mdb) ;;
    ret res.

Definition deploy_and_finish mdb : IO W Result :=
  or_fail mdb "Error deploying MongoDB ReplicaSet: " (deployMongoDBReplicaSet mdb) (λ ready,
  if negb ready then pending_with mdb "ReplicaSet is not yet ready, retrying in 10 seconds"
  else or_fail mdb "Error resetting StatefulSet UpdateStrategyType: " (statefulset.ResetUpdateStrategy mdb) (λ _,
  finish mdb)).

Definition prepare_and_deploy mdb : IO W Result :=
  or_fail mdb "Error ensuring the service exists: " (ensureService mdb) (λ _,
  or_fail mdb "Error validating TLS config: " (validateTLSConfig mdb) (λ isTLSValid,
  if negb isTLSValid then pending_with mdb "TLS config is not yet valid, retrying in 10 seconds"
  else or_fail mdb "Error ensuring TLS resources: " (ensureTLSResources mdb) (λ _,
  or_fail mdb "Error ensuring User config: " (ensureUserResources mdb) (λ _,
  deploy_and_finish mdb)))).

Definition Reconcile (request : NamespacedName) : IO W Result :=
  r <- attempt (Get KMongoDB request) ;;
  match r with
  | inr err => if IsNotFound err then ret ResultPkg.OK else ret ResultPkg.Failed
  | inl mdb => or_fail mdb "error validating new Spec: " (lift (reconciler_validateSpec mdb)) (λ _, prepare_and_deploy mdb)
  end.
End Ops.
End Reconciler.
