(* ===== verification/Frames.v ===== *)
(** * What a computation may write

    A small program logic for the operator's computations: [writes P m Q] says that
    [m], run in a cluster whose objects are stored under their own keys, keeps it
    that way, leaves every object outside [P] alone on every outcome - errors and
    panics included - and returns values that satisfy [Q].  The rules for the
    monad and for the client's calls are in the hint database [frames]. *)
From S2P Require Import Prelude GoStd K8s Scale Json Codec ScramCreds ACTypes Types Kube KubeOps KubeFacts Watch Tls.
Local Open Scope Z_scope.
Create HintDb frames.

Definition of_kind (k0 : kind) : kind → NamespacedName → Prop := λ k _, k = k0.
Definition nothing : kind → NamespacedName → Prop := λ _ _, False.

Section Logic.
Context {api : K8sApi} {W : Type} `{!KubeClient W, !KubeLaws W}.

Definition keys_ok (c : cluster_state) : Prop := ∀ k n o, stored c k n = Some o → key_of k o = n.

Definition unchanged_off (P : kind → NamespacedName → Prop) (c c' : cluster_state) : Prop :=
  ∀ k n, ¬ P k n → stored c' k n = stored c k n.

Definition writes {A} (P : kind → NamespacedName → Prop) (m : IO W A) (Q : A → Prop) : Prop :=
  ∀ w r w', keys_ok (cluster w) → m w = (r, w') →
    keys_ok (cluster w') ∧ unchanged_off P (cluster w) (cluster w') ∧ (∀ a, r = Ret a → Q a).

Definition any {A} : A → Prop := λ _, True.

Lemma keys_ok_put c k o : keys_ok c → keys_ok (put c k o).
Proof.
  intros Hc k' n o'. destruct (decide (k = k')) as [<-|Hk].
  - rewrite stored_put. destruct (decide (key_of k o = n)); [by intros [= <-] | apply Hc].
  - rewrite stored_put_other_kind by done. apply Hc.
Qed.

Lemma unchanged_put (P : kind → NamespacedName → Prop) c k o :
  P k (key_of k o) → unchanged_off P c (put c k o).
Proof.
  intros HP k' n Hn. destruct (decide (k = k')) as [<-|Hk].
  - apply stored_put_other_key. by intros <-.
  - by apply stored_put_other_kind.
Qed.

Lemma unchanged_same (P : kind → NamespacedName → Prop) c c' : c' = c → unchanged_off P c c'.
Proof. by intros ->. Qed.

(** What a frame says of one run. *)
Lemma writes_run {A} P (m : IO W A) Q w r w' :
  writes P m Q → keys_ok (cluster w) → m w = (r, w') →
  keys_ok (cluster w') ∧ ∀ k n, ¬ P k n → stored (cluster w') k n = stored (cluster w) k n.
Proof. intros Hm Hw E. destruct (Hm w r w' Hw E) as (Hk & Hu & _). by split. Qed.

(** ** The monad *)

Section Rules.
Context (P : kind → NamespacedName → Prop).

Lemma writes_ret {A} (a : A) (Q : A → Prop) : Q a → writes P (ret a) Q.
Proof. intros Ha w r w' Hw [= <- <-]. split_and!; [done|done|]. by intros ? [= <-]. Qed.
Lemma writes_throw {A} e (Q : A → Prop) : writes P (throw e) Q.
Proof. intros w r w' Hw [= <- <-]. by split_and!. Qed.
Lemma writes_panic {A} s (Q : A → Prop) : writes P (panic s) Q.
Proof. intros w r w' Hw [= <- <-]. by split_and!. Qed.
Lemma writes_lift {A} (o : outcome A) : writes P (lift o) (λ a, o = Ret a).
Proof. intros w r w' Hw [= <- <-]. by split_and!. Qed.

Lemma writes_weaken {A} (m : IO W A) (Q R : A → Prop) : writes P m Q → (∀ a, Q a → R a) → writes P m R.
Proof. intros Hm HQ w r w' Hw E. destruct (Hm _ _ _ Hw E) as (? & ? & ?). split_and!; auto. Qed.
Lemma writes_any {A} (m : IO W A) (Q : A → Prop) : writes P m Q → writes P m any.
Proof. intros Hm. by eapply writes_weaken. Qed.

Lemma writes_bind {A B} (m : IO W A) (f : A → IO W B) (Q : A → Prop) (R : B → Prop) :
  writes P m Q → (∀ a, Q a → writes P (f a) R) → writes P (bind m f) R.
Proof.
  intros Hm Hf w r w' Hw E. apply bind_inv in E as [(a & w1 & E1 & E2)|[(e & E1 & ->)|(s & E1 & ->)]];
    destruct (Hm _ _ _ Hw E1) as (Hk & Hu & HQ); [|by split_and!..].
  destruct (Hf a (HQ a eq_refl) _ _ _ Hk E2) as (Hk2 & Hu2 & HR).
  split_and!; [done| |done]. intros k n Hn. by rewrite Hu2, Hu.
Qed.

Lemma writes_attempt {A} (m : IO W A) (Q : A → Prop) :
  writes P m Q → writes P (attempt m) (λ r, match r with inl a => Q a | inr _ => True end).
Proof.
  intros Hm w r w' Hw. unfold attempt. destruct (m w) as [[a|e|s] w1] eqn:E; intros [= <- <-];
    destruct (Hm _ _ _ Hw E) as (? & ? & HQ); split_and!; try done.
  - intros ? [= <-]. by apply HQ.
  - by intros ? [= <-].
Qed.

Lemma writes_wrap {A} g (m : IO W A) (Q : A → Prop) : writes P m Q → writes P (wrap g m) Q.
Proof.
  intros Hm w r w' Hw. unfold wrap. destruct (m w) as [[a|e|s] w1] eqn:E; intros [= <- <-];
    destruct (Hm _ _ _ Hw E) as (? & ? & HQ); by split_and!.
Qed.

Lemma writes_for_each {A} (f : A → IO W unit) l : (∀ x, x ∈ l → writes P (f x) any) → writes P (for_each f l) any.
Proof.
  induction l as [|x l IH]; intros Hf; cbn [for_each]; [by apply writes_ret|].
  eapply writes_bind; [apply Hf; constructor|]. intros _ _. apply IH. intros y Hy. apply Hf. by constructor.
Qed.
Lemma writes_map_each {A B} (f : A → IO W B) l : (∀ x, x ∈ l → writes P (f x) any) → writes P (map_each f l) any.
Proof.
  induction l as [|x l IH]; intros Hf; cbn [map_each]; [by apply writes_ret|].
  eapply writes_bind; [apply Hf; constructor|]. intros y _.
  eapply writes_bind; [apply IH; intros z Hz; apply Hf; by constructor|]. intros ys _. by apply writes_ret.
Qed.

(** ** The client *)

Lemma writes_Get k n : writes P (Get k n) (λ o, key_of k o = n).
Proof.
  intros w r w' Hw E. destruct (Get_law k n w _ _ E) as [HC HR]. rewrite HC. split_and!; [done..|].
  intros o ->. by apply Hw in HR.
Qed.
Lemma writes_Create k o : storable k o → P k (key_of k o) → writes P (Create k o) any.
Proof.
  intros Hs HP w r w' Hw E. pose proof (Create_law k o w _ _ Hs E) as HL. destruct r as [u|e|s]; [| |done].
  - destruct HL as (_ & o' & Hk & _ & ->). split_and!; [by apply keys_ok_put| |done].
    apply unchanged_put. by rewrite Hk.
  - destruct HL as [-> _]. by split_and!.
Qed.
Lemma writes_Update k o : P k (key_of k o) → writes P (Update k o) any.
Proof.
  intros HP w r w' Hw E. pose proof (Update_law k o w _ _ E) as HL. destruct r as [o'|e|s]; [| |done].
  - destruct HL as (Hk & _ & ->). split_and!; [by apply keys_ok_put| |done]. apply unchanged_put. by rewrite Hk.
  - rewrite HL. by split_and!.
Qed.
Lemma writes_UpdateStatus m : P KMongoDB (key_of KMongoDB m) → writes P (UpdateStatus m) any.
Proof.
  intros HP w r w' Hw E. pose proof (UpdateStatus_law m w _ _ E) as HL. destruct r as [u|e|s]; [| |done].
  - destruct HL as (m' & -> & Hk & _). split_and!; [by apply keys_ok_put| |done]. apply unchanged_put. by rewrite Hk.
  - rewrite HL. by split_and!.
Qed.
Lemma writes_Patch k o d : P k (key_of k o) → writes P (Patch k o d) any.
Proof.
  intros HP w r w' Hw E. pose proof (Patch_law k o d w _ _ E) as HL. destruct r as [u|e|s].
  - destruct HL as (o' & Hk & -> & _). split_and!; [by apply keys_ok_put| |done]. apply unchanged_put. by rewrite Hk.
  - rewrite HL. by split_and!.
  - rewrite HL. by split_and!.
Qed.
End Rules.
End Logic.

#[export] Hint Resolve writes_attempt writes_wrap writes_lift writes_any : frames.

(** One step of a frame proof: a rule of the monad, or a known component.  What a
    component returns is remembered; of an inner block nothing is. *)
Ltac frame_step :=
  match goal with
  | |- ∀ _, _ => intros ?
  | |- writes _ (bind _ _) _ =>
      first [ eapply writes_bind; [solve [eauto with frames] |] | eapply (writes_bind _ _ _ any) ]
  | |- writes _ (attempt _) any => eapply writes_any, writes_attempt
  | |- writes _ (wrap _ _) _ => apply writes_wrap
  | |- writes _ (throw _) _ => apply writes_throw
  | |- writes _ (panic _) _ => apply writes_panic
  | |- writes _ (lift _) any => eapply writes_any, writes_lift
  | |- writes _ (ret _) _ => apply writes_ret
  | |- any _ => exact I
  | |- writes _ (match ?x with _ => _ end) _ => destruct x eqn:?
  | |- writes _ _ _ => solve [eauto with frames]
  end.
Ltac frames := repeat frame_step.
