(* ===== verification/Safe.v ===== *)
(** * Computations that do not panic

    A second program logic, beside the one of the written objects: [safe S m Q] says
    that [m] never panics, returns values that satisfy [Q], and keeps the secrets
    whose names are in [S] from losing their data map - writing to the nil map of a
    secret without data is one of the ways to panic.  The rules for the monad and
    for the client are in the hint database [safety]; the panics that remain possible
    are those of the pure code, one side condition each. *)
From S2P Require Import Prelude GoStd K8s Scale Json Codec Base64 ScramCreds ACTypes Types Kube KubeOps KubeFacts Watch Tls Frames.
Local Open Scope Z_scope.
Create HintDb safety.

(** A pure computation that does not panic. *)
Definition calm {A} (o : outcome A) : Prop := ∀ s, o ≠ Panic s.
Lemma calm_obind {A B} (o : outcome A) (f : A → outcome B) : calm o → (∀ a, o = Ret a → calm (f a)) → calm (obind o f).
Proof. intros Ho Hf. destruct o as [a|e|s]; [by apply Hf | done | by destruct (Ho s)]. Qed.
Lemma calm_owrap {A} g (o : outcome A) : calm o → calm (owrap g o).
Proof. intros Ho. destruct o as [a|e|s]; [done | done | by destruct (Ho s)]. Qed.

Section Logic.
Context {api : K8sApi} {W : Type} `{!KubeClient W, !KubeLaws W}.

Definition data_ok (S : list NamespacedName) (c : cluster_state) : Prop :=
  ∀ n s, n ∈ S → stored c KSecret n = Some s → is_Some (s_Data s).

Definition safe {A} (S : list NamespacedName) (m : IO W A) (Q : A → Prop) : Prop :=
  ∀ w r w', data_ok S (cluster w) → m w = (r, w') →
    data_ok S (cluster w') ∧ match r with Ret a => Q a | Err _ => True | Panic _ => False end.

(** An object that may be stored under its key. *)
Definition has_data (k : kind) : obj k → Prop :=
  match k return obj k → Prop with KSecret => λ s, is_Some (s_Data s) | _ => λ _, True end.

Lemma data_ok_nil c : data_ok [] c.
Proof. intros n s []%not_elem_of_nil. Qed.
Lemma data_ok_put S c k o : data_ok S c → has_data k o → data_ok S (put c k o).
Proof.
  intros Hc Ho n s Hn. destruct (decide (k = KSecret)) as [->|Hk].
  - rewrite stored_put. case_decide; [by intros [= <-] | by apply Hc].
  - rewrite stored_put_other_kind by done. by apply Hc.
Qed.
Lemma has_data_accepted k o o' : accepted k o o' → has_data k o → has_data k o'.
Proof. destruct (decide (k = KStatefulSet)) as [->|Hk]; [done|]. by intros ->%accepted_other. Qed.

(** What a safe computation says of one run that starts without any promise. *)
Lemma safe_run {A} (m : IO W A) Q w s : safe [] m Q → (m w).1 ≠ Panic s.
Proof. intros Hm E. destruct (m w) as [r w'] eqn:Em. cbn in E. subst r. by destruct (Hm _ _ _ (data_ok_nil _) Em). Qed.

(** ** The monad *)

Section Rules.
Context (S : list NamespacedName).

Lemma safe_ret {A} (a : A) (Q : A → Prop) : Q a → safe S (ret a) Q.
Proof. intros Ha w r w' Hw [= <- <-]. by split. Qed.
Lemma safe_throw {A} e (Q : A → Prop) : safe S (throw e) Q.
Proof. intros w r w' Hw [= <- <-]. by split. Qed.
Lemma safe_lift {A} (o : outcome A) : calm o → safe S (lift o) (λ a, o = Ret a).
Proof. intros Ho w r w' Hw [= <- <-]. split; [done|]. destruct o as [a|e|s]; [done..|]. by destruct (Ho s). Qed.

Lemma safe_weaken {A} (m : IO W A) (Q R : A → Prop) : safe S m Q → (∀ a, Q a → R a) → safe S m R.
Proof. intros Hm HQ w r w' Hw E. destruct (Hm _ _ _ Hw E) as [? HR]. split; [done|]. destruct r; auto. Qed.
Lemma safe_any {A} (m : IO W A) (Q : A → Prop) : safe S m Q → safe S m any.
Proof. intros Hm. by eapply safe_weaken. Qed.

Lemma safe_bind {A B} (m : IO W A) (f : A → IO W B) (Q : A → Prop) (R : B → Prop) :
  safe S m Q → (∀ a, Q a → safe S (f a) R) → safe S (bind m f) R.
Proof.
  intros Hm Hf w r w' Hw E. apply bind_inv in E as [(a & w1 & E1 & E2)|[(e & E1 & ->)|(s & E1 & ->)]];
    destruct (Hm _ _ _ Hw E1) as [Hk HQ]; [|by split|done]. by apply (Hf a HQ _ _ _ Hk E2).
Qed.

Lemma safe_attempt {A} (m : IO W A) (Q : A → Prop) :
  safe S m Q → safe S (attempt m) (λ r, match r with inl a => Q a | inr _ => True end).
Proof.
  intros Hm w r w' Hw. unfold attempt. destruct (m w) as [[a|e|s] w1] eqn:E; intros [= <- <-];
    by destruct (Hm _ _ _ Hw E).
Qed.
Lemma safe_wrap {A} g (m : IO W A) (Q : A → Prop) : safe S m Q → safe S (wrap g m) Q.
Proof.
  intros Hm w r w' Hw. unfold wrap. destruct (m w) as [[a|e|s] w1] eqn:E; intros [= <- <-];
    by destruct (Hm _ _ _ Hw E).
Qed.

Lemma safe_for_each {A} (f : A → IO W unit) l : (∀ x, x ∈ l → safe S (f x) any) → safe S (for_each f l) any.
Proof.
  induction l as [|x l IH]; intros Hf; cbn [for_each]; [by apply safe_ret|].
  eapply safe_bind; [apply Hf; constructor|]. intros _ _. apply IH. intros y Hy. apply Hf. by constructor.
Qed.
Lemma safe_map_each {A B} (f : A → IO W B) l : (∀ x, x ∈ l → safe S (f x) any) → safe S (map_each f l) any.
Proof.
  induction l as [|x l IH]; intros Hf; cbn [map_each]; [by apply safe_ret|].
  eapply safe_bind; [apply Hf; constructor|]. intros y _.
  eapply safe_bind; [apply IH; intros z Hz; apply Hf; by constructor|]. intros ys _. by apply safe_ret.
Qed.

(** ** The client *)

Definition read_ok (k : kind) (n : NamespacedName) : obj k → Prop :=
  match k return obj k → Prop with KSecret => λ s, n ∈ S → is_Some (s_Data s) | _ => λ _, True end.

Lemma safe_Get k n : safe S (Get k n) (read_ok k n).
Proof.
  intros w r w' Hw E. destruct (Get_law k n w _ _ E) as [HC HR]. rewrite HC. split; [done|].
  destruct r as [o|e|s]; [|done..]. destruct k; try exact I. intros Hn. by apply (Hw n).
Qed.
Lemma safe_Create k o : storable k o → has_data k o → safe S (Create k o) any.
Proof.
  intros Hs Hd w r w' Hw E. pose proof (Create_law k o w _ _ Hs E) as HL. destruct r as [u|e|s]; [| |done].
  - destruct HL as (_ & o' & _ & Ha & ->). split; [|done]. apply data_ok_put; [done|]. by eapply has_data_accepted.
  - by destruct HL as [-> _].
Qed.
Lemma safe_Update k o : has_data k o → safe S (Update k o) any.
Proof.
  intros Hd w r w' Hw E. pose proof (Update_law k o w _ _ E) as HL. destruct r as [o'|e|s]; [| |done].
  - destruct HL as (_ & Ha & ->). split; [|done]. apply data_ok_put; [done|]. by eapply has_data_accepted.
  - by rewrite HL.
Qed.
Lemma safe_UpdateStatus m : safe S (UpdateStatus m) any.
Proof.
  intros w r w' Hw E. pose proof (UpdateStatus_law m w _ _ E) as HL. destruct r as [u|e|s]; [| |done].
  - destruct HL as (m' & -> & _). split; [|done]. by apply data_ok_put.
  - by rewrite HL.
Qed.
End Rules.

(** The API server answers a patch, it does not crash its client. *)
Class PatchOk : Prop := Patch_answers : ∀ k o d w s, (Patch k o d w).1 ≠ Panic s.
Lemma safe_Patch `{!PatchOk} S k o d : has_data k o → (∀ o', has_data k o') → safe S (Patch k o d) any.
Proof.
  intros Ho Hk w r w' Hw E. pose proof (Patch_law k o d w _ _ E) as HL. destruct r as [u|e|s].
  - destruct HL as (o' & _ & -> & _). split; [|done]. by apply data_ok_put.
  - by rewrite HL.
  - by destruct (Patch_answers k o d w s); rewrite E.
Qed.
End Logic.
#[global] Arguments PatchOk {api} W {_}.

#[export] Hint Resolve safe_attempt safe_wrap safe_any : safety.

(** One step of a proof of safety, in the manner of [frames]. *)
Ltac calm_step :=
  match goal with
  | |- ∀ _, _ => intros ?
  | |- safe _ (bind _ _) _ =>
      first [ eapply safe_bind; [solve [eauto with safety] |] | eapply (safe_bind _ _ _ any) ]
  | |- safe _ (attempt _) any => eapply safe_any, safe_attempt
  | |- safe _ (wrap _ _) _ => apply safe_wrap
  | |- safe _ (throw _) _ => apply safe_throw
  | |- safe _ (lift _) any => eapply safe_any, safe_lift
  | |- safe _ (ret _) _ => apply safe_ret
  | |- any _ => exact I
  | |- safe _ (match ?x with _ => _ end) _ => destruct x eqn:?
  | |- safe _ _ _ => solve [eauto with safety]
  end.
Ltac safely := repeat calm_step.
