(* ===== verification/ReadinessFacts.v ===== *)
(** * What the readiness probe tells the operator

    The annotation of the pod and the answer of the probe, against the operator's own
    test of the annotation; and when a pod counts as ready although its agent has
    not reached the goal state. *)
From S2P Require Import Prelude GoStd K8s MergeByKey Merge Scale Json Codec ScramCreds ACTypes Types Kube KubeOps KubeFacts.
From S2P Require Import ACBuilder ACSecret Agent PodMods Health Readiness Tls Frames.
Local Open Scope Z_scope.

(** Reading the clock does not touch the cluster. *)
Class ClockFrame {api : K8sApi} (W : Type) `{!KubeClient W, !Clock W} : Prop :=
  Now_cluster : ∀ (w : W) r w', Now w = (r, w') → cluster w' = cluster w.

(** ** Versions in the health file *)

Lemma mapM_Forall {A B} (f : A → option B) (P : B → Prop) l l' :
  (∀ a b, f a = Some b → P b) → mapM f l = Some l' → Forall P l'.
Proof. intros Hf. revert l'. induction l as [|a l IH]; intros l' E; cbn in E; simplify_option_eq; constructor; eauto. Qed.

Lemma dec_map_Forall {A} (dec : json → option A) (P : A → Prop) j m :
  (∀ j a, dec j = Some a → P a) → dec_map dec j = Some m → map_Forall (λ _, P) m.
Proof.
  intros Hd. destruct j; cbn; intros E; simplify_option_eq; [apply map_Forall_empty|].
  assert (Forall (λ kv : string * A, P kv.2) H) as HF.
  { eapply mapM_Forall; [|exact Heqo]. intros [k j] [k' a] E. cbn in E. simplify_option_eq. by eapply Hd. }
  clear Heqo. assert (map_Forall (λ _, P) (∅ : gmap string A)) as H0 by apply map_Forall_empty. revert H0.
  generalize (∅ : gmap string A). induction HF as [|[k a] kvs Ha _ IH]; intros m Hm; cbn; [done|].
  apply IH. by apply map_Forall_insert_2.
Qed.

Lemma decoded_int j z : of_json (A := Z) j = Some z → in_int64 z.
Proof.
  destruct j as [| |n| | |]; cbn; [by intros [= <-]; split|done| |done..].
  destruct (fits_int64 n) eqn:Hf; [|done]. intros [= <-].
  unfold fits_int64 in Hf. apply andb_true_iff in Hf as [H1%Z.leb_le H2%Z.ltb_lt]. by split.
Qed.

Lemma parseHealthStatus_versions r h :
  parseHealthStatus r = Ret h →
  map_Forall (λ _ d, in_int64 (health.ds_LastGoalStateClusterConfigVersion d)) (health.ProcessPlans h).
Proof.
  unfold parseHealthStatus. destruct r as [data|e|s]; cbn; [|done..].
  destruct (parse_json data) as [j|]; cbn; [|done]. destruct (health.dec_Status j) as [h'|] eqn:E; [|done].
  intros [= ->]. unfold health.dec_Status, dec_struct in E. destruct j; simplify_eq; [apply map_Forall_empty|].
  simplify_option_eq. eapply dec_map_Forall; [|done]. clear. intros j d E.
  unfold health.dec_MmsDirectorStatus, dec_struct in E. destruct j; simplify_eq; [by split|].
  apply bind_Some in E as (x0 & _ & (x1 & Hx1 & (x2 & _ & [= <-])%bind_Some)%bind_Some). exact (decoded_int _ _ Hx1).
Qed.

Section Facts.
Context {api : K8sApi} `{!Environ, !CastAny, !CastAnyOk, !Cast, !CastOk, !MapOrder}.
Context {W : Type} `{!KubeClient W, !KubeLaws W, !PodPatch W, !PodPatchLaws W, !Clock W, !ClockFrame W}.

(** ** The version of the automation config *)

Definition config_version (c : cluster_state) (n : NamespacedName) : option Z :=
  s ← stored c KSecret n;
  j ← parse_json (default "" (gm (s_Data s) !! automationConfigKey));
  m ← of_json (A := gmap string json) j;
  Some match m !! "version" with Some v => ToInt64 v | None => -1 end.

Lemma ReadAutomationConfigVersion_Ret ns name (w : W) v w' :
  ReadAutomationConfigVersionFromSecret ns name w = (Ret v, w') →
  cluster w' = cluster w ∧ config_version (cluster w) (MkNamespacedName name ns) = Some v.
Proof.
  unfold ReadAutomationConfigVersionFromSecret, ReadSecret, config_version. intros E.
  apply bind_Ret_inv in E as (s & w1 & [HC Hs]%(Get_Ret KSecret) & E). rewrite Hs. cbn [mbind option_bind].
  destruct (parse_json _) as [j|]; cbn [mbind option_bind] in *; [|done].
  destruct (of_json j) as [m|]; cbn [mbind option_bind] in *; [|done]. destruct (m !! _); injection E as <- <-; by split.
Qed.

Lemma fill_other {A} (l : list (string * A)) (m : gmap string A) k :
  k ∉ l.*1 → foldl (λ m '(k, v), <[k := v]> m) m l !! k = m !! k.
Proof.
  revert m. induction l as [|[k' v] l IH]; intros m Hk; [done|]. cbn in *. apply not_elem_of_cons in Hk as [Hne Hk].
  rewrite IH by done. by rewrite lookup_insert_ne.
Qed.

(** Decoding into an interface brings the members of nested objects in order. *)
Lemma map_of_json_any l :
  map_of_json (A := json) l
  = Some (foldl (λ m '(k, v), <[k := v]> m) ∅ (map (λ kv : string * json, (kv.1, canonical kv.2)) l)).
Proof.
  unfold map_of_json. erewrite mapM_Some_2; [done|].
  induction l as [|[k v] l IH]; [exact (List.Forall2_nil _)|by apply List.Forall2_cons].
Qed.

Lemma present_keys ms k : k ∉ ms.*1 → k ∉ (present ms).*1.
Proof.
  induction ms as [|[k' [j|]] ms IH]; cbn; [done| |]; rewrite !not_elem_of_cons; intros [Hne Hk];
    rewrite ?not_elem_of_cons; auto.
Qed.

Lemma config_members ac : ∃ ms, to_json ac = JObj (("version", JNum (ac_Version ac)) :: present ms) ∧ "version" ∉ ms.*1.
Proof. eexists. split; [reflexivity|]. apply (bool_decide_unpack _). vm_compute. exact I. Qed.

(** What the operator writes, the probe reads. *)
Lemma written_version ac :
  ∃ m, parse_json (Marshal ac) ≫= of_json (A := gmap string json) = Some m ∧ m !! "version" = Some (JNum (ac_Version ac)).
Proof.
  unfold Marshal. rewrite parse_print_json. destruct (config_members ac) as (ms & -> & Hms).
  eexists. split; [apply map_of_json_any|]. cbn [foldl map fst snd]. rewrite fill_other; [apply lookup_insert_eq|].
  rewrite <- list_fmap_compose. by apply present_keys.
Qed.

Lemma config_version_written c n s ac :
  stored c KSecret n = Some s → gm (s_Data s) !! ConfigKey = Some (Marshal ac) → 0 ≤ ac_Version ac ≤ 2 ^ 53 →
  config_version c n = Some (ac_Version ac).
Proof.
  intros Hs Hd Hv. unfold config_version. rewrite Hs. cbn [mbind option_bind].
  change automationConfigKey with ConfigKey. rewrite Hd.
  change (default "" (Some (Marshal ac))) with (Marshal ac).
  destruct (written_version ac) as (m & Hm & Hl). destruct (parse_json (Marshal ac)) as [j|]; [|done].
  cbn [mbind option_bind] in *. rewrite Hm. cbn [mbind option_bind]. rewrite Hl. f_equal. by apply ToInt64_JNum.
Qed.

(** ** The annotation *)

Definition annotation_of (p : Pod) : option string := gm (om_Annotations (pod_ObjectMeta p)) !! mongodbAgentVersionAnnotation.

(** The pod with the version in its annotations, whether it had any before or not. *)
Definition annotated (p : Pod) (v : Z) : Pod :=
  set_annotations KPod p (Some (<[mongodbAgentVersionAnnotation := Itoa v]> (gm (om_Annotations (pod_ObjectMeta p))))).

Lemma version_payload_adds p v :
  add_annotations (om_Annotations (pod_ObjectMeta p)) (version_payload p v)
  = Some (Some (<[mongodbAgentVersionAnnotation := Itoa v]> (gm (om_Annotations (pod_ObjectMeta p))))).
Proof.
  unfold version_payload. destruct (om_Annotations (pod_ObjectMeta p)) as [m|]; cbn [gm default].
  - case_bool_decide as Hm; [by rewrite Hm|]. done.
  - by rewrite bool_decide_true.
Qed.

Lemma string_wf (x : string) : json_wf (to_json x : json) = true.
Proof. apply bool_decide_eq_true. reflexivity. Qed.
Lemma version_payload_wf p v : json_wf (version_payload p v) = true.
Proof.
  assert (∀ op path j, json_wf (j : json) = true → json_wf (MkPatchValue op path j) = true) as Hp.
  { intros op path j Hj. change (true && true && json_wf j = true). by rewrite Hj. }
  change (forallb json_wf (version_payload p v) = true). unfold version_payload. rewrite forallb_app.
  apply andb_true_iff. split; [case_bool_decide; reflexivity|]. cbn [forallb]. by rewrite Hp by apply string_wf.
Qed.

Lemma PatchPodAnnotation_Ret ns v name (w : W) x w' :
  PatchPodAnnotation ns v name w = (Ret x, w') →
  ∃ p, stored (cluster w) KPod (MkNamespacedName name ns) = Some p ∧ cluster w' = put (cluster w) KPod (annotated p v).
Proof.
  unfold PatchPodAnnotation, patchPod. intros E.
  apply bind_Ret_inv in E as (p & w1 & [HC Hp]%(Get_Ret KPod) & E). apply bind_Ret_inv in E as (p' & w2 & E & [= _ <-]).
  apply patch_pod_law in E as (p2 & Hp2 & Hput); [|apply version_payload_wf]. rewrite HC, Hp in Hp2. injection Hp2 as <-.
  exists p. split; [done|]. rewrite <- HC. apply Hput, version_payload_adds.
Qed.

(** ** The check in headless mode *)

(** What the operator reads off a pod the probe has annotated. *)
Lemma annotated_reached p v target : in_int64 v → ReachedGoalState (annotated p v) target = (v =? target).
Proof.
  intros Hv. unfold ReachedGoalState, annotated. cbn. change podAnnotationAgentVersion with mongodbAgentVersionAnnotation.
  rewrite lookup_insert_eq. by rewrite ToInt_Itoa.
Qed.

Lemma readCurrentAgentInfo_int64 h v :
  map_Forall (λ _ d, in_int64 (health.ds_LastGoalStateClusterConfigVersion d)) (health.ProcessPlans h) →
  in_int64 v → in_int64 (readCurrentAgentInfo h v).
Proof.
  intros Hm Hv. unfold readCurrentAgentInfo. destruct (range (health.ProcessPlans h)) as [|[k d] l] eqn:E.
  - destruct (range (health.Healthiness h)) as [|[k p] l']; [done|]. destruct (health.ph_IsInGoalState p); [done|by split].
  - apply (Hm k d). apply elem_of_range. rewrite E. constructor.
Qed.

Lemma PerformCheckHeadlessMode_Ret h conf (w : W) b w' :
  PerformCheckHeadlessMode h conf w = (Ret b, w') →
  ∃ target p, config_version (cluster w) (MkNamespacedName (config.AutomationConfigSecretName conf) (config.Namespace conf)) = Some target
    ∧ stored (cluster w) KPod (MkNamespacedName (config.Hostname conf) (config.Namespace conf)) = Some p
    ∧ cluster w' = put (cluster w) KPod (annotated p (readCurrentAgentInfo h target))
    ∧ b = (readCurrentAgentInfo h target =? target).
Proof.
  unfold PerformCheckHeadlessMode. intros E.
  apply bind_Ret_inv in E as (target & w1 & [HC Hv]%ReadAutomationConfigVersion_Ret & E).
  apply bind_Ret_inv in E as (x & w2 & (p & Hp & HP)%PatchPodAnnotation_Ret & [= <- <-]). rewrite HC in *.
  exists target, p. split_and!; [done..|]. apply Z.eqb_sym.
Qed.

(** ** Steps that wait for other members *)

Definition plan_steps (plan : health.PlanStatus) : option (list health.StepStatus) :=
  moves ← mapM id (health.ps_Moves plan);
  steps ← mapM (λ m, mapM id (health.ms_Steps m)) moves;
  Some (concat steps).

(** The step the agent is at: of its only process, in the last plan, which is not
    finished, the last step that was started. *)
Definition current_step (h : health.Status) (s : health.StepStatus) : Prop :=
  ∃ k v plan before after,
    health.ProcessPlans h = {[ k := v ]} ∧ last (health.ds_Plans v) = Some (Some plan)
    ∧ health.ps_Completed plan = None ∧ plan_steps plan = Some (before ++ s :: after)
    ∧ is_Some (health.ss_Started s) ∧ Forall (λ s, health.ss_Started s = None) after.

Definition started_of (acc : option health.StepStatus) (s : health.StepStatus) : option health.StepStatus :=
  match health.ss_Started s with Some _ => Some s | None => acc end.

Lemma last_started_fold steps acc :
  last_started steps acc = match mapM id steps with Some l => Ret (foldl started_of acc l) | None => nil_deref end.
Proof.
  revert acc. induction steps as [|[s|] steps IH]; intros acc; cbn; [done| |done].
  rewrite IH. by destruct (mapM id steps).
Qed.

Lemma last_started_of_moves_fold moves acc :
  last_started_of_moves moves acc =
  match (moves ← mapM id moves; steps ← mapM (λ m, mapM id (health.ms_Steps m)) moves; Some (concat steps)) with
  | Some l => Ret (foldl started_of acc l)
  | None => nil_deref
  end.
Proof.
  revert acc. induction moves as [|[m|] moves IH]; intros acc; cbn [last_started_of_moves]; [done| |done].
  rewrite last_started_fold. cbn. destruct (mapM id (health.ms_Steps m)) as [l|] eqn:El; cbn [obind].
  - rewrite IH. destruct (mapM id moves) as [ms|]; cbn; [|done]. rewrite El. cbn.
    destruct (mapM _ ms); cbn; [by rewrite foldl_app|done].
  - destruct (mapM id moves) as [ms|]; cbn; [|done]. by rewrite El.
Qed.

Lemma started_of_last l s :
  foldl started_of None l = Some s ↔
  ∃ before after, l = before ++ s :: after ∧ is_Some (health.ss_Started s)
    ∧ Forall (λ s, health.ss_Started s = None) after.
Proof.
  induction l as [|x l IH] using rev_ind; cbn.
  - split; [done|]. intros (before & after & E & _). by destruct before.
  - rewrite foldl_snoc. unfold started_of at 1. destruct (health.ss_Started x) as [t|] eqn:Ex.
    + split; [intros [= <-]; exists l, []; by eauto|]. intros (before & after & E & [u Hu] & HF).
      destruct after as [|y after _] using rev_ind; [by apply app_inj_tail in E as [_ ->]|].
      rewrite app_comm_cons, app_assoc in E. apply app_inj_tail in E as [_ <-].
      apply Forall_app in HF as [_ HF]. apply Forall_cons in HF as [HF _]. congruence.
    + rewrite IH. split.
      * intros (before & after & -> & Hs & HF). exists before, (after ++ [x]). rewrite <- app_assoc. cbn.
        split_and!; [done..|]. apply Forall_app. split; [done|]. by constructor.
      * intros (before & after & E & [u Hu] & HF). exists before.
        destruct after as [|y after _] using rev_ind; [apply app_inj_tail in E as [_ ->]; congruence|].
        rewrite app_comm_cons, app_assoc in E. apply app_inj_tail in E as [-> ->]. exists after.
        apply Forall_app in HF as [HF _]. eauto.
Qed.

Lemma range_one {V} (m : gmap string V) :
  m ≠ ∅ → (size m ≤ 1)%nat → ∃ k v, m = {[ k := v ]} ∧ range m = [(k, v)].
Proof.
  intros Hne Hs. pose proof (range_perm _ m) as HP. pose proof (Permutation_length HP) as Hl.
  rewrite length_map_to_list in Hl. destruct (range m) as [|[k v] l] eqn:E.
  - destruct Hne. apply map_size_empty_inv. cbn in Hl. lia.
  - exists k, v. destruct l; [|cbn in Hl; lia]. split; [|done]. apply Permutation_length_1_inv in HP.
    rewrite <- (list_to_map_to_list m), HP. done.
Qed.

Lemma findCurrentStep_iff h s : findCurrentStep (health.ProcessPlans h) = Ret (Some s) ↔ current_step h s.
Proof.
  unfold findCurrentStep, current_step, plan_steps. case_bool_decide as He.
  { split; [done|]. intros (k & v & plan & before & after & E & _). rewrite He in E.
    symmetry in E. by apply map_non_empty_singleton in E. }
  destruct (Z.ltb_spec 1 (Z.of_nat (size (health.ProcessPlans h)))) as [Hs|Hs].
  { split; [done|]. intros (k & v & plan & before & after & E & _). rewrite E, map_size_singleton in Hs. lia. }
  destruct (range_one (health.ProcessPlans h)) as (k & v & Hm & ->); [done|lia|].
  setoid_rewrite Hm. split.
  - destruct (last (health.ds_Plans v)) as [[plan|]|] eqn:Hl; [|done..].
    destruct (health.ps_Completed plan) eqn:Hc; [done|]. rewrite last_started_of_moves_fold.
    destruct (mapM id _ ≫= _) as [l|] eqn:Ep; [|done]. intros [= (before & after & -> & Hst & HF)%started_of_last].
    by exists k, v, plan, before, after.
  - intros (k' & v' & plan & before & after & E & Hl & Hc & Hp & Hst & HF).
    apply map_singleton_inj in E as [-> ->]. rewrite Hl, Hc, last_started_of_moves_fold.
    rewrite Hp. f_equal. apply started_of_last. by exists before, after.
Qed.

Lemma contains_String_iff l x : contains_String l x = true ↔ x ∈ l.
Proof.
  unfold contains_String. rewrite existsb_exists. setoid_rewrite bool_decide_eq_true.
  rewrite list_elem_of_In. naive_solver.
Qed.

(** Waiting for other members of the replica set for more than 15 seconds. *)
Definition waits_for_members (h : health.Status) (now : time.Time) : Prop :=
  ∃ s t, current_step h s ∧ health.ss_Step s ∈ riskySteps ∧ health.ss_Completed s = None
    ∧ health.ss_Started s = Some t ∧ t < now - 15 * time.Second.

Lemma isDeadlocked_Ret s (w : W) b w' :
  is_Some (health.ss_Started s) → isDeadlocked s w = (Ret b, w') →
  ∃ now, Now w = (Ret now, w') ∧
    (b = true ↔ health.ss_Step s ∈ riskySteps ∧ health.ss_Completed s = None
                ∧ ∃ t, health.ss_Started s = Some t ∧ t < now - 15 * time.Second).
Proof.
  intros [t Ht] E. unfold isDeadlocked in E. apply bind_Ret_inv in E as (now & w1 & E1 & E2).
  exists now. rewrite Ht in E2. cbn zeta in E2.
  destruct (contains_String riskySteps (health.ss_Step s)) eqn:Hr.
  - apply contains_String_iff in Hr. case_bool_decide as Hc; injection E2 as <- <-; (split; [done|]).
    + rewrite Ht. unfold time.Before, time.Add. rewrite Z.ltb_lt. split; [intros; split_and!; [done..|exists t; split; [done|lia]]|].
      intros (_ & _ & t' & [= <-] & ?). lia.
    + naive_solver.
  - injection E2 as <- <-. split; [done|]. apply not_true_iff_false in Hr. rewrite contains_String_iff in Hr. naive_solver.
Qed.

Lemma hasDeadlockedSteps_Ret h (w : W) b w' :
  hasDeadlockedSteps h w = (Ret b, w') →
  cluster w' = cluster w ∧ (b = true ↔ ∃ now, Now w = (Ret now, w') ∧ waits_for_members h now).
Proof.
  intros E. unfold hasDeadlockedSteps in E. apply bind_Ret_inv in E as (o & w1 & [= Hf <-] & E).
  destruct o as [s|].
  - pose proof (proj1 (findCurrentStep_iff h s) Hf) as Hs.
    assert (is_Some (health.ss_Started s)) as Hst by by destruct Hs as (? & ? & ? & ? & ? & ? & ? & ? & ? & ? & _).
    apply isDeadlocked_Ret in E as (now & E & Hb); [|done]. split; [by apply Now_cluster in E|]. rewrite Hb. split.
    + intros (? & ? & t & ? & ?). exists now. split; [done|]. by exists s, t.
    + intros (now' & E' & s' & t & Hs' & ? & ? & ? & ?). rewrite E in E'. injection E' as <-.
      apply findCurrentStep_iff in Hs'. rewrite Hf in Hs'. injection Hs' as <-. eauto.
  - injection E as <- <-. split; [done|]. split; [done|]. intros (now & _ & s & t & Hs & _).
    apply findCurrentStep_iff in Hs. congruence.
Qed.

(** [C31] A pod that has not reached the goal state counts as ready all the same exactly when
    its agent waits for other members: it manages one process, whose last plan is
    not finished and whose last started step is one of the two that wait for the
    replica set, not completed and begun more than 15 seconds ago.  So a replica set
    whose members start one after the other does not lock up. *)
Theorem hasDeadlockedSteps_spec h (w : W) b w' :
  hasDeadlockedSteps h w = (Ret b, w') →
  cluster w' = cluster w ∧ (b = true ↔ ∃ now, Now w = (Ret now, w') ∧ waits_for_members h now).
Proof. apply hasDeadlockedSteps_Ret. Qed.

Lemma isInReadyState_Ret h (w : W) b w' : isInReadyState h w = (Ret b, w') → cluster w' = cluster w.
Proof.
  unfold isInReadyState. case_bool_decide; [by intros [= _ <-]|].
  destruct (range _) as [|[k p] l]; [by intros [= _ <-]|].
  destruct (health.ph_ExpectedToBeUp p); cbn [negb]; [|by intros [= _ <-]].
  intros E. apply bind_Ret_inv in E as (now & w1 & E1%Now_cluster & [= _ <-]). done.
Qed.

(** What the agent's health file says about the config version it has reached, when it
    is to reach [target]: the version of a process plan; without any plan [target] if a
    process is in the goal state, -1 if it is not, and [target] if the file is empty. *)
Definition agent_reports (h : health.Status) (target v : Z) : Prop :=
  (∃ k d, health.ProcessPlans h !! k = Some d ∧ v = health.ds_LastGoalStateClusterConfigVersion d)
  ∨ (health.ProcessPlans h = ∅
     ∧ ((∃ k p, health.Healthiness h !! k = Some p
          ∧ (health.ph_IsInGoalState p = true → v = target) ∧ (health.ph_IsInGoalState p = false → v = -1))
        ∨ (health.Healthiness h = ∅ ∧ v = target))).

Lemma range_nil {V} (m : gmap string V) : range m = [] → m = ∅.
Proof. intros E. apply map_to_list_empty_iff, Permutation_nil. rewrite <- E. apply range_perm. Qed.
Lemma range_head {V} (m : gmap string V) k v l : range m = (k, v) :: l → m !! k = Some v.
Proof. intros E. apply elem_of_range. rewrite E. constructor. Qed.

Lemma readCurrentAgentInfo_reports h target : agent_reports h target (readCurrentAgentInfo h target).
Proof.
  unfold readCurrentAgentInfo. destruct (range (health.ProcessPlans h)) as [|[k d] l] eqn:E.
  - apply range_nil in E. right. split; [done|].
    destruct (range (health.Healthiness h)) as [|[k p] l] eqn:E'; [right; by apply range_nil in E'|left].
    exists k, p. split; [by eapply range_head|]. by destruct (health.ph_IsInGoalState p).
  - left. exists k, d. split; [by eapply range_head|done].
Qed.

(** [C30] The probe tells the operator the truth: while the secret holds the config [ac] the
    operator wrote, a probe that comes to an answer leaves the version the agent reports in
    its health file ([agent_reports]) in the annotations of its own pod and changes nothing
    else; with it the operator's [ReachedGoalState] says exactly whether that is the version
    of [ac]; and if it is not, the pod is ready just when its agent has waited for other
    members for more than 15 seconds by the clock the probe has read. *)
Theorem probe_informs_operator conf ac s (w : W) b w' :
  let n := MkNamespacedName (config.Hostname conf) (config.Namespace conf) in
  isHeadlessMode = true → keys_ok (cluster w) →
  stored (cluster w) KSecret (MkNamespacedName (config.AutomationConfigSecretName conf) (config.Namespace conf)) = Some s →
  gm (s_Data s) !! ConfigKey = Some (Marshal ac) → 0 ≤ ac_Version ac ≤ 2 ^ 53 →
  isPodReady conf w = (Ret b, w') →
  ∃ h p reached, parseHealthStatus (config.HealthStatusReader conf) = Ret h
    ∧ stored (cluster w) KPod n = Some p ∧ agent_reports h (ac_Version ac) reached
    ∧ cluster w' = put (cluster w) KPod (annotated p reached)
    ∧ stored (cluster w') KPod n = Some (annotated p reached)
    ∧ (ReachedGoalState (annotated p reached) (ac_Version ac) = true ↔ reached = ac_Version ac)
    ∧ (reached ≠ ac_Version ac → ∃ w3, cluster w3 = cluster w'
         ∧ (b = true ↔ ∃ now, Now w3 = (Ret now, w') ∧ waits_for_members h now)).
Proof.
  intros n Hmode Hkeys Hs Hd Hv E. unfold isPodReady, isInGoalState in E. rewrite Hmode in E.
  apply bind_Ret_inv in E as (h & w1 & [= Hp <-] & E). rewrite andb_false_r in E.
  apply bind_Ret_inv in E as (goal & w2 & E1 & E). apply bind_Ret_inv in E as (ready & w3 & E2%isInReadyState_Ret & E).
  apply PerformCheckHeadlessMode_Ret in E1 as (target & p & Ht & Hpod & HC & ->).
  rewrite (config_version_written _ _ s ac Hs Hd Hv) in Ht. injection Ht as <-. rewrite HC in E2.
  pose proof (readCurrentAgentInfo_reports h (ac_Version ac)) as Hrep.
  assert (in_int64 (readCurrentAgentInfo h (ac_Version ac))) as Hi.
  { apply readCurrentAgentInfo_int64; [by eapply parseHealthStatus_versions|]. unfold in_int64. lia. }
  revert HC E2 E Hrep Hi. generalize (readCurrentAgentInfo h (ac_Version ac)). intros reached HC E2 E Hrep Hi.
  assert (cluster w' = cluster w3 ∧ (reached ≠ ac_Version ac → ∃ u, cluster u = cluster w'
    ∧ (b = true ↔ ∃ now, Now u = (Ret now, w') ∧ waits_for_members h now))) as [HC' Hb].
  { destruct (Z.eqb_spec reached (ac_Version ac)) as [Heq|Hne]; [destruct ready; cbn in E; injection E as <- <-; by split|].
    cbn in E. apply hasDeadlockedSteps_Ret in E as [HC' Hb]. split; [done|]. intros _. by exists w3. }
  exists h, p, reached. rewrite HC', E2 in *. split_and!; [done..| | |done].
  - assert (key_of KPod (annotated p reached) = n) as <- by exact (Hkeys KPod n p Hpod). apply (stored_put_key _ KPod).
  - rewrite annotated_reached by done. apply Z.eqb_eq.
Qed.
End Facts.
