(* ===== verification/VersionHook.v ===== *)
(** * The version upgrade hook

    cmd/versionhook/main.go: the hook that runs in a pod before mongod is started.  When
    the agent's plan is to change the version of mongod, the hook deletes its own pod,
    so that Kubernetes starts it again with the new image; otherwise it lets
    mongod start. *)
From S2P Require Import Prelude GoStd K8s MergeByKey Merge Scale Json Codec ScramCreds ACTypes Types Kube PodMods Health.
From S2P Require Import KubeFacts Frames.
Local Open Scope Z_scope.

(** A tick of the ticker, and the in-cluster configuration and client of the
    Kubernetes libraries. *)
Class Ticker (W : Type) := wait_tick : IO W unit.
Class InCluster (W : Type) := { rest_InClusterConfig : IO W unit; client_New : IO W unit }.

(** How the hook ends: it gave up, mongod starts, or it waits to be killed. *)
Inductive hook_end := HookFatal | MongodStarts | WaitsToBeKilled.

Section Hook.
Context {api : K8sApi} `{!Environ}.
Context {W : Type} `{!KubeClient W, !Files W, !Ticker W, !InCluster W}.

Definition agentStatusFilePathEnv : string := "AGENT_STATUS_FILEPATH".
Definition defaultNamespace : string := "default".
Definition pollingInterval : Z := 1 * time.Second.
Definition pollingDuration : Z := 60 * time.Second.

Definition getHostname : string := Getenv "HOSTNAME".

Definition readAgentHealthStatus (reader : Reader) : outcome agent.Health :=
  let! data := reader in
  match parse_json data ≫= agent.dec_Health with
  | Some h => Ret h
  | None => Err (TextError "json: cannot unmarshal the health status")
  end.

Definition getAgentHealthStatus : IO W agent.Health :=
  f <- wrap (prefix_error "could not open file: ") (os_Open (Getenv agentStatusFilePathEnv)) ;;
  wrap (prefix_error "could not read health status file: ") (lift (readAgentHealthStatus f)).

(** The loop over the ticks; [fuel] bounds their number. *)
Fixpoint poll (fuel : nat) (totalTime : Z) : IO W agent.Health :=
  match fuel with
  | O => panic "out of fuel"
  | S fuel =>
      wait_tick ;;
      if totalTime >? pollingDuration then
        throw (TextError "agent health status not ready after waiting 1m0s")
      else
        let totalTime := totalTime + pollingInterval in
        h <- getAgentHealthStatus ;;
        match agent.Healthiness h !! getHostname with
        | None => throw (TextError ("couldn't find status for hostname " +:+ getHostname))
        | Some status => if negb (agent.ph_IsInGoalState status) then ret h else poll fuel totalTime
        end
  end.
Definition waitForAgentHealthStatus : IO W agent.Health := poll 62 0.

Fixpoint any_version_change (moves : list (option agent.MoveStatus)) : outcome bool :=
  match moves with
  | [] => Ret false
  | None :: _ => Panic "nil pointer dereference"
  | Some m :: rest => if bool_decide (agent.ms_Move m = "ChangeVersion") then Ret true else any_version_change rest
  end.
Definition isWaitingToBeDeleted (healthStatus : agent.MmsDirectorStatus) : outcome bool :=
  match last (agent.ds_Plans healthStatus) with
  | None => Ret false
  | Some None => Panic "nil pointer dereference"
  | Some (Some lastPlan) => any_version_change (agent.ps_Moves lastPlan)
  end.

Definition shouldDeletePod (h : agent.Health) : outcome bool :=
  match agent.ProcessPlans h !! getHostname with
  | None => Err (TextError ("hostname " +:+ getHostname +:+ " was not in the process plans"))
  | Some status => isWaitingToBeDeleted status
  end.

Definition getNamespace : IO W string :=
  file <- os_Open "/var/run/secrets/kubernetes.io/serviceaccount/namespace" ;;
  data <- lift file ;;
  let ns := TrimSpace data in
  ret (if bool_decide (ns = "") then defaultNamespace else ns).

Definition getThisPod : IO W NamespacedName :=
  let podName := getHostname in
  if bool_decide (podName = "") then throw (TextError "environment variable HOSTNAME was not present")
  else
    ns <- wrap (prefix_error "could not read namespace: ") getNamespace ;;
    ret (MkNamespacedName podName ns).

Definition inClusterClient : IO W unit :=
  wrap (prefix_error "could not get cluster config: ") rest_InClusterConfig ;;
  wrap (prefix_error "could not create client: ") client_New.

Definition deletePod : IO W unit :=
  thisPod <- wrap (prefix_error "could not get pod: ") getThisPod ;;
  wrap (prefix_error "could not get client: ") inClusterClient ;;
  wrap (prefix_error "could not delete pod: ") (Delete KPod thisPod).

(** Errors are logged; the error of [waitForAgentHealthStatus] is never one for which
    [os.IsNotExist] holds, since it was made by [errors.Errorf], but both cases
    return. *)
Definition versionhook_main : IO W hook_end :=
  if bool_decide (Getenv agentStatusFilePathEnv = "") then ret HookFatal
  else
    r <- attempt waitForAgentHealthStatus ;;
    match r with
    | inr _ => ret MongodStarts
    | inl h =>
        r <- attempt (lift (shouldDeletePod h)) ;;
        match r with
        | inl true => attempt deletePod ;; ret WaitsToBeKilled
        | _ => ret MongodStarts
        end
    end.
End Hook.

(** ** What the hook does *)

(** The ticker counts, files are read, and neither touches the cluster or panics. *)
Class HookFrame {api : K8sApi} (W : Type) `{!KubeClient W, !Files W, !Ticker W, !InCluster W} := {
  ticks : W → nat;
  wait_tick_law : ∀ (w : W) r w', wait_tick w = (r, w') → r = Ret () ∧ cluster w' = cluster w ∧ ticks w' = S (ticks w);
  os_Open_law : ∀ path (w : W) r w', os_Open path w = (r, w') →
    cluster w' = cluster w ∧ ticks w' = ticks w ∧ (∀ s, r ≠ Panic s) ∧ ∀ f, r = Ret f → ∀ s, f ≠ Panic s;
  InClusterConfig_law : ∀ (w : W) r w', rest_InClusterConfig w = (r, w') → cluster w' = cluster w ∧ ∀ s, r ≠ Panic s;
  client_New_law : ∀ (w : W) r w', client_New w = (r, w') → cluster w' = cluster w ∧ ∀ s, r ≠ Panic s;
}.

Section Facts.
Context {api : K8sApi} `{!Environ}.
Context {W : Type} `{!KubeClient W, !KubeLaws W, !Files W, !Ticker W, !InCluster W, !HookFrame W}.

(** The process of this pod is at work on a plan. *)
Definition at_work (h : agent.Health) : Prop :=
  ∃ status, agent.Healthiness h !! getHostname = Some status ∧ agent.ph_IsInGoalState status = false.

Lemma wrap_out {A} g (m : IO W A) w r w' : wrap g m w = (r, w') → ∃ o, m w = (o, w') ∧
  match o with Ret a => r = Ret a | Err e => r = Err (TextError (g (err_text e))) | Panic s => r = Panic s end.
Proof. unfold wrap. destruct (m w) as [[a|e|s] w1]; intros [= <- <-]; by eexists. Qed.

Lemma getAgentHealthStatus_out (w : W) r w' :
  getAgentHealthStatus w = (r, w') → cluster w' = cluster w ∧ ticks w' = ticks w ∧ ∀ s, r ≠ Panic s.
Proof.
  unfold getAgentHealthStatus. intros E.
  apply bind_inv in E as [(f & w1 & E1 & E2)|[(e & E1 & ->)|(s & E1 & ->)]];
    apply wrap_out in E1 as (o & (HC & Ht & Hp & Hf)%os_Open_law & Eo).
  - destruct o as [f'|e|s]; [|done|done]. injection Eo as <-. specialize (Hf f eq_refl).
    apply wrap_out in E2 as (o & [= <- <-] & Eo). split_and!; [done..|]. unfold readAgentHealthStatus in Eo.
    destruct f as [data|e|s]; cbn in Eo; [|by subst|by destruct (Hf s)].
    destruct (_ ≫= _); by subst.
  - by split_and!.
  - exfalso. destruct o as [?|?|s']; [done|done|]. by destruct (Hp s').
Qed.

(** Before the [n]-th tick, [n] reads are done. *)
Lemma poll_out n : ∀ fuel total (w : W) r w',
  total = Z.of_nat n * pollingInterval → (fuel + n = 62)%nat → (n ≤ 61)%nat → poll fuel total w = (r, w') →
  cluster w' = cluster w ∧ (ticks w < ticks w' ≤ ticks w + fuel)%nat
  ∧ match r with Ret h => at_work h | Err _ => True | Panic _ => False end.
Proof.
  intros fuel. revert n. induction fuel as [|fuel IH]; intros n total w r w' Htot Hfuel Hn E; [lia|].
  cbn [poll] in E. apply bind_inv in E as [([] & w1 & E1 & E)|[(e & E1 & ->)|(s & E1 & ->)]];
    apply wait_tick_law in E1 as (Hr & HC1 & Ht1); [|done..].
  destruct (total >? pollingDuration) eqn:Hgt; [injection E as <- <-; rewrite HC1, Ht1; split_and!; [done|lia|lia|done]|].
  apply bind_inv in E as [(h & w2 & E2 & E)|[(e & E2 & ->)|(s & E2 & ->)]];
    apply getAgentHealthStatus_out in E2 as (HC2 & Ht2 & Hp); rewrite HC1 in HC2; rewrite Ht1 in Ht2.
  - destruct (agent.Healthiness h !! getHostname) as [status|] eqn:Hh;
      [|injection E as <- <-; rewrite HC2, Ht2; split_and!; [done|lia|lia|done]].
    destruct (agent.ph_IsInGoalState status) eqn:Hg; cbn [negb] in E;
      [|injection E as <- <-; rewrite HC2, Ht2; split_and!; [done|lia|lia|by exists status]].
    unfold pollingInterval, pollingDuration, time.Second in *.
    apply (IH (S n)) in E as (HC & Ht & Hr'); [|lia|lia|rewrite Z.gtb_ltb, Z.ltb_ge in Hgt; lia].
    rewrite HC, HC2. split_and!; [done|lia|lia|done].
  - rewrite HC2, Ht2. split_and!; [done|lia|lia|done].
  - by destruct (Hp s).
Qed.

Lemma waitForAgentHealthStatus_out (w : W) r w' :
  waitForAgentHealthStatus w = (r, w') →
  cluster w' = cluster w ∧ (ticks w < ticks w' ≤ ticks w + 62)%nat
  ∧ match r with Ret h => at_work h | Err _ => True | Panic _ => False end.
Proof. apply (poll_out 0); [done|done|lia]. Qed.

(** [C33] The wait for the agent ends: after at most 62 ticks of a second the hook either has a
    health file in which its process is at work on a plan, or an error - the file cannot be
    read, the process is not in it, or 61 reads found it in the goal state.  It never
    panics and writes nothing. *)
Theorem waitForAgentHealthStatus_spec (w : W) r w' :
  waitForAgentHealthStatus w = (r, w') →
  cluster w' = cluster w ∧ (ticks w < ticks w' ≤ ticks w + 62)%nat
  ∧ match r with Ret h => at_work h | Err _ => True | Panic _ => False end.
Proof. apply waitForAgentHealthStatus_out. Qed.

(** The last plan of this pod's process has a move that changes the version. *)
Definition changes_version (h : agent.Health) : Prop :=
  ∃ status plan m, agent.ProcessPlans h !! getHostname = Some status
    ∧ last (agent.ds_Plans status) = Some (Some plan)
    ∧ Some m ∈ agent.ps_Moves plan ∧ agent.ms_Move m = "ChangeVersion".

Lemma any_version_change_true moves :
  any_version_change moves = Ret true → ∃ m, Some m ∈ moves ∧ agent.ms_Move m = "ChangeVersion".
Proof.
  induction moves as [|[m|] moves IH]; cbn; [done| |done].
  case_bool_decide as Hm; [intros _; exists m; split; [constructor|done]|].
  intros (m' & Hin & Hm')%IH. exists m'. split; [by constructor|done].
Qed.

Lemma any_version_change_false moves m :
  any_version_change moves = Ret false → Some m ∈ moves → agent.ms_Move m ≠ "ChangeVersion".
Proof.
  induction moves as [|[m'|] moves IH]; cbn; [by intros _ ?%elem_of_nil| |done].
  case_bool_decide as Hm; [done|]. intros E [[= ->]|Hin]%elem_of_cons; [done|by apply IH].
Qed.

Lemma shouldDeletePod_true h : shouldDeletePod h = Ret true → changes_version h.
Proof.
  unfold shouldDeletePod, isWaitingToBeDeleted, changes_version.
  destruct (agent.ProcessPlans h !! getHostname) as [status|]; [|done].
  destruct (last _) as [[plan|]|] eqn:Hl; [|done..]. intros (m & Hin & Hm)%any_version_change_true. eauto 10.
Qed.
Lemma shouldDeletePod_other h r :
  shouldDeletePod h = r → r ≠ Ret true → (∀ s, r ≠ Panic s) → ¬ changes_version h.
Proof.
  unfold shouldDeletePod, isWaitingToBeDeleted. intros <- Hr Hp (status & plan & m & Hs & Hl & Hin & Hm).
  rewrite Hs, Hl in *. destruct (any_version_change _) as [[]|e|s] eqn:E; [done| | |by destruct (Hp s)].
  - by apply (any_version_change_false _ m) in E.
  - clear -E. induction (agent.ps_Moves plan) as [|[m1|] l IH]; cbn in E; [done| |done]. case_bool_decide; [done|by apply IH].
Qed.

(** Computations that only look. *)
Definition looks {A} (m : IO W A) : Prop := ∀ w r w', m w = (r, w') → cluster w' = cluster w.
Lemma looks_bind {A B} (m : IO W A) (f : A → IO W B) : looks m → (∀ a, looks (f a)) → looks (bind m f).
Proof.
  intros Hm Hf w r w' E. apply bind_inv in E as [(a & w1 & E1 & E2)|[(e & E1 & ->)|(s & E1 & ->)]];
    apply Hm in E1; [|done..]. apply Hf in E2. congruence.
Qed.
Lemma looks_wrap {A} g (m : IO W A) : looks m → looks (wrap g m).
Proof. intros Hm w r w' (o & E & _)%wrap_out. by apply Hm in E. Qed.
Lemma looks_lift {A} (o : outcome A) : looks (lift o).
Proof. by intros w r w' [= _ <-]. Qed.

Lemma looks_getThisPod : looks getThisPod.
Proof.
  unfold getThisPod, getNamespace. case_bool_decide; [by intros w r w' [= _ <-]|].
  apply looks_bind; [|intros; by apply (looks_lift (Ret _))]. apply looks_wrap, looks_bind.
  - by intros w r w' (? & _)%os_Open_law.
  - intros f. apply looks_bind; [apply looks_lift|]. intros data. apply (looks_lift (Ret _)).
Qed.
(** The namespace a pod is in, which Kubernetes mounts into it; "default" if the file is
    blank. *)
Definition service_account_namespace (w : W) (ns : string) : Prop :=
  ∃ data w', os_Open "/var/run/secrets/kubernetes.io/serviceaccount/namespace" w = (Ret (Ret data), w')
    ∧ (TrimSpace data = "" → ns = "default") ∧ (TrimSpace data ≠ "" → ns = TrimSpace data).
(** The pod the hook runs in. *)
Definition own_pod (w : W) (n : NamespacedName) : Prop :=
  nn_Name n = Getenv "HOSTNAME" ∧ nn_Name n ≠ "" ∧ service_account_namespace w (nn_Namespace n).

Lemma getThisPod_Ret (w : W) n w' : getThisPod w = (Ret n, w') → own_pod w n.
Proof.
  unfold getThisPod, own_pod. case_bool_decide; [done|]. intros E.
  apply bind_Ret_inv in E as (ns & w1 & E%wrap_Ret_inv & [= <- _]). split_and!; [done..|].
  unfold getNamespace in E. apply bind_Ret_inv in E as (f & w2 & Ef & E).
  apply bind_Ret_inv in E as (data & w3 & [= -> _] & [= <- _]). exists data, w2. split; [done|].
  case_bool_decide; by split.
Qed.
Lemma looks_inClusterClient : looks inClusterClient.
Proof.
  apply looks_bind; [|intros _]; apply looks_wrap; intros w r w' E;
    [by apply InClusterConfig_law in E as [? _]|by apply client_New_law in E as [? _]].
Qed.

Lemma deletePod_out (w : W) r w' :
  deletePod w = (r, w') →
  cluster w' = cluster w ∨ ∃ n, own_pod w n ∧ cluster w' = remove (cluster w) KPod n.
Proof.
  unfold deletePod. intros E.
  apply bind_inv in E as [(n & w1 & E1 & E)|[(e & E1 & ->)|(s & E1 & ->)]];
    pose proof (looks_wrap _ _ looks_getThisPod _ _ _ E1) as HC1; [|by left..].
  apply wrap_Ret_inv in E1. apply getThisPod_Ret in E1.
  apply bind_inv in E as [([] & w2 & E2 & E)|[(e & E2 & ->)|(s & E2 & ->)]];
    pose proof (looks_wrap _ _ looks_inClusterClient _ _ _ E2) as HC2; rewrite HC1 in HC2; [|by left..].
  apply wrap_out in E as (o & E & _). apply Delete_law in E. rewrite HC2 in E.
  destruct o; [|by left|done]. right. by exists n.
Qed.

(** [C32] The hook kills no pod but its own, and only for an upgrade: when it is told where
    the health file is, it ends up waiting to be killed exactly when the agent is at work
    on a plan that changes the version of this pod's process, and then at most one pod
    was deleted, the one of its own host name in the namespace its service account file
    names when the wait is over; in every other case mongod starts and nothing was
    changed. *)
Theorem versionhook_spec (w : W) e w' :
  versionhook_main w = (Ret e, w') →
  if bool_decide (Getenv agentStatusFilePathEnv = "") then e = HookFatal ∧ w' = w
  else ∃ r w1, waitForAgentHealthStatus w = (r, w1) ∧
    ((e = WaitsToBeKilled ∧ (∃ h, r = Ret h ∧ at_work h ∧ changes_version h)
      ∧ (cluster w' = cluster w ∨ ∃ n, own_pod w1 n ∧ cluster w' = remove (cluster w) KPod n))
     ∨ (e = MongodStarts ∧ (∀ h, r = Ret h → ¬ changes_version h) ∧ cluster w' = cluster w)).
Proof.
  unfold versionhook_main. case_bool_decide; [by intros [= <- <-]|]. intros E.
  apply bind_Ret_inv in E as (o & w1 & E1 & E). destruct (attempt_out _ _ _ _ E1) as [r Er].
  exists r, w1. split; [done|]. pose proof (waitForAgentHealthStatus_out _ _ _ Er) as (HC1 & _ & Hr).
  unfold attempt in E1. rewrite Er in E1. destruct r as [h|x|s]; simplify_eq; [|injection E as <- <-; by right].
  apply bind_Ret_inv in E as (o & w2 & E2 & E). unfold attempt, lift in E2.
  assert (∀ b, shouldDeletePod h = b → b ≠ Ret true → (∀ s, b ≠ Panic s) →
    ∀ h', Ret h = Ret h' → ¬ changes_version h') as Hother by (intros b Hb ? ? h' [= <-]; by apply (shouldDeletePod_other h b)).
  destruct (shouldDeletePod h) as [[]|x|s] eqn:Hd; simplify_eq; [left|injection E as <- <-; right; split_and!; eauto..].
  apply bind_Ret_inv in E as (x & w3 & E3 & [= <- <-]).
  destruct (attempt_out _ _ _ _ E3) as [r3 E3']. apply deletePod_out in E3'. rewrite HC1 in E3'.
  split; [done|]. split; [|done]. exists h. split_and!; [done..|by apply shouldDeletePod_true].
Qed.
End Facts.
