(* ===== verification/PodRuns.v ===== *)
(** * Concrete runs inside a pod

    A world for the programs that run in a database pod - the in-memory cluster, a clock,
    a ticker and a health file that changes over time - and runs of the probe and
    the hook at which the theorems about them apply. *)
From S2P Require Import Prelude GoStd K8s MergeByKey Merge Scale Json Codec ScramCreds ACTypes Types Kube KubeOps KubeFacts.
From S2P Require Import ACBuilder ACSecret Agent PodMods Health Readiness Frames ReadinessFacts VersionHook.
Local Open Scope Z_scope.

(** ** The world *)

Record side := MkSide { clock : time.Time; ticked : nat; file_at : nat → string → option string }.
Definition pod_world : Type := @cluster_state string_api * side.

#[export] Instance pod_clock : Clock pod_world := λ w, (Ret (clock w.2), w).
#[export] Instance pod_clock_frame : @ClockFrame string_api pod_world beside_client pod_clock.
Proof. by intros w r w' [= _ <-]. Qed.

#[export] Instance pod_files : Files pod_world := λ path w,
  match file_at w.2 (ticked w.2) path with
  | Some s => (Ret (Ret s), w)
  | None => (Err (TextError "no such file or directory"), w)
  end.
#[export] Instance pod_ticker : Ticker pod_world := λ w,
  (Ret (), (w.1, MkSide (time.Add (clock w.2) time.Second) (S (ticked w.2)) (file_at w.2))).
#[export] Instance pod_in_cluster : InCluster pod_world := {| rest_InClusterConfig := ret (); client_New := ret () |}.

#[export, program] Instance pod_hook_frame : HookFrame (api := string_api) pod_world := {| ticks w := ticked w.2 |}.
Next Obligation. by intros w r w' [= <- <-]. Qed.
Next Obligation.
  intros path w r w'. unfold os_Open, pod_files. destruct (file_at _ _ _); intros [= <- <-]; split_and!; try done.
  by intros f [= <-].
Qed.
Next Obligation. by intros w r w' [= <- <-]. Qed.
Next Obligation. by intros w r w' [= <- <-]. Qed.

(** The API server applies the patch it is sent. *)
#[export] Instance pod_patch : PodPatch (api := string_api) pod_world := λ n data w,
  match stored (cluster w) KPod n, parse_json data ≫= of_json (A := list patchValue) with
  | Some p, Some ps =>
      match add_annotations (om_Annotations (pod_ObjectMeta p)) ps with
      | Some anns => let p' := set_annotations KPod p anns in (Ret p', (put (cluster w) KPod p', w.2))
      | None => (Err (TextError "invalid patch"), w)
      end
  | None, _ => (Err notFoundError, w)
  | _, None => (Err (TextError "invalid patch"), w)
  end.
#[export] Instance pod_patch_laws : PodPatchLaws (api := string_api) pod_world.
Proof.
  intros n ps w r w' Hwf. unfold patch_pod, pod_patch. rewrite parse_print_json. cbn [mbind option_bind].
  rewrite of_to_json by done. destruct (stored (cluster w) KPod n) as [p|]; [|by intros [= <- <-]].
  destruct (add_annotations _ ps) as [anns|] eqn:Ha; intros [= <- <-]; [|done].
  exists p. split; [done|]. intros anns' H. rewrite H in Ha. by injection Ha as <-.
Qed.

Definition pod_environ : Environ := λ name,
  (list_to_map [("HEADLESS_AGENT", "true"); ("HOSTNAME", "mdb-0"); ("AGENT_STATUS_FILEPATH", "/health.json")]
    : gmap string string) !! name.
Definition integer_cast : CastAny := λ j, match j with JNum z => z | _ => 0 end.
Lemma integer_cast_ok : @CastAnyOk integer_cast.
Proof. by intros z _. Qed.

#[local] Existing Instances string_api pod_environ integer_cast integer_cast_ok decimal_cast decimal_cast_ok canonical_order.

(** ** The probe *)

Definition stored_ac : AutomationConfig := emptyAutomationConfig <| ac_Version := 5 |>.
Definition config_secret : Secret :=
  secret.Build (secret.SetField ConfigKey (Marshal stored_ac) (secret.SetNamespace "ns" (secret.SetName "mdb-config" secret.Builder))).
Definition pod_cluster : @cluster_state string_api :=
  put (put empty_cluster KSecret config_secret) KPod (agent_pod 0 "4").

(** The agent waits for the other members since the given second. *)
Definition waiting_step : json :=
  JObj [("step", JStr "WaitRsInit"); ("started", JStr "2019-09-11T07:59:02.026Z"); ("completed", JNull)].
Definition waiting_plan : json :=
  JObj [("started", JStr "2019-09-11T07:58:43Z"); ("completed", JNull);
        ("moves", JArr [JObj [("move", JStr "WaitRsInit"); ("steps", JArr [waiting_step])]])].
Definition at_work_json : json :=
  JObj [("IsInGoalState", JBool false); ("ExpectedToBeUp", JBool true); ("LastMongoUpTime", JNum 1568188790)].
Definition health_text (process : json) (version : Z) (plan : json) : string := print_json (JObj [
  ("statuses", JObj [("mdb-0", process)]);
  ("mmsStatus", JObj [("mdb-0",
     JObj [("name", JStr "mdb-0"); ("lastGoalVersionAchieved", JNum version); ("plans", JArr [plan])])])]).
Definition waiting_health : string := health_text at_work_json 4 waiting_plan.
Definition probe_conf (text : string) : config.Config := config.MkConfig "ns" "mdb-0" "mdb-config" (Ret text) "".
(** Sixteen seconds later. *)
Definition probe_world : pod_world := (pod_cluster, MkSide (time.Unix 1568188758) 0 (λ _ _, None)).

Lemma keys_ok_pod_cluster : keys_ok pod_cluster.
Proof. apply keys_ok_put, keys_ok_put. intros k n o. unfold stored, empty_cluster. by rewrite lookup_empty. Qed.

Definition waiting_status : health.Status :=
  match parseHealthStatus (Ret waiting_health) with Ret h => h | _ => health.MkStatus ∅ ∅ end.

(** The agent has reached version 4 of 5 and waits for its peers: the pod is ready, and
    the operator still sees version 4. *)
Lemma probe_informs_operator_witness :
  ∃ w', isPodReady (probe_conf waiting_health) probe_world = (Ret true, w') ∧
  ∃ h p, parseHealthStatus (Ret waiting_health) = Ret h
    ∧ agent_reports h (ac_Version stored_ac) 4
    ∧ stored (cluster w') KPod (MkNamespacedName "mdb-0" "ns") = Some (annotated p 4)
    ∧ ReachedGoalState (annotated p 4) (ac_Version stored_ac) = false
    ∧ waits_for_members h (clock probe_world.2).
Proof.
  destruct (isPodReady (probe_conf waiting_health) probe_world) as [r w'] eqn:E.
  assert (r = Ret true ∧ clock w'.2 = clock probe_world.2) as [-> Hclock]
    by (rewrite <- (f_equal fst E : _ = r), <- (f_equal snd E : _ = w'); split; vm_compute; reflexivity).
  exists w'. split; [reflexivity|].
  destruct (probe_informs_operator (KubeClient0 := beside_client) (Clock0 := pod_clock) (PodPatch0 := pod_patch)
    (H2 := decimal_cast) (H4 := canonical_order) (H0 := integer_cast) (probe_conf waiting_health) stored_ac
    config_secret probe_world true w') as (h & p & reached & Hp & Hpod & Hr & _ & Hs & Hgoal & Hready);
    [reflexivity | apply keys_ok_pod_cluster | vm_compute; reflexivity | vm_compute; reflexivity | cbn; lia | exact E |].
  assert (map (λ kv, health.ds_LastGoalStateClusterConfigVersion kv.2) (map_to_list (health.ProcessPlans h)) = [4]) as H4.
  { assert (parseHealthStatus (Ret waiting_health) = Ret h) as Hp' by exact Hp.
    replace h with waiting_status by (unfold waiting_status; rewrite Hp'; reflexivity). vm_compute. reflexivity. }
  assert (reached = 4) as ->.
  { destruct Hr as [(k & d & Hd & ->)|(He & _)]; [|rewrite He, map_to_list_empty in H4; discriminate H4].
    apply elem_of_map_to_list, (list_elem_of_fmap_2 (λ kv, health.ds_LastGoalStateClusterConfigVersion kv.2)) in Hd.
    apply list_elem_of_singleton. rewrite <- H4. exact Hd. }
  exists h, p. split; [exact Hp|]. split; [exact Hr|]. split; [exact Hs|].
  split; [apply not_true_iff_false; intros Hg%Hgoal; discriminate Hg|].
  destruct Hready as (w3 & _ & Hready); [discriminate|]. destruct (proj1 Hready eq_refl) as (now & Hnow & Hw).
  assert (now = clock w'.2) as -> by (clear -Hnow; injection Hnow as <- <-; reflexivity). rewrite <- Hclock. exact Hw.
Defined.

(** A config without a version reads as version -1, without an error, which is also what an
    agent reports that has not applied any config yet: the pod counts as ready. *)
Definition empty_config_world : pod_world :=
  (put pod_cluster KSecret (secret.Build (secret.SetField ConfigKey "{}" (secret.SetNamespace "ns" (secret.SetName "mdb-config" secret.Builder)))),
   MkSide (time.Unix 1568188791) 0 (λ _ _, None)).
Lemma config_without_version_is_ready :
  (ReadAutomationConfigVersionFromSecret "ns" "mdb-config" empty_config_world).1 = Ret (-1)
  ∧ (isPodReady (probe_conf (health_text at_work_json (-1) waiting_plan)) empty_config_world).1 = Ret true.
Proof. split; vm_compute; reflexivity. Qed.

Lemma hasDeadlockedSteps_spec_witness :
  let run := hasDeadlockedSteps waiting_status probe_world in
  run.1 = Ret true
  ∧ (cluster run.2 = cluster probe_world
     ∧ (true = true ↔ ∃ now, Now probe_world = (Ret now, run.2) ∧ waits_for_members waiting_status now)).
Proof.
  intros run. assert (run.1 = Ret true) as E by (vm_compute; reflexivity). split; [exact E|].
  apply (hasDeadlockedSteps_spec (KubeClient0 := beside_client) waiting_status probe_world true run.2). by apply run_pair.
Defined.

(** ** The hook *)

Definition idle_json : json :=
  JObj [("IsInGoalState", JBool true); ("ExpectedToBeUp", JBool true); ("LastMongoUpTime", JNum 1568188790)].
Definition upgrade_plan : json := JObj [("moves", JArr [JObj [("move", JStr "Stop")]; JObj [("move", JStr "ChangeVersion")]])].
(** The agent starts to work on its plan after three seconds. *)
Definition hook_files (n : nat) (path : string) : option string :=
  if bool_decide (path = "/health.json")
  then Some (health_text (if (n <=? 3)%nat then idle_json else at_work_json) 4 upgrade_plan)
  else Some "ns".
Definition hook_world : pod_world := (pod_cluster, MkSide 0 0 hook_files).

Lemma waitForAgentHealthStatus_spec_witness :
  let run := waitForAgentHealthStatus hook_world in
  ticked run.2.2 = 4%nat
  ∧ cluster run.2 = cluster hook_world ∧ (0 < ticks run.2 ≤ 0 + 62)%nat
  ∧ match run.1 with Ret h => at_work h | Err _ => True | Panic _ => False end.
Proof.
  intros run. split; [vm_compute; reflexivity|].
  apply (waitForAgentHealthStatus_spec (KubeClient0 := beside_client) (HookFrame0 := pod_hook_frame) hook_world). apply surjective_pairing.
Defined.

Lemma versionhook_spec_witness :
  ∃ w', versionhook_main hook_world = (Ret WaitsToBeKilled, w')
  ∧ stored (cluster hook_world) KPod (MkNamespacedName "mdb-0" "ns") ≠ None
  ∧ stored (cluster w') KPod (MkNamespacedName "mdb-0" "ns") = None
  ∧ ∃ h w1 n, waitForAgentHealthStatus hook_world = (Ret h, w1) ∧ at_work h ∧ changes_version h
      ∧ own_pod w1 n ∧ cluster w' = remove (cluster hook_world) KPod n.
Proof.
  destruct (versionhook_main hook_world) as [r w'] eqn:E.
  assert (r = Ret WaitsToBeKilled) as -> by (apply (f_equal fst) in E; cbn [fst] in E; rewrite <- E; vm_compute; reflexivity).
  assert (stored (cluster w') KPod (MkNamespacedName "mdb-0" "ns") = None) as Hs
    by (apply (f_equal snd) in E; cbn [snd] in E; rewrite <- E; vm_compute; reflexivity).
  assert (stored (cluster hook_world) KPod (MkNamespacedName "mdb-0" "ns") ≠ None) as Hbefore by (vm_compute; discriminate).
  exists w'. split; [reflexivity|]. split; [exact Hbefore|]. split; [exact Hs|].
  pose proof (versionhook_spec (KubeClient0 := beside_client) (HookFrame0 := pod_hook_frame) hook_world WaitsToBeKilled w' E) as H.
  rewrite bool_decide_false in H by discriminate.
  destruct H as (r & w1 & Hr & [(_ & (h & -> & Hw & Hc) & Hn)|(H & _)]); [|discriminate H].
  destruct Hn as [Hsame|(n & Hn & Hrm)]; [destruct Hbefore; rewrite <- Hs; f_equal; symmetry; exact Hsame|].
  exists h, w1, n. split; [exact Hr|]. split; [exact Hw|]. split; [exact Hc|]. split; [exact Hn | exact Hrm].
Defined.
