(* ===== verification/ReconcilerFrames.v ===== *)
(** * The objects a reconciliation writes

    The frame rules of every step of the reconciler, up to the isolation of
    resources in different namespaces. *)
From S2P Require Import Prelude GoStd K8s MergeByKey Merge Scale Json Codec Hashes Base64 ScramCreds ACTypes.
From S2P Require Import ACBuilder Types Kube KubeOps KubeFacts ACSecret Scram ScramFacts Validation Status Watch.
From S2P Require Import Agent SpecJson PodMods StsMods Construct Tls TlsFacts Reconciler Frames.
Local Open Scope Z_scope.
#[export] Hint Resolve writes_Get : frames.

Section Components.
Context {api : K8sApi} {W : Type} `{!KubeClient W, !KubeLaws W, !Entropy W, !EntropyFrame W, !HasWatcher W, !WatcherFrame W}.
Context (P : kind → NamespacedName → Prop).

(** ** Packages secret, statefulset and annotations *)

Lemma writes_GetSecret n : writes (W := W) P (GetSecret n) (λ s, key_of KSecret s = n).
Proof. apply (writes_Get P KSecret). Qed.
Lemma writes_GetStatefulSet n : writes (W := W) P (GetStatefulSet n) (λ s, key_of KStatefulSet s = n).
Proof. apply (writes_Get P KStatefulSet). Qed.
Lemma writes_GetConfigMap n : writes (W := W) P (GetConfigMap n) any.
Proof. eapply writes_any, (writes_Get P KConfigMap). Qed.
Lemma writes_GetPod n : writes (W := W) P (GetPod n) any.
Proof. eapply writes_any, (writes_Get P KPod). Qed.
Lemma writes_CreateSecret s : P KSecret (key_of KSecret s) → writes (W := W) P (CreateSecret s) any.
Proof. by apply (writes_Create P KSecret). Qed.
Lemma writes_CreateService s : P KService (key_of KService s) → writes (W := W) P (CreateService s) any.
Proof. by apply (writes_Create P KService). Qed.
Lemma writes_UpdateSecret s : P KSecret (key_of KSecret s) → writes (W := W) P (UpdateSecret s) any.
Proof. intros HP. unfold UpdateSecret. frames. by apply (writes_Update P KSecret). Qed.
End Components.
#[export] Hint Resolve writes_GetSecret writes_GetStatefulSet writes_GetConfigMap writes_GetPod writes_CreateSecret
  writes_CreateService writes_UpdateSecret : frames.

Section Secrets.
Context {api : K8sApi} {W : Type} `{!KubeClient W, !KubeLaws W, !Entropy W, !EntropyFrame W, !HasWatcher W, !WatcherFrame W}.
Context (P : kind → NamespacedName → Prop).

Lemma writes_secret_ReadKey key n : writes (W := W) P (secret.ReadKey key n) any.
Proof. unfold secret.ReadKey, secret.ReadStringData. frames. Qed.
Lemma writes_secret_ReadStringData n : writes (W := W) P (secret.ReadStringData n) any.
Proof. unfold secret.ReadStringData. frames. Qed.
Lemma writes_configmap_ReadData n : writes (W := W) P (configmap.ReadData n) any.
Proof. unfold configmap.ReadData. frames. Qed.
Lemma writes_secret_CreateOrUpdate s :
  P KSecret (key_of KSecret s) → writes (W := W) P (secret.CreateOrUpdate s) any.
Proof. intros HP. unfold secret.CreateOrUpdate. frames. Qed.
Lemma writes_EnsureSecretWithKey n refs key value :
  P KSecret n → writes (W := W) P (secret.EnsureSecretWithKey n refs key value) any.
Proof. intros HP. unfold secret.EnsureSecretWithKey. frames. apply writes_CreateSecret. by destruct n. Qed.

(** ** Entropy and the watcher *)

Lemma writes_rand_Read n : writes (W := W) P (rand_Read n) any.
Proof. intros w r w' Hw E. apply rand_Read_cluster in E. rewrite E. by split_and!. Qed.
Lemma writes_slice_to n s : writes (W := W) P (slice_to n s) any.
Proof. unfold slice_to. intros w r w' Hw. destruct (n <=? String.length s)%nat; intros [= <- <-]; by split_and!. Qed.
Lemma writes_Watch a b : writes (W := W) P (secretWatcher_Watch a b) any.
Proof. intros w r w' Hw [= <- <-]. rewrite cluster_set_watched. by split_and!. Qed.
End Secrets.
#[export] Hint Resolve writes_secret_ReadKey writes_secret_ReadStringData writes_configmap_ReadData
  writes_secret_CreateOrUpdate writes_EnsureSecretWithKey writes_rand_Read writes_slice_to writes_Watch : frames.

Section Generated.
Context {api : K8sApi} {W : Type} `{!KubeClient W, !KubeLaws W, !Entropy W, !EntropyFrame W, !Stringprep}.
Context (P : kind → NamespacedName → Prop).

Lemma writes_RandomFixedLengthStringOfSize n : writes (W := W) P (RandomFixedLengthStringOfSize n) any.
Proof. unfold RandomFixedLengthStringOfSize, generateRandomBytes. frames. Qed.
Lemma writes_KeyFileContents : writes (W := W) P KeyFileContents any.
Proof. unfold KeyFileContents, generateRandomString, generateRandomBytes. frames. Qed.
Lemma writes_salt h : writes (W := W) P (salt h) any.
Proof. pose proof writes_RandomFixedLengthStringOfSize. unfold salt. frames. Qed.
Lemma writes_generate u p : writes (W := W) P (generateScramShaCredentials u p) any.
Proof. pose proof writes_salt. unfold generateScramShaCredentials, Salts. frames. Qed.

(** ** Package scram *)

Lemma writes_readExistingCredentials n name : writes (W := W) P (readExistingCredentials n name) any.
Proof. unfold readExistingCredentials. frames. Qed.
Lemma writes_needToGenerate u name n p : writes (W := W) P (needToGenerateNewCredentials u name n p) any.
Proof. pose proof writes_readExistingCredentials. unfold needToGenerateNewCredentials. frames. Qed.
Lemma writes_ensureScramCredentials user n :
  P KSecret (user_creds_key user n) → writes (W := W) P (ensureScramCredentials user n) any.
Proof.
  intros HP. pose proof writes_readExistingCredentials. pose proof writes_needToGenerate. pose proof writes_generate.
  unfold ensureScramCredentials, createScramCredentialsSecret. frames.
Qed.
Lemma writes_Enable auth mdb :
  (∀ u, u ∈ V1.GetScramUsers mdb → P KSecret (user_creds_key u (V1.NamespacedName_ mdb))) →
  (∀ n, n ∈ agent_keys mdb → P KSecret n) → writes (W := W) P (Enable auth mdb) any.
Proof.
  intros Hu Ha. pose proof writes_RandomFixedLengthStringOfSize. pose proof writes_KeyFileContents.
  assert (writes (W := W) P (convertMongoDBResourceUsersToAutomationConfigUsers mdb) any).
  { apply writes_map_each. intros u Hin. unfold convertMongoDBUserToAutomationConfigUser. frames.
    by apply writes_ensureScramCredentials, Hu. }
  unfold Enable. frames; apply writes_EnsureSecretWithKey, Ha; set_solver.
Qed.

(** ** The automation config secret *)

Lemma writes_ReadFromSecret n : writes (W := W) P (ReadFromSecret n) any.
Proof. unfold ReadFromSecret. frames. Qed.
Lemma writes_EnsureSecret n owner ac : P KSecret n → writes (W := W) P (EnsureSecret n owner ac) any.
Proof.
  intros HP. unfold EnsureSecret, createNewAutomationConfigSecret. frames.
  - subst n. by apply writes_UpdateSecret.
  - subst n. by apply writes_UpdateSecret.
  - apply writes_CreateSecret. by destruct n.
Qed.

(** ** Package agent *)

Lemma writes_check_pods `{!Cast} ns target names : ∀ l, writes (W := W) P (check_pods ns target names l) any.
Proof. induction names as [|name names IH]; intros l; cbn [check_pods]; frames. Qed.
Lemma writes_AllReachedGoalState `{!Cast} sts n target : writes (W := W) P (AllReachedGoalState sts n target) any.
Proof. pose proof writes_check_pods. unfold AllReachedGoalState. frames. Qed.
End Generated.
#[export] Hint Resolve writes_ReadFromSecret writes_EnsureSecret writes_AllReachedGoalState : frames.

Section Steps.
Context {api : K8sApi} `{!Semver, !Objx, !Mergo, !Cast, !Stringprep, !Environ, !Quantities, !MapOrder, !StsSpecJson}.
Context {W : Type} `{!KubeClient W, !KubeLaws W, !Entropy W, !EntropyFrame W, !HasWatcher W, !WatcherFrame W}.
Context (P : kind → NamespacedName → Prop).
Implicit Types mdb : V1.MongoDBCommunity.

(** ** The StatefulSet that is written *)

Lemma built_key mdb sts : key_of KStatefulSet (buildStatefulSetModificationFunction mdb sts) = V1.NamespacedName_ mdb.
Proof. reflexivity. Qed.
Lemma built_replicas mdb sts :
  ss_Replicas (sts_Spec (buildStatefulSetModificationFunction mdb sts)) =
  or_ptr (ss_Replicas (V1.spec_StatefulSetConfiguration (V1.mdb_Spec mdb)))
    (Some (int32 (V1.StatefulSetReplicasThisReconciliation mdb))).
Proof. reflexivity. Qed.
Lemma built_storable mdb sts : storable KStatefulSet (buildStatefulSetModificationFunction mdb sts).
Proof.
  unfold storable. rewrite built_replicas. unfold or_ptr. by destruct (ss_Replicas _).
Qed.

Lemma writes_sts_CreateOrUpdate mdb sts :
  P KStatefulSet (V1.NamespacedName_ mdb) →
  writes (W := W) P (statefulset.CreateOrUpdate (buildStatefulSetModificationFunction mdb sts)) any.
Proof.
  intros HP. unfold statefulset.CreateOrUpdate. frames.
  - by apply (writes_Update P KStatefulSet).
  - apply (writes_Create P KStatefulSet); [apply built_storable | done].
Qed.

Lemma writes_createOrUpdateStatefulSet mdb :
  P KStatefulSet (V1.NamespacedName_ mdb) → writes (W := W) P (createOrUpdateStatefulSet mdb) any.
Proof. intros HP. unfold createOrUpdateStatefulSet. frames; by apply writes_sts_CreateOrUpdate. Qed.
Lemma writes_deployStatefulSet mdb :
  P KStatefulSet (V1.NamespacedName_ mdb) → writes (W := W) P (deployStatefulSet mdb) any.
Proof. intros HP%writes_createOrUpdateStatefulSet. unfold deployStatefulSet. frames. Qed.
Lemma writes_ResetUpdateStrategy mdb :
  P KStatefulSet (V1.NamespacedName_ mdb) → writes (W := W) P (statefulset.ResetUpdateStrategy mdb) any.
Proof.
  intros HP. unfold statefulset.ResetUpdateStrategy, statefulset.GetAndUpdate. frames.
  apply (writes_Update P KStatefulSet). replace (key_of KStatefulSet _) with (V1.NamespacedName_ mdb); done.
Qed.

(** ** The secrets of a resource *)

Definition secrets_allowed mdb : Prop :=
  (∀ u, u ∈ V1.GetScramUsers mdb → P KSecret (user_creds_key u (V1.NamespacedName_ mdb)))
  ∧ (∀ n, n ∈ agent_keys mdb → P KSecret n)
  ∧ P KSecret (MkNamespacedName (V1.AutomationConfigSecretName mdb) (V1.Namespace mdb)).

Lemma writes_getCertAndKey mdb : writes (W := W) P (getCertAndKey mdb) any.
Proof. unfold getCertAndKey. frames. Qed.
Lemma writes_deployAutomationConfig mdb :
  secrets_allowed mdb → writes (W := W) P (deployAutomationConfig mdb) any.
Proof.
  intros (Hu & Ha & Hc). pose proof (writes_Enable P emptyAuth mdb Hu Ha). pose proof writes_getCertAndKey.
  assert (writes (W := W) P (ensureAutomationConfig mdb) any).
  { unfold ensureAutomationConfig, reconciler_buildAutomationConfig, getTLSConfigModification. frames. }
  unfold deployAutomationConfig. frames.
Qed.
Lemma writes_shouldRunInOrder mdb : writes (W := W) P (shouldRunInOrder mdb) any.
Proof. unfold shouldRunInOrder. frames. Qed.

Lemma writes_validateTLSConfig mdb : writes (W := W) P (validateTLSConfig mdb) any.
Proof. unfold validateTLSConfig. frames. Qed.
Lemma writes_ensureTLSResources mdb :
  P KSecret (V1.TLSOperatorSecretNamespacedName mdb) → writes (W := W) P (ensureTLSResources mdb) any.
Proof.
  intros HP. pose proof writes_getCertAndKey. unfold ensureTLSResources, ensureTLSSecret. frames.
Qed.
Lemma writes_ensureUserResources mdb : writes (W := W) P (ensureUserResources mdb) any.
Proof. apply writes_for_each. intros u _. unfold ensure_user_resource. frames. Qed.
Lemma writes_ensureService mdb : P KService (key_of KService (buildService mdb)) → writes (W := W) P (ensureService mdb) any.
Proof. intros HP. unfold ensureService. frames. Qed.

(** Only the status of the resource is assigned. *)
Definition keeps_key (options : list Option) : Prop :=
  Forall (λ o, ∀ m, key_of KMongoDB (ApplyOption o m) = key_of KMongoDB m) options.
Lemma apply_options_key options : ∀ mdb,
  keeps_key options → key_of KMongoDB (apply_options options mdb) = key_of KMongoDB mdb.
Proof.
  induction options as [|o options IH]; intros mdb Hk; [done|]. apply Forall_cons in Hk as [Ho Hk].
  unfold apply_options. cbn [foldl]. fold (apply_options options (ApplyOption o mdb)). by rewrite IH, Ho.
Qed.
Lemma keeps_key_nil : keeps_key statusOptions.
Proof. constructor. Qed.
Lemma keeps_key_snoc o options : (∀ m, key_of KMongoDB (ApplyOption o m) = key_of KMongoDB m) →
  keeps_key options → keeps_key (options ++ [o]).
Proof. intros Ho Hk. apply Forall_app. split; [done|]. by constructor. Qed.
Lemma keeps_key_message sev msg options : keeps_key options → keeps_key (withMessage sev msg options).
Proof. unfold withMessage. destruct (IsTransientMessage msg); by apply keeps_key_snoc. Qed.

Lemma writes_status_Update mdb options :
  P KMongoDB (key_of KMongoDB mdb) → keeps_key options →
  writes (W := W) P (status_Update mdb options) (λ r, r.1 = apply_options options mdb).
Proof.
  intros HP Hk. unfold status_Update. eapply writes_bind; [apply writes_UpdateStatus; by rewrite apply_options_key|].
  intros _ _. destruct (determineReconciliationResult options) as [res [e|]]; [apply writes_throw | by apply writes_ret].
Qed.
End Steps.
#[export] Hint Resolve keeps_key_nil keeps_key_message : frames.

(** ** A whole reconciliation *)

(** The lists of options [finish] applies. *)
Ltac options_keep_key :=
  repeat first [apply keeps_key_snoc; [done|] | apply keeps_key_message]; constructor.

Section Reconcile.
Context {api : K8sApi} `{!Semver, !Objx, !Mergo, !Cast, !Stringprep, !Environ, !Quantities, !MapOrder, !StsSpecJson}.
Context {W : Type} `{!KubeClient W, !KubeLaws W, !Entropy W, !EntropyFrame W, !HasWatcher W, !WatcherFrame W}.
Implicit Types mdb : V1.MongoDBCommunity.

(** The objects of one namespace. *)
Definition in_namespace (ns : string) (k : kind) (n : NamespacedName) : Prop := nn_Namespace n = ns.

Lemma writes_or_fail {A} P mdb text (step : IO W A) cont (Q : A → Prop) :
  P KMongoDB (key_of KMongoDB mdb) → writes P step Q → (∀ a, Q a → writes P (cont a) any) →
  writes P (or_fail mdb text step cont) any.
Proof.
  intros HP Hs Hc. unfold or_fail, fail_with, withFailedPhase, withPhase.
  eapply writes_bind; [by apply writes_attempt|]. intros [a|e] Ha; [by apply Hc|].
  eapply writes_bind; [apply writes_status_Update; [done|]; apply keeps_key_snoc; [done|]; auto with frames|].
  intros r _. by apply writes_ret.
Qed.
Lemma writes_pending P mdb msg : P KMongoDB (key_of KMongoDB mdb) → writes (W := W) P (pending_with mdb msg) any.
Proof.
  intros HP. unfold pending_with, withPendingPhase, withPhase.
  eapply writes_bind; [apply writes_status_Update; [done|]; apply keeps_key_snoc; [done|]; auto with frames|].
  intros r _. by apply writes_ret.
Qed.

Lemma writes_updateConnectionStringSecrets (P : kind → NamespacedName → Prop) mdb :
  (∀ u, u ∈ V1.GetScramUsers mdb → P KSecret (connection_key mdb u)) →
  writes (W := W) P (updateConnectionStringSecrets mdb) any.
Proof.
  intros HP. apply writes_for_each. intros u Hu. unfold update_connection_string. frames.
  by apply writes_secret_CreateOrUpdate, (HP u).
Qed.
Lemma writes_SetAnnotations P n (a : gmap string string) :
  P KMongoDB n → writes (W := W) P (annotations.SetAnnotations n a) any.
Proof.
  intros HP. unfold annotations.SetAnnotations. eapply writes_bind; [apply (writes_Get _ KMongoDB)|].
  intros o <-. by apply (writes_Patch _ KMongoDB).
Qed.

Lemma writes_finish P mdb :
  (∀ u, u ∈ V1.GetScramUsers mdb → P KSecret (connection_key mdb u)) → P KMongoDB (V1.NamespacedName_ mdb) →
  writes (W := W) P (finish mdb) any.
Proof.
  intros Hsecret Hown. unfold finish. destruct (Scale.IsStillScaling (V1.scaler mdb)).
  - eapply writes_bind; [apply writes_status_Update; [done|options_keep_key]|intros r _; by apply writes_ret].
  - eapply writes_bind; [apply writes_lift|]. intros uri _.
    eapply writes_bind; [apply writes_status_Update; [done|options_keep_key]|].
    intros [m res] Hm. cbn [fst] in Hm.
    assert (∃ st, m = mdb <| V1.mdb_Status := st |>) as [st ->].
    { subst m. unfold withMessage. destruct (IsTransientMessage ""); by eexists. }
    eapply writes_bind; [by apply writes_attempt, writes_updateConnectionStringSecrets|]. intros _ _.
    eapply writes_bind; [by apply writes_attempt, writes_SetAnnotations|]. intros _ _.
    by apply writes_ret.
Qed.

(** What a reconciliation of [mdb] writes: its service, its StatefulSet, secrets of its
    namespace, and the resource itself. *)
Record own_allowed (P : kind → NamespacedName → Prop) mdb : Prop := {
  own_service : P KService (key_of KService (buildService mdb));
  own_statefulset : P KStatefulSet (V1.NamespacedName_ mdb);
  own_secret : ∀ n, nn_Namespace n = V1.Namespace mdb → P KSecret n;
  own_resource : P KMongoDB (V1.NamespacedName_ mdb);
}.

Lemma own_secrets_allowed P mdb : own_allowed P mdb → secrets_allowed P mdb.
Proof.
  intros [_ _ Hs _]. split_and!; [intros u _; by apply Hs| |by apply Hs]. intros n.
  unfold agent_keys. rewrite !elem_of_cons, elem_of_nil. by intros [->|[->|[]]]; apply Hs.
Qed.

Lemma writes_deploy P mdb :
  secrets_allowed P mdb → P KStatefulSet (V1.NamespacedName_ mdb) →
  writes (W := W) P (deployMongoDBReplicaSet mdb) any.
Proof.
  intros Hs Hsts. pose proof (writes_deployAutomationConfig (W := W) _ mdb Hs).
  pose proof (writes_deployStatefulSet (W := W) _ mdb Hsts).
  unfold deployMongoDBReplicaSet. eapply writes_bind; [apply writes_shouldRunInOrder|]. intros [] _; cbn.
  - frames.
  - unfold Functions.runReversed. cbn. frames.
Qed.

Lemma writes_prepare_and_deploy P mdb : own_allowed P mdb → writes (W := W) P (prepare_and_deploy mdb) any.
Proof.
  intros HP. pose proof (own_secrets_allowed _ _ HP). destruct HP as [Hservice Hsts Hsecret Hown].
  unfold prepare_and_deploy.
  eapply writes_or_fail; [done|by apply writes_ensureService|]. intros _ _.
  eapply writes_or_fail; [done|apply writes_validateTLSConfig|]. intros [] _; cbn [negb]; [|by apply writes_pending].
  eapply writes_or_fail; [done|by apply writes_ensureTLSResources, Hsecret|]. intros _ _.
  eapply writes_or_fail; [done|apply writes_ensureUserResources|]. intros _ _. unfold deploy_and_finish.
  eapply writes_or_fail; [done|by apply writes_deploy|]. intros [] _; cbn [negb]; [|by apply writes_pending].
  eapply writes_or_fail; [done|by apply writes_ResetUpdateStrategy|]. intros _ _. apply writes_finish; [|done].
  intros u _. by apply Hsecret.
Qed.

Lemma writes_Reconcile_own P request :
  (∀ mdb, V1.NamespacedName_ mdb = request → own_allowed P mdb) → writes (W := W) P (Reconcile request) any.
Proof.
  intros HP. unfold Reconcile. eapply writes_bind; [apply writes_attempt, (writes_Get _ KMongoDB)|].
  intros [mdb|e]; [intros Hn|intros _; destruct (IsNotFound e); by apply writes_ret].
  specialize (HP mdb Hn). eapply writes_or_fail; [apply HP|apply writes_lift|]. intros _ _.
  by apply writes_prepare_and_deploy.
Qed.

Lemma namespace_own_allowed mdb : own_allowed (in_namespace (V1.Namespace mdb)) mdb.
Proof. by split. Qed.
Lemma writes_Reconcile request : writes (W := W) (in_namespace (nn_Namespace request)) (Reconcile request) any.
Proof. apply writes_Reconcile_own. intros mdb <-. apply namespace_own_allowed. Qed.

(** [C3] Reconciling a resource touches only its own namespace: whatever the outcome -
    success, a failed step, an API error or a panic - every object of another
    namespace is as it was, and the objects stay stored under their own keys. *)
Theorem Reconcile_isolation (request : NamespacedName) (w : W) r w' :
  keys_ok (cluster w) → Reconcile request w = (r, w') →
  keys_ok (cluster w')
  ∧ ∀ k n, nn_Namespace n ≠ nn_Namespace request → stored (cluster w') k n = stored (cluster w) k n.
Proof.
  intros Hw E. destruct (writes_Reconcile request w r w' Hw E) as (Hk & Hu & _). split; [done|].
  intros k n Hn. by apply Hu.
Qed.
End Reconcile.
