(* ===== verification/TriggerFacts.v ===== *)
(** * What a reconciliation writes does not trigger another one

    The controller is set up to reconcile a resource again when its spec changes
    (controllers/predicates).  A reconciliation writes the status and the annotations
    of its resource, and never a spec: neither its own, which would make the operator
    chase itself, nor that of another resource. *)
From S2P Require Import Prelude GoStd K8s MergeByKey Merge Scale Json Codec Hashes Base64 ScramCreds ACTypes.
From S2P Require Import ACBuilder Types SpecEq Kube KubeOps KubeFacts ACSecret Scram ScramFacts Validation Status Watch.
From S2P Require Import Agent SpecJson PodMods StsMods Construct Tls TlsFacts Reconciler Frames ReconcilerFrames.
Local Open Scope Z_scope.

(** The spec of a stored resource. *)
Definition spec_at {api : K8sApi} (c : cluster_state) (n : NamespacedName) : option V1.MongoDBCommunitySpec :=
  V1.mdb_Spec <$> stored c KMongoDB n.

(** The status endpoint does not change a spec that it is given as it is stored, and a
    patch of the annotations does not touch the spec. *)
Class SpecKept {api : K8sApi} `{!MapOrder} (W : Type) `{!KubeClient W} : Prop := {
  UpdateStatus_spec : ∀ m w w', UpdateStatus m w = (Ret (), w') →
    spec_at (cluster w) (V1.NamespacedName_ m) = Some (V1.mdb_Spec m) →
    spec_at (cluster w') (V1.NamespacedName_ m) = Some (V1.mdb_Spec m);
  Patch_spec : ∀ m anns w w',
    Patch KMongoDB m (print_json (to_json (annotations.payload (V1.GetAnnotations m) anns))) w = (Ret (), w') →
    stored (cluster w) KMongoDB (V1.NamespacedName_ m) = Some m →
    spec_at (cluster w') (V1.NamespacedName_ m) = Some (V1.mdb_Spec m);
}.

Section Facts.
Context {api : K8sApi} `{!Semver, !Objx, !Mergo, !Cast, !Stringprep, !Environ, !Quantities, !MapOrder, !StsSpecJson}.
Context {W : Type} `{!KubeClient W, !KubeLaws W, !SpecKept W, !Entropy W, !EntropyFrame W, !HasWatcher W, !WatcherFrame W}.
Implicit Types mdb : V1.MongoDBCommunity.

(** ** Computations that keep all specs *)

(** Run with the resource as it is stored, [m] keeps the spec of every resource. *)
Definition keeps_specs mdb {A} (m : IO W A) (Q : A → Prop) : Prop :=
  ∀ w r w', keys_ok (cluster w) → spec_at (cluster w) (V1.NamespacedName_ mdb) = Some (V1.mdb_Spec mdb) →
    m w = (r, w') →
    keys_ok (cluster w') ∧ (∀ n, spec_at (cluster w') n = spec_at (cluster w) n) ∧ (∀ a, r = Ret a → Q a).

Lemma keeps_writes mdb {A} P (m : IO W A) Q : writes P m Q → (∀ n, ¬ P KMongoDB n) → keeps_specs mdb m Q.
Proof.
  intros Hm HP w r w' Hw _ E. destruct (Hm _ _ _ Hw E) as (Hw' & Hu & HQ). split_and!; [done| |done].
  intros n. unfold spec_at. by rewrite Hu.
Qed.

Lemma keeps_bind mdb {A B} (m : IO W A) (f : A → IO W B) Q R :
  keeps_specs mdb m Q → (∀ a, Q a → keeps_specs mdb (f a) R) → keeps_specs mdb (bind m f) R.
Proof.
  intros Hm Hf w r w' Hw Hs E. apply bind_inv in E as [(a & w1 & E1 & E2)|[(e & E1 & ->)|(s & E1 & ->)]];
    destruct (Hm _ _ _ Hw Hs E1) as (Hw1 & Hk & HQ); [|by split_and!..].
  destruct (Hf a (HQ a eq_refl) w1 r w' Hw1) as (Hw2 & Hk2 & HR); [by rewrite Hk|done|].
  split_and!; [done| |done]. intros n. by rewrite Hk2, Hk.
Qed.
Lemma keeps_attempt mdb {A} (m : IO W A) Q :
  keeps_specs mdb m Q → keeps_specs mdb (attempt m) (λ r, match r with inl a => Q a | inr _ => True end).
Proof.
  intros Hm w r w' Hw Hs. unfold attempt. destruct (m w) as [r0 w1] eqn:E.
  destruct (Hm _ _ _ Hw Hs E) as (Hw1 & Hk & HQ).
  destruct r0; intros [= <- <-]; split_and!; try done; intros a' [= <-]; auto.
Qed.
Lemma keeps_ret mdb {A} (a : A) Q : Q a → keeps_specs mdb (ret a) Q.
Proof. intros Ha. eapply (keeps_writes mdb nothing); [by apply writes_ret | by intros n []]. Qed.

(** ** The status and the annotations *)

Lemma spec_at_put_other c mdb n : V1.NamespacedName_ mdb ≠ n → spec_at (put c KMongoDB mdb) n = spec_at c n.
Proof. intros Hn. unfold spec_at. by rewrite stored_put_other_key. Qed.

(** The options assign the status. *)
Definition only_status (options : list Option) : Prop :=
  Forall (λ o, ∃ f, ApplyOption o = set_status f) options.
Lemma apply_only_status options : only_status options → ∀ m, ∃ f, apply_options options m = set_status f m.
Proof.
  unfold apply_options. induction 1 as [|o options [f Hf] _ IH]; intros m; cbn [foldl].
  - exists id. by destruct m.
  - rewrite Hf. destruct (IH (set_status f m)) as [g ->]. by exists (λ st, g (f st)).
Qed.
Lemma only_status_snoc o options :
  (∃ f, ApplyOption o = set_status f) → only_status options → only_status (options ++ [o]).
Proof. intros Ho Hk. apply Forall_app. split; [done|]. by constructor. Qed.
Lemma only_status_message sev msg options : only_status options → only_status (withMessage sev msg options).
Proof. unfold withMessage. destruct (IsTransientMessage msg); apply only_status_snoc; by eexists. Qed.
Ltac options_only_status :=
  repeat first [apply only_status_message | apply only_status_snoc; [by eexists|]]; constructor.

Lemma keeps_status_Update mdb options :
  only_status options → keeps_specs mdb (status_Update (W := W) mdb options)
    (λ r, V1.NamespacedName_ r.1 = V1.NamespacedName_ mdb ∧ V1.mdb_Spec r.1 = V1.mdb_Spec mdb).
Proof.
  intros Ho. destruct (apply_only_status options Ho mdb) as [f Hf]. unfold status_Update. rewrite Hf.
  eapply (keeps_bind _ _ _ any).
  - intros w r w' Hw Hs E. pose proof (UpdateStatus_law _ _ _ _ E) as HL. destruct r as [[]|e|s]; [| |done].
    + destruct HL as (m' & HC & Hk & _). rewrite HC. split; [by apply keys_ok_put|]. split; [|done]. intros n.
      destruct (decide (V1.NamespacedName_ mdb = n)) as [<-|Hn].
      * rewrite <- HC, Hs. by apply (UpdateStatus_spec _ _ _ E).
      * apply spec_at_put_other. by replace (V1.NamespacedName_ m') with (V1.NamespacedName_ mdb).
    + rewrite HL. by split_and!.
  - intros _ _. destruct (determineReconciliationResult options) as [res [e|]]; [|by apply keeps_ret].
    eapply (keeps_writes mdb nothing); [apply writes_throw | by intros n []].
Qed.

Lemma keeps_SetAnnotations mdb a : keeps_specs mdb (annotations.SetAnnotations (W := W) (V1.NamespacedName_ mdb) a) any.
Proof.
  intros w r w' Hw Hs E. unfold annotations.SetAnnotations in E.
  apply bind_inv in E as [(m & w1 & E1 & E2)|[(e & E1 & ->)|(s & E1 & ->)]];
    destruct (Get_law KMongoDB _ _ _ _ E1) as [HC HR]; [|rewrite HC; by split_and!..].
  rewrite <- HC in *. pose proof (Hw KMongoDB _ _ HR) as Hk. cbn in Hk.
  pose proof (Patch_law KMongoDB m _ _ _ _ E2) as HL. destruct r as [[]|e|s]; [|rewrite HL; by split_and!..].
  destruct HL as (m' & Hk' & HC' & _). rewrite HC'. split; [by apply keys_ok_put|]. split; [|done]. intros n.
  destruct (decide (V1.NamespacedName_ mdb = n)) as [<-|Hn].
  - rewrite <- HC'. rewrite <- Hk in *. etrans; [by eapply Patch_spec|]. unfold spec_at. by rewrite HR.
  - apply spec_at_put_other. intros <-. destruct Hn. by rewrite <- Hk.
Qed.

(** ** A whole reconciliation *)

Definition off_resources : kind → NamespacedName → Prop := λ k _, k ≠ KMongoDB.
Lemma keeps_off mdb {A} (m : IO W A) Q : writes off_resources m Q → keeps_specs mdb m Q.
Proof. intros Hm. eapply keeps_writes; [exact Hm|]. by intros n []. Qed.

Lemma off_secrets mdb : secrets_allowed off_resources mdb.
Proof. by split_and!. Qed.

Lemma keeps_fail mdb msg : keeps_specs mdb (fail_with (W := W) mdb msg) any.
Proof.
  unfold fail_with, withFailedPhase, withPhase.
  eapply keeps_bind; [apply keeps_status_Update; options_only_status|]. intros r _. by apply keeps_ret.
Qed.
Lemma keeps_pending mdb msg : keeps_specs mdb (pending_with (W := W) mdb msg) any.
Proof.
  unfold pending_with, withPendingPhase, withPhase.
  eapply keeps_bind; [apply keeps_status_Update; options_only_status|]. intros r _. by apply keeps_ret.
Qed.
Lemma keeps_or_fail mdb {A} text (step : IO W A) cont Q :
  writes off_resources step Q → (∀ a, keeps_specs mdb (cont a) any) → keeps_specs mdb (or_fail mdb text step cont) any.
Proof.
  intros Hs Hc. unfold or_fail. eapply keeps_bind; [apply keeps_attempt, keeps_off, Hs|].
  intros [a|e] _; [apply Hc | apply keeps_fail].
Qed.

Lemma keeps_finish mdb : keeps_specs mdb (finish (W := W) mdb) any.
Proof.
  unfold finish, withPendingPhase, withRunningPhase, withPhase. destruct (Scale.IsStillScaling (V1.scaler mdb)).
  - eapply keeps_bind; [apply keeps_status_Update; options_only_status|]. intros r _. by apply keeps_ret.
  - eapply keeps_bind; [eapply keeps_off, writes_lift|]. intros uri _.
    eapply keeps_bind; [apply keeps_status_Update; options_only_status|]. intros [m res] [Hn Hs]. cbn [fst] in *.
    eapply keeps_bind; [eapply keeps_attempt, keeps_off, writes_updateConnectionStringSecrets; done|]. intros _ _.
    eapply keeps_bind; [|intros _ _; by apply keeps_ret].
    eapply keeps_attempt. unfold updateLastSuccessfulConfiguration. rewrite Hn. apply keeps_SetAnnotations.
Qed.

Lemma keeps_prepare_and_deploy mdb : keeps_specs mdb (prepare_and_deploy (W := W) mdb) any.
Proof.
  unfold prepare_and_deploy.
  eapply keeps_or_fail; [by apply writes_ensureService|]. intros _.
  eapply keeps_or_fail; [apply writes_validateTLSConfig|]. intros []; cbn [negb]; [|apply keeps_pending].
  eapply keeps_or_fail; [by apply writes_ensureTLSResources|]. intros _.
  eapply keeps_or_fail; [apply writes_ensureUserResources|]. intros _. unfold deploy_and_finish.
  eapply keeps_or_fail; [by apply writes_deploy; [apply off_secrets|]|]. intros []; cbn [negb]; [|apply keeps_pending].
  eapply keeps_or_fail; [by apply writes_ResetUpdateStrategy|]. intros _. apply keeps_finish.
Qed.

Lemma Reconcile_keeps_specs (request n : NamespacedName) (w : W) r w' :
  keys_ok (cluster w) → Reconcile request w = (r, w') → spec_at (cluster w') n = spec_at (cluster w) n.
Proof.
  intros Hw E.
  unfold Reconcile in E. apply bind_inv in E as [(x & w1 & E1 & E2)|[(e & E1 & ->)|(s & E1 & ->)]].
  - apply (attempt_Get_inv KMongoDB) in E1 as [HC [(mdb & [= ->] & Hm)|(e & [= ->] & _)]].
    + assert (V1.NamespacedName_ mdb = request) as <- by exact (Hw _ _ _ Hm).
      rewrite <- HC in *. assert (keeps_specs mdb (or_fail mdb
        "error validating new Spec: " (lift (reconciler_validateSpec mdb)) (λ _, prepare_and_deploy mdb)) any) as Hk.
      { eapply keeps_or_fail; [apply writes_lift|]. intros _. apply keeps_prepare_and_deploy. }
      apply (Hk w1 r w'); [done| |done]. unfold spec_at. by rewrite Hm.
    + rewrite <- HC. destruct (IsNotFound e); by injection E2 as _ <-.
  - unfold attempt in E1. by destruct (Get KMongoDB request w) as [[]].
  - unfold attempt in E1. destruct (Get KMongoDB request w) as [[] w1] eqn:Eg; [done..|].
    by destruct (Get_law KMongoDB request w _ _ Eg) as [_ []].
Qed.

(** [C11] A reconciliation does not trigger itself, or the reconciliation of another
    resource: whatever its outcome, no resource appears, disappears or gets another
    spec, so that the predicate of the controller drops every update it has caused. *)
Theorem Reconcile_not_triggered `{!K8sApiEq api} (request n : NamespacedName) (w : W) r w' :
  keys_ok (cluster w) → Reconcile request w = (r, w') →
  match stored (cluster w) KMongoDB n, stored (cluster w') KMongoDB n with
  | Some before, Some after => OnlyOnSpecChange before after = false
  | None, None => True
  | _, _ => False
  end.
Proof.
  intros Hw E. pose proof (Reconcile_keeps_specs request n w r w' Hw E) as Hn.
  unfold spec_at, OnlyOnSpecChange in *.
  destruct (stored (cluster w) KMongoDB n), (stored (cluster w') KMongoDB n); try done.
  injection Hn as ->. by rewrite bool_decide_true.
Qed.
End Facts.
