(* ===== verification/Manager.v ===== *)
(** * The manager process

    cmd/manager/main.go, and the construction and set-up of the reconciler in
    controllers/replica_set_controller.go: which environment the process needs, which
    namespace it watches, which events lead to a reconciliation, and that the process
    exits on the first step of its set-up that fails. *)
From S2P Require Import Prelude GoStd K8s MergeByKey Merge Scale Json Codec Hashes Base64 ScramCreds ACTypes.
From S2P Require Import ACBuilder Types SpecEq Kube KubeOps ACSecret Scram Validation Status Watch.
From S2P Require Import Agent SpecJson PodMods StsMods Construct Tls Reconciler.
Local Open Scope Z_scope.

Definition WatchNamespaceEnv : string := "WATCH_NAMESPACE".

(** What the controller builder of the runtime is told: how many reconciliations may
    run at a time, which updates of a resource count, which requests an event about a
    secret leads to, and what a request does. *)
Record ControllerSpec {api : K8sApi} (W : Type) := MkControllerSpec {
  MaxConcurrentReconciles : Z;
  For_UpdateFunc : V1.MongoDBCommunity → V1.MongoDBCommunity → bool;
  Watches_Secret : Event → W → list NamespacedName;
  Completed_by : NamespacedName → IO W Result;
}.
Arguments MkControllerSpec {api W} _ _ _ _.
Arguments MaxConcurrentReconciles {api W} _.
Arguments For_UpdateFunc {api W} _ _ _.
Arguments Watches_Secret {api W} _ _ _.
Arguments Completed_by {api W} _ _.

(** What main.go calls of the controller runtime, over a world [W]. *)
Record Runtime {api : K8sApi} (W : Type) := MkRuntime {
  rt_Config : Type;
  rt_Manager : Type;
  config_GetConfig : IO W rt_Config;
  manager_New : rt_Config → string → IO W rt_Manager;
  AddToScheme : rt_Manager → IO W unit;
  GetClient : rt_Manager → KubeClient W;
  Complete : rt_Manager → ControllerSpec W → IO W unit;
  mgr_Start : rt_Manager → IO W unit;
}.
Arguments rt_Manager {api W} _.
Arguments config_GetConfig {api W} _.
Arguments manager_New {api W} _ _ _.
Arguments AddToScheme {api W} _ _.
Arguments GetClient {api W} _ _.
Arguments Complete {api W} _ _ _.
Arguments mgr_Start {api W} _ _.

Section Environment.
Context `{!Environ}.

(** The loop goes through all variables; it only logs the missing ones. *)
Definition hasRequiredVariables (envVariables : list string) : bool :=
  foldl (λ allPresent envVariable,
           match LookupEnv envVariable with None => false | Some _ => allPresent end) true envVariables.

Definition required_variables : list string :=
  [construct.AgentImageEnv; construct.VersionUpgradeHookImageEnv; construct.ReadinessProbeImageEnv].

(** The namespace to watch; the empty one stands for all of them. *)
Definition watchNamespace (namespace : string) : string :=
  if bool_decide (namespace = "*") then "" else namespace.

Lemma hasRequiredVariables_iff vars : hasRequiredVariables vars = true ↔ Forall (λ v, is_Some (LookupEnv v)) vars.
Proof.
  unfold hasRequiredVariables. induction vars as [|v vars IH] using rev_ind; [by split|].
  rewrite foldl_snoc, Forall_app, Forall_singleton, <- IH.
  destruct (LookupEnv v); split; naive_solver.
Qed.
End Environment.

Section Main.
Context {api : K8sApi} `{!K8sApiEq api}.
Context `{!Semver, !Objx, !Mergo, !Cast, !Stringprep, !Environ, !Quantities, !MapOrder, !StsSpecJson}.
Context {W : Type} `{!Entropy W, !HasWatcher W} (rt : Runtime W).

(** The scheme and the logger of the struct are not modelled; the watcher it points to
    is part of the world. *)
Record ReplicaSetReconciler := MkReplicaSetReconciler { rsr_client : KubeClient W }.

Definition NewReconciler (mgr : rt_Manager rt) : IO W ReplicaSetReconciler :=
  modify (set_watched watch_New) ;; ret (MkReplicaSetReconciler (GetClient rt mgr)).

Definition controller_spec (r : ReplicaSetReconciler) : ControllerSpec W :=
  MkControllerSpec 3 OnlyOnSpecChange (λ e w, on_event (watched w) e) 
    (let client := rsr_client r in Reconcile).
Definition SetupWithManager (r : ReplicaSetReconciler) (mgr : rt_Manager rt) : IO W unit :=
  Complete rt mgr (controller_spec r).

(** [log.Fatalf]: the process exits with status 1. *)
Definition or_exit {A} (step : IO W A) (continue : A → IO W Z) : IO W Z :=
  r <- attempt step ;; match r with inr _ => ret 1 | inl a => continue a end.

(** [main]: the exit status. *)
Definition main : IO W Z :=
  if negb (hasRequiredVariables required_variables) then ret 1
  else
    match LookupEnv WatchNamespaceEnv with
    | None => ret 1
    | Some namespace =>
        or_exit (config_GetConfig rt) (λ cfg,
        or_exit (manager_New rt cfg (watchNamespace namespace)) (λ mgr,
        or_exit (AddToScheme rt mgr) (λ _,
        or_exit (r <- NewReconciler mgr ;; SetupWithManager r mgr) (λ _,
        or_exit (mgr_Start rt mgr) (λ _, ret 0)))))
    end.

Lemma or_exit_0 {A} (step : IO W A) continue w w' :
  or_exit step continue w = (Ret 0, w') ↔ ∃ a w1, step w = (Ret a, w1) ∧ continue a w1 = (Ret 0, w').
Proof. unfold or_exit, bind, attempt, ret. destruct (step w) as [[a|e|s] w1]; naive_solver. Qed.

(** The process ends well exactly when the environment is complete, and every step of
    the set-up, on the namespace that was given, and the manager itself did; the
    controller then reconciles with the client of the manager, on a change of a spec
    and on the events of the secrets that are watched, of which there were none. *)
Theorem main_status (w w' : W) :
  main w = (Ret 0, w') ↔
  Forall (λ v, is_Some (LookupEnv v)) required_variables ∧
  ∃ namespace cfg mgr w1 w2 w3 w4,
    LookupEnv WatchNamespaceEnv = Some namespace
    ∧ config_GetConfig rt w = (Ret cfg, w1)
    ∧ manager_New rt cfg (if bool_decide (namespace = "*") then "" else namespace) w1 = (Ret mgr, w2)
    ∧ AddToScheme rt mgr w2 = (Ret (), w3)
    ∧ Complete rt mgr (controller_spec (MkReplicaSetReconciler (GetClient rt mgr))) (set_watched watch_New w3) = (Ret (), w4)
    ∧ mgr_Start rt mgr w4 = (Ret (), w').
Proof.
  rewrite <- hasRequiredVariables_iff. unfold main. destruct (hasRequiredVariables _); cbn [negb]; [|naive_solver].
  destruct (LookupEnv WatchNamespaceEnv) as [ns|]; [|naive_solver].
  repeat setoid_rewrite or_exit_0. unfold watchNamespace. split.
  - intros (cfg & w1 & E1 & mgr & w2 & E2 & [] & w3 & E3 & [] & w4 & E4 & [] & w5 & E5 & [= <-]). split; [done|].
    by exists ns, cfg, mgr, w1, w2, w3, w4.
  - intros (_ & ns' & cfg & mgr & w1 & w2 & w3 & w4 & [= <-] & E1 & E2 & E3 & E4 & E5).
    exists cfg, w1. split; [done|]. exists mgr, w2. split; [done|]. exists (), w3. split; [done|].
    exists (), w4. split; [done|]. by exists (), w'.
Qed.
End Main.
