(* ===== verification/TestManager.v ===== *)
(** * The manager of the tests

    pkg/kube/client/mocked_manager.go and the constructor of the in-memory client
    (pkg/kube/client/mocked_client.go): what the tests construct the reconciler with.
    The world of a test is the store of the client, beside the state of whatever else
    it needs. *)
From S2P Require Import Prelude GoStd K8s MergeByKey Merge Scale Json Codec Hashes Base64 ScramCreds ACTypes.
From S2P Require Import ACBuilder Types SpecEq Kube KubeOps ACSecret Scram Validation Status Watch.
From S2P Require Import Agent SpecJson PodMods StsMods Construct Tls Reconciler Manager.
Local Open Scope Z_scope.

Section Store.
Context {api : K8sApi}.

(** A store with no object of any kind. *)
Definition empty_store : cluster_state := λ _, ∅.

Lemma stored_empty k n : stored empty_store k n = None.
Proof. apply lookup_empty. Qed.

(** An object of any kind: [k8sClient.Object]. *)
Definition any_object : Type := { k : kind & obj k }.
End Store.

Module MockedManager.
Section MockedManager.
Context {api : K8sApi} {Y : Type}.
Abbreviation world := (cluster_state * Y)%type.

Definition NewMockedClient : IO world (KubeClient world) := modify (λ w, (empty_store, w.2)) ;; ret beside_client.

Record MockedManager := MkMockedManager { Client : KubeClient world }.

(** The error of the client is dropped; its panic, for a StatefulSet without replicas,
    is not. *)
Definition NewManager (o : option any_object) : IO world MockedManager :=
  c <- NewMockedClient ;;
  match o with Some (existT k x) => attempt (Create k x) ;; ret () | None => ret () end ;;
  ret (MkMockedManager c).
Definition NewManagerWithClient (c : KubeClient world) : MockedManager := MkMockedManager c.

(** The manager runs nothing, registers nothing, and has nothing to give but its
    client: every other method returns nil. *)
Definition Add (m : MockedManager) (runnable : opaque "manager.Runnable") : IO world unit := ret ().
Definition Elected (m : MockedManager) : option (opaque "<-chan struct{}") := None.
Definition SetFields (m : MockedManager) (x : opaque "interface{}") : IO world unit := ret ().
Definition Start (m : MockedManager) : IO world unit := ret ().
Definition GetConfig (m : MockedManager) : option (opaque "rest.Config") := None.
Definition GetScheme (m : MockedManager) : option (opaque "runtime.Scheme") := None.
Definition GetAPIReader (m : MockedManager) : option (opaque "client.Reader") := None.
Definition GetClient (m : MockedManager) : KubeClient world := Client m.
Definition GetEventRecorderFor (m : MockedManager) (name : string) : option (opaque "record.EventRecorder") := None.
Definition GetFieldIndexer (m : MockedManager) : option (opaque "client.FieldIndexer") := None.
Definition GetCache (m : MockedManager) : option (opaque "cache.Cache") := None.
Definition GetRecorder (m : MockedManager) (name : string) : option (opaque "record.EventRecorder") := None.
Definition GetRESTMapper (m : MockedManager) : option (opaque "meta.RESTMapper") := None.
Definition GetWebhookServer (m : MockedManager) : option (opaque "webhook.Server") := None.
Definition AddMetricsExtraHandler (m : MockedManager) (path : string) (handler : opaque "http.Handler") : IO world unit := ret ().
Definition AddHealthzCheck (m : MockedManager) (name : string) (check : opaque "healthz.Checker") : IO world unit := ret ().
Definition AddReadyzCheck (m : MockedManager) (name : string) (check : opaque "healthz.Checker") : IO world unit := ret ().
Definition GetLogger (m : MockedManager) : option (opaque "logr.Logger") := None.

(** Only the timeout for the caches is set, to zero. *)
Definition GetControllerOptions (m : MockedManager) : option Z := Some 0.

(** The store of a manager made from an object holds that object, a StatefulSet made
    ready, and nothing else. *)
Lemma NewManager_store k (x x' : obj k) (w : world) :
  mock_prepare k x = Ret x' →
  ∃ m w', NewManager (Some (existT k x)) w = (Ret m, w')
    ∧ stored w'.1 k (key_of k x') = Some x'
    ∧ (∀ k' n, k' ≠ k ∨ n ≠ key_of k x' → stored w'.1 k' n = None)
    ∧ GetClient m = beside_client.
Proof.
  intros Hp. assert (mock_Create k x empty_store = (Ret (), put empty_store k x')) as E.
  { unfold mock_Create. by rewrite stored_empty, Hp. }
  exists (MkMockedManager beside_client), (put empty_store k x', w.2). split_and!.
  - unfold NewManager, NewMockedClient, attempt, bind, modify, ret. cbn. unfold on_fst. cbn [fst]. by rewrite E.
  - apply stored_put_key.
  - intros k' n [Hk|Hn]; cbn.
    + rewrite stored_put_other_kind by done. apply stored_empty.
    + destruct (decide (k' = k)) as [->|Hk]; [rewrite stored_put_other_key by done|rewrite stored_put_other_kind by done];
        apply stored_empty.
  - reflexivity.
Qed.
End MockedManager.
End MockedManager.

(** The manager of the tests is a runtime that never fails: over it the constructor of
    the reconciler takes the manager's client. *)
Section Runtime.
Context {api : K8sApi} `{!K8sApiEq api} {Y : Type}.
Context `{!Semver, !Objx, !Mergo, !Cast, !Stringprep, !Environ, !Quantities, !MapOrder, !StsSpecJson}.
Context `{!Entropy (cluster_state * Y), !HasWatcher (cluster_state * Y)}.

Definition mocked_runtime : Runtime (cluster_state * Y) := {|
  rt_Config := option (opaque "rest.Config");
  rt_Manager := MockedManager.MockedManager (Y := Y);
  config_GetConfig := ret None;
  manager_New _ _ := MockedManager.NewManager None;
  AddToScheme _ := ret ();
  Manager.GetClient := MockedManager.GetClient;
  Complete m _ := ret ();
  mgr_Start := MockedManager.Start;
|}.

Lemma NewReconciler_mocked (m : MockedManager.MockedManager (Y := Y)) w :
  NewReconciler mocked_runtime m w
  = (Ret (MkReplicaSetReconciler (MockedManager.GetClient m)), set_watched watch_New w).
Proof. reflexivity. Qed.
End Runtime.
