(* ===== verification/ConfigFacts.v ===== *)
(** * The automation config of a resource

    What the config a reconciliation builds says about the resource, whatever the
    cluster held before, and what its secret holds once it was ensured. *)
From S2P Require Import Prelude GoStd K8s MergeByKey Merge Scale Json Codec Hashes Base64 ScramCreds ACTypes.
From S2P Require Import ACBuilder ACFacts ACTheorems Types Kube KubeOps KubeFacts ACSecret Scram ScramFacts Validation.
From S2P Require Import Status Watch Agent SpecJson PodMods StsMods Construct Tls TlsFacts Reconciler.
From S2P Require Import Frames ReconcilerFrames.
Local Open Scope Z_scope.

(** Conversion looks into [buildAutomationConfig] before it looks into [Build]. *)
#[local] Strategy expand [buildAutomationConfig].

Section Facts.
Context {api : K8sApi} `{!Semver, !Objx, !Mergo, !Cast, !Stringprep, !Environ, !Quantities, !MapOrder, !StsSpecJson}.
Context {W : Type} `{!KubeClient W, !KubeLaws W, !Entropy W, !EntropyFrame W, !HasWatcher W, !WatcherFrame W}.
Implicit Types mdb : V1.MongoDBCommunity.

Definition config_key mdb : NamespacedName := MkNamespacedName (V1.AutomationConfigSecretName mdb) (V1.Namespace mdb).
Definition member_name mdb (i : Z) : string := V1.Name mdb +:+ "-" +:+ Itoa i.
Definition member_host mdb (i : Z) : string :=
  V1.Name mdb +:+ "-" +:+ Itoa i +:+ "." +:+ getDomain (V1.ServiceName mdb) (V1.Namespace mdb) (Getenv clusterDNSName).

(** The config describes the resource: one process for each member of this
    reconciliation, under the name and host of its pod, of the version asked for; one
    replica set of these members, named after the resource; its custom roles. *)
Record config_of mdb (ac : AutomationConfig) : Prop := {
  of_processes : process_ids ac =
    map (λ i, (member_name mdb i, member_host mdb i)) (indices (V1.AutomationConfigMembersThisReconciliation mdb));
  of_version : Forall (λ p, pr_Version p = V1.spec_Version (V1.mdb_Spec mdb)) (els (ac_Processes ac));
  of_members : ∃ members, ac_ReplicaSets ac = Some [MkReplicaSet (V1.Name mdb) (Some members) "1" 0]
    ∧ map m_Host members = map fst (process_ids ac)
    ∧ map m_Id members = indices (V1.AutomationConfigMembersThisReconciliation mdb);
  of_roles : ac_Roles ac = V1.ConvertCustomRolesToAutomationConfigCustomRole (V1.sec_Roles (V1.spec_Security (V1.mdb_Spec mdb)));
}.

(** Modifications that touch nothing but the arguments of processes, the TLS section
    and the roles. *)
Definition part_kept {A} (f : AutomationConfig → A) : Prop :=
  ∀ ac g t (r : list CustomRole),
    f (ac <| ac_Processes ::= option_map (map (λ p, p <| pr_Args26 ::= g |>)) |>) = f ac
    ∧ f (ac <| ac_TLSConfig ::= t |>) = f ac ∧ f (ac <| ac_Roles := r |>) = f ac.

Lemma modifications_keep {A} (f : AutomationConfig → A) mdb (m : Modification) :
  part_kept f → (m = (λ ac, ac) ∨ ∃ certKey, m = tlsConfigModification mdb certKey) →
  keeps f [getMongodConfigModification mdb; m; getCustomRolesModification mdb].
Proof.
  intros Hf Hm. repeat constructor; intros ac.
  - apply (Hf _ _ (λ t, t) []).
  - destruct Hm as [->|[certKey ->]]; [done|]. unfold tlsConfigModification.
    rewrite (proj1 (Hf _ _ (λ t, t) [])). apply (Hf _ (λ a, a) _ []).
  - unfold getCustomRolesModification. destruct (V1.sec_Roles _) as [|r rs]; [done|]. apply (Hf _ (λ a, a) (λ t, t)).
Qed.

Lemma processes_part_kept {A} (f : Process → A) :
  (∀ p g, f (p <| pr_Args26 ::= g |>) = f p) → part_kept (λ ac, map f (els (ac_Processes ac))).
Proof.
  intros Hf ac g t r. split_and!; [|done..]. cbn. destruct (ac_Processes ac) as [ps|]; [|done]. cbn.
  rewrite map_map. by apply map_ext.
Qed.

Lemma config_builder_modifications mdb auth prev (m r : Modification) fcv :
  b_modifications ((config_builder mdb auth prev [m; r]) <| b_fcv := fcv |>) = [getMongodConfigModification mdb; m; r].
Proof. reflexivity. Qed.
Lemma config_builder_parts mdb auth prev (m r : Modification) :
  let b := config_builder mdb auth prev [m; r] in
  b_modifications b = [getMongodConfigModification mdb; m; r] ∧ b_auth b = Some auth ∧ b_previousAC b = prev.
Proof. by split_and!. Qed.
Lemma assemble_roles b auth ps ms : ac_Roles (assemble b auth ps ms) = [].
Proof. reflexivity. Qed.

Lemma modified_roles mdb (m : Modification) base :
  (m = (λ ac, ac) ∨ ∃ certKey, m = tlsConfigModification mdb certKey) → ac_Roles base = [] →
  ac_Roles (foldl (λ ac m, m ac) base [getMongodConfigModification mdb; m; getCustomRolesModification mdb]) =
  V1.ConvertCustomRolesToAutomationConfigCustomRole (V1.sec_Roles (V1.spec_Security (V1.mdb_Spec mdb))).
Proof.
  intros Hm Hbase. cbn [foldl]. unfold getCustomRolesModification.
  destruct (V1.sec_Roles _) as [|r rs]; [|done]. by destruct Hm as [->|[certKey ->]].
Qed.

Lemma built_roles mdb auth prev (m : Modification) ac :
  (m = (λ ac, ac) ∨ ∃ certKey, m = tlsConfigModification mdb certKey) →
  (Build (config_builder mdb auth prev [m; getCustomRolesModification mdb])).1 = Ret ac →
  ac_Roles ac = V1.ConvertCustomRolesToAutomationConfigCustomRole (V1.sec_Roles (V1.spec_Security (V1.mdb_Spec mdb))).
Proof.
  intros Hm E. apply Build_inv in E as (_ & _ & u & b1 & Hf & ->). destruct (after_fcv_eq _ _ _ Hf) as [fcv ->].
  rewrite (bump_part ac_Roles) by done. unfold built_config. rewrite config_builder_modifications.
  apply modified_roles; [done|apply assemble_roles].
Qed.

Lemma buildAutomationConfig_config_of mdb auth prev (m : Modification) ac :
  (m = (λ ac, ac) ∨ ∃ certKey, m = tlsConfigModification mdb certKey) →
  buildAutomationConfig mdb auth prev [m; getCustomRolesModification mdb] = Ret ac → config_of mdb ac.
Proof.
  unfold buildAutomationConfig. intros Hm E. pose proof (λ A f H, @modifications_keep A f mdb m H Hm) as Hk.
  destruct (built_members _ ac E) as (members & HR & HI & HH & HP & _ & _);
    [by apply Hk|by apply Hk, processes_part_kept|constructor..|].
  split; [exact HP| |by exists members|by eapply built_roles].
  destruct (built_processes pr_Version _ ac E) as (b1 & u & Hf & HV); [by apply Hk, processes_part_kept|].
  destruct (after_fcv_eq _ _ _ Hf) as [fcv ->].
  apply Forall_fmap with (f := pr_Version) (P := λ v, v = V1.spec_Version (V1.mdb_Spec mdb)).
  change (pr_Version <$> ?l) with (map pr_Version l). rewrite HV. apply Forall_fmap, Forall_true. intros i.
  by apply (process_at_part pr_Version); [|constructor].
Qed.

(** ** Building and storing it *)

(** The config the cluster held before, which is the empty one without a secret. *)
Definition previous_config (c : cluster_state) mdb (prev : AutomationConfig) : Prop :=
  match stored c KSecret (config_key mdb) with
  | None => prev = emptyAutomationConfig
  | Some s => FromBytes (default "" (gm (s_Data s) !! ConfigKey)) = Ret prev
  end.

Lemma ReadFromSecret_previous mdb (w : W) prev w' :
  ReadFromSecret (config_key mdb) w = (Ret prev, w') → cluster w' = cluster w ∧ previous_config (cluster w) mdb prev.
Proof.
  unfold ReadFromSecret, previous_config. intros E. apply bind_Ret_inv in E as (r & w1 & E1 & E2).
  apply (attempt_Get_inv KSecret) in E1 as [HC [(s & [= ->] & Hs)|(e & [= ->] & He)]].
  - rewrite Hs. injection E2 as E2 <-. by split.
  - destruct (IsNotFound e); [|done]. rewrite He by done. by injection E2 as <- <-.
Qed.

Lemma getTLSConfigModification_Ret mdb (w : W) m w' :
  getTLSConfigModification mdb w = (Ret m, w') →
  cluster w' = cluster w ∧ (m = (λ ac, ac) ∨ ∃ certKey, m = tlsConfigModification mdb certKey).
Proof.
  unfold getTLSConfigModification. destruct (V1.tls_enabled mdb); cbn [negb].
  - intros E. apply bind_Ret_inv in E as (certKey & w1 & [HC _]%getCertAndKey_Ret & [= <- <-]). eauto.
  - intros [= <- <-]. auto.
Qed.

Lemma reconciler_buildAutomationConfig_Ret mdb (w : W) ac w' :
  reconciler_buildAutomationConfig mdb w = (Ret ac, w') →
  ∃ (m : Modification) prev w1 auth, (m = (λ ac, ac) ∨ ∃ certKey, m = tlsConfigModification mdb certKey)
    ∧ cluster w1 = cluster w ∧ previous_config (cluster w) mdb prev ∧ Enable emptyAuth mdb w1 = (Ret auth, w')
    ∧ buildAutomationConfig mdb auth prev [m; getCustomRolesModification mdb] = Ret ac.
Proof.
  unfold reconciler_buildAutomationConfig. intros E.
  apply bind_Ret_inv in E as (m & w1 & [HC1 Hm]%wrap_Ret_inv%getTLSConfigModification_Ret & E).
  apply bind_Ret_inv in E as (prev & w2 & [HC2 Hp]%wrap_Ret_inv%ReadFromSecret_previous & E).
  apply bind_Ret_inv in E as (auth & w3 & E3%wrap_Ret_inv & E). unfold lift in E. injection E as E <-.
  rewrite HC1 in *. by exists m, prev, w2, auth.
Qed.

Lemma secrets_only mdb : secrets_allowed (of_kind KSecret) mdb.
Proof. by split_and!. Qed.

Lemma writes_buildAutomationConfig P mdb :
  secrets_allowed P mdb → writes (W := W) P (reconciler_buildAutomationConfig mdb) any.
Proof.
  intros (Hu & Ha & Hc). pose proof (writes_Enable P emptyAuth mdb Hu Ha). pose proof (writes_getCertAndKey P).
  unfold reconciler_buildAutomationConfig, getTLSConfigModification. frames.
Qed.

(** [C8] The automation config of a resource: whatever the cluster held, a config that
    was built has one process per member of this reconciliation, under the name and
    host of the member's pod and of the version asked for, the replica set of these
    members, the custom roles and the authentication section SCRAM was enabled
    with; and its version is that of the previous config exactly when the content
    is the previous content, and the next one otherwise. *)
Theorem built_config_spec mdb (w : W) ac w' :
  reconciler_buildAutomationConfig mdb w = (Ret ac, w') →
  config_of mdb ac
  ∧ ∃ prev w1 auth content,
      previous_config (cluster w) mdb prev
      ∧ cluster w1 = cluster w ∧ Enable emptyAuth mdb w1 = (Ret auth, w') ∧ ac_Auth ac = auth
      ∧ ac_Version content = ac_Version prev
      ∧ ac = (if AreEqual prev content then content else content <| ac_Version := int64 (ac_Version prev + 1) |>).
Proof.
  intros (m & prev & w1 & auth & Hm & HC & Hp & E & HB)%reconciler_buildAutomationConfig_Ret.
  split; [by eapply buildAutomationConfig_config_of|]. unfold buildAutomationConfig in HB.
  destruct (config_builder_parts mdb auth prev m (getCustomRolesModification mdb)) as (Hmods & Hauth & Hprev).
  assert (∀ A (f : AutomationConfig → A), part_kept f → keeps f (b_modifications
    (config_builder mdb auth prev [m; getCustomRolesModification mdb]))) as Hk.
  { intros A f Hf. rewrite Hmods. by apply modifications_keep. }
  destruct (built_content _ _ HB) as [HA (content & HV & Hac)]; [by apply Hk..|].
  rewrite Hauth in HA. rewrite Hprev in HV, Hac. exists prev, w1, auth, content. by split_and!.
Qed.

Lemma ensureAutomationConfig_Ret mdb (w : W) ac w' :
  keys_ok (cluster w) → ensureAutomationConfig mdb w = (Ret ac, w') →
  holds_config (cluster w') (config_key mdb) ac
  ∧ ∃ desired, config_of mdb desired ∧ (ac = desired ∨ AreEqual desired ac = true).
Proof.
  intros Hw E. unfold ensureAutomationConfig in E. apply bind_Ret_inv in E as (desired & w1 & E1%wrap_Ret_inv & E2).
  pose proof (proj1 (writes_run _ _ _ _ _ _ (writes_buildAutomationConfig _ mdb (secrets_only mdb)) Hw E1)) as Hw1.
  apply EnsureSecret_holds in E2 as [Hh Ha]; [|by intros ? ?%Hw1]. split; [done|]. exists desired. split; [|done].
  by apply reconciler_buildAutomationConfig_Ret in E1 as (m & prev & w2 & auth & Hm & _ & _ & _ & HB%(buildAutomationConfig_config_of mdb auth prev m desired Hm)).
Qed.

(** ** The connection strings *)

Lemma string_app_inv_tail (a b c : string) : a +:+ c = b +:+ c → a = b.
Proof.
  revert b. induction a as [|x a IH]; intros [|y b] E; [done| | |].
  - apply (f_equal String.length) in E. rewrite !string_length_app in E. cbn in E. lia.
  - apply (f_equal String.length) in E. rewrite !string_length_app in E. cbn in E. lia.
  - injection E as -> E. f_equal. by apply IH.
Qed.

Definition host_port (host : string) : string := host +:+ ":27017".

(** [C21] The connection strings name the servers: when the config has all desired members,
    the hosts of the connection strings are, in order, the hosts its processes run on,
    with their port - if and only if the cluster's DNS name is the default one. *)
Theorem connection_strings_name_servers mdb (w : W) ac w' :
  reconciler_buildAutomationConfig mdb w = (Ret ac, w') →
  0 < V1.DesiredReplicas mdb → V1.AutomationConfigMembersThisReconciliation mdb = V1.DesiredReplicas mdb →
  V1.Hosts mdb = Ret (map (λ p, host_port (pr_HostName p)) (els (ac_Processes ac)))
  ↔ Getenv clusterDNSName = "" ∨ Getenv clusterDNSName = "cluster.local".
Proof.
  intros (m & prev & w1 & auth & Hm & _ & _ & _ & HB)%reconciler_buildAutomationConfig_Ret Hpos Hsize.
  destruct (buildAutomationConfig_config_of _ _ _ _ _ Hm HB) as [Hp _ _ _]. rewrite Hsize in Hp.
  assert (map (λ p, host_port (pr_HostName p)) (els (ac_Processes ac)) =
          map (λ i, host_port (member_host mdb i)) (indices (V1.DesiredReplicas mdb))) as ->.
  { transitivity (map host_port (map snd (process_ids ac))); [by unfold process_ids; rewrite !map_map|].
    by rewrite Hp, !map_map. }
  unfold V1.Hosts. fold (V1.DesiredReplicas mdb). destruct (Z.ltb_spec (V1.DesiredReplicas mdb) 0); [lia|].
  assert (∀ i, V1.Name mdb +:+ "-" +:+ Itoa i +:+ "." +:+ V1.ServiceName mdb +:+ "." +:+ V1.Namespace mdb +:+ "." +:+ V1.clusterDomain +:+ ":" +:+ Itoa 27017
    = host_port (member_host mdb i) ↔ Getenv clusterDNSName = "" ∨ Getenv clusterDNSName = "cluster.local") as Hi.
  { intros i. unfold host_port, member_host, getDomain, V1.clusterDomain. rewrite !string_app_assoc.
    change ("." +:+ "svc.cluster.local" +:+ ":" +:+ Itoa 27017) with (".svc." +:+ "cluster.local" +:+ ":27017"). split.
    - intros E. do 8 apply (inj (String.append _)) in E.
      destruct (bool_decide (Getenv clusterDNSName = "")) eqn:Hd; [left; by apply bool_decide_eq_true in Hd|right].
      symmetry. by apply (string_app_inv_tail _ _ ":27017").
    - intros [-> | ->]; reflexivity. }
  split.
  - intros [= E]. apply (Hi 0). apply (f_equal head) in E.
    destruct (indices (V1.DesiredReplicas mdb)) as [|j l] eqn:Hl.
    + assert (0 ∈ indices (V1.DesiredReplicas mdb)) as Hin by (apply indices_range; lia). rewrite Hl in Hin. by apply elem_of_nil in Hin.
    + injection E as E. apply Hi. by apply (Hi j).
  - intros Hc. f_equal. apply map_ext. intros i. by apply Hi.
Qed.
End Facts.
