(* ===== verification/SafeFacts.v ===== *)
(** * A reconciliation does not panic

    Every step of the reconciler, up to [Reconcile] itself: what has to be true of a
    resource, of the entropy source and of the API server for the operator not to
    crash on it. *)
From S2P Require Import Prelude GoStd K8s MergeByKey Merge Scale Json Codec Hashes Base64 ScramCreds ACTypes.
From S2P Require Import ACBuilder ACFacts Types Kube KubeOps KubeFacts ACSecret Scram ScramFacts Validation Status Watch.
From S2P Require Import Agent SpecJson PodMods StsMods Construct Tls TlsFacts Reconciler Frames Safe ReconcilerFrames.
From S2P Require Import ConfigFacts.
Local Open Scope Z_scope.

(** ** The pure parts *)

(** SASLprep returns the prepared text or an error. *)
Class StringprepOk `{Stringprep} : Prop := SASLprep_calm : ∀ s, calm (SASLprep s).

Section Pure.
Context {api : K8sApi} `{!Semver, !Objx, !Mergo, !Stringprep, !StringprepOk, !Environ, !StsSpecJson}.
Implicit Types mdb : V1.MongoDBCommunity.

Lemma calm_computeScramCredentials h n salt password : calm (computeScramCredentials h n salt password).
Proof.
  unfold computeScramCredentials, generateB64EncodedSecrets. apply calm_obind.
  - apply calm_owrap. destruct (StdDecode salt) as [s|]; [|done]. apply calm_obind.
    + apply calm_owrap. unfold generateSecrets. apply calm_obind; [|done]. apply calm_owrap.
      unfold generateSaltedPassword. apply calm_obind; [apply calm_owrap, SASLprep_calm|]. intros p _.
      apply calm_owrap. unfold hmacIteration. by destruct (negb _).
    + by intros [].
  - by intros [].
Qed.
Lemma calm_computeScramShaCredentials u p s1 s2 : calm (computeScramShaCredentials u p s1 s2).
Proof.
  unfold computeScramShaCredentials. apply calm_obind; [apply calm_owrap, calm_computeScramCredentials|]. intros ? _.
  apply calm_obind; [apply calm_owrap, calm_computeScramCredentials|done].
Qed.

Lemma calm_FromBytes bytes : calm (FromBytes bytes).
Proof. unfold FromBytes. by destruct (parse_json bytes) as [j|]; [destruct (of_json j)|]. Qed.

Lemma calm_configureScram auth pw key users opts : calm (configureScramInAutomationConfig auth pw key users opts).
Proof. unfold configureScramInAutomationConfig, validateScramOptions. by destruct (scram_option_errors opts). Qed.

Lemma calm_GetScramOptions mdb : auth_modes mdb ≠ [] → calm (V1.GetScramOptions mdb).
Proof. unfold V1.GetScramOptions, auth_modes. by destruct (els _). Qed.

Lemma calm_Hosts mdb : 0 ≤ V1.DesiredReplicas mdb → calm (V1.Hosts mdb).
Proof. intros Hm. unfold V1.Hosts, V1.DesiredReplicas in *. destruct (Z.ltb_spec (V1.spec_Members (V1.mdb_Spec mdb)) 0); [lia|done]. Qed.
Lemma calm_MongoURI mdb : 0 ≤ V1.DesiredReplicas mdb → calm (V1.MongoURI mdb).
Proof. intros Hm. by apply calm_obind; [apply calm_Hosts|]. Qed.
Lemma calm_MongoAuthUserURI mdb u p : 0 ≤ V1.DesiredReplicas mdb → calm (V1.MongoAuthUserURI mdb u p).
Proof. intros Hm. by apply calm_obind; [apply calm_Hosts|]. Qed.

Lemma calm_statefulSetPodNames sts n : 0 ≤ n → calm (statefulSetPodNames sts n).
Proof. intros Hn. unfold statefulSetPodNames. destruct (Z.ltb_spec n 0); [lia|done]. Qed.

Lemma calm_validateSpec mdb : calm (reconciler_validateSpec mdb).
Proof.
  unfold reconciler_validateSpec, ValidateInitalSpec, ValidateUpdate.
  destruct (gm _ !! _) as [saved|]; [|intros s; apply validateSpec_no_panic].
  destruct (unmarshal_spec saved) as [old|]; [|done]. destruct (_ && _); [done|]. intros s. apply validateSpec_no_panic.
Qed.

Lemma after_fcv_calm b : calm (after_fcv b).1.
Proof.
  unfold after_fcv, setFeatureCompatibilityVersionIfUpgradeIsHappening, bind, get, modify, ret, throw. cbn.
  by repeat case_match.
Qed.

(** Building the config panics exactly for a negative number of members or fewer
    horizons than members. *)
Lemma calm_Build b : 0 ≤ b_members b → horizons_ok b → calm (Build b).1.
Proof.
  intros Hn Hh. pose proof (after_fcv_calm b) as Hf. rewrite Build_unfold by done.
  destruct (after_fcv b) as [[u|e|s] b1] eqn:E; [|done|by destruct (Hf s)].
  destruct (after_fcv_eq _ _ _ E) as [fcv ->].
  change (indices (b_members b)) with (indices (b_members (b <| b_fcv := fcv |>))).
  change (hostname b) with (hostname (b <| b_fcv := fcv |>)). by rewrite buildMembers_all.
Qed.

(** *** Sizes *)

Lemma next_bounds s :
  0 ≤ Scale.CurrentReplicas s → in_int64 (Scale.CurrentReplicas s) →
  0 ≤ Scale.DesiredReplicas s → in_int64 (Scale.DesiredReplicas s) →
  0 ≤ Scale.ReplicasThisReconciliation s ≤ Z.max (Scale.CurrentReplicas s) (Scale.DesiredReplicas s).
Proof.
  destruct s as [d c]. cbn. intros Hc Hc64 Hd Hd64. change (Scale.ReplicasThisReconciliation _) with (Scale.next d c).
  destruct (Z.eq_dec c 0) as [->|Hne]; [rewrite Scale.next_zero; lia|]. rewrite Scale.next_step by (done || lia).
  destruct (Z.eqb_spec c d); [lia|]. destruct (Z.ltb_spec d c); lia.
Qed.

(** What the operator relies on in a resource: an authentication mode, sizes that
    are sizes, and a horizon for every member of this reconciliation. *)
Record supported mdb : Prop := {
  has_modes : auth_modes mdb ≠ [];
  size_spec : in_int64 (V1.DesiredReplicas mdb);
  size_sts : 0 ≤ V1.CurrentReplicas mdb ∧ in_int64 (V1.CurrentReplicas mdb);
  size_config : 0 ≤ V1.st_CurrentMongoDBMembers (V1.mdb_Status mdb) ∧ in_int64 (V1.st_CurrentMongoDBMembers (V1.mdb_Status mdb));
  has_horizons : match V1.spec_ReplicaSetHorizons (V1.mdb_Spec mdb) with
                 | Some l => V1.AutomationConfigMembersThisReconciliation mdb ≤ Z.of_nat (length l)
                 | None => True
                 end;
}.

Lemma valid_members mdb : reconciler_validateSpec mdb = Ret () → 0 ≤ V1.DesiredReplicas mdb.
Proof.
  unfold reconciler_validateSpec, ValidateInitalSpec, ValidateUpdate, V1.DesiredReplicas.
  destruct (gm _ !! _) as [saved|]; [destruct (unmarshal_spec saved) as [old|]; [destruct (_ && _); [done|]|done]|];
    intros (_ & Hm & _)%validateSpec_iff; lia.
Qed.

Lemma calm_buildAutomationConfig mdb auth prev mods :
  supported mdb → 0 ≤ V1.DesiredReplicas mdb → calm (buildAutomationConfig mdb auth prev mods).
Proof.
  intros [_ Hs _ [Hc Hc64] Hh] Hd. apply calm_Build; [|exact Hh].
  by apply (next_bounds (V1.automationConfigReplicasScaler mdb)).
Qed.
Lemma supported_sts_members mdb :
  supported mdb → 0 ≤ V1.DesiredReplicas mdb → 0 ≤ V1.StatefulSetReplicasThisReconciliation mdb.
Proof. intros [_ Hs [Hc Hc64] _ _] Hd. by apply (next_bounds (V1.scaler mdb)). Qed.
End Pure.
#[export] Hint Resolve calm_computeScramShaCredentials calm_FromBytes calm_configureScram calm_GetScramOptions
  calm_MongoURI calm_MongoAuthUserURI calm_statefulSetPodNames calm_validateSpec calm_buildAutomationConfig
  supported_sts_members : safety.
#[export] Hint Extern 2 (calm (Ret _)) => done : safety.
#[export] Hint Extern 2 (calm (Err _)) => done : safety.

(** ** Packages secret, generate and scram *)

Section Components.
Context {api : K8sApi} `{!Semver, !Objx, !Mergo, !Cast, !Stringprep, !StringprepOk, !Environ, !Quantities, !MapOrder, !StsSpecJson}.
Context {W : Type} `{!KubeClient W, !KubeLaws W, !Entropy W, !EntropyOk W, !EntropyFrame W, !HasWatcher W, !WatcherFrame W}.
Context (rand_total : ∀ n (w : W), ∃ b w', rand_Read n w = (Ret b, w')).
Context (S : list NamespacedName).
Implicit Types mdb : V1.MongoDBCommunity.

Lemma safe_read k n : safe (W := W) S (Get k n) any.
Proof. eapply safe_any, safe_Get. Qed.
Lemma safe_CreateSecret s : is_Some (s_Data s) → safe (W := W) S (CreateSecret s) any.
Proof. intros Hs. by apply (safe_Create S KSecret). Qed.
Lemma safe_UpdateSecret s : is_Some (s_Data s) → safe (W := W) S (UpdateSecret s) any.
Proof. intros Hs. unfold UpdateSecret. eapply safe_bind; [by apply (safe_Update S KSecret)|]. intros _ _. by apply safe_ret. Qed.
Lemma safe_secret_ReadStringData n : safe (W := W) S (secret.ReadStringData n) any.
Proof. unfold secret.ReadStringData, GetSecret. pose proof (safe_read KSecret). safely. Qed.
Lemma safe_secret_ReadKey key n : safe (W := W) S (secret.ReadKey key n) any.
Proof. pose proof safe_secret_ReadStringData. unfold secret.ReadKey. safely. Qed.
Lemma safe_configmap_ReadData n : safe (W := W) S (configmap.ReadData n) any.
Proof. unfold configmap.ReadData, GetConfigMap. pose proof (safe_read KConfigMap). safely. Qed.
Lemma safe_secret_CreateOrUpdate s : is_Some (s_Data s) → safe (W := W) S (secret.CreateOrUpdate s) any.
Proof.
  intros Hs. pose proof (safe_CreateSecret s Hs). pose proof (safe_UpdateSecret s Hs). pose proof (safe_read KSecret).
  unfold secret.CreateOrUpdate, GetSecret. safely.
Qed.
Lemma safe_EnsureSecretWithKey n refs key value : safe (W := W) S (secret.EnsureSecretWithKey n refs key value) any.
Proof.
  pose proof (safe_read KSecret). unfold secret.EnsureSecretWithKey, GetSecret. safely. by apply safe_CreateSecret.
Qed.

(** Entropy: a source that delivers makes every slice long enough. *)
Lemma safe_total {A} (m : IO W A) :
  (∀ w, ∃ a w', m w = (Ret a, w')) → (∀ w r w', m w = (r, w') → cluster w' = cluster w) → safe S m any.
Proof.
  intros Hm Hc w r w' Hw E. rewrite (Hc _ _ _ E). split; [done|]. destruct (Hm w) as (a & w1 & E1).
  rewrite E1 in E. by injection E as <- _.
Qed.
Lemma cluster_RandomFixedLengthStringOfSize n (w : W) r w' :
  RandomFixedLengthStringOfSize n w = (r, w') → cluster w' = cluster w.
Proof.
  intros E. destruct (RandomFixedLengthStringOfSize_ok rand_total n w) as (b & w1 & E1). rewrite E1 in E.
  injection E as <- <-. by eapply rand_cluster.
Qed.
Lemma safe_RandomFixedLengthStringOfSize n : safe (W := W) S (RandomFixedLengthStringOfSize n) any.
Proof.
  apply safe_total; [by apply RandomFixedLengthStringOfSize_ok|]. apply cluster_RandomFixedLengthStringOfSize.
Qed.
Lemma safe_rand_Read n : safe (W := W) S (rand_Read n) any.
Proof. apply safe_total; [apply rand_total|]. intros w r w' E. by apply rand_Read_cluster in E. Qed.
Lemma safe_KeyFileContents : safe (W := W) S KeyFileContents any.
Proof. pose proof safe_rand_Read. unfold KeyFileContents, generateRandomString, generateRandomBytes. safely. Qed.
Lemma safe_salt h : (Size h ≤ 36)%nat → safe (W := W) S (salt h) any.
Proof.
  intros Hh. pose proof (safe_RandomFixedLengthStringOfSize 20). unfold salt. eapply safe_bind; [done|]. intros s _.
  intros w r w' Hw. unfold slice_to. change (sha256_sum s) with (Sum sha256_New s). rewrite Sum_length.
  destruct (Nat.leb_spec (Size h - Z.to_nat RFC5802MandatedSaltSize) (Size sha256_New)) as [_|Hlt]; [by intros [= <- <-]|].
  unfold RFC5802MandatedSaltSize in Hlt. cbn [Size sha256_New] in Hlt. lia.
Qed.
Lemma safe_generate u p : safe (W := W) S (generateScramShaCredentials u p) any.
Proof.
  assert (safe (W := W) S (salt sha1_New) any) by (apply safe_salt; cbn; lia).
  assert (safe (W := W) S (salt sha256_New) any) by (apply safe_salt; cbn; lia).
  unfold generateScramShaCredentials, Salts. safely. auto with safety.
Qed.

Lemma safe_readExistingCredentials n name : safe (W := W) S (readExistingCredentials n name) any.
Proof. pose proof (safe_read KSecret). unfold readExistingCredentials, GetSecret. safely. Qed.
Lemma safe_needToGenerate u name n p : safe (W := W) S (needToGenerateNewCredentials u name n p) any.
Proof.
  pose proof safe_readExistingCredentials. pose proof (safe_read KSecret).
  unfold needToGenerateNewCredentials, GetSecret. safely. auto with safety.
Qed.
Lemma safe_ensureScramCredentials user n : safe (W := W) S (ensureScramCredentials user n) any.
Proof.
  pose proof safe_readExistingCredentials. pose proof safe_needToGenerate. pose proof safe_generate.
  pose proof safe_secret_ReadKey. unfold ensureScramCredentials, createScramCredentialsSecret. safely.
  by apply safe_secret_CreateOrUpdate.
Qed.
Lemma safe_Enable auth mdb : auth_modes mdb ≠ [] → safe (W := W) S (Enable auth mdb) any.
Proof.
  intros Hm. pose proof safe_RandomFixedLengthStringOfSize. pose proof safe_KeyFileContents.
  pose proof safe_EnsureSecretWithKey. pose proof safe_ensureScramCredentials.
  assert (safe (W := W) S (convertMongoDBResourceUsersToAutomationConfigUsers mdb) any).
  { apply safe_map_each. intros u _. unfold convertMongoDBUserToAutomationConfigUser. safely. }
  unfold Enable. safely; [by apply calm_GetScramOptions | auto with safety].
Qed.

(** ** The automation config *)

Lemma safe_EnsureSecret n owner ac : n ∈ S → safe (W := W) S (EnsureSecret n owner ac) any.
Proof.
  intros Hn. unfold EnsureSecret, createNewAutomationConfigSecret, GetSecret.
  eapply safe_bind; [apply safe_attempt, (safe_Get S KSecret)|]. intros [s|e] Hs.
  - destruct (Hs Hn) as [d Hd]. rewrite Hd. destruct (gm (Some d) !! ConfigKey) as [bytes|].
    + eapply safe_bind; [apply safe_lift, calm_FromBytes|]. intros old _. destruct (AreEqual ac old); [by apply safe_ret|].
      eapply safe_bind; [by apply safe_UpdateSecret|]. intros _ _. by apply safe_ret.
    + eapply safe_bind; [by apply safe_UpdateSecret|]. intros _ _. by apply safe_ret.
  - destruct (IsNotFound e); [|apply safe_throw]. eapply safe_bind; [by apply safe_CreateSecret|].
    intros _ _. by apply safe_ret.
Qed.
Lemma safe_getCertAndKey mdb : safe (W := W) S (getCertAndKey mdb) any.
Proof. pose proof safe_secret_ReadKey. unfold getCertAndKey. safely. Qed.
Lemma safe_getTLSConfigModification mdb : safe (W := W) S (getTLSConfigModification mdb) any.
Proof. pose proof safe_getCertAndKey. unfold getTLSConfigModification. safely. Qed.

(** ** The steps *)

Lemma safe_ensureService mdb : safe (W := W) S (ensureService mdb) any.
Proof.
  assert (safe (W := W) S (CreateService (buildService mdb)) any) by by apply (safe_Create S KService).
  unfold ensureService. safely.
Qed.
Lemma safe_Watch a b : safe (W := W) S (secretWatcher_Watch a b) any.
Proof. intros w r w' Hw [= <- <-]. by rewrite cluster_set_watched. Qed.
Lemma safe_validateTLSConfig mdb : safe (W := W) S (validateTLSConfig mdb) any.
Proof.
  pose proof safe_configmap_ReadData. pose proof safe_secret_ReadStringData. pose proof safe_Watch.
  unfold validateTLSConfig. safely.
Qed.
Lemma safe_ensureTLSResources mdb : safe (W := W) S (ensureTLSResources mdb) any.
Proof.
  pose proof safe_getCertAndKey. unfold ensureTLSResources, ensureTLSSecret. safely. by apply safe_secret_CreateOrUpdate.
Qed.
Lemma safe_ensureUserResources mdb : safe (W := W) S (ensureUserResources mdb) any.
Proof.
  pose proof safe_secret_ReadKey. pose proof (safe_read KSecret). pose proof safe_Watch.
  apply safe_for_each. intros u _. unfold ensure_user_resource, GetSecret. safely.
Qed.
Lemma safe_check_pods ns target names : ∀ l, safe (W := W) S (check_pods ns target names l) any.
Proof.
  pose proof (safe_read KPod). induction names as [|name names IH]; intros l; cbn [check_pods]; unfold GetPod; safely.
Qed.
Lemma safe_AllReachedGoalState sts n target : 0 ≤ n → safe (W := W) S (AllReachedGoalState sts n target) any.
Proof. intros Hn. pose proof safe_check_pods. unfold AllReachedGoalState. safely. auto with safety. Qed.
Lemma safe_deployStatefulSet mdb : safe (W := W) S (deployStatefulSet mdb) any.
Proof.
  pose proof (safe_read KStatefulSet).
  assert (∀ base, safe (W := W) S (statefulset.CreateOrUpdate (buildStatefulSetModificationFunction mdb base)) any).
  { intros base. unfold statefulset.CreateOrUpdate, GetStatefulSet. safely.
    - by apply (safe_Update S KStatefulSet).
    - apply (safe_Create S KStatefulSet); [apply built_storable | done]. }
  unfold deployStatefulSet, createOrUpdateStatefulSet, GetStatefulSet. safely.
Qed.
Lemma safe_shouldRunInOrder mdb : safe (W := W) S (shouldRunInOrder mdb) any.
Proof. pose proof (safe_read KStatefulSet). unfold shouldRunInOrder, GetStatefulSet. safely. Qed.
Lemma safe_ResetUpdateStrategy mdb : safe (W := W) S (statefulset.ResetUpdateStrategy mdb) any.
Proof.
  pose proof (safe_read KStatefulSet). unfold statefulset.ResetUpdateStrategy, statefulset.GetAndUpdate, GetStatefulSet.
  safely. by apply (safe_Update S KStatefulSet).
Qed.
Lemma safe_updateConnectionStringSecrets mdb :
  0 ≤ V1.DesiredReplicas mdb → safe (W := W) S (updateConnectionStringSecrets mdb) any.
Proof.
  intros Hm. pose proof safe_secret_ReadKey. apply safe_for_each. intros u _. unfold update_connection_string. safely.
  - auto with safety.
  - by apply safe_secret_CreateOrUpdate.
Qed.
Lemma safe_status_Update mdb options : safe (W := W) S (status_Update mdb options) any.
Proof.
  unfold status_Update. eapply safe_bind; [apply safe_UpdateStatus|]. intros _ _.
  destruct (determineReconciliationResult options) as [res [e|]]; [apply safe_throw | by apply safe_ret].
Qed.
End Components.

(** ** Reconcile *)

Section Reconcile.
Context {api : K8sApi} `{!Semver, !Objx, !Mergo, !Cast, !Stringprep, !StringprepOk, !Environ, !Quantities, !MapOrder, !StsSpecJson}.
Context {W : Type} `{!KubeClient W, !KubeLaws W, !PatchOk W, !Entropy W, !EntropyOk W, !EntropyFrame W, !HasWatcher W, !WatcherFrame W}.
Context (rand_total : ∀ n (w : W), ∃ b w', rand_Read n w = (Ret b, w')).
Implicit Types mdb : V1.MongoDBCommunity.

(** A secret that was read as a config has data. *)
Lemma ReadFromSecret_data n (w : W) r w' :
  ReadFromSecret n w = (r, w') → calm r ∧ ∀ ac, r = Ret ac → data_ok [n] (cluster w').
Proof.
  unfold ReadFromSecret. intros E. apply bind_inv in E as [(x & w1 & E1 & E)|[(e & E1 & ->)|(s & E1 & ->)]].
  - apply (attempt_Get_inv KSecret) in E1 as [HC [(s & [= ->] & Hs)|(e & [= ->] & He)]].
    + injection E as <- <-. split; [apply calm_FromBytes|]. intros ac Hac n' s' ->%list_elem_of_singleton Hs'.
      rewrite HC, Hs in Hs'. injection Hs' as <-. destruct (s_Data s); [eauto|done].
    + destruct (IsNotFound e); injection E as <- <-; [|done]. split; [done|]. intros _ _ n' s' ->%list_elem_of_singleton Hs'.
      by rewrite HC, He in Hs'.
  - unfold attempt in E1. by destruct (GetSecret n w) as [[]].
  - unfold attempt in E1. destruct (GetSecret n w) as [[]] eqn:Eg; [done..|].
    by destruct (Get_law KSecret n w _ _ Eg) as [_ []].
Qed.

Lemma buildAutomationConfig_data mdb (w : W) r w' :
  supported mdb → 0 ≤ V1.DesiredReplicas mdb → reconciler_buildAutomationConfig mdb w = (r, w') →
  calm r ∧ ∀ ac, r = Ret ac → data_ok [config_key mdb] (cluster w').
Proof.
  intros Hs Hd E. unfold reconciler_buildAutomationConfig in E.
  apply bind_inv in E as [(m & w1 & E1 & E)|[(e & E1 & ->)|(s & E1 & ->)]]; [|done|].
  2: { by destruct (safe_wrap [] _ _ any (safe_getTLSConfigModification [] mdb) _ _ _ (data_ok_nil _) E1). }
  apply bind_inv in E as [(ac & w2 & E2%wrap_Ret_inv & E)|[(e & E2 & ->)|(s & E2 & ->)]]; [|done|].
  2: { unfold wrap in E2. destruct (ReadFromSecret _ w1) as [[]] eqn:Er; [done..|].
       apply ReadFromSecret_data in Er as [Hc _]. by destruct (Hc site). }
  apply ReadFromSecret_data in E2 as [_ Hdata]. specialize (Hdata ac eq_refl).
  pose proof (safe_Enable rand_total [config_key mdb] emptyAuth mdb (has_modes _ Hs)) as He.
  assert (safe (W := W) [config_key mdb] (auth <- wrap (prefix_error "could not configure scram authentication: ") (Enable emptyAuth mdb) ;;
    lift (buildAutomationConfig mdb auth ac [m; getCustomRolesModification mdb])) any) as Hrest
    by (safely; by apply calm_buildAutomationConfig).
  destruct (Hrest _ _ _ Hdata E) as [Hw Hr]. split; [by destruct r|]. by intros.
Qed.

Lemma safe_ensureAutomationConfig mdb :
  supported mdb → 0 ≤ V1.DesiredReplicas mdb → safe (W := W) [] (ensureAutomationConfig mdb) any.
Proof.
  intros Hs Hd w r w' Hw E. split; [apply data_ok_nil|]. unfold ensureAutomationConfig in E.
  apply bind_inv in E as [(ac & w1 & E1%wrap_Ret_inv & E)|[(e & E1 & ->)|(s & E1 & ->)]]; [|done|].
  - apply buildAutomationConfig_data in E1 as [_ Hdata]; [|done..].
    apply (safe_EnsureSecret [config_key mdb] _ _ _ (list_elem_of_here _ _)) in E as [_ HE]; [|by apply (Hdata ac)].
    exact HE.
  - unfold wrap in E1. destruct (reconciler_buildAutomationConfig mdb w) as [[]] eqn:Eb; [done..|].
    apply buildAutomationConfig_data in Eb as [Hc _]; [|done..]. by destruct (Hc site).
Qed.

Lemma safe_deployAutomationConfig mdb :
  supported mdb → 0 ≤ V1.DesiredReplicas mdb → safe (W := W) [] (deployAutomationConfig mdb) any.
Proof.
  intros Hs Hd. pose proof (safe_ensureAutomationConfig mdb Hs Hd). pose proof (safe_read (W := W) [] KStatefulSet).
  pose proof (λ sts n, safe_AllReachedGoalState (W := W) [] sts _ n (supported_sts_members mdb Hs Hd)).
  unfold deployAutomationConfig, GetStatefulSet. safely.
Qed.
Lemma safe_deploy mdb :
  supported mdb → 0 ≤ V1.DesiredReplicas mdb → safe (W := W) [] (deployMongoDBReplicaSet mdb) any.
Proof.
  intros Hs Hd. pose proof (safe_deployAutomationConfig mdb Hs Hd). pose proof (safe_deployStatefulSet (W := W) [] mdb).
  unfold deployMongoDBReplicaSet. eapply safe_bind; [apply safe_shouldRunInOrder|]. intros [] _; cbn.
  - safely.
  - unfold Functions.runReversed. cbn. safely.
Qed.

Lemma safe_SetAnnotations n (a : gmap string string) : safe (W := W) [] (annotations.SetAnnotations n a) any.
Proof.
  unfold annotations.SetAnnotations. eapply safe_bind; [apply (safe_read [] KMongoDB)|]. intros o _.
  by apply safe_Patch.
Qed.
Lemma safe_finish mdb : 0 ≤ V1.DesiredReplicas mdb → safe (W := W) [] (finish mdb) any.
Proof.
  intros Hd. pose proof (safe_status_Update (W := W) []). pose proof safe_SetAnnotations.
  unfold finish, updateLastSuccessfulConfiguration. destruct (Scale.IsStillScaling _); [safely|].
  eapply safe_bind; [by apply safe_lift, calm_MongoURI|]. intros uri _.
  eapply safe_bind.
  { intros w r w' Hw E. destruct (safe_status_Update [] mdb _ w r w' Hw E) as [Hw1 Hr1]. split; [exact Hw1|].
    destruct r as [x|e|s]; [|exact I|exact Hr1].
    instantiate (1 := λ x, V1.DesiredReplicas x.1 = V1.DesiredReplicas mdb). cbn.
    unfold status_Update in E. apply bind_Ret_inv in E as (u & w1 & _ & E).
    destruct (determineReconciliationResult _) as [res [e|]]; [done|]. injection E as <- _.
    unfold withMessage. by destruct (IsTransientMessage ""). }
  intros [m res] Hm. cbn [fst] in Hm. pose proof (safe_updateConnectionStringSecrets (W := W) [] m) as Hu.
  rewrite Hm in Hu. specialize (Hu Hd). safely.
Qed.

Lemma safe_or_fail {A} mdb text (step : IO W A) cont (Q : A → Prop) :
  safe [] step Q → (∀ a, Q a → safe [] (cont a) any) → safe [] (or_fail mdb text step cont) any.
Proof.
  intros Hs Hc. unfold or_fail, fail_with. eapply safe_bind; [by apply safe_attempt|]. intros [a|e] Ha; [by apply Hc|].
  pose proof (safe_status_Update (W := W) []). safely.
Qed.
Lemma safe_pending mdb msg : safe (W := W) [] (pending_with mdb msg) any.
Proof. pose proof (safe_status_Update (W := W) []). unfold pending_with. safely. Qed.

Lemma safe_prepare_and_deploy mdb :
  supported mdb → 0 ≤ V1.DesiredReplicas mdb → safe (W := W) [] (prepare_and_deploy mdb) any.
Proof.
  intros Hs Hd. unfold prepare_and_deploy.
  eapply safe_or_fail; [apply safe_ensureService|]. intros _ _.
  eapply safe_or_fail; [apply safe_validateTLSConfig|]. intros [] _; cbn [negb]; [|apply safe_pending].
  eapply safe_or_fail; [apply safe_ensureTLSResources|]. intros _ _.
  eapply safe_or_fail; [apply safe_ensureUserResources|]. intros _ _. unfold deploy_and_finish.
  eapply safe_or_fail; [by apply safe_deploy|]. intros [] _; cbn [negb]; [|apply safe_pending].
  eapply safe_or_fail; [apply safe_ResetUpdateStrategy|]. intros _ _. by apply safe_finish.
Qed.

(** [C9] A reconciliation never crashes the operator: whatever the cluster holds and
    whichever calls to the API server fail, if the entropy source delivers, SASLprep and
    patches answer, and the resource is [supported] - it names an authentication mode,
    its sizes are sizes, and it has no horizons or one for every member the config gets
    this time - then [Reconcile] ends with a result or an error.  (A spec without
    modes, or with fewer horizons, passes validation and does panic.) *)
Theorem Reconcile_never_panics (request : NamespacedName) (w : W) site :
  (∀ mdb, stored (cluster w) KMongoDB request = Some mdb → supported mdb) →
  (Reconcile request w).1 ≠ Panic site.
Proof.
  intros Hsup E. destruct (Reconcile request w) as [r w'] eqn:ER. cbn in E. subst r. unfold Reconcile in ER.
  apply bind_inv in ER as [(x & w1 & E1 & E)|[(e & E1 & ?)|(s & E1 & [= <-])]]; [|done|].
  - apply (attempt_Get_inv KMongoDB) in E1 as [HC [(mdb & [= ->] & Hm)|(e & [= ->] & He)]];
      [|by destruct (IsNotFound e)].
    specialize (Hsup mdb Hm).
    assert (safe [] (or_fail mdb "error validating new Spec: " (lift (reconciler_validateSpec mdb))
      (λ _, prepare_and_deploy mdb)) (any (A := Result))) as Hs.
    { eapply safe_or_fail; [apply safe_lift, calm_validateSpec|]. intros [] Hv. apply safe_prepare_and_deploy; [done|].
      by apply valid_members. }
    by destruct (Hs _ _ _ (data_ok_nil _) E).
  - unfold attempt in E1. destruct (Get KMongoDB request w) as [[]] eqn:Eg; [done..|].
    by destruct (Get_law KMongoDB request w _ _ Eg) as [_ []].
Qed.
End Reconcile.
