(* ===== verification/SettleFacts.v ===== *)
(** * The automation config settles

    Successive reconciliations of one resource: as long as its spec and its secrets are
    what they were, the config the agents run is not touched again. *)
From S2P Require Import Prelude GoStd K8s MergeByKey Merge Scale Json Codec Hashes Base64 ScramCreds ACTypes.
From S2P Require Import ACBuilder ACFacts ACTheorems ACUpgrade Types Kube KubeOps KubeFacts ACSecret Scram ScramFacts.
From S2P Require Import Validation Status Watch Agent SpecJson PodMods StsMods Construct Tls TlsFacts Reconciler.
From S2P Require Import Frames ReconcilerFrames ConfigFacts.
Local Open Scope Z_scope.

#[local] Strategy expand [buildAutomationConfig].

Section Facts.
Context {api : K8sApi} `{!Semver, !SemverLaws, !Objx, !Mergo, !Cast, !Stringprep, !Environ, !Quantities, !MapOrder, !StsSpecJson}.
Context {W : Type} `{!KubeClient W, !KubeLaws W, !Entropy W, !EntropyFrame W, !HasWatcher W, !WatcherFrame W}.
Implicit Types mdb : V1.MongoDBCommunity.

(** ** What the config is built from *)

(** The TLS modification of a cluster, when its certificate can be read. *)
Definition tls_part (c : cluster_state) mdb (m : Modification) : Prop :=
  if V1.tls_enabled mdb then
    ∃ cert key, secret_field c (V1.TLSSecretNamespacedName mdb) tlsSecretCertName = Some cert
      ∧ secret_field c (V1.TLSSecretNamespacedName mdb) tlsSecretKeyName = Some key
      ∧ m = tlsConfigModification mdb (combineCertificateAndKey cert key)
  else m = (λ ac, ac).

Lemma tls_part_functional c mdb m m' : tls_part c mdb m → tls_part c mdb m' → m' = m.
Proof.
  unfold tls_part. destruct (V1.tls_enabled mdb); [|by intros -> ->].
  intros (cert & key & Hc & Hk & ->) (cert' & key' & Hc' & Hk' & ->). by simplify_eq.
Qed.
Lemma tls_part_ignores c mdb m :
  tls_part c mdb m → ignores_version [getMongodConfigModification mdb; m; getCustomRolesModification mdb].
Proof.
  intros Hm. repeat constructor; [|unfold getCustomRolesModification; by destruct (V1.sec_Roles _)].
  unfold tls_part in Hm. destruct (V1.tls_enabled mdb); [by destruct Hm as (? & ? & _ & _ & ->)|by subst m].
Qed.
Lemma tls_part_shape c mdb m : tls_part c mdb m → m = (λ ac, ac) ∨ ∃ certKey, m = tlsConfigModification mdb certKey.
Proof. unfold tls_part. destruct (V1.tls_enabled mdb); [|auto]. intros (? & ? & _ & _ & ->). eauto. Qed.

Lemma getTLSConfigModification_part mdb (w : W) m w' :
  getTLSConfigModification mdb w = (Ret m, w') → cluster w' = cluster w ∧ tls_part (cluster w) mdb m.
Proof.
  unfold getTLSConfigModification, tls_part. destruct (V1.tls_enabled mdb); cbn [negb]; [|by intros [= <- <-]].
  intros E. apply bind_Ret_inv in E as (ck & w1 & [HC (cert & key & Hc & Hk & ->)]%getCertAndKey_Ret & [= <- <-]). eauto 6.
Qed.

(** One run: its inputs, and the config they give. *)
Definition desired_config mdb (m : Modification) (prev : AutomationConfig) (auth : Auth) : outcome AutomationConfig :=
  buildAutomationConfig mdb auth prev [m; getCustomRolesModification mdb].

Lemma build_inputs mdb (w : W) ac w' :
  reconciler_buildAutomationConfig mdb w = (Ret ac, w') →
  ∃ m prev auth w1, tls_part (cluster w) mdb m ∧ previous_config (cluster w) mdb prev
    ∧ cluster w1 = cluster w ∧ Enable emptyAuth mdb w1 = (Ret auth, w') ∧ desired_config mdb m prev auth = Ret ac.
Proof.
  unfold reconciler_buildAutomationConfig. intros E.
  apply bind_Ret_inv in E as (m & w1 & [HC1 Hm]%wrap_Ret_inv%getTLSConfigModification_part & E).
  apply bind_Ret_inv in E as (prev & w2 & [HC2 Hp]%wrap_Ret_inv%ReadFromSecret_previous & E).
  apply bind_Ret_inv in E as (auth & w3 & E3%wrap_Ret_inv & E). unfold lift in E. injection E as E <-.
  rewrite HC1 in *. exists m, prev, auth, w2. unfold desired_config. by split_and!.
Qed.

Lemma config_builder_again mdb auth prev ac mods :
  config_builder mdb auth ac mods = SetPreviousAutomationConfig ac (config_builder mdb auth prev mods).
Proof. reflexivity. Qed.

Lemma desired_config_again c mdb m prev auth ac :
  CalculateFeatureCompatibilityVersion (V1.spec_Version (V1.mdb_Spec mdb)) ≠ "" → tls_part c mdb m →
  desired_config mdb m prev auth = Ret ac → desired_config mdb m ac auth = Ret ac.
Proof.
  unfold desired_config, buildAutomationConfig. intros Hv Hm E. rewrite (config_builder_again mdb auth prev).
  destruct (config_builder_parts mdb auth prev m (getCustomRolesModification mdb)) as (Hmods & _ & _).
  apply Build_stable; [done| | |constructor|done]; rewrite Hmods.
  - by eapply tls_part_ignores.
  - apply modifications_keep; [by apply processes_part_kept|by eapply tls_part_shape].
Qed.

(** ** The secrets involved *)

(** The secrets the config is made from: the config of the last time, those of the
    agents, the certificate, and the users' passwords and credentials. *)
Definition config_input mdb (n : NamespacedName) : Prop :=
  n = config_key mdb ∨ n ∈ agent_keys mdb ∨ (V1.tls_enabled mdb = true ∧ n = V1.TLSSecretNamespacedName mdb)
  ∨ ∃ u, u ∈ V1.GetScramUsers mdb ∧ (n = password_key u (V1.NamespacedName_ mdb) ∨ n = user_creds_key u (V1.NamespacedName_ mdb)).
Lemma config_input_namespace mdb n : config_input mdb n → nn_Namespace n = V1.Namespace mdb.
Proof.
  unfold config_input, agent_keys. rewrite !elem_of_cons, elem_of_nil.
  by intros [->|[[->|[->|[]]]|[[_ ->]|(u & _ & [->| ->])]]].
Qed.
Definition same_secrets mdb (c c' : cluster_state) : Prop :=
  ∀ n, config_input mdb n → stored c' KSecret n = stored c KSecret n.

(** The secret of the config, the users' and the agents' are different objects, and
    none of those that are written is the certificate. *)
Record config_apart mdb : Prop := {
  apart_users : secrets_apart mdb;
  apart_config : ∀ u, u ∈ V1.GetScramUsers mdb →
    password_key u (V1.NamespacedName_ mdb) ≠ config_key mdb ∧ user_creds_key u (V1.NamespacedName_ mdb) ≠ config_key mdb;
  apart_tls : V1.tls_enabled mdb = true →
    V1.TLSSecretNamespacedName mdb ≠ config_key mdb ∧ (V1.TLSSecretNamespacedName mdb ∉ agent_keys mdb)
    ∧ ∀ u, u ∈ V1.GetScramUsers mdb → user_creds_key u (V1.NamespacedName_ mdb) ≠ V1.TLSSecretNamespacedName mdb;
}.

Definition written_keys mdb : list NamespacedName :=
  map (λ u, user_creds_key u (V1.NamespacedName_ mdb)) (V1.GetScramUsers mdb) ++ agent_keys mdb.

Lemma config_key_not_agent mdb : config_key mdb ∉ agent_keys mdb.
Proof.
  unfold agent_keys. rewrite !elem_of_cons, elem_of_nil. intros [[= E]|[[= E]|[]]]; by apply (inj (String.append _)) in E.
Qed.
Lemma config_key_not_written mdb : config_apart mdb → config_key mdb ∉ written_keys mdb.
Proof.
  intros [_ Hc _]. unfold written_keys. rewrite elem_of_app. intros [(u & Hu & Hin)%list_elem_of_fmap|Ha].
  - by destruct (Hc u Hin) as [_ []].
  - by apply config_key_not_agent in Ha.
Qed.
Lemma tls_key_not_written mdb :
  config_apart mdb → V1.tls_enabled mdb = true → V1.TLSSecretNamespacedName mdb ∉ written_keys mdb ++ [config_key mdb].
Proof.
  intros [_ _ Ht] Htls. destruct (Ht Htls) as (Hc & Ha & Hu). unfold written_keys.
  rewrite !elem_of_app, list_elem_of_singleton. intros [[(u & E & Hin)%list_elem_of_fmap|?]|?]; [|done..].
  by destruct (Hu u Hin).
Qed.

Lemma secret_field_same c c' n key : stored c' KSecret n = stored c KSecret n → secret_field c' n key = secret_field c n key.
Proof. unfold secret_field. by intros ->. Qed.

Lemma enabled_same c c' mdb auth auth' :
  (∀ n, (n ∈ agent_keys mdb ∨ ∃ u, u ∈ V1.GetScramUsers mdb ∧ (n = password_key u (V1.NamespacedName_ mdb)
     ∨ n = user_creds_key u (V1.NamespacedName_ mdb))) → stored c' KSecret n = stored c KSecret n) →
  enabled c mdb auth auth' → enabled c' mdb auth auth'.
Proof.
  intros Hs (opts & users & pw & key & Ho & HF & Hpw & Hkey & Hc).
  exists opts, users, pw, key. split; [done|]. split_and!; [| |  |done].
  - apply Forall2_same_length_lookup_2; [by eapply Forall2_length|].
    intros i u y Hu Hy. destruct (Forall2_lookup_lr _ _ _ _ _ _ HF Hu Hy) as (creds & -> & Hset).
    assert (u ∈ V1.GetScramUsers mdb) as Hin by (by eapply list_elem_of_lookup_2).
    pose proof (Hs (password_key u (V1.NamespacedName_ mdb)) ltac:(eauto)) as Ep.
    pose proof (Hs (user_creds_key u (V1.NamespacedName_ mdb)) ltac:(eauto 6)) as Ec.
    exists creds. split; [done|]. unfold user_settled in *. rewrite (secret_field_same c c') by done.
    destruct (secret_field c _ _); [|by rewrite Ec].
    destruct Hset as (s' & d1 & d2 & Hs' & Hrest). exists s', d1, d2. split; [|exact Hrest]. rewrite <- Hs'. exact Ec.
  - unfold secret_value. rewrite Hs; [done|]. left. apply list_elem_of_here.
  - unfold secret_value. rewrite Hs; [done|]. left. apply list_elem_of_further, list_elem_of_here.
Qed.

(** ** Two runs *)

Lemma previous_stored c mdb prev ac :
  previous_config c mdb prev → stored_config c (config_key mdb) = Some ac → prev = ac.
Proof.
  unfold previous_config, stored_config. destruct (stored c KSecret (config_key mdb)) as [s|]; [|done].
  destruct (gm (s_Data s) !! ConfigKey) as [bytes|]; [|done].
  change (default "" (Some bytes)) with bytes. intros ->. by intros [= ->].
Qed.
Lemma stored_config_same c c' n : stored c' KSecret n = stored c KSecret n → stored_config c' n = stored_config c n.
Proof. unfold stored_config. by intros ->. Qed.

(** What a run leaves behind: the inputs it used, which are those of any later run
    over the same secrets, and its config, which such a run builds again. *)
Record settled (c : cluster_state) mdb (ac : AutomationConfig) : Prop := {
  settled_config : stored_config c (config_key mdb) = Some ac;
  settled_inputs : ∃ m auth, tls_part c mdb m ∧ enabled c mdb emptyAuth auth
    ∧ ∃ desired, desired_config mdb m ac auth = Ret desired ∧ AreEqual desired ac = true;
}.

Lemma first_run_settles mdb (w : W) ac w1 :
  keys_ok (cluster w) → config_apart mdb → json_wf ac = true →
  CalculateFeatureCompatibilityVersion (V1.spec_Version (V1.mdb_Spec mdb)) ≠ "" →
  ensureAutomationConfig mdb w = (Ret ac, w1) → settled (cluster w1) mdb ac.
Proof.
  intros Hw Hap Hwf Hv E. unfold ensureAutomationConfig in E. apply bind_Ret_inv in E as (desired & wb & E1%wrap_Ret_inv & E2).
  pose proof (proj1 (writes_run _ _ _ _ _ _ (writes_buildAutomationConfig _ mdb (secrets_only mdb)) Hw E1)) as Hwb.
  apply build_inputs in E1 as (m & prev & auth & wa & Hm & Hp & HC & He & Hd).
  apply Enable_enabled in He as [Hen HA]; [|apply Hap]. rewrite HC in HA. fold (written_keys mdb) in HA.
  apply (EnsureSecret_cases (config_key mdb)) in E2; [|by intros ? ?%Hwb].
  assert (agree_off [config_key mdb] (cluster wb) (cluster w1)) as HB.
  { destruct E2 as [[_ ->]|[_ (s & -> & Hk & _)]]; [apply agree_off_refl|by apply agree_off_put]. }
  split.
  - destruct E2 as [[[Hs _] ->]|[-> (s & -> & <- & Hb & _)]]; [done|]. by apply stored_config_put.
  - exists m, auth. split_and!.
    + unfold tls_part in *. destruct (V1.tls_enabled mdb) eqn:Htls; [|done]. destruct Hm as (cert & key & Hc & Hk & ->).
      exists cert, key. pose proof (tls_key_not_written mdb Hap Htls) as Hn.
      pose proof (agree_off_trans _ _ _ _ _ HA HB) as HAB.
      by rewrite !(secret_field_agree _ _ _ _ _ HAB).
    + eapply enabled_same; [|exact Hen]. intros n Hn. apply HB. right. rewrite list_elem_of_singleton.
      intros ->. destruct Hn as [Hn|(u & Hu & Hn)]; [by apply config_key_not_agent in Hn|].
      destruct (apart_config _ Hap u Hu). by destruct Hn.
    + destruct E2 as [[[Hs Ha] _]|[-> _]].
      * exists desired. split; [|done]. replace ac with prev; [done|]. eapply previous_stored; [exact Hp|].
        rewrite <- Hs. symmetry. apply stored_config_same, HA. right. by apply config_key_not_written.
      * exists desired. split; [by eapply desired_config_again|].
        rewrite <- (set_version_same desired) at 1. apply AreEqual_refl.
Qed.

Lemma settled_same mdb c c' ac : same_secrets mdb c c' → settled c mdb ac → settled c' mdb ac.
Proof.
  intros Hs [Hc (m & auth & Hm & He & Hd)]. unfold same_secrets, config_input in Hs. split.
  - rewrite <- Hc. apply stored_config_same, Hs. by left.
  - exists m, auth. split_and!; [| |done].
    + unfold tls_part in *. destruct (V1.tls_enabled mdb); [|done]. destruct Hm as (cert & key & Hcert & Hkey & ->).
      exists cert, key. by rewrite !(secret_field_same c c') by (apply Hs; tauto).
    + eapply enabled_same; [|exact He]. intros n Hn. apply Hs. tauto.
Qed.

Lemma later_run_keeps mdb (w : W) ac ac' w' :
  keys_ok (cluster w) → settled (cluster w) mdb ac →
  ensureAutomationConfig mdb w = (Ret ac', w') → ac' = ac ∧ cluster w' = cluster w.
Proof.
  intros Hw [Hc (m & auth & Hm & He & desired & Hd & Heq)] E. unfold ensureAutomationConfig in E.
  apply bind_Ret_inv in E as (desired' & wb & E1%wrap_Ret_inv & E2).
  apply build_inputs in E1 as (m' & prev & auth' & wa & Hm' & Hp & HC & He' & Hd').
  rewrite <- HC in He. destruct (Enable_settled _ _ _ _ _ _ He He') as [-> HC2]. rewrite HC in HC2.
  assert (m' = m) as -> by (by eapply tls_part_functional).
  assert (prev = ac) as -> by (by eapply previous_stored).
  assert (desired' = desired) as -> by congruence.
  rewrite <- HC2 in Hw, Hc. apply (EnsureSecret_cases (config_key mdb)) in E2; [|by intros ? ?%Hw].
  destruct E2 as [[[Hs _] ->]|[-> (s & _ & _ & _ & Hold)]].
  - split; [congruence|done].
  - rewrite (Hold ac Hc) in Heq. done.
Qed.

(** The resource a later reconciliation reads: its status and annotations have been
    written in between. *)
Definition touched mdb (status : V1.MongoDBCommunityStatus) (anns : GoMap string) : V1.MongoDBCommunity :=
  mdb <| V1.mdb_Status := status |> <| V1.mdb_ObjectMeta ::= λ om, om <| om_Annotations := anns |> |>.

Lemma config_builder_touched mdb status anns auth ac mods :
  V1.AutomationConfigMembersThisReconciliation (touched mdb status anns) = V1.AutomationConfigMembersThisReconciliation mdb →
  config_builder (touched mdb status anns) auth ac mods = config_builder mdb auth ac mods.
Proof. intros Hm. unfold config_builder. rewrite Hm. reflexivity. Qed.

Lemma ensureAutomationConfig_touched mdb status anns (w : W) :
  V1.AutomationConfigMembersThisReconciliation (touched mdb status anns) = V1.AutomationConfigMembersThisReconciliation mdb →
  ensureAutomationConfig (touched mdb status anns) w = ensureAutomationConfig mdb w.
Proof.
  intros Hm. unfold ensureAutomationConfig, reconciler_buildAutomationConfig, buildAutomationConfig.
  unfold bind, wrap. change (getTLSConfigModification (touched mdb status anns) w) with (getTLSConfigModification mdb w).
  destruct (getTLSConfigModification mdb w) as [[m|e|s] w1]; [|done..].
  change (V1.AutomationConfigSecretName (touched mdb status anns)) with (V1.AutomationConfigSecretName mdb).
  change (V1.Namespace (touched mdb status anns)) with (V1.Namespace mdb).
  destruct (ReadFromSecret _ w1) as [[prev|e|s] w2]; [|done..].
  change (Enable emptyAuth (touched mdb status anns) w2) with (Enable emptyAuth mdb w2).
  destruct (Enable emptyAuth mdb w2) as [[auth|e|s] w3]; [|done..].
  by rewrite config_builder_touched.
Qed.

(** [C14] The config settles: once [ensureAutomationConfig] has ensured the automation
    config, running it again in a later reconciliation of the same resource ensures the
    very same config, version included, and writes nothing, provided that the spec and the
    number of members of the config are the same, and so are the secrets the config is
    made from ([config_input]: the certificate, the passwords and credentials, the agents'
    secrets and the config itself).  These secrets have to be different objects
    ([config_apart]), the MongoDB version one with a feature compatibility version, and
    the JSON of the config has to read back ([json_wf]).  Neither fresh randomness, nor a new status or new
    annotations, nor a change of any other object makes the agents start a new
    deployment. *)
Theorem config_settles mdb status anns (w w2 : W) ac w1 ac' w3 :
  keys_ok (cluster w) → keys_ok (cluster w2) → config_apart mdb → json_wf ac = true →
  CalculateFeatureCompatibilityVersion (V1.spec_Version (V1.mdb_Spec mdb)) ≠ "" →
  ensureAutomationConfig mdb w = (Ret ac, w1) → same_secrets mdb (cluster w1) (cluster w2) →
  V1.AutomationConfigMembersThisReconciliation (touched mdb status anns) = V1.AutomationConfigMembersThisReconciliation mdb →
  ensureAutomationConfig (touched mdb status anns) w2 = (Ret ac', w3) →
  ac' = ac ∧ cluster w3 = cluster w2.
Proof.
  intros Hw Hw2 Hap Hwf Hv E Hs Hm E'. rewrite ensureAutomationConfig_touched in E' by done.
  eapply later_run_keeps; [exact Hw2| |exact E']. eapply settled_same; [exact Hs|]. by apply (first_run_settles mdb w).
Qed.
End Facts.
