(* ===== verification/ReconcilerFacts.v ===== *)
(** * What one reconciliation achieves

    The outcomes of [Reconcile]: a resource that is gone, a spec that is rejected, the
    order in which the automation config and the StatefulSet are deployed, and what
    holds when the controller runtime is told not to come back. *)
From S2P Require Import Prelude GoStd K8s MergeByKey Merge Scale Json Codec Hashes Base64 ScramCreds ACTypes.
From S2P Require Import ACBuilder Types Kube KubeOps KubeFacts ACSecret Scram ScramFacts Validation Status Watch.
From S2P Require Import Agent SpecJson PodMods StsMods Construct Tls TlsFacts Reconciler Frames ReconcilerFrames.
Local Open Scope Z_scope.

Section Facts.
Context {api : K8sApi} `{!Semver, !Objx, !Mergo, !Cast, !Stringprep, !Environ, !Quantities, !MapOrder, !StsSpecJson}.
Context {W : Type} `{!KubeClient W, !KubeLaws W, !Entropy W, !EntropyFrame W, !HasWatcher W, !WatcherFrame W}.
Implicit Types mdb : V1.MongoDBCommunity.

(** ** The status *)

(** The cluster after a write of the status of [m]: the stored resource has it, and
    no other object is different. *)
Definition status_written (c : cluster_state) (m : V1.MongoDBCommunity) (c' : cluster_state) : Prop :=
  (∃ m', stored c' KMongoDB (key_of KMongoDB m) = Some m' ∧ V1.mdb_Status m' = V1.mdb_Status m)
  ∧ ∀ k n, (k, n) ≠ (KMongoDB, key_of KMongoDB m) → stored c' k n = stored c k n.

Lemma status_written_put c m m' :
  key_of KMongoDB m' = key_of KMongoDB m → V1.mdb_Status m' = V1.mdb_Status m →
  status_written c m (put c KMongoDB m').
Proof.
  intros Hk Hs. split.
  - exists m'. split; [|done]. rewrite <- Hk. apply stored_put_key.
  - intros k n Hn. destruct (decide (KMongoDB = k)) as [<-|Hne].
    + apply stored_put_other_key. rewrite Hk. congruence.
    + by apply stored_put_other_kind.
Qed.

Lemma status_Update_Ret mdb options (w : W) x w' :
  status_Update mdb options w = (Ret x, w') →
  x.1 = apply_options options mdb ∧ determineReconciliationResult options = (x.2, None)
  ∧ status_written (cluster w) x.1 (cluster w').
Proof.
  unfold status_Update. intros E. apply bind_Ret_inv in E as (u & w1 & E1 & E2).
  apply UpdateStatus_law in E1 as (m' & HC & Hk & Hs).
  destruct (determineReconciliationResult options) as [res [e|]]; [done|]. injection E2 as <- <-.
  split_and!; [done..|]. rewrite HC. by apply status_written_put.
Qed.

Lemma fail_with_Ret mdb msg (w : W) res w' :
  fail_with mdb msg w = (Ret res, w') → Requeue res = true.
Proof.
  unfold fail_with. intros E. apply bind_Ret_inv in E as (x & w1 & E1 & [= <- <-]).
  apply status_Update_Ret in E1 as (_ & HD & _). rewrite determine_failed in HD. by injection HD as <-.
Qed.
Lemma pending_with_Ret mdb msg (w : W) res w' :
  pending_with mdb msg w = (Ret res, w') → Requeue res = true.
Proof.
  unfold pending_with. intros E. apply bind_Ret_inv in E as (x & w1 & E1 & [= <- <-]).
  apply status_Update_Ret in E1 as (_ & HD & _). rewrite determine_pending in HD. by injection HD as <-.
Qed.

(** A step that was or was not followed by the rest. *)
Lemma or_fail_Ret {A} mdb text (step : IO W A) cont (w : W) res w' :
  or_fail mdb text step cont w = (Ret res, w') → Requeue res = false →
  ∃ a w1, step w = (Ret a, w1) ∧ cont a w1 = (Ret res, w').
Proof.
  unfold or_fail. intros E Hres. apply bind_Ret_inv in E as (r & w1 & E1 & E2). unfold attempt in E1.
  destruct (step w) as [[a|e|s] w2] eqn:Hs; [injection E1 as <- <-..|done].
  - eauto.
  - apply fail_with_Ret in E2. congruence.
Qed.

(** ** The steps of a reconciliation that does not come back *)

(** The resource was read and is valid; what follows starts from the same cluster. *)
Lemma Reconcile_found request mdb (w : W) res w' :
  stored (cluster w) KMongoDB request = Some mdb → Reconcile request w = (Ret res, w') → Requeue res = false →
  ∃ w1, cluster w1 = cluster w ∧ reconciler_validateSpec mdb = Ret ()
    ∧ prepare_and_deploy mdb w1 = (Ret res, w').
Proof.
  intros Hm E Hres. unfold Reconcile in E. apply bind_Ret_inv in E as (r & w1 & E1 & E).
  apply (attempt_Get_inv KMongoDB) in E1 as [HC [(mdb' & [= ->] & Hm')|(e & [= ->] & He)]].
  - rewrite Hm in Hm'. injection Hm' as <-. apply or_fail_Ret in E as ([] & w2 & [= Hv <-] & E); [|done]. by exists w1.
  - destruct (IsNotFound e) eqn:Hnf; [specialize (He eq_refl); congruence | by injection E as <- <-].
Qed.

(** The service, TLS and the users have been dealt with, one after the other. *)
Lemma prepare_steps mdb (w : W) res w' :
  keys_ok (cluster w) → prepare_and_deploy mdb w = (Ret res, w') → Requeue res = false →
  ∃ w1 w2 w3 w4,
    ensureService mdb w = (Ret (), w1) ∧ validateTLSConfig mdb w1 = (Ret true, w2)
    ∧ ensureTLSResources mdb w2 = (Ret (), w3) ∧ ensureUserResources mdb w3 = (Ret (), w4)
    ∧ deploy_and_finish mdb w4 = (Ret res, w')
    ∧ keys_ok (cluster w2) ∧ keys_ok (cluster w3) ∧ keys_ok (cluster w4)
    ∧ (∀ k n, k ≠ KService → stored (cluster w2) k n = stored (cluster w) k n)
    ∧ (∀ k n, k ≠ KService → k ≠ KSecret → stored (cluster w4) k n = stored (cluster w) k n).
Proof.
  intros Hw E Hres. unfold prepare_and_deploy in E. apply or_fail_Ret in E as ([] & w1 & E1 & E); [|done].
  destruct (writes_run _ _ _ _ _ _ (writes_ensureService (of_kind KService) mdb eq_refl) Hw E1) as [Hw1 Hu1].
  apply or_fail_Ret in E as (valid & w2 & E2 & E); [|done].
  destruct (writes_run _ _ _ _ _ _ (writes_validateTLSConfig nothing mdb) Hw1 E2) as [Hw2 Hu2].
  destruct valid; cbn [negb] in E; [|apply pending_with_Ret in E; congruence].
  apply or_fail_Ret in E as ([] & w3 & E3 & E); [|done].
  destruct (writes_run _ _ _ _ _ _ (writes_ensureTLSResources (of_kind KSecret) mdb eq_refl) Hw2 E3) as [Hw3 Hu3].
  apply or_fail_Ret in E as ([] & w4 & E4 & E); [|done].
  destruct (writes_run _ _ _ _ _ _ (writes_ensureUserResources nothing mdb) Hw3 E4) as [Hw4 Hu4].
  unfold of_kind, nothing in *. exists w1, w2, w3, w4. split_and!; [done..| |].
  - intros k n Hk. by rewrite Hu2, Hu1 by naive_solver.
  - intros k n Hk Hk'. by rewrite Hu4, Hu3, Hu2, Hu1 by naive_solver.
Qed.

(** ** Against a reachable API server *)

Section StatusWritable.
Context `{!StatusWritable W}.

Lemma status_Update_healthy mdb options res (w : W) :
  determineReconciliationResult options = (res, None) →
  ∃ w', status_Update mdb options w = (Ret (apply_options options mdb, res), w')
    ∧ status_written (cluster w) (apply_options options mdb) (cluster w').
Proof.
  intros HD. destruct (UpdateStatus_any (apply_options options mdb) w) as [w' E].
  exists w'. assert (status_Update mdb options w = (Ret (apply_options options mdb, res), w')) as HU.
  { unfold status_Update. rewrite (bind_Ret _ _ _ _ _ E). by rewrite HD. }
  split; [done|]. by apply status_Update_Ret in HU as (_ & _ & HW).
Qed.

Definition failed_status (m : V1.MongoDBCommunity) (msg : string) : V1.MongoDBCommunityStatus :=
  (V1.mdb_Status m) <| V1.st_Phase := V1.Failed |> <| V1.st_Message := if IsTransientMessage msg then "" else msg |>.

Lemma fail_with_healthy mdb msg (w : W) :
  ∃ w', fail_with mdb msg w = (Ret (MkResult true 0), w')
    ∧ status_written (cluster w) (mdb <| V1.mdb_Status := failed_status mdb msg |>) (cluster w').
Proof.
  destruct (status_Update_healthy mdb _ _ w (determine_failed Error msg)) as (w' & E & HW).
  exists w'. unfold fail_with. rewrite (bind_Ret _ _ _ _ _ E). split; [done|].
  unfold withFailedPhase in HW. rewrite apply_phase in HW. exact HW.
Qed.

End StatusWritable.

Section Healthy.
Context `{!KubeHealthy W}.

(** A resource that does not exist is done with: the reconciliation reports
    success, so that the request does not come back, and changes nothing. *)
Theorem Reconcile_not_found (request : NamespacedName) (w : W) :
  stored (cluster w) KMongoDB request = None →
  ∃ w', Reconcile request w = (Ret ResultPkg.OK, w') ∧ cluster w' = cluster w.
Proof.
  intros Hn. destruct (Get_missing KMongoDB request w Hn) as (e & w' & E & He).
  exists w'. unfold Reconcile. rewrite (bind_Ret _ _ _ _ _ (attempt_Err _ _ _ _ E)), He. split; [done|].
  by destruct (Get_law _ _ _ _ _ E).
Qed.

Lemma Reconcile_invalid (request : NamespacedName) mdb e (w : W) :
  stored (cluster w) KMongoDB request = Some mdb → key_of KMongoDB mdb = request →
  reconciler_validateSpec mdb = Err e →
  ∃ w', Reconcile request w = (Ret (MkResult true 0), w')
    ∧ status_written (cluster w)
        (mdb <| V1.mdb_Status := failed_status mdb ("error validating new Spec: " +:+ err_text e) |>) (cluster w').
Proof.
  intros Hm Hk He. destruct (Get_stored KMongoDB request w mdb Hm) as [w1 E].
  destruct (Get_law _ _ _ _ _ E) as [HC _]. unfold Reconcile. rewrite (bind_Ret _ _ _ _ _ (attempt_Ret _ _ _ _ E)).
  unfold or_fail. rewrite He. unfold attempt, lift, bind at 1. rewrite <- HC. apply fail_with_healthy.
Qed.

(** [C16] A spec that is rejected has no effect: the reconciliation is retried at
    once, the status of the resource is Failed with the reason, and no other
    object - service, secret, StatefulSet - is written. *)
Theorem Reconcile_rejects_invalid_spec (request : NamespacedName) mdb e (w : W) :
  stored (cluster w) KMongoDB request = Some mdb → key_of KMongoDB mdb = request →
  reconciler_validateSpec mdb = Err e →
  ∃ w', Reconcile request w = (Ret (MkResult true 0), w')
    ∧ status_written (cluster w)
        (mdb <| V1.mdb_Status := failed_status mdb ("error validating new Spec: " +:+ err_text e) |>) (cluster w').
Proof. apply Reconcile_invalid. Qed.

(** [C17] TLS stays on: when the last configuration that was deployed, saved in the
    resource's annotation, had TLS enabled and the new spec disables it, the
    reconciliation fails with that reason, whatever else the spec says, and no
    object but the status of the resource is changed. *)
Theorem Reconcile_keeps_tls `{!StsSpecJsonOk} (request : NamespacedName) mdb lastSpec (w : W) :
  stored (cluster w) KMongoDB request = Some mdb → key_of KMongoDB mdb = request →
  gm (V1.GetAnnotations mdb) !! lastSuccessfulConfiguration = Some (marshal_spec lastSpec) →
  spec_wf lastSpec = true → V1.tls_Enabled (V1.sec_TLS (V1.spec_Security lastSpec)) = true →
  V1.tls_enabled mdb = false →
  ∃ w', Reconcile request w = (Ret (MkResult true 0), w')
    ∧ status_written (cluster w)
        (mdb <| V1.mdb_Status := failed_status mdb
           "error validating new Spec: TLS can't be set to disabled after it has been enabled" |>) (cluster w').
Proof.
  intros Hm Hk Ha Hwf Htls Hoff.
  apply (Reconcile_invalid request mdb (TextError "TLS can't be set to disabled after it has been enabled")); [done..|].
  unfold reconciler_validateSpec. rewrite Ha, unmarshal_marshal_spec by done.
  unfold ValidateUpdate. replace (V1.spec_Security (saved lastSpec)) with (V1.spec_Security lastSpec) by done.
  by rewrite Htls, Hoff.
Qed.

(** ** The order of the two deployments *)

Definition in_order (sts_exists : bool) mdb : bool :=
  if sts_exists && V1.tls_enabled mdb then false
  else if Scale.IsScalingUp (V1.scaler mdb) then false
  else if Scale.IsScalingDown (V1.scaler mdb) then true
  else negb (V1.IsChangingVersion mdb).

Lemma shouldRunInOrder_healthy mdb (w : W) :
  ∃ w', shouldRunInOrder mdb w
        = (Ret (in_order (bool_decide (is_Some (stored (cluster w) KStatefulSet (V1.NamespacedName_ mdb)))) mdb), w')
    ∧ cluster w' = cluster w.
Proof.
  unfold shouldRunInOrder, in_order, GetStatefulSet.
  destruct (stored (cluster w) KStatefulSet (V1.NamespacedName_ mdb)) as [s|] eqn:Hs.
  - destruct (Get_stored KStatefulSet _ w s Hs) as [w' E]. destruct (Get_law _ _ _ _ _ E) as [HC _].
    exists w'. rewrite (bind_Ret _ _ _ _ _ (attempt_Ret _ _ _ _ E)). rewrite bool_decide_true by eauto. cbn [andb].
    destruct (V1.tls_enabled mdb), (Scale.IsScalingUp (V1.scaler mdb)), (Scale.IsScalingDown (V1.scaler mdb)), (V1.IsChangingVersion mdb); done.
  - destruct (Get_missing KStatefulSet _ w Hs) as (e & w' & E & He). destruct (Get_law _ _ _ _ _ E) as [HC _].
    exists w'. rewrite (bind_Ret _ _ _ _ _ (attempt_Err _ _ _ _ E)).
    rewrite bool_decide_false by (by intros []). cbn [andb].
    destruct (Scale.IsScalingUp (V1.scaler mdb)), (Scale.IsScalingDown (V1.scaler mdb)), (V1.IsChangingVersion mdb); done.
Qed.
End Healthy.
End Facts.
