(* ===== verification/WatchFacts.v ===== *)
(** * Changes that bring a resource back

    What a reconciliation has registered with the watcher when it is over, and so
    which later changes of secrets start another one. *)
From S2P Require Import Prelude GoStd K8s MergeByKey Merge Scale Json Codec Hashes Base64 ScramCreds ACTypes.
From S2P Require Import ACBuilder Types Kube KubeOps KubeFacts ACSecret Scram ScramFacts Validation Status Watch.
From S2P Require Import Agent SpecJson PodMods StsMods Construct Tls TlsFacts Reconciler Frames ReconcilerFrames.
From S2P Require Import ReconcilerFacts.
Local Open Scope Z_scope.
Create HintDb growth.

(** Everything [r] watches, [r'] watches for the same resources. *)
Definition watches_more (r r' : ResourceWatcher) : Prop :=
  ∀ n d, d ∈ dependents r n → d ∈ dependents r' n.
#[export] Instance watches_more_preorder : PreOrder watches_more.
Proof. split; [by intros r n d | intros r1 r2 r3 H1 H2 n d Hd; auto]. Qed.

Lemma watches_more_Watch a b r : watches_more r (Watch a b r).
Proof. intros n d Hd. rewrite dependents_Watch. case_bool_decide as Ha; [|done]. destruct Ha as [-> _]. set_solver. Qed.
Lemma watches_Watch a b r : b ∈ dependents (Watch a b r) a.
Proof.
  rewrite dependents_Watch. case_bool_decide as Ha; [set_solver|].
  destruct (decide (b ∈ dependents r a)); [done|]. by destruct Ha.
Qed.

(** While a call is under way, other reconciliations may register their secrets: the
    watcher is shared, and nothing is ever removed from it. *)
Class WatcherGrows {api : K8sApi} (W : Type) `{!KubeClient W, !Entropy W, !HasWatcher W} : Prop := {
  Get_grows : ∀ k n w, watches_more (watched w) (watched (Get k n w).2);
  Create_grows : ∀ k o w, watches_more (watched w) (watched (Create k o w).2);
  Update_grows : ∀ k o w, watches_more (watched w) (watched (Update k o w).2);
  UpdateStatus_grows : ∀ m w, watches_more (watched w) (watched (UpdateStatus m w).2);
  Patch_grows : ∀ k o d w, watches_more (watched w) (watched (Patch k o d w).2);
  rand_Read_grows : ∀ n w, watches_more (watched w) (watched (rand_Read n w).2);
}.

Section Growth.
Context {api : K8sApi} `{!Semver, !Objx, !Mergo, !Cast, !Stringprep, !Environ, !Quantities, !MapOrder, !StsSpecJson}.
Context {W : Type} `{!KubeClient W, !Entropy W, !HasWatcher W, !WatcherFrame W, !WatcherGrows W}.
Implicit Types mdb : V1.MongoDBCommunity.

(** ** Computations under which the watcher grows *)

Definition grows {A} (m : IO W A) : Prop := ∀ w, watches_more (watched w) (watched (m w).2).

Lemma grows_ret {A} (a : A) : grows (ret a).
Proof. by intros w. Qed.
Lemma grows_throw {A} e : grows (throw (A := A) e).
Proof. by intros w. Qed.
Lemma grows_panic {A} s : grows (panic (A := A) s).
Proof. by intros w. Qed.
Lemma grows_lift {A} (o : outcome A) : grows (lift o).
Proof. by intros w. Qed.
Lemma grows_bind {A B} (m : IO W A) (f : A → IO W B) : grows m → (∀ a, grows (f a)) → grows (bind m f).
Proof.
  intros Hm Hf w. unfold bind. specialize (Hm w). destruct (m w) as [[a|e|s] w1]; [|done..].
  etrans; [exact Hm | apply Hf].
Qed.
Lemma grows_attempt {A} (m : IO W A) : grows m → grows (attempt m).
Proof. intros Hm w. unfold attempt. specialize (Hm w). by destruct (m w) as [[]]. Qed.
Lemma grows_wrap {A} g (m : IO W A) : grows m → grows (wrap g m).
Proof. intros Hm w. unfold wrap. specialize (Hm w). by destruct (m w) as [[]]. Qed.
Lemma grows_for_each {A} (f : A → IO W unit) l : (∀ x, grows (f x)) → grows (for_each f l).
Proof. intros Hf. induction l as [|x l IH]; [apply grows_ret|]. by apply grows_bind. Qed.
Lemma grows_map_each {A B} (f : A → IO W B) l : (∀ x, grows (f x)) → grows (map_each f l).
Proof.
  intros Hf. induction l as [|x l IH]; [apply grows_ret|]. apply grows_bind; [done|]. intros y.
  apply grows_bind; [done|]. intros ys. apply grows_ret.
Qed.
Lemma grows_Get k n : grows (Get k n).
Proof. intros w. apply Get_grows. Qed.
Lemma grows_Create k o : grows (Create k o).
Proof. intros w. apply Create_grows. Qed.
Lemma grows_Update k o : grows (Update k o).
Proof. intros w. apply Update_grows. Qed.
Lemma grows_UpdateStatus m : grows (UpdateStatus m).
Proof. intros w. apply UpdateStatus_grows. Qed.
Lemma grows_Patch k o d : grows (Patch k o d).
Proof. intros w. apply Patch_grows. Qed.
Lemma grows_rand_Read n : grows (rand_Read n).
Proof. intros w. apply rand_Read_grows. Qed.
Lemma grows_Watch a b : grows (secretWatcher_Watch a b).
Proof. intros w. cbn. rewrite watched_set_watched. apply watches_more_Watch. Qed.
End Growth.
#[export] Hint Resolve grows_ret grows_throw grows_panic grows_lift grows_attempt grows_wrap grows_for_each grows_map_each
  grows_Get grows_Create grows_Update grows_UpdateStatus grows_Patch grows_rand_Read grows_Watch : growth.

Ltac growing :=
  repeat match goal with
  | |- ∀ _, _ => intros ?
  | |- grows (bind _ _) => apply grows_bind
  | |- grows (match ?x with _ => _ end) => destruct x
  | |- grows (attempt _) => apply grows_attempt
  | |- grows (wrap _ _) => apply grows_wrap
  | |- grows (Get ?k _) => apply (grows_Get k)
  | |- grows (Create ?k _) => apply (grows_Create k)
  | |- grows (Update ?k _) => apply (grows_Update k)
  | |- grows (Patch ?k _ _) => apply (grows_Patch k)
  | |- grows _ => solve [eauto with growth]
  end.

Section Steps.
Context {api : K8sApi} `{!Semver, !Objx, !Mergo, !Cast, !Stringprep, !Environ, !Quantities, !MapOrder, !StsSpecJson}.
Context {W : Type} `{!KubeClient W, !Entropy W, !HasWatcher W, !WatcherFrame W, !WatcherGrows W}.
Implicit Types mdb : V1.MongoDBCommunity.

Lemma grows_ReadKey key n : grows (W := W) (secret.ReadKey key n).
Proof. unfold secret.ReadKey, secret.ReadStringData, GetSecret. growing. Qed.
Lemma grows_secret_CreateOrUpdate s : grows (W := W) (secret.CreateOrUpdate s).
Proof. unfold secret.CreateOrUpdate, GetSecret, CreateSecret, UpdateSecret. growing. Qed.
Lemma grows_EnsureSecretWithKey n refs key v : grows (W := W) (secret.EnsureSecretWithKey n refs key v).
Proof. unfold secret.EnsureSecretWithKey, GetSecret, CreateSecret. growing. Qed.
Lemma grows_slice n s : grows (W := W) (slice_to n s).
Proof. unfold slice_to. growing. Qed.
Lemma grows_Random n : grows (W := W) (RandomFixedLengthStringOfSize n).
Proof. pose proof grows_slice. unfold RandomFixedLengthStringOfSize, generateRandomBytes. growing. Qed.
Lemma grows_generate u p : grows (W := W) (generateScramShaCredentials u p).
Proof. pose proof grows_slice. pose proof grows_Random. unfold generateScramShaCredentials, Salts, salt. growing. Qed.
Lemma grows_existing n name : grows (W := W) (readExistingCredentials n name).
Proof. unfold readExistingCredentials, GetSecret. growing. Qed.
Lemma grows_ensureScramCredentials u n : grows (W := W) (ensureScramCredentials u n).
Proof.
  pose proof grows_ReadKey. pose proof grows_existing. pose proof grows_generate. pose proof grows_secret_CreateOrUpdate.
  unfold ensureScramCredentials, needToGenerateNewCredentials, createScramCredentialsSecret, GetSecret. growing.
Qed.
Lemma grows_convert n u : grows (W := W) (convertMongoDBUserToAutomationConfigUser n u).
Proof. pose proof grows_ensureScramCredentials. unfold convertMongoDBUserToAutomationConfigUser. growing. Qed.
Lemma grows_Enable auth mdb : grows (W := W) (Enable auth mdb).
Proof.
  pose proof grows_convert. pose proof grows_Random. pose proof grows_EnsureSecretWithKey.
  unfold Enable, KeyFileContents, generateRandomString, generateRandomBytes, convertMongoDBResourceUsersToAutomationConfigUsers.
  growing.
Qed.
Lemma grows_getCertAndKey mdb : grows (W := W) (getCertAndKey mdb).
Proof. pose proof grows_ReadKey. unfold getCertAndKey. growing. Qed.
Lemma grows_deployAutomationConfig mdb : grows (W := W) (deployAutomationConfig mdb).
Proof.
  pose proof grows_getCertAndKey. pose proof grows_Enable.
  assert (∀ ns target names l, grows (W := W) (check_pods ns target names l)).
  { intros ns target names. induction names as [|name names IH]; intros l; cbn [check_pods]; unfold GetPod; growing. }
  assert (grows (W := W) (ensureAutomationConfig mdb)).
  { unfold ensureAutomationConfig, reconciler_buildAutomationConfig, getTLSConfigModification, ReadFromSecret, EnsureSecret,
      createNewAutomationConfigSecret, GetSecret, CreateSecret, UpdateSecret. growing. }
  unfold deployAutomationConfig, AllReachedGoalState, GetStatefulSet. growing.
Qed.
Lemma grows_deployStatefulSet mdb : grows (W := W) (deployStatefulSet mdb).
Proof.
  unfold deployStatefulSet, createOrUpdateStatefulSet, statefulset.CreateOrUpdate, GetStatefulSet, CreateStatefulSet,
    UpdateStatefulSet. growing.
Qed.
Lemma grows_deploy mdb : grows (W := W) (deployMongoDBReplicaSet mdb).
Proof.
  pose proof (grows_deployAutomationConfig mdb). pose proof (grows_deployStatefulSet mdb).
  unfold deployMongoDBReplicaSet, shouldRunInOrder, GetStatefulSet. growing; unfold Functions.RunSequentially, Functions.runReversed; cbn; growing.
Qed.
Lemma grows_ensureTLSResources mdb : grows (W := W) (ensureTLSResources mdb).
Proof.
  pose proof grows_getCertAndKey. pose proof grows_secret_CreateOrUpdate. unfold ensureTLSResources, ensureTLSSecret. growing.
Qed.
Lemma grows_ensure_user_resource mdb u : grows (W := W) (ensure_user_resource mdb u).
Proof. pose proof grows_ReadKey. unfold ensure_user_resource, GetSecret. growing. Qed.
Lemma grows_status_Update mdb options : grows (W := W) (status_Update mdb options).
Proof. unfold status_Update. growing. Qed.
Lemma grows_finish mdb : grows (W := W) (finish mdb).
Proof.
  pose proof grows_status_Update. pose proof grows_ReadKey. pose proof grows_secret_CreateOrUpdate.
  assert (∀ m, grows (W := W) (updateConnectionStringSecrets m)).
  { intros m. apply grows_for_each. intros u. unfold update_connection_string. growing. }
  unfold finish, updateLastSuccessfulConfiguration, annotations.SetAnnotations. growing.
Qed.
Lemma grows_deploy_and_finish mdb : grows (W := W) (deploy_and_finish mdb).
Proof.
  pose proof grows_finish. pose proof grows_status_Update. pose proof (grows_deploy mdb).
  unfold deploy_and_finish, or_fail, fail_with, pending_with, statefulset.ResetUpdateStrategy, statefulset.GetAndUpdate,
    GetStatefulSet, UpdateStatefulSet. growing.
Qed.
Lemma grows_Reconcile request : grows (W := W) (Reconcile request).
Proof.
  pose proof grows_status_Update. pose proof grows_ensureTLSResources. pose proof grows_deploy_and_finish.
  assert (∀ m, grows (W := W) (ensureUserResources m)) by (intros m; apply grows_for_each, grows_ensure_user_resource).
  assert (∀ m, grows (W := W) (validateTLSConfig m)).
  { intros m. unfold validateTLSConfig, configmap.ReadData, secret.ReadStringData, GetSecret, GetConfigMap. growing. }
  unfold Reconcile, prepare_and_deploy, or_fail, fail_with, pending_with, ensureService, CreateService. growing.
Qed.
End Steps.

(** ** A reconciliation that is over *)

(** The object an event is about; of an update the old one. *)
Definition event_object (e : Event) : ObjectMeta :=
  match e with CreateEvent o | UpdateEvent o _ | DeleteEvent o | GenericEvent o => o end.
Definition event_key (e : Event) : NamespacedName :=
  MkNamespacedName (om_Name (event_object e)) (om_Namespace (event_object e)).
Lemma on_event_dependents r e : on_event r e = dependents r (event_key e).
Proof. by destruct e. Qed.

Section Requeue.
Context {api : K8sApi} `{!Semver, !Objx, !Mergo, !Cast, !Stringprep, !Environ, !Quantities, !MapOrder, !StsSpecJson}.
Context {W : Type} `{!KubeClient W, !KubeLaws W, !Entropy W, !EntropyFrame W, !HasWatcher W, !WatcherFrame W, !WatcherGrows W}.
Implicit Types mdb : V1.MongoDBCommunity.

Lemma grows_run {A} (m : IO W A) w r w' : grows m → m w = (r, w') → watches_more (watched w) (watched w').
Proof. intros Hm E. specialize (Hm w). by rewrite E in Hm. Qed.

Lemma ensure_user_resource_watches mdb u (w : W) w' :
  ensure_user_resource mdb u w = (Ret (), w') → password_present (cluster w) mdb u →
  V1.NamespacedName_ mdb ∈ dependents (watched w') (password_key u (V1.NamespacedName_ mdb)).
Proof.
  unfold ensure_user_resource. intros E [p Hp]. apply bind_Ret_inv in E as (r & w1 & E1 & E).
  apply ReadKey_inv in E1 as [HC [(p' & [= ->] & Hp')|(e & [= ->] & He)]].
  - injection E as <-. rewrite watched_set_watched. apply watches_Watch.
  - destruct (IsNotFound e) eqn:Hnf; [|done]. pose proof (He eq_refl) as Hn.
    unfold secret_field in Hp. change (MkNamespacedName _ _) with (password_key u (V1.NamespacedName_ mdb)) in Hn.
    by rewrite Hn in Hp.
Qed.

Lemma ensureUserResources_watches mdb users : ∀ (w : W) w',
  for_each (ensure_user_resource mdb) users w = (Ret (), w') → keys_ok (cluster w) →
  ∀ u, u ∈ users → password_present (cluster w) mdb u →
  V1.NamespacedName_ mdb ∈ dependents (watched w') (password_key u (V1.NamespacedName_ mdb)).
Proof.
  induction users as [|u0 users IH]; intros w w' E Hw u Hin Hp; [by apply elem_of_nil in Hin|]. cbn [for_each] in E.
  apply bind_Ret_inv in E as ([] & w1 & E1 & E).
  assert (writes (W := W) nothing (ensure_user_resource mdb u0) any) as Hf by (unfold ensure_user_resource; frames).
  destruct (writes_run _ _ _ _ _ _ Hf Hw E1) as [Hw1 Hu1].
  apply elem_of_cons in Hin as [->|Hin].
  - eapply (grows_run _ _ _ _ (grows_for_each _ _ (grows_ensure_user_resource mdb)) E).
    apply (ensure_user_resource_watches _ _ _ _ E1 Hp).
  - apply (IH w1 w' E Hw1 u Hin). unfold password_present, secret_field in *. by rewrite Hu1 by (intros []).
Qed.

(** Which secrets bring the resource back: the certificate, if TLS is on, and the
    passwords that were there, as far as they are not the operator's own secret. *)
Definition watched_secret (c : cluster_state) mdb (n : NamespacedName) : Prop :=
  (V1.tls_enabled mdb = true ∧ n = V1.TLSSecretNamespacedName mdb)
  ∨ ∃ u, u ∈ V1.GetScramUsers mdb ∧ n = password_key u (V1.NamespacedName_ mdb) ∧ password_present c mdb u
      ∧ (V1.tls_enabled mdb = true → n ≠ V1.TLSOperatorSecretNamespacedName mdb).

Lemma ensureTLSResources_keeps mdb (w : W) r w' n :
  keys_ok (cluster w) → ensureTLSResources mdb w = (r, w') →
  (V1.tls_enabled mdb = true → n ≠ V1.TLSOperatorSecretNamespacedName mdb) →
  keys_ok (cluster w') ∧ stored (cluster w') KSecret n = stored (cluster w) KSecret n.
Proof.
  intros Hw E Hn. destruct (V1.tls_enabled mdb) eqn:Ht.
  - destruct (writes_run (λ k n, n = V1.TLSOperatorSecretNamespacedName mdb) _ any _ _ _
      (writes_ensureTLSResources _ mdb eq_refl) Hw E) as [Hk Hu]. split; [done|]. apply Hu. by apply Hn.
  - unfold ensureTLSResources in E. rewrite Ht in E. cbn in E. by injection E as _ <-.
Qed.

Lemma prepare_watches mdb (w : W) res w' :
  keys_ok (cluster w) → prepare_and_deploy mdb w = (Ret res, w') → Requeue res = false →
  ∀ n, watched_secret (cluster w) mdb n → V1.NamespacedName_ mdb ∈ dependents (watched w') n.
Proof.
  intros Hw E Hres n Hn.
  apply prepare_steps in E as (w1 & w2 & w3 & w4 & _ & E2 & E3 & E4 & E & Hw2 & _ & _ & Hu2 & _); [|done..].
  apply validateTLSConfig_Ret in E2 as (_ & _ & Hreg).
  pose proof (grows_run _ _ _ _ (grows_ensureTLSResources mdb) E3) as G3.
  pose proof (grows_run _ _ _ _ (grows_for_each _ _ (grows_ensure_user_resource mdb)) E4) as G4.
  pose proof (grows_run _ _ _ _ (grows_deploy_and_finish mdb) E) as G5.
  destruct Hn as [[Ht ->]|(u' & Hin & -> & Hp & Ht)].
  - apply G5, G4, G3. by apply Hreg.
  - apply G5. destruct (ensureTLSResources_keeps _ _ _ _ _ Hw2 E3 Ht) as [Hw3 Hs3].
    apply (ensureUserResources_watches mdb _ w3 w4 E4 Hw3 u' Hin). unfold password_present, secret_field in *.
    by rewrite Hs3, Hu2.
Qed.

(** [C15] No change is missed: when a reconciliation does not ask to come back, every later
    event - of any kind - about the certificate of the resource, if TLS is on, or about
    a password that one of its users had, puts the request of the resource into the
    queue, whatever other reconciliations have registered in between. *)
Theorem secret_changes_requeue (request : NamespacedName) mdb (w : W) res w' later e :
  keys_ok (cluster w) → stored (cluster w) KMongoDB request = Some mdb →
  Reconcile request w = (Ret res, w') → Requeue res = false →
  watches_more (watched w') later → watched_secret (cluster w) mdb (event_key e) →
  request ∈ on_event later e.
Proof.
  intros Hw Hm E Hres Hl Hn. rewrite on_event_dependents. apply Hl.
  assert (V1.NamespacedName_ mdb = request) as <- by exact (Hw _ _ _ Hm).
  destruct (Reconcile_found _ _ _ _ _ Hm E Hres) as (w1 & HC & _ & E1). rewrite <- HC in *.
  by eapply prepare_watches.
Qed.
End Requeue.
