(* ===== verification/DeployFacts.v ===== *)
(** * Deploying the replica set

    The order of the automation config and the StatefulSet while members are added
    or removed, the size of the StatefulSet, and what has been deployed when a
    reconciliation asks not to come back. *)
From S2P Require Import Prelude GoStd K8s MergeByKey Merge MergeFacts Scale Json Codec Hashes Base64 ScramCreds ACTypes.
From S2P Require Import ACBuilder Types Kube KubeOps KubeFacts ACSecret Scram ScramFacts Validation Status Watch.
From S2P Require Import Agent SpecJson PodMods StsMods Construct Tls TlsFacts Reconciler Frames ReconcilerFrames.
From S2P Require Import ConfigFacts ReconcilerFacts.
Local Open Scope Z_scope.

Section Facts.
Context {api : K8sApi} `{!Semver, !Objx, !Mergo, !Cast, !Stringprep, !Environ, !Quantities, !MapOrder, !StsSpecJson}.
Context {W : Type} `{!KubeClient W, !KubeLaws W, !Entropy W, !EntropyFrame W, !HasWatcher W, !WatcherFrame W}.
Implicit Types mdb : V1.MongoDBCommunity.

(** ** The automation config *)

(** The agents may go on with a config of a version: there is no StatefulSet yet, or
    one from before agents reported their version, or its agents have reached it. *)
Definition agents_ready (c : cluster_state) mdb (version : Z) : Prop :=
  match stored c KStatefulSet (V1.NamespacedName_ mdb) with
  | None => True
  | Some sts =>
      isPreReadinessInitContainerStatefulSet sts = true
      ∨ goal_reached c sts (V1.StatefulSetReplicasThisReconciliation mdb) version
  end.

(** The config of this reconciliation was built from [c]; [ac] is what its secret holds
    now, the config of the resource (or one with the same content), and the agents
    have reached it. *)
Definition config_deployed (c : cluster_state) mdb (w' : W) : Prop :=
  ∃ ac w0 w1, cluster w0 = c ∧ ensureAutomationConfig mdb w0 = (Ret ac, w1) ∧ cluster w' = cluster w1
    ∧ holds_config (cluster w') (config_key mdb) ac
    ∧ (∃ desired, config_of mdb desired ∧ (ac = desired ∨ AreEqual desired ac = true))
    ∧ agents_ready (cluster w') mdb (ac_Version ac).

Lemma writes_ensureAutomationConfig P mdb :
  secrets_allowed P mdb → writes (W := W) P (ensureAutomationConfig mdb) any.
Proof.
  intros (Hu & Ha & Hc). pose proof (writes_Enable P emptyAuth mdb Hu Ha). pose proof (writes_getCertAndKey P).
  unfold ensureAutomationConfig, reconciler_buildAutomationConfig, getTLSConfigModification. frames.
Qed.

Lemma deployAutomationConfig_true mdb (w : W) w' :
  keys_ok (cluster w) → deployAutomationConfig mdb w = (Ret true, w') → config_deployed (cluster w) mdb w'.
Proof.
  intros Hw E. unfold deployAutomationConfig in E. apply bind_Ret_inv in E as (r & w1 & E1 & E2).
  assert (∀ ac w2, ensureAutomationConfig mdb w1 = (Ret ac, w2) → cluster w1 = cluster w → cluster w' = cluster w2 →
    (stored (cluster w2) KStatefulSet (V1.NamespacedName_ mdb) = stored (cluster w) KStatefulSet (V1.NamespacedName_ mdb) →
     agents_ready (cluster w') mdb (ac_Version ac)) → config_deployed (cluster w) mdb w') as Hdone.
  { intros ac w2 E HC HC' Hr. exists ac, w1, w2. rewrite <- HC in Hw. pose proof (ensureAutomationConfig_Ret mdb w1 ac w2 Hw E) as [Hh Hd].
    split_and!; [done..|by rewrite HC'|done|]. apply Hr. rewrite <- HC.
    by apply (writes_run _ _ _ _ _ _ (writes_ensureAutomationConfig _ mdb (secrets_only mdb)) Hw E). }
  apply (attempt_Get_inv KStatefulSet) in E1 as [HC [(sts & [= ->] & Hs)|(e & [= ->] & He)]].
  - apply bind_Ret_inv in E2 as (ac & w2 & E2%wrap_Ret_inv & E3).
    destruct (isPreReadinessInitContainerStatefulSet sts) eqn:Hp.
    + injection E3 as <-. apply (Hdone ac w2); [done..|]. intros Hsts. unfold agents_ready. rewrite Hsts, Hs. auto.
    + apply wrap_Ret_inv in E3. apply AllReachedGoalState_inv in E3 as [HC3 Hg]. apply (Hdone ac w2); [done..|].
      intros Hsts. unfold agents_ready. rewrite HC3, Hsts, Hs. right. by apply Hg.
  - destruct (IsNotFound e); [|done]. apply bind_Ret_inv in E2 as (ac & w2 & E2%wrap_Ret_inv & E3).
    injection E3 as <-. apply (Hdone ac w2); [done..|]. intros Hsts. unfold agents_ready. by rewrite Hsts, He.
Qed.

(** ** The StatefulSet *)

Lemma built_strategy mdb sts :
  us_Type (ss_UpdateStrategy (sts_Spec (buildStatefulSetModificationFunction mdb sts))) =
  or_str (us_Type (ss_UpdateStrategy (V1.spec_StatefulSetConfiguration (V1.mdb_Spec mdb)))) (V1.GetUpdateStrategyType mdb).
Proof. reflexivity. Qed.

Definition replicas_now mdb : option Z :=
  or_ptr (ss_Replicas (V1.spec_StatefulSetConfiguration (V1.mdb_Spec mdb)))
    (Some (int32 (V1.StatefulSetReplicasThisReconciliation mdb))).
Definition strategy_now mdb : string :=
  or_str (us_Type (ss_UpdateStrategy (V1.spec_StatefulSetConfiguration (V1.mdb_Spec mdb)))) (V1.GetUpdateStrategyType mdb).

Lemma strategy_not_empty mdb : strategy_now mdb ≠ "".
Proof.
  unfold strategy_now, or_str, V1.GetUpdateStrategyType.
  case_bool_decide; [by destruct (negb _) | done].
Qed.

(** The agents of a StatefulSet report their version when its pods have the probe. *)
Lemma pre_readiness_names sts :
  isPreReadinessInitContainerStatefulSet sts = negb (bool_decide (construct.ReadinessProbeContainerName ∈ init_container_names sts)).
Proof.
  unfold isPreReadinessInitContainerStatefulSet, container.GetByName, init_container_names.
  set (cs := ps_InitContainers _). clearbody cs. induction cs as [|c cs IH]; [reflexivity|]. cbn [List.find map].
  destruct (decide (c_Name c = construct.ReadinessProbeContainerName)) as [Hc|Hc].
  - rewrite bool_decide_true by done. rewrite bool_decide_true; [done|]. rewrite Hc. constructor.
  - rewrite bool_decide_false by done. rewrite IH. f_equal. apply bool_decide_ext. rewrite elem_of_cons. naive_solver.
Qed.

Lemma merged_names (d o : list Container) name : name ∈ map c_Name d → name ∈ map c_Name (Containers d o).
Proof.
  intros Hin. assert (is_Some (create_map c_Name (Containers d o) !! name)) as [c Hc].
  { unfold Containers. rewrite merge_by_key_map by apply Container_key_stable.
    apply list_elem_of_fmap in Hin as (x & -> & Hx).
    destruct (proj2 (create_map_Some c_Name d (c_Name x))) as [y ->]; [eauto|].
    by destruct (create_map c_Name o !! c_Name x); eexists. }
  apply create_map_key in Hc as [<- Hc]. by apply list_elem_of_fmap_2.
Qed.

Lemma modify_named_has n (f : Container → Container) cs : (∀ c, c_Name (f c) = n) → n ∈ map c_Name (podtemplatespec.modify_named n f cs).
Proof.
  intros Hf. change (map c_Name ?l) with (c_Name <$> l). rewrite modify_named_names by auto.
  case_bool_decide; [done|]. apply elem_of_app. right. constructor.
Qed.

(** Volume mounts rename no container. *)
Lemma mounts_keep_init_names n mounts t :
  map c_Name (ps_InitContainers (pt_Spec (podtemplatespec.WithVolumeMounts n mounts t))) = map c_Name (ps_InitContainers (pt_Spec t)).
Proof.
  unfold podtemplatespec.WithVolumeMounts, podtemplatespec.modify_found.
  destruct (podtemplatespec.findIndexByName n (ps_Containers (pt_Spec t))); [done|].
  destruct (podtemplatespec.findIndexByName n (ps_InitContainers (pt_Spec t))) as [i|]; [|done]. cbn.
  apply list_eq. intros j. change (map c_Name ?l) with (c_Name <$> l). rewrite !list_lookup_fmap, list_lookup_alter.
  destruct (decide (i = j)) as [<-|]; [|done]. by destruct (ps_InitContainers _ !! i).
Qed.
Lemma tls_keeps_init_names mdb t :
  map c_Name (ps_InitContainers (pt_Spec (buildTLSPodSpecModification mdb t))) = map c_Name (ps_InitContainers (pt_Spec t)).
Proof.
  unfold buildTLSPodSpecModification. destruct (V1.tls_enabled mdb); cbn [negb]; [|done].
  unfold podtemplatespec.Apply, apply_all. cbn [foldl]. by rewrite !mounts_keep_init_names.
Qed.

Lemma built_probe mdb base :
  construct.ReadinessProbeContainerName ∈ init_container_names (buildStatefulSetModificationFunction mdb base).
Proof.
  apply merged_names. set (owner := construct.owner mdb).
  assert (ss_Template (sts_Spec (construct.BuildMongoDBReplicaSetStatefulSetModificationFunction owner (V1.scaler mdb) base))
    = construct.pod_template owner (ss_Template (sts_Spec base))) as Ht.
  { unfold construct.BuildMongoDBReplicaSetStatefulSetModificationFunction, construct.volume_claims.
    by destruct (construct.ow_HasSeparateDataAndLogsVolumes owner). }
  change (construct.ReadinessProbeContainerName ∈ map c_Name (ps_InitContainers (pt_Spec (buildTLSPodSpecModification mdb
    (ss_Template (sts_Spec (construct.BuildMongoDBReplicaSetStatefulSetModificationFunction owner (V1.scaler mdb) base))))))).
  rewrite tls_keeps_init_names, Ht. unfold construct.pod_template, podtemplatespec.Apply, apply_all. cbn [foldl].
  by apply modify_named_has.
Qed.

(** What was asked for is what is stored; the server decides the rest. *)
Record sts_asked mdb (sts : StatefulSet) : Prop := {
  asked_replicas : ss_Replicas (sts_Spec sts) = replicas_now mdb;
  asked_strategy : us_Type (ss_UpdateStrategy (sts_Spec sts)) = strategy_now mdb;
  asked_probe : isPreReadinessInitContainerStatefulSet sts = false;
}.

Lemma accepted_asked mdb base sts :
  accepted KStatefulSet (buildStatefulSetModificationFunction mdb base) sts → sts_asked mdb sts.
Proof.
  intros (Hr & Hs & Hn). split; [by rewrite Hr, built_replicas| |].
  - rewrite Hs; rewrite built_strategy; [done | apply strategy_not_empty].
  - rewrite pre_readiness_names, bool_decide_true; [done|]. apply Hn, built_probe.
Qed.

Lemma sts_CreateOrUpdate_Ret mdb base (w : W) x w' :
  statefulset.CreateOrUpdate (buildStatefulSetModificationFunction mdb base) w = (Ret x, w') →
  ∃ sts, cluster w' = put (cluster w) KStatefulSet sts ∧ key_of KStatefulSet sts = V1.NamespacedName_ mdb
    ∧ sts_asked mdb sts.
Proof.
  unfold statefulset.CreateOrUpdate. intros E. apply bind_Ret_inv in E as (r & w1 & E1 & E2).
  apply (attempt_Get_inv KStatefulSet) in E1 as [HC [(o & [= ->] & Ho)|(e & [= ->] & He)]]; rewrite <- HC.
  - apply (Update_law KStatefulSet) in E2 as (Hk & Ha & HU). exists x. rewrite Hk. split; [done|].
    split; [apply built_key | by eapply accepted_asked].
  - destruct (IsNotFound e); [|done]. apply bind_Ret_inv in E2 as (u & w2 & E2 & [= _ <-]).
    apply (Create_law KStatefulSet) in E2 as (_ & sts & Hk & Ha & HU); [|apply built_storable].
    exists sts. rewrite Hk. split; [done|]. split; [apply built_key | by eapply accepted_asked].
Qed.

Lemma createOrUpdateStatefulSet_Ret mdb (w : W) x w' :
  createOrUpdateStatefulSet mdb w = (Ret x, w') →
  ∃ sts, cluster w' = put (cluster w) KStatefulSet sts ∧ key_of KStatefulSet sts = V1.NamespacedName_ mdb
    ∧ sts_asked mdb sts.
Proof.
  unfold createOrUpdateStatefulSet. intros E. apply bind_Ret_inv in E as (r & w1 & E1 & E2).
  apply (attempt_Get_inv KStatefulSet) in E1 as [HC [(o & [= ->] & Ho)|(e & [= ->] & He)]]; rewrite <- HC.
  - apply bind_Ret_inv in E2 as (s & w2 & E2%wrap_Ret_inv & [= _ <-]). by eapply sts_CreateOrUpdate_Ret.
  - destruct (IsNotFound e); [|done].
    apply bind_Ret_inv in E2 as (s & w2 & E2%wrap_Ret_inv & [= _ <-]). by eapply sts_CreateOrUpdate_Ret.
Qed.

(** The StatefulSet as this reconciliation wants it, and settled. *)
Definition sts_settled mdb (sts : StatefulSet) : bool :=
  statefulset.IsReady sts (V1.StatefulSetReplicasThisReconciliation mdb)
  || bool_decide (us_Type (ss_UpdateStrategy (sts_Spec sts)) = V1.OnDeleteStatefulSetStrategyType).

Lemma deployStatefulSet_Ret mdb (w : W) b w' :
  deployStatefulSet mdb w = (Ret b, w') →
  ∃ sts, cluster w' = put (cluster w) KStatefulSet sts ∧ key_of KStatefulSet sts = V1.NamespacedName_ mdb
    ∧ sts_asked mdb sts ∧ b = sts_settled mdb sts.
Proof.
  unfold deployStatefulSet. intros E. apply bind_Ret_inv in E as (u & w1 & E1%wrap_Ret_inv & E2).
  apply createOrUpdateStatefulSet_Ret in E1 as (sts & HC & Hk & Ha).
  apply bind_Ret_inv in E2 as (o & w2 & E2%wrap_Ret_inv & [= <- <-]).
  apply (Get_Ret KStatefulSet) in E2 as [HC2 Ho]. rewrite HC, <- Hk, (stored_put_key _ KStatefulSet sts) in Ho.
  injection Ho as <-. exists sts. split; [congruence|]. by split_and!.
Qed.

(** [C6] Members come and go one at a time: whatever number of members is asked for - the
    user's own StatefulSet spec fixing no number of replicas -
    when the StatefulSet has been deployed it has exactly the number of replicas of
    this reconciliation - the current number give or take one, or the desired
    number for a new replica set - and the update strategy this reconciliation
    calls for; no other object was written, and the answer is whether it is ready
    at that size or waits for its pods to be deleted. *)
Theorem deployStatefulSet_spec mdb (w : W) b w' :
  let current := V1.CurrentReplicas mdb in
  let desired := V1.DesiredReplicas mdb in
  ss_Replicas (V1.spec_StatefulSetConfiguration (V1.mdb_Spec mdb)) = None →
  0 ≤ current → in_int32 current → in_int32 desired →
  deployStatefulSet mdb w = (Ret b, w') →
  ∃ sts n,
    cluster w' = put (cluster w) KStatefulSet sts ∧ key_of KStatefulSet sts = V1.NamespacedName_ mdb
    ∧ ss_Replicas (sts_Spec sts) = Some n
    ∧ n = (if current =? 0 then desired else if desired <? current then current - 1
           else if current <? desired then current + 1 else current)
    ∧ us_Type (ss_UpdateStrategy (sts_Spec sts)) = strategy_now mdb
    ∧ b = sts_settled mdb sts.
Proof.
  intros current desired Hnone Hc Hc32 Hd32 E. apply deployStatefulSet_Ret in E as (sts & HC & Hk & [Hr Hs _] & Hb).
  exists sts, (V1.StatefulSetReplicasThisReconciliation mdb). unfold replicas_now in Hr. rewrite Hnone in Hr.
  assert (∀ z, in_int32 z → in_int64 z) as H64 by (unfold in_int32, in_int64; lia).
  assert (V1.StatefulSetReplicasThisReconciliation mdb = Scale.next desired current) as Hn by done.
  assert (Scale.next desired current = (if current =? 0 then desired else if desired <? current then current - 1
           else if current <? desired then current + 1 else current)) as Hstep.
  { destruct (Z.eqb_spec current 0) as [->|Hne]; [apply Scale.next_zero|].
    rewrite Scale.next_step by (auto || lia). destruct (Z.eqb_spec current desired) as [->|];
      [by rewrite Z.ltb_irrefl|]. destruct (Z.ltb_spec desired current), (Z.ltb_spec current desired); lia. }
  assert (in_int32 (Scale.next desired current)) as Hn32.
  { rewrite Hstep. unfold in_int32 in *.
    destruct (current =? 0), (Z.ltb_spec desired current), (Z.ltb_spec current desired); lia. }
  split_and!; [done|done| |by rewrite Hn|done|done]. rewrite Hr, Hn. cbn. by rewrite int32_id.
Qed.

(** ** The order of the two *)

Lemma shouldRunInOrder_Ret mdb (w : W) b w' :
  shouldRunInOrder mdb w = (Ret b, w') →
  cluster w' = cluster w ∧
  ∃ found, b = in_order found mdb
    ∧ (found = true → is_Some (stored (cluster w) KStatefulSet (V1.NamespacedName_ mdb))).
Proof.
  unfold shouldRunInOrder. intros E. apply bind_Ret_inv in E as (r & w1 & E1 & E2).
  assert (∀ found, match r with inl _ => found = true | inr _ => found = false end → b = in_order found mdb ∧ w' = w1) as Hb.
  { unfold in_order. destruct r, (V1.tls_enabled mdb), (Scale.IsScalingUp (V1.scaler mdb)),
      (Scale.IsScalingDown (V1.scaler mdb)), (V1.IsChangingVersion mdb); intros found ->; by injection E2 as <- <-. }
  apply (attempt_Get_inv KStatefulSet) in E1 as [HC [(o & [= ->] & Ho)|(e & [= ->] & _)]];
    destruct (Hb _ eq_refl) as [-> ->]; (split; [done|]); eexists; (split; [done|]); [by eauto | done].
Qed.

Lemma deploy_steps mdb (w : W) r w' :
  deployMongoDBReplicaSet mdb w = (r, w') →
  ∃ found w0, cluster w0 = cluster w
    ∧ (found = true → is_Some (stored (cluster w) KStatefulSet (V1.NamespacedName_ mdb)))
    ∧ Functions.RunSequentially (in_order found mdb) [deployAutomationConfig mdb; deployStatefulSet mdb] w0 = (r, w').
Proof.
  unfold deployMongoDBReplicaSet. intros E. destruct (shouldRunInOrder mdb w) as [o w0] eqn:E0.
  assert (∃ b, o = Ret b) as [b ->].
  { revert E0. unfold shouldRunInOrder, GetStatefulSet, attempt, bind at 1.
    destruct (Get KStatefulSet (V1.NamespacedName_ mdb) w) as [[x|x|s] w1] eqn:EG;
      [| |by destruct (Get_law KStatefulSet _ _ _ _ EG)];
      destruct (V1.tls_enabled mdb), (Scale.IsScalingUp (V1.scaler mdb)),
        (Scale.IsScalingDown (V1.scaler mdb)), (V1.IsChangingVersion mdb); intros [= <- <-]; by eexists. }
  rewrite (bind_Ret _ _ _ _ _ E0) in E. apply shouldRunInOrder_Ret in E0 as (HC & found & -> & Hf). eauto.
Qed.

(** Two steps: the second runs when the first was successful. *)
Lemma run_two (first second : IO W bool) (w : W) r w' :
  Functions.runInOrder [first; second] w = (r, w') →
  ∃ r1 w1, first w = (r1, w1) ∧ ((r1 ≠ Ret true ∧ w' = w1 ∧ r = r1) ∨ (r1 = Ret true ∧ second w1 = (r, w'))).
Proof.
  cbn. unfold bind, ret. destruct (first w) as [[[]|e|s] w1].
  - destruct (second w1) as [[[]|e|s] w2] eqn:E2; intros [= <- <-]; eexists _, w1; (split; [reflexivity|]); by right.
  - intros [= <- <-]. eexists _, _. split; [reflexivity|]. by left.
  - intros [= <- <-]. eexists _, _. split; [reflexivity|]. by left.
  - intros [= <- <-]. eexists _, _. split; [reflexivity|]. by left.
Qed.

Lemma run_two_reversed (first second : IO W bool) (w : W) :
  Functions.runReversed [first; second] w = Functions.runInOrder [second; first] w.
Proof. reflexivity. Qed.

Definition sts_deployed (c : cluster_state) mdb : Prop :=
  ∃ sts, stored c KStatefulSet (V1.NamespacedName_ mdb) = Some sts ∧ sts_asked mdb sts ∧ sts_settled mdb sts = true.

Lemma deployStatefulSet_true mdb (w : W) w' :
  deployStatefulSet mdb w = (Ret true, w') → sts_deployed (cluster w') mdb.
Proof.
  intros E. apply deployStatefulSet_Ret in E as (sts & HC & Hk & Ha & Hb). exists sts.
  rewrite HC, <- Hk. split; [apply (stored_put_key _ KStatefulSet)|]. by split.
Qed.

(** A StatefulSet that is settled is ready, unless its pods wait to be deleted. *)
Lemma settled_ready mdb sts :
  sts_asked mdb sts → sts_settled mdb sts = true → strategy_now mdb ≠ V1.OnDeleteStatefulSetStrategyType →
  statefulset.IsReady sts (V1.StatefulSetReplicasThisReconciliation mdb) = true.
Proof.
  intros [_ Hs _] Hb Hn. unfold sts_settled in Hb. rewrite bool_decide_false, orb_false_r in Hb by congruence. done.
Qed.

Lemma scaling_one_way s : Scale.IsScalingDown s = true → Scale.IsScalingUp s = false.
Proof.
  unfold Scale.IsScalingUp, Scale.IsScalingDown. rewrite Z.ltb_lt. intros Hlt.
  destruct (Z.ltb_spec (Scale.CurrentReplicas s) (Scale.DesiredReplicas s)); [lia | done].
Qed.

(** [C4] Removing a member is safe, where the code means it to be: while the replica set is
    scaled down, and there is no StatefulSet yet or TLS is off, the StatefulSet does not
    change before the config without the member - built from the cluster as it was -
    is stored, and the agents may be left to it: each of the pods that remain reports
    its version, unless none of these pods exists or the StatefulSet is missing or from
    before pods had a readiness probe. *)
Theorem scale_down_config_first mdb (w : W) r w' n :
  keys_ok (cluster w) → Scale.IsScalingDown (V1.scaler mdb) = true →
  (V1.tls_enabled mdb = true → stored (cluster w) KStatefulSet (V1.NamespacedName_ mdb) = None) →
  deployMongoDBReplicaSet mdb w = (r, w') →
  stored (cluster w') KStatefulSet n ≠ stored (cluster w) KStatefulSet n →
  ∃ w1, config_deployed (cluster w) mdb w1 ∧ deployStatefulSet mdb w1 = (r, w').
Proof.
  intros Hw Hdown Htls E Hn. apply deploy_steps in E as (found & w0 & HC & Hf & E).
  assert (in_order found mdb = true) as Ho.
  { unfold in_order. rewrite scaling_one_way, Hdown by done. destruct found; [|done].
    destruct (V1.tls_enabled mdb); [|done]. destruct (Hf eq_refl). by rewrite Htls in * by done. }
  rewrite Ho in E. apply run_two in E as (r1 & w1 & E1 & [(_ & -> & _)|(-> & E2)]).
  - destruct Hn. rewrite <- HC in *.
    by apply (writes_run _ _ _ _ _ _ (writes_deployAutomationConfig (of_kind KSecret) mdb (secrets_only mdb)) Hw E1).
  - exists w1. split; [|done]. rewrite <- HC in *. by apply deployAutomationConfig_true.
Qed.

Lemma reversed_sts_first mdb (w : W) r w' n found (w0 : W) :
  keys_ok (cluster w) → cluster w0 = cluster w →
  Functions.RunSequentially false [deployAutomationConfig mdb; deployStatefulSet mdb] w0 = (r, w') →
  stored (cluster w') KSecret n ≠ stored (cluster w) KSecret n → in_order found mdb = false →
  ∃ w1, sts_deployed (cluster w1) mdb ∧ deployAutomationConfig mdb w1 = (r, w').
Proof.
  intros Hw HC E Hn _. cbn [Functions.RunSequentially] in E. rewrite run_two_reversed in E.
  apply run_two in E as (r1 & w1 & E1 & [(_ & -> & _)|(-> & E2)]).
  - destruct Hn. rewrite <- HC in *.
    by apply (writes_run _ _ _ _ _ _ (writes_deployStatefulSet (of_kind KStatefulSet) mdb eq_refl) Hw E1).
  - exists w1. split; [|done]. by eapply deployStatefulSet_true.
Qed.

(** [C5] Adding a member is safe: while the replica set is scaled up, no secret - and so
    not the config the agents read - changes before the StatefulSet has the size and the
    update strategy of this reconciliation, and is ready at that size; only when that
    strategy is OnDelete - the version changes as well, or the user fixed it - its pods,
    which then wait to be deleted, are not waited for. *)
Theorem scale_up_sts_first mdb (w : W) r w' n :
  keys_ok (cluster w) → Scale.IsScalingUp (V1.scaler mdb) = true →
  deployMongoDBReplicaSet mdb w = (r, w') →
  stored (cluster w') KSecret n ≠ stored (cluster w) KSecret n →
  ∃ w1 sts, stored (cluster w1) KStatefulSet (V1.NamespacedName_ mdb) = Some sts
    ∧ ss_Replicas (sts_Spec sts) = replicas_now mdb
    ∧ us_Type (ss_UpdateStrategy (sts_Spec sts)) = strategy_now mdb
    ∧ (strategy_now mdb ≠ V1.OnDeleteStatefulSetStrategyType →
       statefulset.IsReady sts (V1.StatefulSetReplicasThisReconciliation mdb) = true)
    ∧ deployAutomationConfig mdb w1 = (r, w').
Proof.
  intros Hw Hup E Hn. apply deploy_steps in E as (found & w0 & HC & Hf & E).
  assert (in_order found mdb = false) as Ho by (unfold in_order; rewrite Hup; by destruct (_ && _)).
  rewrite Ho in E. destruct (reversed_sts_first _ _ _ _ _ _ _ Hw HC E Hn Ho) as (w1 & (sts & Hs & Ha & Hb) & E1).
  exists w1, sts. split_and!; [done|apply Ha|apply Ha| |done]. by apply settled_ready.
Qed.

(** With TLS on, a StatefulSet that is there always goes first - also when a member is
    removed, and TLS was on before. *)
Lemma tls_sts_first `{!KubeHealthy W} mdb (w : W) r w' n :
  keys_ok (cluster w) → V1.tls_enabled mdb = true →
  is_Some (stored (cluster w) KStatefulSet (V1.NamespacedName_ mdb)) →
  deployMongoDBReplicaSet mdb w = (r, w') →
  stored (cluster w') KSecret n ≠ stored (cluster w) KSecret n →
  ∃ w1, sts_deployed (cluster w1) mdb ∧ deployAutomationConfig mdb w1 = (r, w').
Proof.
  intros Hw Htls Hs E Hn. unfold deployMongoDBReplicaSet in E.
  destruct (shouldRunInOrder_healthy mdb w) as (w0 & E0 & HC). rewrite (bind_Ret _ _ _ _ _ E0) in E.
  assert (in_order true mdb = false) as Ho by (unfold in_order; by rewrite Htls).
  rewrite bool_decide_true in E by done. rewrite Ho in E.
  exact (reversed_sts_first mdb w r w' n true w0 Hw HC E Hn Ho).
Qed.

(** ** Both *)

(** The agents' pods that this reconciliation waits for: each reports the version, or
    none of them exists. *)
Definition agents_report (c : cluster_state) mdb (version : Z) : Prop :=
  let n := V1.StatefulSetReplicasThisReconciliation mdb in
  let pod i := stored c KPod (MkNamespacedName (member_name mdb i) (V1.Namespace mdb)) in
  (∀ i, 0 ≤ i < n → ∃ p, pod i = Some p ∧ ReachedGoalState p version = true)
  ∨ (∀ i, 0 ≤ i < n → pod i = None).

(** There is no StatefulSet, or one whose pods do not report a version. *)
Definition no_agents (c : cluster_state) mdb : Prop :=
  match stored c KStatefulSet (V1.NamespacedName_ mdb) with
  | None => True
  | Some sts => isPreReadinessInitContainerStatefulSet sts = true
  end.

Lemma goal_reached_report c mdb sts version :
  key_of KStatefulSet sts = V1.NamespacedName_ mdb →
  goal_reached c sts (V1.StatefulSetReplicasThisReconciliation mdb) version → agents_report c mdb version.
Proof.
  unfold goal_reached, agents_report, pod_of, member_name. intros [= Hn Hns].
  change (om_Name (V1.mdb_ObjectMeta mdb)) with (V1.Name mdb) in Hn.
  change (om_Namespace (V1.mdb_ObjectMeta mdb)) with (V1.Namespace mdb) in Hns. by rewrite Hn, Hns.
Qed.

Lemma agents_ready_report c mdb version :
  keys_ok c → agents_ready c mdb version → no_agents c mdb ∨ agents_report c mdb version.
Proof.
  intros Hk. unfold agents_ready, no_agents. destruct (stored c KStatefulSet _) as [sts|] eqn:Hs; [|by left].
  intros [Hp|Hg]; [by left|right]. eapply goal_reached_report; [|exact Hg]. exact (Hk _ _ _ Hs).
Qed.

(** [ac] is the config of the resource, or one with the same content, and its agents
    have reached it in [c'] - if there were any in [c]. *)
Record config_reached (c : cluster_state) mdb (c' : cluster_state) (ac : AutomationConfig) : Prop := {
  reached_config : ∃ desired, config_of mdb desired ∧ (ac = desired ∨ AreEqual desired ac = true);
  reached_agents : no_agents c mdb ∨ agents_report c' mdb (ac_Version ac);
}.

Lemma config_reached_pods c c0 mdb c' c1 ac :
  (∀ n, stored c0 KStatefulSet n = stored c KStatefulSet n) → (∀ n, stored c1 KPod n = stored c' KPod n) →
  config_reached c mdb c' ac → config_reached c0 mdb c1 ac.
Proof.
  intros Hs Hp [Hd Ha]. split; [done|]. unfold no_agents, agents_report in *. rewrite Hs. by setoid_rewrite Hp.
Qed.

(** The replica set of [mdb] is deployed: the StatefulSet has the size of this
    reconciliation and is settled, and the config was stored and reached. *)
Record deployed (c : cluster_state) mdb (c' : cluster_state) : Prop := {
  deployed_sts : sts_deployed c' mdb;
  deployed_config : ∃ ac, config_reached c mdb c' ac ∧ holds_config c' (config_key mdb) ac;
}.

Lemma holds_config_same c c' n ac :
  stored c' KSecret n = stored c KSecret n → holds_config c n ac → holds_config c' n ac.
Proof. unfold holds_config. by intros ->. Qed.

Lemma writes_AC_frame mdb (u : W) x u' :
  keys_ok (cluster u) → deployAutomationConfig mdb u = (x, u') →
  keys_ok (cluster u') ∧ ∀ k n, k ≠ KSecret → stored (cluster u') k n = stored (cluster u) k n.
Proof. apply (writes_run (of_kind KSecret) _ any), writes_deployAutomationConfig, secrets_only. Qed.
Lemma writes_sts_frame mdb (u : W) x u' :
  keys_ok (cluster u) → deployStatefulSet mdb u = (x, u') →
  keys_ok (cluster u') ∧ ∀ k n, k ≠ KStatefulSet → stored (cluster u') k n = stored (cluster u) k n.
Proof. by apply (writes_run (of_kind KStatefulSet) _ any), writes_deployStatefulSet. Qed.

Lemma deploy_true mdb (w : W) w' :
  keys_ok (cluster w) → deployMongoDBReplicaSet mdb w = (Ret true, w') → deployed (cluster w) mdb (cluster w').
Proof.
  intros Hw E. apply deploy_steps in E as (found & w0 & HC & Hf & E). rewrite <- HC in *.
  destruct (in_order found mdb); cbn [Functions.RunSequentially] in E; [|rewrite run_two_reversed in E];
    apply run_two in E as (r1 & w1 & E1 & [(? & _ & <-)|(-> & E2)]); try done.
  - destruct (writes_AC_frame _ _ _ _ Hw E1) as [Hw1 Hu1]. destruct (writes_sts_frame _ _ _ _ Hw1 E2) as [_ Hu2].
    split; [by eapply deployStatefulSet_true|].
    destruct (deployAutomationConfig_true _ _ _ Hw E1) as (ac & ? & ? & _ & _ & _ & Hh & Hd & Ha).
    exists ac. split; [|eapply holds_config_same; [by apply Hu2|done]].
    eapply config_reached_pods; [intros n; symmetry; by apply (Hu1 KStatefulSet)|intros n; by apply Hu2|].
    split; [done|]. by apply agents_ready_report.
  - destruct (writes_sts_frame _ _ _ _ Hw E1) as [Hw1 Hu1]. destruct (writes_AC_frame _ _ _ _ Hw1 E2) as [Hw2 Hu2].
    pose proof (deployStatefulSet_true _ _ _ E1) as (sts & Hs & Ha & Hb).
    assert (stored (cluster w') KStatefulSet (V1.NamespacedName_ mdb) = Some sts) as Hs' by (by rewrite Hu2).
    split; [by exists sts|].
    destruct (deployAutomationConfig_true _ _ _ Hw1 E2) as (ac & ? & ? & _ & _ & _ & Hh & Hd & Hr). exists ac. split; [|done].
    split; [done|right]. apply agents_ready_report in Hr as [Hr|]; [|done..]. unfold no_agents in Hr.
    rewrite Hs', (asked_probe _ _ Ha) in Hr. done.
Qed.

(** ** The status that is left behind *)

Lemma SetAnnotations_status n anns (w : W) r w' m :
  keys_ok (cluster w) → annotations.SetAnnotations n anns w = (r, w') → stored (cluster w) KMongoDB n = Some m →
  ∃ m', stored (cluster w') KMongoDB n = Some m' ∧ V1.mdb_Status m' = V1.mdb_Status m.
Proof.
  intros Hw E Hm. unfold annotations.SetAnnotations in E.
  apply bind_inv in E as [(o & w1 & E1 & E2)|[(e & E1 & _)|(s & E1 & _)]];
    destruct (Get_law KMongoDB n w _ _ E1) as [HC HR]; [|rewrite HC; by eauto|done].
  rewrite HR in Hm. injection Hm as ->. pose proof (Hw _ _ _ HR) as Hk. rewrite <- HC in HR.
  apply (Patch_law KMongoDB) in E2. destruct r as [u|e|s]; [|rewrite E2; by eauto..].
  destruct E2 as (o' & Hk' & HC2 & Hs). rewrite Hk in Hs. specialize (Hs HR). exists o'. split; [|exact Hs].
  rewrite HC2, <- Hk, <- Hk'. apply (stored_put_key _ KMongoDB).
Qed.

(** The status records how far this reconciliation got. *)
Definition progress_recorded mdb (phase : V1.Phase) (c : cluster_state) : Prop :=
  ∃ m, stored c KMongoDB (V1.NamespacedName_ mdb) = Some m
    ∧ V1.st_Phase (V1.mdb_Status m) = phase
    ∧ V1.st_CurrentStatefulSetReplicas (V1.mdb_Status m) = V1.StatefulSetReplicasThisReconciliation mdb
    ∧ V1.st_CurrentMongoDBMembers (V1.mdb_Status m) = V1.AutomationConfigMembersThisReconciliation mdb.

Lemma updateConnectionStringSecrets_keeps mdb (w : W) r w' :
  keys_ok (cluster w) → attempt (updateConnectionStringSecrets mdb) w = (r, w') →
  keys_ok (cluster w') ∧ ∀ k n, k ≠ KSecret → stored (cluster w') k n = stored (cluster w) k n.
Proof.
  apply (writes_run (of_kind KSecret) _ any). eapply writes_any, writes_attempt.
  by apply writes_updateConnectionStringSecrets.
Qed.

(** The last two steps do not touch it. *)
Lemma last_steps_keep_status mdb m (w : W) r w' :
  keys_ok (cluster w) → stored (cluster w) KMongoDB (V1.NamespacedName_ mdb) = Some m →
  (attempt (updateConnectionStringSecrets mdb) ;; attempt (updateLastSuccessfulConfiguration mdb)) w = (r, w') →
  ∃ m', stored (cluster w') KMongoDB (V1.NamespacedName_ mdb) = Some m' ∧ V1.mdb_Status m' = V1.mdb_Status m.
Proof.
  intros Hw Hm E. destruct (attempt (updateConnectionStringSecrets mdb) w) as [x w1] eqn:E1.
  destruct (updateConnectionStringSecrets_keeps _ _ _ _ Hw E1) as [Hw1 Hu].
  rewrite <- (Hu KMongoDB) in Hm by done. apply bind_inv in E as [(a & w2 & E2 & E3)|[(e & E2 & _)|(s & E2 & _)]];
    rewrite E1 in E2; injection E2 as -> ->; [|by eauto..].
  unfold attempt in E3. destruct (updateLastSuccessfulConfiguration mdb w2) as [y w3] eqn:E4.
  assert (w' = w3) as -> by (destruct y; by injection E3 as <- <-).
  by eapply SetAnnotations_status.
Qed.

Lemma finish_Ret mdb (w : W) res w' :
  keys_ok (cluster w) → finish mdb w = (Ret res, w') →
  let still := Scale.IsStillScaling (V1.scaler mdb) in
  Requeue res = still ∧ progress_recorded mdb (if still then V1.Pending else V1.Running) (cluster w').
Proof.
  intros Hw E still. unfold finish in E. fold still in E. destruct still.
  - apply bind_Ret_inv in E as ([m res'] & w1 & E1 & [= <- <-]).
    apply status_Update_Ret in E1 as (Hm & HD & ((m' & Hs & Hst) & _)). cbn [fst snd] in *.
    unfold withMessage in *. destruct (IsTransientMessage _); injection HD as <-; (split; [done|]); subst m;
      exists m'; rewrite Hst; (split; [exact Hs|]); done.
  - apply bind_Ret_inv in E as (uri & w1 & [= _ <-] & E). apply bind_Ret_inv in E as ([m res'] & w2 & E1 & E).
    assert (keys_ok (cluster w2)) as Hw2.
    { refine (proj1 (writes_run (λ _ _, True) _ _ _ _ _ _ Hw E1)).
      apply writes_status_Update; [done|options_keep_key]. }
    apply status_Update_Ret in E1 as (Hm & HD & ((m' & Hs & Hst) & _)). cbn [fst snd] in *.
    rewrite <- bind_assoc in E. apply bind_Ret_inv in E as (x & w3 & E3 & [= <- <-]).
    unfold withMessage in *. replace (IsTransientMessage "") with false in * by (vm_compute; reflexivity).
    injection HD as <-. split; [done|].
    destruct (last_steps_keep_status m m' w2 (Ret x) w3 Hw2 Hs E3) as (m2 & Hs2 & Hst2).
    exists m2. rewrite Hst2, Hst. subst m. by split_and!.
Qed.

(** Progress is recorded: the last part of a reconciliation, when it returns,
    stores the sizes this reconciliation reached as the current ones - so that the
    next one starts from them - and comes back exactly when that is not yet the
    desired size; the phase is Running if it is and Pending if not. *)
Theorem finish_records_progress mdb (w : W) res w' :
  keys_ok (cluster w) → finish mdb w = (Ret res, w') →
  let still := Scale.IsStillScaling (V1.scaler mdb) in
  Requeue res = still ∧ progress_recorded mdb (if still then V1.Pending else V1.Running) (cluster w').
Proof. apply finish_Ret. Qed.

(** ** A reconciliation that does not come back *)

Lemma tls_configured_same c c' mdb :
  (∀ k n, k = KConfigMap ∨ k = KSecret → stored c' k n = stored c k n) →
  tls_configured c' mdb → tls_configured c mdb.
Proof.
  intros Hc (cm & s & Hcm & Hca & Hs & Hkey). exists cm, s. rewrite Hc in Hcm, Hs by auto. tauto.
Qed.

(** Resetting the update strategy: only after a new version, and only the strategy. *)
Lemma ResetUpdateStrategy_Ret mdb (w : W) u w' sts :
  keys_ok (cluster w) → statefulset.ResetUpdateStrategy mdb w = (Ret u, w') →
  stored (cluster w) KStatefulSet (V1.NamespacedName_ mdb) = Some sts →
  ∃ sts', stored (cluster w') KStatefulSet (V1.NamespacedName_ mdb) = Some sts'
    ∧ ss_Replicas (sts_Spec sts') = ss_Replicas (sts_Spec sts)
    ∧ if V1.IsChangingVersion mdb
      then us_Type (ss_UpdateStrategy (sts_Spec sts')) = V1.RollingUpdateStatefulSetStrategyType else sts' = sts.
Proof.
  intros Hw E Hs. unfold statefulset.ResetUpdateStrategy in E. destruct (V1.IsChangingVersion mdb); cbn [negb] in E.
  2: { injection E as _ <-. by exists sts. }
  apply bind_Ret_inv in E as (o & w1 & E & [= _ <-]). unfold statefulset.GetAndUpdate in E.
  apply bind_Ret_inv in E as (s & w2 & E1 & E2). apply (Get_Ret KStatefulSet) in E1 as [HC Hs1].
  apply (Update_law KStatefulSet) in E2 as (Hk & (Hr & Hst & _) & HC2). rewrite HC in HC2.
  rewrite Hs in Hs1. injection Hs1 as <-. exists o.
  assert (key_of KStatefulSet o = V1.NamespacedName_ mdb) as <- by (etrans; [exact Hk | exact (Hw _ _ _ Hs)]).
  split; [rewrite HC2; apply (stored_put_key _ KStatefulSet)|]. split; [exact Hr | by apply Hst].
Qed.

(** The StatefulSet at the end: of the size of this reconciliation, and ready at it
    unless it has the OnDelete strategy the user asked for; after a change of the version
    its pods were replaced one by one, and it is back to rolling updates. *)
Definition sts_in_place (c : cluster_state) mdb : Prop :=
  ∃ sts, stored c KStatefulSet (V1.NamespacedName_ mdb) = Some sts
    ∧ ss_Replicas (sts_Spec sts) = replicas_now mdb
    ∧ if V1.IsChangingVersion mdb
      then us_Type (ss_UpdateStrategy (sts_Spec sts)) = V1.RollingUpdateStatefulSetStrategyType
      else us_Type (ss_UpdateStrategy (sts_Spec sts)) = strategy_now mdb
        ∧ (strategy_now mdb ≠ V1.OnDeleteStatefulSetStrategyType →
           statefulset.IsReady sts (V1.StatefulSetReplicasThisReconciliation mdb) = true).

(** The users' connection strings, which are written last, do not replace the config. *)
Definition config_kept mdb : Prop := ∀ u, u ∈ V1.GetScramUsers mdb → connection_key mdb u ≠ config_key mdb.

(** What has been checked and done for [mdb] when the reconciliation that found the
    cluster as [c] leaves it as [c']. *)
Record accomplished (c : cluster_state) mdb (c' : cluster_state) : Prop := {
  done_valid : reconciler_validateSpec mdb = Ret ();
  done_tls : V1.tls_enabled mdb = false ∨ tls_configured c mdb;
  done_size : V1.StatefulSetReplicasThisReconciliation mdb = V1.DesiredReplicas mdb;
  done_statefulset : sts_in_place c' mdb;
  done_config : ∃ ac, config_reached c mdb c' ac ∧ (config_kept mdb → holds_config c' (config_key mdb) ac);
  done_recorded : progress_recorded mdb V1.Running c';
}.

Definition finish_writes mdb (k : kind) (n : NamespacedName) : Prop :=
  k = KMongoDB ∨ (k = KSecret ∧ ∃ u, u ∈ V1.GetScramUsers mdb ∧ n = connection_key mdb u).
Lemma finish_keeps mdb (w : W) r w' :
  keys_ok (cluster w) → finish mdb w = (r, w') →
  ∀ k n, ¬ finish_writes mdb k n → stored (cluster w') k n = stored (cluster w) k n.
Proof.
  intros Hw E. refine (proj2 (writes_run (finish_writes mdb) _ any _ _ _ _ Hw E)). apply writes_finish; [|by left].
  intros u Hu. right. split; [done|]. by exists u.
Qed.

Lemma reset_in_place mdb (w : W) u w' :
  keys_ok (cluster w) → sts_deployed (cluster w) mdb → statefulset.ResetUpdateStrategy mdb w = (Ret u, w') →
  sts_in_place (cluster w') mdb.
Proof.
  intros Hw (sts & Hs & Ha & Hb) E. destruct (ResetUpdateStrategy_Ret _ _ _ _ _ Hw E Hs) as (sts' & Hs' & Hr & Hst).
  exists sts'. split; [done|]. split; [rewrite Hr; apply Ha|]. destruct (V1.IsChangingVersion mdb); [done|]. subst sts'.
  split; [apply Ha|]. by apply settled_ready.
Qed.

Lemma deploy_and_finish_Ret mdb (w : W) res w' :
  keys_ok (cluster w) → deploy_and_finish mdb w = (Ret res, w') → Requeue res = false →
  V1.StatefulSetReplicasThisReconciliation mdb = V1.DesiredReplicas mdb
  ∧ sts_in_place (cluster w') mdb
  ∧ (∃ ac, config_reached (cluster w) mdb (cluster w') ac ∧ (config_kept mdb → holds_config (cluster w') (config_key mdb) ac))
  ∧ progress_recorded mdb V1.Running (cluster w').
Proof.
  intros Hw E Hres. unfold deploy_and_finish in E.
  apply or_fail_Ret in E as (ready & w1 & E1 & E); [|done].
  destruct (writes_run _ _ _ _ _ _ (writes_deploy _ mdb (own_secrets_allowed _ _ (namespace_own_allowed mdb)) eq_refl) Hw E1) as [Hw1 _].
  destruct ready; cbn [negb] in E; [|apply pending_with_Ret in E; congruence].
  apply or_fail_Ret in E as (u & w2 & E2 & E); [|done].
  destruct (writes_run _ _ _ _ _ _ (writes_ResetUpdateStrategy (of_kind KStatefulSet) mdb eq_refl) Hw1 E2) as [Hw2 Hu2].
  pose proof (finish_keeps mdb w2 (Ret res) w' Hw2 E) as Hu.
  apply (finish_Ret mdb w2 res w' Hw2) in E as [Hr Hp]. rewrite Hres in Hr. rewrite <- Hr in Hp.
  apply deploy_true in E1 as [Hsts (ac & Hac & Hh)]; [|done]. split_and!; [| | |done].
  - symmetry in Hr. unfold Scale.IsStillScaling in Hr. apply negb_false_iff, Z.eqb_eq in Hr. exact Hr.
  - destruct (reset_in_place _ _ _ _ Hw1 Hsts E2) as (sts & Hs & Hin). exists sts. split; [|done].
    rewrite Hu; [done|by intros [|[]]].
  - exists ac. split.
    + eapply config_reached_pods; [done| |exact Hac]. intros n. rewrite Hu by (by intros [|[]]). by apply Hu2.
    + intros Hk. eapply holds_config_same; [|exact Hh]. rewrite Hu; [by apply Hu2|].
      intros [|[_ (u' & Hu' & E)]]; [done|]. by destruct (Hk u' Hu').
Qed.

Lemma prepare_and_deploy_Ret mdb (w : W) res w' :
  keys_ok (cluster w) → prepare_and_deploy mdb w = (Ret res, w') → Requeue res = false →
  reconciler_validateSpec mdb = Ret () → accomplished (cluster w) mdb (cluster w').
Proof.
  intros Hw E Hres Hv.
  apply prepare_steps in E as (w1 & w2 & w3 & w4 & E1 & E2 & _ & _ & E & _ & _ & Hw4 & Hu2 & Hu4); [|done..].
  apply validateTLSConfig_Ret in E2 as (HC2 & [Ht _] & _).
  apply deploy_and_finish_Ret in E as (Hsize & Hsts & (ac & Hac & Hh) & Hp); [|done..]. split; [done| |done|done| |done].
  - destruct (Ht eq_refl) as [|Htls]; [by left|right]. apply (tls_configured_same _ (cluster w1)); [|done].
    intros k n Hk. rewrite <- HC2. apply Hu2. by destruct Hk as [->| ->].
  - exists ac. split; [|done]. eapply config_reached_pods; [|done|exact Hac]. intros n. symmetry. by apply (Hu4 KStatefulSet).
Qed.

(** [C1] When a reconciliation does not ask to come back, the resource is gone, or it is
    done ([accomplished]): the spec was valid against the last configuration and TLS is
    off or its material was there; in the cluster that is left behind the StatefulSet has
    the desired size and is ready at it (or has the OnDelete strategy, if the user asked
    for it; after a change of the version it is back to rolling updates), the config
    secret holds the config built for the resource (unless a user's connection string
    secret has its name), the pods of all members report its version or do not exist
    (unless there was no StatefulSet before, or one without the probe), and the status
    is Running with the sizes that were reached. *)
Theorem Reconcile_done (request : NamespacedName) (w : W) res w' :
  keys_ok (cluster w) → Reconcile request w = (Ret res, w') → Requeue res = false →
  (stored (cluster w) KMongoDB request = None ∧ cluster w' = cluster w)
  ∨ ∃ mdb, stored (cluster w) KMongoDB request = Some mdb ∧ accomplished (cluster w) mdb (cluster w').
Proof.
  intros Hw E Hres. destruct (stored (cluster w) KMongoDB request) as [mdb|] eqn:Hm.
  - right. exists mdb. split; [done|]. destruct (Reconcile_found _ _ _ _ _ Hm E Hres) as (w1 & HC & Hv & E1).
    rewrite <- HC in *. by apply (prepare_and_deploy_Ret mdb w1 res).
  - left. split; [done|]. unfold Reconcile in E. apply bind_Ret_inv in E as (r & w1 & E1 & E).
    apply (attempt_Get_inv KMongoDB) in E1 as [HC [(mdb & [= ->] & Hm')|(e & [= ->] & _)]]; [congruence|].
    destruct (IsNotFound e); by injection E as <- <-.
Qed.
End Facts.
