(* ===== verification/Loop.v ===== *)
(** * The controller loop

    The reconciler in the loop it is set up for (Manager.v): users and Kubernetes
    change the cluster, the controller runtime turns changes into requests, and the
    requests are reconciled one after the other, until the process is restarted.  The
    runtime is not part of the repository; the step relation asks of it what it
    documents: a request is kept until its reconciliation asks for no other, every
    change that the controller subscribes to is delivered, and after a start every
    resource is listed. *)
From S2P Require Import Prelude GoStd K8s MergeByKey Merge Scale Json Codec Hashes Base64 ScramCreds ACTypes.
From S2P Require Import ACBuilder Types SpecEq Kube KubeOps KubeFacts ACSecret Scram ScramFacts Validation Status Watch.
From S2P Require Import Agent SpecJson PodMods StsMods Construct Tls TlsFacts Reconciler Frames ReconcilerFrames TriggerFacts.
From S2P Require Import Manager ConfigFacts ReconcilerFacts WatchFacts DeployFacts.
Local Open Scope Z_scope.

(** ** The runtime *)

Section Runtime.
Context {api : K8sApi} {W : Type} `{!KubeClient W, !HasWatcher W} (c : ControllerSpec W).

(** The world and the requests that wait. *)
Record LoopState := MkLoop { lp_world : W; lp_queue : gset NamespacedName }.

(** The changes from [before] to the cluster of [w'] have led to the requests that the
    controller asked for: for a resource that appeared, disappeared, or was updated
    in a way its predicate lets through, and for those its handler names when it is
    called with an event about a secret that changed. *)
Record delivered (before : cluster_state) (w' : W) (queue : gset NamespacedName) : Prop := {
  delivered_resource : ∀ n,
    match stored before KMongoDB n, stored (cluster w') KMongoDB n with
    | Some old, Some new => For_UpdateFunc c old new = true → n ∈ queue
    | None, None => True
    | _, _ => n ∈ queue
    end;
  delivered_secret : ∀ k,
    stored (cluster w') KSecret k = stored before KSecret k
    ∨ ∃ e, event_key e = k ∧ ∀ n, n ∈ Watches_Secret c e w' → n ∈ queue;
}.

(** A result or an error after which the request is queued again. *)
Definition comes_back (r : outcome Result) : bool :=
  match r with
  | Ret res => Requeue res || (0 <? RequeueAfter res)
  | _ => true
  end.

(** Only the operator writes the status of resources. *)
Definition statuses_kept (before after : cluster_state) : Prop :=
  ∀ n m m', stored before KMongoDB n = Some m → stored after KMongoDB n = Some m' →
    V1.mdb_Status m' = V1.mdb_Status m.

(** A process has just started: nothing is watched yet, and all resources are listed. *)
Definition started (s : LoopState) : Prop :=
  keys_ok (cluster (lp_world s)) ∧ watched (lp_world s) = watch_New
  ∧ ∀ n, is_Some (stored (cluster (lp_world s)) KMongoDB n) → n ∈ lp_queue s.

Inductive loop_step : LoopState → LoopState → Prop :=
  | Environment w q w' q' :
      keys_ok (cluster w') → watched w' = watched w → statuses_kept (cluster w) (cluster w') →
      delivered (cluster w) w' q' → q ⊆ q' →
      loop_step (MkLoop w q) (MkLoop w' q')
  | Reconciled n w q r w' q' :
      n ∈ q → Completed_by c n w = (r, w') → (∀ site, r ≠ Panic site) →
      delivered (cluster w) w' q' → q ∖ {[n]} ⊆ q' → (comes_back r = true → n ∈ q') →
      loop_step (MkLoop w q) (MkLoop w' q')
  (** The process ended, perhaps in the middle of a reconciliation, and another began. *)
  | Restarted s s' : started s' → loop_step s s'.

(** An execution: the states it went through, from the start of a process on, and the
    state it is in. *)
Inductive execution : list LoopState → LoopState → Prop :=
  | Began s : started s → execution [] s
  | Went past s s' : execution past s → loop_step s s' → execution (past ++ [s]) s'.
End Runtime.

(** ** Resources at rest *)

Section Facts.
Context {api : K8sApi} `{!K8sApiEq api}.
Context `{!Semver, !Objx, !Mergo, !Cast, !Stringprep, !Environ, !Quantities, !MapOrder, !StsSpecJson}.
Context {W : Type} `{client : !KubeClient W, !KubeLaws W, !SpecKept W, !Entropy W, !EntropyFrame W}.
Context `{!HasWatcher W, !WatcherFrame W, !WatcherGrows W}.
Implicit Types mdb m : V1.MongoDBCommunity.

(** The controller of the operator. *)
Definition operator_spec : ControllerSpec W := controller_spec (MkReplicaSetReconciler client).

(** The step from [s1] to [s2] was a reconciliation of [n], which was the resource [m]
    then, that did not come back. *)
Record completed (n : NamespacedName) m (s1 s2 : LoopState) : Prop := {
  completed_found : stored (cluster (lp_world s1)) KMongoDB n = Some m;
  completed_step : loop_step operator_spec s1 s2;
  completed_run : ∃ r, Completed_by operator_spec n (lp_world s1) = (r, lp_world s2) ∧ comes_back r = false;
}.

(** After the reconciliation from [s1] to [s2], the state [s] still is what it made of
    it: the resource has the spec [m] had, its status says Running at the desired size,
    and the secrets the reconciliation depended on are those it left, and are watched. *)
Record untouched (n : NamespacedName) m (s1 s2 s : LoopState) : Prop := {
  untouched_resource : ∃ m', stored (cluster (lp_world s)) KMongoDB n = Some m'
    ∧ V1.mdb_Spec m' = V1.mdb_Spec m ∧ V1.st_Phase (V1.mdb_Status m') = V1.Running
    ∧ V1.st_CurrentStatefulSetReplicas (V1.mdb_Status m') = V1.DesiredReplicas m;
  untouched_secrets : ∀ k, watched_secret (cluster (lp_world s1)) m k →
    stored (cluster (lp_world s)) KSecret k = stored (cluster (lp_world s2)) KSecret k
    ∧ n ∈ dependents (watched (lp_world s)) k;
}.

(** In the execution through [past] to [s], nothing is left to do for [n]: one of its
    steps was a reconciliation of [n] that did not come back and had accomplished the
    spec, and every state since is untouched. *)
Definition up_to_date (past : list LoopState) (s : LoopState) (n : NamespacedName) : Prop :=
  ∃ i m s1 s2, (past ++ [s]) !! i = Some s1 ∧ (past ++ [s]) !! S i = Some s2 ∧ completed n m s1 s2
    ∧ accomplished (cluster (lp_world s1)) m (cluster (lp_world s2))
    ∧ ∀ j s', (i < j)%nat → (past ++ [s]) !! j = Some s' → untouched n m s1 s2 s'.

Lemma untouched_kept n m s1 s2 w q w' q' m1 m2 :
  untouched n m s1 s2 (MkLoop w q) →
  stored (cluster w) KMongoDB n = Some m1 → stored (cluster w') KMongoDB n = Some m2 →
  V1.mdb_Spec m2 = V1.mdb_Spec m1 → V1.mdb_Status m2 = V1.mdb_Status m1 →
  watches_more (watched w) (watched w') → delivered operator_spec (cluster w) w' q' →
  n ∈ q' ∨ untouched n m s1 s2 (MkLoop w' q').
Proof.
  intros [(m' & Hm' & Hs & Hr & Hz) Hk] Hm1 Hm2 Es Est Hm Hd. cbn in *. rewrite Hm1 in Hm'. injection Hm' as <-.
  destruct (decide (n ∈ q')) as [Hq|Hq]; [by left|right]. split; cbn.
  - exists m2. rewrite Es, Est. by split_and!.
  - intros k Hw. destruct (Hk k Hw) as [Hst Hdep]. pose proof (Hm k n Hdep) as Hdep'. split; [|done]. rewrite <- Hst.
    destruct (delivered_secret _ _ _ _ Hd k) as [|(e & <- & He)]; [done|]. destruct Hq. apply He.
    cbn. by rewrite on_event_dependents.
Qed.

(** One more state. *)
Lemma lookup_grown (past : list (LoopState (W := W))) s s' j x :
  ((past ++ [s]) ++ [s']) !! j = Some x ↔ (past ++ [s]) !! j = Some x ∨ j = S (length past) ∧ x = s'.
Proof.
  rewrite lookup_app_Some, length_app. cbn. split.
  - intros [?|[Hj Hx]]; [by left|right]. apply list_lookup_singleton_Some in Hx as [Hz <-]. split; [lia|done].
  - intros [?|[-> ->]]; [by left|right]. split; [lia|]. by replace (_ - _)%nat with 0%nat by lia.
Qed.

Lemma up_to_date_kept past n w q w' q' m1 m2 :
  up_to_date past (MkLoop w q) n →
  stored (cluster w) KMongoDB n = Some m1 → stored (cluster w') KMongoDB n = Some m2 →
  V1.mdb_Spec m2 = V1.mdb_Spec m1 → V1.mdb_Status m2 = V1.mdb_Status m1 →
  watches_more (watched w) (watched w') → delivered operator_spec (cluster w) w' q' →
  n ∈ q' ∨ up_to_date (past ++ [MkLoop w q]) (MkLoop w' q') n.
Proof.
  intros (i & m & s1 & s2 & Hi1 & Hi2 & Hc & Ha & Hu) Hm1 Hm2 Es Est Hm Hd.
  assert (untouched n m s1 s2 (MkLoop w q)) as Hnow.
  { apply (Hu (length past)); [|by rewrite list_lookup_middle].
    apply lookup_lt_Some in Hi2. rewrite length_app in Hi2. cbn in Hi2. lia. }
  destruct (untouched_kept n m s1 s2 w q w' q' m1 m2 Hnow Hm1 Hm2 Es Est Hm Hd) as [|Hnext]; [by left|right].
  exists i, m, s1, s2. split_and!; [by apply lookup_grown; left..|done|done|].
  intros j s' Hj [Hs'|[-> ->]]%lookup_grown; [by apply (Hu j)|done].
Qed.

(** The invariant of the loop. *)
Definition loop_inv (past : list LoopState) (s : LoopState) : Prop :=
  keys_ok (cluster (lp_world s)) ∧
  ∀ n m, stored (cluster (lp_world s)) KMongoDB n = Some m → n ∈ lp_queue s ∨ up_to_date past s n.

Lemma started_inv past s : started s → loop_inv past s.
Proof. intros (Hk & _ & Hl). split; [done|]. intros n m Hm. left. apply Hl. by eexists. Qed.

Lemma environment_inv past w q w' q' :
  loop_inv past (MkLoop w q) → keys_ok (cluster w') → watched w' = watched w →
  statuses_kept (cluster w) (cluster w') → delivered operator_spec (cluster w) w' q' → q ⊆ q' →
  loop_inv (past ++ [MkLoop w q]) (MkLoop w' q').
Proof.
  intros [Hw Hi] Hw' Hwat Hst Hd Hq. split; [done|]. cbn. intros n m' Hm'.
  pose proof (delivered_resource _ _ _ _ Hd n) as Hn. rewrite Hm' in Hn.
  destruct (stored (cluster w) KMongoDB n) as [m|] eqn:Hm; [|by left].
  cbn in Hn. unfold OnlyOnSpecChange in Hn.
  destruct (decide (V1.mdb_Spec m = V1.mdb_Spec m')) as [Hs|Hs];
    [|left; apply Hn; by rewrite bool_decide_false].
  destruct (Hi n m Hm) as [Hin|Hrest]; [left; by apply Hq|].
  eapply up_to_date_kept; [exact Hrest|exact Hm|exact Hm'|done|by apply (Hst n)|by rewrite Hwat|done].
Qed.

(** Reconciling one resource writes no other. *)
Lemma Reconcile_other request n (w : W) r w' :
  keys_ok (cluster w) → Reconcile request w = (r, w') → n ≠ request →
  keys_ok (cluster w') ∧ stored (cluster w') KMongoDB n = stored (cluster w) KMongoDB n.
Proof.
  intros Hw E Hn. set (P := λ (k : kind) x, k = KMongoDB → x = request).
  assert (writes (W := W) P (Reconcile request) any) as HP.
  { apply writes_Reconcile_own. intros mdb <-. by split. }
  destruct (writes_run P _ _ _ _ _ HP Hw E) as [Hk Hu]. split; [done|]. apply Hu. intros HPn. by apply Hn, HPn.
Qed.

(** Once its reconciliation does not come back, a resource is up to date. *)
Lemma completed_accomplished n m s1 s2 :
  keys_ok (cluster (lp_world s1)) → completed n m s1 s2 →
  accomplished (cluster (lp_world s1)) m (cluster (lp_world s2)) ∧ untouched n m s1 s2 s2.
Proof.
  intros Hw [Hm _ (r & E & Hc)]. destruct r as [res|e|site]; [|done..]. cbn in Hc, E.
  apply orb_false_iff in Hc as [Hres _]. pose proof (Reconcile_keeps_specs n n _ _ _ Hw E) as Hs. unfold spec_at in Hs.
  assert (V1.NamespacedName_ m = n) as <- by exact (Hw _ _ _ Hm).
  destruct (Reconcile_found _ _ _ _ _ Hm E Hres) as (w1 & HC & Hv & E1). rewrite <- HC in *.
  pose proof (prepare_and_deploy_Ret m w1 res _ Hw E1 Hres Hv) as Hacc. split; [done|].
  destruct (done_recorded _ _ _ Hacc) as (m2 & Hm2 & Hrun & Hsize & _). split; cbn.
  - exists m2. rewrite Hm, Hm2 in Hs. injection Hs as Hs. split_and!; [done..|].
    by rewrite Hsize, (done_size _ _ _ Hacc).
  - intros k Hk. split; [done|]. rewrite <- HC in Hk. by apply (prepare_watches m w1 res).
Qed.

(** What it writes to resources leads to no request. *)
Lemma Reconcile_quiet request n q (w : W) r w' :
  keys_ok (cluster w) → Reconcile request w = (r, w') →
  match stored (cluster w) KMongoDB n, stored (cluster w') KMongoDB n with
  | Some old, Some new => For_UpdateFunc operator_spec old new = true → n ∈ q
  | None, None => True
  | _, _ => n ∈ (q : gset NamespacedName)
  end.
Proof.
  intros Hw E. pose proof (Reconcile_keeps_specs request n w r w' Hw E) as Hn. unfold spec_at in Hn.
  destruct (stored (cluster w) KMongoDB n), (stored (cluster w') KMongoDB n); try done.
  injection Hn as Hn. cbn. unfold OnlyOnSpecChange. by rewrite bool_decide_true.
Qed.

Lemma reconciled_inv past n w q r w' q' :
  loop_inv past (MkLoop w q) →
  n ∈ q → Reconcile n w = (r, w') → (∀ site, r ≠ Panic site) →
  delivered operator_spec (cluster w) w' q' → q ∖ {[n]} ⊆ q' → (comes_back r = true → n ∈ q') →
  loop_inv (past ++ [MkLoop w q]) (MkLoop w' q').
Proof.
  intros [Hw Hi] Hin E Hp Hd Hq Hb. cbn in Hw, Hi.
  assert (loop_step operator_spec (MkLoop w q) (MkLoop w' q')) as Hstep by by apply (Reconciled _ n w q r).
  split; cbn.
  - assert (writes (W := W) (λ _ _, True) (Reconcile n) any) as HP by (apply writes_Reconcile_own; by split).
    by destruct (writes_run _ _ _ _ _ _ HP Hw E).
  - intros n' m' Hm'. destruct (decide (n' = n)) as [->|Hn].
    + destruct (comes_back r) eqn:Hc; [left; by apply Hb|right].
      pose proof (Reconcile_keeps_specs n n w r w' Hw E) as Hs. unfold spec_at in Hs. rewrite Hm' in Hs.
      destruct (stored (cluster w) KMongoDB n) as [m|] eqn:Hm; [|done].
      assert (completed n m (MkLoop w q) (MkLoop w' q')) as Hcomp by (split; [done..|by exists r]).
      destruct (completed_accomplished _ _ (MkLoop w q) (MkLoop w' q') Hw Hcomp) as [Hacc Hu].
      exists (length past), m, (MkLoop w q), (MkLoop w' q').
      split_and!; [apply lookup_grown; left; by rewrite list_lookup_middle|apply lookup_grown; by right|done|done|].
      intros j s' Hj [Hlt%lookup_lt_Some|[_ ->]]%lookup_grown; [rewrite length_app in Hlt; cbn in Hlt; lia|done].
    + destruct (Reconcile_other n n' w r w' Hw E Hn) as [_ Hsame]. rewrite Hm' in Hsame.
      destruct (Hi n' m' (eq_sym Hsame)) as [Hin'|Hrest]; [left; set_solver|].
      eapply up_to_date_kept; [exact Hrest|exact (eq_sym Hsame)|exact Hm'|done|done| |exact Hd].
      apply (grows_run _ _ _ _ (grows_Reconcile n) E).
Qed.

(** [C2] The operator loses no work: in an execution of the loop - users and Kubernetes
    change the cluster, requests are reconciled, the process is restarted, in whatever
    order - every resource there is either has its request waiting, or is up to date: one
    of the steps of this execution was a reconciliation of it that did not come back and
    had accomplished ([accomplished]) its spec, and in no state since has its spec, its
    status, or a certificate or password that reconciliation depended on changed. *)
Theorem no_work_is_lost past s n m :
  execution operator_spec past s → stored (cluster (lp_world s)) KMongoDB n = Some m →
  n ∈ lp_queue s ∨ up_to_date past s n.
Proof.
  intros Hrun. enough (loop_inv past s) as [_ Hi] by apply Hi.
  induction Hrun as [s Hs|past s s' Hrun IH Hstep]; [by apply started_inv|].
  destruct Hstep as [w q w' q' Hw' Hwat Hk Hd Hq|i w q r w' q' Hin E Hp Hd Hq Hb|s s' Hs].
  - exact (environment_inv past w q w' q' IH Hw' Hwat Hk Hd Hq).
  - exact (reconciled_inv past i w q r w' q' IH Hin E Hp Hd Hq Hb).
  - by apply started_inv.
Qed.
End Facts.
