(* ===== verification/TotalFacts.v ===== *)
(** * Every reconciliation ends with its outcome in the status

    Total correctness of [Reconcile] against an API server that is reachable: whatever
    goes wrong in one of its steps, it returns, and what the status then says fits
    what the controller runtime is told. *)
From S2P Require Import Prelude GoStd K8s MergeByKey Merge Scale Json Codec Hashes Base64 ScramCreds ACTypes.
From S2P Require Import ACBuilder Types Kube KubeOps KubeFacts ACSecret Scram ScramFacts Validation Status Watch.
From S2P Require Import Agent SpecJson PodMods StsMods Construct Tls TlsFacts Reconciler Frames Safe ReconcilerFrames.
From S2P Require Import ConfigFacts SafeFacts ReconcilerFacts DeployFacts.
Local Open Scope Z_scope.

Section Facts.
Context {api : K8sApi} `{!Semver, !Objx, !Mergo, !Cast, !Stringprep, !StringprepOk, !Environ, !Quantities, !MapOrder, !StsSpecJson}.
Context {W : Type} `{!KubeClient W, !KubeLaws W, !StatusWritable W, !PatchOk W}.
Context `{!Entropy W, !EntropyOk W, !EntropyFrame W, !HasWatcher W, !WatcherFrame W}.
Context (rand_total : ∀ n (w : W), ∃ b w', rand_Read n w = (Ret b, w')).
Implicit Types mdb : V1.MongoDBCommunity.

(** The status fits the result: Running if the request is done with, and Pending or
    Failed if it comes back. *)
Definition outcome_recorded mdb (res : Result) (c : cluster_state) : Prop :=
  ∃ m, stored c KMongoDB (V1.NamespacedName_ mdb) = Some m ∧
    if Requeue res then V1.st_Phase (V1.mdb_Status m) = V1.Pending ∨ V1.st_Phase (V1.mdb_Status m) = V1.Failed
    else V1.st_Phase (V1.mdb_Status m) = V1.Running.

Definition ends mdb (m : IO W Result) : Prop :=
  ∀ w, keys_ok (cluster w) → ∃ res w', m w = (Ret res, w') ∧ outcome_recorded mdb res (cluster w').

Lemma ends_fail mdb msg : ends mdb (fail_with mdb msg).
Proof.
  intros w _. destruct (fail_with_healthy mdb msg w) as (w' & E & ((m & Hs & Hst) & _)).
  eexists _, _. split; [exact E|]. exists m. split; [exact Hs|]. cbn. right. by rewrite Hst.
Qed.
Lemma ends_pending mdb msg : ends mdb (pending_with mdb msg).
Proof.
  intros w _. destruct (status_Update_healthy mdb _ _ w (determine_pending Info msg)) as (w' & E & ((m & Hs & Hst) & _)).
  unfold pending_with. rewrite (bind_Ret _ _ _ _ _ E). eexists _, _. split; [reflexivity|]. exists m.
  unfold withPendingPhase in Hs, Hst. rewrite apply_phase in Hs, Hst. split; [exact Hs|]. cbn. left. by rewrite Hst.
Qed.

(** A step that does not panic either goes on or fails. *)
Lemma ends_or_fail {A} mdb text (step : IO W A) cont (P : kind → NamespacedName → Prop) (Q R : A → Prop) :
  writes P step Q → safe [] step R → (∀ a, Q a → R a → ends mdb (cont a)) → ends mdb (or_fail mdb text step cont).
Proof.
  intros Hf Hs Hc w Hw. unfold or_fail. destruct (step w) as [r w1] eqn:E.
  destruct (Hf _ _ _ Hw E) as (Hw1 & _ & HQ). destruct (Hs _ _ _ (data_ok_nil _) E) as [_ HR].
  destruct r as [a|e|s]; [| |done].
  - rewrite (bind_Ret _ _ _ _ _ (attempt_Ret _ _ _ _ E)). by apply Hc; [apply HQ| |].
  - rewrite (bind_Ret _ _ _ _ _ (attempt_Err _ _ _ _ E)). by apply ends_fail.
Qed.

Lemma attempt_total {A} (m : IO W A) Q w : safe [] m Q → ∃ r w', attempt m w = (Ret r, w').
Proof.
  intros Hm. unfold attempt. destruct (m w) as [[a|e|s] w'] eqn:E; [by eexists _, _..|].
  by destruct (Hm _ _ _ (data_ok_nil _) E).
Qed.

Lemma MongoURI_Ret mdb : 0 ≤ V1.DesiredReplicas mdb → ∃ uri, V1.MongoURI mdb = Ret uri.
Proof.
  intros Hd. unfold V1.MongoURI, V1.Hosts. unfold V1.DesiredReplicas in Hd.
  destruct (Z.ltb_spec (V1.spec_Members (V1.mdb_Spec mdb)) 0); [lia|]. by eexists.
Qed.

Lemma finish_total mdb (w : W) : 0 ≤ V1.DesiredReplicas mdb → ∃ res w', finish mdb w = (Ret res, w').
Proof.
  intros Hd. unfold finish. destruct (Scale.IsStillScaling (V1.scaler mdb)).
  - edestruct (status_Update_healthy mdb) as (w1 & E & _);
      [|rewrite (bind_Ret _ _ _ _ _ E); by eexists _, _].
    unfold withMessage. destruct (IsTransientMessage _); reflexivity.
  - destruct (MongoURI_Ret mdb Hd) as [uri ->]. rewrite (bind_Ret (lift (Ret uri)) _ w uri w eq_refl).
    edestruct (status_Update_healthy mdb) as (w1 & E & _);
      [|rewrite (bind_Ret _ _ _ _ _ E)]; [unfold withMessage; replace (IsTransientMessage "") with false by (vm_compute; reflexivity); reflexivity|].
    cbv beta iota. set (m := apply_options _ mdb).
    assert (V1.DesiredReplicas m = V1.DesiredReplicas mdb) as Hm by (subst m; unfold withMessage; by destruct (IsTransientMessage "")).
    destruct (attempt_total (updateConnectionStringSecrets m) any w1) as (r1 & w2 & E1);
      [apply safe_updateConnectionStringSecrets; by rewrite Hm|]. rewrite (bind_Ret _ _ _ _ _ E1).
    destruct (attempt_total (updateLastSuccessfulConfiguration m) any w2) as (r2 & w3 & E2);
      [apply safe_SetAnnotations|]. rewrite (bind_Ret _ _ _ _ _ E2). by eexists _, _.
Qed.

Lemma ends_finish mdb : 0 ≤ V1.DesiredReplicas mdb → ends mdb (finish mdb).
Proof.
  intros Hd w Hw. destruct (finish_total mdb w Hd) as (res & w' & E). exists res, w'. split; [done|].
  apply finish_Ret in E as [Hr (m & Hm & Hp & _)]; [|done]. exists m. split; [done|]. rewrite Hr, Hp.
  destruct (Scale.IsStillScaling _); auto.
Qed.

Lemma ends_prepare mdb : supported mdb → 0 ≤ V1.DesiredReplicas mdb → ends mdb (prepare_and_deploy mdb).
Proof.
  intros Hs Hd. set (P := in_namespace (V1.Namespace mdb)). unfold prepare_and_deploy.
  eapply (ends_or_fail _ _ _ _ P any any); [by apply writes_ensureService|apply safe_ensureService|]. intros _ _ _.
  eapply (ends_or_fail _ _ _ _ P any any); [apply writes_validateTLSConfig|apply safe_validateTLSConfig|].
  intros [] _ _; cbn [negb]; [|apply ends_pending].
  eapply (ends_or_fail _ _ _ _ P any any); [by apply writes_ensureTLSResources|apply safe_ensureTLSResources|]. intros _ _ _.
  eapply (ends_or_fail _ _ _ _ P any any); [apply writes_ensureUserResources|apply safe_ensureUserResources|].
  intros _ _ _. unfold deploy_and_finish.
  eapply (ends_or_fail _ _ _ _ P any any); [apply (writes_deploy P mdb (own_secrets_allowed _ _ (namespace_own_allowed mdb)) eq_refl)|by apply safe_deploy|].
  intros [] _ _; cbn [negb]; [|apply ends_pending].
  eapply (ends_or_fail _ _ _ _ P any any); [by apply writes_ResetUpdateStrategy|apply safe_ResetUpdateStrategy|].
  intros _ _ _. by apply ends_finish.
Qed.

(** [C10] Every reconciliation ends, with its outcome in the status: whichever calls to the
    API server fail - except writing the status - for a [supported] resource
    [Reconcile] returns.  If the resource could be read, the request comes back exactly
    while the status says Pending or Failed, and does not once it says Running; if it
    could not, the request comes back and nothing was changed. *)
Theorem Reconcile_total (request : NamespacedName) mdb (w : W) :
  keys_ok (cluster w) → stored (cluster w) KMongoDB request = Some mdb → supported mdb →
  ∃ res w', Reconcile request w = (Ret res, w')
    ∧ (outcome_recorded mdb res (cluster w') ∨ (res = ResultPkg.Failed ∧ cluster w' = cluster w)).
Proof.
  intros Hw Hm Hs. unfold Reconcile. destruct (Get KMongoDB request w) as [r w1] eqn:E.
  destruct (Get_law _ _ _ _ _ E) as [HC HR]. destruct r as [mdb'|e|s]; [| |done].
  - rewrite (bind_Ret _ _ _ _ _ (attempt_Ret _ _ _ _ E)). rewrite Hm in HR. injection HR as <-.
    assert (ends mdb (or_fail mdb "error validating new Spec: " (lift (reconciler_validateSpec mdb))
      (λ _, prepare_and_deploy mdb))) as He.
    { eapply (ends_or_fail _ _ _ _ nothing _ any); [eapply writes_lift|eapply safe_any, safe_lift, calm_validateSpec|].
      intros [] Hv _. apply ends_prepare; [done|]. by apply valid_members. }
    rewrite <- HC in Hw. destruct (He w1 Hw) as (res & w' & E' & Ho). exists res, w'. auto.
  - rewrite (bind_Ret _ _ _ _ _ (attempt_Err _ _ _ _ E)). destruct (IsNotFound e) eqn:Hnf.
    + specialize (HR eq_refl). congruence.
    + eexists _, w1. split; [reflexivity|]. right. by split.
Qed.
End Facts.
