(* ===== verification/UpgradeFacts.v ===== *)
(** * Changing the version

    While the MongoDB version of a running replica set changes, its pods wait to be
    deleted one by one by the version upgrade hook; how a reconciliation starts this,
    and how it ends. *)
From S2P Require Import Prelude GoStd K8s MergeByKey Merge Scale Json Codec Hashes Base64 ScramCreds ACTypes.
From S2P Require Import ACBuilder Types Kube KubeOps KubeFacts ACSecret Scram ScramFacts Validation Status Watch.
From S2P Require Import Agent SpecJson PodMods StsMods Construct Tls TlsFacts Reconciler Frames ReconcilerFrames.
From S2P Require Import ConfigFacts ReconcilerFacts DeployFacts.
Local Open Scope Z_scope.

Section Facts.
Context {api : K8sApi} `{!Semver, !Objx, !Mergo, !Cast, !Stringprep, !Environ, !Quantities, !MapOrder, !StsSpecJson}.
Context {W : Type} `{!KubeClient W, !KubeLaws W, !Entropy W, !EntropyFrame W, !HasWatcher W, !WatcherFrame W}.
Implicit Types mdb : V1.MongoDBCommunity.

Definition strategy_of (c : cluster_state) (n : NamespacedName) : option string :=
  option_map (λ s, us_Type (ss_UpdateStrategy (sts_Spec s))) (stored c KStatefulSet n).

(** The strategy is not one the user has fixed. *)
Definition operator_strategy mdb : Prop :=
  us_Type (ss_UpdateStrategy (V1.spec_StatefulSetConfiguration (V1.mdb_Spec mdb))) = "".

Lemma strategy_now_changing mdb :
  operator_strategy mdb → V1.IsChangingVersion mdb = true → strategy_now mdb = V1.OnDeleteStatefulSetStrategyType.
Proof. unfold strategy_now, operator_strategy, V1.GetUpdateStrategyType. intros -> ->. reflexivity. Qed.

(** [C12] An upgrade reaches the StatefulSet first: while the version changes, no member is
    removed and the user's own StatefulSet spec fixes no update strategy, no secret - and
    so not the config that makes the agents shut mongod down for the new version - changes
    before the StatefulSet was given the strategy that leaves its pods alone until they
    are deleted. *)
Theorem upgrade_sts_first mdb (w : W) r w' n :
  keys_ok (cluster w) → V1.IsChangingVersion mdb = true → operator_strategy mdb →
  Scale.IsScalingDown (V1.scaler mdb) = false →
  deployMongoDBReplicaSet mdb w = (r, w') →
  stored (cluster w') KSecret n ≠ stored (cluster w) KSecret n →
  ∃ w1, strategy_of (cluster w1) (V1.NamespacedName_ mdb) = Some V1.OnDeleteStatefulSetStrategyType
    ∧ deployAutomationConfig mdb w1 = (r, w').
Proof.
  intros Hw Hv Hop Hdown E Hn. apply deploy_steps in E as (found & w0 & HC & Hf & E).
  assert (in_order found mdb = false) as Ho.
  { unfold in_order. rewrite Hdown, Hv. destruct (_ && _); [done|]. by destruct (Scale.IsScalingUp _). }
  rewrite Ho in E. cbn [Functions.RunSequentially] in E. rewrite run_two_reversed in E.
  apply run_two in E as (r1 & w1 & E1 & [(_ & -> & _)|(-> & E2)]).
  - destruct Hn. rewrite <- HC in *.
    by apply (writes_run _ _ _ _ _ _ (writes_deployStatefulSet (of_kind KStatefulSet) mdb eq_refl) Hw E1).
  - exists w1. split; [|done]. apply deployStatefulSet_true in E1 as (sts & Hs & [_ Hst _] & _).
    unfold strategy_of. rewrite Hs. cbn. by rewrite Hst, strategy_now_changing.
Qed.

(** ** The end of an upgrade *)

(** [C13] An upgrade comes to an end: when a reconciliation that changes the version does
    not ask to come back, the StatefulSet is back to rolling updates, at the desired size,
    the config secret holds a config in which every process has the new version (unless a
    user's connection string secret has its name), and, if there was a StatefulSet with the
    probe before, the pods of all members report the version of that config, or none of
    them exists; the status says Running. *)
Theorem upgrade_completes (request : NamespacedName) mdb (w : W) res w' :
  keys_ok (cluster w) → stored (cluster w) KMongoDB request = Some mdb →
  V1.IsChangingVersion mdb = true → Reconcile request w = (Ret res, w') → Requeue res = false →
  (∃ sts, stored (cluster w') KStatefulSet request = Some sts
      ∧ us_Type (ss_UpdateStrategy (sts_Spec sts)) = V1.RollingUpdateStatefulSetStrategyType
      ∧ ss_Replicas (sts_Spec sts) = or_ptr (ss_Replicas (V1.spec_StatefulSetConfiguration (V1.mdb_Spec mdb)))
                                       (Some (int32 (V1.DesiredReplicas mdb))))
  ∧ (∃ ac desired, (ac = desired ∨ AreEqual desired ac = true)
      ∧ Forall (λ p, pr_Version p = V1.spec_Version (V1.mdb_Spec mdb)) (els (ac_Processes desired))
      ∧ (config_kept mdb → holds_config (cluster w') (config_key mdb) ac)
      ∧ (no_agents (cluster w) mdb ∨ agents_report (cluster w') mdb (ac_Version ac)))
  ∧ progress_recorded mdb V1.Running (cluster w').
Proof.
  intros Hw Hm Hv E Hres. assert (V1.NamespacedName_ mdb = request) as <- by exact (Hw _ _ _ Hm).
  destruct (Reconcile_found _ _ _ _ _ Hm E Hres) as (w1 & HC & Hval & E1). rewrite <- HC in *.
  destruct (prepare_and_deploy_Ret mdb w1 res w' Hw E1 Hres Hval) as [_ _ Hsize (sts & Hs & Hr & Hst) (ac & Hac & Hh) Hp].
  rewrite Hv in Hst. split_and!; [|destruct Hac as [(desired & Hd & Heq) Ha]|done].
  - exists sts. split_and!; [done..|]. rewrite Hr. unfold replicas_now. by rewrite Hsize.
  - exists ac, desired. split_and!; [done|apply Hd|done|done].
Qed.
End Facts.
