(* ===== verification/ScalingFacts.v ===== *)
(** * Reconciling until the desired size is reached

    One reconciliation moves the replica set by one member; here reconciliations of the
    same resource are put one after the other, with whatever happens to the rest of the
    cluster in between, up to the desired size. *)
From S2P Require Import Prelude GoStd K8s MergeByKey Merge Scale Json Codec Hashes Base64 ScramCreds ACTypes.
From S2P Require Import ACBuilder Types Kube KubeOps KubeFacts ACSecret Scram ScramFacts Validation Status Watch.
From S2P Require Import Agent SpecJson PodMods StsMods Construct Tls TlsFacts Reconciler Frames ReconcilerFrames.
From S2P Require Import ConfigFacts ReconcilerFacts DeployFacts.
Local Open Scope Z_scope.

Section Facts.
Context {api : K8sApi} `{!Semver, !Objx, !Mergo, !Cast, !Stringprep, !Environ, !Quantities, !MapOrder, !StsSpecJson}.
Context {W : Type} `{!KubeClient W, !KubeLaws W, !Entropy W, !EntropyFrame W, !HasWatcher W, !WatcherFrame W}.
Implicit Types mdb : V1.MongoDBCommunity.

(** The steps of a reconciliation before its last part; [true] if all of them succeed
    and the replica set is ready. *)
Definition until_ready mdb : IO W bool :=
  ensureService mdb ;;
  valid <- validateTLSConfig mdb ;;
  if negb valid then ret false else
  ensureTLSResources mdb ;;
  ensureUserResources mdb ;;
  ready <- deployMongoDBReplicaSet mdb ;;
  if negb ready then ret false else
  statefulset.ResetUpdateStrategy mdb ;; ret true.

Lemma or_fail_continues {A} mdb text (step : IO W A) cont (w : W) a w1 :
  step w = (Ret a, w1) → or_fail mdb text step cont w = cont a w1.
Proof. intros E. unfold or_fail. erewrite bind_Ret; [|by apply attempt_Ret]. done. Qed.

Lemma until_ready_finish mdb (w : W) w1 :
  until_ready mdb w = (Ret true, w1) → prepare_and_deploy mdb w = finish mdb w1.
Proof.
  unfold until_ready, prepare_and_deploy, deploy_and_finish. intros E.
  apply bind_Ret_inv in E as ([] & wa & Ea & E). erewrite or_fail_continues by exact Ea.
  apply bind_Ret_inv in E as (valid & wb & Eb & E). erewrite or_fail_continues by exact Eb.
  destruct valid; cbn [negb] in *; [|done].
  apply bind_Ret_inv in E as ([] & wc & Ec & E). erewrite or_fail_continues by exact Ec.
  apply bind_Ret_inv in E as ([] & wd & Ed & E). erewrite or_fail_continues by exact Ed.
  apply bind_Ret_inv in E as (ready & we & Ee & E). erewrite or_fail_continues by exact Ee.
  destruct ready; cbn [negb] in *; [|done].
  apply bind_Ret_inv in E as ([] & wf & Ef & [= ->]). by erewrite or_fail_continues by exact Ef.
Qed.

Lemma until_ready_keys mdb (w : W) b w1 : keys_ok (cluster w) → until_ready mdb w = (Ret b, w1) → keys_ok (cluster w1).
Proof.
  intros Hw E. assert (writes (W := W) (in_namespace (V1.Namespace mdb)) (until_ready mdb) any) as Hu;
    [|by apply (Hu w _ w1 Hw E)].
  assert (in_namespace (V1.Namespace mdb) KService (key_of KService (buildService mdb))) as Hservice by done.
  assert (in_namespace (V1.Namespace mdb) KSecret (V1.TLSOperatorSecretNamespacedName mdb)) as Hsecret by done.
  assert (in_namespace (V1.Namespace mdb) KStatefulSet (V1.NamespacedName_ mdb)) as Hsts by done.
  pose proof (writes_deploy (W := W) _ mdb (own_secrets_allowed _ _ (namespace_own_allowed mdb)) Hsts). pose proof (writes_ensureService _ mdb Hservice).
  pose proof (writes_validateTLSConfig (in_namespace (V1.Namespace mdb)) mdb).
  pose proof (writes_ensureTLSResources _ mdb Hsecret).
  pose proof (writes_ensureUserResources (in_namespace (V1.Namespace mdb)) mdb).
  pose proof (writes_ResetUpdateStrategy _ mdb Hsts). unfold until_ready. frames.
Qed.

Lemma Reconcile_ready request mdb (w : W) w0 w1 :
  Get KMongoDB request w = (Ret mdb, w0) → reconciler_validateSpec mdb = Ret () →
  until_ready mdb w0 = (Ret true, w1) → Reconcile request w = finish mdb w1.
Proof.
  intros Hg Hv Hr. unfold Reconcile. rewrite (bind_Ret _ _ _ _ _ (attempt_Ret _ _ _ _ Hg)).
  rewrite (or_fail_continues _ _ _ _ w0 () w0) by (unfold lift; by rewrite Hv). by apply until_ready_finish.
Qed.

(** [n] reconciliations of [request], with the spec [sp], that find the replica set
    ready: of each the resource it reads is valid, the steps up to the status succeed
    and the whole returns. In between, the rest of the world may change. *)
Inductive rounds (request : NamespacedName) (sp : V1.MongoDBCommunitySpec) : nat → W → W → Prop :=
  | rounds_nil w : rounds request sp 0 w w
  | rounds_more n w mdb w0 w1 res w2 w3 w4 :
      keys_ok (cluster w) → V1.mdb_Spec mdb = sp →
      Get KMongoDB request w = (Ret mdb, w0) → reconciler_validateSpec mdb = Ret () →
      until_ready mdb w0 = (Ret true, w1) →
      Reconcile request w = (Ret res, w2) →
      stored (cluster w3) KMongoDB request = stored (cluster w2) KMongoDB request →
      rounds request sp n w3 w4 → rounds request sp (S n) w w4.

Lemma round_progress request mdb (w : W) w0 w1 res w2 :
  keys_ok (cluster w) → Get KMongoDB request w = (Ret mdb, w0) → reconciler_validateSpec mdb = Ret () →
  until_ready mdb w0 = (Ret true, w1) → Reconcile request w = (Ret res, w2) →
  stored (cluster w) KMongoDB request = Some mdb
  ∧ ∃ m, stored (cluster w2) KMongoDB request = Some m
      ∧ V1.st_Phase (V1.mdb_Status m) = (if Scale.IsStillScaling (V1.scaler mdb) then V1.Pending else V1.Running)
      ∧ V1.CurrentReplicas m = Scale.next (V1.DesiredReplicas mdb) (V1.CurrentReplicas mdb).
Proof.
  intros Hw Hg Hv Hr E. pose proof (Get_law KMongoDB _ _ _ _ Hg) as [HC Hs]. split; [done|].
  rewrite (Reconcile_ready _ _ _ _ _ Hg Hv Hr) in E.
  assert (V1.NamespacedName_ mdb = request) as <- by exact (Hw _ _ _ Hs).
  rewrite <- HC in Hw. apply (until_ready_keys _ _ _ _ Hw) in Hr.
  destruct (finish_Ret mdb w1 res w2 Hr E) as (_ & m & Hm & Hp & Hc & _). by exists m.
Qed.

(** [n] rounds put the size [n] members nearer; the phase tells if it has arrived. *)
Lemma rounds_size request sp n (w w' : W) mdb :
  rounds request sp (S n) w w' → stored (cluster w) KMongoDB request = Some mdb →
  let d := V1.spec_Members sp in
  ∃ m, stored (cluster w') KMongoDB request = Some m
    ∧ V1.CurrentReplicas m = Nat.iter (S n) (Scale.next d) (V1.CurrentReplicas mdb)
    ∧ V1.st_Phase (V1.mdb_Status m) = (if V1.CurrentReplicas m =? d then V1.Running else V1.Pending).
Proof.
  revert w mdb. induction n as [|n IH]; intros w mdb Hrun Hm d;
    inversion Hrun as [|? ? mdb' w0 w1 res w2 w3 ? Hw Hsp Hg Hv Hr E Henv Hrest]; subst;
    destruct (round_progress _ _ _ _ _ _ _ Hw Hg Hv Hr E) as (Hs & m & Hm2 & Hp & Hc);
    rewrite Hm in Hs; injection Hs as ->; rewrite <- Henv in Hm2.
  - inversion Hrest; subst. exists m. split; [done|]. split; [done|]. rewrite Hp. unfold Scale.IsStillScaling.
    change (Scale.ReplicasThisReconciliation (V1.scaler mdb'))
      with (Scale.next (V1.DesiredReplicas mdb') (V1.CurrentReplicas mdb')).
    rewrite <- Hc. change (Scale.DesiredReplicas (V1.scaler mdb')) with d. by destruct (_ =? d).
  - destruct (IH _ _ Hrest Hm2) as (m' & Hm' & Hc' & Hp'). exists m'. split; [done|]. split; [|done].
    rewrite Hc', Hc. by rewrite (Nat.iter_succ_r (S n)).
Qed.

(** [C7] Scaling completes: a replica set of [c] members of which [d] are wanted is
    recorded as having exactly [d], and as Running, after [|d - c|] or more
    reconciliations that find it ready (at least one), and before that it is Pending and
    each of them has brought it one member nearer. *)
Theorem scaling_completes request sp n (w w' : W) mdb :
  rounds request sp (S n) w w' → stored (cluster w) KMongoDB request = Some mdb →
  let c := V1.CurrentReplicas mdb in
  let d := V1.spec_Members sp in
  0 < c → 0 < d → in_int64 c → in_int64 d →
  ∃ m, stored (cluster w') KMongoDB request = Some m
    ∧ Z.abs (V1.CurrentReplicas m - d) = Z.max 0 (Z.abs (d - c) - Z.of_nat (S n))
    ∧ V1.st_Phase (V1.mdb_Status m) = (if Z.abs (d - c) <=? Z.of_nat (S n) then V1.Running else V1.Pending).
Proof.
  intros Hrun Hm c d Hc Hd Hc64 Hd64. destruct (rounds_size _ _ _ _ _ _ Hrun Hm) as (m & Hm' & Hn & Hp).
  exists m. split; [done|]. fold c d in Hn, Hp. rewrite Hp, Hn.
  destruct (Scale.scaling_converges d c Hc Hd Hc64 Hd64) as (Hnear & _ & Hend).
  destruct (Z.leb_spec (Z.abs (d - c)) (Z.of_nat (S n))) as [Hle|Hlt].
  - rewrite (Hend (S n)) by done. rewrite Z.eqb_refl. split; [lia|done].
  - specialize (Hnear (S n)). split; [lia|]. destruct (Z.eqb_spec (Nat.iter (S n) (Scale.next d) c) d); [lia|done].
Qed.
End Facts.
