(* ===== verification/Runs.v ===== *)
(** * Concrete runs

    A world the reconciler can be run in - the in-memory cluster, a seed for the
    entropy source and the watcher - and runs of the reconciler at which the
    theorems about it apply. *)
From S2P Require Import Prelude GoStd K8s MergeByKey Merge Scale Json Codec Hashes Base64 ScramCreds ACTypes.
From S2P Require Import ACBuilder ACFacts ACTheorems ACUpgrade Types Kube KubeOps KubeFacts ACSecret Scram ScramFacts.
From S2P Require Import Validation Status Watch Agent SpecJson PodMods StsMods Construct ConstructFacts Tls TlsFacts.
From S2P Require Import Reconciler Frames ReconcilerFrames Safe ConfigFacts SafeFacts SettleFacts.
From S2P Require Import ReconcilerFacts WatchFacts DeployFacts TotalFacts UpgradeFacts ScalingFacts TriggerFacts SpecEq Manager Loop.
Local Open Scope Z_scope.

(** ** The world *)

Definition world : Type := @cluster_state string_api * (nat * ResourceWatcher).

#[export] Instance side_entropy : Entropy (nat * ResourceWatcher) := λ n, on_fst (rand_Read n).
#[export] Instance side_entropy_ok : EntropyOk (nat * ResourceWatcher).
Proof.
  split.
  - intros n w s. unfold rand_Read, side_entropy, on_fst. destruct (rand_Read n w.1) as [r x] eqn:E.
    pose proof (rand_Read_no_panic n w.1 s) as Hs. by rewrite E in Hs.
  - intros n w b w' [E _]%on_fst_inv. by apply rand_Read_length in E.
Qed.
#[export] Instance world_watcher : HasWatcher world := {|
  watched w := w.2.2;
  set_watched r w := (w.1, (w.2.1, r));
|}.
#[export] Instance world_watcher_frame : @WatcherFrame string_api world beside_client world_watcher.
Proof. by split. Qed.

Definition no_environ : Environ := λ _, None.
Definition text_quantities : @Quantities string_api := {| ParseQuantity s := Some s; zeroQuantity := "0" |}.
(** Every field of the source overrides. *)
Definition override_mergo : Mergo := λ dst src, Some (gm src ∪ gm dst).
#[export] Existing Instances string_api plain_semver dotted_objx override_mergo decimal_cast ascii_prep no_environ
  text_quantities canonical_order no_sts_json.

Definition run_Reconcile (w : world) : outcome Result * world := Reconcile (name_ "mdb") w.
Definition world_with (m : V1.MongoDBCommunity) : world := (put empty_cluster KMongoDB m, (7%nat, watch_New)).

Lemma keys_ok_empty : keys_ok (empty_cluster (api := string_api)).
Proof. intros k n o. unfold stored, empty_cluster. by rewrite lookup_empty. Qed.
Lemma keys_ok_world m : keys_ok (cluster (world_with m)).
Proof. apply keys_ok_put, keys_ok_empty. Qed.

(** A resource without users, whose replica set can be deployed at once. *)
Definition plain_mdb : V1.MongoDBCommunity :=
  sample_mdb <| V1.mdb_Spec ::= λ sp, sp <| V1.spec_Users := None |> |>.
Definition status_of (w : world) : option V1.MongoDBCommunityStatus :=
  option_map V1.mdb_Status (stored (cluster w) KMongoDB (name_ "mdb")).

(** ** Whole reconciliations *)

(** A secret of another namespace is there, and stays. *)
Definition other_secret : Secret :=
  secret.Build (secret.SetField "key" "value" (secret.SetNamespace "other" (secret.SetName "theirs" secret.Builder))).
Definition shared_world : world :=
  (put (put empty_cluster KMongoDB plain_mdb) KSecret other_secret, (7%nat, watch_New)).

Lemma Reconcile_isolation_witness :
  (run_Reconcile shared_world).1 = Ret ResultPkg.OK
  ∧ keys_ok (cluster (run_Reconcile shared_world).2)
  ∧ ∀ k n, nn_Namespace n ≠ "ns" →
      stored (cluster (run_Reconcile shared_world).2) k n = stored (cluster shared_world) k n.
Proof.
  split; [vm_compute; reflexivity|].
  apply (Reconcile_isolation (name_ "mdb") shared_world (run_Reconcile shared_world).1).
  - apply keys_ok_put, keys_ok_put, keys_ok_empty.
  - apply surjective_pairing.
Defined.

Lemma Reconcile_not_found_witness :
  stored (cluster (world_with plain_mdb)) KMongoDB (name_ "gone") = None
  ∧ ∃ w', Reconcile (name_ "gone") (world_with plain_mdb) = (Ret ResultPkg.OK, w')
      ∧ cluster w' = cluster (world_with plain_mdb).
Proof.
  assert (stored (cluster (world_with plain_mdb)) KMongoDB (name_ "gone") = None) as E by reflexivity.
  split; [exact E|]. apply (Reconcile_not_found (name_ "gone") (world_with plain_mdb)). exact E.
Defined.

(** As many arbiters as members. *)
Definition invalid_mdb : V1.MongoDBCommunity :=
  plain_mdb <| V1.mdb_Spec ::= λ sp, sp <| V1.spec_Arbiters := 3 |> |>.
Definition arbiters_error : string :=
  "number of arbiters specified (3) is greater or equal than the number of members in the replicaset (3). At least one member must not be an arbiter".

Lemma Reconcile_rejects_invalid_spec_witness :
  ∃ w', run_Reconcile (world_with invalid_mdb) = (Ret (MkResult true 0), w')
    ∧ status_written (cluster (world_with invalid_mdb))
        (invalid_mdb <| V1.mdb_Status := failed_status invalid_mdb ("error validating new Spec: " +:+ arbiters_error) |>)
        (cluster w').
Proof.
  apply (Reconcile_rejects_invalid_spec (name_ "mdb") invalid_mdb (TextError arbiters_error) (world_with invalid_mdb));
    vm_compute; reflexivity.
Defined.

(** The last configuration had TLS, the new spec has not. *)
Definition no_tls_mdb : V1.MongoDBCommunity :=
  plain_mdb <| V1.mdb_ObjectMeta ::= λ om,
    om <| om_Annotations := Some {[ lastSuccessfulConfiguration := marshal_spec tls_spec ]} |> |>.

Lemma Reconcile_keeps_tls_witness :
  ∃ w', run_Reconcile (world_with no_tls_mdb) = (Ret (MkResult true 0), w')
    ∧ status_written (cluster (world_with no_tls_mdb))
        (no_tls_mdb <| V1.mdb_Status := failed_status no_tls_mdb
           "error validating new Spec: TLS can't be set to disabled after it has been enabled" |>) (cluster w').
Proof.
  apply (Reconcile_keeps_tls (name_ "mdb") no_tls_mdb tls_spec (world_with no_tls_mdb)); vm_compute; reflexivity.
Defined.

Lemma Reconcile_done_witness :
  (run_Reconcile (world_with plain_mdb)).1 = Ret ResultPkg.OK
  ∧ ((stored (cluster (world_with plain_mdb)) KMongoDB (name_ "mdb") = None
      ∧ cluster (run_Reconcile (world_with plain_mdb)).2 = cluster (world_with plain_mdb))
     ∨ ∃ mdb, stored (cluster (world_with plain_mdb)) KMongoDB (name_ "mdb") = Some mdb
        ∧ accomplished (cluster (world_with plain_mdb)) mdb (cluster (run_Reconcile (world_with plain_mdb)).2)).
Proof.
  assert ((run_Reconcile (world_with plain_mdb)).1 = Ret ResultPkg.OK) as E by (vm_compute; reflexivity).
  split; [exact E|].
  apply (Reconcile_done (name_ "mdb") (world_with plain_mdb) ResultPkg.OK);
    [apply keys_ok_world | by apply run_pair | reflexivity].
Defined.

Lemma finish_records_progress_witness :
  Requeue ResultPkg.OK = Scale.IsStillScaling (V1.scaler plain_mdb)
  ∧ progress_recorded plain_mdb (if Scale.IsStillScaling (V1.scaler plain_mdb) then V1.Pending else V1.Running)
      (cluster (finish plain_mdb (world_with plain_mdb)).2).
Proof.
  apply (finish_records_progress plain_mdb (world_with plain_mdb) ResultPkg.OK);
    [apply keys_ok_world | apply run_pair; vm_compute; reflexivity].
Defined.

(** ** Scaling *)

(** The cluster after the first reconciliation, with another size asked for. *)
Definition resized (members : Z) : V1.MongoDBCommunity :=
  plain_mdb <| V1.mdb_Spec ::= λ sp, sp <| V1.spec_Members := members |> |>
            <| V1.mdb_Status ::= λ st, st <| V1.st_CurrentStatefulSetReplicas := 3 |> <| V1.st_CurrentMongoDBMembers := 3 |> |>.
Definition running_world : world := (run_Reconcile (world_with plain_mdb)).2.
Lemma keys_ok_running : keys_ok (cluster running_world).
Proof.
  apply (writes_run _ _ any (world_with plain_mdb) (run_Reconcile (world_with plain_mdb)).1 running_world
           (writes_Reconcile (name_ "mdb"))); [apply keys_ok_world | apply surjective_pairing].
Qed.

Lemma deployStatefulSet_spec_witness :
  (deployStatefulSet (resized 5) running_world).1 = Ret false
  ∧ ∃ sts n,
      cluster (deployStatefulSet (resized 5) running_world).2 = put (cluster running_world) KStatefulSet sts
      ∧ key_of KStatefulSet sts = name_ "mdb" ∧ ss_Replicas (sts_Spec sts) = Some n ∧ n = 4
      ∧ us_Type (ss_UpdateStrategy (sts_Spec sts)) = strategy_now (resized 5)
      ∧ false = sts_settled (resized 5) sts.
Proof.
  assert ((deployStatefulSet (resized 5) running_world).1 = Ret false) as E by (vm_compute; reflexivity).
  split; [exact E|]. apply (deployStatefulSet_spec (resized 5) running_world false);
    [reflexivity | unfold in_int32; cbn; lia.. | by apply run_pair].
Defined.

Definition run_deploy (m : V1.MongoDBCommunity) (w : world) : outcome bool * world := deployMongoDBReplicaSet m w.

(** From three members to two: there are no pods, so no agent has to be waited for. *)
Lemma scale_down_config_first_witness :
  Scale.IsScalingDown (V1.scaler (resized 2)) = true
  ∧ stored (cluster (run_deploy (resized 2) running_world).2) KStatefulSet (name_ "mdb")
    ≠ stored (cluster running_world) KStatefulSet (name_ "mdb")
  ∧ ∃ w1, config_deployed (cluster running_world) (resized 2) w1
      ∧ deployStatefulSet (resized 2) w1 = run_deploy (resized 2) running_world.
Proof.
  assert (stored (cluster (run_deploy (resized 2) running_world).2) KStatefulSet (name_ "mdb")
    ≠ stored (cluster running_world) KStatefulSet (name_ "mdb")) as Hne.
  { intros E. apply (f_equal (option_map (λ s, ss_Replicas (sts_Spec s)))) in E. vm_compute in E. discriminate E. }
  split; [reflexivity|]. split; [exact Hne|].
  destruct (run_deploy (resized 2) running_world) as [r w'] eqn:E.
  apply (scale_down_config_first (resized 2) running_world r w' (name_ "mdb"));
    [apply keys_ok_running | reflexivity | intros H; discriminate H | exact E | exact Hne].
Defined.

(** *** Two reconciliations, from three members to five *)

(** What the StatefulSet controller does in between: [n] replicas are up. *)
Definition replicas_up (n : Z) (w : world) : world :=
  match stored w.1 KStatefulSet (name_ "mdb") with
  | Some sts =>
      (put w.1 KStatefulSet
         (sts <| sts_Status ::= λ st, st <| sst_UpdatedReplicas := n |> <| sst_ReadyReplicas := n |> |>), w.2)
  | None => w
  end.
Lemma keys_ok_replicas_up n (w : world) : keys_ok (cluster w) → keys_ok (cluster (replicas_up n w)).
Proof. intros Hw. unfold replicas_up. destruct (stored _ _ _); [by apply keys_ok_put | done]. Qed.

(** The first of them: the StatefulSet is asked for four members, which are up, and the
    config with four follows. *)
Lemma scale_up_sts_first_witness :
  let grown := replicas_up 4 running_world in
  Scale.IsScalingUp (V1.scaler (resized 5)) = true
  ∧ stored (cluster (run_deploy (resized 5) grown).2) KSecret (name_ "mdb-config")
    ≠ stored (cluster grown) KSecret (name_ "mdb-config")
  ∧ ∃ w1 sts, stored (cluster w1) KStatefulSet (name_ "mdb") = Some sts
      ∧ ss_Replicas (sts_Spec sts) = Some 4 ∧ us_Type (ss_UpdateStrategy (sts_Spec sts)) = "RollingUpdate"
      ∧ statefulset.IsReady sts 4 = true
      ∧ deployAutomationConfig (resized 5) w1 = run_deploy (resized 5) grown.
Proof.
  intros grown.
  assert (stored (cluster (run_deploy (resized 5) grown).2) KSecret (name_ "mdb-config")
    ≠ stored (cluster grown) KSecret (name_ "mdb-config")) as Hne.
  { intros E. apply (f_equal (option_map (λ s, default "" (gm (s_Data s) !! ConfigKey)))) in E.
    vm_compute in E. discriminate E. }
  split; [reflexivity|]. split; [exact Hne|].
  destruct (run_deploy (resized 5) grown) as [r w'] eqn:E.
  destruct (scale_up_sts_first (resized 5) grown r w' (name_ "mdb-config")) as (w1 & sts & Hs & Hr & Hu & Hready & E1);
    [apply keys_ok_replicas_up, keys_ok_running | reflexivity | exact E | exact Hne |].
  exists w1, sts. split; [exact Hs|]. split; [exact Hr|]. split; [exact Hu|]. split; [|exact E1].
  apply Hready. discriminate.
Defined.

Definition asked_five : world := replicas_up 4 (put running_world.1 KMongoDB (resized 5), running_world.2).
Definition at_four : world := replicas_up 5 (run_Reconcile asked_five).2.
Definition at_five : world := (run_Reconcile at_four).2.
Lemma keys_ok_asked_five : keys_ok (cluster asked_five).
Proof. apply keys_ok_replicas_up, keys_ok_put, keys_ok_running. Qed.
Lemma keys_ok_at_four : keys_ok (cluster at_four).
Proof.
  apply keys_ok_replicas_up. apply (writes_run _ _ any asked_five (run_Reconcile asked_five).1 _
    (writes_Reconcile (name_ "mdb"))); [apply keys_ok_asked_five | apply surjective_pairing].
Qed.

(** The checks of one round, computed. *)
Definition round_ready (w : world) : bool :=
  match Get KMongoDB (name_ "mdb") w with
  | (Ret mdb, w0) =>
      match reconciler_validateSpec mdb, (until_ready mdb w0).1, (run_Reconcile w).1 with
      | Ret _, Ret true, Ret _ => true
      | _, _, _ => false
      end
  | _ => false
  end.
Definition spec_read (w : world) : option V1.MongoDBCommunitySpec :=
  match (Get KMongoDB (name_ "mdb") w).1 with Ret mdb => Some (V1.mdb_Spec mdb) | _ => None end.

Lemma round_computed sp n (w w3 w4 : world) :
  keys_ok (cluster w) → round_ready w = true → spec_read w = Some sp →
  stored (cluster w3) KMongoDB (name_ "mdb") = stored (cluster (run_Reconcile w).2) KMongoDB (name_ "mdb") →
  rounds (name_ "mdb") sp n w3 w4 → rounds (name_ "mdb") sp (S n) w w4.
Proof.
  unfold round_ready, spec_read. intros Hw Hr Hsp Henv Hrest.
  destruct (Get KMongoDB (name_ "mdb") w) as [[mdb|e|x] w0] eqn:Hg; [|done..]. injection Hsp as Hsp.
  destruct (reconciler_validateSpec mdb) as [[]|e|x] eqn:Hv; [|done..].
  destruct (until_ready mdb w0) as [[[]|e|x] w1] eqn:Hu; [|done..]. cbn [fst] in Hr.
  destruct (run_Reconcile w) as [[res|e|x] w2] eqn:E; [|done..].
  by eapply (rounds_more _ _ n w mdb w0 w1 res w2 w3 w4).
Qed.

Lemma scaling_completes_witness :
  rounds (name_ "mdb") (V1.mdb_Spec (resized 5)) 2 asked_five at_five
  ∧ ∃ m, stored (cluster at_five) KMongoDB (name_ "mdb") = Some m
      ∧ Z.abs (V1.CurrentReplicas m - 5) = 0 ∧ V1.st_Phase (V1.mdb_Status m) = V1.Running.
Proof.
  assert (rounds (name_ "mdb") (V1.mdb_Spec (resized 5)) 2 asked_five at_five) as Hrounds.
  { apply (round_computed _ 1 asked_five at_four at_five keys_ok_asked_five); [vm_compute; reflexivity..|].
    apply (round_computed _ 0 at_four at_five at_five keys_ok_at_four); [vm_compute; reflexivity..|]. constructor. }
  split; [exact Hrounds|].
  apply (scaling_completes (name_ "mdb") (V1.mdb_Spec (resized 5)) 1 asked_five at_five (resized 5) Hrounds);
    [vm_compute; reflexivity | by vm_compute.. | by split; vm_compute | by split; vm_compute].
Defined.

(** ** The automation config *)

Definition run_build (w : world) : outcome AutomationConfig * world := reconciler_buildAutomationConfig (resized 5) w.

(** Four members, since one is added at a time. *)
Lemma built_config_spec_witness :
  ∃ ac, (run_build running_world).1 = Ret ac ∧ length (els (ac_Processes ac)) = 4%nat ∧ ac_Version ac = 2
    ∧ config_of (resized 5) ac
    ∧ ∃ prev w1 auth content,
        previous_config (cluster running_world) (resized 5) prev
        ∧ cluster w1 = cluster running_world
        ∧ Enable emptyAuth (resized 5) w1 = (Ret auth, (run_build running_world).2) ∧ ac_Auth ac = auth
        ∧ ac_Version content = ac_Version prev
        ∧ ac = (if AreEqual prev content then content else content <| ac_Version := int64 (ac_Version prev + 1) |>).
Proof.
  destruct (run_build running_world) as [r w'] eqn:E.
  assert (∃ ac, r = Ret ac ∧ length (els (ac_Processes ac)) = 4%nat ∧ ac_Version ac = 2) as (ac & -> & Hl & Hv).
  { apply (f_equal fst) in E. vm_compute in E. rewrite <- E. eexists. split; [reflexivity|]. by split. }
  exists ac. split; [reflexivity|]. split; [exact Hl|]. split; [exact Hv|].
  apply (built_config_spec (resized 5) running_world ac w'). exact E.
Defined.

(** ** TLS and users *)

Definition tls_mdb : V1.MongoDBCommunity :=
  plain_mdb <| V1.mdb_Spec ::= λ sp, sp <| V1.spec_Security := V1.spec_Security tls_spec |> |>.
Definition ca_map : ConfigMap :=
  configmap.Build (configmap.SetField tlsCACertName "ca" (configmap.SetNamespace "ns" (configmap.SetName "ca" configmap.Builder))).
Definition cert_secret : Secret :=
  secret.Build (secret.SetField tlsSecretKeyName "key" (secret.SetField tlsSecretCertName "cert"
    (secret.SetNamespace "ns" (secret.SetName "tls" secret.Builder)))).
Definition tls_world : world :=
  (put (put (put empty_cluster KMongoDB tls_mdb) KConfigMap ca_map) KSecret cert_secret, (7%nat, watch_New)).

Lemma validateTLSConfig_spec_witness :
  let w' := (validateTLSConfig tls_mdb tls_world).2 in
  cluster w' = cluster tls_world
  ∧ (true = true ↔ V1.tls_enabled tls_mdb = false ∨ tls_configured (cluster tls_world) tls_mdb)
  ∧ (true = true → V1.tls_enabled tls_mdb = true →
     V1.NamespacedName_ tls_mdb ∈ dependents (watched w') (V1.TLSSecretNamespacedName tls_mdb)).
Proof.
  intros w'. refine (validateTLSConfig_spec tls_mdb tls_world true w' _). apply run_pair. vm_compute. reflexivity.
Defined.

Lemma tls_secret_matches_config_witness :
  let w1 := (ensureTLSSecret tls_mdb tls_world).2 in
  let w3 := (getTLSConfigModification tls_mdb w1).2 in
  ∃ m cert key s,
    (getTLSConfigModification tls_mdb w1).1 = Ret m
    ∧ secret_field (cluster tls_world) (name_ "tls") tlsSecretCertName = Some cert
    ∧ secret_field (cluster tls_world) (name_ "tls") tlsSecretKeyName = Some key
    ∧ stored (cluster w3) KSecret (name_ "mdb-server-certificate-key") = Some s
    ∧ s_Data s = Some {[ tlsOperatorSecretFileName (combineCertificateAndKey cert key)
                         := combineCertificateAndKey cert key ]}.
Proof.
  intros w1 w3. destruct (getTLSConfigModification tls_mdb w1) as [[m|e|x] w4] eqn:E;
    [|by apply (f_equal (λ r, match r.1 with Ret _ => true | _ => false end)) in E; vm_compute in E..].
  destruct (tls_secret_matches_config tls_mdb tls_world () w1 w1 m w3) as (cert & key & s & Hc & Hk & Hs & Hd & _).
  - reflexivity.
  - by apply (bool_decide_unpack _).
  - apply run_pair. vm_compute. reflexivity.
  - reflexivity.
  - unfold w3. by rewrite E.
  - exists m, cert, key, s. by split_and!.
Defined.

(** One user with a password. *)
Definition user_mdb : V1.MongoDBCommunity := sample_mdb.
Definition user_world : world :=
  (put (put empty_cluster KMongoDB user_mdb) KSecret password_secret, (7%nat, watch_New)).

Lemma ensureUserResources_spec_witness :
  ∃ r w', ensureUserResources user_mdb user_world = (r, w') ∧ cluster w' = cluster user_world
    ∧ (r = Ret () ↔ Forall (user_provided (cluster user_world) user_mdb) (V1.GetScramUsers user_mdb))
    ∧ (∀ site, r ≠ Panic site).
Proof. exact (ensureUserResources_spec user_mdb user_world). Defined.

Lemma updateConnectionStringSecrets_spec_witness :
  let w' := (updateConnectionStringSecrets user_mdb user_world).2 in
  Forall (connection_stored (cluster user_world) (cluster w') user_mdb) (V1.GetScramUsers user_mdb)
  ∧ agree_off (map (connection_key user_mdb) (V1.GetScramUsers user_mdb)) (cluster user_world) (cluster w').
Proof.
  intros w'. refine (updateConnectionStringSecrets_spec user_mdb user_world () w' _ _ _).
  - split_and!; [apply NoDup_singleton | by vm_compute.. | | apply NoDup_singleton].
    apply Forall_singleton. by apply (bool_decide_unpack _).
  - cbn. intros u u' ->%list_elem_of_singleton ->%list_elem_of_singleton. done.
  - apply run_pair. vm_compute. reflexivity.
Defined.

Lemma construction_idempotent_witness :
  let build := construct.BuildMongoDBReplicaSetStatefulSetModificationFunction (construct.owner plain_mdb) (V1.scaler plain_mdb) in
  construct.ow_DataVolumeName (construct.owner plain_mdb) ≠ construct.ow_LogsVolumeName (construct.owner plain_mdb)
  ∧ build (build emptyStatefulSet) = build emptyStatefulSet.
Proof.
  intros build. assert (construct.ow_DataVolumeName (construct.owner plain_mdb)
                        ≠ construct.ow_LogsVolumeName (construct.owner plain_mdb)) as Hne by done.
  split; [exact Hne|]. apply (construction_idempotent (construct.owner plain_mdb) (V1.scaler plain_mdb) emptyStatefulSet Hne).
Defined.

(** ** No panic *)

(** The world behind a server that answers a bad patch with an error. *)
Definition served_client : @KubeClient string_api world := {|
  cluster := @cluster _ _ beside_client;
  Get := Get; Create := Create; Update := Update; UpdateStatus := UpdateStatus; Delete := Delete;
  Patch k o d w := match Patch k o d w with
                   | (Panic site, w') => (Err (TextError site), w')
                   | answered => answered
                   end;
|}.
Lemma served_laws : @KubeLaws string_api world served_client.
Proof.
  split; [exact (@Get_law _ world beside_client _) | exact (@Create_law _ world beside_client _)
    | exact (@Update_law _ world beside_client _) | exact (@UpdateStatus_law _ world beside_client _)
    | exact (@Delete_law _ world beside_client _) |].
  intros k o d w r w' E. cbn in E. destruct (on_fst (mock_Patch k o d) w) as [x w1] eqn:E1.
  pose proof (@Patch_law _ world beside_client _ k o d w x w1 E1) as HL.
  by destruct x; injection E as <- <-.
Qed.
Lemma served_watcher : @WatcherFrame string_api world served_client world_watcher.
Proof. by split. Qed.
Lemma served_entropy : @EntropyFrame string_api world served_client _.
Proof. exact (@rand_Read_cluster _ world beside_client _ _). Qed.
Lemma served_patch : @PatchOk string_api world served_client.
Proof. intros k o d w s. cbn. by destruct (on_fst (mock_Patch k o d) w) as [[]]. Qed.
#[export] Instance ascii_prep_ok : @StringprepOk ascii_prep.
Proof. by intros s. Qed.
Lemma world_rand n (w : world) : ∃ b w', rand_Read n w = (Ret b, w').
Proof. eexists _, _. reflexivity. Qed.

Definition served_Reconcile (w : world) : outcome Result * world :=
  @Reconcile _ _ _ _ _ _ _ _ _ _ world served_client _ _ (name_ "mdb") w.

Lemma plain_supported : supported plain_mdb.
Proof. split; [done | by split; vm_compute | by split; [|split]; vm_compute | by split; [|split]; vm_compute | done]. Qed.

Lemma Reconcile_never_panics_witness :
  (served_Reconcile (world_with plain_mdb)).1 = Ret ResultPkg.OK
  ∧ ∀ site, (served_Reconcile (world_with plain_mdb)).1 ≠ Panic site.
Proof.
  split; [vm_compute; reflexivity|]. intros site.
  apply (@Reconcile_never_panics _ _ _ _ _ _ ascii_prep_ok _ _ _ _ world served_client served_laws served_patch _ _
           served_entropy _ served_watcher world_rand).
  intros mdb Hm. vm_compute in Hm. injection Hm as <-. exact plain_supported.
Defined.

Lemma served_status : @StatusWritable string_api world served_client.
Proof. exact (@UpdateStatus_any _ world beside_client _). Qed.

Lemma Reconcile_total_witness :
  supported plain_mdb
  ∧ ∃ res w', served_Reconcile (world_with plain_mdb) = (Ret res, w')
      ∧ (outcome_recorded plain_mdb res (@cluster _ world served_client w')
         ∨ (res = ResultPkg.Failed
            ∧ @cluster _ world served_client w' = @cluster _ world served_client (world_with plain_mdb))).
Proof.
  split; [exact plain_supported|].
  pose proof (@Reconcile_total _ _ _ _ _ _ ascii_prep_ok _ _ _ _ world served_client served_laws served_status served_patch _ _
    served_entropy _ served_watcher world_rand (name_ "mdb") plain_mdb (world_with plain_mdb) (keys_ok_world plain_mdb)) as H.
  unfold served_Reconcile. apply H; [reflexivity | exact plain_supported].
Defined.

(** From five members to three, with the horizons of the three that stay: the config
    of this reconciliation has four members, and building it panics. *)
Definition shrunk_mdb : V1.MongoDBCommunity :=
  plain_mdb <| V1.mdb_Spec ::= λ sp, sp <| V1.spec_ReplicaSetHorizons := Some [∅; ∅; ∅] |> |>
            <| V1.mdb_Status ::= λ st, st <| V1.st_CurrentStatefulSetReplicas := 5 |> <| V1.st_CurrentMongoDBMembers := 5 |> |>.
Lemma scaling_down_with_horizons_panics :
  reconciler_validateSpec shrunk_mdb = Ret ()
  ∧ (run_Reconcile (world_with shrunk_mdb)).1 = Panic "index out of range".
Proof. split; vm_compute; reflexivity. Qed.

(** ** Successive reconciliations *)

(** *** The config settles *)

Definition run_ensure_config (m : V1.MongoDBCommunity) (w : world) : outcome AutomationConfig * world :=
  ensureAutomationConfig m w.
Definition credentials_world : world := (creds_world.1, (7%nat, watch_New)).
(** In between, the status is written, another secret appears, and the entropy source
    moves on. *)
Definition after_config : world :=
  (put (run_ensure_config scram_mdb credentials_world).2.1 KSecret other_secret, (99%nat, watch_New)).
Definition done_status : V1.MongoDBCommunityStatus :=
  (V1.mdb_Status scram_mdb) <| V1.st_Phase := V1.Running |> <| V1.st_CurrentMongoDBMembers := 3 |>.

Lemma keys_ok_credentials : keys_ok (cluster credentials_world).
Proof. apply keys_ok_put, keys_ok_empty. Qed.
Lemma keys_ok_after_config : keys_ok (cluster after_config).
Proof.
  apply keys_ok_put. change (keys_ok (cluster (run_ensure_config scram_mdb credentials_world).2)).
  apply (writes_run _ _ any credentials_world (run_ensure_config scram_mdb credentials_world).1 _
    (writes_ensureAutomationConfig _ scram_mdb (secrets_only scram_mdb)));
    [apply keys_ok_credentials | apply surjective_pairing].
Qed.
Lemma scram_mdb_apart : config_apart scram_mdb.
Proof.
  split; [split; [split|]| |done].
  - cbn. apply NoDup_singleton.
  - cbn. intros u u' ->%list_elem_of_singleton ->%list_elem_of_singleton. done.
  - cbn. intros u ->%list_elem_of_singleton. split; by apply (bool_decide_unpack _).
  - cbn. intros u ->%list_elem_of_singleton. done.
Qed.

Lemma config_settles_witness :
  ∃ ac, (run_ensure_config scram_mdb credentials_world).1 = Ret ac
    ∧ let again := run_ensure_config (touched scram_mdb done_status (Some {[ "seen" := "yes" ]})) after_config in
      again.1 = Ret ac ∧ cluster again.2 = cluster after_config.
Proof.
  assert (match (run_ensure_config scram_mdb credentials_world).1 with Ret ac => json_wf ac | _ => false end = true)
    as Hwf by (vm_compute; reflexivity).
  destruct (run_ensure_config scram_mdb credentials_world) as [[ac|e|s] w1] eqn:E;
    [|by apply (f_equal (λ r, match r.1 with Ret _ => true | _ => false end)) in E; vm_compute in E..].
  exists ac. split; [reflexivity|]. intros again. destruct again as [[ac'|e|s] w3] eqn:E';
    [|by apply (f_equal (λ r, match r.1 with Ret _ => true | _ => false end)) in E'; vm_compute in E'..].
  destruct (config_settles scram_mdb done_status (Some {[ "seen" := "yes" ]}) credentials_world after_config ac w1 ac' w3)
    as [-> HC]; [..|split; [reflexivity|exact HC]].
  - apply keys_ok_credentials.
  - apply keys_ok_after_config.
  - apply scram_mdb_apart.
  - exact Hwf.
  - vm_compute. discriminate.
  - exact E.
  - intros n Hn%config_input_namespace. unfold after_config. rewrite E. apply stored_put_other_key. intros <-. done.
  - reflexivity.
  - exact E'.
Defined.

Lemma connection_strings_name_servers_witness :
  ∃ ac, (reconciler_buildAutomationConfig plain_mdb (world_with plain_mdb)).1 = Ret ac
    ∧ V1.Hosts plain_mdb = Ret (map (λ p, host_port (pr_HostName p)) (els (ac_Processes ac))).
Proof.
  destruct (reconciler_buildAutomationConfig plain_mdb (world_with plain_mdb)) as [[ac|e|s] w'] eqn:E;
    [|by apply (f_equal (λ r, match r.1 with Ret _ => true | _ => false end)) in E; vm_compute in E..].
  exists ac. split; [reflexivity|].
  apply (connection_strings_name_servers plain_mdb (world_with plain_mdb) ac w' E); [by vm_compute | reflexivity | by left].
Defined.

(** *** Changes of a watched secret *)

#[export] Instance world_grows : @WatcherGrows string_api world _ _ _.
Proof.
  split.
  - intros k n w. cbn. unfold on_fst. by destruct (mock_Get k n w.1).
  - intros k o w. cbn. unfold on_fst. by destruct (mock_Create k o w.1).
  - intros k o w. cbn. unfold on_fst. by destruct (mock_Update k o w.1).
  - intros m w. cbn. unfold on_fst. by destruct ((mock_Update KMongoDB m ;; ret ()) w.1).
  - intros k o d w. cbn. unfold on_fst. by destruct (mock_Patch k o d w.1).
  - intros n w. unfold rand_Read, beside_entropy, on_snd. destruct (rand_Read n w.2) as [r y] eqn:E. cbn.
    unfold rand_Read, side_entropy in E. by apply on_fst_inv in E as [_ ->].
Qed.

Lemma keys_ok_tls_world : keys_ok (cluster tls_world).
Proof. apply keys_ok_put, keys_ok_put, keys_ok_put, keys_ok_empty. Qed.

(** The certificate is renewed after another resource has registered it too. *)
Definition renewed : Event := UpdateEvent (s_ObjectMeta cert_secret) (s_ObjectMeta cert_secret).
Definition later_watcher : ResourceWatcher := Watch (name_ "tls") (name_ "other") (watched (run_Reconcile tls_world).2).

Lemma secret_changes_requeue_witness :
  (run_Reconcile tls_world).1 = Ret ResultPkg.OK
  ∧ name_ "mdb" ∈ on_event later_watcher renewed.
Proof.
  assert ((run_Reconcile tls_world).1 = Ret ResultPkg.OK) as E by (vm_compute; reflexivity).
  split; [exact E|].
  apply (secret_changes_requeue (name_ "mdb") tls_mdb tls_world ResultPkg.OK (run_Reconcile tls_world).2).
  - apply keys_ok_tls_world.
  - reflexivity.
  - by apply run_pair.
  - reflexivity.
  - apply watches_more_Watch.
  - left. by split.
Defined.

(** *** Scaling down with TLS *)

(** The replica set with the certificate goes from three members to two. *)
Definition tls_shrinking : V1.MongoDBCommunity :=
  tls_mdb <| V1.mdb_Spec ::= λ sp, sp <| V1.spec_Members := 2 |> |>
    <| V1.mdb_Status ::= λ st, st <| V1.st_CurrentStatefulSetReplicas := 3 |> <| V1.st_CurrentMongoDBMembers := 3 |> |>.
Definition tls_running : world := replicas_up 2 (run_Reconcile tls_world).2.
Lemma keys_ok_tls_running : keys_ok (cluster tls_running).
Proof.
  apply keys_ok_replicas_up.
  apply (writes_run _ _ any tls_world (run_Reconcile tls_world).1 _ (writes_Reconcile (name_ "mdb")));
    [apply keys_ok_tls_world | apply surjective_pairing].
Qed.

(** The StatefulSet has two replicas before the config has two members. *)
Lemma tls_sts_first_witness :
  Scale.IsScalingDown (V1.scaler tls_shrinking) = true
  ∧ ∃ w1, sts_deployed (cluster w1) tls_shrinking
      ∧ deployAutomationConfig tls_shrinking w1 = run_deploy tls_shrinking tls_running.
Proof.
  split; [reflexivity|].
  assert (stored (cluster (run_deploy tls_shrinking tls_running).2) KSecret (name_ "mdb-config")
    ≠ stored (cluster tls_running) KSecret (name_ "mdb-config")) as Hne.
  { intros E. apply (f_equal (option_map (λ s, default "" (gm (s_Data s) !! ConfigKey)))) in E.
    vm_compute in E. discriminate E. }
  assert (is_Some (stored (cluster tls_running) KStatefulSet (name_ "mdb"))) as Hs.
  { apply (bool_decide_unpack _). vm_compute. exact I. }
  destruct (run_deploy tls_shrinking tls_running) as [r w'] eqn:E.
  apply (tls_sts_first tls_shrinking tls_running r w' (name_ "mdb-config"));
    [apply keys_ok_tls_running | reflexivity | exact Hs | exact E | exact Hne].
Defined.

(** *** A new version *)

Definition upgrading_mdb : V1.MongoDBCommunity :=
  (resized 3) <| V1.mdb_Spec ::= λ sp, sp <| V1.spec_Version := "4.4.0" |> |>
    <| V1.mdb_ObjectMeta ::= λ om, om <| om_Annotations := Some {[ V1.LastAppliedMongoDBVersion := "4.2.6" ]} |> |>.
Definition upgrading_world : world := (put running_world.1 KMongoDB upgrading_mdb, running_world.2).
Lemma keys_ok_upgrading : keys_ok (cluster upgrading_world).
Proof. apply keys_ok_put, keys_ok_running. Qed.

Lemma upgrade_sts_first_witness :
  stored (cluster (run_deploy upgrading_mdb running_world).2) KSecret (name_ "mdb-config")
    ≠ stored (cluster running_world) KSecret (name_ "mdb-config")
  ∧ ∃ w1, strategy_of (cluster w1) (name_ "mdb") = Some V1.OnDeleteStatefulSetStrategyType
      ∧ deployAutomationConfig upgrading_mdb w1 = run_deploy upgrading_mdb running_world.
Proof.
  assert (stored (cluster (run_deploy upgrading_mdb running_world).2) KSecret (name_ "mdb-config")
    ≠ stored (cluster running_world) KSecret (name_ "mdb-config")) as Hne.
  { intros E. apply (f_equal (option_map (λ s, default "" (gm (s_Data s) !! ConfigKey)))) in E.
    vm_compute in E. discriminate E. }
  split; [exact Hne|]. destruct (run_deploy upgrading_mdb running_world) as [r w'] eqn:E.
  apply (upgrade_sts_first upgrading_mdb running_world r w' (name_ "mdb-config"));
    [apply keys_ok_running | reflexivity | reflexivity | reflexivity | exact E | exact Hne].
Defined.

Lemma upgrade_completes_witness :
  let last := cluster (run_Reconcile upgrading_world).2 in
  (run_Reconcile upgrading_world).1 = Ret ResultPkg.OK
  ∧ (∃ sts, stored last KStatefulSet (name_ "mdb") = Some sts
      ∧ us_Type (ss_UpdateStrategy (sts_Spec sts)) = "RollingUpdate" ∧ ss_Replicas (sts_Spec sts) = Some 3)
  ∧ (∃ ac desired, (ac = desired ∨ AreEqual desired ac = true)
      ∧ Forall (λ p, pr_Version p = "4.4.0") (els (ac_Processes desired))
      ∧ holds_config last (name_ "mdb-config") ac
      ∧ agents_report last upgrading_mdb (ac_Version ac))
  ∧ progress_recorded upgrading_mdb V1.Running last.
Proof.
  intros last. assert ((run_Reconcile upgrading_world).1 = Ret ResultPkg.OK) as E by (vm_compute; reflexivity).
  split; [exact E|].
  destruct (upgrade_completes (name_ "mdb") upgrading_mdb upgrading_world ResultPkg.OK (run_Reconcile upgrading_world).2)
    as (Hs & (ac & desired & Heq & Hv & Hh & Hr) & Hp);
    [apply keys_ok_upgrading | reflexivity | reflexivity | by apply run_pair | reflexivity |].
  clear E. subst last. revert Hs Hh Hr Hp. generalize (cluster (run_Reconcile upgrading_world).2).
  intros last Hs Hh Hr Hp.
  assert (config_kept upgrading_mdb) as Hkept by (intros u Hu; change (u ∈ []) in Hu; by apply elem_of_nil in Hu).
  assert (no_agents (cluster upgrading_world) upgrading_mdb → False) as Hagents.
  { intros Hno. unfold no_agents in Hno. vm_compute in Hno. discriminate Hno. }
  split; [exact Hs|]. split; [|exact Hp]. exists ac, desired. split; [exact Heq|]. split; [exact Hv|].
  split; [exact (Hh Hkept)|]. destruct Hr as [Hno|Hr]; [destruct (Hagents Hno) | exact Hr].
Defined.

(** *** The operator's own writes *)

#[export] Instance world_spec_kept : SpecKept (api := string_api) world.
Proof.
  split.
  - intros m w w' E _. apply on_fst_inv in E as [E _]. unfold bind, mock_Update in E.
    assert (put w.1 KMongoDB m = w'.1) as HC by (by injection E).
    unfold spec_at. change (cluster w') with w'.1. rewrite <- HC, stored_put. by destruct (decide _) as [|[]].
  - intros m anns w w' E _. apply on_fst_inv in E as [E _]. unfold mock_Patch in E.
    destruct (parse_json _ ≫= of_json); [|done].
    destruct (apply_patches _ _) as [a| |]; [|done..].
    assert (put w.1 KMongoDB (set_annotations KMongoDB m a) = w'.1) as HC by (by injection E).
    unfold spec_at. change (cluster w') with w'.1. rewrite <- HC, stored_put. by destruct (decide _) as [|[]].
Qed.

Lemma Reconcile_not_triggered_witness :
  ∃ after, stored (cluster (run_Reconcile upgrading_world).2) KMongoDB (name_ "mdb") = Some after
    ∧ V1.st_Phase (V1.mdb_Status after) = V1.Running
    ∧ OnlyOnSpecChange upgrading_mdb after = false.
Proof.
  assert (option_map (λ m, V1.st_Phase (V1.mdb_Status m))
    (stored (cluster (run_Reconcile upgrading_world).2) KMongoDB (name_ "mdb")) = Some V1.Running) as Hp
    by (vm_compute; reflexivity).
  assert (stored (cluster upgrading_world) KMongoDB (name_ "mdb") = Some upgrading_mdb) as Hb by reflexivity.
  assert (∀ o c, o = Some upgrading_mdb →
    option_map (λ m, V1.st_Phase (V1.mdb_Status m)) (stored c KMongoDB (name_ "mdb")) = Some V1.Running →
    match o, stored c KMongoDB (name_ "mdb") with
    | Some before, Some after => OnlyOnSpecChange before after = false
    | None, None => True
    | _, _ => False
    end → ∃ after, stored c KMongoDB (name_ "mdb") = Some after ∧ V1.st_Phase (V1.mdb_Status after) = V1.Running
            ∧ OnlyOnSpecChange upgrading_mdb after = false) as Hgen.
  { intros o c ->. destruct (stored c KMongoDB (name_ "mdb")) as [after|]; [|done]. intros Hst Ho. exists after.
    split; [done|]. split; [by injection Hst | exact Ho]. }
  apply (Hgen _ _ Hb Hp), (Reconcile_not_triggered (name_ "mdb") (name_ "mdb") upgrading_world (run_Reconcile upgrading_world).1
    (run_Reconcile upgrading_world).2); [apply keys_ok_upgrading | apply surjective_pairing].
Defined.

(** *** The loop *)

(** The process starts in the world with the certificate, reconciles the one resource
    there is, and its queue is empty. *)
Definition tls_start : LoopState := MkLoop tls_world {[name_ "mdb"]}.
Definition tls_settled : LoopState := MkLoop (run_Reconcile tls_world).2 ∅.

Lemma tls_started : started tls_start.
Proof.
  split; [apply keys_ok_tls_world|]. split; [reflexivity|]. intros n [m Hm].
  change (stored (put (put (put empty_cluster KMongoDB tls_mdb) KConfigMap ca_map) KSecret cert_secret) KMongoDB n = Some m) in Hm.
  rewrite !stored_put_other_kind, stored_put in Hm by done.
  destruct (decide (key_of KMongoDB tls_mdb = n)) as [<-|]; [by apply elem_of_singleton | done].
Qed.

Lemma tls_watched : watched (run_Reconcile tls_world).2 = MkResourceWatcher {[name_ "tls" := [name_ "mdb"]]}.
Proof. vm_compute. reflexivity. Qed.
Lemma tls_certificate_same :
  stored (cluster (run_Reconcile tls_world).2) KSecret (name_ "tls") = stored (cluster tls_world) KSecret (name_ "tls").
Proof. vm_compute. reflexivity. Qed.
Lemma tls_outcome : (run_Reconcile tls_world).1 = Ret ResultPkg.OK.
Proof. vm_compute. reflexivity. Qed.

Lemma tls_delivered : delivered operator_spec (cluster tls_world) (run_Reconcile tls_world).2 ∅.
Proof.
  split.
  - intros n. apply (Reconcile_quiet (name_ "mdb") n ∅ tls_world (run_Reconcile tls_world).1);
      [apply keys_ok_tls_world | apply surjective_pairing].
  - intros k. destruct (decide (k = name_ "tls")) as [->|Hk]; [left; apply tls_certificate_same|right].
    pose (e := DeleteEvent (emptyMeta <| om_Name := nn_Name k |> <| om_Namespace := nn_Namespace k |>)).
    assert (event_key e = k) as He by (by destruct k). exists e. split; [exact He|]. intros n Hn.
    change (n ∈ on_event (watched (run_Reconcile tls_world).2) e) in Hn. rewrite on_event_dependents, He, tls_watched in Hn.
    change (n ∈ default [] (({[name_ "tls" := [name_ "mdb"]]} : gmap NamespacedName (list NamespacedName)) !! k)) in Hn.
    rewrite lookup_singleton_ne in Hn by congruence. by apply elem_of_nil in Hn.
Qed.

Lemma tls_execution : execution operator_spec [tls_start] tls_settled.
Proof.
  apply (Went operator_spec []); [apply Began, tls_started|].
  eapply (Reconciled operator_spec (name_ "mdb") tls_world _ (run_Reconcile tls_world).1).
  - by apply elem_of_singleton.
  - apply surjective_pairing.
  - intros site. rewrite tls_outcome. discriminate.
  - apply tls_delivered.
  - set_solver.
  - rewrite tls_outcome. discriminate.
Qed.

(** Nothing waits: it is up to date. *)
Lemma no_work_is_lost_witness :
  is_Some (stored (cluster (lp_world tls_settled)) KMongoDB (name_ "mdb"))
  ∧ up_to_date [tls_start] tls_settled (name_ "mdb").
Proof.
  assert (is_Some (stored (cluster (lp_world tls_settled)) KMongoDB (name_ "mdb"))) as Hm.
  { apply (bool_decide_unpack _). vm_compute. exact I. }
  split; [exact Hm|]. destruct Hm as [m Hm].
  destruct (no_work_is_lost [tls_start] tls_settled (name_ "mdb") m tls_execution Hm) as [Hq|Hu]; [|exact Hu].
  change (name_ "mdb" ∈ (∅ : gset NamespacedName)) in Hq. destruct (not_elem_of_empty _ Hq).
Defined.
